(* ===== verification/_CoqProject ===== *)
-Q . S2P
Prelude.v
PyText.v
Float64.v
Ranking.v
Chunks.v
Splitter.v
Models.v
Rbac.v
Permissions.v
Dedupe.v
CircuitBreaker.v
Retrieval.v
Search.v
Store.v
Drafts.v
DraftLog.v
SourceAcl.v
CloudSync.v
CloudWalk.v
CloudFacts.v
Candidates.v
Approve.v
ReviewSweeps.v
DraftLife.v
Articles.v
SyncQueue.v
Outbox.v
MailQueue.v
Identity.v
Sessions.v
Credentials.v
AccessTokens.v
UserAdmin.v
RoleAdmin.v
Invitations.v
UserCreate.v
DeptAdmin.v
