(* ===== verification/Prelude.v ===== *)
(** * Verification library for the QNSC knowledge-base backend

    The backend keeps the articles of several companies (a company is the domain of its
    users' addresses), lets documents become articles through a review workflow, walks cloud
    connectors for new documents, and serves articles to people and to language-model tools.
    This library is a shallow embedding of its core services and handlers, with the theorems
    that make them correct. Everything is executable; the witnesses run it.

    ** How code becomes definitions

    A service method or endpoint that reads and writes the database is a computation of the
    session monad below: [Session] holds the durable database, the working copy with the
    flushed rows, and the events published; [commit] makes the working copy durable,
    [rollback_on_error] is the handler's except clause, [raise] an exception ([HTTPException]
    with its status and detail, [IntegrityError] of a named constraint, ...). A table is a
    [gmap] from row identifier to row; a relationship that SQLAlchemy loads eagerly is a field
    of the row or a lookup at the time of the call. Guards stand in the order of the code, so
    which error a bad request gets is part of the model.
    Identifiers, drawn tokens and the clock are arguments of the operation; [datetime] is in
    microseconds.

    ** Files

    - Prelude: this monad and its reasoning rules, record update, tables, sorting, [preserves]
      (a computation keeps an invariant of the database) and the hint databases [kb], [session].
    - PyText: Python's str methods over code points. Float64: Python's floats.
    - Chunks, Splitter: the cutting of texts (src/rag/chunker.py,
      src/domain/document_splitter.py).
    - Models: the ORM rows shared by the services (src/models).
    - Rbac: AuthorizationService (src/domain/rbac.py): scopes, roles, the effective grants.
    - Permissions: PermissionService (src/domain/permissions.py) and the WHERE clause
      [_authorized_article_filters] (src/repositories/article.py).
    - Ranking: the pure steps from the queries of a search to its ranking. Dedupe: the collapse
      of copied passages (src/rag/dedupe.py). CircuitBreaker: when the cross-encoder is skipped
      (src/rag/cross_encoder.py). Retrieval: the conditions, legs and fusion of [hybrid_search]
      (src/repositories/chunk.py). Search: one search (src/domain/search_service.py).
    - Store: the tables of the review workflow and of the connectors, and the lookups on them.
    - Drafts, Candidates, Approve: GovernanceService (src/domain/governance.py): the draft
      state machine, assignment and rejection, the batch review of split documents, approval
      and publication. ReviewSweeps: the decisions made on top of them, by the rules of the
      approval agent (src/domain/approval_agent.py), for departments that publish without
      review (src/domain/department_auto_publish.py) and in a reviewer's batch
      (src/api/routers/governance.py). DraftLog: what it means that a log leads to a status. DraftLife: all of
      them, and the connector runs, as the steps of one transition relation.
    - SourceAcl: the access lists of the providers (src/domain/acl_auto.py and the access
      part of src/domain/cloud_sync.py). CloudSync: one change of a provider, then the scopes
      and runs of a walk (src/domain/cloud_sync.py); CloudWalk, CloudFacts: what they promise.
    - Articles: ArticleService (src/domain/articles.py) and its version history.
    - SyncQueue: the queue of connector walks (src/domain/sync_queue.py), with the statements
      of concurrent claims interleaved.
    - Outbox: domain events (src/domain/events.py, the event tasks of src/workers/tasks.py),
      interleaved with losses, duplicates and crashes.
    - MailQueue: the delivery of queued mail (src/workers/tasks.py, src/services/email.py).
    - Identity: accounts, roles and sessions as tables, the role bootstrap, tokens and the
      gate [get_current_user] (src/api/deps.py). PyJWT and bcrypt are the class [AuthEnv], what
      they document the class [AuthLaws], and an instance shows the laws can hold.
    - Sessions, Credentials: sign-in, refresh, passwords (src/api/routers/auth.py,
      account.py) and what they promise.
    - AccessTokens: personal access tokens (src/domain/access_tokens.py and its router).
    - UserAdmin, RoleAdmin, Invitations, UserCreate, DeptAdmin: the administration of accounts,
      roles and departments (src/api/routers/auth.py). Content names a department by id and by
      name, so [DeptAdmin] has the tables of both in one database.

    The theorems named in the properties carry a claim number; the others are the lemmas they
    rest on.

    ** What is shown

    - Publication: the exact effect of approval on an article, its version, its permissions,
      its provenance and the draft; all or nothing; at most once; a connector document never
      becomes public; the transition log of every reachable draft is a path of the state
      machine and [approved] is final.
    - Unattended decisions: the agent decides a draft only under the first rule in whose scope
      it is, which grants it, as its author; publication without review stays within the
      opted-out departments and leaves sensitive drafts alone; a document cannot close the
      envelope of its prompt; every version of a rule is kept; a batch reports every draft.
    - Connectors: a provider list only narrows who may read, a deleted file leaves the readers'
      sight with its drafts, a run is refused or ends in a recorded verdict, a failing revision
      is quarantined at its third failure, a scope walked to its end moves its cursor.
    - Reading: a deny decides, the provider ACL fails closed, no one reads another company's
      article without a global grant, the SQL predicate lists everything the policy lets a
      user view, and the effective grants are the maximum over the roles.
    - Search: whatever the models answer, every leg retrieves rows the reader's predicate
      admits, a search shows only passages the reader may view, and it answers when the models
      do not; what matches is found while the pool has room; merging copies, reranking and the
      extended search lose no passage and no source; the breaker neither floods the reranker
      nor locks it out.
    - History: every version an article has had is a snapshot, and an edit undone by a restore
      gives back the content.
    - Text: neither cutter loses a visible character; review candidates are exact, ordered
      slices; running text stays within a bound; the loop ends.
    - Events: an event is handed out at most six times and, with the worker, turned into work
      once; a due event is delivered by the next replay.
    - Mail: no mail is sent twice by completed batches, a failure that concerns every mail
      pauses the queue, every failing row is due again within an hour or dead.
    - Identity: a change of credentials ends every session and token issued before, a refresh
      token and a reset link work once, no one but a global manager hands out more authority
      than they hold, a deactivated account is out at the gate, a revoked token stays dead,
      the system roles are out of reach of the role endpoints, an account is created whole or
      not at all.
    - Departments: no call leaves a membership, owner, link or name that points to no
      department of the company; a rename changes no one's access, since names are labels
      (renaming all departments apart leaves every decision as it was).
    - Queue: however claims interleave, one walk per connector; bounded retries.
    - Deviations: theorems that exhibit where the code does not do what it says (the
      [findings] of the manifest).

    ** Conventions and bounds

    - What is not under src/ is a class or a variable of a section: the connector adapter and
      its answers ([CloudSync.Provider]), the Unicode tables and UUID texts of the access lists
      ([SourceAcl.AclEnv]), decimal digits ([Chunks.PyDigits]), the mail provider, PyJWT and
      bcrypt, NumPy and Unicode folding ([Dedupe.Passages]), text search and vector distance of
      PostgreSQL ([Retrieval.SearchEngine]), the models of a search ([Search.Questions]),
      the model the agent asks and the parser of its answer ([ReviewSweeps.Reviewer]).
    - A float is a binary64 of the Standard Library's SpecFloat, rounded as Python rounds;
      [number] says that one is not NaN.
    - After a rollback the rows loaded before are expired, and reading one raises; only the loops
      of [ReviewSweeps] read such rows, and there the model raises.
    - A walk uses one instant [now]; each batch of the queues, too.
    - A JSON column that the code mutates in place and assigns to itself is not written: the
      ORM compares the object with itself (the sessions are opened with expire_on_commit=False).
    - Recursion is structural, but for three loops with fuel: the follow-up queries of a search
      (the setting that bounds them), the scanning of addresses in
      [SourceAcl] (the text is the fuel: each turn consumes a character) and the splitting loop of
      [Splitter] ([Splitter.splitting_ends]: each turn takes a character).

    ** Not modelled, and why

    - Parsing of requests by pydantic, response shaping and cookies; the limiter of the
      endpoints is an argument (its answer).
    - [set_database_context] and the row-level-security policies of PostgreSQL: the model has
      the predicates of the code only. Listing order under a database collation is an argument
      of [list_users] and [list_departments]; that PostgreSQL and Python lower names alike is a
      hypothesis of the theorems on department names. E-mail domains are ASCII, as the validators of the payloads ensure.
    - Requests run one at a time, apart from the claims of the queue, the outbox and the mail
      batches; the sub-queries of one search run one after another. Row locks
      ([SELECT ... FOR UPDATE]) therefore do not appear elsewhere.
    - Work after a commit that swallows its errors: contradiction checks, metadata and entity
      extraction, digests; the indexing an event stands for is a parameter of the outbox.
    - The HTTP clients of the connectors and their administration, [suggest_department] (a
      string similarity shown to an administrator), [splitter_metrics] (a report).
    - Language models, embeddings, the answers built on them, document parsing, mail transport,
      metrics, migrations: third-party behaviour or pure input/output. Of a search, the lexical
      score of a passage, the aliases and rewordings of a question (src/rag) are parameters. *)

From Stdlib Require Export ZArith Lia.
From Stdlib Require Export Sorting.Sorted.
From Stdlib Require String Ascii.
From stdpp Require Export base gmap strings list fin_maps.

#[global] Open Scope Z_scope.

(** ** Automation shared by the files *)

Create HintDb kb.
Create HintDb session.

(** Case analysis on every test a definition branches on, with the equations
    substituted: the workhorse of the branch-by-branch proofs. *)
Ltac cases := repeat (case_match || case_decide || case_bool_decide); simplify_eq/=.

(** ** Record update *)

(** A record states its fields once ([Eta]); [r <| p := v |>] then rebuilds it
    with the field [p] replaced.  The setter is found by abstracting [p] out of
    the eta expansion. *)
Class Eta (R : Type) := eta_fields : R -> R.

Class Setter {R T : Type} (p : R -> T) := setter : (T -> T) -> R -> R.

Ltac derive_setter p :=
  match type of p with
  | ?R -> ?T =>
      let e := constr:(_ : Eta R) in
      let e' := eval hnf in e in
      let body := eval pattern p in e' in
      match body with
      | ?F _ =>
          let s := constr:(fun (f : T -> T) => F (fun r : R => f (p r))) in
          let s' := eval cbv beta in s in
          exact s'
      end
  end.

#[export] Hint Extern 0 (@Setter _ _ ?p) => derive_setter p : typeclass_instances.

Declare Scope update_scope.
Delimit Scope update_scope with upd.
Notation "r <| p := v |>" := (setter (p := p) (fun _ => v) r)
  (at level 1, left associativity, format "r  <| p  :=  v |>") : update_scope.
#[global] Open Scope update_scope.

(** ** Exceptions, outcomes and the database session *)

(** What the handlers raise.  An HTTPException carries its status code and its
    detail (the [code] of a structured detail). *)
Inductive exn :=
  | HTTPException (status : Z) (detail : string)
  | ValueError (msg : string)
  | IntegrityError (constraint : string)
  | AssertionError
  | RuntimeError (msg : string)
  | MultipleResultsFound
  | IndexError
  | AttributeError
  | ConnectorProviderError (message : list Z) (retryable : bool) (code : option string).

#[export] Instance exn_eq_dec : EqDecision exn.
Proof. solve_decision. Defined.

Inductive outcome (A : Type) :=
  | Return (a : A)
  | Raise (e : exn).
Arguments Return {A} a.
Arguments Raise {A} e.

(** A unit-of-work session: what is durable, what the session sees (flushed rows
    and mutated objects), and the events handed to the event bus. *)
Record session (D E : Type) := Session {
  committed : D;
  working : D;
  published : list E
}.
Arguments Session {D E} _ _ _.
Arguments committed {D E} _.
Arguments working {D E} _.
Arguments published {D E} _.

Definition open_session {D E} (d : D) : session D E := Session d d [].

(** The effect of the services: a computation that reads and writes the session
    and returns a value or raises.  The state survives an exception, so a commit
    made before it is not undone, as in the code. *)
Definition M (D E A : Type) := session D E -> outcome A * session D E.

Section Monad.
Context {D E : Type}.

#[export] Instance M_ret : MRet (M D E) := fun A a s => (Return a, s).
#[export] Instance M_bind : MBind (M D E) := fun A B k m s =>
  match m s with
  | (Return a, s') => k a s'
  | (Raise e, s') => (Raise e, s')
  end.

Definition raise {A} (e : exn) : M D E A := fun s => (Raise e, s).
(** Read the session's view of the database. *)
Definition query {A} (f : D -> A) : M D E A := fun s => (Return (f (working s)), s).
(** Change the session's view ([db.add], attribute assignment, [db.execute] of DML). *)
Definition write (f : D -> D) : M D E unit :=
  fun s => (Return tt, Session (committed s) (f (working s)) (published s)).
Definition commit : M D E unit :=
  fun s => (Return tt, Session (working s) (working s) (published s)).
Definition rollback : M D E unit :=
  fun s => (Return tt, Session (committed s) (committed s) (published s)).
Definition publish (e : E) : M D E unit :=
  fun s => (Return tt, Session (committed s) (working s) (published s ++ [e])).
(** [if not b: raise e] *)
Definition ensure (b : bool) (e : exn) : M D E unit := if b then mret tt else raise e.
(** [x = ...; if x is None: raise e] *)
Definition some_or {A} (o : option A) (e : exn) : M D E A :=
  match o with Some a => mret a | None => raise e end.
(** [try: m; except Exception: await db.rollback(); raise] *)
Definition rollback_on_error {A} (m : M D E A) : M D E A := fun s =>
  match m s with
  | (Return a, s') => (Return a, s')
  | (Raise e, s') => (Raise e, Session (committed s') (committed s') (published s'))
  end.

(** [try: m; except Exception as e: h e] *)
Definition catch {A} (m : M D E A) (h : exn -> M D E A) : M D E A := fun s =>
  match m s with
  | (Return a, s') => (Return a, s')
  | (Raise e, s') => h e s'
  end.

(** [for x in l: f x] *)
Fixpoint for_each {A} (l : list A) (f : A -> M D E unit) : M D E unit :=
  match l with
  | [] => mret tt
  | x :: l' => f x ;; for_each l' f
  end.

(** [\[await f(x) for x in l\]], the results in order *)
Fixpoint traverse {A B} (l : list A) (f : A -> M D E B) : M D E (list B) :=
  match l with
  | [] => mret []
  | x :: l' => y ← f x; ys ← traverse l' f; mret (y :: ys)
  end.
End Monad.

(** ** Laws of the session monad *)

Section Laws.
Context {D E : Type}.
Implicit Types s : session D E.

Lemma bind_return {A B} (m : M D E A) (k : A -> M D E B) s b s' :
  (m ≫= k) s = (Return b, s') ->
  exists a s1, m s = (Return a, s1) /\ k a s1 = (Return b, s').
Proof.
  unfold mbind, M_bind. destruct (m s) as [[a|e] s1] eqn:Hm; intros H.
  - eauto.
  - discriminate.
Qed.

Lemma bind_raise {A B} (m : M D E A) (k : A -> M D E B) s e s' :
  (m ≫= k) s = (Raise e, s') ->
  m s = (Raise e, s') \/ exists a s1, m s = (Return a, s1) /\ k a s1 = (Raise e, s').
Proof.
  unfold mbind, M_bind. destruct (m s) as [[a|e'] s1] eqn:Hm; intros H.
  - right. eauto.
  - left. by simplify_eq.
Qed.

Lemma ensure_return (b : bool) e s a s' :
  @ensure D E b e s = (Return a, s') -> b = true /\ s' = s.
Proof. destruct b; unfold ensure, raise, mret, M_ret; naive_solver. Qed.

Lemma ensure_raise (b : bool) e e' s s' :
  @ensure D E b e s = (Raise e', s') -> b = false /\ e' = e /\ s' = s.
Proof. destruct b; unfold ensure, raise, mret, M_ret; naive_solver. Qed.

Lemma some_or_return {A} (o : option A) e s a s' :
  @some_or D E A o e s = (Return a, s') -> o = Some a /\ s' = s.
Proof. destruct o; unfold some_or, raise, mret, M_ret; naive_solver. Qed.

Lemma query_return {A} (f : D -> A) s a s' :
  @query D E A f s = (Return a, s') -> f (working s) = a /\ s' = s.
Proof. unfold query. naive_solver. Qed.

(** Running a computation forward. *)
Lemma run_bind {A B} (m : M D E A) (k : A -> M D E B) s a s1 :
  m s = (Return a, s1) -> (m ≫= k) s = k a s1.
Proof. intros Hm. unfold mbind, M_bind. by rewrite Hm. Qed.

Lemma run_bind_raise {A B} (m : M D E A) (k : A -> M D E B) s e s1 :
  m s = (Raise e, s1) -> (m ≫= k) s = (Raise e, s1).
Proof. intros Hm. unfold mbind, M_bind. by rewrite Hm. Qed.

Lemma run_ensure {B} (b : bool) e (k : unit -> M D E B) s :
  b = true -> (ensure b e ≫= k) s = k tt s.
Proof. by intros ->. Qed.

Lemma run_some_or {A B} (o : option A) e (k : A -> M D E B) s a :
  o = Some a -> (some_or o e ≫= k) s = k a s.
Proof. by intros ->. Qed.

Lemma run_query {A B} (f : D -> A) (k : A -> M D E B) s :
  (query f ≫= k) s = k (f (working s)) s.
Proof. done. Qed.

(** ** Durability *)

(** [quiet m]: [m] never changes what is durable and publishes nothing. *)
Definition quiet {A} (m : M D E A) : Prop :=
  forall s, committed (m s).2 = committed s /\ published (m s).2 = published s.

(** [atomic m]: a run of [m] that raises has left the durable state alone and
    published nothing. *)
Definition atomic {A} (m : M D E A) : Prop :=
  forall s e s', m s = (Raise e, s') ->
    committed s' = committed s /\ published s' = published s.

(** [total m]: [m] never raises. *)
Definition total {A} (m : M D E A) : Prop :=
  forall s, exists a s', m s = (Return a, s').

(** [readonly m]: [m] leaves the session as it found it, whatever its outcome. *)
Definition readonly {A} (m : M D E A) : Prop := forall s, (m s).2 = s.

Lemma readonly_quiet {A} (m : M D E A) : readonly m -> quiet m.
Proof. intros Hm s. by rewrite Hm. Qed.
Lemma readonly_return {A} (m : M D E A) s a s' : readonly m -> m s = (Return a, s') -> s' = s.
Proof. intros Hm Hr. specialize (Hm s). by rewrite Hr in Hm. Qed.
Lemma readonly_ret {A} (a : A) : readonly (mret a).
Proof. done. Qed.
Lemma readonly_raise {A} e : readonly (@raise D E A e).
Proof. done. Qed.
Lemma readonly_query {A} (f : D -> A) : readonly (query f).
Proof. done. Qed.
Lemma readonly_ensure b e : readonly (ensure b e).
Proof. by destruct b. Qed.
Lemma readonly_some_or {A} (o : option A) e : readonly (some_or o e).
Proof. by destruct o. Qed.
Lemma readonly_bind {A B} (m : M D E A) (k : A -> M D E B) :
  readonly m -> (forall a, readonly (k a)) -> readonly (m ≫= k).
Proof.
  intros Hm Hk s. unfold mbind, M_bind. specialize (Hm s).
  destruct (m s) as [[a|e] s1]; cbn in *; [|done]. by rewrite Hk.
Qed.

(** [frame f m]: [m] leaves the part [f] of the database alone, in the session's view and,
    up to what the session already held, durably. *)
Definition frame {A B} (f : D -> B) (m : M D E A) : Prop := forall s,
  f (working (m s).2) = f (working s)
  /\ (f (committed (m s).2) = f (committed s) \/ f (committed (m s).2) = f (working s)).

Lemma frame_readonly {A B} (f : D -> B) (m : M D E A) : readonly m -> frame f m.
Proof. intros Hm s. rewrite Hm. auto. Qed.
Lemma frame_write {B} (f : D -> B) g : (forall d, f (g d) = f d) -> frame f (write g).
Proof. intros Hg s. cbn. rewrite Hg. auto. Qed.
Lemma frame_commit {B} (f : D -> B) : frame f commit.
Proof. intros s. cbn. auto. Qed.
Lemma frame_bind {A B C} (f : D -> C) (m : M D E A) (k : A -> M D E B) :
  frame f m -> (forall a, frame f (k a)) -> frame f (m ≫= k).
Proof.
  intros Hm Hk s. specialize (Hm s). unfold mbind, M_bind.
  destruct (m s) as [[a|e] s1]; cbn in *; [|done].
  destruct (Hk a s1) as [Hw Hc]. destruct Hm as [Hw1 Hc1]. intuition congruence.
Qed.
Lemma frame_for_each {A B} (f : D -> B) (l : list A) g :
  (forall x, frame f (g x)) -> frame f (for_each l g).
Proof.
  intros Hg. induction l as [|x l IH]; cbn; [by apply frame_readonly|]. by apply frame_bind.
Qed.

Lemma frame_traverse {A B C} (f : D -> C) (l : list A) (g : A -> M D E B) :
  (forall x, frame f (g x)) -> frame f (traverse l g).
Proof.
  intros Hg. induction l as [|x l IH]; cbn; [by apply frame_readonly|].
  apply frame_bind; [done|]. intros. apply frame_bind; [done|]. intros. by apply frame_readonly.
Qed.

(** An invariant of the session kept by every iteration holds after the loop. *)
Lemma for_each_invariant {A} (P : session D E -> Prop) (l : list A) f s x s' :
  (forall a s1 y s2, P s1 -> f a s1 = (Return y, s2) -> P s2) ->
  P s -> for_each l f s = (Return x, s') -> P s'.
Proof.
  intros Hf. revert s. induction l as [|a l IH]; intros s Hs Hr; cbn in Hr.
  - unfold mret, M_ret in Hr. by simplify_eq.
  - apply bind_return in Hr as (y & s1 & H1 & H2). eauto.
Qed.

Lemma quiet_ret {A} (a : A) : quiet (mret a).
Proof. done. Qed.
Lemma quiet_raise {A} e : quiet (@raise D E A e).
Proof. done. Qed.
Lemma quiet_query {A} (f : D -> A) : quiet (query f).
Proof. done. Qed.
Lemma quiet_write f : quiet (write f).
Proof. done. Qed.
Lemma quiet_ensure b e : quiet (ensure b e).
Proof. by destruct b. Qed.
Lemma quiet_some_or {A} (o : option A) e : quiet (some_or o e).
Proof. by destruct o. Qed.
Lemma quiet_bind {A B} (m : M D E A) (k : A -> M D E B) :
  quiet m -> (forall a, quiet (k a)) -> quiet (m ≫= k).
Proof.
  intros Hm Hk s. unfold mbind, M_bind. specialize (Hm s).
  destruct (m s) as [[a|e] s1]; cbn in *; [|done].
  specialize (Hk a s1). destruct Hm, Hk. split; congruence.
Qed.
Lemma quiet_if {A} (b : bool) (m1 m2 : M D E A) :
  quiet m1 -> quiet m2 -> quiet (if b then m1 else m2).
Proof. by destruct b. Qed.
Lemma quiet_for_each {A} (l : list A) f : (forall x, quiet (f x)) -> quiet (for_each l f).
Proof.
  intros Hf. induction l as [|x l IH]; cbn; [done|].
  apply quiet_bind; auto.
Qed.

Lemma quiet_traverse {A B} (l : list A) (f : A -> M D E B) :
  (forall x, quiet (f x)) -> quiet (traverse l f).
Proof.
  intros Hf. induction l as [|x l IH]; cbn; [done|].
  apply quiet_bind; [done|]. intros. apply quiet_bind; [done|]. intros. apply quiet_ret.
Qed.

Lemma atomic_quiet {A} (m : M D E A) : quiet m -> atomic m.
Proof. intros Hq s e s' H. specialize (Hq s). by rewrite H in Hq. Qed.
Lemma atomic_total {A} (m : M D E A) : total m -> atomic m.
Proof. intros Ht s e s' H. destruct (Ht s) as (? & ? & ?). congruence. Qed.
Lemma atomic_quiet_bind {A B} (m : M D E A) (k : A -> M D E B) :
  quiet m -> (forall a, atomic (k a)) -> atomic (m ≫= k).
Proof.
  intros Hm Hk s e s' [H|(a & s1 & H1 & H2)]%bind_raise.
  - by apply (atomic_quiet m Hm) in H.
  - apply Hk in H2 as [Hc Hp]. specialize (Hm s). rewrite H1 in Hm.
    destruct Hm. cbn in *. split; congruence.
Qed.
Lemma atomic_bind_total {A B} (m : M D E A) (k : A -> M D E B) :
  atomic m -> (forall a, total (k a)) -> atomic (m ≫= k).
Proof.
  intros Hm Hk s e s' [H|(a & s1 & H1 & H2)]%bind_raise; [by apply Hm in H|].
  destruct (Hk a s1) as (? & ? & ?). congruence.
Qed.
Lemma atomic_if {A} (b : bool) (m1 m2 : M D E A) :
  atomic m1 -> atomic m2 -> atomic (if b then m1 else m2).
Proof. by destruct b. Qed.
Lemma atomic_rollback_on_error {A} (m : M D E A) :
  atomic m -> atomic (rollback_on_error m).
Proof.
  intros Hm s e s'. unfold rollback_on_error.
  destruct (m s) as [[a|e1] s1] eqn:H; intros ?; simplify_eq/=.
  by apply Hm in H.
Qed.

(** [preserves P m]: run by a session opened on a database that satisfies [P], [m] leaves a
    durable database that satisfies it, whether it returns or raises. *)
Definition preserves (P : D -> Prop) {A} (m : M D E A) : Prop :=
  forall s, committed s = working s -> P (working s) -> P (committed (m s).2).

Lemma preserves_frame {A B} (P : D -> Prop) (f : D -> B) (m : M D E A) :
  (forall d d', f d' = f d -> P d -> P d') -> frame f m -> preserves P m.
Proof.
  intros Hext Hf s Hc Hok. destruct (Hf s) as [_ [H|H]]; apply (Hext _ _ H); [by rewrite Hc|done].
Qed.

Lemma preserves_atomic {A} (P : D -> Prop) (m : M D E A) :
  atomic m ->
  (forall s a s', m s = (Return a, s') -> P (working s) -> P (committed s')) ->
  preserves P m.
Proof.
  intros Ha Hr s Hc Hok. destruct (m s) as [[a|e] s'] eqn:Hm; cbn.
  - by eapply Hr.
  - apply Ha in Hm as [-> _]. by rewrite Hc.
Qed.

(** [keeps P m]: an invariant of the database, held by the session's view and durably, is
    still held durably however [m] ends, and by the view when [m] returns. After an exception
    only the durable half is promised, which is all a rollback needs. *)
Definition keeps (P : D -> Prop) {A} (m : M D E A) : Prop :=
  forall s, P (working s) -> P (committed s) ->
    P (committed (m s).2) /\ (forall a, (m s).1 = Return a -> P (working (m s).2)).

Lemma keeps_preserves P {A} (m : M D E A) : keeps P m -> preserves P m.
Proof. intros Hm s Hc Hok. apply Hm; [done|by rewrite Hc]. Qed.
Lemma keeps_readonly P {A} (m : M D E A) : readonly m -> keeps P m.
Proof. intros Hm s Hw Hc. specialize (Hm s). split; [by rewrite Hm|intros _ _; by rewrite Hm]. Qed.
Lemma keeps_write P f : (forall d, P d -> P (f d)) -> keeps P (write f).
Proof. intros Hf s Hw Hc. cbn. split; [exact Hc|intros _ _; by apply Hf]. Qed.
Lemma keeps_commit P : keeps P commit.
Proof. intros s Hw Hc. cbn. split; [exact Hw|intros _ _; exact Hw]. Qed.
Lemma keeps_publish P e : keeps P (publish e).
Proof. intros s Hw Hc. cbn. split; [exact Hc|intros _ _; exact Hw]. Qed.
Lemma keeps_bind P {A B} (m : M D E A) (k : A -> M D E B) :
  keeps P m -> (forall a, keeps P (k a)) -> keeps P (m ≫= k).
Proof.
  intros Hm Hk s Hw Hc. destruct (Hm s Hw Hc) as [Hc1 Hw1]. unfold mbind, M_bind.
  destruct (m s) as [[a|e] s1]; cbn in *; [|split; [done|intros ? [=]]].
  apply (Hk a s1); [by apply (Hw1 a)|done].
Qed.
Lemma keeps_for_each P {A} (l : list A) g : (forall x, keeps P (g x)) -> keeps P (for_each l g).
Proof.
  intros Hg. induction l as [|x l IH]; cbn; [by apply keeps_readonly|]. by apply keeps_bind.
Qed.
Lemma keeps_frame P {A B} (f : D -> B) (m : M D E A) :
  (forall d d', f d' = f d -> P d -> P d') -> frame f m -> keeps P m.
Proof.
  intros Hext Hf s Hw Hc. destruct (Hf s) as [Hfw [Hfc|Hfc]]; split;
    [by apply (Hext _ _ Hfc)|intros _ _; by apply (Hext _ _ Hfw)|by apply (Hext _ _ Hfc)|
     intros _ _; by apply (Hext _ _ Hfw)].
Qed.
Lemma keeps_atomic P {A} (m : M D E A) :
  atomic m ->
  (forall s a s', m s = (Return a, s') -> P (working s) -> P (committed s) ->
     P (working s') /\ P (committed s')) -> keeps P m.
Proof.
  intros Ha Hr s Hw Hc. destruct (m s) as [[a|e] s'] eqn:Hm; cbn.
  - destruct (Hr s a s' Hm Hw Hc) as [H1 H2]. split; [exact H2|intros _ _; exact H1].
  - apply Ha in Hm as [-> _]. split; [done|by intros ? [=]].
Qed.

Lemma total_ret {A} (a : A) : total (mret a).
Proof. intros s. by exists a, s. Qed.
Lemma total_query {A} (f : D -> A) : total (query f).
Proof. intros s. by eexists _, _. Qed.
Lemma total_write f : total (write f).
Proof. intros s. by eexists _, _. Qed.
Lemma total_commit : total commit.
Proof. intros s. by eexists _, _. Qed.
Lemma total_publish e : total (publish e).
Proof. intros s. by eexists _, _. Qed.
Lemma total_bind {A B} (m : M D E A) (k : A -> M D E B) :
  total m -> (forall a, total (k a)) -> total (m ≫= k).
Proof.
  intros Hm Hk s. destruct (Hm s) as (a & s1 & H). unfold mbind, M_bind.
  rewrite H. apply Hk.
Qed.
Lemma total_if {A} (b : bool) (m1 m2 : M D E A) :
  total m1 -> total m2 -> total (if b then m1 else m2).
Proof. by destruct b. Qed.
Lemma total_for_each {A} (l : list A) f : (forall x, total (f x)) -> total (for_each l f).
Proof.
  intros Hf. induction l as [|x l IH]; cbn; [apply total_ret|].
  apply total_bind; auto.
Qed.

Lemma keeps_query (P : D -> Prop) {A B} (f : D -> A) (k : A -> M D E B) :
  (forall d, P d -> keeps P (k (f d))) -> keeps P (query f ≫= k).
Proof. intros Hk s Hw Hc. exact (Hk (working s) Hw s Hw Hc). Qed.
(** An except clause that rolls back first *)
Lemma keeps_catch_rollback (P : D -> Prop) {A} (m : M D E A) (h : exn -> M D E A) :
  keeps P m -> (forall e, keeps P (h e)) -> keeps P (catch m (fun e => rollback ;; h e)).
Proof.
  intros Hm Hh s Hw Hc. destruct (Hm s Hw Hc) as [Hc1 Hw1]. unfold catch.
  destruct (m s) as [[a|e] s1]; cbn in *; [by split|]. by apply Hh.
Qed.
Lemma keeps_traverse (P : D -> Prop) {A B} (l : list A) (g : A -> M D E B) :
  (forall x, x ∈ l -> keeps P (g x)) -> keeps P (traverse l g).
Proof.
  induction l as [|x l IH]; intros Hg; cbn; [by apply keeps_readonly|].
  apply keeps_bind; [apply Hg; by left|]. intros y. apply keeps_bind; [apply IH; intros; apply Hg; by right|]. intros. by apply keeps_readonly.
Qed.
Lemma keeps_raise (P : D -> Prop) {A} e : keeps P (raise e : M D E A).
Proof. by apply keeps_readonly. Qed.
Lemma query_bind {A B} (f : D -> A) (k : A -> M D E B) s : (query f ≫= k) s = k (f (working s)) s.
Proof. done. Qed.
Lemma keeps_run (P : D -> Prop) {A} (m : M D E A) s o s' : keeps P m -> m s = (o, s') -> P (working s) -> P (committed s) ->
  P (committed s') /\ (forall a, o = Return a -> P (working s')).
Proof. intros Hm Hr Hw Hc. specialize (Hm s Hw Hc). by rewrite Hr in Hm. Qed.
End Laws.

#[export] Hint Resolve quiet_ret quiet_raise quiet_query quiet_write quiet_ensure
  quiet_some_or quiet_bind quiet_if quiet_for_each quiet_traverse : session.
#[export] Hint Resolve readonly_ret readonly_raise readonly_query readonly_ensure
  readonly_some_or readonly_bind : session.
#[export] Hint Resolve frame_readonly frame_commit frame_bind frame_for_each : session.
#[export] Hint Resolve total_ret total_query total_write total_commit total_publish
  total_bind total_if total_for_each : session.

(** Prove that a computation is quiet, or total, by its structure and the hints. *)
Ltac solve_quiet :=
  first
    [ solve [auto 3 with session]
    | apply quiet_bind; [solve_quiet | intros; solve_quiet]
    | match goal with
      | |- quiet (match ?x with _ => _ end) => destruct x; solve_quiet
      end ].
Ltac solve_readonly :=
  first
    [ solve [auto 3 with session]
    | apply readonly_bind; [solve_readonly | intros; solve_readonly]
    | match goal with
      | |- readonly (match ?x with _ => _ end) => destruct x; solve_readonly
      end ].
Ltac solve_frame :=
  first
    [ apply frame_readonly; solve [solve_readonly]
    | apply frame_commit
    | apply frame_write; solve [intros; reflexivity]
    | apply frame_bind; [solve_frame | intros; solve_frame]
    | apply frame_for_each; intros; solve_frame
    | apply frame_traverse; intros; solve_frame
    | match goal with
      | |- frame _ (match ?x with _ => _ end) => destruct x; solve_frame
      end ].
Ltac solve_keeps :=
  first
    [ apply keeps_readonly; solve [solve_readonly]
    | apply keeps_commit
    | apply keeps_publish
    | apply keeps_write; solve [auto with kb]
    | apply keeps_bind; [solve_keeps | intros; solve_keeps]
    | apply keeps_for_each; intros; solve_keeps
    | match goal with
      | |- keeps _ (match ?x with _ => _ end) => destruct x; solve_keeps
      end ].
Ltac solve_total :=
  first
    [ solve [auto 3 with session]
    | apply total_bind; [solve_total | intros; solve_total]
    | match goal with
      | |- total (match ?x with _ => _ end) => destruct x; solve_total
      end ].

(** Prove that a handler is atomic: a prefix of quiet steps, then steps that cannot raise. *)
Ltac solve_atomic :=
  first
    [ apply atomic_total; solve [solve_total]
    | apply atomic_quiet; solve [solve_quiet]
    | apply atomic_quiet_bind; [solve [solve_quiet] | intros; solve_atomic]
    | match goal with
      | |- atomic (match ?x with _ => _ end) => destruct x; solve_atomic
      end ].

(** Invert a run that returned, one monadic step at a time. *)
Ltac minv :=
  repeat match goal with
  | H : (_ ≫= _) _ = (Return _, _) |- _ =>
      apply bind_return in H; destruct H as (? & ? & ? & H)
  | H : mret _ _ = (Return _, _) |- _ => unfold mret, M_ret in H; simplify_eq
  | H : ensure _ _ _ = (Return _, _) |- _ => apply ensure_return in H; destruct H as [? ?]; subst
  | H : some_or _ _ _ = (Return _, _) |- _ => apply some_or_return in H; destruct H as [? ?]; subst
  | H : query _ _ = (Return _, _) |- _ => apply query_return in H; cbn beta in H; destruct H as [? ?]; subst
  | H : raise _ _ = (Return _, _) |- _ => discriminate H
  | H : write _ _ = (Return _, _) |- _ => unfold write in H; simplify_eq
  | H : commit _ = (Return _, _) |- _ => unfold commit in H; simplify_eq
  | H : publish _ _ = (Return _, _) |- _ => unfold publish in H; simplify_eq
  end.

(** ** A stable sort: Python's [sorted] *)

Section StableSort.
Context {A : Type} (leb : A -> A -> bool).

Fixpoint insert_sorted (x : A) (l : list A) : list A :=
  match l with
  | [] => [x]
  | y :: l' => if leb x y then x :: l else y :: insert_sorted x l'
  end.

Definition stable_sort (l : list A) : list A := foldr insert_sorted [] l.

Lemma insert_sorted_perm x l : insert_sorted x l ≡ₚ x :: l.
Proof.
  induction l as [|y l IH]; cbn; [done|]. destruct (leb x y); [done|].
  rewrite IH. apply Permutation_swap.
Qed.

Lemma stable_sort_perm l : stable_sort l ≡ₚ l.
Proof.
  induction l as [|x l IH]; cbn; [done|].
  by rewrite insert_sorted_perm, IH.
Qed.

Lemma stable_sort_length l : length (stable_sort l) = length l.
Proof. by rewrite stable_sort_perm. Qed.

Lemma elem_of_stable_sort x l : x ∈ stable_sort l <-> x ∈ l.
Proof. by rewrite stable_sort_perm. Qed.

Section Sorted.
Variable P : A -> Prop.
Hypothesis leb_total : forall x y, P x -> P y -> leb x y = false -> leb y x = true.
Hypothesis leb_trans : forall x y z, P x -> P y -> P z -> leb x y = true -> leb y z = true -> leb x z = true.

Local Abbreviation le := (fun x y => leb x y = true).

Lemma insert_sorted_sorted_on x l :
  P x -> Forall P l -> StronglySorted le l -> StronglySorted le (insert_sorted x l).
Proof.
  intros Hx. induction l as [|y l IH]; intros Hp Hs; cbn; [by repeat constructor|].
  apply Forall_cons in Hp as [Hpy Hpl]. apply StronglySorted_inv in Hs as [Hl Hy].
  destruct (leb x y) eqn:Hxy.
  - constructor; [by constructor|]. constructor; [done|].
    apply Forall_forall. intros z Hz. rewrite Forall_forall in Hpl, Hy. eapply (leb_trans x y z); auto.
  - constructor; [by apply IH|]. rewrite insert_sorted_perm. constructor; [by apply leb_total|done].
Qed.

Lemma stable_sort_sorted_on l : Forall P l -> StronglySorted le (stable_sort l).
Proof.
  induction 1 as [|x l Hx Hl IH]; cbn; [constructor|]. apply insert_sorted_sorted_on; [done| |done].
  change (Forall P (stable_sort l)). by rewrite stable_sort_perm.
Qed.
End Sorted.

Lemma stable_sort_sorted l :
  (forall x y, leb x y = false -> leb y x = true) ->
  (forall x y z, leb x y = true -> leb y z = true -> leb x z = true) ->
  StronglySorted (fun x y => leb x y = true) (stable_sort l).
Proof. intros Htot Htr. apply (stable_sort_sorted_on (fun _ => True)); [auto|eauto|by apply Forall_true]. Qed.

(** Stability: a class of elements that compare equal keeps its order. *)
Lemma insert_sorted_filter (p : A -> bool) x l :
  (forall y, p x = true -> p y = true -> leb x y = true) ->
  List.filter p (insert_sorted x l) = List.filter p (x :: l).
Proof.
  intros Hp. induction l as [|y l IH]; cbn; [done|].
  destruct (leb x y) eqn:Hxy; [done|]. cbn. rewrite IH. cbn.
  destruct (p x) eqn:Hx, (p y) eqn:Hy; try done.
  by rewrite (Hp y) in Hxy.
Qed.

Lemma stable_sort_filter (p : A -> bool) l :
  (forall x y, p x = true -> p y = true -> leb x y = true) ->
  List.filter p (stable_sort l) = List.filter p l.
Proof.
  intros Hp. induction l as [|x l IH]; cbn; [done|].
  rewrite insert_sorted_filter by auto. cbn. unfold stable_sort in IH. by rewrite IH.
Qed.
End StableSort.

(** ** Lists *)

Lemma existsb_false {A} (f : A -> bool) l :
  existsb f l = false <-> forall x, x ∈ l -> f x = false.
Proof.
  induction l as [|x l IH]; cbn; [set_solver|].
  rewrite orb_false_iff, IH. set_solver.
Qed.

Lemma existsb_elem {A} (f : A -> bool) l :
  existsb f l = true <-> exists x, x ∈ l /\ f x = true.
Proof. rewrite existsb_exists. by setoid_rewrite list_elem_of_In. Qed.

Lemma elem_of_filter_b {A} (f : A -> bool) l x :
  x ∈ List.filter f l <-> x ∈ l /\ f x = true.
Proof. rewrite !list_elem_of_In. apply filter_In. Qed.

Lemma NoDup_map_eq {A B} (f : A -> B) (l : list A) x y :
  NoDup (map f l) -> x ∈ l -> y ∈ l -> f x = f y -> x = y.
Proof.
  intros Hnd [i Hi]%list_elem_of_lookup [j Hj]%list_elem_of_lookup Hf.
  assert (i = j) as -> by (eapply NoDup_lookup; [exact Hnd|..];
    rewrite list_lookup_fmap; [by rewrite Hi|rewrite Hj; cbn; by rewrite Hf]).
  congruence.
Qed.

Lemma NoDup_filter_map {A B} (f : A -> B) (p : A -> bool) (l : list A) :
  NoDup (map f l) -> NoDup (map f (List.filter p l)).
Proof.
  induction l as [|x l IH]; cbn; intros Hnd; [constructor|].
  apply NoDup_cons in Hnd as [Hx Hnd]. case_match; [|auto]. cbn. apply NoDup_cons. split; [|auto].
  intros Hin%list_elem_of_In%in_map_iff. destruct Hin as (y & Hy & Hin%filter_In).
  apply Hx, list_elem_of_In, in_map_iff. naive_solver.
Qed.

(** Reduce the boolean connectives of the hypotheses to propositions. *)
Ltac bools :=
  repeat match goal with
  | H : (_ && _) = true |- _ => apply andb_true_iff in H as [? ?]
  | H : (_ || _) = false |- _ => apply orb_false_iff in H as [? ?]
  | H : negb _ = true |- _ => apply negb_true_iff in H
  | H : negb _ = false |- _ => apply negb_false_iff in H
  | H : bool_decide _ = true |- _ => apply bool_decide_eq_true in H
  | H : bool_decide _ = false |- _ => apply bool_decide_eq_false in H
  | H : existsb _ _ = true |- _ =>
      apply existsb_elem in H; destruct H as (? & ? & ?)
  end.

Lemma elem_of_concat_map {A B} (f : A -> list B) l x :
  x ∈ concat (map f l) <-> exists y, y ∈ l /\ x ∈ f y.
Proof.
  induction l as [|y l IH]; cbn; [set_solver|].
  rewrite elem_of_app, IH. set_solver.
Qed.

Lemma elem_of_map {A B} (f : A -> B) l y : y ∈ map f l <-> exists x, y = f x /\ x ∈ l.
Proof. apply list_elem_of_fmap. Qed.

(** Reduce boolean equality tests and membership tests of the hypotheses. *)
Ltac eqs :=
  repeat match goal with
  | H : String.eqb _ _ = true |- _ => apply String.eqb_eq in H
  | H : String.eqb _ _ = false |- _ => apply String.eqb_neq in H
  | H : Z.eqb _ _ = true |- _ => apply Z.eqb_eq in H
  | H : Z.eqb _ _ = false |- _ => apply Z.eqb_neq in H
  end.

(** [list(dict.fromkeys(l))]: the elements in order of first appearance. *)
Section Dedup.
Context {A : Type} `{EqDecision A}.

Fixpoint dedup_from (seen : list A) (l : list A) : list A :=
  match l with
  | [] => []
  | x :: l' => if bool_decide (x ∈ seen) then dedup_from seen l'
               else x :: dedup_from (x :: seen) l'
  end.

Definition dedup (l : list A) : list A := dedup_from [] l.

Lemma elem_of_dedup_from x seen l : x ∈ dedup_from seen l <-> x ∈ l /\ x ∉ seen.
Proof.
  revert seen. induction l as [|y l IH]; intros seen; cbn; [set_solver|].
  case_bool_decide; [rewrite IH; set_solver|].
  rewrite elem_of_cons, IH. destruct (decide (x = y)); set_solver.
Qed.

Lemma elem_of_dedup x l : x ∈ dedup l <-> x ∈ l.
Proof. unfold dedup. rewrite elem_of_dedup_from. set_solver. Qed.

Lemma NoDup_dedup l : NoDup (dedup l).
Proof.
  unfold dedup. generalize (@nil A). induction l as [|x l IH]; intros seen; cbn; [constructor|].
  case_bool_decide; [done|]. constructor; [|done].
  rewrite elem_of_dedup_from. set_solver.
Qed.
End Dedup.

(** ** Tables: a row is stored under its own key *)

Section Tables.
Context {A : Type} (key : A -> Z).

(** The rows of a table, in an unspecified order. *)
Definition rows (m : gmap Z A) : list A := map snd (map_to_list m).

Definition keyed (m : gmap Z A) : Prop := forall i a, m !! i = Some a -> key a = i.

Lemma elem_of_rows m a : keyed m -> a ∈ rows m <-> m !! key a = Some a.
Proof.
  intros Hk. unfold rows. rewrite elem_of_map. split.
  - intros ([i a'] & -> & Hin%elem_of_map_to_list). cbn. by rewrite (Hk i a' Hin).
  - intros Ha. exists (key a, a). split; [done|]. by apply elem_of_map_to_list.
Qed.

Lemma insert_keyed (a : A) (i : Z) m : key a = i -> keyed m -> keyed (<[i := a]> m).
Proof. intros <- Hk j b [[<- <-]|[_ Hb]]%lookup_insert_Some; [done|by apply Hk]. Qed.

Lemma rows_nodup m (f : A -> bool) : keyed m -> NoDup (map key (List.filter f (rows m))).
Proof.
  intros Hk. unfold rows.
  assert (Hall : forall i a, (i, a) ∈ map_to_list m -> key a = i).
  { intros i a Hin%elem_of_map_to_list. by apply Hk. }
  pose proof (NoDup_fst_map_to_list m) as Hnd.
  induction (map_to_list m) as [|[i a] l IH]; cbn; [constructor|].
  cbn in Hnd. apply NoDup_cons in Hnd as [Hi Hnd].
  specialize (IH ltac:(intros; apply Hall; by right) Hnd).
  case_match; [|done]. cbn. apply NoDup_cons. split; [|done].
  rewrite (Hall i a) by (by left). intros (a' & Ha' & Hin)%elem_of_map.
  apply elem_of_filter_b in Hin as [Hin _]. apply elem_of_map in Hin as ([j b] & Heq & Hin).
  cbn in Heq. subst b. apply Hi. rewrite (Hall j a') in Ha' by (by right). subst j.
  apply list_elem_of_fmap. by exists (i, a').
Qed.

(** Writing a list of rows. *)
Definition store_rows (l : list A) (m : gmap Z A) : gmap Z A :=
  fold_left (fun m a => <[key a := a]> m) l m.

Lemma store_rows_lookup l m i :
  NoDup (map key l) ->
  store_rows l m !! i =
    match List.find (fun a => Z.eqb (key a) i) l with Some a => Some a | None => m !! i end.
Proof.
  revert m. unfold store_rows. induction l as [|a l IH]; intros m Hnd; [done|].
  cbn in *. apply NoDup_cons in Hnd as [Ha Hnd]. rewrite IH by done.
  destruct (Z.eqb_spec (key a) i) as [<-|Hne].
  - destruct (List.find _ l) as [b|] eqn:Hf; [|by rewrite lookup_insert_eq].
    exfalso. apply find_some in Hf as [Hin Heq]. apply Z.eqb_eq in Heq.
    apply Ha, elem_of_map. exists b. split; [done|by apply list_elem_of_In].
  - by rewrite lookup_insert_ne.
Qed.

Lemma store_rows_elem l m a :
  NoDup (map key l) -> a ∈ l -> store_rows l m !! key a = Some a.
Proof.
  intros Hnd Ha. rewrite store_rows_lookup by done.
  destruct (List.find _ l) as [b|] eqn:Hf.
  - apply find_some in Hf as [Hb Heq]. apply Z.eqb_eq in Heq. f_equal.
    apply list_elem_of_In in Hb. by apply (NoDup_map_eq key l).
  - eapply find_none in Hf; [|by apply list_elem_of_In]. by rewrite Z.eqb_refl in Hf.
Qed.

Lemma store_rows_other l m i : (i ∉ map key l) -> store_rows l m !! i = m !! i.
Proof.
  revert m. unfold store_rows. induction l as [|a l IH]; intros m Hi; [done|].
  cbn in *. apply not_elem_of_cons in Hi as [Hne Hi]. rewrite IH by done.
  by rewrite lookup_insert_ne.
Qed.

Lemma store_rows_iff l m a :
  NoDup (map key l) ->
  store_rows l m !! key a = Some a <-> a ∈ l \/ (key a ∉ map key l) /\ m !! key a = Some a.
Proof.
  intros Hnd. split.
  - intros Ha. destruct (decide (key a ∈ map key l)) as [Hin|Hout].
    + left. apply elem_of_map in Hin as (b & Hb & Hin). rewrite Hb in Ha.
      rewrite store_rows_elem in Ha by done. by simplify_eq.
    + right. by rewrite store_rows_other in Ha.
  - intros [Ha|[Hout Ha]]; [by apply store_rows_elem|by rewrite store_rows_other].
Qed.

Lemma store_rows_keyed l m : keyed m -> keyed (store_rows l m).
Proof.
  revert m. unfold store_rows. induction l as [|a l IH]; intros m Hk; cbn; [done|].
  apply IH. intros i b [[<- <-]|[_ Hb]]%lookup_insert_Some; [done|by apply Hk].
Qed.

(** Whether a row of [l] has the key [i]. *)
Definition among (i : Z) (l : list A) : bool := existsb (fun a => key a =? i) l.

Lemma among_elem i l : among i l = true <-> exists a, a ∈ l /\ key a = i.
Proof.
  unfold among. rewrite existsb_exists. setoid_rewrite list_elem_of_In. by setoid_rewrite Z.eqb_eq.
Qed.

(** Writing a batch of rows of the table back, each changed by [f]. *)
Lemma store_map_lookup (f : A -> A) l m i :
  (forall a, key (f a) = key a) -> NoDup (map key l) -> (forall a, a ∈ l -> m !! key a = Some a) ->
  store_rows (map f l) m !! i = (fun a => if among i l then f a else a) <$> m !! i.
Proof.
  intros f_key Hnd Hm. assert (Hid : map key (map f l) = map key l).
  { rewrite map_map. clear -f_key. induction l as [|a l IH]; cbn; [done|by rewrite f_key, IH]. }
  rewrite store_rows_lookup by (by rewrite Hid). destruct (List.find _ _) as [b|] eqn:Hf.
  - apply find_some in Hf as [Hin He]. apply list_elem_of_In, elem_of_map in Hin as (a & -> & Hin).
    rewrite f_key in He. apply Z.eqb_eq in He as <-. rewrite (Hm a Hin). cbn.
    by rewrite (proj2 (among_elem (key a) l) ltac:(eauto)).
  - destruct (among i l) eqn:Ha; [|by destruct (m !! i)].
    apply among_elem in Ha as (a & Hin & He). eapply find_none in Hf; [|by apply in_map, list_elem_of_In].
    cbn in Hf. rewrite f_key, He, Z.eqb_refl in Hf. done.
Qed.

(** The first [n] rows a query selects in some order. *)
Lemma selected_rows leb (p : A -> bool) n m :
  keyed m ->
  let l := take n (stable_sort leb (List.filter p (rows m))) in
  NoDup (map key l) /\ forall a, a ∈ l -> m !! key a = Some a /\ p a = true.
Proof.
  intros Hk. cbv zeta. split.
  - rewrite <- firstn_map. eapply sublist_NoDup; [|apply sublist_take].
    assert (Hp : map key (stable_sort leb (List.filter p (rows m))) ≡ₚ map key (List.filter p (rows m)))
      by (apply Permutation_map, stable_sort_perm).
    rewrite Hp. by apply rows_nodup.
  - intros a Ha. apply elem_of_take in Ha as (k & Ha & _). apply list_elem_of_lookup_2 in Ha.
    apply elem_of_stable_sort, elem_of_filter_b in Ha as [Ha Hp]. split; [|done]. by apply elem_of_rows.
Qed.

(** Rewriting every row of a table. *)
Lemma rows_fmap (g : A -> A) m : rows (g <$> m) ≡ₚ map g (rows m).
Proof.
  unfold rows. rewrite map_to_list_fmap, !map_map.
  induction (map_to_list m) as [|[i a] l IH]; cbn; [done|by rewrite IH].
Qed.

Lemma insert_as_fmap m i b : keyed m -> is_Some (m !! i) ->
  <[i := b]> m = (fun a => if Z.eqb (key a) i then b else a) <$> m.
Proof.
  intros Hk [a Ha]. apply map_eq. intros j. rewrite lookup_fmap.
  destruct (decide (j = i)) as [->|Hne].
  - rewrite lookup_insert_eq, Ha. cbn. by rewrite (Hk _ _ Ha), Z.eqb_refl.
  - rewrite lookup_insert_ne by done. destruct (m !! j) as [x|] eqn:Hx; cbn; [|done].
    rewrite (Hk _ _ Hx). by destruct (Z.eqb_spec j i).
Qed.
End Tables.

(** Queries that select at most one row do not depend on the order of the rows. *)
Lemma find_perm {A} (p : A -> bool) (l l' : list A) :
  l ≡ₚ l' -> (forall x y, x ∈ l -> y ∈ l -> p x = true -> p y = true -> x = y) ->
  List.find p l = List.find p l'.
Proof.
  intros Hp Hu. destruct (List.find p l) as [x|] eqn:Hx, (List.find p l') as [y|] eqn:Hy; try done.
  - apply find_some in Hx as [Hx Hpx], Hy as [Hy Hpy]. apply list_elem_of_In in Hx, Hy.
    f_equal. apply Hu; try done. by rewrite Hp.
  - apply find_some in Hx as [Hx Hpx]. eapply find_none in Hy; [by rewrite Hpx in Hy|].
    apply list_elem_of_In. rewrite <- Hp. by apply list_elem_of_In.
  - apply find_some in Hy as [Hy Hpy]. eapply find_none in Hx; [by rewrite Hpy in Hx|].
    apply list_elem_of_In. rewrite Hp. by apply list_elem_of_In.
Qed.

Lemma find_map {A B} (p : B -> bool) (g : A -> B) (l : list A) :
  List.find p (map g l) = g <$> List.find (fun x => p (g x)) l.
Proof. induction l as [|x l IH]; cbn; [done|]. by destruct (p (g x)). Qed.

Lemma find_ext_in {A} (p q : A -> bool) (l : list A) :
  (forall x, x ∈ l -> p x = q x) -> List.find p l = List.find q l.
Proof.
  induction l as [|x l IH]; cbn; intros H; [done|]. rewrite <- (H x) by (by left).
  case_match; [done|]. apply IH. intros y Hy. apply H. by right.
Qed.

Lemma filter_perm {A} (p : A -> bool) (l l' : list A) : l ≡ₚ l' -> List.filter p l ≡ₚ List.filter p l'.
Proof.
  induction 1; cbn; repeat case_match; eauto using Permutation.
Qed.


#[export] Hint Resolve NoDup_dedup stable_sort_perm : kb.
