(* ===== verification/PyText.v ===== *)
(** * Python strings

    A Python [str] is a sequence of code points; this file models the methods the
    sources use on text that is stripped, sliced, joined or searched.  Closed
    vocabularies that are only compared for equality (statuses, roles, permission
    keys, scopes) are modelled with [string] in the other files. *)

From S2P Require Import Prelude.
From stdpp Require pretty.

Abbreviation pystr := (list Z).

(** An ASCII literal as a Python string. *)
Definition ps (s : string) : pystr :=
  map (fun c => Z.of_nat (Ascii.nat_of_ascii c)) (String.list_ascii_of_string s).

Notation "$ s" := (ps s%string) (at level 1, s at level 0, format "$ s").

(** [len(s)] *)
Definition len {A} (s : list A) : Z := Z.of_nat (length s).

(** [str.isspace] on one code point: the characters [strip()] and [\s] accept. *)
Definition is_space (c : Z) : bool :=
  ((9 <=? c) && (c <=? 13)) || ((28 <=? c) && (c <=? 32)) || (c =? 133) || (c =? 160)
  || (c =? 5760) || ((8192 <=? c) && (c <=? 8202)) || (c =? 8232) || (c =? 8233)
  || (c =? 8239) || (c =? 8287) || (c =? 12288).

Section Strip.
Variable p : Z -> bool.

Fixpoint drop_while (s : pystr) : pystr :=
  match s with
  | [] => []
  | c :: s' => if p c then drop_while s' else s
  end.

Definition drop_while_end (s : pystr) : pystr := rev (drop_while (rev s)).

(** [drop_while] removes a prefix of [p] characters and stops at the first other. *)
Lemma drop_while_split s :
  exists pre, s = pre ++ drop_while s /\ Forall (fun c => p c = true) pre.
Proof.
  induction s as [|c s (pre & IH & Hp)]; cbn; [by exists []|].
  destruct (p c) eqn:Hc; [|by exists []].
  exists (c :: pre). split; [cbn; congruence|auto].
Qed.

Lemma drop_while_head s c s' : drop_while s = c :: s' -> p c = false.
Proof. induction s as [|d s IH]; cbn; [done|]. destruct (p d) eqn:Hd; naive_solver. Qed.

Lemma drop_while_fix s : (forall c s', s = c :: s' -> p c = false) -> drop_while s = s.
Proof. destruct s as [|c s]; cbn; [done|]. intros H. by rewrite (H c s). Qed.

Lemma drop_while_idemp s : drop_while (drop_while s) = drop_while s.
Proof. apply drop_while_fix. apply drop_while_head. Qed.

Lemma drop_while_nil s : drop_while s = [] <-> Forall (fun c => p c = true) s.
Proof.
  split.
  - destruct (drop_while_split s) as (pre & Hs & Hp). intros H.
    rewrite H, app_nil_r in Hs. by subst.
  - induction 1 as [|c s Hc _ IH]; cbn; [done|by rewrite Hc].
Qed.

Lemma drop_while_end_split s :
  exists suf, s = drop_while_end s ++ suf /\ Forall (fun c => p c = true) suf.
Proof.
  destruct (drop_while_split (rev s)) as (pre & Hs & Hp).
  exists (rev pre). split; [|by apply Forall_rev].
  unfold drop_while_end. rewrite <- rev_app_distr, <- Hs. by rewrite rev_involutive.
Qed.
End Strip.

(** [s.lstrip()], [s.rstrip()], [s.strip()] *)
Definition lstrip (s : pystr) : pystr := drop_while is_space s.
Definition rstrip (s : pystr) : pystr := drop_while_end is_space s.
Definition strip (s : pystr) : pystr := rstrip (lstrip s).

(** [s[:n]] and [s[n:]] for [n >= 0]; [s[-n:]] for [n > 0]. *)
Definition upto (n : Z) (s : pystr) : pystr := take (Z.to_nat n) s.
Definition from (n : Z) (s : pystr) : pystr := drop (Z.to_nat n) s.
Definition last_n (n : Z) (s : pystr) : pystr := drop (length s - Z.to_nat n) s.

(** [s[a:b]] for [0 <= a <= b] *)
Definition slice (a b : Z) (s : pystr) : pystr := upto (b - a) (from a s).

(** [sep.join(parts)] *)
Fixpoint join (sep : pystr) (parts : list pystr) : pystr :=
  match parts with
  | [] => []
  | [s] => s
  | s :: rest => s ++ sep ++ join sep rest
  end.

(** [a or b] on optional or possibly empty text *)
Definition or_text (a : option pystr) (b : pystr) : pystr :=
  match a with
  | Some (c :: s) => c :: s
  | _ => b
  end.

(** Truth of a [str] and of an optional [str]. *)
Definition truthy (s : pystr) : bool := match s with [] => false | _ => true end.
Definition otruthy (s : option pystr) : bool :=
  match s with Some (_ :: _) => true | _ => false end.

(** [f"{n}"] on an int *)
Definition show_int (z : Z) : pystr := ps (@pretty.pretty Z pretty.pretty_Z z).

(** ** Searching, replacing, splitting *)

(** [s.startswith(p)] *)
Fixpoint starts_with (p s : pystr) : bool :=
  match p, s with
  | [], _ => true
  | x :: p', y :: s' => (x =? y) && starts_with p' s'
  | _ :: _, [] => false
  end.

(** [s.replace(old, new)] for a non-empty [old]; [skip] code points of a match are left. *)
Fixpoint replace_from (old new : pystr) (skip : nat) (s : pystr) : pystr :=
  match s with
  | [] => []
  | c :: s' =>
      match skip with
      | S k => replace_from old new k s'
      | O => if starts_with old s then new ++ replace_from old new (length old - 1) s'
             else c :: replace_from old new 0 s'
      end
  end.
Definition replace (old new s : pystr) : pystr := replace_from old new 0 s.

(** The longest prefix of characters satisfying [p], and the rest. *)
Fixpoint span (p : Z -> bool) (s : pystr) : pystr * pystr :=
  match s with
  | c :: s' => if p c then let '(a, b) := span p s' in (c :: a, b) else ([], s)
  | [] => ([], [])
  end.

(** [s.split()]: the maximal runs of characters that are not white space. *)
Fixpoint words_from (current : pystr) (s : pystr) : list pystr :=
  let flush := match current with [] => [] | _ => [rev current] end in
  match s with
  | [] => flush
  | c :: s' => if is_space c then flush ++ words_from [] s' else words_from (c :: current) s'
  end.
Definition words (s : pystr) : list pystr := words_from [] s.

Definition is_lower (c : Z) : bool := (97 <=? c) && (c <=? 122).
Definition is_upper (c : Z) : bool := (65 <=? c) && (c <=? 90).
Definition is_digit (c : Z) : bool := (48 <=? c) && (c <=? 57).

(** What follows the last occurrence of [sep]: [s.rsplit(sep, 1)\[-1\]]. *)
Fixpoint after_last (sep : Z) (s : pystr) : pystr :=
  match s with
  | [] => []
  | c :: s' => if existsb (Z.eqb sep) s' then after_last sep s' else if c =? sep then s' else s
  end.

(** ** Lemmas *)

Lemma strip_spec s :
  exists pre suf, s = pre ++ strip s ++ suf
    /\ Forall (fun c => is_space c = true) pre /\ Forall (fun c => is_space c = true) suf.
Proof.
  destruct (drop_while_split is_space s) as (pre & Hs & Hpre).
  destruct (drop_while_end_split is_space (lstrip s)) as (suf & Hs' & Hsuf).
  exists pre, suf. split; [|done]. unfold strip, rstrip. by rewrite <- Hs'.
Qed.

Lemma strip_length s : (length (strip s) <= length s)%nat.
Proof.
  destruct (strip_spec s) as (pre & suf & Hs & _). rewrite Hs at 2.
  rewrite !length_app. lia.
Qed.

Lemma rstrip_length s : (length (rstrip s) <= length s)%nat.
Proof.
  destruct (drop_while_end_split is_space s) as (suf & Hs & _).
  unfold rstrip. rewrite Hs at 2. rewrite length_app. lia.
Qed.

Lemma strip_nil s : strip s = [] <-> Forall (fun c => is_space c = true) s.
Proof.
  unfold strip, rstrip, drop_while_end, lstrip. split.
  - intros H. apply (f_equal (@rev Z)) in H. rewrite rev_involutive in H. cbn in H.
    apply drop_while_nil in H. apply Forall_rev in H. rewrite rev_involutive in H.
    destruct (drop_while_split is_space s) as (pre & Hs & Hp). rewrite Hs.
    by apply Forall_app.
  - intros H. apply drop_while_nil in H. by rewrite H.
Qed.

(** The first character of a stripped string is not a space. *)
Lemma strip_head s c s' : strip s = c :: s' -> is_space c = false.
Proof.
  intros H. unfold strip in H.
  destruct (drop_while_end_split is_space (lstrip s)) as (suf & Hs & _).
  change (drop_while_end is_space (lstrip s)) with (rstrip (lstrip s)) in Hs.
  rewrite H in Hs. by apply (drop_while_head is_space s c (s' ++ suf)).
Qed.

(** The last character of a stripped string is not a space. *)
Lemma rstrip_last s c s' : rstrip s = s' ++ [c] -> is_space c = false.
Proof.
  unfold rstrip, drop_while_end. intros H.
  apply (f_equal (@rev Z)) in H. rewrite rev_involutive, rev_app_distr in H.
  cbn in H. by apply drop_while_head in H.
Qed.

Lemma lstrip_fix s : (forall c s', s = c :: s' -> is_space c = false) -> lstrip s = s.
Proof. apply drop_while_fix. Qed.

Lemma rstrip_fix s : (forall c s', s = s' ++ [c] -> is_space c = false) -> rstrip s = s.
Proof.
  intros H. unfold rstrip, drop_while_end. rewrite drop_while_fix; [apply rev_involutive|].
  intros c s' Hs. apply (H c (rev s')).
  apply (f_equal (@rev Z)) in Hs. by rewrite rev_involutive in Hs.
Qed.

Lemma strip_idemp s : strip (strip s) = strip s.
Proof.
  unfold strip at 1. rewrite lstrip_fix by apply strip_head.
  apply rstrip_fix. unfold strip. intros c s'. apply rstrip_last.
Qed.

Lemma upto_length n s : (length (upto n s) <= Z.to_nat n)%nat.
Proof. unfold upto. rewrite length_take. lia. Qed.

Lemma upto_from n s : upto n s ++ from n s = s.
Proof. apply take_drop. Qed.

Lemma join_cons sep s parts :
  join sep (s :: parts) = s ++ match parts with [] => [] | _ => sep ++ join sep parts end.
Proof. destruct parts; cbn; [by rewrite app_nil_r|done]. Qed.

Lemma join_length sep parts :
  length (join sep parts)
  = (sum_list (map length parts) + length sep * pred (length parts))%nat.
Proof.
  induction parts as [|s parts IH]; [cbn; lia|].
  rewrite join_cons. destruct parts as [|s' parts].
  - cbn. rewrite length_app. cbn. lia.
  - rewrite !length_app, IH. cbn [length pred map sum_list].
    cbn [map sum_list length pred] in IH. cbn. lia.
Qed.

Lemma otruthy_or s d : otruthy s = true -> or_text s d = default [] s.
Proof. by destruct s as [[|]|]. Qed.

#[export] Hint Resolve strip_length rstrip_length upto_length : kb.

#[global] Arguments ps : simpl never.
