(* ===== verification/Float64.v ===== *)
(** * Python floats

    A Python [float] is an IEEE 754 binary64 number; the Standard Library's [SpecFloat] gives
    its operations as functions on integers. Scores are never NaN ([number]): the order the
    code sorts by is then total. *)

From S2P Require Import Prelude PyText.
From Stdlib Require Export SpecFloat.

Abbreviation float := spec_float.

Definition f_add (x y : float) : float := SFadd 53 1024 x y.
Definition f_div (x y : float) : float := SFdiv 53 1024 x y.
Definition f_leb (x y : float) : bool := SFleb x y.
Definition f_ltb (x y : float) : bool := SFltb x y.
(** [float(n)] *)
Definition f_int (n : Z) : float := binary_normalize 53 1024 n 0 false.
(** [max(a, b)]: [b] only when it is greater *)
Definition f_max (a b : float) : float := if f_ltb a b then b else a.

Definition number (x : float) : bool := match x with S754_nan => false | _ => true end.

(** [round(x, 2)] as a number of hundredths: the nearest one, ties to even *)
Definition half_even (num den : Z) : Z :=
  let q := num / den in
  let r := num mod den in
  match 2 * r ?= den with
  | Lt => q
  | Gt => q + 1
  | Eq => if Z.even q then q else q + 1
  end.

Definition hundredths (x : float) : Z :=
  match x with
  | S754_finite s m e =>
      let n := if s then Zneg m else Zpos m in
      if 0 <=? e then n * 100 * 2 ^ e else half_even (n * 100) (2 ^ (- e))
  | _ => 0
  end.

Example point_eight : hundredths (f_div (f_int 8) (f_int 10)) = 80.
Proof. vm_compute. reflexivity. Qed.
Example round_down : hundredths (f_div (f_int 2675) (f_int 1000)) = 267.
Proof. vm_compute. reflexivity. Qed.

(** ** The order *)

Ltac compare_cases :=
  repeat match goal with
  | |- context [(?a ?= ?b)%Z] => destruct (Z.compare_spec a b)
  | |- context [Pos.compare_cont Eq ?a ?b] => destruct (Pos.compare_spec a b : CompareSpec _ _ _ (Pos.compare_cont Eq a b))
  end; cbn; try done; try lia.

(** Both floats of a comparison by their kinds, then their exponents and mantissas *)
Ltac float_cases :=
  unfold f_leb, f_ltb, SFleb, SFltb, SFcompare;
  repeat match goal with x : spec_float |- _ => destruct x as [[]|[]| |[] ? ?] end;
  try done; compare_cases.

Lemma f_leb_total x y : number x = true -> number y = true -> f_leb x y = false -> f_leb y x = true.
Proof. float_cases. Qed.

Lemma f_leb_trans x y z : f_leb x y = true -> f_leb y z = true -> f_leb x z = true.
Proof. float_cases. Qed.

Lemma f_leb_refl x : number x = true -> f_leb x x = true.
Proof. float_cases. Qed.

Lemma f_ltb_leb x y : number x = true -> number y = true -> f_ltb x y = negb (f_leb y x).
Proof. float_cases. Qed.

(** ** Weights: no NaN arises from sums and quotients of non-negative numbers *)

Definition weight (x : float) : bool :=
  match x with S754_zero false | S754_infinity false | S754_finite false _ _ => true | _ => false end.

Lemma weight_number x : weight x = true -> number x = true.
Proof. by destruct x. Qed.

Lemma shr_1_nonneg r : 0 <= shr_m r -> 0 <= shr_m (shr_1 r).
Proof. destruct r as [[|[]|[]] ? ?]; cbn; lia. Qed.

Lemma iter_shr_nonneg p r : 0 <= shr_m r -> 0 <= shr_m (iter_pos shr_1 p r).
Proof. revert r. induction p; cbn; intros r Hr; auto using shr_1_nonneg. Qed.

Lemma shr_nonneg r e n : 0 <= shr_m r -> 0 <= shr_m (shr r e n).1.
Proof. destruct n; cbn; auto using iter_shr_nonneg. Qed.

Lemma shr_fexp_nonneg m e loc : 0 <= m -> 0 <= shr_m (shr_fexp 53 1024 m e loc).1.
Proof. intros Hm. unfold shr_fexp. apply shr_nonneg. by destruct loc as [|[]]. Qed.

Lemma round_nonneg m loc : 0 <= m -> 0 <= round_nearest_even m loc.
Proof. destruct loc as [|[]]; cbn; try destruct (Z.even m); lia. Qed.

Lemma round_aux_weight m e loc : 0 <= m -> weight (binary_round_aux 53 1024 false m e loc) = true.
Proof.
  intros Hm. unfold binary_round_aux. destruct (shr_fexp 53 1024 m e loc) as [r e'] eqn:Hr.
  pose proof (shr_fexp_nonneg m e loc Hm) as Hp. rewrite Hr in Hp. cbn in Hp.
  destruct (shr_fexp 53 1024 (round_nearest_even (shr_m r) (loc_of_shr_record r)) e' loc_Exact) as [r2 e2] eqn:Hr2.
  pose proof (shr_fexp_nonneg _ e' loc_Exact (round_nonneg _ (loc_of_shr_record r) Hp)) as Hq. rewrite Hr2 in Hq. cbn in Hq.
  destruct (shr_m r2); [done| |lia]. by destruct (Z.leb _ _).
Qed.

Lemma normalize_weight m e : 0 <= m -> weight (binary_normalize 53 1024 m e false) = true.
Proof.
  intros Hm. destruct m as [|m|m]; [done| |lia]. cbn. unfold binary_round.
  destruct (shl_align _ _ _) as [mz ez]. by apply round_aux_weight.
Qed.

Lemma f_int_weight n : 0 <= n -> weight (f_int n) = true.
Proof. apply normalize_weight. Qed.

Lemma f_add_weight x y : weight x = true -> weight y = true -> weight (f_add x y) = true.
Proof.
  destruct x as [[]|[]| |[] m e], y as [[]|[]| |[] m' e']; try done. intros _ _. cbn. by apply normalize_weight.
Qed.

Lemma f_div_weight m e y : weight y = true -> weight (f_div (S754_finite false m e) y) = true.
Proof.
  destruct y as [[]|[]| |[] m' e']; try done. intros _. unfold f_div, SFdiv.
  destruct (SFdiv_core_binary 53 1024 (Zpos m) e (Zpos m') e') as [[q e2] loc] eqn:Hq. apply round_aux_weight.
  unfold SFdiv_core_binary in Hq. cbv zeta in Hq.
  match type of Hq with context [Z.div_eucl ?a ?b] =>
    pose proof (Z_div_mod a b eq_refl) as Hdm; destruct (Z.div_eucl a b) as [q' r] end.
  destruct Hdm as [He Hr]. simplify_eq.
  match type of He with ?s = _ => assert (0 <= s) by (case_match; [done|by apply Z.shiftl_nonneg|done]) end.
  nia.
Qed.
