(* ===== verification/Ranking.v ===== *)
(** * Ranking the passages a search found
    (src/repositories/chunk.py, src/domain/search_service.py, src/rag/cross_encoder.py,
    src/rag/abbreviations.py)

    The pure steps between the queries and the answer: the fusion of the legs of the hybrid
    search, the best score per chunk, the choice of the candidates of the cross-encoder and their
    promotion, and the merge of the ordinary and the extended search. [A] is what is ranked
    (a chunk, a result) and [id] its id; a Python dict keyed by the id is a list in insertion
    order with one entry per id. *)

From S2P Require Import Prelude PyText Float64.
From stdpp Require sorting.

Section Ranking.
Context {A : Type} (id : A -> Z).
Implicit Types (l : list (A * float)) (e : A * float).

(** ** Dicts keyed by the id *)

Definition same (x : A) (e : A * float) : bool := Z.eqb (id e.1) (id x).

(** [if id not in d: d\[id\] = new else: d\[id\] = g(d\[id\])] *)
Definition upsert (new : A * float) (g : A * float -> A * float) (l : list (A * float)) : list (A * float) :=
  if existsb (same new.1) l then map (fun e => if same new.1 e then g e else e) l else l ++ [new].

(** [sorted(..., key=score, reverse=True)] *)
Definition by_score (x y : A * float) : bool := f_leb y.2 x.2.

(** The items whose id is not yet in [seen], each once ([seen] is mutated in place). *)
Fixpoint unseen (seen : gset Z) (new : list A) : list A * gset Z :=
  match new with
  | [] => ([], seen)
  | x :: new =>
      if bool_decide (id x ∈ seen) then unseen seen new
      else let '(l, s) := unseen ({[id x]} ∪ seen) new in (x :: l, s)
  end.

(** ** Reciprocal rank fusion *)

Definition rrf_score (rank : nat) : float := f_div (f_int 1) (f_add (f_int 60) (f_int (Z.of_nat rank))).

Fixpoint add_from (rank : nat) (results : list A) (scores : list (A * float)) : list (A * float) :=
  match results with
  | [] => scores
  | chunk :: results =>
      let score := rrf_score rank in
      add_from (S rank) results
        (upsert (chunk, f_add (f_int 0) score) (fun e => (e.1, f_add e.2 score)) scores)
  end.
Definition add_rrf_scores (scores : list (A * float)) (results : list A) : list (A * float) := add_from 0 results scores.

(** Steps 4 and the end of [hybrid_search]: the legs, in order, to one list *)
Definition fuse (legs : list (list A)) : list A :=
  map fst (stable_sort by_score (fold_left add_rrf_scores legs [])).

(** ** Merging pools and scorings *)

Definition best_score_per_chunk (scored_sets : list (list (A * float))) : list (A * float) :=
  match scored_sets with
  | [scored] => scored
  | _ =>
      let best := fold_left (fun best new => upsert new (fun held => if f_ltb held.2 new.2 then new else held) best)
                    (concat scored_sets) [] in
      stable_sort by_score best
  end.

Definition _merge_candidates (existing new : list A) (seen_ids : gset Z) : list A * gset Z :=
  let '(l, s) := unseen seen_ids new in (existing ++ l, s).

(** ** The cross-encoder *)

Definition rank_leb (x y : Z * nat) : bool := (x.1 <? y.1) || (Z.eqb x.1 y.1 && (x.2 <=? y.2)%nat).

(** The places of [ranked] whose chunk the vector leg found, with its rank *)
Definition by_vector (ranked : list (A * float)) (vector_ranks : gmap Z Z) : list (Z * nat) :=
  omap (fun '(index, e) => rank ← vector_ranks !! id (e : A * float).1; Some (rank, index)) (zip (seq 0 (length ranked)) ranked).

Definition select_candidates (ranked : list (A * float)) (vector_ranks : gmap Z Z) (lexical_n vector_n : Z) : list nat :=
  let chosen := seq 0 (Nat.min (Z.to_nat (Z.max lexical_n 0)) (length ranked)) in
  let added := if (0 <? vector_n) && negb (bool_decide (vector_ranks = ∅))
               then map snd (take (Z.to_nat vector_n) (stable_sort rank_leb (by_vector ranked vector_ranks)))
               else [] in
  stable_sort Nat.leb (dedup (chosen ++ added)).

(** [key=lambda pair: (-pair\[0\], pair\[1\])] *)
Definition by_cross (x y : float * nat) : bool := f_ltb y.1 x.1 || (negb (f_ltb x.1 y.1) && (x.2 <=? y.2)%nat).

Fixpoint promoted (ranked : list (A * float)) (position : nat) (scored : list (float * nat)) (assist_top_k : Z)
    (assist_floor assist_min_probability : float) : outcome (list (A * float)) :=
  match scored with
  | [] => Return []
  | (probability, index) :: scored =>
      match ranked !! index with
      | None => Raise IndexError
      | Some (chunk, lexical) =>
          let lexical := if (Z.of_nat position <? assist_top_k) && f_leb assist_min_probability probability
                         then f_max lexical assist_floor else lexical in
          match promoted ranked (S position) scored assist_top_k assist_floor assist_min_probability with
          | Return head => Return ((chunk, lexical) :: head)
          | Raise e => Raise e
          end
      end
  end.

(** The items of [ranked] at the places that are not candidates, in order *)
Definition not_taken (ranked : list (A * float)) (candidates : list nat) : list (A * float) :=
  omap (fun '(index, item) => if bool_decide (index ∈ candidates) then None else Some item) (zip (seq 0 (length ranked)) ranked).

Definition promote (ranked : list (A * float)) (candidates : list nat) (cross_scores : list float) (assist_top_k : Z)
    (assist_floor assist_min_probability : float) : outcome (list (A * float)) :=
  if negb (Nat.eqb (length candidates) (length cross_scores)) then Raise (ValueError "promote")
  else
    let scored := stable_sort by_cross (zip cross_scores candidates) in
    match promoted ranked 0 scored assist_top_k assist_floor assist_min_probability with
    | Return head => Return (head ++ not_taken ranked candidates)
    | Raise e => Raise e
    end.

Definition reorder_by_cross_encoder (ranked : list A) (cross_scores : list float) : outcome (list A) :=
  if negb (Nat.eqb (length ranked) (length cross_scores)) then Raise (ValueError "reorder_by_cross_encoder")
  else Return (map snd (stable_sort (fun x y => f_leb y.1 x.1) (zip cross_scores ranked))).

(** ** Two searches of one question *)

Definition KEEP_ORDINARY : nat := 2.
Definition INSERT_EXTENDED : nat := 3.

Definition merge_alias_results (ordinary extended : list A) (keep insert : nat) : list A :=
  let new := List.filter (fun item => negb (existsb (fun o => Z.eqb (id o) (id item)) ordinary)) extended in
  (unseen ∅ (take keep ordinary ++ take insert new ++ drop keep ordinary ++ extended)).1.
End Ranking.

(** [_dedup_preserve_order] *)
Definition _dedup_preserve_order (items : list pystr) : list pystr := dedup items.

(** ** Dicts *)

Section DictFacts.
Context {A : Type} (id : A -> Z).
Implicit Types (l : list (A * float)) (e : A * float).
Definition ids l : list Z := map (fun e => id e.1) l.

Lemma same_spec x e : same id x e = true <-> id e.1 = id x.
Proof. apply Z.eqb_eq. Qed.

Lemma upsert_ids new g l : (forall e, id (g e).1 = id e.1) ->
  ids (upsert id new g l) = if bool_decide (id new.1 ∈ ids l) then ids l else ids l ++ [id new.1].
Proof.
  intros Hg. unfold upsert. destruct (existsb _ l) eqn:Hex.
  - apply existsb_exists in Hex as (e & He & Hs%same_spec). apply list_elem_of_In in He.
    rewrite bool_decide_true by (apply elem_of_map; eauto).
    unfold ids. rewrite map_map. apply map_ext. intros e'. by destruct (same id new.1 e').
  - rewrite bool_decide_false; [unfold ids; by rewrite map_app|].
    intros (e & Heq & He)%elem_of_map. eapply existsb_false in Hex; [|exact He].
    assert (same id new.1 e = true) by (by apply same_spec). congruence.
Qed.

Lemma upsert_nodup new g l : (forall e, id (g e).1 = id e.1) -> NoDup (ids l) -> NoDup (ids (upsert id new g l)).
Proof.
  intros Hg Hl. rewrite upsert_ids by done. case_bool_decide; [done|].
  apply NoDup_app. split; [done|]. split; [|apply NoDup_singleton]. set_solver.
Qed.

Lemma upsert_elem new g l e : e ∈ upsert id new g l ->
  (e ∈ l /\ id e.1 <> id new.1)
  \/ (exists h, h ∈ l /\ id h.1 = id new.1 /\ e = g h) \/ (e = new /\ forall h, h ∈ l -> id h.1 <> id new.1).
Proof.
  unfold upsert. destruct (existsb _ l) eqn:Hex.
  - intros (h & -> & Hh)%elem_of_map. destruct (same id new.1 h) eqn:Hs; [apply same_spec in Hs; eauto 6|].
    left. split; [done|]. intros He. apply same_spec in He. congruence.
  - intros [He| ->%list_elem_of_singleton]%elem_of_app.
    + left. split; [done|]. intros Hid. eapply existsb_false in Hex; [|exact He]. apply same_spec in Hid. congruence.
    + right; right. split; [done|]. intros h Hh Hid. eapply existsb_false in Hex; [|exact Hh]. apply same_spec in Hid. congruence.
Qed.

(** The ids of a dict built by inserting [l] one by one, whatever the updates do. *)
Lemma fold_upsert_ids {B} (f : B -> A * float) (g : B -> A * float -> A * float) (l : list B) acc :
  (forall b e, id e.1 = id (f b).1 -> id (g b e).1 = id e.1) ->
  NoDup (ids acc) ->
  let r := fold_left (fun acc b => upsert id (f b) (fun e => if same id (f b).1 e then g b e else e) acc) l acc in
  NoDup (ids r) /\ forall i, i ∈ ids r <-> i ∈ ids acc \/ exists b, b ∈ l /\ i = id (f b).1.
Proof.
  intros Hg. revert acc. induction l as [|b l IH]; intros acc Hacc; cbn [fold_left].
  - split; [done|]. set_solver.
  - assert (Hid : forall e, id (if same id (f b).1 e then g b e else e).1 = id e.1).
    { intros e. destruct (same id (f b).1 e) eqn:Hs; [|done]. apply Hg. by apply same_spec. }
    destruct (IH (upsert id (f b) (fun e => if same id (f b).1 e then g b e else e) acc)) as [Hn Hi];
      [by apply upsert_nodup|].
    split; [done|]. intros i. rewrite Hi, upsert_ids by done.
    case_bool_decide as Hin; split.
    + intros [?|(b' & ? & ?)]; [by left|right; exists b'; set_solver].
    + intros [?|(b' & [->|?]%elem_of_cons & ->)]; [by left|by left|right; eauto].
    + intros [[?| ->%list_elem_of_singleton]%elem_of_app|(b' & ? & ?)]; [by left|right; exists b; set_solver|right; exists b'; set_solver].
    + intros [?|(b' & [->|?]%elem_of_cons & ->)]; [left; set_solver|left; set_solver|right; eauto].
Qed.

(** [upsert] only ever applies its update to the entry of the id. *)
Lemma upsert_guard new g l :
  upsert id new g l = upsert id new (fun e => if same id new.1 e then g e else e) l.
Proof.
  unfold upsert. destruct (existsb _ l); [|done]. apply map_ext. intros e. by destruct (same id new.1 e).
Qed.

Lemma find_upsert new g l i : (forall e, id (g e).1 = id e.1) ->
  List.find (fun e => Z.eqb (id e.1) i) (upsert id new g l) =
  if Z.eqb (id new.1) i
  then match List.find (fun e => Z.eqb (id e.1) i) l with Some e => Some (g e) | None => Some new end
  else List.find (fun e => Z.eqb (id e.1) i) l.
Proof.
  intros Hg. unfold upsert.
  assert (Hmap : forall l, List.find (fun e => Z.eqb (id e.1) i) (map (fun e => if same id new.1 e then g e else e) l)
      = match List.find (fun e => Z.eqb (id e.1) i) l with Some e => Some (if Z.eqb (id new.1) i then g e else e) | None => None end).
  { clear l. induction l as [|e l IH]; cbn; [done|]. unfold same at 1.
    destruct (Z.eqb_spec (id e.1) (id new.1)) as [He|He].
    - rewrite Hg. destruct (Z.eqb_spec (id e.1) i) as [Hi|Hi]; [|done].
      unfold same. rewrite (proj2 (Z.eqb_eq _ _) He). by rewrite (proj2 (Z.eqb_eq (id new.1) i)) by congruence.
    - destruct (Z.eqb_spec (id e.1) i) as [Hi|Hi]; [|done]. unfold same. rewrite (proj2 (Z.eqb_neq _ _) He).
      by rewrite (proj2 (Z.eqb_neq (id new.1) i)) by congruence. }
  destruct (existsb _ l) eqn:Hex.
  - rewrite Hmap. destruct (Z.eqb_spec (id new.1) i) as [Hi|Hi]; [|by destruct (List.find _ l)].
    destruct (List.find _ l) eqn:Hf; [done|]. exfalso. apply existsb_exists in Hex as (e & He & Hs%same_spec).
    eapply find_none in Hf; [|exact He]. cbn in Hf. apply Z.eqb_neq in Hf. congruence.
  - clear Hmap. induction l as [|e l IH]; cbn.
    + by destruct (Z.eqb (id new.1) i).
    + cbn in Hex. apply orb_false_iff in Hex as [Hs Hex]. unfold same in Hs. apply Z.eqb_neq in Hs.
      destruct (Z.eqb_spec (id e.1) i) as [Hi|Hi]; [|by apply IH].
      by rewrite (proj2 (Z.eqb_neq (id new.1) i)) by congruence.
Qed.
End DictFacts.

(** ** Reciprocal rank fusion *)

Section Fusion.
Context {A : Type} (id : A -> Z).

(** What one leg adds to the score of a chunk *)
Fixpoint shares (i : Z) (rank : nat) (leg : list A) : list float :=
  match leg with
  | [] => []
  | c :: leg => (if Z.eqb (id c) i then [rrf_score rank] else []) ++ shares i (S rank) leg
  end.

(** The score of a chunk: the sum of its shares, leg after leg *)
Definition rrf (legs : list (list A)) (i : Z) : float :=
  fold_left f_add (concat (map (shares i 0) legs)) (f_int 0).

Definition entry (i : Z) (l : list (A * float)) : option (A * float) := List.find (fun e => Z.eqb (id e.1) i) l.

(** The score a dict holds for an id *)
Definition held (i : Z) (l : list (A * float)) : option float := snd <$> entry i l.

#[local] Arguments held : simpl never.

Lemma add_from_held i leg : forall rank l,
  held i (add_from id rank leg l) =
  match held i l with
  | Some s => Some (fold_left f_add (shares i rank leg) s)
  | None => if existsb (fun c => Z.eqb (id c) i) leg then Some (fold_left f_add (shares i rank leg) (f_int 0)) else None
  end.
Proof.
  induction leg as [|c leg IH]; intros rank l; cbn; [by destruct (held i l)|]. rewrite IH.
  unfold held, entry. rewrite find_upsert by done. cbn [fst].
  destruct (Z.eqb_spec (id c) i) as [He|He]; [|done].
  by destruct (List.find _ l).
Qed.

Lemma fold_legs_held i legs : forall l,
  held i (fold_left (add_rrf_scores id) legs l) =
  match held i l with
  | Some s => Some (fold_left f_add (concat (map (shares i 0) legs)) s)
  | None => if existsb (existsb (fun c => Z.eqb (id c) i)) legs
            then Some (fold_left f_add (concat (map (shares i 0) legs)) (f_int 0)) else None
  end.
Proof.
  induction legs as [|leg legs IH]; intros l; cbn; [by destruct (held i l)|].
  rewrite IH. unfold add_rrf_scores. rewrite add_from_held.
  destruct (held i l) as [s|]; rewrite ?fold_left_app; [done|]. destruct (existsb _ leg) eqn:Hleg; [done|]. cbn.
  assert (Hs : forall rank, shares i rank leg = []).
  { clear -Hleg. induction leg as [|c leg IH]; intros rank; cbn in *; [done|].
    apply orb_false_iff in Hleg as [-> Hleg]. by apply IH. }
  by rewrite Hs.
Qed.

Lemma add_from_nodup leg : forall rank (l : list (A * float)), NoDup (ids id l) -> NoDup (ids id (add_from id rank leg l)).
Proof. induction leg as [|c leg IH]; intros rank l Hl; cbn; [done|]. apply IH. by apply upsert_nodup. Qed.

Lemma fold_legs_nodup legs : forall l, NoDup (ids id l) -> NoDup (ids id (fold_left (add_rrf_scores id) legs l)).
Proof. induction legs as [|leg legs IH]; intros l Hl; cbn; [done|]. apply IH. by apply add_from_nodup. Qed.

(** Everything in the dict comes from a leg. *)
Lemma add_from_origin (P : A -> Prop) leg : forall rank l,
  (forall c, c ∈ leg -> P c) -> (forall e, e ∈ l -> P e.1) -> forall e, e ∈ add_from id rank leg l -> P e.1.
Proof.
  induction leg as [|c leg IH]; intros rank l Hleg Hl; cbn; [done|]. apply IH; [intros c' Hc'; apply Hleg; by right|].
  intros e [[He _]|[(h & Hh & _ & ->)|[-> _]]]%upsert_elem; [by apply Hl|by apply (Hl h)|apply Hleg; set_solver].
Qed.

Lemma fold_legs_origin (P : A -> Prop) legs : forall l,
  (forall leg c, leg ∈ legs -> c ∈ leg -> P c) -> (forall e, e ∈ l -> P e.1) ->
  forall e, e ∈ fold_left (add_rrf_scores id) legs l -> P e.1.
Proof.
  induction legs as [|leg legs IH]; intros l Hlegs Hl; cbn; [done|]. apply IH; [set_solver|].
  apply add_from_origin; [intros c Hc; apply (Hlegs leg c); set_solver|done].
Qed.

Lemma held_elem i l s : held i l = Some s -> exists e, e ∈ l /\ id e.1 = i /\ e.2 = s.
Proof.
  unfold held, entry. destruct (List.find _ l) as [e|] eqn:Hf; [|done]. intros [= <-].
  apply find_some in Hf as [He Hi]. apply list_elem_of_In in He. apply Z.eqb_eq in Hi. eauto.
Qed.

Lemma elem_held l e : NoDup (ids id l) -> e ∈ l -> held (id e.1) l = Some e.2.
Proof.
  intros Hn He. unfold held, entry. destruct (List.find _ l) as [e'|] eqn:Hf; cbn.
  - apply find_some in Hf as [He' Hi]. apply list_elem_of_In in He'. apply Z.eqb_eq in Hi.
    by rewrite (NoDup_map_eq (fun e => id e.1) l e' e Hn He' He Hi).
  - apply list_elem_of_In in He. eapply find_none in Hf; [|exact He]. by rewrite Z.eqb_refl in Hf.
Qed.

Lemma rrf_score_weight rank : weight (rrf_score rank) = true.
Proof.
  unfold rrf_score. change (f_int 1) with (S754_finite false 4503599627370496 (-52)). apply f_div_weight, f_add_weight; [done|].
  apply f_int_weight. lia.
Qed.

Lemma rrf_number legs i : number (rrf legs i) = true.
Proof.
  unfold rrf. apply weight_number.
  assert (Hs : Forall (fun x => weight x = true) (concat (map (shares i 0) legs))).
  { apply Forall_concat, Forall_map, Forall_true. intros leg. generalize 0%nat.
    induction leg as [|c leg IH]; intros rank; cbn; [constructor|]. apply Forall_app. split; [|done].
    destruct (Z.eqb _ _); repeat constructor. apply rrf_score_weight. }
  assert (Hz : weight (f_int 0) = true) by done. revert Hz. generalize (f_int 0).
  induction Hs as [|x l Hx _ IH]; intros acc Hacc; cbn; [done|]. apply IH. by apply f_add_weight.
Qed.

(** Reciprocal rank fusion is exact: the pool holds each chunk of the legs once, nothing
    else, in descending order of the sum over the legs of 1 / (60 + rank). *)
Theorem fusion_exact (legs : list (list A)) :
  NoDup (map id (fuse id legs))
  /\ (forall c, c ∈ fuse id legs -> exists leg, leg ∈ legs /\ c ∈ leg)
  /\ (forall leg c, leg ∈ legs -> c ∈ leg -> id c ∈ map id (fuse id legs))
  /\ StronglySorted (fun c c' => f_leb (rrf legs (id c')) (rrf legs (id c)) = true) (fuse id legs).
Proof.
  unfold fuse. set (d := fold_left (add_rrf_scores id) legs []).
  assert (Hn : NoDup (ids id d)) by (apply fold_legs_nodup; constructor).
  assert (Hheld : forall e, e ∈ d -> e.2 = rrf legs (id e.1)).
  { intros e He. pose proof (elem_held d e Hn He) as Hh. unfold d in Hh. rewrite fold_legs_held in Hh. cbn in Hh.
    destruct (existsb _ legs); [|done]. by injection Hh. }
  split_and!.
  - rewrite map_map. change (NoDup (map (fun e => id e.1) (stable_sort by_score d))).
    by rewrite (Permutation_map _ (stable_sort_perm by_score d)).
  - intros c (e & -> & He%elem_of_stable_sort)%elem_of_map. unfold d in He. revert e He.
    apply (fold_legs_origin (fun c => exists leg, leg ∈ legs /\ c ∈ leg)); [eauto|]. intros e He. by apply elem_of_nil in He.
  - intros leg c Hleg Hc. pose proof (fold_legs_held (id c) legs []) as Hh. cbn in Hh.
    assert (Hex : existsb (existsb (fun c' => Z.eqb (id c') (id c))) legs = true).
    { apply existsb_exists. exists leg. split; [by apply list_elem_of_In|]. apply existsb_exists. exists c.
      split; [by apply list_elem_of_In|apply Z.eqb_refl]. }
    rewrite Hex in Hh. apply held_elem in Hh as (e & He & Hi & _). apply elem_of_map. exists e.1. split; [done|].
    apply elem_of_map. exists e. split; [done|]. by apply elem_of_stable_sort.
  - assert (Hsort : StronglySorted (fun x y => by_score x y = true) (stable_sort by_score d)).
    { apply (stable_sort_sorted_on _ (fun e => number e.2 = true)).
      - intros x y Hx Hy. by apply f_leb_total.
      - intros x y z _ _ _ Hxy Hyz. by apply (f_leb_trans _ y.2).
      - apply Forall_forall. intros e He. rewrite Hheld by done. apply rrf_number. }
    assert (Hh : forall e, e ∈ stable_sort by_score d -> e.2 = rrf legs (id e.1)) by (intros e He%elem_of_stable_sort; by apply Hheld).
    clear -Hsort Hh. induction Hsort as [|e l Hl IH Hf]; cbn; [constructor|]. constructor; [apply IH; set_solver|].
    apply Forall_map, Forall_forall. intros e' He'. rewrite Forall_forall in Hf. specialize (Hf e' He').
    unfold by_score in Hf. rewrite !Hh in Hf by set_solver. done.
Qed.
End Fusion.

(** ** Items met once *)

Section Once.
Context {A : Type} (id : A -> Z).

Lemma unseen_cons seen x l :
  unseen id seen (x :: l) =
  if bool_decide (id x ∈ seen) then unseen id seen l
  else (x :: (unseen id ({[id x]} ∪ seen) l).1, (unseen id ({[id x]} ∪ seen) l).2).
Proof. cbn. case_bool_decide; [done|]. by destruct (unseen _ _ _). Qed.

Lemma unseen_elem l : forall seen x, x ∈ (unseen id seen l).1 -> x ∈ l /\ id x ∉ seen.
Proof.
  induction l as [|y l IH]; intros seen x; [by intros ?%elem_of_nil|]. rewrite unseen_cons.
  case_bool_decide as Hy; cbn [fst].
  - intros [Hx Hs]%IH. split; [by right|done].
  - intros [->|[Hx Hs]%IH]%elem_of_cons; [split; [by left|done]|]. split; [by right|set_solver].
Qed.

Lemma unseen_nodup l : forall seen, NoDup (map id (unseen id seen l).1).
Proof.
  induction l as [|y l IH]; intros seen; [constructor|]. rewrite unseen_cons. case_bool_decide as Hy; [done|].
  cbn. constructor; [|done]. intros (x & He & [_ Hx]%unseen_elem)%elem_of_map. set_solver.
Qed.

Lemma unseen_covers l : forall seen x, x ∈ l -> id x ∉ seen -> id x ∈ map id (unseen id seen l).1.
Proof.
  induction l as [|y l IH]; intros seen x; [by intros ?%elem_of_nil|]. rewrite unseen_cons.
  intros [->|Hx]%elem_of_cons Hs; case_bool_decide as Hy; cbn [fst map]; [done|by left|by apply IH|].
  destruct (decide (id x = id y)) as [->|Hn]; [by left|]. right. apply IH; [done|set_solver].
Qed.

Lemma unseen_seen l : forall seen i, i ∈ (unseen id seen l).2 <-> i ∈ seen \/ i ∈ map id l.
Proof.
  induction l as [|y l IH]; intros seen i; [set_solver|]. rewrite unseen_cons. case_bool_decide; cbn [snd map]; rewrite IH; set_solver.
Qed.

(** An item of a place is met at that place or before it. *)
Lemma unseen_place l : forall seen p x, l !! p = Some x -> id x ∉ seen ->
  exists q y, (q <= p)%nat /\ (unseen id seen l).1 !! q = Some y /\ id y = id x.
Proof.
  induction l as [|z l IH]; intros seen p x Hp Hs; [done|]. rewrite unseen_cons. destruct p as [|p]; cbn in Hp.
  - injection Hp as ->. rewrite bool_decide_false by done. by exists 0%nat, x.
  - case_bool_decide as Hz.
    + destruct (IH seen p x Hp Hs) as (q & y & Hq & Hl & Hi). exists q, y. split; [lia|done].
    + cbn [fst]. destruct (decide (id x = id z)) as [He|Hn]; [exists 0%nat, z; split_and!; [lia|done|done]|].
      destruct (IH ({[id z]} ∪ seen) p x Hp) as (q & y & Hq & Hl & Hi); [set_solver|]. exists (S q), y. split_and!; [lia|done|done].
Qed.

(** A prefix of distinct new items is kept as it is. *)
Lemma unseen_prefix l l' : forall seen, NoDup (map id l) -> (forall x, x ∈ l -> id x ∉ seen) ->
  exists t, (unseen id seen (l ++ l')).1 = l ++ t.
Proof.
  induction l as [|x l IH]; intros seen Hn Hs; [by exists (unseen id seen l').1|].
  cbn [map] in Hn. apply NoDup_cons in Hn as [Hx Hn]. change ((x :: l) ++ l') with (x :: (l ++ l')).
  rewrite unseen_cons, bool_decide_false by (apply Hs; by left). cbn [fst].
  destruct (IH ({[id x]} ∪ seen) Hn) as [t Ht].
  - intros y Hy Hin. apply elem_of_union in Hin as [Hin%elem_of_singleton|Hin]; [|by apply (Hs y); [right|]].
    apply Hx. rewrite <- Hin. apply elem_of_map. eauto.
  - exists t. by rewrite Ht.
Qed.
End Once.

Section Merging.
Context {A : Type} (id : A -> Z).

(** Adding the names a question spells out cannot hide what the plain question found:
    the merge holds each passage of the two searches once, the first results of the plain search
    keep their places, and every other one moves down by no more than [insert] places. *)
Theorem alias_merge_bounded (ordinary extended : list A) (keep insert : nat) :
  NoDup (map id ordinary) ->
  let merged := merge_alias_results id ordinary extended keep insert in
  NoDup (map id merged)
  /\ (forall x, x ∈ merged -> x ∈ ordinary \/ x ∈ extended)
  /\ (forall x, x ∈ ordinary \/ x ∈ extended -> id x ∈ map id merged)
  /\ (exists rest, merged = take keep ordinary ++ rest)
  /\ (forall p x, ordinary !! p = Some x ->
        exists q y, (q <= p + insert)%nat /\ merged !! q = Some y /\ id y = id x).
Proof.
  intros Hn. cbv zeta. unfold merge_alias_results. set (new := List.filter _ extended).
  set (l := take keep ordinary ++ take insert new ++ drop keep ordinary ++ extended).
  assert (Hnew : forall x, x ∈ take insert new -> x ∈ extended)
    by (intros x (i & Hi & _)%elem_of_take; apply list_elem_of_lookup_2, elem_of_filter_b in Hi; by destruct Hi).
  assert (Hl : forall x, x ∈ l <-> x ∈ ordinary \/ x ∈ extended).
  { intros x. subst l. rewrite !elem_of_app. rewrite <- (take_drop keep ordinary) at 3. rewrite elem_of_app.
    split; [|naive_solver]. intros [?|[?|[?|?]]]; auto. }
  split_and!.
  - apply unseen_nodup.
  - intros x [Hx _]%unseen_elem. by apply Hl.
  - intros x Hx%Hl. by apply unseen_covers.
  - destruct (unseen_prefix id (take keep ordinary) (take insert new ++ drop keep ordinary ++ extended) ∅) as [t Ht]; [|set_solver|eauto].
    rewrite <- firstn_map. eapply sublist_NoDup; [exact Hn|]. apply sublist_take.
  - intros p x Hp. assert (Hplace : exists p', (p' <= p + insert)%nat /\ l !! p' = Some x).
    { destruct (decide (p < keep)%nat) as [Hk|Hk].
      - exists p. split; [lia|]. unfold l. rewrite lookup_app_l; [by rewrite lookup_take_lt|].
        apply lookup_lt_Some in Hp. rewrite length_take. lia.
      - exists (length (take keep ordinary) + (length (take insert new) + (p - keep)))%nat. split.
        + rewrite !length_take. lia.
        + unfold l. rewrite lookup_app_r by lia. rewrite lookup_app_r by lia. rewrite lookup_app_l.
          * rewrite lookup_drop, <- Hp. f_equal. lia.
          * apply lookup_lt_Some in Hp. rewrite length_drop. lia. }
    destruct Hplace as (p' & Hp' & Hx). destruct (unseen_place id l ∅ p' x Hx) as (q & y & Hq & Hy & Hi); [set_solver|].
    exists q, y. split; [lia|done].
Qed.

(** ** The best scoring of each chunk *)

Definition better (new held : A * float) : A * float := if f_ltb held.2 new.2 then new else held.

Lemma better_either new held : better new held = new \/ better new held = held.
Proof. unfold better. destruct (f_ltb _ _); auto. Qed.

Lemma upsert_better_elem new acc e : e ∈ upsert id new (better new) acc -> e = new \/ e ∈ acc.
Proof.
  intros [[He _]|[(h & Hh & _ & ->)|[-> _]]]%upsert_elem; [by right| |by left].
  destruct (better_either new h) as [->| ->]; auto.
Qed.

Lemma upsert_better_nodup new acc : NoDup (ids id acc) -> NoDup (ids id (upsert id new (better new) acc)).
Proof.
  intros Hn. rewrite upsert_guard. apply upsert_nodup; [|done]. intros e.
  destruct (same id new.1 e) eqn:Hs; [|done]. apply same_spec in Hs. destruct (better_either new e) as [->| ->]; congruence.
Qed.

(** No scoring of a chunk is above the one the dict holds after it was met. *)
Lemma upsert_better_covers new acc e :
  (forall x, x = new \/ x ∈ acc -> number x.2 = true) -> e = new \/ e ∈ acc ->
  exists b, b ∈ upsert id new (better new) acc /\ id b.1 = id e.1 /\ f_leb e.2 b.2 = true.
Proof.
  intros Hnum He. assert (Hrefl : forall x, x = new \/ x ∈ acc -> f_leb x.2 x.2 = true) by (intros; by apply f_leb_refl, Hnum).
  unfold upsert. destruct (existsb (same id new.1) acc) eqn:Hex.
  - assert (Hmap : forall h, h ∈ acc -> id h.1 = id new.1 -> exists b, b ∈ map (fun e => if same id new.1 e then better new e else e) acc
        /\ id b.1 = id new.1 /\ f_leb h.2 b.2 = true /\ f_leb new.2 b.2 = true).
    { intros h Hh Hi. exists (better new h). split.
      - apply elem_of_map. exists h. split; [|done]. by rewrite (proj2 (same_spec id new.1 h) Hi).
      - unfold better. rewrite f_ltb_leb by auto. destruct (f_leb new.2 h.2) eqn:Hle; cbn; [by auto|].
        split_and!; [done|apply f_leb_total; auto|auto]. }
    destruct He as [->|He].
    + apply existsb_exists in Hex as (h & Hh%list_elem_of_In & Hs%same_spec).
      destruct (Hmap h Hh Hs) as (b & Hb & Hi & _ & Hle). eauto.
    + destruct (decide (id e.1 = id new.1)) as [Hi|Hi].
      * destruct (Hmap e He Hi) as (b & Hb & Hib & Hle & _). exists b. by rewrite Hi.
      * exists e. split_and!; [|done|auto]. apply elem_of_map. exists e. split; [|done].
        destruct (same id new.1 e) eqn:Hs; [by apply same_spec in Hs|done].
  - exists e. split_and!; [|done|auto]. apply elem_of_app. destruct He as [->|He]; [right; by left|by left].
Qed.

Lemma best_fold (l : list (A * float)) : forall acc,
  (forall e, e ∈ l \/ e ∈ acc -> number e.2 = true) -> NoDup (ids id acc) ->
  let best := fold_left (fun best new => upsert id new (better new) best) l acc in
  NoDup (ids id best)
  /\ (forall e, e ∈ best -> e ∈ l \/ e ∈ acc)
  /\ (forall e, e ∈ l \/ e ∈ acc -> exists b, b ∈ best /\ id b.1 = id e.1 /\ f_leb e.2 b.2 = true).
Proof.
  induction l as [|new l IH]; intros acc Hnum Hn; cbn [fold_left].
  - split_and!; [done|by right|]. intros e [?%elem_of_nil|He]; [done|]. exists e. split_and!; [done|done|]. apply f_leb_refl. auto.
  - assert (Hnum' : forall x, x = new \/ x ∈ acc -> number x.2 = true)
      by (intros x [->|Hx]; apply Hnum; [left; by left|by right]).
    destruct (IH (upsert id new (better new) acc)) as (Hb & Hin & Hcov).
    + intros e [He|[->|He]%upsert_better_elem]; [apply Hnum; left; by right|auto..].
    + by apply upsert_better_nodup.
    + split_and!; [done| |].
      * intros e [He|[->|He]%upsert_better_elem]%Hin; [left; by right|left; by left|by right].
      * intros e He. assert (Hcase : e ∈ l \/ (e = new \/ e ∈ acc)) by (rewrite elem_of_cons in He; naive_solver).
        destruct Hcase as [He'|He']; [apply Hcov; by left|].
        destruct (upsert_better_covers new acc e Hnum' He') as (b & Hb' & Hi & Hle).
        destruct (Hcov b (or_intror Hb')) as (b' & ? & Hi' & Hle'). exists b'. split_and!; [done|congruence|].
        by apply (f_leb_trans _ b.2).
Qed.

(** Scoring a pool against several rewordings of the question keeps each chunk once, with
    a score one of them gave and none exceeds, best first. *)
Theorem best_scores_exact (scored_sets : list (list (A * float))) :
  length scored_sets <> 1%nat ->
  (forall scored e, scored ∈ scored_sets -> e ∈ scored -> number e.2 = true) ->
  let best := best_score_per_chunk id scored_sets in
  NoDup (map (fun e => id e.1) best)
  /\ (forall e, e ∈ best -> exists scored, scored ∈ scored_sets /\ e ∈ scored)
  /\ (forall scored e, scored ∈ scored_sets -> e ∈ scored -> exists b, b ∈ best /\ id b.1 = id e.1 /\ f_leb e.2 b.2 = true)
  /\ StronglySorted (fun x y => f_leb y.2 x.2 = true) best.
Proof.
  intros Hlen Hnum best.
  assert (Hall : forall e, e ∈ concat scored_sets <-> exists scored, scored ∈ scored_sets /\ e ∈ scored)
    by (intros e; rewrite list_elem_of_In, in_concat; setoid_rewrite list_elem_of_In; naive_solver).
  destruct (best_fold (concat scored_sets) []) as (Hn & Hin & Hcov);
    [intros e [He|?%elem_of_nil]; [|done]; apply Hall in He as (? & ? & ?); eauto|constructor|].
  assert (Hb : best = stable_sort by_score (fold_left (fun best new => upsert id new (better new) best) (concat scored_sets) []))
    by (unfold best, best_score_per_chunk; by destruct scored_sets as [|? [|? ?]]).
  rewrite Hb. clear Hb best. set (d := fold_left _ _ _) in *. split_and!.
  - by rewrite (Permutation_map _ (stable_sort_perm by_score d)).
  - intros e He%elem_of_stable_sort%Hin. destruct He as [He|?%elem_of_nil]; [by apply Hall|done].
  - intros scored e Hs He. destruct (Hcov e) as (b & ? & ? & ?); [left; apply Hall; eauto|]. exists b.
    split; [by apply elem_of_stable_sort|done].
  - apply (stable_sort_sorted_on _ (fun e => number e.2 = true)).
    + intros x y Hx Hy. by apply f_leb_total.
    + intros x y z _ _ _ Hxy Hyz. by apply (f_leb_trans _ y.2).
    + apply Forall_forall. intros e [He|?%elem_of_nil]%Hin; [|done]. apply Hall in He as (? & ? & ?). eauto.
Qed.
End Merging.

(** ** The candidates of the cross-encoder *)

Section CrossEncoder.
Context {A : Type} (id : A -> Z).
Implicit Types ranked : list (A * float).

Lemma zip_seq_elem {B} (l : list B) k i x : (i, x) ∈ zip (seq k (length l)) l <-> (k <= i)%nat /\ l !! (i - k)%nat = Some x.
Proof.
  revert k. induction l as [|y l IH]; intros k; cbn; [split; [by intros ?%elem_of_nil|naive_solver]|].
  rewrite elem_of_cons, IH. split.
  - intros [[= -> ->]|[Hk Hl]]; [split; [lia|by rewrite Nat.sub_diag]|]. split; [lia|]. by replace (i - k)%nat with (S (i - S k)) by lia.
  - intros [Hk Hl]. destruct (decide (i = k)) as [->|Hn]; [rewrite Nat.sub_diag in Hl; left; cbn in Hl; congruence|].
    right. split; [lia|]. by replace (i - k)%nat with (S (i - S k)) in Hl by lia.
Qed.

(** The vector rank of the chunk at a place *)
Definition vector_rank ranked (vector_ranks : gmap Z Z) (i : nat) : option Z :=
  e ← ranked !! i; vector_ranks !! id (e : A * float).1.

Lemma by_vector_elem ranked vector_ranks r i :
  (r, i) ∈ by_vector id ranked vector_ranks <-> vector_rank ranked vector_ranks i = Some r.
Proof.
  unfold by_vector, vector_rank. rewrite list_elem_of_omap. split.
  - intros ([j e] & [_ Hj]%zip_seq_elem & Hr). rewrite Nat.sub_0_r in Hj.
    apply bind_Some in Hr as (r' & Hr & [= <- <-]). by rewrite Hj.
  - intros (e & He & Hr)%bind_Some. exists (i, e). split; [apply zip_seq_elem; rewrite Nat.sub_0_r; split; [lia|done]|].
    by rewrite Hr.
Qed.

Lemma by_vector_nodup ranked vector_ranks : NoDup (map snd (by_vector id ranked vector_ranks)).
Proof.
  unfold by_vector. generalize 0%nat. induction ranked as [|e l IH]; intros k; cbn; [constructor|].
  assert (Hlow : forall r i, (r, i) ∈ omap (fun '(index, e) => rank ← vector_ranks !! id (e : A * float).1; Some (rank, index)) (zip (seq (S k) (length l)) l) -> (S k <= i)%nat).
  { intros r i ([j e'] & [Hj _]%zip_seq_elem & Hr)%list_elem_of_omap. apply bind_Some in Hr as (? & _ & [= _ <-]). lia. }
  destruct (vector_ranks !! _) as [r|]; cbn; [|apply IH]. constructor; [|apply IH].
  intros ([r' i] & He & Hin)%elem_of_map. cbn in He. subst i. apply Hlow in Hin. lia.
Qed.

Lemma rank_leb_spec x y : rank_leb x y = true <-> x.1 < y.1 \/ x.1 = y.1 /\ (x.2 <= y.2)%nat.
Proof. unfold rank_leb. by rewrite orb_true_iff, andb_true_iff, Z.ltb_lt, Z.eqb_eq, Nat.leb_le. Qed.
Lemma rank_leb_total x y : rank_leb x y = false -> rank_leb y x = true.
Proof. rewrite <- not_true_iff_false, !rank_leb_spec. lia. Qed.
Lemma rank_leb_trans x y z : rank_leb x y = true -> rank_leb y z = true -> rank_leb x z = true.
Proof. rewrite !rank_leb_spec. lia. Qed.

Definition lexical_count ranked (lexical_n : Z) : nat := Nat.min (Z.to_nat (Z.max lexical_n 0)) (length ranked).

Lemma select_elem ranked vector_ranks lexical_n vector_n i :
  i ∈ select_candidates id ranked vector_ranks lexical_n vector_n <->
  (i < lexical_count ranked lexical_n)%nat
  \/ (0 < vector_n /\ i ∈ map snd (take (Z.to_nat vector_n) (stable_sort rank_leb (by_vector id ranked vector_ranks)))).
Proof.
  unfold select_candidates. rewrite elem_of_stable_sort, elem_of_dedup, elem_of_app, elem_of_seq. fold (lexical_count ranked lexical_n).
  destruct (Z.ltb_spec 0 vector_n) as [Hv|Hv]; cbn [andb].
  - case_bool_decide as He; cbn [negb]; [|split; (intros [?|?]; [left; lia|right; naive_solver])].
    split; [intros [?|?%elem_of_nil]; [left; lia|done]|]. intros [?|[_ ((r & j) & -> & Hin)%elem_of_map]]; [left; lia|].
    apply elem_of_take in Hin as (k & Hk & _). apply list_elem_of_lookup_2, elem_of_stable_sort, by_vector_elem in Hk.
    unfold vector_rank in Hk. apply bind_Some in Hk as (e & _ & Hr). by rewrite He in Hr.
  - split; [intros [?|?%elem_of_nil]; [left; lia|done]|]. intros [?|[? _]]; [left; lia|lia].
Qed.

(** What is worth the cost of the cross-encoder: the choice is a set of places of the
    ranking in order, with the first [lexical_n], at most [lexical_n + vector_n] in all, and a
    chunk the vector leg found is left out only for [vector_n] chosen ones it ranked as high. *)
Theorem candidates_exact ranked (vector_ranks : gmap Z Z) (lexical_n vector_n : Z) :
  let chosen := select_candidates id ranked vector_ranks lexical_n vector_n in
  NoDup chosen /\ StronglySorted (fun i j => (i <=? j)%nat = true) chosen
  /\ (forall i, i ∈ chosen -> (i < length ranked)%nat)
  /\ (forall i, (i < length ranked)%nat -> Z.of_nat i < lexical_n -> i ∈ chosen)
  /\ (Z.of_nat (length chosen) <= Z.max lexical_n 0 + Z.max vector_n 0)
  /\ (forall i r, vector_rank ranked vector_ranks i = Some r -> i ∉ chosen -> 0 < vector_n ->
        exists js, NoDup js /\ length js = Z.to_nat vector_n
          /\ forall j, j ∈ js -> j ∈ chosen /\ exists r', vector_rank ranked vector_ranks j = Some r' /\ r' <= r).
Proof.
  intros chosen. set (v := stable_sort rank_leb (by_vector id ranked vector_ranks)).
  assert (Hv : forall r i, (r, i) ∈ v <-> vector_rank ranked vector_ranks i = Some r)
    by (intros r i; unfold v; by rewrite elem_of_stable_sort, by_vector_elem).
  assert (Hnv : NoDup (map snd v)) by (unfold v; rewrite (Permutation_map snd (stable_sort_perm rank_leb _)); apply by_vector_nodup).
  split_and!.
  - unfold chosen, select_candidates. rewrite stable_sort_perm. apply NoDup_dedup.
  - apply stable_sort_sorted; intros *; rewrite ?Nat.leb_le, ?Nat.leb_gt; lia.
  - intros i [Hi|[_ ((r & j) & -> & (k & Hk & _)%elem_of_take)%elem_of_map]]%select_elem.
    + unfold lexical_count in Hi. lia.
    + apply list_elem_of_lookup_2, Hv, bind_Some in Hk as (e & He & _). by eapply lookup_lt_Some.
  - intros i Hi Hl. apply select_elem. left. unfold lexical_count. lia.
  - assert (Hlen : forall a b : list nat, (length (dedup (a ++ b)) <= length a + length b)%nat).
    { intros a b. rewrite <- length_app. apply submseteq_length, NoDup_submseteq; [apply NoDup_dedup|]. intros x. apply elem_of_dedup. }
    unfold chosen, select_candidates. rewrite stable_sort_length. eapply Z.le_trans; [apply inj_le, Hlen|].
    rewrite length_seq, Nat2Z.inj_add. apply Z.add_le_mono; [lia|].
    destruct (0 <? vector_n) eqn:Hp; [|cbn; lia]. destruct (negb _); cbn [andb]; [|cbn; lia].
    rewrite length_map, length_take. lia.
  - intros i r Hr Hni Hp. exists (map snd (take (Z.to_nat vector_n) v)). apply Hv in Hr as Hin.
    apply list_elem_of_lookup_1 in Hin as [k Hk].
    assert (Hge : (Z.to_nat vector_n <= k)%nat).
    { destruct (decide (k < Z.to_nat vector_n)%nat) as [Hlt|]; [|lia]. exfalso. apply Hni, select_elem. right. split; [done|].
      apply elem_of_map. exists (r, i). split; [done|]. apply elem_of_take. eauto. }
    split_and!.
    + rewrite <- firstn_map. eapply sublist_NoDup; [exact Hnv|]. apply sublist_take.
    + apply lookup_lt_Some in Hk. rewrite length_map, length_take. lia.
    + intros j Hj. split; [apply select_elem; by right|].
      apply elem_of_map in Hj as ((r' & j') & -> & (k' & Hk' & Hlt)%elem_of_take). exists r'. cbn [snd].
      split; [apply Hv; by eapply list_elem_of_lookup_2|].
      assert (Hs : StronglySorted (fun x y => rank_leb x y = true) v) by (apply stable_sort_sorted; [apply rank_leb_total|apply rank_leb_trans]).
      assert (Hle : rank_leb (r', j') (r, i) = true); [|apply rank_leb_spec in Hle; cbn in Hle; lia].
      rewrite <- (take_drop (Z.to_nat vector_n) v) in Hs.
      apply (sorting.StronglySorted_app_1_elem_of _ _ _ _ _ Hs); [apply elem_of_take; eauto|].
      apply list_elem_of_lookup. exists (k - Z.to_nat vector_n)%nat. rewrite lookup_drop, <- Hk. f_equal. lia.
Qed.

(** ** Promotion *)

Lemma lookup_shift e l k (js : list nat) : (forall i, i ∈ js -> (S k <= i)%nat) ->
  omap (fun i => l !! (i - S k)%nat) js = omap (fun i => ((e :: l) : list (A * float)) !! (i - k)%nat) js.
Proof.
  induction js as [|i js IH]; intros Hge; [done|]. cbn -[lookup]. rewrite IH by (intros j Hj; apply Hge; by right).
  assert (Hi : (S k <= i)%nat) by (apply Hge; by left). by replace (i - k)%nat with (S (i - S k)) by lia.
Qed.

Lemma lookup_all ranked k : omap (fun i => ranked !! (i - k)%nat) (seq k (length ranked)) = ranked.
Proof.
  revert k. induction ranked as [|e l IH]; intros k; cbn -[lookup]; [done|]. rewrite Nat.sub_diag. cbn -[lookup]. f_equal.
  rewrite <- lookup_shift; [apply IH|]. intros i Hi%elem_of_seq. lia.
Qed.

Lemma not_taken_indices ranked (candidates : list nat) k :
  omap (fun '(index, item) => if bool_decide (index ∈ candidates) then None else Some item) (zip (seq k (length ranked)) ranked)
  = omap (fun i => ranked !! (i - k)%nat) (List.filter (fun i => negb (bool_decide (i ∈ candidates))) (seq k (length ranked))).
Proof.
  revert k. induction ranked as [|e l IH]; intros k; cbn; [done|]. rewrite IH.
  rewrite (lookup_shift e) by (intros i [Hi _]%elem_of_filter_b; apply elem_of_seq in Hi; lia).
  case_bool_decide; cbn -[lookup]; [done|]. by rewrite Nat.sub_diag.
Qed.

(** The items at distinct places and the rest of the ranking are the ranking. *)
Lemma taken_and_rest ranked (candidates : list nat) :
  NoDup candidates -> (forall i, i ∈ candidates -> (i < length ranked)%nat) ->
  omap (fun i => ranked !! i) candidates ++ not_taken ranked candidates ≡ₚ ranked.
Proof.
  intros Hn Hlt. unfold not_taken. rewrite not_taken_indices.
  assert (Hz : forall js : list nat, omap (fun i => ranked !! (i - 0)%nat) js = omap (fun i => ranked !! i) js).
  { intros js. induction js as [|i js IH]; cbn -[lookup]; [done|]. by rewrite Nat.sub_0_r, IH. }
  rewrite Hz. transitivity (omap (fun i => ranked !! i) (seq 0 (length ranked))); [|by rewrite <- Hz, lookup_all].
  rewrite <- omap_app. apply omap_Permutation. apply NoDup_Permutation.
  - apply NoDup_app. split; [done|]. split.
    + intros i Hi [_ Hc]%elem_of_filter_b. by rewrite bool_decide_true in Hc.
    + apply NoDup_ListNoDup, List.NoDup_filter, seq_NoDup.
  - apply NoDup_seq.
  - intros i. rewrite elem_of_app, elem_of_filter_b, elem_of_seq, negb_true_iff, bool_decide_eq_false. split.
    + intros [Hi|[Hi _]]; [apply Hlt in Hi; lia|lia].
    + intros Hi. destruct (decide (i ∈ candidates)); [by left|right; split; [lia|done]].
Qed.

(** An item of the result is its lexical self, or was raised to the floor near the top. *)
Definition raised ranked (assist_top_k : Z) (assist_floor : float) (p : nat) (e : A * float) : Prop :=
  e ∈ ranked
  \/ Z.of_nat p < assist_top_k /\ e.2 = assist_floor
     /\ exists lexical, (e.1, lexical) ∈ ranked /\ f_ltb lexical assist_floor = true.

Lemma promoted_runs ranked assist_top_k assist_floor min_p scored : forall position,
  (forall i, i ∈ map snd scored -> (i < length ranked)%nat) ->
  exists head, promoted ranked position scored assist_top_k assist_floor min_p = Return head
    /\ length head = length scored
    /\ map fst head = map fst (omap (fun i => ranked !! i) (map snd scored))
    /\ forall p e, head !! p = Some e -> raised ranked assist_top_k assist_floor (position + p) e.
Proof.
  induction scored as [|[probability i] scored IH]; intros position Hlt; cbn -[lookup].
  - exists []. split_and!; done.
  - destruct (lookup_lt_is_Some_2 ranked i) as [[c lexical] Hi]; [apply Hlt; by left|]. rewrite Hi.
    destruct (IH (S position)) as (head & -> & Hlen & Hm & Hh); [intros j Hj; apply Hlt; by right|].
    eexists. split; [done|]. cbn -[lookup]. split_and!; [by rewrite Hlen|by rewrite Hm|].
    intros [|p] e He; cbn in He.
    + injection He as <-. rewrite Nat.add_0_r. apply list_elem_of_lookup_2 in Hi.
      destruct (Z.ltb_spec (Z.of_nat position) assist_top_k); cbn; [|by left].
      destruct (f_leb min_p probability); [|by left]. unfold f_max. destruct (f_ltb lexical assist_floor) eqn:Hlt'; [|by left].
      right. split_and!; [done|done|]. eauto.
    + apply Hh in He. by replace (position + S p)%nat with (S position + p)%nat by lia.
Qed.

Lemma by_cross_spec x y : number x.1 = true -> number y.1 = true ->
  by_cross x y = true <-> f_leb y.1 x.1 = true /\ (f_leb x.1 y.1 = true -> (x.2 <= y.2)%nat).
Proof.
  intros Hx Hy. unfold by_cross. rewrite !f_ltb_leb by done. rewrite orb_true_iff, andb_true_iff, Nat.leb_le.
  pose proof (f_leb_total _ _ Hx Hy). pose proof (f_leb_total _ _ Hy Hx).
  destruct (f_leb x.1 y.1), (f_leb y.1 x.1); cbn; intuition (congruence || lia).
Qed.

Lemma by_cross_total x y : number x.1 = true -> number y.1 = true -> by_cross x y = false -> by_cross y x = true.
Proof.
  intros Hx Hy. rewrite <- not_true_iff_false, !by_cross_spec by done.
  pose proof (f_leb_total _ _ Hx Hy). pose proof (f_leb_total _ _ Hy Hx).
  destruct (decide (x.2 <= y.2)%nat), (f_leb x.1 y.1), (f_leb y.1 x.1); intuition (congruence || lia).
Qed.

Lemma by_cross_trans x y z : number x.1 = true -> number y.1 = true -> number z.1 = true ->
  by_cross x y = true -> by_cross y z = true -> by_cross x z = true.
Proof.
  intros Hx Hy Hz. rewrite !by_cross_spec by done. intros [H1 H2] [H3 H4]. split; [by apply (f_leb_trans _ y.1)|].
  intros Hxz. pose proof (f_leb_trans _ _ _ Hxz H3). pose proof (f_leb_trans _ _ _ H1 Hxz). specialize (H2 H). specialize (H4 H0). lia.
Qed.

Lemma StronglySorted_impl_in {B} (R S : B -> B -> Prop) (l : list B) :
  StronglySorted R l -> (forall x y, x ∈ l -> y ∈ l -> R x y -> S x y) -> StronglySorted S l.
Proof.
  induction 1 as [|x l Hl IH Hx]; intros Himp; constructor.
  - apply IH. intros y z Hy Hz. apply Himp; by right.
  - rewrite Forall_forall in Hx |- *. intros y Hy. apply Himp; [by left|by right|auto].
Qed.

(** A promotion with a score for each candidate returns the pool, reordered. *)
Lemma promote_runs ranked candidates (cross_scores : list float) (assist_top_k : Z) (assist_floor min_p : float) :
  NoDup candidates -> (forall i, i ∈ candidates -> (i < length ranked)%nat) -> length cross_scores = length candidates ->
  exists head, promote ranked candidates cross_scores assist_top_k assist_floor min_p = Return (head ++ not_taken ranked candidates)
    /\ length head = length candidates
    /\ map fst (head ++ not_taken ranked candidates) ≡ₚ map fst ranked
    /\ (forall p e, (head ++ not_taken ranked candidates) !! p = Some e -> raised ranked assist_top_k assist_floor p e)
    /\ map fst head = map fst (omap (fun i => ranked !! i) (map snd (stable_sort by_cross (zip cross_scores candidates)))).
Proof.
  intros Hn Hlt Hlen. unfold promote. rewrite (proj2 (Nat.eqb_eq _ _)) by done. cbn [negb].
  set (scored := stable_sort by_cross (zip cross_scores candidates)).
  assert (Hs : scored ≡ₚ zip cross_scores candidates) by apply stable_sort_perm.
  assert (Hsnd : map snd scored ≡ₚ candidates) by (rewrite Hs; change (map snd) with (fmap (M := list) (@snd float nat)); by rewrite snd_zip by lia).
  destruct (promoted_runs ranked assist_top_k assist_floor min_p scored 0) as (head & -> & Hhl & Hhm & Hh).
  { intros i Hi. rewrite Hsnd in Hi. by apply Hlt. }
  exists head. split; [done|]. split_and!.
  - rewrite Hhl. unfold scored. rewrite stable_sort_length, length_zip_with. lia.
  - rewrite map_app, Hhm, <- map_app. apply Permutation_map. rewrite Hsnd. by apply taken_and_rest.
  - intros p e Hp. destruct (decide (p < length head)%nat) as [Hp'|Hp'].
    + rewrite lookup_app_l in Hp by done. by apply (Hh p).
    + rewrite lookup_app_r in Hp by lia. left. apply list_elem_of_lookup_2, list_elem_of_omap in Hp as ([i e'] & [_ Hi]%zip_seq_elem & He).
      apply list_elem_of_lookup_2 in Hi. case_bool_decide; by simplify_eq.
  - done.
Qed.

(** The cross-encoder reorders and loses nothing: with a score for each candidate, what
    [promote] returns holds the chunks of the ranking, no more and no less, the candidates first,
    best first, then the others in their order, each with its lexical score but for the first
    [assist_top_k], whose score may be raised to the floor, never lowered. *)
Theorem promotion_keeps_pool ranked (vector_ranks : gmap Z Z) (lexical_n vector_n assist_top_k : Z)
    (cross_scores : list float) (assist_floor min_p : float) :
  let chosen := select_candidates id ranked vector_ranks lexical_n vector_n in
  length cross_scores = length chosen -> (forall s, s ∈ cross_scores -> number s = true) ->
  exists result, promote ranked chosen cross_scores assist_top_k assist_floor min_p = Return result
    /\ map fst result ≡ₚ map fst ranked
    /\ (forall p e, result !! p = Some e -> raised ranked assist_top_k assist_floor p e)
    /\ drop (length chosen) result = not_taken ranked chosen
    /\ exists order, order ≡ₚ zip cross_scores chosen /\ StronglySorted (fun x y => f_leb y.1 x.1 = true) order
         /\ map fst (take (length chosen) result) = map fst (omap (fun i => ranked !! i) (map snd order)).
Proof.
  intros chosen Hlen Hnum. destruct (candidates_exact ranked vector_ranks lexical_n vector_n) as (Hn & _ & Hlt & _). fold chosen in Hn, Hlt.
  destruct (promote_runs ranked chosen cross_scores assist_top_k assist_floor min_p Hn Hlt Hlen) as (head & Hr & Hhl & Hp & Hh & Hm).
  eexists. split; [exact Hr|]. split_and!; [done|done|by rewrite <- Hhl, drop_app_length|].
  exists (stable_sort by_cross (zip cross_scores chosen)). split; [apply stable_sort_perm|]. split; [|by rewrite <- Hhl, take_app_length].
  assert (Hz : Forall (fun e => number e.1 = true) (zip cross_scores chosen))
    by (apply Forall_forall; intros [s i] Hi%elem_of_zip_l; by apply Hnum).
  apply (StronglySorted_impl_in (fun x y => by_cross x y = true)).
  - by apply (stable_sort_sorted_on _ (fun e => number e.1 = true)); [apply by_cross_total|apply by_cross_trans|].
  - rewrite Forall_forall in Hz. intros x y Hx%elem_of_stable_sort Hy%elem_of_stable_sort [Hle _]%by_cross_spec; auto.
Qed.
End CrossEncoder.

(** ** Concrete searches: the items are their ids *)

Definition tenth (n : Z) : float := f_div (f_int n) (f_int 10).
Definition three : list (Z * float) := [(1, tenth 9); (2, tenth 5); (3, tenth 3)].
(** The vector leg found the third first. *)
Definition third_first : gmap Z Z := {[3 := 1; 1 := 7]}.

Example fused : fuse (fun x => x) [[1; 2]; [3; 2]] = [2; 1; 3].
Proof. vm_compute. reflexivity. Qed.

(** Reordering by the model alone; the counts have to agree. *)
Example reordered : reorder_by_cross_encoder [1; 2] [tenth 1; tenth 4] = Return [2; 1]
  /\ reorder_by_cross_encoder [1; 2] [tenth 1] = Raise (ValueError "reorder_by_cross_encoder").
Proof. split; vm_compute; reflexivity. Qed.

Lemma alias_merge_bounded_witness :
  merge_alias_results (fun x => x) [1; 2; 3] [5; 3; 6; 7] KEEP_ORDINARY 1 = [1; 2; 5; 3; 6; 7]
  /\ exists q y, (q <= 2 + 1)%nat
       /\ merge_alias_results (fun x => x) [1; 2; 3] [5; 3; 6; 7] KEEP_ORDINARY 1 !! q = Some y /\ y = 3.
Proof.
  split; [vm_compute; reflexivity|].
  apply (alias_merge_bounded (fun x : Z => x) [1; 2; 3] [5; 3; 6; 7] KEEP_ORDINARY 1); [|reflexivity].
  apply (bool_decide_unpack _). vm_compute. exact I.
Defined.

Lemma best_scores_exact_witness :
  best_score_per_chunk (fun x => x) [three; [(3, tenth 8)]] = [(1, tenth 9); (3, tenth 8); (2, tenth 5)]
  /\ NoDup (map fst (best_score_per_chunk (fun x => x) [three; [(3, tenth 8)]])).
Proof.
  split; [vm_compute; reflexivity|].
  apply (best_scores_exact (fun x : Z => x) [three; [(3, tenth 8)]]); [done|].
  intros scored e Hs He. assert (Hall : Forall (Forall (fun e : Z * float => number e.2 = true)) [three; [(3, tenth 8)]])
    by (repeat constructor).
  rewrite Forall_forall in Hall. specialize (Hall scored Hs). rewrite Forall_forall in Hall. by apply Hall.
Defined.

Lemma promotion_keeps_pool_witness :
  select_candidates (fun x => x) three third_first 1 1 = [0%nat; 2%nat]
  /\ exists result, promote three [0%nat; 2%nat] [tenth 2; tenth 7] 1 (tenth 4) (tenth 6) = Return result
       /\ result = [(3, tenth 4); (1, tenth 9); (2, tenth 5)] /\ map fst result ≡ₚ [1; 2; 3].
Proof.
  split; [vm_compute; reflexivity|].
  destruct (promotion_keeps_pool (fun x : Z => x) three third_first 1 1 1 [tenth 2; tenth 7] (tenth 4) (tenth 6))
    as (result & Hr & Hp & _); [vm_compute; reflexivity| |].
  - intros s [->|[->|?%elem_of_nil]%elem_of_cons]%elem_of_cons; done.
  - exists result. split; [exact Hr|]. split; [|exact Hp].
    assert (Hv : promote three [0%nat; 2%nat] [tenth 2; tenth 7] 1 (tenth 4) (tenth 6) = Return [(3, tenth 4); (1, tenth 9); (2, tenth 5)])
      by (vm_compute; reflexivity).
    change (select_candidates _ _ _ _ _) with [0%nat; 2%nat] in Hr. congruence.
Defined.
