(* ===== verification/Chunks.v ===== *)
(** * Splitting text into retrieval chunks

    src/rag/chunker.py cuts an article into parent chunks and the smaller children that are
    embedded: a pure function of a text. The theorems say that no visible character is lost
    and how long the pieces get. *)

From S2P Require Import Prelude PyText.
From Stdlib Require String.
#[local] Open Scope string_scope.
#[local] Open Scope list_scope.
#[local] Open Scope Z_scope.

(** [str.isdecimal] of one character, what [\d] accepts: a table of Python's Unicode database. *)
Class PyDigits := { decimal : Z -> bool }.

(** ** Splitting with regular expressions *)

Definition newline : Z := 10.

(** The length of the leading white space of [s]. *)
Fixpoint leading_spaces (s : pystr) : nat :=
  match s with
  | c :: s' => if is_space c then S (leading_spaces s') else 0
  | [] => 0
  end%nat.

(** The length of the longest match of [\s*\n] at the start of [s], 0 when there is none. *)
Fixpoint gap (s : pystr) : nat :=
  match s with
  | c :: s' =>
      if is_space c then
        match gap s' with
        | O => if (c =? newline)%Z then 1 else 0
        | n => S n
        end
      else 0
  | [] => 0
  end%nat.

(** [re.split(r"\n\s*\n", s)]: [skip] characters of a match are still to be passed over,
    [current] is the part being read, in reverse. *)
Fixpoint split_blank_from (skip : nat) (current s : pystr) : list pystr :=
  match s with
  | [] => [rev current]
  | c :: s' =>
      match skip with
      | S k => split_blank_from k current s'
      | O =>
          if (c =? newline) && negb (Nat.eqb (gap s') 0)
          then rev current :: split_blank_from (gap s') [] s'
          else split_blank_from 0 (c :: current) s'
      end
  end.
Definition split_blank (s : pystr) : list pystr := split_blank_from 0 [] s.

Definition sentence_end (c : Z) : bool := existsb (Z.eqb c) [46; 33; 63].

(** [re.split(r"(?<=[.!?])\s+", s)]; [after_end]: the character before is a full stop,
    exclamation or question mark. *)
Fixpoint split_after_from (after_end : bool) (skip : nat) (current s : pystr) : list pystr :=
  match s with
  | [] => [rev current]
  | c :: s' =>
      match skip with
      | S k => split_after_from false k current s'
      | O =>
          if after_end && is_space c
          then rev current :: split_after_from false (leading_spaces s') [] s'
          else split_after_from (sentence_end c) 0 (c :: current) s'
      end
  end.

(** [s.splitlines()]; [after_cr]: a carriage return was just read. *)
Definition line_break (c : Z) : bool :=
  existsb (Z.eqb c) [10; 11; 12; 13; 28; 29; 30; 133; 8232; 8233].
Fixpoint lines_from (after_cr : bool) (current s : pystr) : list pystr :=
  match s with
  | [] => match current with [] => [] | _ => [rev current] end
  | c :: s' =>
      if after_cr && (c =? newline) then lines_from false current s'
      else if line_break c then rev current :: lines_from (c =? 13) [] s'
      else lines_from false (c :: current) s'
  end.
Definition splitlines (s : pystr) : list pystr := lines_from false [] s.

Section Chunker.
Context `{PyDigits}.

(** ** Lines *)

Definition upper_case (c : Z) : bool := (65 <=? c) && (c <=? 90).
(** [\[A-Z0-9 /&:()_-\]] *)
Definition heading_char (c : Z) : bool :=
  upper_case c || ((48 <=? c) && (c <=? 57)) || existsb (Z.eqb c) [32; 47; 38; 58; 40; 41; 95; 45].

(** The number of leading characters equal to [x]. *)
Fixpoint leading (x : Z) (s : pystr) : nat :=
  match s with
  | c :: s' => if (c =? x)%Z then S (leading x s') else 0
  | [] => 0
  end%nat.

(** [#{1,6}\s+] at the start *)
Definition hash_heading (s : pystr) : bool :=
  let n := leading 35 s in
  (1 <=? n)%nat && (n <=? 6)%nat && match drop n s with c :: _ => is_space c | [] => false end.

(** [\[A-Z\]\[A-Z0-9 /&:()_-\]{2,}:\s*$] on a stripped line *)
Definition capital_heading (s : pystr) : bool :=
  match s with
  | c :: s' =>
      match rev s' with
      | last :: middle => upper_case c && (last =? 58) && (2 <=? length middle)%nat && forallb heading_char middle
      | [] => false
      end
  | [] => false
  end.

Definition _is_heading (line : pystr) : bool :=
  let clean := strip line in
  truthy clean && (hash_heading clean || capital_heading clean).

Definition count_lines (p : pystr -> bool) (lines : list pystr) : nat := length (List.filter p lines).
Definition _is_table (lines : list pystr) : bool :=
  (2 <=? length lines)%nat && (2 <=? count_lines (existsb (Z.eqb 124)) lines)%nat.

(** [_LIST_RE] at the start of a line *)
Definition list_item (line : pystr) : bool :=
  match drop (leading_spaces line) line with
  | c :: s =>
      if existsb (Z.eqb c) [45; 42; 43] then match s with d :: _ => is_space d | [] => false end
      else
        match span decimal (c :: s) with
        | (_ :: _, d :: e :: _) => existsb (Z.eqb d) [46; 41] && is_space e
        | _ => false
        end
  | [] => false
  end.
Definition _is_list (lines : list pystr) : bool :=
  (2 <=? length lines)%nat && (2 <=? count_lines list_item lines)%nat.

Definition _split_sentences (text : pystr) : list pystr :=
  List.filter truthy (map strip (split_after_from false 0 [] (strip text))).

(** ** Blocks *)

Record block := mkBlock { b_text : pystr; b_type : string; b_heading : pystr }.
#[export] Instance eta_block : Eta block := fun b => mkBlock (b_text b) (b_type b) (b_heading b).

(** [first.lstrip("#").strip().rstrip(":")\[:255\]] *)
Definition heading_of (first : pystr) : pystr :=
  upto 255 (drop_while_end (Z.eqb 58) (strip (drop_while (Z.eqb 35) first))).

(** One part between blank lines, under the heading active before it: its blocks and the
    heading active after it. *)
Definition part_blocks (active : pystr) (raw : pystr) : list block * pystr :=
  let clean := strip raw in
  let lines := map rstrip (List.filter (fun l => truthy (strip l)) (splitlines clean)) in
  match lines with
  | [] => ([], active)
  | first :: _ =>
      if _is_heading (strip first) then
        ([mkBlock clean "heading" (heading_of (strip first))], heading_of (strip first))
      else if _is_table lines then ([mkBlock (join [newline] lines) "table" active], active)
      else if _is_list lines then ([mkBlock (join [newline] lines) "list" active], active)
      else (map (fun s => mkBlock s "text" active) (_split_sentences clean), active)
  end.

Fixpoint blocks_from (active : pystr) (raws : list pystr) : list block :=
  match raws with
  | [] => []
  | raw :: raws' => let '(bs, active') := part_blocks active raw in bs ++ blocks_from active' raws'
  end.

Definition _blocks (text : pystr) (heading : option pystr) : list block :=
  blocks_from (strip (default [] heading)) (split_blank text).

(** ** Pieces *)

(** [text\[i:i+size\]] for [i] in [range(0, len(text), size)], for a positive size. *)
Fixpoint slices_from (size room : nat) (current s : pystr) : list pystr :=
  match s with
  | [] => [rev current]
  | c :: s' =>
      match room with
      | O => rev current :: slices_from size (pred size) [c] s'
      | S r => slices_from size r (c :: current) s'
      end
  end.
Definition slices (size : Z) (s : pystr) : list pystr := slices_from (Z.to_nat size) (Z.to_nat size) [] s.

Definition nonempty {A} (l : list A) : bool := match l with [] => false | _ => true end.

(** Lines of a table or a list, joined while they fit; a single line is never cut. *)
Fixpoint pack_lines (size : Z) (current : list pystr) (lines : list pystr) : list pystr :=
  match lines with
  | [] => if nonempty current then [join [newline] current] else []
  | line :: lines' =>
      if nonempty current && (size <? len (join [newline] (current ++ [line])))
      then join [newline] current :: pack_lines size [line] lines'
      else pack_lines size (current ++ [line]) lines'
  end.

(** Sentences, joined while they fit; a single sentence is never cut. *)
Fixpoint pack_sentences (size : Z) (running : pystr) (sentences : list pystr) : list pystr :=
  match sentences with
  | [] => if truthy running then [running] else []
  | sentence :: sentences' =>
      let candidate := strip (running ++ [32] ++ sentence) in
      if truthy running && (size <? len candidate)
      then running :: pack_sentences size sentence sentences'
      else pack_sentences size candidate sentences'
  end.

Definition _split_large_block (size : Z) (b : block) : list block :=
  if len (b_text b) <=? size then [b]
  else
    let texts :=
      if existsb (String.eqb (b_type b)) ["table"; "list"] then pack_lines size [] (splitlines (b_text b))
      else
        let sentences := _split_sentences (b_text b) in
        if (length sentences <=? 1)%nat then slices size (b_text b)
        else pack_sentences size [] sentences in
    map (fun t => b <| b_text := t |>) texts.

(** ** Packing *)

(** The blocks collected since the last flush, as one chunk. *)
Definition merged (current : list block) : block :=
  let is_type (t : string) := existsb (fun b => String.eqb (b_type b) t) current in
  mkBlock (strip (join [newline; newline] (map b_text current)))
    (if is_type "table" then "table" else if is_type "list" then "list"
     else if is_type "heading" then "heading" else "text")
    (match List.find (fun b => truthy (b_heading b)) (rev current) with Some b => b_heading b | None => [] end).

Record packing := mkPacking { pk_packed : list block; pk_current : list block; pk_length : Z }.

(** The tail of a text chunk that the next chunk starts with. *)
Definition seed (overlap : Z) (done : block) : list block :=
  if negb (overlap =? 0) && String.eqb (b_type done) "text" && truthy (last_n overlap (b_text done))
  then [mkBlock (last_n overlap (b_text done)) "text" (b_heading done)] else [].

Definition one_if (b : bool) : Z := if b then 1 else 0.

Definition pack_piece (size overlap : Z) (k : packing) (piece : block) : packing :=
  let proposed := pk_length k + len (b_text piece) + one_if (nonempty (pk_current k)) in
  let k :=
    if nonempty (pk_current k) && (size <? proposed) then
      let done := merged (pk_current k) in
      mkPacking (pk_packed k ++ [done]) (seed overlap done) (len (concat (map b_text (seed overlap done))))
    else k in
  mkPacking (pk_packed k) (pk_current k ++ [piece])
    (pk_length k + len (b_text piece) + one_if (negb (pk_length k =? 0))).

Definition _pack (blocks : list block) (size overlap : Z) : list block :=
  let k := fold_left (pack_piece size overlap) (concat (map (_split_large_block size) blocks))
             (mkPacking [] [] 0) in
  List.filter (fun b => truthy (b_text b))
    (pk_packed k ++ if nonempty (pk_current k) then [merged (pk_current k)] else []).

Definition sliding_chunks (text : pystr) (size overlap : Z) : list pystr :=
  map b_text (_pack (_blocks text None) size overlap).

Record parent_chunk := mkParent {
  pc_index : Z;
  pc_text : pystr;
  pc_type : string;
  pc_heading : option pystr;
  pc_children : list pystr
}.

Definition create_parent_child_chunks (text : pystr) (heading : option pystr) : list parent_chunk :=
  imap (fun index parent => mkParent (Z.of_nat index) (b_text parent) (b_type parent)
          (match b_heading parent with
           | [] => match heading with Some (c :: h) => Some (c :: h) | _ => None end
           | h => Some h
           end)
          (sliding_chunks (b_text parent) 250 60))
    (_pack (_blocks text heading) 1800 250).
End Chunker.

(** ** Visible text *)

(** The characters of a text that are not white space, in order. *)
Definition visible (s : pystr) : pystr := List.filter (fun c => negb (is_space c)) s.

Lemma visible_app s t : visible (s ++ t) = visible s ++ visible t.
Proof. apply List.filter_app. Qed.

Lemma visible_spaces s : Forall (fun c => is_space c = true) s -> visible s = [].
Proof. induction 1 as [|c s Hc _ IH]; cbn; [done|]. by rewrite Hc. Qed.

Lemma visible_space c s : is_space c = true -> visible (c :: s) = visible s.
Proof. intros Hc. cbn. by rewrite Hc. Qed.

Lemma visible_strip s : visible (strip s) = visible s.
Proof.
  destruct (strip_spec s) as (pre & suf & Hs & Hp & Hq). rewrite Hs at 2.
  by rewrite !visible_app, (visible_spaces _ Hp), (visible_spaces _ Hq), app_nil_r.
Qed.

Lemma visible_rstrip s : visible (rstrip s) = visible s.
Proof.
  destruct (drop_while_end_split is_space s) as (suf & Hs & Hq). rewrite Hs at 2.
  by rewrite visible_app, (visible_spaces _ Hq), app_nil_r.
Qed.

Lemma visible_snoc s c t : visible (s ++ [c]) ++ t = visible s ++ visible [c] ++ t.
Proof. by rewrite visible_app, <- app_assoc. Qed.

Lemma visible_concat_map (f : pystr -> pystr) l :
  (forall s, visible (f s) = visible s) -> visible (concat (map f l)) = visible (concat l).
Proof. intros Hf. induction l as [|s l IH]; cbn; [done|]. by rewrite !visible_app, Hf, IH. Qed.

(** Dropping parts without visible text. *)
Lemma visible_concat_filter (p : pystr -> bool) l :
  (forall s, p s = false -> visible s = []) -> visible (concat (List.filter p l)) = visible (concat l).
Proof.
  intros Hp. induction l as [|s l IH]; [done|]. cbn [List.filter concat]. rewrite visible_app.
  destruct (p s) eqn:Hs; cbn [concat]; rewrite ?visible_app, IH; [done|]. by rewrite (Hp s Hs).
Qed.

Lemma visible_join sep l : visible sep = [] -> visible (join sep l) = visible (concat l).
Proof.
  intros Hsep. induction l as [|s l IH]; [done|]. rewrite join_cons. cbn [concat]. rewrite !visible_app.
  destruct l; [done|]. by rewrite visible_app, Hsep, IH.
Qed.

Lemma truthy_false s : truthy s = false -> s = [].
Proof. by destruct s. Qed.

(** ** The splitters keep the visible text *)

Lemma gap_visible s : visible (drop (gap s) s) = visible s.
Proof.
  induction s as [|c s IH]; [done|]. cbn [gap]. destruct (is_space c) eqn:Hc; [|done].
  rewrite (visible_space c s Hc). destruct (gap s) as [|n].
  - destruct (c =? newline); cbn [drop]; [done|]. by apply visible_space.
  - exact IH.
Qed.

Lemma leading_visible s : visible (drop (leading_spaces s) s) = visible s.
Proof.
  induction s as [|c s IH]; [done|]. cbn [leading_spaces]. destruct (is_space c) eqn:Hc; [|done].
  by rewrite (visible_space c s Hc).
Qed.

Lemma newline_space c : (c =? newline) = true -> is_space c = true.
Proof. intros ->%Z.eqb_eq. reflexivity. Qed.

Lemma split_blank_visible skip current s :
  visible (concat (split_blank_from skip current s)) = visible (rev current) ++ visible (drop skip s).
Proof.
  revert skip current. induction s as [|c s IH]; intros skip current; cbn [split_blank_from].
  - cbn. by rewrite drop_nil, !app_nil_r.
  - destruct skip as [|k]; [|apply IH]. destruct (_ && _) eqn:Hb.
    + apply andb_true_iff in Hb as [Hn _]. cbn [concat]. rewrite visible_app, IH, gap_visible. cbn [rev drop].
      by rewrite (visible_space c s (newline_space _ Hn)).
    + rewrite IH. cbn [rev drop]. rewrite visible_snoc. by rewrite <- visible_app.
Qed.

Lemma split_after_visible b skip current s :
  visible (concat (split_after_from b skip current s)) = visible (rev current) ++ visible (drop skip s).
Proof.
  revert b skip current. induction s as [|c s IH]; intros b skip current; cbn [split_after_from].
  - cbn. by rewrite drop_nil, !app_nil_r.
  - destruct skip as [|k]; [|apply IH]. destruct (_ && _) eqn:Hb.
    + apply andb_true_iff in Hb as [_ Hc]. cbn [concat]. rewrite visible_app, IH, leading_visible. cbn [rev drop].
      by rewrite (visible_space c s Hc).
    + rewrite IH. cbn [rev drop]. rewrite visible_snoc. by rewrite <- visible_app.
Qed.

Lemma line_break_space c : line_break c = true -> is_space c = true.
Proof.
  intros (x & Hx & ->%Z.eqb_eq)%existsb_exists. cbn in Hx.
  repeat (destruct Hx as [<-|Hx]; [reflexivity|]). done.
Qed.

Lemma lines_visible b current s :
  visible (concat (lines_from b current s)) = visible (rev current) ++ visible s.
Proof.
  revert b current. induction s as [|c s IH]; intros b current; cbn [lines_from].
  - change (visible []) with (@nil Z). destruct current; [done|]. cbn [concat]. by rewrite !app_nil_r.
  - destruct (b && (c =? newline)) eqn:Hb.
    + apply andb_true_iff in Hb as [_ Hn]. by rewrite IH, (visible_space c s (newline_space _ Hn)).
    + destruct (line_break c) eqn:Hl.
      * cbn [concat]. rewrite visible_app, IH. by rewrite (visible_space c s (line_break_space _ Hl)).
      * rewrite IH. cbn [rev]. rewrite visible_snoc. by rewrite <- visible_app.
Qed.

Section Kept.
Context `{PyDigits}.

Lemma sentences_visible s : visible (concat (_split_sentences s)) = visible s.
Proof.
  unfold _split_sentences. rewrite visible_concat_filter by (by intros t ->%truthy_false).
  rewrite visible_concat_map by apply visible_strip. rewrite split_after_visible. exact (visible_strip s).
Qed.

(** The text of a list of blocks. *)
Definition texts (bs : list block) : pystr := concat (map b_text bs).

Lemma texts_app bs cs : texts (bs ++ cs) = texts bs ++ texts cs.
Proof. unfold texts. by rewrite map_app, concat_app. Qed.

Lemma map_text_type t h l : map b_text (map (fun s => mkBlock s t h) l) = l.
Proof. induction l as [|s l IH]; cbn; [done|by rewrite IH]. Qed.

Lemma part_visible active raw : visible (texts (part_blocks active raw).1) = visible raw.
Proof.
  unfold part_blocks. rewrite <- (visible_strip raw).
  set (lines := map rstrip (List.filter (fun l => truthy (strip l)) (splitlines (strip raw)))).
  assert (Hl : visible (concat lines) = visible (strip raw)).
  { unfold lines. rewrite visible_concat_map by apply visible_rstrip.
    rewrite visible_concat_filter; [|intros s Hs%truthy_false; by rewrite <- (visible_strip s), Hs].
    unfold splitlines. rewrite lines_visible. exact eq_refl. }
  destruct lines as [|first lines'] eqn:Hlines; [done|]. rewrite <- Hlines in *. clear Hlines.
  repeat case_match; unfold texts; cbn [fst map concat b_text]; rewrite ?app_nil_r; [done|..].
  - by rewrite visible_join.
  - by rewrite visible_join.
  - by rewrite map_text_type, sentences_visible.
Qed.

Lemma blocks_visible text heading : visible (texts (_blocks text heading)) = visible text.
Proof.
  unfold _blocks. generalize (strip (default [] heading)). intros active.
  assert (Hs : visible (concat (split_blank text)) = visible text)
    by (unfold split_blank; rewrite split_blank_visible; exact eq_refl).
  rewrite <- Hs. clear Hs. revert active. induction (split_blank text) as [|raw l IH]; intros active; [done|].
  cbn [blocks_from]. pose proof (part_visible active raw) as Hp. destruct (part_blocks active raw) as [bs active'].
  rewrite texts_app, visible_app, IH. cbn [fst] in Hp. rewrite Hp. cbn [concat]. by rewrite visible_app.
Qed.

Lemma slices_concat size room current s : concat (slices_from size room current s) = rev current ++ s.
Proof.
  revert room current. induction s as [|c s IH]; intros room current; cbn [slices_from].
  - cbn. by rewrite !app_nil_r.
  - destruct room as [|r]; cbn [concat]; rewrite IH; cbn [rev app]; [done|]. by rewrite <- app_assoc.
Qed.

Lemma pack_lines_visible size current lines :
  visible (concat (pack_lines size current lines)) = visible (concat current) ++ visible (concat lines).
Proof.
  revert current. induction lines as [|l lines IH]; intros current; cbn [pack_lines].
  - destruct current as [|s current]; [done|]. cbn [nonempty concat]. by rewrite app_nil_r, visible_join, app_nil_r.
  - destruct (_ && _); cbn [concat]; rewrite ?visible_app, IH; cbn [concat]; rewrite ?concat_app, !visible_app.
    + rewrite visible_join by done. by rewrite app_nil_r.
    + cbn [concat]. by rewrite app_nil_r, <- app_assoc.
Qed.

Lemma pack_sentences_visible size running sentences :
  visible (concat (pack_sentences size running sentences)) = visible running ++ visible (concat sentences).
Proof.
  revert running. induction sentences as [|t sentences IH]; intros running; cbn [pack_sentences].
  - destruct running as [|c s]; [done|]. cbn [truthy concat]. by rewrite !app_nil_r.
  - cbn [concat]. rewrite visible_app. destruct (_ && _); [cbn [concat]; by rewrite visible_app, IH|].
    rewrite IH, visible_strip, visible_app. by rewrite <- app_assoc.
Qed.

Lemma large_visible size b : visible (texts (_split_large_block size b)) = visible (b_text b).
Proof.
  unfold _split_large_block, texts. destruct (_ <=? _); [cbn; by rewrite app_nil_r|]. cbv zeta.
  assert (Hm : forall l, map b_text (map (fun t => b <| b_text := t |>) l) = l).
  { intros l. induction l as [|s l IH]; cbn; [done|by rewrite IH]. }
  rewrite Hm. destruct (existsb _ _).
  - rewrite pack_lines_visible. unfold splitlines. rewrite lines_visible. exact eq_refl.
  - destruct (_ <=? _)%nat; [unfold slices; by rewrite slices_concat|].
    rewrite pack_sentences_visible, sentences_visible. exact eq_refl.
Qed.

Lemma merged_visible current : visible (b_text (merged current)) = visible (texts current).
Proof. cbn [b_text merged]. by rewrite visible_strip, visible_join. Qed.

(** What a packing holds so far. *)
Definition packed_text (k : packing) : pystr := texts (pk_packed k) ++ texts (pk_current k).

Lemma texts_snoc bs b : texts (bs ++ [b]) = texts bs ++ b_text b.
Proof. rewrite texts_app. unfold texts at 2. cbn. by rewrite app_nil_r. Qed.

Lemma pack_piece_visible size overlap k piece :
  visible (packed_text k) ++ visible (b_text piece) `sublist_of` visible (packed_text (pack_piece size overlap k piece)).
Proof.
  unfold pack_piece, packed_text. cbv zeta. destruct (_ && _); cbn [pk_packed pk_current];
    rewrite !texts_snoc, !visible_app, <- !app_assoc; [|done].
  rewrite merged_visible. apply sublist_app; [done|]. apply sublist_app; [done|]. by apply sublist_inserts_l.
Qed.

Lemma pack_visible blocks size overlap : visible (texts blocks) `sublist_of` visible (texts (_pack blocks size overlap)).
Proof.
  unfold _pack. cbv zeta. set (pieces := concat (map (_split_large_block size) blocks)).
  assert (Hp : visible (texts pieces) = visible (texts blocks)).
  { unfold pieces. induction blocks as [|b l IH]; [done|]. cbn [map concat]. unfold texts at 2. cbn [map concat].
    fold (texts l). by rewrite texts_app, !visible_app, large_visible, IH. }
  rewrite <- Hp. clear Hp. clearbody pieces.
  assert (Hk : forall k, visible (packed_text k) ++ visible (texts pieces)
            `sublist_of` visible (packed_text (fold_left (pack_piece size overlap) pieces k))).
  { induction pieces as [|x l IH]; intros k; [by rewrite app_nil_r|]. cbn [fold_left].
    etransitivity; [|apply IH]. unfold texts at 1. cbn [map concat]. fold (texts l).
    rewrite visible_app, app_assoc. apply sublist_app; [apply pack_piece_visible|done]. }
  specialize (Hk (mkPacking [] [] 0)). cbn [app] in Hk. etransitivity; [exact Hk|].
  set (k := fold_left _ _ _). clearbody k.
  enough (He : visible (packed_text k) = visible (texts (List.filter (fun b => truthy (b_text b))
    (pk_packed k ++ (if nonempty (pk_current k) then [merged (pk_current k)] else []))))) by (by rewrite He).
  transitivity (visible (texts (pk_packed k ++ (if nonempty (pk_current k) then [merged (pk_current k)] else [])))).
  - unfold packed_text. rewrite texts_app, !visible_app. f_equal. destruct (pk_current k) as [|b l]; [done|].
    cbn [nonempty]. unfold texts at 2. cbn [map concat]. by rewrite app_nil_r, merged_visible.
  - generalize (pk_packed k ++ (if nonempty (pk_current k) then [merged (pk_current k)] else [])). intros l.
    induction l as [|b l IH]; [done|]. cbn [List.filter]. unfold texts at 1. cbn [map concat]. fold (texts l).
    destruct (truthy (b_text b)) eqn:Hb; [|apply truthy_false in Hb; by rewrite Hb].
    unfold texts at 2. cbn [map concat]. by rewrite !visible_app, IH.
Qed.

Lemma sliding_visible text size overlap :
  visible text `sublist_of` visible (concat (sliding_chunks text size overlap)).
Proof. rewrite <- (blocks_visible text None). apply pack_visible. Qed.
End Kept.

(** ** A sentence is not split again *)

(** No white space follows a sentence end; [after_end] describes the character before. *)
Fixpoint unbroken (after_end : bool) (s : pystr) : bool :=
  match s with
  | [] => true
  | c :: s' => negb (after_end && is_space c) && unbroken (sentence_end c) s'
  end.

Definition ends_after (b : bool) (s : pystr) : bool := match rev s with c :: _ => sentence_end c | [] => b end.

Lemma ends_after_cons b c s : ends_after b (c :: s) = ends_after (sentence_end c) s.
Proof. unfold ends_after. cbn [rev]. by destruct (rev s). Qed.

Lemma unbroken_app b s t : unbroken b (s ++ t) = unbroken b s && unbroken (ends_after b s) t.
Proof.
  revert b. induction s as [|c s IH]; intros b; cbn [app unbroken]; [done|].
  by rewrite IH, ends_after_cons, andb_assoc.
Qed.

Lemma unbroken_weaken b s : unbroken b s = true -> unbroken false s = true.
Proof. destruct s; [done|]. cbn. by intros [_ H]%andb_true_iff. Qed.

Lemma segments_unbroken b skip current s t :
  (skip = 0%nat -> ends_after false (rev current) = b) -> (skip <> 0%nat -> current = []) ->
  unbroken false (rev current) = true ->
  t ∈ split_after_from b skip current s -> unbroken false t = true.
Proof.
  revert b skip current. induction s as [|c s IH]; intros b skip current He Hk Hc Ht; cbn [split_after_from] in Ht.
  - by apply list_elem_of_singleton in Ht as ->.
  - destruct skip as [|k].
    + specialize (He eq_refl). destruct (b && is_space c) eqn:Hb.
      * apply elem_of_cons in Ht as [->|Ht]; [done|].
        revert Ht. apply IH; [done|done|done].
      * revert Ht. apply IH; [| |].
        -- intros _. cbn [rev]. unfold ends_after. by rewrite rev_app_distr.
        -- done.
        -- cbn [rev]. rewrite unbroken_app, Hc, He. cbn. by rewrite Hb.
    + rewrite (Hk ltac:(done)) in *. revert Ht. by apply IH.
Qed.

Lemma unbroken_whole b current s :
  unbroken b s = true -> split_after_from b 0 current s = [rev current ++ s].
Proof.
  revert b current. induction s as [|c s IH]; intros b current Hs; cbn [split_after_from]; [by rewrite app_nil_r|].
  cbn in Hs. apply andb_true_iff in Hs as [Hc Hs]. apply negb_true_iff in Hc. rewrite Hc, (IH _ _ Hs).
  cbn [rev]. by rewrite <- app_assoc.
Qed.

Lemma strip_unbroken s : unbroken false s = true -> unbroken false (strip s) = true.
Proof.
  intros Hs. destruct (strip_spec s) as (pre & suf & He & _). rewrite He, !unbroken_app in Hs.
  apply andb_true_iff in Hs as [_ Hs]. apply andb_true_iff in Hs as [Hs _]. by apply unbroken_weaken in Hs.
Qed.

Lemma sentence_whole s t : t ∈ _split_sentences s -> t <> [] /\ (length (_split_sentences t) <= 1)%nat.
Proof.
  intros Ht. unfold _split_sentences in Ht. apply elem_of_filter_b in Ht as [Ht Hn].
  split; [by intros ->|]. apply elem_of_map in Ht as (u & -> & Hu).
  apply segments_unbroken in Hu; [|done..]. apply strip_unbroken in Hu.
  unfold _split_sentences. rewrite strip_idemp, (unbroken_whole _ _ _ Hu). cbn. by case_match; cbn; lia.
Qed.

Section ChunkTheorems.
Context `{PyDigits}.

(** C24. Chunking loses no text: the visible characters of an article appear in order in its
    parent chunks, and those of each parent in its children, whatever the tables, lists,
    headings and sentences it is made of; the overlaps only repeat text. *)
Theorem chunks_lose_nothing (text : pystr) (heading : option pystr) :
  visible text `sublist_of` visible (concat (map pc_text (create_parent_child_chunks text heading)))
  /\ forall p, p ∈ create_parent_child_chunks text heading ->
       visible (pc_text p) `sublist_of` visible (concat (pc_children p)).
Proof.
  unfold create_parent_child_chunks. split.
  - rewrite <- (blocks_visible text heading). etransitivity; [apply (pack_visible _ 1800 250)|].
    apply reflexive_eq. unfold texts. f_equal. f_equal.
    generalize (_pack (_blocks text heading) 1800 250). intros l. apply list_eq. intros i.
    rewrite !list_lookup_fmap. rewrite list_lookup_imap. by destruct (l !! i).
  - intros p (i & Hi)%list_elem_of_lookup. rewrite list_lookup_imap in Hi.
    destruct (_ !! i) as [b|]; [|done]. injection Hi as <-. apply sliding_visible.
Qed.

(** ** How long a chunk gets *)

Lemma slices_bound size room current s :
  (0 < size)%nat -> (length current + room <= size)%nat ->
  Forall (fun t => (length t <= size)%nat) (slices_from size room current s).
Proof.
  intros Hs. revert room current. induction s as [|c s IH]; intros room current Hr; cbn [slices_from].
  - constructor; [rewrite length_rev; lia|constructor].
  - destruct room as [|r]; [constructor; [rewrite length_rev; lia|]|]; apply IH; cbn [length]; lia.
Qed.

Lemma slices_nonempty size room current s :
  (0 < size)%nat -> (current <> [] \/ s <> []) -> (current = [] -> room <> 0%nat) ->
  Forall (fun t : pystr => t <> []) (slices_from size room current s).
Proof.
  intros Hs. revert room current. induction s as [|c s IH]; intros room current Hne Hr; cbn [slices_from].
  - constructor; [|constructor]. destruct Hne as [Hne|]; [|done]. intros Hc. apply Hne.
    apply (f_equal (@rev Z)) in Hc. by rewrite rev_involutive in Hc.
  - destruct room as [|r].
    + constructor; [|apply IH; [by left|done]]. intros Hc. destruct (decide (current = [])) as [->|Hn]; [by apply Hr|].
      apply Hn. apply (f_equal (@rev Z)) in Hc. by rewrite rev_involutive in Hc.
    + apply IH; [by left|done].
Qed.

(** A piece of running text of at most [size] characters. *)
Definition text_piece (size : Z) (b : block) : Prop :=
  b_type b = "text" /\ b_text b <> [] /\ len (b_text b) <= size.

(** A sentence, as [_split_sentences] makes them, is not split again. *)
Definition one_sentence (b : block) : Prop :=
  b_type b = "text" /\ b_text b <> [] /\ (length (_split_sentences (b_text b)) <= 1)%nat.

Lemma sentence_pieces size b :
  0 < size -> one_sentence b -> Forall (text_piece size) (_split_large_block size b).
Proof.
  intros Hs (Ht & Hne & H1). unfold _split_large_block. rewrite Ht. cbn [existsb String.eqb].
  destruct (Z.leb_spec (len (b_text b)) size) as [Hl|Hl]; [by constructor|].
  rewrite (proj2 (Nat.leb_le _ _) H1). cbv zeta.
  change (existsb (String.eqb "text") ["table"; "list"]) with false. cbn match.
  apply Forall_forall. intros x (t & -> & Hx)%elem_of_map.
  pose proof (slices_bound (Z.to_nat size) (Z.to_nat size) [] (b_text b) ltac:(lia) ltac:(cbn; lia)) as Hb.
  pose proof (slices_nonempty (Z.to_nat size) (Z.to_nat size) [] (b_text b) ltac:(lia) ltac:(by right) ltac:(intros _; lia)) as Hn.
  rewrite Forall_forall in Hb, Hn. specialize (Hb t Hx). specialize (Hn t Hx).
  split; [done|]. split; [done|]. cbn. unfold len. lia.
Qed.

Lemma text_block_whole text heading b :
  b ∈ _blocks text heading -> b_type b = "text" -> one_sentence b.
Proof.
  unfold _blocks. generalize (strip (default [] heading)). induction (split_blank text) as [|raw l IH]; intros active Hb Ht;
    cbn [blocks_from] in Hb; [by apply elem_of_nil in Hb|].
  destruct (part_blocks active raw) as [bs active'] eqn:Hp. apply elem_of_app in Hb as [Hb|Hb]; [|by apply (IH active')].
  assert (Hbs : b ∈ (part_blocks active raw).1) by (by rewrite Hp). clear Hp. unfold part_blocks in Hbs.
  repeat case_match; cbn [fst] in Hbs; try (apply list_elem_of_singleton in Hbs as ->; discriminate Ht);
    [by apply elem_of_nil in Hbs|].
  apply elem_of_map in Hbs as (t & -> & Hin). by apply sentence_whole in Hin.
Qed.

Definition sum_len (bs : list block) : Z := len (texts bs).
Definition gaps (bs : list block) : Z := Z.max 0 (len bs - 1).

Lemma sum_len_app bs cs : sum_len (bs ++ cs) = sum_len bs + sum_len cs.
Proof. unfold sum_len, len. rewrite texts_app, length_app. lia. Qed.

Lemma sum_len_one b : sum_len [b] = len (b_text b).
Proof. unfold sum_len, texts. cbn. by rewrite app_nil_r. Qed.

Definition running_text (b : block) : Prop := b_type b = "text" /\ b_text b <> [].

Lemma len_pos {A} (l : list A) : l <> [] -> 0 < len l.
Proof. destruct l; [done|]. unfold len. cbn. lia. Qed.

Lemma sum_len_count bs : Forall running_text bs -> len bs <= sum_len bs.
Proof.
  induction 1 as [|b l [_ Hb] _ IH]; [done|]. change (b :: l) with ([b] ++ l).
  rewrite sum_len_app, sum_len_one. apply len_pos in Hb. unfold len in *. rewrite length_app. cbn [length]. lia.
Qed.

Lemma texts_length bs : sum_list (map length (map b_text bs)) = length (texts bs).
Proof. unfold texts. induction bs as [|b l IH]; [done|]. cbn [map sum_list concat]. by rewrite length_app, <- IH. Qed.

Lemma merged_length bs : len (b_text (merged bs)) <= sum_len bs + 2 * gaps bs.
Proof.
  cbn [b_text merged]. unfold len at 1. pose proof (strip_length (join [newline; newline] (map b_text bs))) as Hs.
  rewrite join_length, texts_length, length_map in Hs. cbn [length] in Hs. unfold sum_len, gaps, len. lia.
Qed.

Section Bound.
Variables size overlap : Z.
Hypotheses (Hsize : 0 < size) (Hoverlap : 0 <= overlap).

Definition short (b : block) : Prop := 2 * len (b_text b) <= 3 * (size + overlap + 1).

Record packs (k : packing) : Prop := {
  ps_packed : Forall short (pk_packed k);
  ps_current : Forall running_text (pk_current k);
  ps_length : pk_length k = sum_len (pk_current k) + gaps (pk_current k);
  ps_bound : pk_length k <= size + overlap + 1
}.

Lemma merged_short bs :
  Forall running_text bs -> sum_len bs + gaps bs <= size + overlap + 1 -> short (merged bs).
Proof.
  intros Hr Hb. unfold short. pose proof (merged_length bs) as Hm. pose proof (sum_len_count bs Hr) as Hc.
  assert (gaps bs <= sum_len bs) by (unfold gaps, len in *; lia). lia.
Qed.

Lemma seed_short done_ :
  Forall running_text (seed overlap done_) /\ sum_len (seed overlap done_) <= overlap
  /\ (seed overlap done_ = [] \/ exists b, seed overlap done_ = [b]).
Proof.
  unfold seed. destruct (_ && _) eqn:Hb; [|split_and!; [constructor|exact Hoverlap|by left]].
  apply andb_true_iff in Hb as [_ Ht]. split; [|split; [|right; eauto]].
  - constructor; [|constructor]. split; [done|]. cbn. intros Hn. by rewrite Hn in Ht.
  - rewrite sum_len_one. cbn [b_text]. unfold len, last_n. rewrite length_drop. lia.
Qed.

Lemma packs_add k piece :
  packs k -> text_piece size piece ->
  (pk_current k <> [] -> pk_length k + len (b_text piece) + 1 <= size + overlap + 1) ->
  packs (mkPacking (pk_packed k) (pk_current k ++ [piece])
           (pk_length k + len (b_text piece) + one_if (negb (pk_length k =? 0)))).
Proof.
  intros [Hp Hc Hl Hb] (Ht & Hn & Hs) Hroom. pose proof (sum_len_count _ Hc) as Hcount.
  constructor; cbn [pk_packed pk_current pk_length].
  - done.
  - apply Forall_app. split; [done|]. by constructor.
  - rewrite sum_len_app, sum_len_one, Hl. unfold gaps, len in *. rewrite length_app. cbn [length].
    destruct (pk_current k) as [|b l]; [done|]. cbn [length] in *.
    replace (_ =? 0) with false by (symmetry; apply Z.eqb_neq; lia). cbn. lia.
  - destruct (pk_current k) as [|b l].
    + change (pk_length k = 0) in Hl. rewrite Hl. unfold one_if. cbn [negb Z.eqb]. lia.
    + specialize (Hroom ltac:(done)). unfold one_if. case_match; lia.
Qed.

Lemma packs_piece k piece : packs k -> text_piece size piece -> packs (pack_piece size overlap k piece).
Proof.
  intros Hk Hpiece. unfold pack_piece. cbv zeta. destruct (_ && _) eqn:Hb.
  - pose proof Hk as [Hp Hc Hl Hbd]. destruct (seed_short (merged (pk_current k))) as (Hr & Hs & Hone).
    set (sd := seed overlap (merged (pk_current k))) in *.
    set (k1 := mkPacking (pk_packed k ++ [merged (pk_current k)]) sd (len (concat (map b_text sd)))).
    assert (Hg : gaps sd = 0) by (destruct Hone as [-> | [b ->]]; reflexivity).
    assert (Hk1 : packs k1).
    { constructor; cbn [pk_packed pk_current pk_length k1].
      - apply Forall_app. split; [done|]. constructor; [|constructor]. apply merged_short; [done|]. by rewrite <- Hl.
      - done.
      - rewrite Hg. unfold sum_len, texts. lia.
      - unfold sum_len, texts in Hs. lia. }
    apply (packs_add k1 piece Hk1 Hpiece). intros _. destruct Hpiece as (_ & _ & Hps). cbn [pk_length k1].
    unfold sum_len, texts in Hs. lia.
  - apply packs_add; [done|done|]. intros Hne. apply andb_false_iff in Hb as [Hb|Hb].
    + by destruct (pk_current k).
    + apply Z.ltb_ge in Hb. destruct (pk_current k); [done|]. cbn in Hb. lia.
Qed.

Lemma packs_fold pieces k :
  Forall (text_piece size) pieces -> packs k -> packs (fold_left (pack_piece size overlap) pieces k).
Proof. intros Hp. revert k. induction Hp as [|x l Hx _ IH]; intros k Hk; [done|]. by apply IH, packs_piece. Qed.

(** A chunk of running text is bounded: when the text has no tables, lists or headings,
    no chunk is longer than one and a half times [size + overlap + 1] characters, however
    short the sentences are that it joins. *)
Theorem chunk_length_bound (text chunk : pystr) :
  (forall b, b ∈ _blocks text None -> b_type b = "text") ->
  chunk ∈ sliding_chunks text size overlap -> 2 * len chunk <= 3 * (size + overlap + 1).
Proof.
  intros Htext Hin. unfold sliding_chunks in Hin. apply elem_of_map in Hin as (b & -> & Hin).
  unfold _pack in Hin. cbv zeta in Hin. apply elem_of_filter_b in Hin as [Hin _].
  assert (Hpieces : Forall (text_piece size) (concat (map (_split_large_block size) (_blocks text None)))).
  { apply Forall_concat, Forall_forall. intros ps_ (b' & -> & Hb')%elem_of_map.
    apply sentence_pieces; [done|]. eapply text_block_whole; [exact Hb'|by apply Htext]. }
  assert (H0 : packs (mkPacking [] [] 0)) by (constructor; cbn; [constructor..|done|lia]).
  destruct (packs_fold _ _ Hpieces H0) as [Hp Hc Hl Hb]. apply elem_of_app in Hin as [Hin|Hin].
  - rewrite Forall_forall in Hp. by apply Hp.
  - destruct (nonempty _); [|by apply elem_of_nil in Hin]. apply list_elem_of_singleton in Hin as ->.
    apply merged_short; [done|]. by rewrite <- Hl.
Qed.
End Bound.
End ChunkTheorems.

(** No character is a decimal digit beyond ASCII: the demonstrations have none. *)
#[local] Instance ascii_digits : PyDigits := {| decimal := is_digit |}.

(** Two hundred sentences of two characters. *)
Definition short_sentences : pystr := concat (repeat ($"a. ") 200).

Lemma chunk_length_bound_witness :
  Forall (fun chunk => 2 * len chunk <= 3 * (250 + 60 + 1)) (sliding_chunks short_sentences 250 60).
Proof.
  assert (Hall : forallb (fun b => String.eqb (b_type b) "text") (_blocks short_sentences None) = true)
    by (vm_compute; reflexivity).
  apply Forall_forall. intros chunk. apply (chunk_length_bound 250 60); [lia|lia|].
  revert Hall. generalize (_blocks short_sentences None). intros bs Hall b Hb.
  apply String.eqb_eq. apply list_elem_of_In in Hb. exact (proj1 (forallb_forall _ _) Hall b Hb).
Defined.

(** The docstring of [create_parent_child_chunks] puts the longest child at
    250 + 60 + 2 = 312 characters; the blank lines between short sentences are not counted,
    and this text has a child of 330. *)
Example child_beyond_documented_budget : map len (sliding_chunks short_sentences 250 60) = [330; 310; 274].
Proof. vm_compute. reflexivity. Qed.
