(* ===== verification/Splitter.v ===== *)
(** * Splitting a document for review

    src/domain/document_splitter.py cuts a long document into the candidates a reviewer
    decides on: a pure function of a title, a text and the texts of its pages. The theorems
    say that the loop ends, that the candidates are exact, ordered and hold every visible
    character, and what page range they are given. *)

From S2P Require Import Prelude PyText Chunks.
From Stdlib Require String.
#[local] Open Scope string_scope.
#[local] Open Scope list_scope.
#[local] Open Scope Z_scope.

(** ** Definitions *)

Definition _MAX_REVIEW_CANDIDATE_CHARS : Z := 48000.

(** [s.rfind(pattern, 0, n)] for a pattern of one or two characters: the last start of a match
    inside the first [n] characters, -1 when there is none. *)
Fixpoint rfind (pattern s : pystr) : Z :=
  match s with
  | [] => -1
  | c :: s' =>
      let r := rfind pattern s' in
      if 0 <=? r then r + 1 else if starts_with pattern s then 0 else -1
  end.

(** [^#{1,6}\s+\S] on a stripped line *)
Definition markdown_heading (s : pystr) : bool :=
  let n := leading 35 s in
  (1 <=? n)%nat && (n <=? 6)%nat && match drop n s with c :: _ => is_space c | [] => false end.

Definition heading_text (s : pystr) : pystr := upto 255 (strip (drop_while (Z.eqb 35) s)).

(** [f"{fallback} — part {index}"] *)
Definition part_title (fallback : pystr) (index : Z) : pystr :=
  fallback ++ [32; 8212; 32] ++ $"part " ++ show_int index.

Definition _candidate_title (body : pystr) (index : Z) (fallback : pystr) : pystr * option pystr :=
  match List.find markdown_heading (map strip (splitlines body)) with
  | Some clean => (or_text (Some (heading_text clean)) (part_title fallback index), Some (heading_text clean))
  | None => (upto 255 (part_title fallback index), None)
  end.

Record review_candidate := mkReview {
  rc_position : Z;
  rc_title : pystr;
  rc_body_md : pystr;
  rc_source_start : Z;
  rc_source_end : Z;
  rc_heading : option pystr
}.

(** The end of the candidate that starts where [rest] does, relative to it. *)
Definition cut_length (rest : pystr) : Z :=
  let limit := Z.min _MAX_REVIEW_CANDIDATE_CHARS (len rest) in
  if limit <? len rest then
    let window := upto limit rest in
    let boundary := Z.max (rfind [newline; newline] window) (rfind [newline] window) in
    if _MAX_REVIEW_CANDIDATE_CHARS / 2 <? boundary then boundary else limit
  else limit.

Definition cut_at (rest : pystr) : Z :=
  match strip (upto (cut_length rest) rest) with
  | [] => Z.min _MAX_REVIEW_CANDIDATE_CHARS (len rest)
  | _ => cut_length rest
  end.

(** The loop of [_large_document_candidates]: [rest] is the text from offset [start]. *)
Fixpoint candidates_from (fuel : nat) (title : pystr) (index start : Z) (rest : pystr) : list review_candidate :=
  match fuel, rest with
  | S k, _ :: _ =>
      let n := cut_at rest in
      let body := strip (upto n rest) in
      let '(candidate_title, heading) := _candidate_title body index title in
      let after := from n rest in
      let skipped := Z.of_nat (leading_spaces after) in
      mkReview index candidate_title body start (start + n) heading
      :: candidates_from k title (index + 1) (start + n + skipped) (from skipped after)
  | _, _ => []
  end.

(** Each turn of the loop passes over at least one character. *)
Definition _large_document_candidates (title text : pystr) : list review_candidate :=
  candidates_from (length text) title 1 0 text.

(** [page_texts]: page numbers and texts, as the drafts store them. *)
Record source_position := mkPosition {
  sp_offset_start : Z;
  sp_offset_end : Z;
  sp_section : option pystr;
  sp_pages : option (option Z * option Z)
}.

(** First and last page a range meets: cursor, first, last. *)
Definition page_step (start end_ : Z) (k : Z * option Z * option Z) (page : option Z * pystr)
    : Z * option Z * option Z :=
  let '(cursor, first, last) := k in
  let page_end := cursor + len page.2 in
  (page_end,
   match first with None => if cursor <? end_ then page.1 else None | _ => first end,
   if start <? page_end then page.1 else last).

Definition position (page_texts : list (option Z * pystr)) (start end_ : Z) (heading : option pystr)
    : source_position :=
  mkPosition start end_ heading
    (if nonempty page_texts then
       let '(_, first, last) := fold_left (page_step start end_) page_texts (0, None, None) in
       Some (first, match last with Some 0 | None => first | _ => last end)
     else None).

(** [settings.DOCUMENT_AUTO_SPLIT_ENABLED] *)
Definition split_document_candidates (auto_split : bool) (title text : pystr)
    (page_texts : list (option Z * pystr)) : list (review_candidate * source_position) :=
  match strip text with
  | [] => []
  | clean_text =>
      let candidates :=
        if (len clean_text <=? _MAX_REVIEW_CANDIDATE_CHARS) || negb auto_split then
          let '(candidate_title, heading) := _candidate_title clean_text 1 title in
          [mkReview 1 candidate_title clean_text 0 (len clean_text) heading]
        else _large_document_candidates title clean_text in
      map (fun c => (c, position page_texts (rc_source_start c) (rc_source_end c) (rc_heading c))) candidates
  end.

(** ** Where a document is cut *)

Lemma rfind_bounds p s : p <> [] -> -1 <= rfind p s < len s.
Proof.
  intros Hp. induction s as [|c s IH]; [done|]. cbn [rfind]. unfold len in *. cbn [length].
  case_match; [lia|]. case_match; lia.
Qed.

Lemma len_upto n (s : pystr) : 0 <= n -> len (upto n s) = Z.min n (len s).
Proof. intros Hn. unfold len, upto. rewrite length_take. lia. Qed.

Lemma cut_length_bounds rest :
  rest <> [] -> 1 <= cut_length rest <= Z.min _MAX_REVIEW_CANDIDATE_CHARS (len rest).
Proof.
  intros Hr. apply len_pos in Hr. unfold cut_length. cbv zeta.
  set (limit := Z.min _MAX_REVIEW_CANDIDATE_CHARS (len rest)).
  assert (Hl : 1 <= limit <= len rest) by (unfold limit, _MAX_REVIEW_CANDIDATE_CHARS; lia).
  destruct (Z.ltb_spec limit (len rest)) as [Hlt|Hge]; [|lia].
  pose proof (rfind_bounds [newline; newline] (upto limit rest) ltac:(done)).
  pose proof (rfind_bounds [newline] (upto limit rest) ltac:(done)).
  pose proof (len_upto limit rest ltac:(lia)).
  destruct (Z.ltb_spec (_MAX_REVIEW_CANDIDATE_CHARS / 2) (Z.max (rfind [newline; newline] (upto limit rest)) (rfind [newline] (upto limit rest)))) as [Hb|Hb]; [|lia].
  change (_MAX_REVIEW_CANDIDATE_CHARS / 2) with 24000 in Hb. lia.
Qed.

Lemma cut_at_bounds rest :
  rest <> [] -> 1 <= cut_at rest <= Z.min _MAX_REVIEW_CANDIDATE_CHARS (len rest).
Proof.
  intros Hr. pose proof (cut_length_bounds rest Hr) as Hc. unfold cut_at. case_match; [|done].
  apply len_pos in Hr. unfold _MAX_REVIEW_CANDIDATE_CHARS in *. lia.
Qed.

(** A newline in the last [\n\n] is itself a newline: the paragraph boundary is never the
    later of the two. *)
Lemma paragraph_boundary_never_preferred s : rfind [newline; newline] s <= rfind [newline] s.
Proof.
  induction s as [|c s IH]; [done|]. cbn [rfind starts_with]. pose proof (rfind_bounds [newline] s ltac:(done)).
  destruct (Z.leb_spec 0 (rfind [newline; newline] s)); destruct (Z.leb_spec 0 (rfind [newline] s)); try lia.
  - case_match; lia.
  - rewrite andb_true_r. destruct (newline =? c); [|done]. cbn. case_match; lia.
Qed.

Lemma next_rest_shorter rest k :
  rest <> [] -> (length rest <= S k)%nat ->
  (length (from (Z.of_nat (leading_spaces (from (cut_at rest) rest))) (from (cut_at rest) rest)) <= k)%nat.
Proof.
  intros Hr Hk. pose proof (cut_at_bounds rest Hr) as Hc. unfold from. rewrite !length_drop. lia.
Qed.

(** The loop runs out of text before it runs out of fuel. *)
Lemma candidates_fuel fuel fuel' title index start rest :
  (length rest <= fuel)%nat -> (length rest <= fuel')%nat ->
  candidates_from fuel title index start rest = candidates_from fuel' title index start rest.
Proof.
  revert fuel' index start rest. induction fuel as [|k IH]; intros fuel' index start rest Hk Hk'.
  - destruct rest; [|cbn in Hk; lia]. by destruct fuel'.
  - destruct rest as [|c s]; [by destruct fuel'|]. destruct fuel' as [|k']; [cbn in Hk'; lia|].
    cbn [candidates_from]. cbv zeta. destruct (_candidate_title _ _ _). f_equal.
    apply IH; by apply next_rest_shorter.
Qed.

(** The range of a candidate, and its body, in the text that starts at offset [start]. *)
Definition cut_from (start : Z) (rest : pystr) (c : review_candidate) : Prop :=
  start <= rc_source_start c /\ rc_source_start c < rc_source_end c <= start + len rest
  /\ rc_source_end c <= rc_source_start c + _MAX_REVIEW_CANDIDATE_CHARS
  /\ rc_body_md c = strip (upto (rc_source_end c - rc_source_start c) (from (rc_source_start c - start) rest))
  /\ rc_body_md c <> [].

Definition before (a b : review_candidate) : Prop := rc_source_end a <= rc_source_start b.

Definition starts_visible (s : pystr) : Prop := forall c s', s = c :: s' -> is_space c = false.

Lemma leading_starts_visible s : starts_visible (drop (leading_spaces s) s).
Proof.
  induction s as [|c s IH]; [done|]. cbn [leading_spaces]. destruct (is_space c) eqn:Hc; [exact IH|].
  intros d s' [= -> ->]. exact Hc.
Qed.

Lemma strip_starts_visible s : starts_visible (strip s).
Proof. intros c s'. apply strip_head. Qed.

Lemma strip_visible_start s n : starts_visible s -> s <> [] -> 1 <= n -> strip (upto n s) <> [].
Proof.
  intros Hs Hne Hn Hc. destruct s as [|c s]; [done|]. apply strip_nil in Hc. unfold upto in Hc.
  replace (Z.to_nat n) with (S (Z.to_nat n - 1)) in Hc by lia. cbn in Hc. inversion Hc as [|? ? Hsp]; subst.
  by rewrite (Hs c s eq_refl) in Hsp.
Qed.

Lemma from_from (a b : Z) (s : pystr) : 0 <= a -> 0 <= b -> from a (from b s) = from (b + a) s.
Proof. intros Ha Hb. unfold from. rewrite drop_drop. f_equal. lia. Qed.

Lemma cut_from_later start rest m c :
  0 <= m -> cut_from (start + m) (from m rest) c -> m <= len rest -> cut_from start rest c.
Proof.
  intros Hm (H1' & H2' & H3' & H4' & H5') Hl. unfold cut_from.
  assert (len (from m rest) = len rest - m) by (unfold len, from in *; rewrite length_drop; lia).
  split; [lia|]. split; [lia|]. split; [lia|]. split; [|done].
  rewrite H4', from_from by lia. do 3 f_equal. lia.
Qed.

Lemma leading_spaces_le s : (leading_spaces s <= length s)%nat.
Proof. induction s as [|c s IH]; cbn; [lia|]. case_match; lia. Qed.

Lemma next_text_split rest n :
  visible rest = visible (upto n rest) ++ visible (from (Z.of_nat (leading_spaces (from n rest))) (from n rest)).
Proof. rewrite <- (upto_from n rest) at 1. rewrite visible_app. unfold from at 2. by rewrite Nat2Z.id, leading_visible. Qed.

Record candidates_ok (index start : Z) (rest : pystr) (cs : list review_candidate) : Prop := {
  co_positions : map rc_position cs = seqZ index (len cs);
  co_cut : Forall (cut_from start rest) cs;
  co_order : StronglySorted before cs;
  co_visible : visible (concat (map rc_body_md cs)) = visible rest
}.

Lemma candidates_none index start : candidates_ok index start [] [].
Proof. constructor; [done|constructor|constructor|done]. Qed.

Lemma candidates_from_ok fuel title index start rest :
  (length rest <= fuel)%nat -> starts_visible rest ->
  candidates_ok index start rest (candidates_from fuel title index start rest).
Proof.
  revert index start rest. induction fuel as [|k IH]; intros index start rest Hk Hv.
  - destruct rest; [|cbn in Hk; lia]. apply candidates_none.
  - destruct (decide (rest = [])) as [->|Hne]; [apply candidates_none|].
    pose proof (cut_at_bounds rest Hne) as Hn. pose proof (next_rest_shorter rest k Hne Hk) as Hs.
    set (n := cut_at rest) in *. set (skipped := Z.of_nat (leading_spaces (from n rest))) in *.
    destruct (_candidate_title (strip (upto n rest)) index title) as [t h] eqn:Ht.
    assert (Heq : candidates_from (S k) title index start rest
      = mkReview index t (strip (upto n rest)) start (start + n) h
        :: candidates_from k title (index + 1) (start + n + skipped) (from skipped (from n rest))).
    { destruct rest as [|c s]; [done|]. cbn [candidates_from]. cbv zeta. fold n. by rewrite Ht. }
    rewrite Heq. clear Heq.
    specialize (IH (index + 1) (start + n + skipped) (from skipped (from n rest)) Hs).
    destruct IH as [Hpos Hcut Hord Hvis];
      [unfold from at 1; unfold skipped; rewrite Nat2Z.id; apply leading_starts_visible|].
    assert (Hskip : 0 <= skipped <= len (from n rest))
      by (unfold skipped, len; pose proof (leading_spaces_le (from n rest)); lia).
    assert (Hlen : len (from n rest) = len rest - n) by (unfold len, from in *; rewrite length_drop; lia).
    assert (Hlater : Forall (cut_from start rest)
        (candidates_from k title (index + 1) (start + n + skipped) (from skipped (from n rest)))).
    { eapply Forall_impl; [exact Hcut|]. intros c Hc. apply (cut_from_later _ _ (n + skipped)); [lia| |lia].
      rewrite <- from_from by lia. by rewrite Z.add_assoc. }
    constructor.
    + cbn [map rc_position]. rewrite Hpos. unfold len. cbn [length].
      rewrite Nat2Z.inj_succ, (seqZ_cons index) by lia. f_equal. f_equal; lia.
    + constructor; [|done]. unfold cut_from. cbn [rc_source_start rc_source_end rc_body_md].
      replace (start + n - start) with n by lia. replace (start - start) with 0 by lia.
      split_and!; [lia|lia|lia|lia|done|]. apply strip_visible_start; [done|done|lia].
    + constructor; [done|]. eapply Forall_impl; [exact Hcut|]. intros c (Hc & _). unfold before.
      cbn [rc_source_end]. lia.
    + cbn [map rc_body_md concat]. rewrite visible_app, Hvis, visible_strip. symmetry. apply next_text_split.
Qed.

(** ** Page ranges *)

Lemma page_first_found start end_ pages cursor a last :
  let '(_, f, _) := fold_left (page_step start end_) pages (cursor, Some a, last) in f = Some a.
Proof.
  revert cursor last. induction pages as [|p pages IH]; intros cursor last; [done|]. cbn [fold_left page_step]. apply IH.
Qed.

Definition pages_length (pages : list (option Z * pystr)) : Z := len (concat (map snd pages)).

Lemma pages_length_cons p pages : pages_length (p :: pages) = len p.2 + pages_length pages.
Proof. unfold pages_length, len. cbn. rewrite length_app. lia. Qed.

(** The page number of the last page is what every range that starts before its end gets. *)
Lemma page_last_found start end_ pages p cursor first last :
  start < cursor + pages_length (pages ++ [p]) ->
  let '(_, _, l) := fold_left (page_step start end_) (pages ++ [p]) (cursor, first, last) in l = p.1.
Proof.
  revert cursor first last. induction pages as [|q pages IH]; intros cursor first last Hs.
  - cbn [app fold_left page_step]. cbn [app] in Hs. rewrite pages_length_cons in Hs.
    change (pages_length []) with 0 in Hs. rewrite (proj2 (Z.ltb_lt _ _)); [done|lia].
  - cbn [app] in Hs |- *. rewrite pages_length_cons in Hs. cbn [fold_left page_step]. apply IH. lia.
Qed.

Lemma map_fst_paired {A B} (f : A -> B) l : map fst (map (fun c => (c, f c)) l) = l.
Proof. induction l as [|c l IH]; cbn; [done|by rewrite IH]. Qed.

Section SplitTheorems.

(** C26. The splitting loop of [_large_document_candidates] ends: every turn takes at least
    one character, so more turns than the text has characters change nothing. *)
Theorem splitting_ends (title text : pystr) (extra : nat) :
  candidates_from (length text + extra) title 1 0 text = _large_document_candidates title text.
Proof. apply candidates_fuel; lia. Qed.

(** C25. Splitting a document for review is exact: the candidates are numbered from one, each
    is the stripped, non-empty text of its recorded range of the stripped document, the
    ranges follow one another without overlap, together they hold every visible character
    in order, and with automatic splitting on none is longer than 48,000 characters. *)
Theorem split_document_exact (auto_split : bool) (title text : pystr) (pages : list (option Z * pystr)) :
  let cs := map fst (split_document_candidates auto_split title text pages) in
  let document := strip text in
  map rc_position cs = seqZ 1 (len cs)
  /\ Forall (fun c => 0 <= rc_source_start c < rc_source_end c /\ rc_source_end c <= len document
       /\ rc_body_md c = strip (upto (rc_source_end c - rc_source_start c) (from (rc_source_start c) document))
       /\ rc_body_md c <> []
       /\ len (rc_body_md c) <= if auto_split then _MAX_REVIEW_CANDIDATE_CHARS else len document) cs
  /\ StronglySorted before cs
  /\ visible (concat (map rc_body_md cs)) = visible text.
Proof.
  cbv zeta. unfold split_document_candidates. rewrite <- (visible_strip text).
  pose proof (strip_idemp text) as Hid. pose proof (strip_starts_visible text) as Hst.
  set (document := strip text) in *. clearbody document. destruct document as [|c0 s0] eqn:Hdoc.
  { cbn. split; [done|]. split; [constructor|]. split; [constructor|done]. }
  rewrite <- Hdoc in *. assert (Hne : document <> []) by (by rewrite Hdoc). clear Hdoc.
  cbv zeta. rewrite map_fst_paired.
  destruct ((_ <=? _) || negb auto_split) eqn:Hc.
  - destruct (_candidate_title document 1 title) as [t h]. cbn [map rc_position rc_body_md concat].
    rewrite app_nil_r. split; [done|]. apply len_pos in Hne.
    split; [|split; [repeat constructor|done]]. constructor; [|constructor].
    cbn [rc_source_start rc_source_end rc_body_md]. rewrite Z.sub_0_r.
    replace (upto (len document) (from 0 document)) with document
      by (unfold upto, from, len; rewrite Nat2Z.id; cbn; by rewrite firstn_all).
    split_and!; [lia|lia|lia|done|by intros ->|].
    destruct auto_split; [|done]. rewrite orb_false_r in Hc. by apply Z.leb_le.
  - apply orb_false_iff in Hc as [_ Ha]. apply negb_false_iff in Ha as ->.
    destruct (candidates_from_ok (length document) title 1 0 document ltac:(lia) Hst) as [Hp Hcut Ho Hv].
    fold (_large_document_candidates title document) in *. split; [done|]. split; [|done].
    eapply Forall_impl; [exact Hcut|]. intros c (Ha & Hb & Hl & Hbody & Hn). rewrite Z.sub_0_r in Hbody.
    split_and!; [lia|lia|lia|done|done|]. rewrite Hbody. unfold len.
    pose proof (strip_length (upto (rc_source_end c - rc_source_start c) (from (rc_source_start c) document))) as Hsl.
    pose proof (upto_length (rc_source_end c - rc_source_start c) (from (rc_source_start c) document)). lia.
Qed.
(** The page range recorded with a candidate is always that of the whole document: the
    page of the first character of the document and the last page, wherever between them
    the candidate's own range lies. *)
Theorem page_range_is_whole (pages : list (option Z * pystr)) (a b start end_ : Z)
    (first last : pystr) (heading : option pystr) :
  0 < end_ -> start < pages_length ((Some a, first) :: pages ++ [(Some b, last)]) -> b <> 0 ->
  sp_pages (position ((Some a, first) :: pages ++ [(Some b, last)]) start end_ heading) = Some (Some a, Some b).
Proof.
  intros He Hs Hb. unfold position. cbn [sp_pages nonempty].
  pose proof (page_last_found start end_ ((Some a, first) :: pages) (Some b, last) 0 None None Hs) as Hl.
  cbn [app] in Hl. cbn [fold_left page_step fst snd] in Hl |- *. rewrite (proj2 (Z.ltb_lt 0 end_) He) in Hl |- *.
  pose proof (page_first_found start end_ (pages ++ [(Some b, last)]) (0 + len first) a
    (if start <? 0 + len first then Some a else None)) as Hf.
  destruct (fold_left _ _ _) as [[c f] l]. cbn [fst] in Hl. subst f l. by destruct b.
Qed.

(** Three pages of one character each; the candidate is the second. *)
Lemma page_range_is_whole_witness :
  sp_pages (position [(Some 1, $"a"); (Some 2, $"b"); (Some 3, $"c")] 1 2 None) = Some (Some 1, Some 3).
Proof. apply (page_range_is_whole [(Some 2, $"b")] 1 3 1 2 ($"a") ($"c") None); [lia|vm_compute; reflexivity|lia]. Defined.
End SplitTheorems.
