(* ===== verification/Models.v ===== *)
(** * The ORM entities shared by the services

    One Record per SQLAlchemy class of src/models, with the columns and the eagerly
    loaded relationships the modelled services read or write.  Identifiers are the
    128-bit integers of [uuid.UUID]; a naive UTC datetime is a number of microseconds
    since the epoch and a date a number of days.  Closed vocabularies (roles, statuses,
    scopes, permission keys, tenant domains) are [string]; text that the code strips,
    slices or joins is [pystr]. *)

From S2P Require Import Prelude PyText.

Abbreviation uuid := Z.
Abbreviation datetime := Z.
Abbreviation date := Z.

(** src/models/rbac.py *)
Record permission := mkPermission { p_id : uuid; p_key : string }.

(** [RolePermission]: [rp_permission] is the relationship target (None when it was
    not loaded or the row is gone). *)
Record role_permission := mkRolePermission {
  rp_permission : option permission;
  rp_scope : string
}.

Record role := mkRole {
  r_id : uuid;
  r_name : string;
  r_company_domain : option string;
  r_active : bool;
  r_permissions : list role_permission;
  r_system : bool;
  r_description : option pystr
}.

(** src/models/user.py *)
Record department := mkDepartment {
  dp_id : uuid;
  dp_company_domain : string;
  dp_name : pystr;
  dp_active : bool;
  dp_review_required : bool;
  dp_auto_publish_by : option uuid
}.

(** [DepartmentManager], reached through [User.department_ownerships] *)
Record department_manager := mkDepartmentManager {
  dm_department : department;
  dm_active : bool
}.

Record user := mkUser {
  u_id : uuid;
  u_email : pystr;
  u_name : pystr;
  u_company_domain : string;
  u_dept : option pystr;
  u_role : string;
  u_active : bool;
  u_departments : list department;
  u_department_ownerships : list department_manager;
  u_roles : list role
}.

(** A JSON value of a notification payload or of a stored JSON object. *)
Inductive payload_value :=
  | PId (u : uuid)
  | PText (s : pystr)
  | PEvent (s : string)
  | PInt (z : Z)
  | PBool (b : bool)
  | PNone.

(** A JSON object, its keys in insertion order. *)
Definition json : Type := list (string * payload_value).

(** [{**a, **b}] *)
Definition json_set (o : json) (k : string) (v : payload_value) : json :=
  if existsb (fun e => String.eqb k e.1) o
  then map (fun e => if String.eqb k e.1 then (k, v) else e) o
  else o ++ [(k, v)].
Definition json_merge (a b : json) : json := fold_left (fun o e => json_set o e.1 e.2) b a.

#[export] Instance payload_eq_dec : EqDecision payload_value.
Proof. solve_decision. Defined.

(** src/models/article.py *)
Record article_user_permission := mkAUP {
  ap_user_id : uuid;
  ap_effect : string;
  ap_source : option string
}.

Record document_source := mkSource {
  ds_source_system : string;
  ds_source_ref : pystr;
  ds_source_hash : pystr;
  ds_storage_key : option pystr;
  ds_original_filename : pystr;
  ds_mime_type : option pystr;
  ds_page_texts : option (list json)
}.

Record article := mkArticle {
  a_id : uuid;
  a_title : pystr;
  a_external_id : option pystr;
  a_body_md : pystr;
  a_dept : pystr;
  a_domain : pystr;
  a_company_domain : string;
  a_type : string;
  a_sensitivity : string;
  a_visibility : string;
  a_language : string;
  a_owner_id : option uuid;
  a_status : string;
  a_lifecycle_status : option string;
  a_retention_until : option date;
  a_legal_hold : bool;
  a_related_article_ids : option (list pystr);
  a_source_position : option json;
  a_version : Z;
  a_last_reviewed : option datetime;
  a_next_review : option datetime;
  a_needs_update : bool;
  a_self_approved : bool;
  a_source_changed : bool;
  a_source_changed_at : option datetime;
  a_index_status : string;
  a_index_error : option pystr;
  a_departments : list department;
  a_sources : list document_source;
  a_user_permissions : list article_user_permission;
  a_tags : list pystr
}.

#[export] Instance eta_article : Eta article := fun a => mkArticle
  (a_id a) (a_title a) (a_external_id a) (a_body_md a) (a_dept a) (a_domain a)
  (a_company_domain a) (a_type a) (a_sensitivity a) (a_visibility a) (a_language a)
  (a_owner_id a) (a_status a) (a_lifecycle_status a) (a_retention_until a)
  (a_legal_hold a) (a_related_article_ids a) (a_source_position a) (a_version a) (a_last_reviewed a)
  (a_next_review a) (a_needs_update a) (a_self_approved a) (a_source_changed a)
  (a_source_changed_at a) (a_index_status a) (a_index_error a) (a_departments a)
  (a_sources a) (a_user_permissions a) (a_tags a).

#[export] Instance department_eq_dec : EqDecision department.
Proof. solve_decision. Defined.
#[export] Instance aup_eq_dec : EqDecision article_user_permission.
Proof. solve_decision. Defined.
#[export] Instance document_source_eq_dec : EqDecision document_source.
Proof. solve_decision. Defined.
#[export] Instance article_eq_dec : EqDecision article.
Proof. solve_decision. Defined.

(** The identifiers of a list of departments, as the code's
    [{department.id for department in ...}]. *)
Definition department_ids (ds : list department) : gset uuid :=
  list_to_set (map dp_id ds).

(** [bool(a & b)] on sets *)
Definition meets {A} `{Countable A} (a b : gset A) : bool := bool_decide (a ∩ b ≠ ∅).

Lemma meets_true {A} `{Countable A} (a b : gset A) :
  meets a b = true <-> exists x, x ∈ a /\ x ∈ b.
Proof.
  unfold meets. rewrite bool_decide_eq_true. split.
  - intros Hne. apply set_choose_L in Hne as [x Hx]. exists x. set_solver.
  - set_solver.
Qed.

Lemma meets_empty_r {A} `{Countable A} (a : gset A) : meets a ∅ = false.
Proof. unfold meets. apply bool_decide_eq_false. set_solver. Qed.

(** What the permission checks read of the object they are asked about, through
    [getattr] with defaults: an Article, a PendingDraft or a transient Article. *)
Record resource := mkResource {
  rs_company_domain : string;
  rs_departments : list department;
  rs_dept : option pystr;
  rs_owner_id : option uuid
}.

Class IsResource (A : Type) := to_resource : A -> resource.

#[export] Instance article_resource : IsResource article := fun a =>
  mkResource (a_company_domain a) (a_departments a) (Some (a_dept a)) (a_owner_id a).
#[export] Instance resource_resource : IsResource resource := fun r => r.
