(* ===== verification/Rbac.v ===== *)
(** * Role-based access control (src/domain/rbac.py)

    [AuthorizationService]: permission and scope evaluation over the eagerly loaded
    roles of a user, the department boundary of articles, and the effective
    permissions reported to clients. *)

From S2P Require Import Prelude PyText Models.
From Stdlib Require String.
#[local] Open Scope string_scope.
#[local] Open Scope list_scope.
#[local] Open Scope Z_scope.

Definition SCOPES : list string := ["own"; "department"; "company"; "global"].

(** The keys of [PERMISSION_CATALOG], in declaration order. *)
Definition PERMISSION_CATALOG : list string :=
  ["article.read"; "article.create"; "article.edit"; "article.publish";
   "article.delete"; "article.review"; "user.read"; "user.manage"; "role.manage";
   "permission.manage"; "connector.manage"; "ai.ask"; "governance.read"].

(** A dict literal whose iteration order matters: an association list. *)
Definition DEFAULT_ROLE_PERMISSIONS : list (string * list (string * string)) :=
  [("Admin", map (fun key => (key, "global")) PERMISSION_CATALOG);
   ("CEO",
     [("article.read", "company"); ("article.create", "company");
      ("article.edit", "company"); ("article.publish", "company");
      ("article.review", "company"); ("article.delete", "company");
      ("user.read", "company"); ("user.manage", "company");
      ("connector.manage", "company"); ("governance.read", "company");
      ("ai.ask", "company")]);
   ("Reviewer",
     [("article.read", "company"); ("article.review", "company");
      ("governance.read", "company"); ("ai.ask", "company")]);
   ("Staff",
     [("article.read", "company"); ("article.create", "own"); ("article.edit", "own");
      ("ai.ask", "company")])].

(** [d.get(k)] on an association list *)
Fixpoint assoc {V} (k : string) (l : list (string * V)) : option V :=
  match l with
  | [] => None
  | (k', v) :: l' => if bool_decide (k = k') then Some v else assoc k l'
  end.

Definition mem (x : string) (l : list string) : bool := existsb (String.eqb x) l.

(** ** AuthorizationService *)

(** Active departments explicitly owned by this user. *)
Definition owned_department_names (u : user) : gset pystr :=
  list_to_set
    (map (fun m => dp_name (dm_department m))
       (List.filter (fun m => dm_active m && dp_active (dm_department m)
                && bool_decide (dp_company_domain (dm_department m) = u_company_domain u))
          (u_department_ownerships u))).

(** Active department memberships used as the article boundary. *)
Definition member_department_names (u : user) : gset pystr :=
  list_to_set
    (map dp_name
       (List.filter (fun d => dp_active d && bool_decide (dp_company_domain d = u_company_domain u))
          (u_departments u))).

Definition article_department_names (a : article) : gset pystr :=
  let names : gset pystr := list_to_set (map dp_name (List.filter dp_active (a_departments a))) in
  let names := if truthy (a_dept a) then {[a_dept a]} ∪ names else names in
  names ∖ {[ [] ]}.

Definition _scope_allows (granted requested : string) (u : user) (res : option resource) : bool :=
  if negb (mem granted SCOPES) || negb (mem requested SCOPES) then false
  else if String.eqb granted "global" then true
  else match res with
  | None =>
      mem requested ["own"; "department"; "company"]
      && mem granted [requested; "company"; "global"]
  | Some r =>
      if String.eqb granted "company" then
        mem requested ["own"; "department"; "company"]
        && String.eqb (rs_company_domain r) (u_company_domain u)
      else if String.eqb granted "department" then
        let resource_departments : gset pystr :=
          list_to_set (map dp_name (rs_departments r))
          ∪ match rs_dept r with Some d => {[d]} | None => ∅ end in
        mem requested ["own"; "department"]
        && String.eqb (rs_company_domain r) (u_company_domain u)
        && meets resource_departments (owned_department_names u)
      else
        String.eqb requested "own" && bool_decide (rs_owner_id r = Some (u_id u))
  end.

(** A role takes part in a decision when it is active and global or of the user's tenant. *)
Definition role_applies (u : user) (r : role) : bool :=
  negb (negb (r_active r)
        || match r_company_domain r with
           | None => false
           | Some d => negb (String.eqb d (u_company_domain u))
           end).

Definition assignment_allows (u : user) (key requested : string) (res : option resource)
    (a : role_permission) : bool :=
  match rp_permission a with
  | None => false
  | Some p => String.eqb (p_key p) key && _scope_allows (rp_scope a) requested u res
  end.

(** The loop over [user.roles] and their assignments. *)
Definition roles_allow (u : user) (key : string) (res : option resource) (requested : string) : bool :=
  existsb (fun r => role_applies u r
                    && existsb (assignment_allows u key requested res) (r_permissions r))
    (u_roles u).

Definition has_permission (u : user) (key : string) (res : option resource)
    (requested_scope : string) : bool :=
  match u_roles u, assoc (u_role u) DEFAULT_ROLE_PERMISSIONS with
  | [], Some perms =>
      match assoc key perms with
      | Some scope => _scope_allows scope requested_scope u res
      | None => roles_allow u key res requested_scope
      end
  | _, _ => roles_allow u key res requested_scope
  end.

(** [any(has_permission(user, key, resource, scope) for scope in scopes)] *)
Definition has_any_scope (u : user) (key : string) (res : option resource)
    (scopes : list string) : bool :=
  existsb (has_permission u key res) scopes.

Definition has_full_company_article_access (u : user) : bool :=
  if has_permission u "article.read" None "global" then true
  else
    let privileged_role :=
      match u_roles u with
      | [] => mem (u_role u) ["Admin"; "CEO"]
      | rs => existsb (fun r => r_active r && mem (r_name r) ["Admin"; "CEO"]
                && match r_company_domain r with
                   | None => true
                   | Some d => String.eqb d (u_company_domain u)
                   end) rs
      end in
    privileged_role && has_permission u "article.read" None "company".

Definition can_access_article_departments (u : user) (a : article) : bool :=
  if has_permission u "article.read" None "global" || has_full_company_article_access u
  then true
  else meets (member_department_names u) (article_department_names a).

(** The article a caller sees: labels of departments they do not belong to are hidden. *)
Definition restrict_article_metadata (u : user) (a : article) : article :=
  if has_permission u "article.read" None "global" || has_full_company_article_access u
  then a
  else
    let member_departments := member_department_names u in
    let visible :=
      List.filter (fun d => bool_decide (dp_name d ∈ member_departments)) (a_departments a) in
    let a' := a <| a_departments := visible |> in
    match visible with
    | d :: _ =>
        if negb (bool_decide (a_dept a' ∈ member_departments))
        then a' <| a_dept := dp_name d |> else a'
    | [] => a'
    end.

Definition has_department_ownership (u : user) : bool :=
  bool_decide (owned_department_names u ≠ ∅).

Definition has_narrow_article_access (u : user) (res : option resource) : bool :=
  negb (has_permission u "article.read" None "company")
  && existsb (has_permission u "article.read" res) ["own"; "department"].

Definition is_global_administrator (u : user) : bool :=
  existsb (fun r => r_active r && String.eqb (r_name r) "Admin"
                    && bool_decide (r_company_domain r = None)) (u_roles u).

Definition has_global_identity_management (u : user) : bool :=
  existsb (fun key => has_permission u key None "global")
    ["user.read"; "user.manage"; "role.manage"; "permission.manage"].

Definition has_global_connector_management (u : user) : bool :=
  has_permission u "connector.manage" None "global".

Definition has_global_governance_access (u : user) : bool :=
  has_permission u "governance.read" None "global".

Definition has_global_article_access (u : user) : bool :=
  existsb (fun key => has_permission u key None "global")
    ["article.read"; "article.create"; "article.edit"; "article.publish";
     "article.delete"; "article.review"].

(** [rank.get(scope, 0)] *)
Definition rank (scope : string) : Z :=
  if String.eqb scope "own" then 1
  else if String.eqb scope "department" then 2
  else if String.eqb scope "company" then 3
  else if String.eqb scope "global" then 4
  else 0.

(** One iteration of the inner loop of [get_effective_permissions]. *)
Definition effective_step (result : gmap string string) (a : role_permission) : gmap string string :=
  match rp_permission a with
  | Some p =>
      if rank (default "" (result !! p_key p)) <? rank (rp_scope a)
      then <[p_key p := rp_scope a]> result else result
  | None => result
  end.

Definition effective_map (u : user) : gmap string string :=
  match u_roles u with
  | [] => match assoc (u_role u) DEFAULT_ROLE_PERMISSIONS with
          | Some perms => fold_left (fun m kv => <[kv.1 := kv.2]> m) perms ∅
          | None => ∅
          end
  | rs => fold_left (fun m r => fold_left effective_step (r_permissions r) m)
            (List.filter (role_applies u) rs) ∅
  end.

(** Order of [sorted(result.items())]: the keys of a dict are distinct, so they decide. *)
Definition item_leb (a b : string * string) : bool := String.leb a.1 b.1.

Definition get_effective_permissions (u : user) : list (string * string) :=
  stable_sort item_leb (map_to_list (effective_map u)).

Definition legacy_roles_for_permission (permission : string) : list string :=
  map fst (List.filter (fun r => match assoc permission r.2 with Some _ => true | None => false end)
             DEFAULT_ROLE_PERMISSIONS).

(** ** What a user is granted *)

(** [granted u key scope]: an applicable role (or, before the RBAC bootstrap, the
    legacy role string) gives [u] the permission [key] at [scope].  This is the
    specification the evaluation below is measured against. *)
Definition granted (u : user) (key scope : string) : Prop :=
  match u_roles u, assoc (u_role u) DEFAULT_ROLE_PERMISSIONS with
  | [], Some perms => assoc key perms = Some scope
  | _, _ => exists r a p, r ∈ u_roles u /\ role_applies u r = true /\ a ∈ r_permissions r
              /\ rp_permission a = Some p /\ p_key p = key /\ rp_scope a = scope
  end.

Lemma mem_In x l : mem x l = true <-> x ∈ l.
Proof.
  unfold mem. rewrite existsb_elem. setoid_rewrite String.eqb_eq. naive_solver.
Qed.

Lemma roles_allow_iff u key res q :
  roles_allow u key res q = true <->
  exists r a p, r ∈ u_roles u /\ role_applies u r = true /\ a ∈ r_permissions r
    /\ rp_permission a = Some p /\ p_key p = key
    /\ _scope_allows (rp_scope a) q u res = true.
Proof.
  unfold roles_allow. rewrite existsb_elem. split.
  - intros (r & Hr & H). apply andb_true_iff in H as [Happ H].
    apply existsb_elem in H as (a & Ha & Hall).
    unfold assignment_allows in Hall. destruct (rp_permission a) as [p|] eqn:Hp; [|done].
    bools. rewrite String.eqb_eq in *. naive_solver.
  - intros (r & a & p & Hr & Happ & Ha & Hp & <- & Hs). exists r. split; [done|].
    rewrite Happ. cbn. apply existsb_elem. exists a. split; [done|].
    unfold assignment_allows. by rewrite Hp, String.eqb_refl.
Qed.

(** [has_permission] succeeds exactly when some granted scope allows the request. *)
Lemma has_permission_iff u key res q :
  has_permission u key res q = true <->
  exists scope, granted u key scope /\ _scope_allows scope q u res = true.
Proof.
  unfold has_permission, granted.
  destruct (u_roles u) as [|r0 rs] eqn:Hrs;
    [destruct (assoc (u_role u) DEFAULT_ROLE_PERMISSIONS) as [perms|];
      [destruct (assoc key perms)|]|].
  1: naive_solver.
  all: rewrite roles_allow_iff, Hrs; set_solver.
Qed.

Lemma scope_allows_valid s q u res :
  _scope_allows s q u res = true -> s ∈ SCOPES /\ q ∈ SCOPES.
Proof.
  unfold _scope_allows. destruct (mem s SCOPES) eqn:H1, (mem q SCOPES) eqn:H2; cbn; try done.
  by rewrite !mem_In in *.
Qed.

Lemma scope_cases s :
  s ∈ SCOPES <-> s = "own" \/ s = "department" \/ s = "company" \/ s = "global".
Proof. unfold SCOPES. rewrite !elem_of_cons, elem_of_nil. naive_solver. Qed.

(** Split a statement about scopes into the cases of the vocabulary. *)
Ltac scopes := rewrite ?scope_cases in *; destruct_or?; subst; try done; try congruence.

Lemma scope_allows_none s q u :
  _scope_allows s q u None = true <->
  s ∈ SCOPES /\ q ∈ SCOPES
  /\ (s = "global" \/ (q <> "global" /\ (s = q \/ s = "company"))).
Proof.
  split.
  - intros H. destruct (scope_allows_valid _ _ _ _ H) as [Hs Hq].
    scopes; cbn in H; try done; naive_solver.
  - intros (Hs & Hq & H). scopes; naive_solver.
Qed.

Lemma has_permission_global u key res q :
  q ∈ SCOPES -> granted u key "global" -> has_permission u key res q = true.
Proof.
  intros Hq Hg. apply has_permission_iff. exists "global". split; [done|]. by scopes.
Qed.

Lemma has_global_iff u key :
  has_permission u key None "global" = true <-> granted u key "global".
Proof.
  rewrite has_permission_iff. setoid_rewrite scope_allows_none. split; [naive_solver|].
  intros Hg. exists "global". repeat split; auto; unfold SCOPES; set_solver.
Qed.

(** ** Scope semantics on a resource *)

Lemma scope_allows_some s q u r :
  _scope_allows s q u (Some r) = true <->
  q ∈ SCOPES /\
  (s = "global"
   \/ s = "company" /\ q <> "global" /\ rs_company_domain r = u_company_domain u
   \/ s = "department" /\ (q = "own" \/ q = "department")
      /\ rs_company_domain r = u_company_domain u
      /\ (exists n, n ∈ owned_department_names u
            /\ (rs_dept r = Some n \/ exists d, d ∈ rs_departments r /\ dp_name d = n))
   \/ s = "own" /\ q = "own" /\ rs_owner_id r = Some (u_id u)).
Proof.
  split.
  - intros H. destruct (scope_allows_valid _ _ _ _ H) as [Hs Hq]. split; [done|].
    unfold _scope_allows in H. scopes; cbn in H; rewrite ?andb_true_r in H; bools;
      rewrite ?String.eqb_eq in *; try naive_solver;
      apply meets_true in H0 as (n & Hn & Ho); right; right; left;
      (repeat split; auto); exists n; (split; [done|]);
      apply elem_of_union in Hn as [Hn|Hn];
      [right; apply elem_of_list_to_set, list_elem_of_fmap in Hn; set_solver
      |left; destruct (rs_dept r); set_solver
      |right; apply elem_of_list_to_set, list_elem_of_fmap in Hn; set_solver
      |left; destruct (rs_dept r); set_solver].
  - intros (Hq & H). unfold _scope_allows.
    destruct H as [->|[(-> & Hg & Hc)|[(-> & Hdq & Hc & n & Hn & Hd)|(-> & -> & Ho)]]].
    + by scopes.
    + rewrite Hc, !String.eqb_refl. by scopes.
    + rewrite Hc, !String.eqb_refl. cbn.
      enough (Hm : meets (list_to_set (map dp_name (rs_departments r))
                 ∪ match rs_dept r with Some d => {[d]} | None => ∅ end)
                (owned_department_names u) = true)
        by (rewrite Hm; destruct Hdq as [->| ->]; done).
      apply meets_true. exists n. split; [|done]. apply elem_of_union.
      destruct Hd as [->|(d & Hd & <-)]; [set_solver|].
      left. apply elem_of_list_to_set, list_elem_of_fmap. eauto.
    + rewrite Ho. cbn. apply bool_decide_eq_true. done.
Qed.

(** ** Effective permissions: a maximum over the granted scopes *)

Section Effective.
Implicit Types m : gmap string string.

(** The rank recorded for a key: 0 when the key is absent. *)
Definition rank_in m (key : string) : Z := rank (default "" (m !! key)).

Lemma rank_empty key : rank_in ∅ key = 0.
Proof. unfold rank_in. by rewrite lookup_empty. Qed.

Lemma rank_nonneg s : 0 <= rank s.
Proof. unfold rank. repeat case_match; lia. Qed.

Lemma effective_step_spec m a key :
  effective_step m a !! key =
    match rp_permission a with
    | Some p => if bool_decide (p_key p = key) && (rank_in m key <? rank (rp_scope a))
                then Some (rp_scope a) else m !! key
    | None => m !! key
    end.
Proof.
  unfold effective_step, rank_in. destruct (rp_permission a) as [p|]; [|done].
  destruct (decide (p_key p = key)) as [<-|Hne].
  - rewrite bool_decide_eq_true_2 by done. cbn. case_match; by rewrite ?lookup_insert_eq.
  - rewrite bool_decide_eq_false_2 by done. cbn. case_match; by rewrite ?lookup_insert_ne.
Qed.

(** The loop invariant of [get_effective_permissions], over any list of assignments. *)
Lemma effective_fold l m key :
  let m' := fold_left effective_step l m in
  rank_in m key <= rank_in m' key
  /\ (forall a p, a ∈ l -> rp_permission a = Some p -> p_key p = key ->
        rank (rp_scope a) <= rank_in m' key)
  /\ (m' !! key = m !! key
      \/ exists a p, a ∈ l /\ rp_permission a = Some p /\ p_key p = key
           /\ m' !! key = Some (rp_scope a) /\ 0 < rank (rp_scope a)).
Proof.
  revert m. induction l as [|a l IH]; intros m; cbn zeta; cbn [fold_left].
  - repeat split; [lia|set_solver|by left].
  - destruct (IH (effective_step m a)) as (Hmono & Hmax & Hfrom).
    assert (Hstep : rank_in m key <= rank_in (effective_step m a) key
      /\ (forall p, rp_permission a = Some p -> p_key p = key ->
            rank (rp_scope a) <= rank_in (effective_step m a) key)
      /\ (effective_step m a !! key = m !! key \/ exists p, rp_permission a = Some p
           /\ p_key p = key /\ effective_step m a !! key = Some (rp_scope a)
           /\ 0 < rank (rp_scope a))).
    { unfold rank_in at 2 3. rewrite effective_step_spec.
      destruct (rp_permission a) as [p|]; [|split; [|split]; [unfold rank_in; lia|done|by left]].
      destruct (decide (p_key p = key)) as [Hk|Hk].
      - rewrite (bool_decide_eq_true_2 _ Hk). cbn.
        destruct (Z.ltb_spec (rank_in m key) (rank (rp_scope a))) as [Hlt|Hge]; cbn.
        + split; [lia|]. split; [intros; lia|]. right. exists p.
          pose proof (rank_nonneg (default "" (m !! key))). unfold rank_in in Hlt.
          repeat split; auto; lia.
        + fold (rank_in m key). split; [lia|]. split; [|by left]. intros; lia.
      - rewrite (bool_decide_eq_false_2 _ Hk). cbn. fold (rank_in m key).
        split; [lia|]. split; [naive_solver|by left]. }
    destruct Hstep as (Hs1 & Hs2 & Hs3). split; [lia|]. split.
    + intros a' p [->|Ha']%elem_of_cons Hp Hk; [specialize (Hs2 p Hp Hk); lia|eauto].
    + destruct Hfrom as [Heq|(a' & p & Ha' & H)].
      * rewrite Heq. destruct Hs3 as [->|(p & Hp)]; [by left|].
        right. exists a, p. set_solver.
      * right. exists a', p. set_solver.
Qed.
End Effective.

Lemma fold_left_concat {A B C} (f : A -> B -> A) (g : C -> list B) l a :
  fold_left (fun m r => fold_left f (g r) m) l a = fold_left f (concat (map g l)) a.
Proof.
  revert a. induction l as [|c l IH]; intros a; cbn; [done|].
  by rewrite fold_left_app, IH.
Qed.

(** The assignments [get_effective_permissions] looks at are those that are granted. *)
Lemma granted_assignments u key scope :
  u_roles u <> [] ->
  granted u key scope <->
  exists a p, a ∈ concat (map r_permissions (List.filter (role_applies u) (u_roles u)))
    /\ rp_permission a = Some p /\ p_key p = key /\ rp_scope a = scope.
Proof.
  intros Hne. unfold granted. destruct (u_roles u) as [|r0 rs] eqn:Hrs; [done|].
  rewrite <- Hrs. split.
  - intros (r & a & p & Hr & Happ & Ha & H). exists a, p. split; [|done].
    apply elem_of_concat_map. exists r. split; [|done]. by apply elem_of_filter_b.
  - intros (a & p & Ha & H). apply elem_of_concat_map in Ha as (r & Hr & Ha).
    apply elem_of_filter_b in Hr as [Hr Happ].
    exists r, a, p. naive_solver.
Qed.

Lemma assoc_insert_fold (perms : list (string * string)) m key :
  NoDup perms.*1 ->
  fold_left (fun m kv => <[kv.1 := kv.2]> m) perms m !! key =
  match assoc key perms with Some s => Some s | None => (m : gmap string string) !! key end.
Proof.
  revert m. induction perms as [|[k s] perms IH]; intros m Hnd; cbn; [done|].
  cbn in Hnd. apply NoDup_cons in Hnd as [Hk Hnd]. rewrite IH by done.
  case_bool_decide as Hkk; [subst|].
  - destruct (assoc k perms) as [s'|] eqn:Ha; [|by rewrite lookup_insert_eq].
    exfalso. apply Hk. clear -Ha. induction perms as [|[k' s''] perms IH]; cbn in *; [done|].
    case_bool_decide; [subst; left|right; auto].
  - case_match; [done|]. by rewrite lookup_insert_ne.
Qed.

Lemma default_roles_nodup name perms :
  assoc name DEFAULT_ROLE_PERMISSIONS = Some perms -> NoDup perms.*1.
Proof.
  unfold DEFAULT_ROLE_PERMISSIONS. cbn [assoc].
  repeat case_bool_decide; intros [= <-];
    apply (bool_decide_unpack _); vm_compute; exact I.
Qed.

(** The map behind [get_effective_permissions]: what it holds is granted, and its rank
    dominates every granted scope of the key. *)
Lemma effective_map_spec u key :
  (forall s, effective_map u !! key = Some s -> granted u key s)
  /\ (forall s, granted u key s -> rank s <= rank_in (effective_map u) key).
Proof.
  unfold effective_map. destruct (u_roles u) as [|r0 rs] eqn:Hrs.
  - unfold granted. rewrite Hrs.
    destruct (assoc (u_role u) DEFAULT_ROLE_PERMISSIONS) as [perms|] eqn:Hd.
    + rewrite (assoc_insert_fold perms ∅ key) by eauto using default_roles_nodup.
      split; [case_match; [naive_solver|by rewrite lookup_empty]|].
      intros s Hs. unfold rank_in.
      rewrite (assoc_insert_fold perms ∅ key), Hs by eauto using default_roles_nodup. done.
    + split; [by rewrite lookup_empty|]. set_solver.
  - assert (Hne : u_roles u <> []) by by rewrite Hrs.
    rewrite fold_left_concat.
    destruct (effective_fold (concat (map r_permissions (List.filter (role_applies u) (r0 :: rs))))
                ∅ key) as (_ & Hmax & Hfrom).
    rewrite <- Hrs in *. split.
    + intros s Hs. apply granted_assignments; [done|].
      rewrite Hs, lookup_empty in Hfrom. destruct Hfrom as [?|(a & p & H)]; [done|].
      exists a, p. naive_solver.
    + intros s (a & p & Ha & Hp & Hk & <-)%granted_assignments; [|done]. eauto.
Qed.

Lemma elem_of_effective u key s :
  (key, s) ∈ get_effective_permissions u <-> effective_map u !! key = Some s.
Proof.
  unfold get_effective_permissions. rewrite elem_of_stable_sort.
  apply elem_of_map_to_list.
Qed.

#[export] Hint Resolve rank_nonneg : kb.

(** Ranks order the valid scopes. *)
Lemma rank_valid s : 0 < rank s <-> s ∈ SCOPES.
Proof.
  rewrite scope_cases. unfold rank.
  destruct (String.eqb_spec s "own"), (String.eqb_spec s "department"),
    (String.eqb_spec s "company"), (String.eqb_spec s "global"); naive_solver lia.
Qed.

Lemma rank_company s : 3 <= rank s <-> s = "company" \/ s = "global".
Proof.
  unfold rank.
  destruct (String.eqb_spec s "own"), (String.eqb_spec s "department"),
    (String.eqb_spec s "company"), (String.eqb_spec s "global"); subst; naive_solver lia.
Qed.

Lemma rank_global s : 4 <= rank s <-> s = "global".
Proof.
  unfold rank.
  destruct (String.eqb_spec s "own"), (String.eqb_spec s "department"),
    (String.eqb_spec s "company"), (String.eqb_spec s "global"); subst; naive_solver lia.
Qed.

(** Some grant of rank at least [n > 0] exists exactly when one is reported. *)
Lemma effective_threshold u key n :
  0 < n ->
  (exists s, granted u key s /\ n <= rank s)
  <-> exists s, (key, s) ∈ get_effective_permissions u /\ n <= rank s.
Proof.
  intros Hn. setoid_rewrite elem_of_effective.
  destruct (effective_map_spec u key) as [Hs Hmax]. split.
  - intros (s & Hg & Hr). specialize (Hmax s Hg). unfold rank_in in Hmax.
    destruct (effective_map u !! key) as [s'|] eqn:He; cbn in Hmax.
    + exists s'. split; [done|lia].
    + cbn in Hmax. lia.
  - intros (s & He & Hr). eauto.
Qed.

Lemma granted_company_iff u key :
  has_permission u key None "company" = true <->
  exists s, granted u key s /\ 3 <= rank s.
Proof.
  rewrite has_permission_iff. setoid_rewrite rank_company.
  setoid_rewrite scope_allows_none. setoid_rewrite scope_cases. naive_solver.
Qed.

(** [get_effective_permissions] reports, for every permission key, exactly the widest
    scope that some applicable role of the user grants: what it reports is granted, no grant
    is wider than the reported one, and every valid grant has a report. *)
Theorem effective_permissions_maximal (u : user) (key : string) :
  (forall s, (key, s) ∈ get_effective_permissions u ->
     granted u key s /\ forall s', granted u key s' -> rank s' <= rank s)
  /\ (forall s', granted u key s' -> s' ∈ SCOPES ->
     exists s, (key, s) ∈ get_effective_permissions u /\ rank s' <= rank s).
Proof.
  destruct (effective_map_spec u key) as [Hs Hmax]. split.
  - intros s He%elem_of_effective. split; [auto|]. intros s' Hg.
    specialize (Hmax s' Hg). unfold rank_in in Hmax. by rewrite He in Hmax.
  - intros s' Hg Hv%rank_valid.
    apply (effective_threshold u key (rank s') Hv). eauto with lia.
Qed.

(** The report is enough to decide the tenant-wide checks: asking
    [has_permission(user, key, requested_scope="company")] (or ["global"]) without a
    resource answers yes exactly when the reported scope is company or global (global). *)
Theorem effective_permissions_decide (u : user) (key : string) :
  (has_permission u key None "company" = true <->
     exists s, (key, s) ∈ get_effective_permissions u /\ (s = "company" \/ s = "global"))
  /\ (has_permission u key None "global" = true <->
     (key, "global") ∈ get_effective_permissions u).
Proof.
  split.
  - rewrite granted_company_iff, effective_threshold by lia.
    by setoid_rewrite rank_company.
  - transitivity (exists s, granted u key s /\ 4 <= rank s).
    + rewrite has_global_iff. setoid_rewrite rank_global. naive_solver.
    + rewrite effective_threshold by lia. setoid_rewrite rank_global. naive_solver.
Qed.

(** Tenant isolation: on a resource of another company, a permission check succeeds
    only through a global grant, or through an own-scope grant on an object the user owns. *)
Theorem cross_tenant_permission (u : user) (key q : string) (r : resource)
    (Hother : rs_company_domain r <> u_company_domain u)
    (Hperm : has_permission u key (Some r) q = true) :
  granted u key "global"
  \/ (granted u key "own" /\ q = "own" /\ rs_owner_id r = Some (u_id u)).
Proof.
  apply has_permission_iff in Hperm as (s & Hg & Hs).
  apply scope_allows_some in Hs as (_ & H). naive_solver.
Qed.

Definition example_staff : user :=
  mkUser 7 $"s@acme.test" $"S" "acme.test" (Some $"HR") "Staff" true [] [] [].

Lemma cross_tenant_permission_witness :
  let r := mkResource "other.test" [] (Some $"HR") (Some 7) in
  rs_company_domain r <> u_company_domain example_staff
  /\ has_permission example_staff "article.edit" (Some r) "own" = true
  /\ (granted example_staff "article.edit" "global"
      \/ (granted example_staff "article.edit" "own" /\ "own" = "own"
          /\ rs_owner_id r = Some (u_id example_staff))).
Proof.
  intros r. split; [done|]. split; [vm_compute; reflexivity|].
  apply (cross_tenant_permission example_staff "article.edit" "own" r);
    [done|vm_compute; reflexivity].
Defined.

(** [restrict_article_metadata]: what a reader without company-wide article access sees
    lists only departments they are a member of, and its primary label is one of theirs
    whenever at least one of the article's departments is; nothing else of the article
    changes.  When none is, the primary label is left as it was. *)
Theorem restrict_hides_departments (u : user) (a : article)
    (Hno : has_full_company_article_access u = false) :
  let a' := restrict_article_metadata u a in
  (forall d, d ∈ a_departments a' <->
     d ∈ a_departments a /\ dp_name d ∈ member_department_names u)
  /\ (a_departments a' <> [] -> a_dept a' ∈ member_department_names u)
  /\ (a_departments a' = [] -> a_dept a' = a_dept a)
  /\ a' <| a_departments := a_departments a |> <| a_dept := a_dept a |> = a.
Proof.
  assert (Hg : has_permission u "article.read" None "global" = false).
  { unfold has_full_company_article_access in Hno. by case_match. }
  unfold restrict_article_metadata. rewrite Hg, Hno. cbn zeta. cbn [orb].
  set (vis := List.filter _ _).
  assert (Hvis : forall d, d ∈ vis <->
    d ∈ a_departments a /\ dp_name d ∈ member_department_names u).
  { intros d. unfold vis. by rewrite elem_of_filter_b, bool_decide_eq_true. }
  destruct vis as [|d0 vis'] eqn:Hv; [|case_match eqn:Hd]; (split; [exact Hvis|]); cbn.
  - split; [done|]. split; [done|]. by destruct a.
  - split; [intros _; apply Hvis; by left|]. split; [done|]. by destruct a.
  - apply negb_false_iff, bool_decide_eq_true in Hd.
    split; [done|]. split; [done|]. by destruct a.
Qed.

Lemma restrict_hides_departments_witness :
  let d n := mkDepartment n "acme.test" $"HR" true true None in
  let a := mkArticle 1 $"t" None $"b" $"HR" $"d" "acme.test" "SOP" "internal" "department"
    "vi" None "published" (Some "active") None false None None 1 None None false false false None
    "pending" None [d 3] [] [] [] in
  has_full_company_article_access example_staff = false
  /\ a_departments (restrict_article_metadata example_staff a) = []
  /\ a_dept (restrict_article_metadata example_staff a) = a_dept a.
Proof.
  intros d a. assert (H : has_full_company_article_access example_staff = false)
    by (vm_compute; reflexivity).
  destruct (restrict_hides_departments example_staff a H) as (_ & _ & Hd & _).
  assert (Hnil : a_departments (restrict_article_metadata example_staff a) = [])
    by (vm_compute; reflexivity).
  split; [exact H|]. split; [exact Hnil|]. exact (Hd Hnil).
Defined.

(** The tables these tests run over are long; the clients reason by the lemmas above. *)
#[global] Arguments mem : simpl never.
#[global] Arguments has_any_scope : simpl never.
