(* ===== verification/Permissions.v ===== *)
(** * Article permissions

    [PermissionService] (src/domain/permissions.py) decides in Python whether one user may
    view, edit or delete one article; [ArticleRepository._authorized_article_filters]
    (src/repositories/article.py) is the WHERE clause every read query carries, here as a
    boolean function of a row.  The last part relates the two. *)

From S2P Require Import Prelude PyText Models Rbac.
From Stdlib Require String.
#[local] Open Scope string_scope.
#[local] Open Scope list_scope.
#[local] Open Scope Z_scope.

(** src/domain/connector_providers.py *)
Definition REMOTE_PROVIDERS : list string := ["sharepoint"; "onedrive"; "google_drive"].
Definition MICROSOFT_GRAPH_PROVIDERS : list string := ["sharepoint"; "onedrive"].
(** [tuple(sorted(REMOTE_PROVIDERS))] *)
Definition SOURCE_ACL_PROVIDERS : list string := ["google_drive"; "onedrive"; "sharepoint"].

Definition is_microsoft_graph (system : option string) : bool :=
  match system with Some s => mem s MICROSOFT_GRAPH_PROVIDERS | None => false end.
Definition supports_lifecycle_webhooks (system : option string) : bool :=
  is_microsoft_graph system.
Definition cursor_type (system : option string) : string :=
  if is_microsoft_graph system then "delta" else "changes".

(** ** PermissionService *)

Definition overrides_of (u : user) (a : article) : list article_user_permission :=
  List.filter (fun o => Z.eqb (ap_user_id o) (u_id u)) (a_user_permissions a).

Definition _explicit_user_effect (u : user) (a : article) : option string :=
  let effects := map ap_effect (overrides_of u a) in
  if mem "deny" effects then Some "deny"
  else if mem "allow" effects then Some "allow"
  else None.

(** The provider systems the article's provenance rows name. *)
Definition governed_by (a : article) : list string :=
  List.filter (fun s => mem s SOURCE_ACL_PROVIDERS) (map ds_source_system (a_sources a)).

Definition source_in (systems : list string) (o : article_user_permission) : bool :=
  match ap_source o with Some s => mem s systems | None => false end.

Definition _source_acl_allows (u : user) (a : article) : bool :=
  match governed_by a with
  | [] => true
  | gov =>
      existsb (fun o => Z.eqb (ap_user_id o) (u_id u) && String.eqb (ap_effect o) "allow"
                        && source_in gov o) (a_user_permissions a)
      || meets (department_ids (u_departments u)) (department_ids (a_departments a))
  end.

Definition ALL_SCOPES : list string := ["own"; "department"; "company"; "global"].
Definition UNPUBLISHED : list string := ["draft"; "pending_review"; "archived"].

Definition lifecycle_active (a : article) : bool :=
  match a_lifecycle_status a with None => true | Some s => String.eqb s "active" end.

Definition governance_access (u : user) (a : article) : bool :=
  existsb (fun permission => has_any_scope u permission (Some (to_resource a)) ALL_SCOPES)
    ["article.review"; "article.publish"; "article.edit"; "article.delete"].

Definition effect_is (e : option string) (s : string) : bool := bool_decide (e = Some s).

Definition can_view_article (u : user) (a : article) : bool :=
  if String.eqb (a_status a) "deleted" || negb (lifecycle_active a) then false
  else if negb (has_any_scope u "article.read" (Some (to_resource a)) ALL_SCOPES) then false
  else
    let explicit_effect := _explicit_user_effect u a in
    if effect_is explicit_effect "deny" then false
    else if negb (_source_acl_allows u a) then false
    else if String.eqb (a_visibility a) "users" then effect_is explicit_effect "allow"
    else if mem (a_status a) UNPUBLISHED
            && negb (bool_decide (a_owner_id a = Some (u_id u))) && negb (governance_access u a)
    then false
    else if has_full_company_article_access u then true
    else if effect_is explicit_effect "allow" then true
    else if String.eqb (a_sensitivity a) "restricted"
            && negb (meets (department_ids (u_departments u)) (department_ids (a_departments a)))
    then false
    else can_access_article_departments u a.

Definition can_edit_article (u : user) (a : article) : bool :=
  has_any_scope u "article.edit" (Some (to_resource a)) ["own"; "department"; "company"].

Definition can_delete_article (u : user) (a : article) : bool :=
  has_any_scope u "article.delete" (Some (to_resource a)) ["own"; "department"; "company"].

(** ** The SQL visibility predicate *)

(** [ArticleRepository._has_article_read_permission] *)
Definition _has_article_read_permission (u : user) : bool :=
  has_any_scope u "article.read" None ALL_SCOPES.

(** [Article.user_permissions.any(user_id == user.id AND effect == e)] *)
Definition sql_explicit (e : string) (u : user) (a : article) : bool :=
  existsb (fun o => Z.eqb (ap_user_id o) (u_id u) && String.eqb (ap_effect o) e)
    (a_user_permissions a).

Definition sql_source_explicit_allow (u : user) (a : article) : bool :=
  existsb (fun o => Z.eqb (ap_user_id o) (u_id u) && String.eqb (ap_effect o) "allow"
                    && source_in SOURCE_ACL_PROVIDERS o) (a_user_permissions a).

(** [or_(Article.dept.in_(names), Article.departments.any(Department.name.in_(names)))] *)
Definition sql_in_departments (names : gset pystr) (a : article) : bool :=
  bool_decide (a_dept a ∈ names)
  || existsb (fun d => bool_decide (dp_name d ∈ names)) (a_departments a).

(** The EXISTS subquery: the primary department is an active row of the article's tenant. *)
Definition sql_active_department (rows : list department) (a : article) : bool :=
  existsb (fun d => String.eqb (dp_company_domain d) (a_company_domain a)
                    && bool_decide (dp_name d = a_dept a) && dp_active d) rows.

Definition sql_visibility_scope (u : user) (a : article) : bool :=
  let global_read := has_permission u "article.read" None "global" in
  let full_company_access := has_full_company_article_access u in
  if negb (global_read || full_company_access) then
    let member_departments :=
      match u_dept u with
      | Some (c :: s) => {[c :: s]} ∪ member_department_names u
      | _ => member_department_names u
      end in
    let department_scope := sql_in_departments member_departments a in
    let permission_conditions :=
      String.eqb (a_sensitivity a) "public"
      || bool_decide (a_owner_id a = Some (u_id u))
      || sql_explicit "allow" u a
      || (has_permission u "article.read" None "department"
          && sql_in_departments (owned_department_names u) a) in
    (negb (String.eqb (a_visibility a) "users") && (department_scope || permission_conditions))
    || (String.eqb (a_visibility a) "users" && sql_explicit "allow" u a)
  else negb (String.eqb (a_visibility a) "users") || sql_explicit "allow" u a.

Definition sql_source_acl (u : user) (a : article) : bool :=
  let source_acl_article :=
    existsb (fun s => mem (ds_source_system s) SOURCE_ACL_PROVIDERS) (a_sources a) in
  negb source_acl_article
  || (source_acl_article
      && (sql_source_explicit_allow u a
          || meets (department_ids (u_departments u)) (department_ids (a_departments a)))).

Definition sql_unpublished (u : user) (a : article) : bool :=
  if has_permission u "article.review" None "global"
     || has_permission u "article.publish" None "global" then true
  else if has_permission u "article.review" None "company"
          || has_permission u "article.publish" None "company" then true
  else
    ((has_permission u "article.review" None "department"
      || has_permission u "article.publish" None "department")
     && sql_in_departments (owned_department_names u) a)
    || (existsb (fun key => has_permission u key None "own")
          ["article.review"; "article.publish"; "article.edit"; "article.delete"]
        && bool_decide (a_owner_id a = Some (u_id u))).

(** A row [a] satisfies every clause of [_authorized_article_filters(user)], [rows] being
    the departments table. *)
Definition _authorized_article_filters (rows : list department) (u : user) (a : article) : bool :=
  _has_article_read_permission u
  && bool_decide (a_lifecycle_status a = Some "active")
  && negb (String.eqb (a_status a) "deleted")
  && sql_active_department rows a
  && negb (sql_explicit "deny" u a)
  && (has_permission u "article.read" None "global"
      || String.eqb (a_company_domain a) (u_company_domain u))
  && sql_visibility_scope u a
  && sql_source_acl u a
  && (String.eqb (a_status a) "published" || sql_unpublished u a).

#[global] Arguments governance_access : simpl never.
#[global] Arguments sql_explicit : simpl never.

(** ** Helper lemmas *)

Lemma effect_is_true e s : effect_is e s = true <-> e = Some s.
Proof. apply bool_decide_eq_true. Qed.

Lemma mem_effects u a e :
  mem e (map ap_effect (overrides_of u a)) = sql_explicit e u a.
Proof.
  unfold overrides_of, sql_explicit, mem.
  induction (a_user_permissions a) as [|o l IH]; cbn; [done|].
  destruct (Z.eqb (ap_user_id o) (u_id u)); cbn; rewrite IH; [|done].
  by rewrite String.eqb_sym.
Qed.

Lemma explicit_effect_spec u a :
  _explicit_user_effect u a =
    if sql_explicit "deny" u a then Some "deny"
    else if sql_explicit "allow" u a then Some "allow" else None.
Proof. unfold _explicit_user_effect. by rewrite !mem_effects. Qed.

Lemma effect_deny u a : effect_is (_explicit_user_effect u a) "deny" = sql_explicit "deny" u a.
Proof. rewrite explicit_effect_spec. by repeat case_match. Qed.

Lemma effect_allow u a :
  effect_is (_explicit_user_effect u a) "allow"
  = negb (sql_explicit "deny" u a) && sql_explicit "allow" u a.
Proof. rewrite explicit_effect_spec. by repeat case_match. Qed.

Lemma has_any_scope_iff u key res scopes :
  has_any_scope u key res scopes = true <->
  exists q, q ∈ scopes /\ has_permission u key res q = true.
Proof. apply existsb_elem. Qed.

(** The gates every successful view has passed. *)
Lemma can_view_gates u a :
  can_view_article u a = true ->
  a_status a <> "deleted" /\ lifecycle_active a = true
  /\ has_any_scope u "article.read" (Some (to_resource a)) ALL_SCOPES = true
  /\ sql_explicit "deny" u a = false
  /\ _source_acl_allows u a = true
  /\ (a_visibility a = "users" -> sql_explicit "allow" u a = true)
  /\ (mem (a_status a) UNPUBLISHED = true -> a_visibility a <> "users" ->
        a_owner_id a = Some (u_id u) \/ governance_access u a = true).
Proof.
  unfold can_view_article. rewrite effect_deny, effect_allow.
  destruct (String.eqb_spec (a_status a) "deleted"); cbn; [done|].
  destruct (lifecycle_active a); cbn; [|done].
  destruct (has_any_scope u "article.read" (Some (to_resource a)) ALL_SCOPES); cbn; [|done].
  destruct (sql_explicit "deny" u a); cbn; [done|].
  destruct (_source_acl_allows u a); cbn; [|done].
  destruct (String.eqb_spec (a_visibility a) "users"); [intros Hall; by split_and!|].
  intros H. split_and!; try done. intros Hm _. rewrite Hm in H. cbn in H.
  destruct (bool_decide (a_owner_id a = Some (u_id u))) eqn:Ho; bools; [by left|].
  destruct (governance_access u a); [by right|done].
Qed.

(** C30. An explicit deny for a user wins over every role, ownership, department, tenant or
    global grant, and over any explicit allow, whatever the order of the rows: the article
    is invisible both to [can_view_article] and to the SQL predicate. *)
Theorem deny_is_authoritative (rows : list department) (u : user) (a : article)
    (o : article_user_permission)
    (Hin : o ∈ a_user_permissions a) (Hu : ap_user_id o = u_id u) (Hd : ap_effect o = "deny") :
  can_view_article u a = false /\ _authorized_article_filters rows u a = false.
Proof.
  assert (Hden : sql_explicit "deny" u a = true).
  { apply existsb_elem. exists o. split; [done|]. by rewrite Hu, Hd, Z.eqb_refl. }
  split.
  - apply not_true_is_false. intros H%can_view_gates. destruct H as (_ & _ & _ & H & _). congruence.
  - unfold _authorized_article_filters. rewrite Hden. cbn.
    by rewrite !andb_false_r.
Qed.

(** C31. A provider ACL is an intersection with the internal policy: an article with a
    provenance row of a remote provider is invisible to every user, global administrators
    included, unless one of the provider's own rows allows that user or the user and the
    article share a department. *)
Theorem provider_acl_fails_closed (u : user) (a : article) (s : document_source)
    (Hs : s ∈ a_sources a) (Hp : ds_source_system s ∈ REMOTE_PROVIDERS)
    (Hno_allow : forall o, o ∈ a_user_permissions a -> ap_user_id o = u_id u ->
       ap_effect o = "allow" -> ap_source o = None
       \/ exists p, ap_source o = Some p /\ p ∉ governed_by a)
    (Hno_dept : forall d d', d ∈ u_departments u -> d' ∈ a_departments a -> dp_id d <> dp_id d') :
  can_view_article u a = false.
Proof.
  apply not_true_is_false. intros H%can_view_gates. destruct H as (_ & _ & _ & _ & H & _).
  unfold _source_acl_allows in H.
  destruct (governed_by a) as [|g gov] eqn:Hg.
  - enough (ds_source_system s ∈ governed_by a) as Hx by (rewrite Hg in Hx; set_solver).
    apply elem_of_filter_b. split; [apply elem_of_map; eauto|].
    apply mem_In. unfold REMOTE_PROVIDERS, SOURCE_ACL_PROVIDERS in *. set_solver.
  - apply orb_true_iff in H as [H|H].
    + bools. destruct (Hno_allow x H) as [Hn|(p & Hps & Hnin)].
      * by apply Z.eqb_eq.
      * by apply String.eqb_eq.
      * unfold source_in in *. by rewrite Hn in *.
      * unfold source_in in *. rewrite Hps in *. by rewrite mem_In in *.
    + apply meets_true in H as (x & Hx & Hx').
      unfold department_ids in Hx, Hx'. rewrite elem_of_list_to_set, elem_of_map in Hx, Hx'.
      destruct Hx as (d & -> & Hd), Hx' as (d' & Hdd & Hd'). by apply (Hno_dept d d').
Qed.

(** A grant that works on a resource also passes the resource-free check. *)
Lemma read_permission_without_resource u key res :
  has_any_scope u key res ALL_SCOPES = true -> has_any_scope u key None ALL_SCOPES = true.
Proof.
  rewrite !has_any_scope_iff. intros (q & _ & H).
  apply has_permission_iff in H as (s & Hg & Hs).
  apply scope_allows_valid in Hs as [Hs _]. exists s. split; [exact Hs|].
  apply has_permission_iff. exists s. split; [done|].
  apply scope_allows_none. split_and!; auto.
  rewrite scope_cases in Hs. destruct Hs as [->|[->|[->| ->]]]; naive_solver.
Qed.

Lemma governed_by_nil a :
  governed_by a = [] <->
  existsb (fun s => mem (ds_source_system s) SOURCE_ACL_PROVIDERS) (a_sources a) = false.
Proof.
  unfold governed_by. induction (a_sources a) as [|s l IH]; cbn; [done|].
  destruct (mem (ds_source_system s) SOURCE_ACL_PROVIDERS); cbn; [done|exact IH].
Qed.

Lemma governed_provider a g : g ∈ governed_by a -> mem g SOURCE_ACL_PROVIDERS = true.
Proof. intros H. by apply elem_of_filter_b in H as [_ H]. Qed.

(** The Python source ACL is the stricter of the two. *)
Lemma elem_of_governed a g :
  g ∈ governed_by a <->
  (exists src, src ∈ a_sources a /\ ds_source_system src = g) /\ mem g SOURCE_ACL_PROVIDERS = true.
Proof.
  unfold governed_by. rewrite elem_of_filter_b, elem_of_map. naive_solver.
Qed.

(** What a provider-governed article asks of its reader. *)
Lemma source_acl_governed v a :
  _source_acl_allows v a = true ->
  governed_by a = []
  \/ (exists p, p ∈ a_user_permissions a /\ ap_user_id p = u_id v /\ ap_effect p = "allow"
        /\ exists g, ap_source p = Some g /\ mem g SOURCE_ACL_PROVIDERS = true)
  \/ exists x y, x ∈ u_departments v /\ y ∈ a_departments a /\ dp_id x = dp_id y.
Proof.
  unfold _source_acl_allows. destruct (governed_by a) as [|g0 gs] eqn:Hg; [by left|].
  intros [Hp|Hm]%orb_true_iff; right.
  - left. bools. eqs. eexists. split_and!; [done..|].
    unfold source_in in *. case_match; [|done]. eexists. split; [done|].
    apply (governed_provider a). rewrite Hg. by apply mem_In.
  - right. apply meets_true in Hm as (i & Hi & Hj). unfold department_ids in *.
    apply elem_of_list_to_set, elem_of_map in Hi as (x & -> & Hx).
    apply elem_of_list_to_set, elem_of_map in Hj as (y & Hy & Hy'). eauto 6.
Qed.

Lemma source_acl_to_sql u a : _source_acl_allows u a = true -> sql_source_acl u a = true.
Proof.
  unfold _source_acl_allows, sql_source_acl.
  destruct (governed_by a) as [|g gov] eqn:Hg.
  - apply governed_by_nil in Hg. by rewrite Hg.
  - intros H. destruct (existsb (fun s => mem _ _) (a_sources a)); cbn; [|done].
    apply orb_true_iff in H as [H|H]; [|by rewrite H, orb_true_r].
    apply orb_true_iff. left. bools. apply existsb_elem. exists x. split; [done|].
    repeat (apply andb_true_iff; split; auto).
    unfold source_in in *. destruct (ap_source x) as [p|]; [|done].
    apply (governed_provider a). rewrite Hg. by apply mem_In.
Qed.

(** Every source-qualified override names a provider the article's own sources name. *)
Definition source_consistent (a : article) : Prop :=
  forall o p, o ∈ a_user_permissions a -> ap_source o = Some p ->
    mem p SOURCE_ACL_PROVIDERS = true -> p ∈ governed_by a.

Lemma source_acl_from_sql u a :
  source_consistent a -> sql_source_acl u a = _source_acl_allows u a.
Proof.
  intros Hc. destruct (_source_acl_allows u a) eqn:E; [by apply source_acl_to_sql|].
  unfold _source_acl_allows, sql_source_acl in *.
  destruct (governed_by a) as [|g gov] eqn:Hg; [done|].
  destruct (existsb (fun s => mem _ _) (a_sources a)) eqn:Hs; cbn;
    [|by apply governed_by_nil in Hs; rewrite Hs in Hg].
  apply orb_false_iff in E as [E1 E2]. rewrite E2, orb_false_r.
  apply not_true_is_false. intros H. unfold sql_source_explicit_allow in H. bools.
  rewrite existsb_false in E1. specialize (E1 x ltac:(done)).
  unfold source_in in *. destruct (ap_source x) as [p|] eqn:Hp; [|done].
  enough (mem p (g :: gov) = true) as Hm
    by (repeat match goal with Ht : _ = true |- _ => rewrite Ht in E1 end; done).
  apply mem_In. rewrite <- Hg. by apply (Hc x).
Qed.

Lemma member_in_sql_departments (u : user) (a : article) (names : gset pystr) :
  meets (member_department_names u) (article_department_names a) = true ->
  member_department_names u ⊆ names -> sql_in_departments names a = true.
Proof.
  intros (n & Hn & Ha)%meets_true Hsub. unfold sql_in_departments. apply orb_true_iff.
  unfold article_department_names in Ha. apply elem_of_difference in Ha as [Ha _].
  assert (Hn' : n = a_dept a \/ exists d, d ∈ a_departments a /\ dp_name d = n).
  { destruct (truthy (a_dept a));
      [apply elem_of_union in Ha as [Ha|Ha]; [left; set_solver|]|];
      rewrite elem_of_list_to_set, elem_of_map in Ha; destruct Ha as (d & -> & Hd);
      apply elem_of_filter_b in Hd as [Hd _]; eauto. }
  destruct Hn' as [->|(d & Hd & <-)].
  - left. apply bool_decide_eq_true. set_solver.
  - right. apply existsb_elem. exists d. split; [done|]. apply bool_decide_eq_true. set_solver.
Qed.


(** For a company-wide reader (Admin, CEO, or a global reader) the two agree on the
    published articles of their tenant: the SQL predicate accepts exactly the rows with an
    active primary department that [can_view_article] accepts, provided the connector rows
    of the article come from the providers its sources name. *)
Theorem sql_filter_exact_for_company_readers (rows : list department) (u : user) (a : article)
    (Hfull : has_full_company_article_access u = true)
    (Hpub : a_status a = "published") (Hlife : a_lifecycle_status a = Some "active")
    (Htenant : a_company_domain a = u_company_domain u)
    (Hsrc : source_consistent a) :
  _authorized_article_filters rows u a = sql_active_department rows a && can_view_article u a.
Proof.
  assert (Hcomp : has_permission u "article.read" None "company" = true).
  { unfold has_full_company_article_access in Hfull. case_match eqn:Hg; [|by bools].
    apply has_global_iff in Hg. by apply has_permission_global; [apply scope_cases; auto|]. }
  assert (Hread : has_any_scope u "article.read" (Some (to_resource a)) ALL_SCOPES = true).
  { apply has_any_scope_iff. exists "company". split; [unfold ALL_SCOPES; set_solver|].
    apply has_permission_iff in Hcomp as (s & Hg & Hs). apply has_permission_iff.
    exists s. split; [done|]. apply scope_allows_none in Hs as (Hs & _ & Hcase).
    apply scope_allows_some. split; [apply scope_cases; auto|].
    destruct Hcase as [->|[_ [->| ->]]]; [by left|right; left; done..]. }
  unfold _authorized_article_filters, _has_article_read_permission, can_view_article.
  rewrite (read_permission_without_resource _ _ _ Hread), Hread, Hlife, Hpub, Hfull,
    (source_acl_from_sql u a Hsrc), effect_deny, effect_allow, Htenant, String.eqb_refl.
  unfold lifecycle_active. rewrite Hlife, orb_true_r.
  unfold sql_visibility_scope. rewrite Hfull, orb_true_r. cbn.
  change (mem "published" UNPUBLISHED) with false. cbn.
  destruct (sql_active_department rows a), (sql_explicit "deny" u a),
    (_source_acl_allows u a), (String.eqb (a_visibility a) "users"), (sql_explicit "allow" u a); done.
Qed.

(** Where the two differ: a published article of public sensitivity, in departments an
    ordinary company reader does not belong to, satisfies the SQL predicate (it is listed and
    found by id) while [can_view_article] refuses it. *)
Theorem public_article_listed_not_viewable (rows : list department) (u : user) (a : article)
    (Hread : has_permission u "article.read" None "company" = true)
    (Hord : has_full_company_article_access u = false)
    (Hpub : a_status a = "published") (Hlife : a_lifecycle_status a = Some "active")
    (Hdept : sql_active_department rows a = true)
    (Htenant : a_company_domain a = u_company_domain u)
    (Hsens : a_sensitivity a = "public") (Hvis : a_visibility a = "department")
    (Hnosrc : a_sources a = [])
    (Hnorow : forall o, o ∈ a_user_permissions a -> ap_user_id o <> u_id u)
    (Hnodept : meets (member_department_names u) (article_department_names a) = false) :
  _authorized_article_filters rows u a = true /\ can_view_article u a = false.
Proof.
  assert (Hgl : has_permission u "article.read" None "global" = false).
  { unfold has_full_company_article_access in Hord. by case_match. }
  assert (Hexp : forall e, sql_explicit e u a = false).
  { intros e. apply existsb_false. intros o Ho. apply andb_false_iff. left.
    apply Z.eqb_neq. by apply Hnorow. }
  assert (Hany : has_any_scope u "article.read" None ALL_SCOPES = true).
  { apply has_any_scope_iff. exists "company". split; [unfold ALL_SCOPES; set_solver|done]. }
  split.
  - unfold _authorized_article_filters, _has_article_read_permission, sql_visibility_scope,
      sql_source_acl.
    rewrite Hany, Hlife, Hpub, Hdept, !Hexp, Hgl, Htenant, Hord, Hsens, Hvis, Hnosrc,
      String.eqb_refl. cbn. by rewrite orb_true_r.
  - unfold can_view_article. rewrite effect_deny, effect_allow, !Hexp, Hpub, Hvis, Hord, Hsens.
    unfold lifecycle_active, _source_acl_allows, governed_by, can_access_article_departments.
    rewrite Hlife, Hnosrc, Hgl, Hord, Hnodept. cbn.
    by case_match.
Qed.

(** C33. Tenant isolation of reading: a user views an article of another company only with
    a global [article.read] grant, or with an own-scope grant on an article they own. *)
Theorem view_tenant_isolation (u : user) (a : article)
    (Hother : a_company_domain a <> u_company_domain u)
    (Hview : can_view_article u a = true) :
  granted u "article.read" "global"
  \/ (granted u "article.read" "own" /\ a_owner_id a = Some (u_id u)).
Proof.
  apply can_view_gates in Hview as (_ & _ & Hread & _).
  apply has_any_scope_iff in Hread as (q & _ & H).
  apply has_permission_iff in H as (s & Hg & Hs).
  apply scope_allows_some in Hs as (_ & Hs). cbn in Hs. naive_solver.
Qed.

(** ** Concrete inputs *)

Section Examples.
Definition ex_dept (id : Z) (name : pystr) : department :=
  mkDepartment id "acme.test" name true true None.
Definition ex_staff : user :=
  mkUser 7 $"s@acme.test" $"S" "acme.test" None "Staff" true [ex_dept 1 $"HR"] [] [].
Definition ex_admin : user :=
  mkUser 8 $"a@acme.test" $"A" "acme.test" None "Admin" true [] [] [].
Definition ex_ceo : user :=
  mkUser 9 $"c@acme.test" $"C" "acme.test" None "CEO" true [] [] [].
Definition ex_article : article :=
  mkArticle 1 $"t" None $"b" $"HR" $"d" "acme.test" "SOP" "public" "department" "vi" (Some 3)
    "published" (Some "active") None false None None 1 None None false false false None
    "pending" None [ex_dept 1 $"HR"] [] [] [].
Definition ex_rows : list department := [ex_dept 1 $"HR"; ex_dept 2 $"IT"].
Definition ex_it_article : article :=
  ex_article <| a_dept := $"IT" |> <| a_departments := [ex_dept 2 $"IT"] |>.
End Examples.

Lemma deny_is_authoritative_witness :
  let a := ex_article <| a_user_permissions := [mkAUP 8 "allow" None; mkAUP 8 "deny" (Some "sharepoint")] |> in
  can_view_article ex_admin a = false /\ _authorized_article_filters ex_rows ex_admin a = false.
Proof.
  intros a. apply (deny_is_authoritative ex_rows ex_admin a (mkAUP 8 "deny" (Some "sharepoint")));
    [apply elem_of_cons; right; by left|reflexivity|reflexivity].
Defined.

Lemma provider_acl_fails_closed_witness :
  let s := mkSource "onedrive" $"r" $"h" None $"f" None None in
  let a := ex_article <| a_sources := [s] |> <| a_user_permissions := [mkAUP 8 "allow" None] |> in
  has_full_company_article_access ex_admin = true /\ can_view_article ex_admin a = false.
Proof.
  intros s a. split; [vm_compute; reflexivity|].
  apply (provider_acl_fails_closed ex_admin a s).
  - by left.
  - vm_compute; right; by left.
  - intros o Ho _ _. left. apply elem_of_cons in Ho as [->|Ho]; [done|by apply elem_of_nil in Ho].
  - intros d d' Hd. by apply elem_of_nil in Hd.
Defined.


Lemma sql_filter_exact_for_company_readers_witness :
  has_full_company_article_access ex_ceo = true
  /\ _authorized_article_filters ex_rows ex_ceo ex_article
     = sql_active_department ex_rows ex_article && can_view_article ex_ceo ex_article.
Proof.
  split; [vm_compute; reflexivity|].
  apply (sql_filter_exact_for_company_readers ex_rows ex_ceo ex_article);
    [vm_compute; reflexivity|reflexivity|reflexivity|reflexivity|].
  intros o p Ho. by apply elem_of_nil in Ho.
Defined.

Lemma public_article_listed_not_viewable_witness :
  _authorized_article_filters ex_rows ex_staff ex_it_article = true
  /\ can_view_article ex_staff ex_it_article = false.
Proof.
  apply (public_article_listed_not_viewable ex_rows ex_staff ex_it_article);
    try (vm_compute; reflexivity).
  intros o Ho. by apply elem_of_nil in Ho.
Defined.

Lemma view_tenant_isolation_witness :
  let a := ex_article <| a_company_domain := "other.test" |> in
  can_view_article ex_admin a = true
  /\ (granted ex_admin "article.read" "global"
      \/ (granted ex_admin "article.read" "own" /\ a_owner_id a = Some (u_id ex_admin))).
Proof.
  intros a. split; [vm_compute; reflexivity|].
  apply (view_tenant_isolation ex_admin a); [done|vm_compute; reflexivity].
Defined.
