(* ===== verification/Dedupe.v ===== *)
(** * Copies of a passage (src/rag/dedupe.py)

    [collapse_duplicates] merges the passages that several articles repeat. NumPy is a parameter:
    the cast to an array, the norm, the division, the product of a row with the vector and the
    order [argsort] gives; so are the Unicode tables behind [normalize], [casefold] and the
    regular expression of [passage_key]. *)

From S2P Require Import Prelude PyText Float64 Ranking Models Permissions.

(** A row of article_chunks with what is loaded with it. [ck_updated_at] is the [updated_at] of
    its article, a column [Models.article] does not have. *)
Record chunk := mkChunk {
  ck_id : uuid;
  ck_article : option article;
  ck_text : pystr;
  ck_embedding : option (list float);
  ck_embedding_version : string;
  ck_department_id : pystr;
  ck_sensitivity : string;
  ck_index : Z;
  ck_evidence_id : option uuid;
  ck_updated_at : option datetime
}.

Class Passages := {
  fold_passage : pystr -> pystr;
  word_character : Z -> bool;
  asarray : list float -> list float;
  norm : list float -> float;
  divide : list float -> float -> list float;
  dot : list float -> list float -> float;
  argsort : list float -> list nat
}.

Section Dedupe.
Context `{Passages}.

(** [_NON_WORD.sub] with one space: each run of other characters becomes one. *)
Fixpoint spaced (inside : bool) (s : pystr) : pystr :=
  match s with
  | [] => []
  | c :: s => if word_character c && negb (Z.eqb c 95) then c :: spaced false s
              else if inside then spaced true s else 32 :: spaced true s
  end.

Definition passage_key (text : pystr) : pystr := strip (spaced false (fold_passage text)).

Definition _timestamp (value : option datetime) : Z := default 0 value.

Definition _preference (c : chunk) (score : float) : Z * Z * Z :=
  (hundredths score, _timestamp (ck_article c ≫= a_last_reviewed), _timestamp (ck_updated_at c)).

(** [x > y] on the triples *)
Definition preferred (x y : Z * Z * Z) : bool :=
  let '(a, b, c) := x in let '(a', b', c') := y in
  (a' <? a) || (Z.eqb a a' && ((b' <? b) || (Z.eqb b b' && (c' <? c)))).

Definition _vector (c : chunk) : option (list float) :=
  match ck_embedding c with
  | None => None
  | Some raw =>
      let vector := asarray raw in
      if Z.eqb (len vector) 0 then None
      else if f_ltb (f_int 0) (norm vector) then Some (divide vector (norm vector)) else None
  end.

Record source := mkSourceEntry {
  se_chunk_id : uuid;
  se_article_id : uuid;
  se_title : pystr;
  se_dept : pystr
}.

Definition _source (c : chunk) (a : article) : source := mkSourceEntry (ck_id c) (a_id a) (a_title a) (a_dept a).

(** The variables of the loop. The matrix has the width of its first vector; [rows] tells which
    place of [kept] each row of it stands for. *)
Record collapse := mkCollapse {
  kept : list (chunk * float);
  also_in : gmap uuid (list source);
  by_key : gmap pystr nat;
  matrix : option (nat * list (list float));
  mrows : list nat
}.

#[export] Instance eta_collapse : Eta collapse := fun s => mkCollapse (kept s) (also_in s) (by_key s) (matrix s) (mrows s).

Definition article_at (l : list (chunk * float)) (i : nat) : option uuid := e ← l !! i; a_id <$> ck_article (e : chunk * float).1.

(** The walk over the most similar rows *)
Fixpoint near (order : list nat) (sims : list float) (similarity : float) (s : collapse) (article_id : uuid) : option nat :=
  match order with
  | [] => None
  | position :: order =>
      if f_ltb (nth position sims (f_int 0)) similarity then None
      else
        let row_index := nth position (mrows s) 0%nat in
        if bool_decide (article_at (kept s) row_index = Some article_id) then near order sims similarity s article_id
        else Some row_index
  end.

Definition near_match (vector : option (list float)) (similarity : float) (s : collapse) (article_id : uuid) : option nat :=
  match vector, matrix s with
  | Some vector, Some (width, (_ :: _) as vectors) =>
      if Nat.eqb width (length vector) then
        let sims := map (fun row => dot row vector) vectors in
        near (argsort sims) sims similarity s article_id
      else None
  | _, _ => None
  end.

Definition find_match (c : chunk) (a : article) (key : pystr) (similarity : float) (s : collapse) : option nat :=
  let exact := candidate ← by_key s !! key;
               if bool_decide (article_at (kept s) candidate = Some (a_id a)) then None else Some candidate in
  match exact with
  | Some candidate => Some candidate
  | None => if f_leb similarity (f_int 1) then near_match (_vector c) similarity s (a_id a) else None
  end.

(** Only plain text of an article, long enough, is compared. *)
Definition eligible (min_chars : Z) (c : chunk) : option article :=
  match ck_article c with
  | Some a => if bool_decide (ck_evidence_id c = None) && (min_chars <=? len (strip (ck_text c))) then Some a else None
  | None => None
  end.

Definition add_vector (vector : option (list float)) (index : nat) (s : collapse) : collapse :=
  match vector with
  | None => s
  | Some vector =>
      let '(width, vectors) := default (length vector, []) (matrix s) in
      if Nat.eqb width (length vector)
      then s <| matrix := Some (width, vectors ++ [vector]) |> <| mrows := mrows s ++ [index] |>
      else s <| matrix := Some (width, vectors) |>
  end.

Definition keep (e : chunk * float) (a : option article) (similarity : float) (s : collapse) : collapse :=
  let index := length (kept s) in
  let s := s <| kept := kept s ++ [e] |> in
  match a with
  | None => s
  | Some _ =>
      let key := passage_key (ck_text e.1) in
      let s := s <| by_key := <[key := default index (by_key s !! key)]> (by_key s) |> in
      add_vector (if f_leb similarity (f_int 1) then _vector e.1 else None) index s
  end.

(** The slot's vector stands for the new chunk. *)
Definition refresh (slot : nat) (e : chunk * float) (s : collapse) : collapse :=
  match _vector e.1, matrix s, list_find (fun i => i = slot) (mrows s) with
  | Some vector, Some (width, vectors), Some (row, _) =>
      if Nat.eqb width (length vector) then s <| matrix := Some (width, <[row := vector]> vectors) |> else s
  | _, _, _ => s
  end.

Definition merge (slot : nat) (e : chunk * float) (a : article) (s : collapse) : collapse :=
  match kept s !! slot with
  | None => s
  | Some (current, current_score) =>
      let sources := default [] (also_in s !! ck_id current) in
      if preferred (_preference e.1 e.2) (_preference current current_score) then
        let listed := match ck_article current with Some b => [_source current b] | None => [] end in
        refresh slot e
          (s <| kept := <[slot := e]> (kept s) |>
             <| also_in := <[ck_id e.1 := sources ++ listed]> (delete (ck_id current) (also_in s)) |>)
      else s <| also_in := <[ck_id current := sources ++ [_source e.1 a]]> (also_in s) |>
  end.

Definition collapse_one (similarity : float) (min_chars : Z) (s : collapse) (e : chunk * float) : collapse :=
  match eligible min_chars e.1 with
  | None => keep e None similarity s
  | Some a =>
      match find_match e.1 a (passage_key (ck_text e.1)) similarity s with
      | None => keep e (Some a) similarity s
      | Some slot => merge slot e a s
      end
  end.

(** One entry per article, and none for those in [seen] *)
Definition unique_sources (seen : gset uuid) (entries : list source) : list source := (unseen se_article_id seen entries).1.

(** The last loop; [chunk.article.id] raises for a chunk without an article. *)
Fixpoint clean (l : list (chunk * float)) (entries : gmap uuid (list source)) (cleaned : gmap uuid (list source))
    : outcome (gmap uuid (list source)) :=
  match l with
  | [] => Return cleaned
  | (c, _) :: l =>
      match ck_article c with
      | None => Raise AttributeError
      | Some a =>
          match unique_sources {[a_id a]} (default [] (entries !! ck_id c)) with
          | [] => clean l entries cleaned
          | unique => clean l entries (<[ck_id c := unique]> cleaned)
          end
      end
  end.

Definition nothing_kept : collapse := mkCollapse [] ∅ ∅ None [].

Definition collapse_duplicates (ranked : list (chunk * float)) (similarity : float) (min_chars : Z)
    : outcome (list (chunk * float) * gmap uuid (list source)) :=
  let s := fold_left (collapse_one similarity min_chars) ranked nothing_kept in
  match clean (kept s) (also_in s) ∅ with
  | Return cleaned => Return (kept s, cleaned)
  | Raise e => Raise e
  end.
End Dedupe.

#[global] Arguments passage_key : simpl never.
#[global] Arguments _vector : simpl never.
#[global] Arguments _preference : simpl never.

(** ** The better copy *)

Section Preference.
Implicit Types x y z : Z * Z * Z.

Lemma preferred_spec x y : preferred x y = true <->
  y.1.1 < x.1.1 \/ x.1.1 = y.1.1 /\ (y.1.2 < x.1.2 \/ x.1.2 = y.1.2 /\ y.2 < x.2).
Proof.
  destruct x as [[a b] c], y as [[a' b'] c']. unfold preferred.
  by rewrite orb_true_iff, andb_true_iff, orb_true_iff, andb_true_iff, !Z.ltb_lt, !Z.eqb_eq.
Qed.

Lemma preferred_trans x y z : preferred x y = true -> preferred y z = true -> preferred x z = true.
Proof. rewrite !preferred_spec. lia. Qed.

Lemma preferred_asym x y : preferred x y = true -> preferred y x = false.
Proof. intros Hp. apply not_true_iff_false. rewrite preferred_spec in *. lia. Qed.
End Preference.

(** ** The loop *)

Section Loop.
Context `{Passages}.
Implicit Types (e k : chunk * float) (s : collapse) (L : list (chunk * float)).

Definition cid e : uuid := ck_id e.1.
Definition article_of e : option uuid := a_id <$> ck_article e.1.
Definition entries_of (m : gmap uuid (list source)) e : list source := default [] (m !! cid e).
Definition pref e : Z * Z * Z := _preference e.1 e.2.

(** [k] stands for [e]: it is [e], or it is no worse and lists an entry of the article of [e]. *)
Definition stands_for (m : gmap uuid (list source)) k e : Prop :=
  k = e \/ preferred (pref e) (pref k) = false
           /\ exists x, x ∈ entries_of m k /\ article_of e = Some (se_article_id x).

Record collapse_ok L s : Prop := {
  co_from : forall e, e ∈ kept s -> e ∈ L;
  co_ids : NoDup (map cid (kept s));
  co_stand : forall e, e ∈ L -> exists k, k ∈ kept s /\ stands_for (also_in s) k e;
  co_entries : forall i l x, also_in s !! i = Some l -> x ∈ l ->
    exists e a, e ∈ L /\ ck_article e.1 = Some a /\ x = _source e.1 a;
  co_listed : forall i l, also_in s !! i = Some l -> i ∈ map cid L;
  co_keys : forall key i, by_key s !! key = Some i -> (i < length (kept s))%nat;
  co_rows : forall i, i ∈ mrows s -> (i < length (kept s))%nat;
  co_matrix : matrix s <> None -> kept s <> []
}.

Lemma nothing_ok : collapse_ok [] nothing_kept.
Proof.
  constructor; cbn; try done; try (intros ? Hx; by apply elem_of_nil in Hx); try (intros *; by rewrite lookup_empty).
  constructor.
Qed.

Lemma add_vector_kept v i s : kept (add_vector v i s) = kept s /\ also_in (add_vector v i s) = also_in s
  /\ by_key (add_vector v i s) = by_key s.
Proof. unfold add_vector. destruct v as [v|]; [|done]. destruct (default _ (matrix s)). by destruct (Nat.eqb _ _). Qed.

Lemma add_vector_rows v i s j : j ∈ mrows (add_vector v i s) -> j ∈ mrows s \/ j = i.
Proof.
  unfold add_vector. destruct v as [v|]; [|by left]. destruct (default _ (matrix s)). destruct (Nat.eqb _ _); cbn; [|by left].
  rewrite elem_of_app, list_elem_of_singleton. done.
Qed.

Lemma keep_fields e a similarity s :
  kept (keep e a similarity s) = kept s ++ [e] /\ also_in (keep e a similarity s) = also_in s.
Proof.
  unfold keep. destruct a as [a|]; [|done].
  match goal with |- kept (add_vector ?v ?i ?s) = _ /\ _ => destruct (add_vector_kept v i s) as (-> & -> & _) end. done.
Qed.

Lemma keep_ok e a similarity L s : cid e ∉ map cid L -> collapse_ok L s -> collapse_ok (L ++ [e]) (keep e a similarity s).
Proof.
  intros Hfresh [Hf Hi Hst He Hl Hk Hr Hm]. destruct (keep_fields e a similarity s) as [Hkept Halso].
  assert (Hlen : length (kept (keep e a similarity s)) = S (length (kept s))) by (rewrite Hkept, length_app; cbn; lia).
  constructor; rewrite ?Halso, ?Hlen; try rewrite Hkept.
  - intros x [Hx| ->%list_elem_of_singleton]%elem_of_app; apply elem_of_app; [left; auto|right; by left].
  - rewrite map_app. apply NoDup_app. split; [done|]. split; [|apply NoDup_singleton].
    intros i (x & -> & Hx)%elem_of_map Hin. apply list_elem_of_singleton in Hin. apply Hfresh. apply elem_of_map. exists x.
    split; [done|auto].
  - intros x [Hx| ->%list_elem_of_singleton]%elem_of_app.
    + destruct (Hst x Hx) as (k & Hk' & Hs). exists k. split; [apply elem_of_app; by left|done].
    + exists e. split; [apply elem_of_app; right; by left|by left].
  - intros i l x Hil Hx. destruct (He i l x Hil Hx) as (e' & b & ? & ? & ?). exists e', b. split; [apply elem_of_app; by left|done].
  - intros i l Hil. rewrite map_app. apply elem_of_app. left. by eapply Hl.
  - unfold keep. destruct a as [a|]; [|cbn; intros key i Hki; apply Hk in Hki; lia].
    intros key i. match goal with |- by_key (add_vector ?v ?j ?s) !! _ = _ -> _ => destruct (add_vector_kept v j s) as (_ & _ & ->) end.
    cbn. destruct (decide (passage_key (ck_text e.1) = key)) as [->|Hne].
    + rewrite lookup_insert_eq. intros [= <-]. destruct (by_key s !! key) eqn:Hq; cbn; [apply Hk in Hq|]; lia.
    + rewrite lookup_insert_ne by done. intros Hq%Hk. lia.
  - unfold keep. destruct a as [a|]; [|cbn; intros i Hri; apply Hr in Hri; lia].
    intros i [Hri| ->]%add_vector_rows; [apply Hr in Hri|]; lia.
  - intros _. by destruct (kept s).
Qed.

Lemma refresh_fields slot e s : kept (refresh slot e s) = kept s /\ also_in (refresh slot e s) = also_in s
  /\ by_key (refresh slot e s) = by_key s /\ mrows (refresh slot e s) = mrows s
  /\ (matrix (refresh slot e s) <> None -> matrix s <> None).
Proof.
  unfold refresh. destruct (_vector e.1) as [v|]; [|done]. destruct (matrix s) as [[w vs]|] eqn:Hm; [|by rewrite Hm].
  destruct (list_find _ _) as [[row ?]|]; [|by rewrite Hm]. destruct (Nat.eqb _ _); cbn; [done|by rewrite Hm].
Qed.

(** The newcomer takes the slot, and the old copy is listed. *)
Definition replaced_slot (slot : nat) e (cur : chunk) (l : list source) s : collapse :=
  mkCollapse (<[slot := e]> (kept s)) (<[cid e := l]> (delete (ck_id cur) (also_in s))) (by_key s) (matrix s) (mrows s).

(** The newcomer is listed under the copy that stays. *)
Definition listed_under (cur : chunk) (l : list source) s : collapse :=
  mkCollapse (kept s) (<[ck_id cur := l]> (also_in s)) (by_key s) (matrix s) (mrows s).

Section Merge.
Variables (L : list (chunk * float)) (s : collapse) (e : chunk * float) (a : article) (pre post : list (chunk * float))
  (cur : chunk) (cs : float).
Hypothesis Hok : collapse_ok L s.
Hypothesis Hfresh : cid e ∉ map cid L.
Hypothesis Ha : ck_article e.1 = Some a.
Hypothesis Hkept : kept s = pre ++ (cur, cs) :: post.
Let sources := default [] (also_in s !! ck_id cur).

Lemma merge_ids : ck_id cur <> cid e /\ (ck_id cur ∉ map cid (pre ++ post)) /\ (cid e ∉ map cid (pre ++ post))
  /\ NoDup (map cid (pre ++ post)).
Proof.
  destruct Hok as [Hf Hi _ _ _ _ _ _]. rewrite Hkept in Hi, Hf.
  assert (Hp : pre ++ (cur, cs) :: post ≡ₚ (cur, cs) :: pre ++ post) by (symmetry; apply Permutation_middle).
  rewrite Hp in Hi. cbn [map] in Hi. apply NoDup_cons in Hi as [Hn Hnd]. change (cid (cur, cs)) with (ck_id cur) in Hn.
  assert (Hnot : forall x, x ∈ pre ++ (cur, cs) :: post -> cid x <> cid e).
  { intros x Hx Heq. apply Hfresh. rewrite <- Heq. apply elem_of_map. exists x. auto. }
  split_and!; [apply (Hnot (cur, cs)); apply elem_of_app; right; by left|done| |done].
  intros (x & Hx & Hin)%elem_of_map. apply (Hnot x); [|done]. rewrite Hp. by right.
Qed.

Lemma sources_ok x : x ∈ sources -> exists e' b, e' ∈ L ++ [e] /\ ck_article e'.1 = Some b /\ x = _source e'.1 b.
Proof.
  unfold sources. destruct (also_in s !! ck_id cur) as [l|] eqn:Hq; cbn; [|by intros ?%elem_of_nil].
  intros Hx. destruct (co_entries L s Hok _ _ _ Hq Hx) as (e' & b & ? & ?). exists e', b. split; [apply elem_of_app; by left|done].
Qed.

Lemma old_entries i l x : also_in s !! i = Some l -> x ∈ l ->
  exists e' b, e' ∈ L ++ [e] /\ ck_article e'.1 = Some b /\ x = _source e'.1 b.
Proof.
  intros Hq Hx. destruct (co_entries L s Hok _ _ _ Hq Hx) as (e' & b & ? & ?). exists e', b. split; [apply elem_of_app; by left|done].
Qed.

Lemma old_listed i l : also_in s !! i = Some l -> i ∈ map cid (L ++ [e]).
Proof. intros Hq. rewrite map_app. apply elem_of_app. left. by eapply (co_listed L s Hok). Qed.

Lemma new_listed : cid e ∈ map cid (L ++ [e]).
Proof. apply elem_of_map. exists e. split; [done|]. apply elem_of_app. right. by left. Qed.

Lemma merge_better b : ck_article cur = Some b -> preferred (pref e) (_preference cur cs) = true ->
  collapse_ok (L ++ [e]) (replaced_slot (length pre) e cur (sources ++ [_source cur b]) s).
Proof.
  intros Hb Hp. destruct merge_ids as (Hne & Hcn & Hen & Hnd). pose proof Hok as [Hf Hi Hst He Hl Hk Hr Hm].
  assert (Hk' : <[length pre := e]> (kept s) = pre ++ e :: post) by (rewrite Hkept; by rewrite insert_app_r_alt, Nat.sub_diag by done).
  assert (Hlen : length (<[length pre := e]> (kept s)) = length (kept s)) by apply length_insert.
  assert (Hcur : (cur, cs) ∈ kept s) by (rewrite Hkept; apply elem_of_app; right; by left).
  constructor; unfold replaced_slot; cbn [kept also_in by_key mrows matrix]; rewrite ?Hlen; try done.
  - rewrite Hk'. intros x [Hx|[->|Hx]%elem_of_cons]%elem_of_app; apply elem_of_app;
      [left; apply Hf; rewrite Hkept; apply elem_of_app; by left|right; by left|
       left; apply Hf; rewrite Hkept; apply elem_of_app; right; by right].
  - rewrite Hk'. rewrite <- Permutation_middle. cbn [map]. by constructor.
  - rewrite Hk'. intros x Hx. apply elem_of_app in Hx as [Hx| ->%list_elem_of_singleton].
    2: { exists e. split; [apply elem_of_app; right; by left|by left]. }
    destruct (Hst x Hx) as (k & Hkk & Hs). rewrite Hkept in Hkk.
    assert (Hcase : k = (cur, cs) \/ k ∈ pre ++ post) by (rewrite elem_of_app, elem_of_cons in Hkk; rewrite elem_of_app; naive_solver).
    destruct Hcase as [->|Hkin].
    + exists e. split; [apply elem_of_app; right; by left|]. right. unfold entries_of. rewrite lookup_insert_eq. cbn [default].
      destruct Hs as [<-|(Hpk & y & Hy & Hay)].
      * split; [by apply preferred_asym|]. exists (_source cur b). split; [apply elem_of_app; right; by left|].
        unfold article_of. cbn [fst]. by rewrite Hb.
      * split; [|exists y; split; [apply elem_of_app; by left|done]].
        apply not_true_iff_false. intros Hxe. pose proof (preferred_trans _ _ _ Hxe Hp) as Hc. by unfold pref in *; cbn in *; congruence.
    + exists k. split; [rewrite elem_of_app, elem_of_cons; apply elem_of_app in Hkin; naive_solver|].
      assert (Hent : entries_of (<[cid e := sources ++ [_source cur b]]> (delete (ck_id cur) (also_in s))) k = entries_of (also_in s) k).
      { unfold entries_of. rewrite lookup_insert_ne, lookup_delete_ne; [done| |];
          intros Heq; [apply Hcn|apply Hen]; rewrite Heq; apply elem_of_map; eauto. }
      destruct Hs as [?|Hs]; [by left|]. right. by rewrite Hent.
  - intros i l x [[<- <-]|[_ [_ Hq]%lookup_delete_Some]]%lookup_insert_Some Hx; [|by eapply old_entries].
    apply elem_of_app in Hx as [Hx| ->%list_elem_of_singleton]; [by apply sources_ok|]. exists (cur, cs), b.
    split; [apply elem_of_app; left; auto|done].
  - intros i l [[<- _]|[_ [_ Hq]%lookup_delete_Some]]%lookup_insert_Some; [apply new_listed|by eapply old_listed].
  - intros Hmm. apply Hm in Hmm. rewrite Hk'. by destruct pre.
Qed.

Lemma merge_worse : preferred (pref e) (_preference cur cs) = false ->
  collapse_ok (L ++ [e]) (listed_under cur (sources ++ [_source e.1 a]) s).
Proof.
  intros Hp. destruct merge_ids as (Hne & Hcn & Hen & Hnd). pose proof Hok as [Hf Hi Hst He Hl Hk Hr Hm].
  assert (Hcur : (cur, cs) ∈ kept s) by (rewrite Hkept; apply elem_of_app; right; by left).
  assert (Hmono : forall k x, x ∈ entries_of (also_in s) k -> x ∈ entries_of (<[ck_id cur := sources ++ [_source e.1 a]]> (also_in s)) k).
  { intros k x Hx. unfold entries_of in *. destruct (decide (ck_id cur = cid k)) as [Heq|Heq]; [|by rewrite lookup_insert_ne].
    rewrite Heq, lookup_insert_eq. cbn. apply elem_of_app. left. unfold sources. by rewrite Heq. }
  constructor; unfold listed_under; cbn [kept also_in by_key mrows matrix]; try done.
  - intros x Hx. apply elem_of_app. left. auto.
  - intros x [Hx| ->%list_elem_of_singleton]%elem_of_app.
    + destruct (Hst x Hx) as (k & Hkk & Hs). exists k. split; [done|].
      destruct Hs as [?|(Hpk & y & Hy & Hay)]; [by left|right].
      split; [done|]. exists y. split; [by apply Hmono|done].
    + exists (cur, cs). split; [done|]. right. split; [done|]. exists (_source e.1 a).
      unfold entries_of, article_of. change (cid (cur, cs)) with (ck_id cur). rewrite lookup_insert_eq, Ha. cbn.
      split; [apply elem_of_app; right; by left|done].
  - intros i l x [[<- <-]|[_ Hq]]%lookup_insert_Some Hx; [|by eapply old_entries].
    apply elem_of_app in Hx as [Hx| ->%list_elem_of_singleton]; [by apply sources_ok|]. exists e, a.
    split; [apply elem_of_app; right; by left|done].
  - intros i l [[<- _]|[_ Hq]]%lookup_insert_Some; [|by eapply old_listed].
    apply elem_of_map. exists (cur, cs). split; [done|]. apply elem_of_app. left. auto.
Qed.
End Merge.

Lemma refresh_ok slot e L s : collapse_ok L s -> collapse_ok L (refresh slot e s).
Proof.
  intros [Hf Hi Hst He Hl Hk Hr Hm]. destruct (refresh_fields slot e s) as (Ek & Ea & Eb & Er & Em).
  constructor; rewrite ?Ek, ?Ea, ?Eb, ?Er; auto.
Qed.

Lemma merge_ok slot e a L s : cid e ∉ map cid L -> ck_article e.1 = Some a -> (slot < length (kept s))%nat ->
  (forall x, x ∈ L -> ck_article x.1 <> None) -> collapse_ok L s -> collapse_ok (L ++ [e]) (merge slot e a s).
Proof.
  intros Hfresh Ha Hslot Hart Hok. unfold merge. destruct (lookup_lt_is_Some_2 _ _ Hslot) as [[cur cs] Hcur].
  pose proof (take_drop_middle _ _ _ Hcur) as Hmid. rewrite Hcur.
  assert (Hlen : length (take slot (kept s)) = slot) by (rewrite length_take; lia).
  destruct (preferred _ _) eqn:Hp.
  - destruct (ck_article cur) as [b|] eqn:Hb.
    + apply refresh_ok.
      pose proof (merge_better L s e _ _ cur cs Hok Hfresh (eq_sym Hmid) b Hb Hp) as Hbet. rewrite Hlen in Hbet. exact Hbet.
    + destruct (Hart (cur, cs)); [|done]. apply (co_from L s Hok). by eapply list_elem_of_lookup_2.
  - by eapply merge_worse.
Qed.

Lemma near_bound order sims similarity s i j : kept s <> [] -> (forall r, r ∈ mrows s -> (r < length (kept s))%nat) ->
  near order sims similarity s i = Some j -> (j < length (kept s))%nat.
Proof.
  intros Hk Hr. induction order as [|p order IH]; cbn; [done|]. destruct (f_ltb _ _); [done|].
  case_bool_decide; [exact IH|]. intros [= <-]. destruct (nth_in_or_default p (mrows s) 0%nat) as [Hin| ->]; [by apply Hr, list_elem_of_In|].
  destruct (kept s); [done|cbn; lia].
Qed.

Lemma find_match_bound c a key similarity L s slot : collapse_ok L s ->
  find_match c a key similarity s = Some slot -> (slot < length (kept s))%nat.
Proof.
  intros [_ _ _ _ _ Hk Hr Hm]. unfold find_match. destruct (by_key s !! key) as [i|] eqn:Hq; cbn -[article_at].
  - apply Hk in Hq. case_bool_decide; [|by intros [= <-]]. destruct (f_leb _ _); [|done]. unfold near_match.
    destruct (_vector c), (matrix s) as [[w [|v vs]]|] eqn:Hmm; try done. destruct (Nat.eqb _ _); [|done].
    apply near_bound; [by apply Hm|done].
  - destruct (f_leb _ _); [|done]. unfold near_match.
    destruct (_vector c), (matrix s) as [[w [|v vs]]|] eqn:Hmm; try done. destruct (Nat.eqb _ _); [|done].
    apply near_bound; [by apply Hm|done].
Qed.

Lemma collapse_one_ok similarity min_chars e L s : cid e ∉ map cid L -> (forall x, x ∈ L -> ck_article x.1 <> None) ->
  collapse_ok L s -> collapse_ok (L ++ [e]) (collapse_one similarity min_chars s e).
Proof.
  intros Hfresh Hart Hok. unfold collapse_one. destruct (eligible min_chars e.1) as [a|] eqn:Ha; [|by apply keep_ok].
  destruct (find_match _ _ _ _ _) as [slot|] eqn:Hslot; [|by apply keep_ok].
  apply merge_ok; try done; [|by eapply find_match_bound]. unfold eligible in Ha. destruct (ck_article e.1); [|done].
  by destruct (_ && _).
Qed.

Lemma collapse_all_ok similarity min_chars ranked : forall L s,
  NoDup (map cid (L ++ ranked)) -> (forall x, x ∈ L ++ ranked -> ck_article x.1 <> None) ->
  collapse_ok L s -> collapse_ok (L ++ ranked) (fold_left (collapse_one similarity min_chars) ranked s).
Proof.
  induction ranked as [|e ranked IH]; intros L s Hn Hart Hok; cbn; [by rewrite app_nil_r|].
  replace (L ++ e :: ranked) with ((L ++ [e]) ++ ranked) in * by (by rewrite <- app_assoc). apply IH; [done|done|].
  apply collapse_one_ok; [| |done].
  - intros Hin. rewrite !map_app in Hn. cbn in Hn. rewrite <- app_assoc in Hn. apply NoDup_app in Hn as (_ & Hd & _).
    apply (Hd _ Hin). apply elem_of_app. left. by left.
  - intros x Hx. apply Hart. apply elem_of_app. left. apply elem_of_app. by left.
Qed.
End Loop.

(** ** The result *)

Section Result.
Context `{Passages}.
Implicit Types (e k : chunk * float) (s : collapse) (L : list (chunk * float)).

Lemma clean_runs l entries : forall cleaned,
  (forall e, e ∈ l -> ck_article e.1 <> None) -> NoDup (map cid l) -> (forall e, e ∈ l -> cleaned !! cid e = None) ->
  exists m, clean l entries cleaned = Return m
    /\ (forall i, (i ∉ map cid l) -> m !! i = cleaned !! i)
    /\ forall e a, e ∈ l -> ck_article e.1 = Some a ->
         entries_of m e = unique_sources {[a_id a]} (entries_of entries e).
Proof.
  induction l as [|[c sc] l IH]; intros cleaned Hart Hn Hnone; cbn [clean].
  { exists cleaned. split_and!; [done|done|]. intros e a He. by apply elem_of_nil in He. }
  destruct (ck_article c) as [a|] eqn:Ha; [|by destruct (Hart (c, sc)); [left|]].
  cbn [map] in Hn. apply NoDup_cons in Hn as [Hc Hn]. change (cid (c, sc)) with (ck_id c) in Hc.
  set (u := unique_sources {[a_id a]} (default [] (entries !! ck_id c))).
  set (cleaned' := match u with [] => cleaned | _ => <[ck_id c := u]> cleaned end).
  assert (Hc' : forall i, i <> ck_id c -> cleaned' !! i = cleaned !! i)
    by (intros i Hi; unfold cleaned'; destruct u; [done|by rewrite lookup_insert_ne by done]).
  assert (Hu : default [] (cleaned' !! ck_id c) = u).
  { assert (Hz : cleaned !! ck_id c = None) by (apply (Hnone (c, sc)); by left).
    unfold cleaned'. destruct u; [by rewrite Hz|by rewrite lookup_insert_eq]. }
  destruct (IH cleaned') as (m & Hm & Hout & Hin).
  - intros e He. apply Hart. by right.
  - done.
  - intros e He. rewrite Hc'; [apply Hnone; by right|]. intros Heq. apply Hc. rewrite <- Heq. apply elem_of_map. eauto.
  - exists m. split; [unfold cleaned' in Hm; by destruct u|]. split.
    + intros i Hi. cbn [map] in Hi. rewrite not_elem_of_cons in Hi. destruct Hi as [Hi1 Hi2]. rewrite Hout by done. by apply Hc'.
    + intros e b [->|He]%elem_of_cons Hb; [|by apply Hin]. cbn in Hb. rewrite Ha in Hb. injection Hb as <-.
      unfold entries_of. change (cid (c, sc)) with (ck_id c). by rewrite (Hout _ Hc), Hu.
Qed.

(** A run on distinct chunks with their articles returns what the loop kept, with the entries
    cleaned. *)
Lemma collapse_runs (ranked : list (chunk * float)) (similarity : float) (min_chars : Z) :
  NoDup (map cid ranked) -> (forall e, e ∈ ranked -> ck_article e.1 <> None) ->
  exists s m, collapse_duplicates ranked similarity min_chars = Return (kept s, m) /\ collapse_ok ranked s
    /\ forall e a, e ∈ kept s -> ck_article e.1 = Some a -> entries_of m e = unique_sources {[a_id a]} (entries_of (also_in s) e).
Proof.
  intros Hn Hart. unfold collapse_duplicates.
  pose proof (collapse_all_ok similarity min_chars ranked [] nothing_kept Hn Hart nothing_ok) as Hok. cbn [app] in Hok.
  set (s := fold_left _ _ _) in *. pose proof Hok as [Hf Hi _ _ _ _ _ _].
  destruct (clean_runs (kept s) (also_in s) ∅) as (m & -> & _ & Hm); [by eauto|done|by intros *; rewrite lookup_empty|].
  by exists s, m.
Qed.

(** Every entry is the source of a chunk of the ranking. *)
Lemma entries_from ranked s m k a x : collapse_ok ranked s -> k ∈ kept s -> ck_article k.1 = Some a ->
  entries_of m k = unique_sources {[a_id a]} (entries_of (also_in s) k) -> x ∈ entries_of m k ->
  se_article_id x <> a_id a /\ exists e b, e ∈ ranked /\ ck_article e.1 = Some b /\ x = _source e.1 b.
Proof.
  intros Hok Hk Ha Hm Hx. rewrite Hm in Hx. apply unseen_elem in Hx as [Hx Hns]. split; [set_solver|].
  unfold entries_of in Hx. destruct (also_in s !! cid k) eqn:Hq; cbn in Hx; [|by apply elem_of_nil in Hx].
  by eapply (co_entries ranked s Hok).
Qed.

(** C21. Collapsing the copies of a passage loses no source: what stays is a part of the ranking,
    each chunk once, and for every passage of the ranking one that stays is no worse (score, then
    review, then update) and is of its article or names it; the names are of other articles of the
    ranking, one entry each. *)
Theorem collapse_loses_no_source (ranked : list (chunk * float)) (similarity : float) (min_chars : Z) :
  NoDup (map cid ranked) -> (forall e, e ∈ ranked -> ck_article e.1 <> None) ->
  exists l m, collapse_duplicates ranked similarity min_chars = Return (l, m)
    /\ (forall e, e ∈ l -> e ∈ ranked) /\ NoDup (map cid l)
    /\ (forall e, e ∈ ranked -> exists k, k ∈ l /\ preferred (pref e) (pref k) = false
          /\ (article_of e = article_of k \/ exists x, x ∈ entries_of m k /\ article_of e = Some (se_article_id x)))
    /\ (forall k, k ∈ l -> NoDup (map se_article_id (entries_of m k))
          /\ forall x, x ∈ entries_of m k -> article_of k <> Some (se_article_id x)
               /\ exists e a, e ∈ ranked /\ ck_article e.1 = Some a /\ x = _source e.1 a).
Proof.
  intros Hn Hart. destruct (collapse_runs ranked similarity min_chars Hn Hart) as (s & m & Hr & Hok & Hm).
  pose proof Hok as [Hf Hi Hst _ _ _ _ _]. exists (kept s), m. split; [done|].
  assert (Hka : forall k, k ∈ kept s -> exists a, ck_article k.1 = Some a)
    by (intros k Hk; destruct (ck_article k.1) eqn:Ha; [eauto|by destruct (Hart k); [auto|]]).
  split_and!; [done|done| |].
  - intros e Hx. destruct (Hst e Hx) as (k & Hk & Hs). exists k. split; [done|]. destruct (Hka k Hk) as [a Ha].
    destruct Hs as [->|(Hp & x & Hxe & Hxa)].
    + split; [|by left]. apply not_true_iff_false. rewrite preferred_spec. lia.
    + split; [done|]. unfold article_of at 2. rewrite Ha, Hxa. cbn.
      destruct (decide (se_article_id x = a_id a)) as [->|Hne]; [by left|right].
      assert (Hin : se_article_id x ∈ map se_article_id (entries_of m k))
        by (rewrite (Hm k a Hk Ha); apply unseen_covers; [done|set_solver]).
      apply elem_of_map in Hin as (y & Hy & Hyin). exists y. by rewrite Hy.
  - intros k Hk. destruct (Hka k Hk) as [a Ha]. split; [rewrite (Hm k a Hk Ha); apply unseen_nodup|].
    intros x Hx. destruct (entries_from ranked s m k a x Hok Hk Ha (Hm k a Hk Ha) Hx) as [Hne He]. split; [|done].
    unfold article_of. rewrite Ha. cbn. congruence.
Qed.

(** A chunk without its article stays to the end, where reading its id raises. *)
Theorem missing_article_raises (c : chunk) (score similarity : float) (min_chars : Z) :
  ck_article c = None -> collapse_duplicates [(c, score)] similarity min_chars = Raise AttributeError.
Proof. intros Hc. unfold collapse_duplicates. cbn. unfold collapse_one, eligible. cbn. by rewrite Hc; cbn; rewrite Hc. Qed.

(** ** Exact copies *)

Definition key_of e : pystr := passage_key (ck_text e.1).
Definition is_eligible (min_chars : Z) e : Prop := eligible min_chars e.1 <> None.

(** [by_key] tells the slot of the eligible passages kept. *)
Record slots_ok (min_chars : Z) s : Prop := {
  so_keys : forall key i, by_key s !! key = Some i -> exists e, kept s !! i = Some e /\ is_eligible min_chars e /\ key_of e = key;
  so_kept : forall i e, kept s !! i = Some e -> is_eligible min_chars e -> by_key s !! key_of e = Some i
}.

Lemma keep_ineligible e similarity min_chars s : eligible min_chars e.1 = None ->
  slots_ok min_chars s -> slots_ok min_chars (keep e None similarity s).
Proof.
  intros He [Hk Hs]. constructor; cbn.
  - intros key i Hi. destruct (Hk key i Hi) as (e' & He' & ?). exists e'. split; [by apply lookup_app_l_Some|done].
  - intros i e' Hi Hel. apply lookup_app_Some in Hi as [Hi|[_ Hi]]; [by apply Hs|]. apply list_lookup_singleton_Some in Hi as [_ <-].
    by destruct Hel.
Qed.

Lemma keep_eligible e a similarity min_chars s : eligible min_chars e.1 = Some a -> by_key s !! key_of e = None ->
  slots_ok min_chars s -> slots_ok min_chars (keep e (Some a) similarity s).
Proof.
  intros He Hnone [Hk Hs]. destruct (keep_fields e (Some a) similarity s) as [Hkept _].
  assert (Hby : by_key (keep e (Some a) similarity s) = <[key_of e := length (kept s)]> (by_key s)).
  { unfold keep. match goal with |- by_key (add_vector ?v ?i ?s) = _ => destruct (add_vector_kept v i s) as (_ & _ & ->) end.
    cbn. fold (key_of e). by rewrite Hnone. }
  constructor; rewrite Hkept, Hby.
  - intros key i [[<- <-]|[Hne Hi]]%lookup_insert_Some.
    + exists e. split; [|split; [unfold is_eligible; by rewrite He|done]]. by rewrite lookup_app_r, Nat.sub_diag.
    + destruct (Hk key i Hi) as (e' & He' & ?). exists e'. split; [by apply lookup_app_l_Some|done].
  - intros i e' Hi Hel. apply lookup_app_Some in Hi as [Hi|[Hge Hi]].
    + pose proof (Hs i e' Hi Hel) as Hb. rewrite lookup_insert_ne; [done|]. intros Heq. by rewrite Heq, Hb in Hnone.
    + apply list_lookup_singleton_Some in Hi as [Hz <-]. rewrite lookup_insert_eq. f_equal. lia.
Qed.

Lemma merge_slots slot e a min_chars s : eligible min_chars e.1 = Some a -> by_key s !! key_of e = Some slot ->
  slots_ok min_chars s -> slots_ok min_chars (merge slot e a s).
Proof.
  intros He Hslot Hok. pose proof Hok as [Hk Hs]. destruct (Hk _ _ Hslot) as (old & Hold & Hel & Hkey).
  unfold merge. rewrite Hold. destruct old as [cur cs]. destruct (preferred _ _); [|by constructor].
  match goal with |- slots_ok _ (refresh slot e ?s') => destruct (refresh_fields slot e s') as (Ek & _ & Eb & _); constructor; rewrite Ek, Eb end; cbn.
  - intros key i Hi. destruct (decide (i = slot)) as [->|Hne].
    + exists e. rewrite list_lookup_insert_eq by (by eapply lookup_lt_Some). split; [done|]. split; [unfold is_eligible; by rewrite He|].
      destruct (Hk key slot Hi) as (e' & He' & _ & <-). rewrite Hold in He'. by injection He' as <-.
    + destruct (Hk key i Hi) as (e' & He' & ?). exists e'. by rewrite list_lookup_insert_ne by done.
  - intros i e' Hi Hel'. destruct (decide (i = slot)) as [->|Hne].
    + rewrite list_lookup_insert_eq in Hi by (by eapply lookup_lt_Some). by injection Hi as <-.
    + rewrite list_lookup_insert_ne in Hi by done. by apply Hs.
Qed.

Definition one_passage_per_key (min_chars : Z) L : Prop :=
  forall e e', e ∈ L -> e' ∈ L -> is_eligible min_chars e -> is_eligible min_chars e' -> key_of e = key_of e' ->
    article_of e = article_of e' -> e = e'.

Lemma exact_fold similarity min_chars ranked : forall L s, f_leb similarity (f_int 1) = false ->
  NoDup (map cid (L ++ ranked)) -> one_passage_per_key min_chars (L ++ ranked) -> (forall e, e ∈ kept s -> e ∈ L) ->
  slots_ok min_chars s -> slots_ok min_chars (fold_left (collapse_one similarity min_chars) ranked s).
Proof.
  induction ranked as [|e ranked IH]; intros L s Hsim Hn Hone Hf Hok; cbn; [done|].
  replace (L ++ e :: ranked) with ((L ++ [e]) ++ ranked) in * by (by rewrite <- app_assoc).
  assert (Hfresh : e ∉ L).
  { intros Hin. rewrite !map_app in Hn. rewrite <- app_assoc in Hn. apply NoDup_app in Hn as (_ & Hd & _).
    apply (Hd (cid e)); [apply elem_of_map; eauto|]. apply elem_of_app. left. by left. }
  assert (HL : forall x, x ∈ L -> x ∈ (L ++ [e]) ++ ranked) by (intros; apply elem_of_app; left; apply elem_of_app; by left).
  assert (HeL : e ∈ (L ++ [e]) ++ ranked) by (apply elem_of_app; left; apply elem_of_app; right; by left).
  assert (Hfrom : forall s', (forall x, x ∈ kept s' -> x = e \/ x ∈ kept s) -> forall x, x ∈ kept s' -> x ∈ L ++ [e]).
  { intros s' Hs' x [->|Hx]%Hs'; apply elem_of_app; [right; by left|left; auto]. }
  assert (Hkeepf : forall a x, x ∈ kept (keep e a similarity s) -> x = e \/ x ∈ kept s).
  { intros a x. destruct (keep_fields e a similarity s) as [-> _]. rewrite elem_of_app, list_elem_of_singleton. naive_solver. }
  unfold collapse_one at 2. destruct (eligible min_chars e.1) as [a|] eqn:Ha.
  2: { apply (IH (L ++ [e])); [done|done|done|by apply Hfrom, Hkeepf|by apply keep_ineligible]. }
  assert (Hart : article_of e = Some (a_id a))
    by (unfold eligible in Ha; unfold article_of; destruct (ck_article e.1); [|done]; destruct (_ && _); [by injection Ha as ->|done]).
  unfold find_match. fold (key_of e). rewrite Hsim. destruct (by_key s !! key_of e) as [i|] eqn:Hi; cbn -[article_at keep merge].
  - destruct (so_keys _ _ Hok _ _ Hi) as (old & Hold & Hel & Hkey). assert (Holdin : old ∈ kept s) by (by eapply list_elem_of_lookup_2).
    rewrite bool_decide_false.
    + apply (IH (L ++ [e])); [done|done|done| |by apply merge_slots]. apply Hfrom. intros x. unfold merge. rewrite Hold. destruct old as [cur cs].
      destruct (preferred _ _); [|by right].
      match goal with |- x ∈ kept (refresh _ e ?s') -> _ => destruct (refresh_fields i e s') as (-> & _) end.
      cbn. intros Hx. apply list_elem_of_lookup in Hx as [j Hj]. destruct (decide (j = i)) as [->|Hne].
      * rewrite list_lookup_insert_eq in Hj by (by eapply lookup_lt_Some). left. by injection Hj.
      * rewrite list_lookup_insert_ne in Hj by done. right. by eapply list_elem_of_lookup_2.
    + unfold article_at. rewrite Hold. cbn. intros Hsame. apply Hfresh.
      assert (Heq : e = old); [|rewrite Heq; auto].
      apply Hone; [done|auto|unfold is_eligible; by rewrite Ha|done|done|]. rewrite Hart. symmetry. exact Hsame.
  - apply (IH (L ++ [e])); [done|done|done|by apply Hfrom, Hkeepf|by apply keep_eligible].
Qed.

(** Near matching off, no two articles keep the same text: if no article repeats a passage
    in itself, no two passages that stay are equal up to case, punctuation and spacing. *)
Theorem exact_copies_merged (ranked l : list (chunk * float)) m (similarity : float) (min_chars : Z) :
  f_leb similarity (f_int 1) = false -> NoDup (map cid ranked) -> one_passage_per_key min_chars ranked ->
  collapse_duplicates ranked similarity min_chars = Return (l, m) ->
  forall e e', e ∈ l -> e' ∈ l -> is_eligible min_chars e -> is_eligible min_chars e' -> key_of e = key_of e' -> e = e'.
Proof.
  intros Hsim Hn Hone Hr. unfold collapse_duplicates in Hr.
  assert (Hok : slots_ok min_chars (fold_left (collapse_one similarity min_chars) ranked nothing_kept)).
  { apply (exact_fold similarity min_chars ranked []); [done..| |constructor; cbn; intros *; [by rewrite lookup_empty|done]]. intros x Hx. by apply elem_of_nil in Hx. }
  destruct (clean _ _ _) as [m'|]; [|done]. injection Hr as <- _.
  intros e e' [i Hi]%list_elem_of_lookup [j Hj]%list_elem_of_lookup He He' Hk.
  pose proof (so_kept _ _ Hok i e Hi He) as H1. pose proof (so_kept _ _ Hok j e' Hj He') as H2. rewrite Hk, H2 in H1.
  injection H1 as ->. congruence.
Qed.
End Result.

(** ** Concrete rankings *)

(** ASCII text; vectors are compared by the product of their first coordinates. *)
#[export] Instance ascii_passages : Passages := {|
  fold_passage s := map (fun c => if is_upper c then c + 32 else c) s;
  word_character c := is_lower c || is_upper c || is_digit c || Z.eqb c 95;
  asarray v := v;
  norm _ := f_int 1;
  divide v _ := v;
  dot a b := SFmul 53 1024 (hd (f_int 0) a) (hd (f_int 0) b);
  argsort l := map snd (stable_sort (fun x y => f_leb y.1 x.1) (zip l (seq 0 (length l))))
|}.

Definition document (id : uuid) (reviewed : option datetime) : article :=
  ex_article <| a_id := id |> <| a_title := show_int id |> <| a_last_reviewed := reviewed |>.
Definition passage (id article_id : uuid) (text : pystr) (reviewed : option datetime) : chunk :=
  mkChunk id (Some (document article_id reviewed)) text None "v1" $"HR" "public" 0 None None.

Definition clause : pystr := $"Staff may take 12 days off.".
Definition clause_again : pystr := $"staff  may take 12 days off".
Definition two_copies : list (chunk * float) :=
  [(passage 1 10 clause None, tenth 9); (passage 2 20 clause_again (Some 5), tenth 9)].
Definition alike : float := f_div (f_int 97) (f_int 100).

(** The same score, a later review: the second copy takes the slot and names the first. *)
Example later_review_wins :
  exists m, collapse_duplicates two_copies alike 10 = Return ([(passage 2 20 clause_again (Some 5), tenth 9)], m)
    /\ m !! 2 = Some [mkSourceEntry 1 10 $"10" $"HR"].
Proof. eexists. split; [vm_compute; reflexivity|]. vm_compute. reflexivity. Qed.

(** An article that repeats a passage keeps its second copy when a better copy of another
    article takes the slot of the first: the same text of two articles stays. *)
Example copies_of_two_articles_stay :
  let ranked := [(passage 1 10 clause None, tenth 9); (passage 3 10 clause None, tenth 9);
                 (passage 2 20 clause (Some 5), tenth 9)] in
  exists m, collapse_duplicates ranked (f_int 2) 10
    = Return ([(passage 2 20 clause (Some 5), tenth 9); (passage 3 10 clause None, tenth 9)], m).
Proof. eexists. vm_compute. reflexivity. Qed.

Lemma collapse_loses_no_source_witness :
  exists l m, collapse_duplicates two_copies alike 10 = Return (l, m)
    /\ exists k, k ∈ l /\ (Some 10 = article_of k \/ exists x, x ∈ entries_of m k /\ Some 10 = Some (se_article_id x)).
Proof.
  destruct (collapse_loses_no_source two_copies alike 10) as (l & m & Hr & _ & _ & Hall & _).
  - apply (bool_decide_unpack _). vm_compute. exact I.
  - intros e [->|[->|?%elem_of_nil]%elem_of_cons]%elem_of_cons; done.
  - exists l, m. split; [exact Hr|]. destruct (Hall (passage 1 10 clause None, tenth 9)) as (k & Hk & _ & Ha); [by left|].
    exists k. split; [exact Hk|exact Ha].
Defined.

Lemma exact_copies_merged_witness :
  exists l m, collapse_duplicates two_copies (f_int 2) 10 = Return (l, m) /\ length l = 1%nat
    /\ Forall (fun e => Forall (fun e' => is_eligible 10 e -> is_eligible 10 e' -> key_of e = key_of e' -> e = e') l) l.
Proof.
  assert (Hr : exists m, collapse_duplicates two_copies (f_int 2) 10 = Return ([(passage 2 20 clause_again (Some 5), tenth 9)], m))
    by (eexists; vm_compute; reflexivity).
  destruct Hr as [m Hr]. exists [(passage 2 20 clause_again (Some 5), tenth 9)], m. split; [exact Hr|]. split; [reflexivity|].
  apply Forall_forall. intros e He. apply Forall_forall. intros e' He'.
  refine (exact_copies_merged two_copies _ m (f_int 2) 10 _ _ _ Hr e e' He He').
  - vm_compute. reflexivity.
  - apply (bool_decide_unpack _). vm_compute. exact I.
  - intros x y Hx Hy _ _ _ Ha.
    assert (Hall : Forall (fun x => Forall (fun y => bool_decide (article_of x = article_of y) = bool_decide (cid x = cid y)) two_copies) two_copies)
      by (repeat constructor).
    rewrite Forall_forall in Hall. specialize (Hall x Hx). rewrite Forall_forall in Hall. specialize (Hall y Hy).
    rewrite bool_decide_true in Hall by exact Ha. symmetry in Hall. apply bool_decide_eq_true in Hall.
    refine (NoDup_map_eq cid two_copies x y _ Hx Hy Hall). apply (bool_decide_unpack _). vm_compute. exact I.
Defined.
