(* ===== verification/CircuitBreaker.v ===== *)
(** * The circuit breaker of the cross-encoder (src/rag/cross_encoder.py)

    [CircuitBreaker]: closed, open after a number of consecutive timeouts, half-open for one
    probe after a cooldown. Every method runs under the lock, so a run is a sequence of calls with
    the instants of the monotonic clock; the attempts handed out may be finished in any order,
    twice, or never. *)

From S2P Require Import Prelude.

Record attempt := mkAttempt { probe : bool; recorded : bool }.

Record breaker := mkBreaker {
  timeouts : Z;
  opened_at : option Z;
  probing : bool;
  probe_started : Z
}.

#[export] Instance eta_breaker : Eta breaker := fun b => mkBreaker (timeouts b) (opened_at b) (probing b) (probe_started b).

Class BreakerSettings := {
  BREAKER_THRESHOLD : Z;
  BREAKER_COOLDOWN_SECONDS : Z
}.

Section Breaker.
Context `{BreakerSettings}.

Definition new_breaker : breaker := mkBreaker 0 None false 0.

Definition begin (now : Z) (b : breaker) : option attempt * breaker :=
  match opened_at b with
  | None => (Some (mkAttempt false false), b)
  | Some opened =>
      let refused := if probing b then now - probe_started b <? BREAKER_COOLDOWN_SECONDS
                     else now - opened <? BREAKER_COOLDOWN_SECONDS in
      if refused then (None, b)
      else (Some (mkAttempt true false), b <| probing := true |> <| probe_started := now |>)
  end.

Definition allow (now : Z) (b : breaker) : bool := bool_decide ((begin now b).1 <> None).

Definition is_open (b : breaker) : bool := bool_decide (opened_at b <> None).

(** [attempt.recorded = True] *)
Definition marked (a : option attempt) : option attempt := a ← a; Some (mkAttempt (probe a) true).

Definition record_timeout (now : Z) (a : option attempt) (b : breaker) : option attempt * breaker :=
  let b := b <| timeouts := timeouts b + 1 |> <| probing := false |> in
  (marked a, if is_open b || (BREAKER_THRESHOLD <=? timeouts b) then b <| opened_at := Some now |> else b).

Definition record_success (a : option attempt) (b : breaker) : option attempt * breaker :=
  (marked a, b <| timeouts := 0 |> <| opened_at := None |> <| probing := false |>).

Definition finish (now : Z) (a : option attempt) (b : breaker) : breaker :=
  match a with
  | None => b
  | Some a =>
      if negb (probe a) || recorded a then b
      else if negb (probing b) then b
      else b <| probing := false |> <| opened_at := Some now |>
  end.
End Breaker.

(** ** Runs *)

Section Runs.
Context `{BreakerSettings}.
Implicit Types (b : breaker) (a : option attempt).

(** The calls of the methods, with the attempts the callers hold *)
Inductive call :=
  | Begin
  | Timeout (a : option attempt)
  | Success (a : option attempt)
  | Finish (a : option attempt).

Definition call_step (now : Z) (c : call) (b : breaker) : breaker :=
  match c with
  | Begin => (begin now b).2
  | Timeout a => (record_timeout now a b).2
  | Success a => (record_success a b).2
  | Finish a => finish now a b
  end.

(** A run: the calls made, newest first, and the breaker after them. The clock never goes back. *)
Inductive runs : list (Z * call) -> breaker -> Prop :=
  | runs_new : runs [] new_breaker
  | runs_call h b now c : runs h b -> (forall t c', head h = Some (t, c') -> t <= now) ->
      runs ((now, c) :: h) (call_step now c b).

(** Reference: the timeouts since the last success *)
Fixpoint timeouts_in_row (h : list (Z * call)) : Z :=
  match h with
  | [] => 0
  | (_, Success _) :: _ => 0
  | (_, Timeout _) :: h => timeouts_in_row h + 1
  | _ :: h => timeouts_in_row h
  end.

(** The instants at which a probe was let through, newest first *)
Definition is_probe (x : option attempt) : bool := match x with Some a => probe a | None => false end.

Inductive probes : list (Z * call) -> breaker -> list Z -> Prop :=
  | probes_new : probes [] new_breaker []
  | probes_call h b now c l : probes h b l -> (forall t c', head h = Some (t, c') -> t <= now) ->
      probes ((now, c) :: h) (call_step now c b)
        (if (match c with Begin => is_probe (begin now b).1 | _ => false end) then now :: l else l).

Lemma probes_runs h b l : probes h b l -> runs h b.
Proof. induction 1; by constructor. Qed.

Definition clock (h : list (Z * call)) (default : Z) : Z := match h with [] => default | (t, _) :: _ => t end.

Hypothesis threshold_positive : 0 < BREAKER_THRESHOLD.

Lemma timeouts_nonneg h : 0 <= timeouts_in_row h.
Proof. induction h as [|[t [| | |]] h IH]; cbn; lia. Qed.

Record breaker_ok (h : list (Z * call)) b : Prop := {
  bo_count : timeouts b = timeouts_in_row h;
  bo_open : is_open b = (BREAKER_THRESHOLD <=? timeouts_in_row h);
  bo_probing : probing b = true -> is_open b = true
}.

Lemma runs_ok h b : runs h b -> breaker_ok h b.
Proof.
  induction 1 as [|h b now c Hr [Hc Ho Hp] Ht].
  - constructor; cbn; [done| |done]. symmetry. apply Z.leb_gt. lia.
  - pose proof (timeouts_nonneg h). destruct c as [|a|a|a]; cbn [call_step timeouts_in_row].
    + unfold begin. destruct (opened_at b) as [o|] eqn:Hop; cbn; [|by constructor].
      destruct (if probing b then _ else _); cbn; [by constructor|]. constructor; [done| |]; unfold is_open in *; cbn; by rewrite Hop in *.
    + unfold record_timeout. cbn [snd]. destruct (is_open (b <| timeouts := timeouts b + 1 |> <| probing := false |>)) eqn:Hopen.
      * change (is_open b = true) in Hopen. rewrite Hopen in Ho. constructor; cbn; [lia| |done]. symmetry in Ho |- *. apply Z.leb_le in Ho. apply Z.leb_le. lia.
      * change (is_open b = false) in Hopen. cbn. rewrite Hc.
        destruct (Z.leb_spec BREAKER_THRESHOLD (timeouts_in_row h + 1)) as [Hle|Hlt].
        -- constructor; [done| |done]. symmetry. by apply Z.leb_le.
        -- constructor; [done| |done]. transitivity false; [exact Hopen|]. symmetry. by apply Z.leb_gt.
    + constructor; cbn; [done| |done]. symmetry. apply Z.leb_gt. lia.
    + unfold finish. destruct a as [a|]; [|by constructor]. destruct (negb (probe a) || recorded a); [by constructor|].
      destruct (probing b) eqn:Hpb; cbn [negb]; [|constructor; [done|done|by rewrite Hpb]].
      rewrite (Hp eq_refl) in Ho. by constructor.
Qed.

(** The circuit is open exactly while the timeouts in a row, since the last success, have
    reached the threshold: nothing but a timeout opens it and nothing but a success closes it. *)
Theorem opens_on_timeouts_only h b : runs h b -> is_open b = (BREAKER_THRESHOLD <=? timeouts_in_row h).
Proof. intros Hr. by apply runs_ok. Qed.

(** An instant of the future *)
Lemma probes_clock h b l : probes h b l -> 
  (forall t, t ∈ l -> forall t', head h = Some t' -> t <= t'.1) /\ (h = [] -> l = []).
Proof.
  induction 1 as [|h b now c l Hp [IH1 IH2] Ht]; [split; [by intros ? ?%elem_of_nil|done]|]. split; [|done].
  assert (Hl : forall t, t ∈ l -> t <= now).
  { intros t Hin. destruct h as [|[t0 c0] h]; [by rewrite IH2 in Hin by done; apply elem_of_nil in Hin|].
    specialize (IH1 t Hin (t0, c0) eq_refl). specialize (Ht t0 c0 eq_refl). cbn in IH1. lia. }
  intros t Hin t' [= <-]. cbn. destruct (match c with Begin => _ | _ => _ end); [|by apply Hl].
  apply elem_of_cons in Hin as [->|Hin]; [lia|by apply Hl].
Qed.

(** Where the last probe stands in the state. *)
Definition probe_state b (l : list Z) : Prop :=
  match opened_at b, l with
  | Some o, p :: _ => if probing b then probe_started b = p else p <= o
  | Some o, [] => probing b = false
  | None, _ => probing b = false
  end.

Lemma probe_state_off b now l : (forall p l', l = p :: l' -> p <= now) -> probing b = false ->
  probe_state (b <| opened_at := Some now |>) l.
Proof. intros Hl Hp. unfold probe_state. cbn. destruct l as [|p l]; rewrite Hp; [done|]. by eapply Hl. Qed.

Lemma probes_state h b l : probes h b l -> probe_state b l.
Proof.
  intros Hpr. induction Hpr as [|h b now c l Hp IH Ht]; [done|].
  pose proof (probes_call h b now c l Hp Ht) as Hnext. apply probes_clock in Hnext as [Hclock _].
  assert (Hl : forall p l', l = p :: l' -> p <= now).
  { intros p l' ->. apply (Hclock p) with (t' := (now, c)); [|done]. destruct (match c with Begin => _ | _ => _ end); [right|]; by left. }
  clear Hclock. destruct c as [|a|a|a]; cbn [call_step].
  - unfold begin. destruct (opened_at b) as [o|] eqn:Ho; [|done]. destruct (if probing b then _ else _); [done|]. cbn.
    unfold probe_state. cbn. by rewrite Ho.
  - unfold record_timeout. cbn [snd]. set (b' := b <| timeouts := timeouts b + 1 |> <| probing := false |>).
    destruct (is_open b') eqn:Ho; cbn [orb]; [by apply (probe_state_off b')|].
    destruct (_ <=? _); [by apply (probe_state_off b')|]. unfold probe_state. apply bool_decide_eq_false in Ho.
    by destruct (opened_at b'); [destruct Ho|].
  - unfold probe_state. by cbn.
  - unfold finish. destruct a as [a|]; [|done]. destruct (negb (probe a) || recorded a); [done|].
    destruct (probing b) eqn:Hpb; cbn [negb]; [|done]. by apply (probe_state_off (b <| probing := false |>)).
Qed.

(** While the circuit is open no more than one search per cooldown reaches the reranker:
    any two probes of a run, whatever became of the first, are at least a cooldown apart. *)
Theorem probes_apart h b l : 0 <= BREAKER_COOLDOWN_SECONDS -> probes h b l ->
  StronglySorted (fun t t' => t' + BREAKER_COOLDOWN_SECONDS <= t) l.
Proof.
  intros Hcool. induction 1 as [|h b now c l Hp IH Ht]; [constructor|].
  destruct c as [|a|a|a]; try done. destruct (is_probe (begin now b).1) eqn:Hb; [|done].
  constructor; [done|]. apply probes_state in Hp. unfold begin in Hb. unfold probe_state in Hp.
  destruct (opened_at b) as [o|]; [|done].
  destruct l as [|p l]; [constructor|]. assert (Hpn : p + BREAKER_COOLDOWN_SECONDS <= now).
  { destruct (probing b).
    - destruct (Z.ltb_spec (now - probe_started b) BREAKER_COOLDOWN_SECONDS); [done|lia].
    - destruct (Z.ltb_spec (now - o) BREAKER_COOLDOWN_SECONDS); [done|lia]. }
  constructor; [done|]. apply StronglySorted_inv in IH as [_ IH]. eapply Forall_impl; [exact IH|]. cbn. intros t Htp. lia.
Qed.

(** Nothing the breaker remembers lies in the future. *)
Lemma runs_clock h b : runs h b ->
  (forall o, opened_at b = Some o -> o <= clock h o) /\ (probing b = true -> probe_started b <= clock h (probe_started b)).
Proof.
  induction 1 as [|h b now c Hr [IH1 IH2] Ht]; [done|]. cbn [clock].
  assert (Hc : forall x, x <= clock h x -> h <> [] -> x <= now).
  { intros x Hx. destruct h as [|[t c'] h]; [done|]. intros _. cbn in Hx. specialize (Ht t c' eq_refl). lia. }
  assert (Hne : opened_at b <> None \/ probing b = true -> h <> []) by (intros Ho ->; inversion Hr; subst; by destruct Ho).
  assert (Ho : forall o, opened_at b = Some o -> o <= now) by (intros o Hbo; apply Hc; [auto|apply Hne; left; congruence]).
  assert (Hpb : probing b = true -> probe_started b <= now) by (intros Hbp; apply Hc; [auto|apply Hne; by right]).
  destruct c as [|a|a|a]; cbn [call_step].
  - unfold begin. destruct (opened_at b) as [o|] eqn:Hbo; [|split; [cbn; congruence|done]].
    destruct (if probing b then _ else _); cbn; (split; [rewrite Hbo; auto|auto; lia]).
  - unfold record_timeout. cbn [snd]. destruct (_ || _); cbn; [split; [intros o [= <-]; lia|done]|done].
  - done.
  - unfold finish. destruct a as [a|]; [|done]. destruct (_ || _); [done|]. destruct (negb _); [done|]. cbn.
    split; [intros o [= <-]; lia|done].
Qed.

(** C23. The reranker is never wedged off: however its attempts end, or do not, a search that comes
    a cooldown after the last call is let through. *)
Theorem never_wedged h b now : runs h b -> (forall t c, head h = Some (t, c) -> t + BREAKER_COOLDOWN_SECONDS <= now) ->
  allow now b = true.
Proof.
  intros Hr Ht. pose proof (runs_clock h b Hr) as [Ho Hp]. unfold allow, begin. destruct (opened_at b) as [o|] eqn:Hbo; [|done].
  specialize (Ho o eq_refl). destruct h as [|[t c] h]; [inversion Hr; subst; done|]. specialize (Ht t c eq_refl). cbn in Ho, Hp.
  destruct (probing b).
  - specialize (Hp eq_refl). destruct (Z.ltb_spec (now - probe_started b) BREAKER_COOLDOWN_SECONDS); [lia|done].
  - destruct (Z.ltb_spec (now - o) BREAKER_COOLDOWN_SECONDS); [lia|done].
Qed.
End Runs.

(** ** A concrete run *)

#[export] Instance breaker_defaults : BreakerSettings := {| BREAKER_THRESHOLD := 3; BREAKER_COOLDOWN_SECONDS := 300 |}.

Fixpoint run_of (h : list (Z * call)) : breaker :=
  match h with [] => new_breaker | (now, c) :: h => call_step now c (run_of h) end.
Fixpoint probes_of (h : list (Z * call)) : list Z :=
  match h with
  | [] => []
  | (now, c) :: h =>
      if (match c with Begin => is_probe (begin now (run_of h)).1 | _ => false end) then now :: probes_of h else probes_of h
  end.
Fixpoint forward (h : list (Z * call)) : bool :=
  match h with
  | [] => true
  | (t, _) :: h => match h with [] => true | (t', _) :: _ => (t' <=? t) && forward h end
  end.

Lemma run_probes h : forward h = true -> probes h (run_of h) (probes_of h).
Proof.
  induction h as [|[now c] h IH]; intros Hf; [constructor|]. cbn [run_of probes_of]. constructor.
  - apply IH. destruct h as [|[t c'] h]; [done|]. cbn in Hf. by apply andb_true_iff in Hf as [_ Hf].
  - intros t c' Hh. destruct h as [|[t0 c0] h]; [done|]. injection Hh as -> ->. cbn in Hf.
    apply andb_true_iff in Hf as [Hf _]. by apply Z.leb_le.
Qed.

(** Three timeouts; a probe at 320 that never ends; another at 700. *)
Definition stuck : list (Z * call) :=
  [(700, Begin); (330, Begin); (320, Begin); (12, Timeout None); (11, Timeout None); (10, Timeout None)].

Lemma opens_on_timeouts_only_witness : is_open (run_of (drop 3 stuck)) = true /\ timeouts_in_row (drop 3 stuck) = 3.
Proof.
  split; [|reflexivity]. rewrite (opens_on_timeouts_only ltac:(done) (drop 3 stuck) (run_of (drop 3 stuck))); [reflexivity|].
  by eapply probes_runs, run_probes.
Defined.

Lemma probes_apart_witness :
  probes_of stuck = [700; 320] /\ StronglySorted (fun t t' => t' + BREAKER_COOLDOWN_SECONDS <= t) [700; 320].
Proof.
  split; [reflexivity|]. apply (probes_apart stuck (run_of stuck) [700; 320]); [cbn; lia|exact (run_probes stuck eq_refl)].
Defined.

Lemma never_wedged_witness : allow 1000 (run_of stuck) = true /\ allow 999 (run_of stuck) = false.
Proof.
  split; [|reflexivity]. apply (never_wedged stuck (run_of stuck) 1000); [exact (probes_runs _ _ _ (run_probes stuck eq_refl))|].
  intros t c [= <- <-]. reflexivity.
Defined.
