(* ===== verification/Retrieval.v ===== *)
(** * Hybrid retrieval (src/repositories/chunk.py)

    [ChunkRepository.hybrid_search]: which chunks a search may retrieve at all, its legs (vector,
    full text, title, identifiers, entity graph) and their fusion. PostgreSQL's text search,
    [unaccent], ILIKE and pgvector's distance are parameters. Rows that tie in an ORDER BY come
    in the order of the table. *)

From S2P Require Import Prelude PyText Float64 Ranking Models Rbac Permissions Dedupe.

Class SearchEngine := {
  cosine_distance : list float -> list float -> float;
  (** a term's [plainto_tsquery] matches the text of a chunk *)
  term_matches : pystr -> pystr -> bool;
  (** [ts_rank_cd] for the terms joined by [||] *)
  ts_rank_cd : list pystr -> pystr -> float;
  (** [immutable_unaccent(title) ILIKE '%term%'] *)
  title_like : pystr -> pystr -> bool;
  (** [fold]: NFD without the marks, in lower case, and the letters of the pattern [\w] *)
  fold_query : pystr -> pystr;
  word_letter : Z -> bool;
  (** [Article.created_at], a column [Models.article] does not have *)
  created_at : article -> datetime
}.

Class SearchSettings := {
  EMBEDDING_VERSION : string;
  RAG_CANDIDATE_POOL_SIZE : Z;
  VECTOR_DISTANCE_THRESHOLD : float;
  RAG_IDENTIFIER_LEG_ENABLED : bool;
  RAG_IDENTIFIER_POOL_SIZE : Z;
  GRAPH_RETRIEVAL_ENABLED : bool;
  GRAPH_RETRIEVAL_POOL_SIZE : Z
}.

(** The keys of [filters] the search reads. *)
Record filters := mkFilters {
  f_company_domain : option string;
  f_departments : list pystr;
  f_owner_id : option uuid;
  f_dept : option pystr;
  f_sensitivity : option string;
  f_type : option string;
  f_source_scope : option string;
  f_status : option string;
  f_language : option string;
  f_tag : option pystr;
  f_date_from : option datetime;
  f_date_to : option datetime
}.

#[export] Instance eta_filters : Eta filters := fun f => mkFilters (f_company_domain f) (f_departments f) (f_owner_id f) (f_dept f)
  (f_sensitivity f) (f_type f) (f_source_scope f) (f_status f) (f_language f) (f_tag f) (f_date_from f) (f_date_to f).

Definition LESSON_TYPE : string := "LESSON".

(** The entity graph *)
Record graph_entity := mkEntity { ge_id : uuid; ge_company_domain : string; ge_normalized_name : pystr; ge_mention_count : Z }.
Record graph_relationship := mkRelationship { gr_company_domain : string; gr_source : uuid; gr_target : uuid }.

Record corpus := mkCorpus {
  chunks : list chunk;
  departments : list department;
  entities : list graph_entity;
  relationships : list graph_relationship;
  mentions : list (uuid * uuid)
}.

Section Retrieval.
Context `{SearchEngine} `{SearchSettings}.

(** ** The rows a search may see *)

(** A condition of the filters that is absent, or empty, does not restrict. *)
Definition given_text (o : option string) : option string := match o with Some "" => None | _ => o end.
Definition when {A} (o : option A) (p : A -> bool) : bool := match o with Some x => p x | None => true end.

Definition department_names (f : filters) : gset pystr :=
  list_to_set (List.filter truthy (map strip (f_departments f))).

Definition scope_condition (f : filters) (a : article) : bool :=
  let names := department_names f in
  let conditions :=
    (if bool_decide (names = ∅) then [] else [sql_in_departments names a])
    ++ match f_owner_id f with Some owner => [bool_decide (a_owner_id a = Some owner)] | None => [] end in
  match conditions with
  | [] => true
  | _ => String.eqb (a_sensitivity a) "public" || existsb id conditions
  end.

Definition scope_of_sources (f : filters) (a : article) : bool :=
  match f_source_scope f with
  | Some "documents" => negb (String.eqb (a_type a) LESSON_TYPE)
  | Some "lessons" => String.eqb (a_type a) LESSON_TYPE
  | _ => true
  end.

Definition requested (f : filters) (c : chunk) (a : article) : bool :=
  when (match f_dept f with Some [] => None | d => d end)
    (fun d => bool_decide (ck_department_id c = d) || existsb (fun x => bool_decide (dp_name x = d)) (a_departments a))
  && when (given_text (f_sensitivity f)) (String.eqb (ck_sensitivity c))
  && when (given_text (f_type f)) (String.eqb (a_type a))
  && scope_of_sources f a
  && when (given_text (f_status f)) (String.eqb (a_status a))
  && when (given_text (f_language f)) (String.eqb (a_language a))
  && when (match f_tag f with Some [] => None | t => t end) (fun t => bool_decide (t ∈ a_tags a))
  && when (f_date_from f) (fun t => t <=? created_at a)
  && when (f_date_to f) (fun t => created_at a <=? t).

(** The conjunction every leg is filtered by *)
Definition where_clauses (rows : list department) (u : user) (f : filters) (c : chunk) : bool :=
  match ck_article c with
  | None => false
  | Some a =>
      String.eqb (a_status a) "published"
      && bool_decide (a_lifecycle_status a = Some "active")
      && String.eqb (a_index_status a) "ready"
      && _authorized_article_filters rows u a
      && negb (sql_explicit "deny" u a)
      && when (given_text (f_company_domain f)) (String.eqb (a_company_domain a))
      && scope_condition f a
      && sql_active_department rows a
      && requested f c a
  end.

(** ** The legs *)

Definition limited {A} (n : Z) (l : list A) : list A := take (Z.to_nat n) l.

(** [ORDER BY key DESC LIMIT n] and [ORDER BY key LIMIT n] *)
Definition highest (key : chunk -> float) (n : Z) (l : list chunk) : list chunk :=
  limited n (stable_sort (fun x y => f_leb (key y) (key x)) l).
Definition nearest (key : chunk -> float) (n : Z) (l : list chunk) : list chunk :=
  limited n (stable_sort (fun x y => f_leb (key x) (key y)) l).

Definition pool_size (limit : Z) : Z := Z.max RAG_CANDIDATE_POOL_SIZE limit.

Definition distance_to (query_embedding : list float) (c : chunk) : option float :=
  cosine_distance query_embedding <$> ck_embedding c.

Definition vector_leg (visible : list chunk) (query_embedding : option (list float)) (limit : Z) : list chunk :=
  match query_embedding with
  | None => []
  | Some q =>
      nearest (fun c => default (f_int 0) (distance_to q c)) (pool_size limit)
        (List.filter (fun c => String.eqb (ck_embedding_version c) EMBEDDING_VERSION
                       && match distance_to q c with Some d => f_leb d VECTOR_DISTANCE_THRESHOLD | None => false end) visible)
  end.

(** The best rank of each chunk, over the queries of one search *)
Fixpoint note_ranks (rank : Z) (l : list chunk) (ranks : gmap uuid Z) : gmap uuid Z :=
  match l with
  | [] => ranks
  | c :: l =>
      note_ranks (rank + 1) l
        (<[ck_id c := match ranks !! ck_id c with Some best => Z.min best rank | None => rank end]> ranks)
  end.

(** [re.findall(r"\[\w'-\]+", ...)] *)
Definition term_letter (c : Z) : bool := word_letter c || Z.eqb c 39 || Z.eqb c 45.
Fixpoint tokens_from (current : pystr) (s : pystr) : list pystr :=
  let flush := match current with [] => [] | _ => [rev current] end in
  match s with
  | [] => flush
  | c :: s => if term_letter c then tokens_from (c :: current) s else flush ++ tokens_from [] s
  end.
Definition keyword_terms (query : pystr) : list pystr := List.filter (fun t => 1 <? len t) (tokens_from [] (fold_query query)).

Definition keyword_leg (visible : list chunk) (query : pystr) (limit : Z) : list chunk :=
  let terms := keyword_terms query in
  let searched := match terms with [] => [query] | _ => terms end in
  let found := highest (fun c => ts_rank_cd searched (ck_text c)) (pool_size limit)
                 (List.filter (fun c => existsb (fun t => term_matches t (ck_text c)) searched) visible) in
  match terms with
  | [] => found
  | _ =>
      let titled := List.filter (fun c => existsb (fun t => when (ck_article c) (fun a => title_like t (a_title a))) terms
                                   && negb (existsb (fun x => Z.eqb (ck_id x) (ck_id c)) found)) visible in
      limited (pool_size limit) (found ++ limited (pool_size limit) titled)
  end.

(** [entry\[1\] += 1; entry\[2\] = min(entry\[2\], rank)] *)
Fixpoint note_named (rank : Z) (c : chunk) (found : list (chunk * (Z * Z))) : list (chunk * (Z * Z)) :=
  match found with
  | [] => [(c, (1, rank))]
  | (x, (times, best)) :: found =>
      if Z.eqb (ck_id x) (ck_id c) then (x, (times + 1, Z.min best rank)) :: found
      else (x, (times, best)) :: note_named rank c found
  end.
Fixpoint note_rows (rank : Z) (l : list chunk) (found : list (chunk * (Z * Z))) : list (chunk * (Z * Z)) :=
  match l with [] => found | c :: l => note_rows (rank + 1) l (note_named rank c found) end.

Definition named_by_most (x y : chunk * (Z * Z)) : bool :=
  (y.2.1 <? x.2.1) || (Z.eqb x.2.1 y.2.1 && (x.2.2 <=? y.2.2)).

Definition _identifier_candidates (visible : list chunk) (terms : list pystr) : list chunk :=
  match terms with
  | [] => []
  | _ =>
      let pool := RAG_IDENTIFIER_POOL_SIZE in
      let share := Z.max 1 (- (- pool / len terms)) in
      let found := fold_left (fun found term =>
          note_rows 0 (highest (fun c => ts_rank_cd [term] (ck_text c)) share
                         (List.filter (fun c => term_matches term (ck_text c)) visible)) found) terms [] in
      limited pool (map fst (stable_sort named_by_most found))
  end.

(** [needle in text] *)
Fixpoint contains (needle text : pystr) : bool :=
  starts_with needle text || match text with [] => false | _ :: text => contains needle text end.

Definition _GRAPH_ENTITY_SCAN_LIMIT : Z := 5000.

Definition _matched_graph_entity_ids (k : corpus) (company_domain : string) (folded_query : pystr) : gset uuid :=
  let rows := limited _GRAPH_ENTITY_SCAN_LIMIT (List.filter (fun e => String.eqb (ge_company_domain e) company_domain) (entities k)) in
  let matched : gset uuid := list_to_set (map ge_id (List.filter (fun e => truthy (ge_normalized_name e)
                                             && contains (ge_normalized_name e) folded_query) rows)) in
  if bool_decide (matched = ∅) then ∅
  else
    let edges := List.filter (fun r => String.eqb (gr_company_domain r) company_domain
                    && (bool_decide (gr_source r ∈ matched) || bool_decide (gr_target r ∈ matched))) (relationships k) in
    matched ∪ list_to_set (map gr_source edges ++ map gr_target edges).

Definition more_mentioned (x y : chunk * graph_entity) : bool :=
  (ge_mention_count y.2 <? ge_mention_count x.2)
  || (Z.eqb (ge_mention_count x.2) (ge_mention_count y.2) && (ck_index x.1 <=? ck_index y.1)).

Definition _graph_augmented_candidates (k : corpus) (visible : list chunk) (company_domain : string) (folded_query : pystr)
    (limit : Z) : list chunk :=
  if String.eqb company_domain "" then []
  else
    let entity_ids := _matched_graph_entity_ids k company_domain folded_query in
    if bool_decide (entity_ids = ∅) then []
    else
      let target := Z.max GRAPH_RETRIEVAL_POOL_SIZE limit in
      let joined := concat (map (fun c => concat (map (fun m =>
          if when (ck_article c) (fun a => Z.eqb (a_id a) m.1) && bool_decide (m.2 ∈ entity_ids)
          then map (fun e => (c, e)) (List.filter (fun e => Z.eqb (ge_id e) m.2) (entities k)) else []) (mentions k))) visible) in
      limited target (unseen ck_id ∅ (map fst (limited (target * 3) (stable_sort more_mentioned joined)))).1.

(** ** The search *)

Definition hybrid_search (k : corpus) (query : pystr) (query_embedding : option (list float)) (u : user) (limit : Z)
    (f : filters) (use_graph : bool) (identifiers : list pystr) (vector_ranks : gmap uuid Z) : list chunk * gmap uuid Z :=
  let visible := List.filter (where_clauses (departments k) u f) (chunks k) in
  let vector_results := vector_leg visible query_embedding limit in
  let keyword_results := keyword_leg visible query limit in
  let identifier_results := if RAG_IDENTIFIER_LEG_ENABLED then _identifier_candidates visible identifiers else [] in
  let graph_results :=
    if GRAPH_RETRIEVAL_ENABLED || use_graph
    then _graph_augmented_candidates k visible (u_company_domain u) (fold_query query) limit else [] in
  (fuse ck_id [vector_results; keyword_results; identifier_results; graph_results], note_ranks 1 vector_results vector_ranks).
End Retrieval.

(** ** What a search can retrieve *)

Section RetrievalFacts.
Context `{SearchEngine} `{SearchSettings}.

Lemma limited_elem {A} n (l : list A) x : x ∈ limited n l -> x ∈ l.
Proof. intros (i & Hi & _)%elem_of_take. by eapply list_elem_of_lookup_2. Qed.

Lemma highest_elem key n l c : c ∈ highest key n l -> c ∈ l.
Proof. by intros ?%limited_elem%elem_of_stable_sort. Qed.
Lemma nearest_elem key n l c : c ∈ nearest key n l -> c ∈ l.
Proof. by intros ?%limited_elem%elem_of_stable_sort. Qed.

Lemma vector_leg_elem visible q limit c : c ∈ vector_leg visible q limit -> c ∈ visible.
Proof. destruct q as [q|]; [|by intros ?%elem_of_nil]. by intros [? _]%nearest_elem%elem_of_filter_b. Qed.

Lemma keyword_leg_elem visible query limit c : c ∈ keyword_leg visible query limit -> c ∈ visible.
Proof.
  unfold keyword_leg. destruct (keyword_terms query).
  - by intros [? _]%highest_elem%elem_of_filter_b.
  - intros [Hc|Hc]%limited_elem%elem_of_app; [by apply highest_elem, elem_of_filter_b in Hc as [? _]|].
    by apply limited_elem, elem_of_filter_b in Hc as [? _].
Qed.

Lemma note_named_elem rank c found x : x ∈ note_named rank c found -> x.1 = c \/ exists y, y ∈ found /\ x.1 = y.1.
Proof.
  induction found as [|[z [times best]] found IH]; cbn; [intros ->%list_elem_of_singleton; by left|].
  destruct (Z.eqb _ _); intros [->|Hx]%elem_of_cons.
  - right. eexists. split; [by left|done].
  - right. exists x. split; [by right|done].
  - right. eexists. split; [by left|done].
  - destruct (IH Hx) as [?|(y & ? & ?)]; [by left|right; exists y; split; [by right|done]].
Qed.

Lemma note_rows_elem l : forall rank found x, x ∈ note_rows rank l found -> x.1 ∈ l \/ exists y, y ∈ found /\ x.1 = y.1.
Proof.
  induction l as [|c l IH]; intros rank found x Hx; cbn in Hx; [right; eauto|].
  destruct (IH _ _ _ Hx) as [?|(y & [Hy|(z & ? & Hz)]%note_named_elem & Hxy)]; [left; by right|left|right].
  - rewrite Hxy, Hy. by left.
  - exists z. split; [done|congruence].
Qed.

Lemma identifier_elem visible terms c : c ∈ _identifier_candidates visible terms -> c ∈ visible.
Proof.
  unfold _identifier_candidates. destruct terms as [|t terms]; [by intros ?%elem_of_nil|].
  generalize (Z.max 1 (- (- RAG_IDENTIFIER_POOL_SIZE / len (t :: terms)))). intros share Hc%limited_elem.
  apply elem_of_map in Hc as (x & -> & Hx%elem_of_stable_sort).
  assert (Hfold : forall terms found, (forall y, y ∈ found -> y.1 ∈ visible) -> forall x, x ∈ fold_left (fun found term =>
      note_rows 0 (highest (fun c => ts_rank_cd [term] (ck_text c)) share (List.filter (fun c => term_matches term (ck_text c)) visible)) found) terms found ->
      x.1 ∈ visible).
  { clear. induction terms as [|t terms IH]; intros found Hf x Hx; cbn in Hx; [auto|]. apply (IH _) in Hx; [done|].
    intros y [Hy|(z & ? & ->)]%note_rows_elem; [by apply highest_elem, elem_of_filter_b in Hy as [? _]|auto]. }
  apply (Hfold _ []) in Hx; [done|]. by intros y ?%elem_of_nil.
Qed.

Lemma graph_elem k visible company query limit c : c ∈ _graph_augmented_candidates k visible company query limit -> c ∈ visible.
Proof.
  unfold _graph_augmented_candidates. destruct (String.eqb _ _); [by intros ?%elem_of_nil|]. case_bool_decide; [by intros ?%elem_of_nil|].
  intros [Hc _]%limited_elem%unseen_elem. apply elem_of_map in Hc as ([c' e] & -> & Hx%limited_elem%elem_of_stable_sort).
  apply elem_of_concat_map in Hx as (c0 & Hc0 & Hx). apply elem_of_concat_map in Hx as (m & _ & Hx).
  destruct (_ && _); [|by apply elem_of_nil in Hx]. apply elem_of_map in Hx as (e' & [= -> ->] & _). done.
Qed.

Lemma hybrid_visible k query q u limit f use_graph idents ranks :
  let r := (hybrid_search k query q u limit f use_graph idents ranks).1 in
  NoDup (map ck_id r) /\ forall c, c ∈ r -> c ∈ List.filter (where_clauses (departments k) u f) (chunks k).
Proof.
  unfold hybrid_search. cbn [fst]. set (visible := List.filter _ (chunks k)).
  match goal with |- context [fuse _ ?legs] => destruct (fusion_exact ck_id legs) as (Hn & Hin & _) end.
  split; [done|]. intros c (leg & Hleg & Hc)%Hin. rewrite !elem_of_cons in Hleg.
  destruct Hleg as [->|[->|[->|[->|?%elem_of_nil]]]]; [by eapply vector_leg_elem|by eapply keyword_leg_elem| | |done].
  - destruct RAG_IDENTIFIER_LEG_ENABLED; [by eapply identifier_elem|by apply elem_of_nil in Hc].
  - destruct (_ || use_graph); [by eapply graph_elem|by apply elem_of_nil in Hc].
Qed.

(** What the conjunction says of a row *)
Lemma visible_row k u f c : c ∈ List.filter (where_clauses (departments k) u f) (chunks k) ->
  c ∈ chunks k /\ exists a, ck_article c = Some a
    /\ _authorized_article_filters (departments k) u a = true /\ sql_explicit "deny" u a = false
    /\ a_status a = "published" /\ a_lifecycle_status a = Some "active" /\ a_index_status a = "ready".
Proof.
  intros [Hk Hw]%elem_of_filter_b. split; [done|]. unfold where_clauses in Hw.
  destruct (ck_article c) as [a|]; [|done]. exists a. split; [done|]. rewrite !andb_true_iff, negb_true_iff in Hw.
  destruct Hw as [[[[[[[[Hs Hl] Hi] Ha] Hd] _] _] _] _]. apply String.eqb_eq in Hs, Hi. apply bool_decide_eq_true in Hl. done.
Qed.

(** C7. Retrieval is authorised row by row: whatever the query, the embedding, the identifiers
    and the graph, a chunk that a search retrieves is a row of an article that is published, active
    and indexed, that satisfies the visibility predicate of the reader and does not deny them, and
    each is retrieved once. *)
Theorem retrieval_authorised k query q u limit f use_graph idents ranks :
  let r := (hybrid_search k query q u limit f use_graph idents ranks).1 in
  NoDup (map ck_id r)
  /\ forall c, c ∈ r -> c ∈ chunks k /\ exists a, ck_article c = Some a
       /\ _authorized_article_filters (departments k) u a = true /\ sql_explicit "deny" u a = false
       /\ a_status a = "published" /\ a_lifecycle_status a = Some "active" /\ a_index_status a = "ready".
Proof.
  destruct (hybrid_visible k query q u limit f use_graph idents ranks) as [Hn Hv]. split; [done|].
  intros c Hc. by apply (visible_row k u f), Hv.
Qed.

(** The rank a chunk keeps over the queries of a search is its best. *)
Lemma note_ranks_lookup l : forall rank ranks i,
  note_ranks rank l ranks !! i =
  fold_left (fun best e => match best with Some b => Some (Z.min b e) | None => Some e end)
    (omap (fun '(r, c) => if Z.eqb (ck_id c) i then Some r else None) (zip (map (fun n => rank + Z.of_nat n) (seq 0 (length l))) l))
    (ranks !! i).
Proof.
  induction l as [|c l IH]; intros rank ranks i; cbn [note_ranks]; [done|]. rewrite IH. cbn [length seq map zip zip_with omap list_omap].
  rewrite Z.add_0_r, <- seq_shift, map_map.
  rewrite (map_ext (fun n => rank + 1 + Z.of_nat n) (fun n => rank + Z.of_nat (S n))) by lia.
  destruct (Z.eqb_spec (ck_id c) i) as [->|Hne]; cbn.
  - rewrite lookup_insert_eq. by destruct (ranks !! i).
  - by rewrite lookup_insert_ne by done.
Qed.
End RetrievalFacts.

Section Complete.
Context `{SearchEngine} `{SearchSettings}.

Lemma limited_all {A} n (l : list A) : len l <= n -> limited n l = l.
Proof. intros Hl. unfold limited, len in *. apply take_ge. lia. Qed.

Lemma filter_shorter {A} (p : A -> bool) (l : list A) : len (List.filter p l) <= len l.
Proof. unfold len. induction l as [|x l IH]; cbn; [lia|]. destruct (p x); cbn; lia. Qed.

Lemma filters_apart {A} (p q : A -> bool) (l : list A) : (forall x, x ∈ l -> q x = true -> p x = false) ->
  len (List.filter p l) + len (List.filter q l) <= len l.
Proof.
  unfold len. induction l as [|x l IH]; intros Hpq; cbn; [lia|].
  assert (IH' := IH (fun y Hy => Hpq y (proj2 (elem_of_cons _ _ _) (or_intror Hy)))).
  specialize (Hpq x (proj2 (elem_of_cons _ _ _) (or_introl eq_refl))).
  destruct (p x), (q x); cbn; try lia; by specialize (Hpq eq_refl).
Qed.

(** C20. Nothing that matches is lost before the pool is full: a visible chunk whose text matches
    one of the words of the question, or whose title contains one, is retrieved as long as the
    visible chunks fit the pool. *)
Theorem matches_are_found k query q u limit f use_graph identifiers ranks c a :
  c ∈ chunks k -> where_clauses (departments k) u f c = true -> ck_article c = Some a ->
  len (List.filter (where_clauses (departments k) u f) (chunks k)) <= pool_size limit ->
  (exists t, t ∈ keyword_terms query /\ (term_matches t (ck_text c) = true \/ title_like t (a_title a) = true)) ->
  ck_id c ∈ map ck_id (hybrid_search k query q u limit f use_graph identifiers ranks).1.
Proof.
  intros Hc Hw Ha Hlen (t & Ht & Hmatch). set (visible := List.filter (where_clauses (departments k) u f) (chunks k)) in *.
  assert (Hcv : c ∈ visible) by (by apply elem_of_filter_b).
  enough (Hk : exists x, x ∈ keyword_leg visible query limit /\ ck_id x = ck_id c).
  { destruct Hk as (x & Hx & <-). unfold hybrid_search. cbn [fst]. fold visible.
    match goal with |- _ ∈ map _ (fuse _ ?legs) => destruct (fusion_exact ck_id legs) as (_ & _ & Hcov & _) end.
    apply (Hcov (keyword_leg visible query limit)); [|done]. right. by left. }
  unfold keyword_leg. destruct (keyword_terms query) as [|t0 ts]; [by apply elem_of_nil in Ht|]. set (terms := t0 :: ts) in *.
  set (found := highest _ _ _). set (titled := List.filter _ visible).
  assert (Hfound : forall x, x ∈ found <-> x ∈ visible /\ existsb (fun t => term_matches t (ck_text x)) terms = true).
  { intros x. unfold found, highest. rewrite limited_all, elem_of_stable_sort, elem_of_filter_b; [done|].
    unfold len. rewrite stable_sort_length. pose proof (filter_shorter (fun c => existsb (fun t => term_matches t (ck_text c)) terms) visible).
    unfold len in *. lia. }
  assert (Hone : c ∈ found \/ c ∈ titled \/ exists x, x ∈ found /\ ck_id x = ck_id c).
  { destruct (existsb (fun x => Z.eqb (ck_id x) (ck_id c)) found) eqn:Hin.
    - apply existsb_exists in Hin as (x & Hx%list_elem_of_In & He%Z.eqb_eq). eauto.
    - destruct Hmatch as [Hm|Hm]; [left; apply Hfound|right; left; apply elem_of_filter_b]; (split; [done|]).
      + apply existsb_exists. exists t. by split; [apply list_elem_of_In|].
      + rewrite Hin, andb_true_r. apply existsb_exists. exists t. split; [by apply list_elem_of_In|]. by rewrite Ha. }
  assert (Htit : limited (pool_size limit) titled = titled).
  { apply limited_all. pose proof (filter_shorter (fun c => existsb (fun t => when (ck_article c) (fun a => title_like t (a_title a))) terms
      && negb (existsb (fun x => Z.eqb (ck_id x) (ck_id c)) found)) visible). unfold titled. lia. }
  rewrite Htit. rewrite limited_all.
  - destruct Hone as [?|[?|(x & ? & ?)]]; [exists c|exists c|exists x]; rewrite elem_of_app; auto.
  - eapply Z.le_trans; [|exact Hlen]. unfold len at 1. rewrite length_app, Nat2Z.inj_add.
    assert (Hfl : length found = length (List.filter (fun x => existsb (fun t => term_matches t (ck_text x)) terms) visible)).
    { unfold found, highest. rewrite limited_all; [apply stable_sort_length|]. unfold len. rewrite stable_sort_length.
      pose proof (filter_shorter (fun c => existsb (fun t => term_matches t (ck_text c)) terms) visible). unfold len in *. lia. }
    rewrite Hfl. apply filters_apart. intros x Hx [_ Hq]%andb_true_iff. apply not_true_iff_false. intros Hp.
    apply negb_true_iff in Hq.
    pose proof (proj1 (existsb_false _ _) Hq x (proj2 (Hfound x) (conj Hx Hp))) as Hz. cbn in Hz. by rewrite Z.eqb_refl in Hz.
Qed.
End Complete.

(** ** Two departments and one clause *)

#[export] Instance demo_engine : SearchEngine := {|
  cosine_distance _ _ := f_int 0;
  term_matches t text := contains t (fold_passage text);
  ts_rank_cd _ _ := f_int 1;
  title_like _ _ := false;
  fold_query := fold_passage;
  word_letter c := is_lower c || is_digit c || Z.eqb c 95;
  created_at _ := 0
|}.
#[export] Instance demo_search_settings : SearchSettings := {|
  EMBEDDING_VERSION := "v1"; RAG_CANDIDATE_POOL_SIZE := 240; VECTOR_DISTANCE_THRESHOLD := tenth 4;
  RAG_IDENTIFIER_LEG_ENABLED := true; RAG_IDENTIFIER_POOL_SIZE := 48;
  GRAPH_RETRIEVAL_ENABLED := false; GRAPH_RETRIEVAL_POOL_SIZE := 20
|}.
Definition ready (id : uuid) (reviewed : option datetime) (a : article) : article :=
  a <| a_id := id |> <| a_title := show_int id |> <| a_last_reviewed := reviewed |> <| a_index_status := "ready" |>.
Definition row (id : uuid) (a : article) : chunk := mkChunk id (Some a) clause None "v1" (a_dept a) (a_sensitivity a) 0 None None.

(** The clause in a document of the reader's department and in one of another, of public
    sensitivity, reviewed at the given instants *)
Definition one_clause (ours theirs : option datetime) : corpus :=
  mkCorpus [row 1 (ready 10 ours ex_article); row 2 (ready 20 theirs ex_it_article)] ex_rows [] [] [].
Definition no_filters : filters := mkFilters None [] None None None None None None None None None None.

Lemma matches_are_found_witness :
  let k := one_clause None (Some 5) in
  ck_id (row 2 (ready 20 (Some 5) ex_it_article)) ∈ map ck_id (hybrid_search k $"how many days" None ex_staff 5 no_filters false [] ∅).1.
Proof.
  apply (matches_are_found (one_clause None (Some 5)) $"how many days" None ex_staff 5 no_filters false [] ∅
    (row 2 (ready 20 (Some 5) ex_it_article)) (ready 20 (Some 5) ex_it_article)).
  - right. by left.
  - vm_compute. reflexivity.
  - reflexivity.
  - vm_compute. discriminate.
  - exists $"days". split; [apply (bool_decide_unpack _); vm_compute; exact I|]. left. vm_compute. reflexivity.
Defined.
