(* ===== verification/Search.v ===== *)
(** * Search (src/domain/search_service.py)

    [SearchService.search]: the preparation of the question, the retrieval of its candidates, their
    ranking by the lexical scorer and, behind the circuit breaker, the cross-encoder, the adaptive
    follow-up, the collapse of copies, the check of the reader's permissions and the threshold.
    The language processing of src/rag (normalisation, rewordings, aliases, the lexical score of a
    passage) and the models are parameters; feature flags are settings. A search runs at one
    instant [now] over one state of the tables, its sub-queries one after another in the order
    in which their results are merged. *)

From S2P Require Import Prelude PyText Float64 Ranking Models Rbac Permissions Dedupe CircuitBreaker Retrieval.

(** What becomes of a call of the cross-encoder *)
Inductive cross_result := Scored (scores : list float) | TimedOut | Unavailable.

Class Questions := {
  normalize_query : pystr -> pystr;
  usable_identifiers : pystr -> pystr -> list pystr;
  (** [split_comparison_subjects(query) if is_comparison_query(query) else \[\]] *)
  comparison_subjects : pystr -> list pystr;
  needs_deep_retrieval : pystr -> bool;
  translate_query : pystr -> pystr;
  generate_subqueries : pystr -> list pystr;
  generate_followup_query : pystr -> list pystr -> list pystr -> option pystr;
  _alias_names : pystr -> pystr -> list pystr;
  lower_text : pystr -> pystr;
  embed_query : pystr -> option (list float);
  (** [score_prepared_text] of a chunk, the query prepared against the pool *)
  lexical_score : pystr -> list chunk -> list pystr -> chunk -> float;
  cross_encoder_score : pystr -> list chunk -> cross_result
}.

Class RankingSettings := {
  QUERY_TRANSLATION_ENABLED : bool;
  MULTI_QUERY_RETRIEVAL_ENABLED : bool;
  MULTI_QUERY_MAX_FOLLOWUPS : nat;
  RERANKER_ENABLED : bool;
  CROSS_ENCODER_ENABLED : bool;
  CROSS_ENCODER_ONLY_DEEP_QUERIES : bool;
  CROSS_ENCODER_CANDIDATE_POOL : Z;
  CROSS_ENCODER_VECTOR_CANDIDATES : Z;
  CROSS_ENCODER_ASSIST_TOP_K : Z;
  CROSS_ENCODER_ASSIST_MIN_PROBABILITY : float;
  RAG_VECTOR_ASSIST_TOP_N : Z;
  RAG_VECTOR_ASSIST_SCORE : float;
  RAG_MIN_CONTEXT_SCORE : float;
  RAG_MIN_RELEVANCE_SCORE : float;
  RAG_DEDUPE_ENABLED : bool;
  RAG_DEDUPE_SIMILARITY : float;
  RAG_DEDUPE_MIN_CHARS : Z;
  GRAPH_OPTED_IN : bool
}.

Definition MAX_IDENTIFIER_TERMS : Z := 8.

Section Search.
Context `{SearchEngine} `{SearchSettings} `{Passages} `{BreakerSettings} `{Questions} `{RankingSettings}.

(** ** What the reader may search *)

Definition may_read (u : user) : bool :=
  existsb (fun scope => has_permission u "article.read" None scope) ["own"; "department"; "company"; "global"].

Definition effective_filters (u : user) (f : filters) (source_scope : string) : filters :=
  let f := if String.eqb source_scope "all" then f
           else match f_source_scope f with None => f <| f_source_scope := Some source_scope |> | Some _ => f end in
  let f := if has_permission u "article.read" None "global" then f
           else f <| f_company_domain := Some (u_company_domain u) |> in
  let f := if has_full_company_article_access u then f
           else f <| f_departments := elements (member_department_names u) |> in
  if has_permission u "article.read" None "company" then f
  else if has_permission u "article.read" None "department" then f <| f_departments := elements (owned_department_names u) |>
  else if has_permission u "article.read" None "own" then f <| f_owner_id := Some (u_id u) |>
  else f.

(** ** The question *)

(** The queries to retrieve with, those to score with, and the identifiers *)
Record question := mkQuestion {
  retrieval_query : pystr;
  subject_queries : list pystr;
  score_variants : list pystr;
  identifiers : list pystr;
  found_aliases : list pystr
}.

Definition reworded (query retrieval_query translated : pystr) (subjects : list pystr) : list pystr * list pystr :=
  let translated_query := if truthy translated then normalize_query translated else [] in
  let '(subjects, variants) :=
    if truthy translated_query && negb (bool_decide (translated_query = retrieval_query))
    then ([retrieval_query; translated_query], [retrieval_query; translated_query]) else (subjects, []) in
  if bool_decide (subjects = []) && MULTI_QUERY_RETRIEVAL_ENABLED then
    match generate_subqueries query with
    | [] => (subjects, variants)
    | generated =>
        let l := List.filter truthy (_dedup_preserve_order (retrieval_query :: map normalize_query generated)) in (l, l)
    end
  else (subjects, variants).

Definition extended (extra : pystr) (item : pystr) : pystr := item ++ $" " ++ extra.

Definition prepare (query : pystr) (apply_aliases : bool) : question :=
  let rq := normalize_query query in
  let idents := usable_identifiers query rq in
  let comparison := comparison_subjects query in
  let subjects := if 1 <? len comparison then List.filter truthy (map normalize_query comparison) else [] in
  let translated := if QUERY_TRANSLATION_ENABLED && bool_decide (subjects = []) then translate_query query else [] in
  let '(subjects, variants) := reworded query rq translated subjects in
  let names := match comparison with [] => _alias_names query translated | _ => [] end in
  if apply_aliases && negb (bool_decide (names = [])) then
    let extra := join $" " names in
    mkQuestion (extended extra rq) (map (extended extra) subjects) (map (extended extra) variants)
      (limited MAX_IDENTIFIER_TERMS (_dedup_preserve_order (idents ++ map lower_text names))) []
  else mkQuestion rq subjects variants idents (if apply_aliases then [] else names).

(** ** Candidates *)

(** What the queries of one search share: the pool, the ids seen, the vector ranks, and whether
    one of them could not be embedded. *)
Record pool := mkPool {
  candidates : list chunk;
  seen_ids : gset uuid;
  vector_ranks : gmap uuid Z;
  vector_search_degraded : bool
}.

Definition empty_pool : pool := mkPool [] ∅ ∅ false.

Definition retrieve (k : corpus) (u : user) (f : filters) (limit : Z) (idents : list pystr) (query : pystr) (p : pool) : pool :=
  let embedding := embed_query query in
  let '(found, ranks) := hybrid_search k query embedding u limit f GRAPH_OPTED_IN idents (vector_ranks p) in
  let '(merged, seen) := _merge_candidates ck_id (candidates p) found (seen_ids p) in
  mkPool merged seen ranks (vector_search_degraded p || bool_decide (embedding = None)).

Definition first_candidates (k : corpus) (u : user) (f : filters) (limit : Z) (q : question) : pool :=
  let degraded := bool_decide (embed_query (retrieval_query q) = None) in
  let p := mkPool [] ∅ ∅ degraded in
  match subject_queries q with
  | [] => retrieve k u f limit (identifiers q) (retrieval_query q) p
  | subjects => fold_left (fun p query => retrieve k u f limit (identifiers q) query p) subjects p
  end.

(** ** Ranking *)

(** [retrieval_score]: what the embedding found counts even when few words are shared. *)
Definition retrieval_score (variant : pystr) (l : list chunk) (idents : list pystr) (ranks : gmap uuid Z) (c : chunk) : float :=
  let score := lexical_score variant l idents c in
  match ranks !! ck_id c with
  | Some rank => if rank <=? RAG_VECTOR_ASSIST_TOP_N then f_max score RAG_VECTOR_ASSIST_SCORE else score
  | None => score
  end.

Definition rerank_chunks_with_scores (variant : pystr) (l : list chunk) (limit : Z) (idents : list pystr) (ranks : gmap uuid Z)
    : list (chunk * float) :=
  limited limit (stable_sort by_score (map (fun c => (c, retrieval_score variant l idents ranks c)) l)).

Definition cross_encoder_enabled (query : pystr) : bool :=
  RERANKER_ENABLED && CROSS_ENCODER_ENABLED && (negb CROSS_ENCODER_ONLY_DEEP_QUERIES || needs_deep_retrieval query).

Definition lexical_ranking (q : question) (enabled : bool) (limit : Z) (ranks : gmap uuid Z) (l : list chunk) : list (chunk * float) :=
  if RERANKER_ENABLED then
    let several := 1 <? len (score_variants q) in
    let keep := if enabled then len l else limit in
    let variants := if several then score_variants q else [retrieval_query q] in
    limited keep (best_score_per_chunk ck_id
      (map (fun v => rerank_chunks_with_scores v l (if several then len l else keep) (identifiers q) ranks) variants))
  else map (fun c => (c, retrieval_score (retrieval_query q) l (identifiers q) ranks c)) (limited limit l).

(** The cross-encoder over the candidates chosen of [result], in its [try ... finally] *)
Definition cross_rank (query : pystr) (ranks : gmap uuid Z) (now : Z) (a : attempt) (result : list (chunk * float)) (b : breaker)
    : outcome (list (chunk * float)) * breaker :=
  let chosen := select_candidates ck_id result ranks CROSS_ENCODER_CANDIDATE_POOL CROSS_ENCODER_VECTOR_CANDIDATES in
  match cross_encoder_score query (omap (fun i => e ← result !! i; Some (e : chunk * float).1) chosen) with
  | Scored scores =>
      let '(a, b) := record_success (Some a) b in
      (promote result chosen scores CROSS_ENCODER_ASSIST_TOP_K RAG_VECTOR_ASSIST_SCORE CROSS_ENCODER_ASSIST_MIN_PROBABILITY, finish now a b)
  | TimedOut => let '(a, b) := record_timeout now (Some a) b in (Return result, finish now a b)
  | Unavailable => (Return result, finish now (Some a) b)
  end.

Definition _rerank (query : pystr) (q : question) (limit : Z) (ranks : gmap uuid Z) (now : Z) (l : list chunk) (b : breaker)
    : outcome (list (chunk * float)) * breaker :=
  let enabled := cross_encoder_enabled query in
  let result := lexical_ranking q enabled limit ranks l in
  let '(a, b) := if enabled && (1 <? len result) then begin now b else (None, b) in
  let '(result, b) := match a with Some a => cross_rank query ranks now a result b | None => (Return result, b) end in
  let kept_after_rerank := Z.max limit (CROSS_ENCODER_CANDIDATE_POOL + CROSS_ENCODER_VECTOR_CANDIDATES) in
  (match result with
   | Return r => Return (if enabled then limited kept_after_rerank r else r)
   | Raise e => Raise e
   end, b).

(** ** The adaptive follow-up *)

(** One more query while the best score is weak, [fuel] times at most *)
Fixpoint follow_up (k : corpus) (u : user) (f : filters) (limit : Z) (query : pystr) (now : Z) (fuel : nat)
    (q : question) (tried : list pystr) (p : pool) (ranked : list (chunk * float)) (b : breaker)
    : outcome (pool * list (chunk * float)) * breaker :=
  match fuel, ranked with
  | S fuel, (_, best) :: _ =>
      if negb (f_ltb best RAG_MIN_CONTEXT_SCORE) then (Return (p, ranked), b)
      else
        let titles := List.filter truthy (omap (fun e : chunk * float => a_title <$> ck_article e.1) (take 5 ranked)) in
        match generate_followup_query query tried titles with
        | None | Some [] => (Return (p, ranked), b)
        | Some followup =>
            let next := normalize_query followup in
            if negb (truthy next) || bool_decide (next ∈ tried) then (Return (p, ranked), b)
            else
              let q := if 1 <? len (score_variants q)
                       then mkQuestion (retrieval_query q) (subject_queries q) (score_variants q ++ [next]) (identifiers q) (found_aliases q)
                       else q in
              let p' := retrieve k u f limit (identifiers q) next p in
              if Nat.eqb (length (candidates p')) (length (candidates p)) then (Return (p', ranked), b)
              else
                match _rerank query q limit (vector_ranks p') now (candidates p') b with
                | (Return ranked, b) => follow_up k u f limit query now fuel q (tried ++ [next]) p' ranked b
                | (Raise e, b) => (Raise e, b)
                end
        end
  | _, _ => (Return (p, ranked), b)
  end.

(** ** The results *)

Record result := mkResult {
  rs_chunk : chunk;
  (** the article as the reader sees it *)
  rs_article : article;
  rs_score : float;
  rs_also_in : list source
}.

Definition result_id (r : result) : uuid := ck_id (rs_chunk r).

Definition shown (u : user) (also : gmap uuid (list source)) (e : chunk * float) : option result :=
  a ← ck_article e.1;
  if can_view_article u a && f_leb RAG_MIN_RELEVANCE_SCORE e.2
  then Some (mkResult e.1 (restrict_article_metadata u a) e.2 (default [] (also !! ck_id e.1))) else None.

Record answer := mkAnswer {
  results : list result;
  degraded : bool;
  duplicates_collapsed : Z;
  aliases : list pystr;
  (** a gap is recorded for the query; the search is logged *)
  gap : bool;
  logged : bool
}.

Definition nothing (gap : bool) : answer := mkAnswer [] false 0 [] gap false.

Definition finish_search (u : user) (limit : Z) (q : question) (p : pool) (ranked : list (chunk * float)) : outcome answer :=
  match (if RAG_DEDUPE_ENABLED then collapse_duplicates ranked RAG_DEDUPE_SIMILARITY RAG_DEDUPE_MIN_CHARS else Return (ranked, ∅)) with
  | Raise e => Raise e
  | Return (kept, also) =>
      let found := omap (shown u also) (limited limit kept) in
      Return (mkAnswer found (vector_search_degraded p) (len ranked - len kept) (found_aliases q) (bool_decide (length found = 0%nat)) true)
  end.

Definition _search_pass (k : corpus) (u : user) (query : pystr) (f : filters) (source_scope : string) (limit : Z)
    (apply_aliases : bool) (now : Z) (b : breaker) : outcome answer * breaker :=
  if negb (truthy (strip query)) || negb (may_read u) then (Return (nothing false), b)
  else
    let f := effective_filters u f source_scope in
    if negb (truthy (normalize_query query)) then (Return (nothing true), b)
    else
      let q := prepare query apply_aliases in
      let p := first_candidates k u f limit q in
      match _rerank query q limit (vector_ranks p) now (candidates p) b with
      | (Raise e, b) => (Raise e, b)
      | (Return ranked, b) =>
          let fuel := if MULTI_QUERY_RETRIEVAL_ENABLED then MULTI_QUERY_MAX_FOLLOWUPS else 0%nat in
          let tried := match subject_queries q with [] => [retrieval_query q] | subjects => subjects end in
          match follow_up k u f limit query now fuel q tried p ranked b with
          | (Raise e, b) => (Raise e, b)
          | (Return (p, ranked), b) => (finish_search u limit q p ranked, b)
          end
      end.

Definition search (k : corpus) (u : user) (query : pystr) (f : filters) (source_scope : string) (limit : Z) (now : Z) (b : breaker)
    : outcome (list result) * breaker :=
  match _search_pass k u query f source_scope limit false now b with
  | (Raise e, b) => (Raise e, b)
  | (Return ordinary, b) =>
      if bool_decide (aliases ordinary = []) then (Return (results ordinary), b)
      else
        match _search_pass k u query f source_scope limit true now b with
        | (Raise e, b) => (Raise e, b)
        | (Return extended, b) =>
            (Return (limited limit (merge_alias_results result_id (results ordinary) (results extended) KEEP_ORDINARY INSERT_EXTENDED)), b)
        end
  end.
End Search.

(** ** From the pool to the results *)

Section SearchFacts.
Context `{SearchEngine} `{SearchSettings} `{Passages} `{BreakerSettings} `{Questions} `{RankingSettings}.
Variables (k : corpus) (u : user) (f : filters).
Implicit Types (b : breaker) (p : pool) (l : list chunk) (r : list (chunk * float)).

Definition visible_chunk (c : chunk) : Prop := c ∈ List.filter (where_clauses (departments k) u f) (chunks k).

Record pool_ok p : Prop := {
  po_visible : forall c, c ∈ candidates p -> visible_chunk c;
  po_once : NoDup (map ck_id (candidates p));
  po_seen : forall c, c ∈ candidates p -> ck_id c ∈ seen_ids p
}.

(** Ranked chunks of what is visible, each once *)
Definition ranking_ok r : Prop := (forall e, e ∈ r -> visible_chunk e.1) /\ NoDup (map cid r).

Lemma retrieve_ok limit idents query p : pool_ok p -> pool_ok (retrieve k u f limit idents query p).
Proof.
  intros [Hv Ho Hs]. unfold retrieve, _merge_candidates.
  destruct (hybrid_visible k query (embed_query query) u limit f GRAPH_OPTED_IN idents (vector_ranks p)) as [_ Hf].
  destruct (hybrid_search _ _ _ _ _ _ _ _ _) as [found ranks]. cbn [fst] in Hf.
  pose proof (unseen_elem ck_id found (seen_ids p)) as Hin. pose proof (unseen_nodup ck_id found (seen_ids p)) as Hn.
  pose proof (unseen_seen ck_id found (seen_ids p)) as Hseen.
  destruct (unseen ck_id (seen_ids p) found) as [new seen]. cbn [fst snd] in *. constructor; cbn [candidates seen_ids].
  - intros c [Hc|[Hc _]%Hin]%elem_of_app; [by apply Hv|by apply Hf].
  - rewrite map_app. apply NoDup_app. split; [done|]. split; [|done].
    intros i (c & -> & Hc)%elem_of_map (c' & He & [_ Hc']%Hin)%elem_of_map. apply Hc'. rewrite <- He. auto.
  - intros c [Hc|[Hc _]%Hin]%elem_of_app; apply Hseen; [left; auto|right]. apply elem_of_map. eauto.
Qed.

Lemma first_candidates_ok limit q : pool_ok (first_candidates k u f limit q).
Proof.
  unfold first_candidates.
  assert (Hempty : forall degraded, pool_ok (mkPool [] ∅ ∅ degraded))
    by (constructor; cbn; [intros ? ?%elem_of_nil; done|constructor|intros ? ?%elem_of_nil; done]).
  destruct (subject_queries q) as [|s ss]; [by apply retrieve_ok|].
  generalize (s :: ss). intros subjects. set (p := mkPool _ _ _ _). assert (Hp : pool_ok p) by apply Hempty. clearbody p.
  revert p Hp. induction subjects as [|x subjects IH]; intros p Hp; cbn; [done|]. by apply IH, retrieve_ok.
Qed.

Lemma limited_nodup {A} (g : A -> uuid) n (l : list A) : NoDup (map g l) -> NoDup (map g (limited n l)).
Proof. intros Hn. unfold limited. rewrite <- firstn_map. eapply sublist_NoDup; [exact Hn|]. apply sublist_take. Qed.

Lemma scored_ok (score : chunk -> float) l : (forall c, c ∈ l -> visible_chunk c) -> NoDup (map ck_id l) ->
  ranking_ok (map (fun c => (c, score c)) l).
Proof.
  intros Hv Hn. split; [intros e (c & -> & Hc)%elem_of_map; auto|]. by rewrite map_map.
Qed.

Lemma limited_ranking n r : ranking_ok r -> ranking_ok (limited n r).
Proof. intros [Hv Hn]. split; [intros e He%limited_elem; auto|by apply limited_nodup]. Qed.

Lemma sorted_ranking leb r : ranking_ok r -> ranking_ok (stable_sort leb r).
Proof.
  intros [Hv Hn]. split; [intros e He%elem_of_stable_sort; auto|].
  by rewrite (Permutation_map cid (stable_sort_perm leb r)).
Qed.

Lemma best_ok sets : (forall r, r ∈ sets -> ranking_ok r) -> ranking_ok (best_score_per_chunk ck_id sets).
Proof.
  intros Hs. assert (Hfold : forall (l acc : list (chunk * float)), (forall e, e ∈ l -> visible_chunk e.1) -> ranking_ok acc ->
      ranking_ok (fold_left (fun best new => upsert ck_id new (better new) best) l acc)).
  { induction l as [|e l IH]; intros acc Hl [Hv Hn]; cbn; [done|]. apply IH; [intros x Hx; apply Hl; by right|]. split.
    - intros x [->|Hx]%upsert_better_elem; [apply Hl; by left|auto].
    - by apply (upsert_better_nodup ck_id). }
  assert (Hc : forall e, e ∈ concat sets -> visible_chunk e.1).
  { intros e (r & Hr & He)%list_elem_of_In%in_concat. apply list_elem_of_In in Hr, He. by apply (Hs r). }
  unfold best_score_per_chunk. destruct sets as [|r [|r' sets]].
  - split; [intros e ?%elem_of_nil; done|constructor].
  - apply Hs. by left.
  - apply sorted_ranking, (Hfold _ []); [done|]. split; [intros e ?%elem_of_nil; done|constructor].
Qed.

Lemma lexical_ranking_ok q enabled limit ranks l : (forall c, c ∈ l -> visible_chunk c) -> NoDup (map ck_id l) ->
  ranking_ok (lexical_ranking q enabled limit ranks l).
Proof.
  intros Hv Hn. unfold lexical_ranking. destruct RERANKER_ENABLED.
  - apply limited_ranking, best_ok. intros r (v & -> & _)%elem_of_map. by apply limited_ranking, sorted_ranking, scored_ok.
  - apply scored_ok; [intros c Hc%limited_elem; auto|by apply limited_nodup].
Qed.

(** Promotion keeps what a ranking is. *)
Lemma promote_ok ranks lexical_n vector_n scores top_k floor min_p r r' : ranking_ok r ->
  promote r (select_candidates ck_id r ranks lexical_n vector_n) scores top_k floor min_p = Return r' -> ranking_ok r'.
Proof.
  intros [Hv Hn] Hr. destruct (candidates_exact ck_id r ranks lexical_n vector_n) as (Hnd & _ & Hlt & _).
  destruct (decide (length scores = length (select_candidates ck_id r ranks lexical_n vector_n))) as [He|He].
  - destruct (promote_runs r _ scores top_k floor min_p Hnd Hlt He) as (head & Hp & _ & Hperm & _). rewrite Hp in Hr. injection Hr as <-.
    split.
    + intros e Hin. assert (Hf : e.1 ∈ map fst r) by (rewrite <- Hperm; apply elem_of_map; eauto).
      apply elem_of_map in Hf as (e' & -> & He'). auto.
    + assert (Hids : forall s : list (chunk * float), map cid s = map ck_id (map fst s)) by (intros s; by rewrite map_map).
      rewrite Hids, (Permutation_map ck_id Hperm), <- Hids. done.
  - unfold promote in Hr. rewrite (proj2 (Nat.eqb_neq _ _)) in Hr by done. done.
Qed.

Lemma rerank_ok query q limit ranks now l b r b' : (forall c, c ∈ l -> visible_chunk c) -> NoDup (map ck_id l) ->
  _rerank query q limit ranks now l b = (Return r, b') -> ranking_ok r.
Proof.
  intros Hv Hn. unfold _rerank. pose proof (lexical_ranking_ok q (cross_encoder_enabled query) limit ranks l Hv Hn) as Hl.
  set (result := lexical_ranking _ _ _ _ _) in *. set (enabled := cross_encoder_enabled query).
  assert (Hcut : forall x, ranking_ok x -> ranking_ok (if enabled then limited (Z.max limit (CROSS_ENCODER_CANDIDATE_POOL + CROSS_ENCODER_VECTOR_CANDIDATES)) x else x))
    by (intros x Hx; destruct enabled; [by apply limited_ranking|done]).
  destruct (if enabled && (1 <? len result) then begin now b else (None, b)) as [[a|] b1]; [|intros [= <- _]; by apply Hcut].
  destruct (cross_rank query ranks now a result b1) as [[x|e] b2] eqn:Hc; [|done]. intros [= <- _]. apply Hcut.
  unfold cross_rank in Hc. destruct (cross_encoder_score _ _) as [scores| |]; cbn in Hc; injection Hc as Hc _; [|by subst..].
  by eapply promote_ok.
Qed.

Lemma follow_up_ok limit query now fuel : forall q tried p r b p' r' b',
  pool_ok p -> ranking_ok r -> follow_up k u f limit query now fuel q tried p r b = (Return (p', r'), b') -> ranking_ok r'.
Proof.
  induction fuel as [|fuel IH]; intros q tried p r b p' r' b' Hp Hr Hf; cbn [follow_up] in Hf; [by simplify_eq|].
  destruct r as [|[c best] r]; [by simplify_eq|]. destruct (negb _) in Hf; [by simplify_eq|].
  destruct (generate_followup_query _ _ _) as [[|x followup]|]; [by simplify_eq| |by simplify_eq].
  destruct (_ || _) in Hf; [by simplify_eq|]. destruct (Nat.eqb _ _); [by simplify_eq|].
  destruct (_rerank _ _ _ _ _ _ b) as [[ranked|e] b1] eqn:Hrr in Hf; [|done].
  assert (Hp' : forall idents next, pool_ok (retrieve k u f limit idents next p)) by (intros; by apply retrieve_ok).
  eapply IH; [| |exact Hf]; [apply Hp'|]. eapply rerank_ok; [| |exact Hrr]; apply Hp'.
Qed.
End SearchFacts.

Section SearchTheorems.
Context `{SearchEngine} `{SearchSettings} `{Passages} `{BreakerSettings} `{Questions} `{RankingSettings}.
Variables (k : corpus) (u : user).
Implicit Types (b : breaker) (p : pool) (l : list chunk) (r : list (chunk * float)).

Lemma omap_shorter {A B} (g : A -> option B) (s : list A) : (length (omap g s) <= length s)%nat.
Proof. induction s as [|x s IH]; cbn; [lia|]. destruct (g x); cbn; lia. Qed.

(** A result a reader may be shown *)
Definition fit_to_show (x : result) : Prop :=
  rs_chunk x ∈ chunks k /\ exists a, ck_article (rs_chunk x) = Some a
    /\ can_view_article u a = true /\ _authorized_article_filters (departments k) u a = true
    /\ a_status a = "published" /\ a_lifecycle_status a = Some "active" /\ a_index_status a = "ready"
    /\ rs_article x = restrict_article_metadata u a /\ f_leb RAG_MIN_RELEVANCE_SCORE (rs_score x) = true.

(** Another document a result names: the row of some retrieved chunk *)
Definition retrieved_source (x : source) : Prop :=
  exists c a, c ∈ chunks k /\ ck_article c = Some a /\ _authorized_article_filters (departments k) u a = true /\ x = _source c a.

Lemma results_fit f (also : gmap uuid (list source)) r : ranking_ok k u f r ->
  (forall e x, e ∈ r -> x ∈ entries_of also e -> retrieved_source x) ->
  NoDup (map result_id (omap (shown u also) r))
  /\ forall x, x ∈ omap (shown u also) r -> fit_to_show x /\ forall s, s ∈ rs_also_in x -> retrieved_source s.
Proof.
  intros [Hv Hn] Halso.
  assert (Hshown : forall e x, shown u also e = Some x -> rs_chunk x = e.1 /\ rs_score x = e.2 /\ rs_also_in x = entries_of also e
      /\ exists a, ck_article e.1 = Some a /\ can_view_article u a = true /\ f_leb RAG_MIN_RELEVANCE_SCORE e.2 = true
                   /\ rs_article x = restrict_article_metadata u a).
  { intros e x (a & Ha & Hx)%bind_Some. destruct (_ && _) eqn:Hc; [|done]. injection Hx as <-. bools. split_and!; try done. by exists a. }
  split.
  - clear Hv Halso. induction r as [|e r IH]; cbn; [constructor|]. cbn [map] in Hn. apply NoDup_cons in Hn as [He Hn].
    destruct (shown u also e) as [x|] eqn:Hx; [|by apply IH]. cbn. constructor; [|by apply IH].
    apply Hshown in Hx as (Hc & _). intros (y & Hy & (e' & He' & Hs)%list_elem_of_omap)%elem_of_map. apply He.
    apply Hshown in Hs as (Hc' & _). apply elem_of_map. exists e'. split; [|done]. unfold result_id in Hy. unfold cid. congruence.
  - intros x (e & He & Hs)%list_elem_of_omap. apply Hshown in Hs as (Hc & Hsc & Hal & a & Ha & Hview & Hle & Hra).
    destruct (visible_row k u f e.1 (Hv e He)) as (Hin & a' & Ha' & Hf & _ & Hst & Hli & Hix).
    rewrite Ha in Ha'. injection Ha' as <-. split; [|intros s; rewrite Hal; by apply Halso].
    split; [by rewrite Hc|]. exists a. rewrite Hc, Hsc. done.
Qed.

Lemma finish_search_fit f limit q p r o : 0 <= limit -> ranking_ok k u f r -> finish_search u limit q p r = Return o ->
  NoDup (map result_id (results o)) /\ len (results o) <= limit
  /\ forall x, x ∈ results o -> fit_to_show x /\ forall s, s ∈ rs_also_in x -> retrieved_source s.
Proof.
  intros Hlim Hr. pose proof Hr as [Hv Hn]. unfold finish_search.
  assert (Hlen : forall also (r : list (chunk * float)), len (omap (shown u also) (limited limit r)) <= limit).
  { intros also r'. unfold len. transitivity (Z.of_nat (length (limited limit r'))); [apply inj_le, omap_shorter|].
    unfold limited. rewrite length_take. lia. }
  destruct RAG_DEDUPE_ENABLED.
  - assert (Hart : forall e, e ∈ r -> ck_article e.1 <> None)
      by (intros e He; destruct (visible_row k u f e.1 (Hv e He)) as (_ & a & Ha & _); congruence).
    destruct (collapse_runs r RAG_DEDUPE_SIMILARITY RAG_DEDUPE_MIN_CHARS Hn Hart) as (s & m & -> & Hok & Hm).
    intros [= <-]. cbn [results].
    assert (Hk : ranking_ok k u f (kept s)) by (split; [intros e He; by apply Hv, (co_from r s Hok)|by apply (co_ids r s Hok)]).
    destruct (results_fit f m (limited limit (kept s))) as [Hnd Hfit]; [by apply limited_ranking| |done].
    intros e x He%limited_elem Hx. destruct (ck_article e.1) as [a|] eqn:Ha; [|by destruct (Hart e); [apply (co_from r s Hok)|]].
    destruct (entries_from r s m e a x Hok He Ha (Hm e a He Ha) Hx) as (_ & e' & b & He' & Hb & ->).
    destruct (visible_row k u f e'.1 (Hv e' He')) as (Hin & b' & Hb' & Hf & _). exists e'.1, b. rewrite Hb in Hb'. injection Hb' as <-. done.
  - intros [= <-]. cbn [results]. destruct (results_fit f ∅ (limited limit r)) as [Hnd Hfit]; [by apply limited_ranking| |done].
    intros e x _ Hx. unfold entries_of in Hx. rewrite lookup_empty in Hx. by apply elem_of_nil in Hx.
Qed.

Lemma search_pass_fit query f source_scope limit apply_aliases now b o b' : 0 <= limit ->
  _search_pass k u query f source_scope limit apply_aliases now b = (Return o, b') ->
  NoDup (map result_id (results o)) /\ len (results o) <= limit
  /\ forall x, x ∈ results o -> fit_to_show x /\ forall s, s ∈ rs_also_in x -> retrieved_source s.
Proof.
  intros Hlim. unfold _search_pass.
  assert (Hnothing : forall gap, NoDup (map result_id (results (nothing gap))) /\ len (results (nothing gap)) <= limit
    /\ forall x, x ∈ results (nothing gap) -> fit_to_show x /\ forall s, s ∈ rs_also_in x -> retrieved_source s)
    by (intros gap; split_and!; [constructor|done|intros x Hx; by apply elem_of_nil in Hx]).
  destruct (_ || _); [by intros [= <- _]|]. destruct (negb _); [by intros [= <- _]|].
  set (f' := effective_filters u f source_scope). set (q := prepare query apply_aliases). set (p := first_candidates k u f' limit q).
  pose proof (first_candidates_ok k u f' limit q) as Hp. fold p in Hp.
  destruct (_rerank _ _ _ _ _ _ b) as [[ranked|e] b1] eqn:Hr; [|done].
  assert (Hranked : ranking_ok k u f' ranked) by (eapply rerank_ok; [| |exact Hr]; apply Hp).
  destruct (follow_up _ _ _ _ _ _ _ _ _ _ _ b1) as [[[p' ranked']|e] b2] eqn:Hf; [|done].
  intros [= Ho _]. apply (finish_search_fit f' limit q p' ranked'); [done| |done]. by eapply follow_up_ok.
Qed.

(** C6. Whatever the question, the models, the reranker and the filters answer, a search shows
    a reader only passages they may view: each result once and at most as many as asked for, its
    article published, active and indexed, viewable for them, with the departments they do not
    belong to hidden, its score over the threshold; and what else it names was retrieved for them. *)
Theorem search_shows_only_viewable query f source_scope limit now b found b' : 0 <= limit ->
  search k u query f source_scope limit now b = (Return found, b') ->
  NoDup (map result_id found) /\ len found <= limit
  /\ forall x, x ∈ found -> fit_to_show x /\ forall s, s ∈ rs_also_in x -> retrieved_source s.
Proof.
  intros Hlim. unfold search. destruct (_search_pass k u query f source_scope limit false now b) as [[o|e] b1] eqn:Hp1; [|done].
  apply search_pass_fit in Hp1 as Hfit1; [|done]. case_bool_decide; [by intros [= <- _]|].
  destruct (_search_pass k u query f source_scope limit true now b1) as [[o2|e] b2] eqn:Hp2; [|done]. intros [= <- _].
  apply search_pass_fit in Hp2 as Hfit2; [|done]. destruct Hfit1 as (Hn1 & _ & Hx1), Hfit2 as (_ & _ & Hx2).
  unfold merge_alias_results. set (l := _ ++ _). split_and!.
  - apply limited_nodup, unseen_nodup.
  - unfold len, limited. rewrite length_take. lia.
  - intros x [Hx _]%limited_elem%unseen_elem. unfold l in Hx. rewrite !elem_of_app in Hx. destruct Hx as [Hx|[Hx|[Hx|Hx]]].
    + apply elem_of_take in Hx as (i & Hi & _). by apply Hx1, (list_elem_of_lookup_2 _ i).
    + apply elem_of_take in Hx as (i & Hi & _). apply list_elem_of_lookup_2, elem_of_filter_b in Hi as [Hi _]. by apply Hx2.
    + apply list_elem_of_lookup in Hx as [i Hi]. rewrite lookup_drop in Hi. by apply Hx1, (list_elem_of_lookup_2 _ (KEEP_ORDINARY + i)).
    + by apply Hx2.
Qed.
End SearchTheorems.

Section SearchAnswers.
Context `{SearchEngine} `{SearchSettings} `{Passages} `{BreakerSettings} `{Questions} `{RankingSettings}.
Variables (k : corpus) (u : user).
Implicit Types (b : breaker) (p : pool) (l : list chunk) (r : list (chunk * float)).

(** The model scores each passage it is given (what [predict] documents). *)
Definition scores_each : Prop :=
  forall query l scores, cross_encoder_score query l = Scored scores -> length scores = length l.

(** A run answers, and a circuit nobody was probing is not left half-open. *)
Definition answers {A} (m : outcome A * breaker) b : Prop :=
  (exists a, m.1 = Return a) /\ (probing b = false -> probing m.2 = false).

Lemma passages_length r (chosen : list nat) : (forall i, i ∈ chosen -> (i < length r)%nat) ->
  length (omap (fun i => e ← r !! i; Some (e : chunk * float).1) chosen) = length chosen.
Proof.
  induction chosen as [|i chosen IH]; intros Hlt; [done|]. cbn.
  destruct (lookup_lt_is_Some_2 r i) as [e He]; [apply Hlt; by left|]. rewrite He. cbn. f_equal. apply IH.
  intros j Hj. apply Hlt. by right.
Qed.

(** However its attempt ends, a call of the cross-encoder is accounted for. *)
Lemma cross_rank_answers query ranks now a r b : scores_each -> recorded a = false ->
  (exists r', (cross_rank query ranks now a r b).1 = Return r')
  /\ (probe a = true \/ probing b = false -> probing (cross_rank query ranks now a r b).2 = false).
Proof.
  intros Hs Hrec. unfold cross_rank. destruct (candidates_exact ck_id r ranks CROSS_ENCODER_CANDIDATE_POOL CROSS_ENCODER_VECTOR_CANDIDATES)
    as (Hnd & _ & Hlt & _).
  destruct (cross_encoder_score _ _) as [scores| |] eqn:Hc; cbn [record_success record_timeout marked mbind option_bind].
  - apply Hs in Hc. rewrite passages_length in Hc by done.
    destruct (promote_runs r _ scores CROSS_ENCODER_ASSIST_TOP_K RAG_VECTOR_ASSIST_SCORE CROSS_ENCODER_ASSIST_MIN_PROBABILITY Hnd Hlt Hc)
      as (head & -> & _). split; [by eexists|]. intros _. unfold finish. cbn. by rewrite orb_true_r.
  - split; [by eexists|]. intros _. unfold finish. cbn. rewrite orb_true_r. by destruct (_ || _).
  - split; [by eexists|]. intros Hp. unfold finish. rewrite Hrec, orb_false_r. destruct (probe a) eqn:Hpa; cbn [negb].
    + by destruct (probing b) eqn:Hpb; cbn [negb].
    + by destruct Hp.
Qed.

Lemma rerank_answers query q limit ranks now l b : scores_each -> answers (_rerank query q limit ranks now l b) b.
Proof.
  intros Hs. unfold _rerank. destruct (_ && _); [|split; [by eexists|done]]. destruct (begin now b) as [[a|] b1] eqn:Hb.
  - assert (Hcase : recorded a = false /\ (probe a = false /\ b1 = b \/ probe a = true /\ probing b1 = true)).
    { unfold begin in Hb. destruct (opened_at b); [destruct (if probing b then _ else _); [done|]|]; injection Hb as <- <-; cbn; auto. }
    destruct Hcase as [Hrec Hcase]. destruct (cross_rank_answers query ranks now a (lexical_ranking q (cross_encoder_enabled query) limit ranks l) b1 Hs)
      as [[r' Hr] Hp]; [done|].
    destruct (cross_rank _ _ _ _ _ b1) as [o b2]. cbn in *. subst o. split; [by eexists|]. cbn. intros Hpb. apply Hp.
    destruct Hcase as [[_ ->]|[? _]]; auto.
  - split; [by eexists|]. cbn. unfold begin in Hb. destruct (opened_at b); [destruct (if probing b then _ else _); [|done]|done].
    by injection Hb as <-.
Qed.

Lemma follow_up_answers f limit query now fuel : scores_each -> forall q tried p r b,
  answers (follow_up k u f limit query now fuel q tried p r b) b.
Proof.
  intros Hs. induction fuel as [|fuel IH]; intros q tried p r b; cbn [follow_up]; [split; [by eexists|done]|].
  destruct r as [|[c best] r]; [split; [by eexists|done]|]. destruct (negb _); [split; [by eexists|done]|].
  destruct (generate_followup_query _ _ _) as [[|x followup]|]; [split; [by eexists|done]| |split; [by eexists|done]].
  destruct (_ || _); [split; [by eexists|done]|]. destruct (Nat.eqb _ _); [split; [by eexists|done]|].
  match goal with |- context [_rerank ?a ?b ?c ?d ?e ?f ?g] => destruct (rerank_answers a b c d e f g Hs) as [[ranked Hr] Hp];
    destruct (_rerank a b c d e f g) as [o b1] end.
  cbn in Hr, Hp. subst o. destruct (IH (if 1 <? len (score_variants q)
                       then mkQuestion (retrieval_query q) (subject_queries q) (score_variants q ++ [normalize_query (x :: followup)]) (identifiers q) (found_aliases q)
                       else q) (tried ++ [normalize_query (x :: followup)]) (retrieve k u f limit (identifiers (if 1 <? len (score_variants q)
                       then mkQuestion (retrieval_query q) (subject_queries q) (score_variants q ++ [normalize_query (x :: followup)]) (identifiers q) (found_aliases q)
                       else q)) (normalize_query (x :: followup)) p) ranked b1) as [He Hq]. split; [done|auto].
Qed.

Lemma finish_search_answers f limit q p r : ranking_ok k u f r -> exists o, finish_search u limit q p r = Return o.
Proof.
  intros [Hv Hn]. unfold finish_search. destruct RAG_DEDUPE_ENABLED; [|by eexists].
  destruct (collapse_runs r RAG_DEDUPE_SIMILARITY RAG_DEDUPE_MIN_CHARS Hn) as (s & m & -> & _); [|by eexists].
  intros e He. destruct (visible_row k u f e.1 (Hv e He)) as (_ & a & Ha & _). congruence.
Qed.

Lemma search_pass_answers query f source_scope limit apply_aliases now b : scores_each ->
  answers (_search_pass k u query f source_scope limit apply_aliases now b) b.
Proof.
  intros Hs. unfold _search_pass. destruct (_ || _); [split; [by eexists|done]|]. destruct (negb _); [split; [by eexists|done]|].
  set (f' := effective_filters u f source_scope). set (q := prepare query apply_aliases). set (p := first_candidates k u f' limit q).
  pose proof (first_candidates_ok k u f' limit q) as Hok. fold p in Hok.
  destruct (rerank_answers query q limit (vector_ranks p) now (candidates p) b Hs) as [[ranked Hr] Hp].
  destruct (_rerank _ _ _ _ _ _ b) as [o b1] eqn:Hrr. cbn in Hr, Hp. subst o.
  assert (Hranked : ranking_ok k u f' ranked) by (eapply rerank_ok; [| |exact Hrr]; apply Hok).
  match goal with |- context [follow_up k u f' limit query now ?fuel q ?tried p ranked b1] =>
    destruct (follow_up_answers f' limit query now fuel Hs q tried p ranked b1) as [[[p' r'] Hf] Hq];
    destruct (follow_up k u f' limit query now fuel q tried p ranked b1) as [o b2] eqn:Hfe end.
  cbn in Hf, Hq. subst o. apply follow_up_ok in Hfe; [|done|done].
  destruct (finish_search_answers f' limit q p' r' Hfe) as [o Ho]. split; [exists o; exact Ho|]. cbn. auto.
Qed.

End SearchAnswers.

(** ** Two departments and one clause *)

#[local] Instance demo_questions : Questions := {|
  normalize_query := fold_passage; usable_identifiers _ _ := []; comparison_subjects _ := []; needs_deep_retrieval _ := false;
  translate_query _ := []; generate_subqueries _ := []; generate_followup_query _ _ _ := None; _alias_names _ _ := [];
  lower_text := fold_passage; embed_query _ := None; lexical_score _ _ _ _ := tenth 9; cross_encoder_score _ _ := Unavailable
|}.
Definition demo_ranking (dedupe : bool) : RankingSettings := {|
  QUERY_TRANSLATION_ENABLED := false; MULTI_QUERY_RETRIEVAL_ENABLED := false; MULTI_QUERY_MAX_FOLLOWUPS := 2;
  RERANKER_ENABLED := true; CROSS_ENCODER_ENABLED := true; CROSS_ENCODER_ONLY_DEEP_QUERIES := false;
  CROSS_ENCODER_CANDIDATE_POOL := 10; CROSS_ENCODER_VECTOR_CANDIDATES := 5; CROSS_ENCODER_ASSIST_TOP_K := 3;
  CROSS_ENCODER_ASSIST_MIN_PROBABILITY := tenth 1; RAG_VECTOR_ASSIST_TOP_N := 5; RAG_VECTOR_ASSIST_SCORE := tenth 3;
  RAG_MIN_CONTEXT_SCORE := tenth 3; RAG_MIN_RELEVANCE_SCORE := tenth 1;
  RAG_DEDUPE_ENABLED := dedupe; RAG_DEDUPE_SIMILARITY := alike; RAG_DEDUPE_MIN_CHARS := 10; GRAPH_OPTED_IN := false
|}.

Definition ask_days (dedupe : bool) (k : corpus) : outcome (list result) :=
  (@search demo_engine demo_search_settings ascii_passages breaker_defaults demo_questions (demo_ranking dedupe)
     k ex_staff $"days" no_filters "all" 5 0 new_breaker).1.

(** Copies are collapsed before permissions are checked: a copy the reader may not view, reviewed
    later, takes the place of the one they may, and the search finds nothing. *)
Example hidden_copy_hides_answer :
  can_view_article ex_staff (ready 10 None ex_article) = true
  /\ can_view_article ex_staff (ready 20 (Some 5) ex_it_article) = false
  /\ ask_days true (one_clause None (Some 5)) = Return []
  /\ exists x, ask_days false (one_clause None (Some 5)) = Return [x] /\ result_id x = 1.
Proof. split_and!; [vm_compute; reflexivity..|]. eexists. split; vm_compute; reflexivity. Qed.

(** The other way round, the result names the document the reader may not view, its title and
    department. *)
Example hidden_copy_is_named :
  exists x, ask_days true (one_clause (Some 5) None) = Return [x] /\ result_id x = 1
    /\ rs_also_in x = [mkSourceEntry 2 20 $"20" $"IT"].
Proof. eexists. split_and!; vm_compute; reflexivity. Qed.

Lemma search_shows_only_viewable_witness :
  exists found b', @search demo_engine demo_search_settings ascii_passages breaker_defaults demo_questions (demo_ranking true)
      (one_clause (Some 5) None) ex_staff $"days" no_filters "all" 5 0 new_breaker = (Return found, b')
    /\ length found = 1%nat /\ NoDup (map result_id found).
Proof.
  destruct (@search demo_engine demo_search_settings ascii_passages breaker_defaults demo_questions (demo_ranking true)
      (one_clause (Some 5) None) ex_staff $"days" no_filters "all" 5 0 new_breaker) as [o b'] eqn:Hs.
  assert (Hlen : match o with Return found => length found = 1%nat | Raise _ => False end)
    by (replace o with (ask_days true (one_clause (Some 5) None)) by (unfold ask_days; by rewrite Hs); vm_compute; reflexivity).
  destruct o as [found|]; [|destruct Hlen]. exists found, b'. split; [reflexivity|]. split; [exact Hlen|].
  eapply (@search_shows_only_viewable demo_engine demo_search_settings ascii_passages breaker_defaults demo_questions (demo_ranking true))
    in Hs as (Hn & _); [exact Hn|lia].
Defined.

