(* ===== verification/Store.v ===== *)
(** * The governance and article tables

    The entities of src/models/governance.py (and the connector rows approval reads), the
    database the article and governance services share, and the row lookups of the
    repositories that have no authorization of their own. *)

From S2P Require Import Prelude PyText Models Rbac.
From Stdlib Require String.
#[local] Open Scope string_scope.
#[local] Open Scope list_scope.
#[local] Open Scope Z_scope.

(** Code outside the repository that the services call: the case mappings of Python and of
    PostgreSQL, and the parsers of [uuid.UUID] and [datetime.fromisoformat] (None where they
    raise ValueError). *)
Class KbEnv := {
  py_lower : pystr -> pystr;
  sql_lower : pystr -> pystr;
  parse_uuid : pystr -> option uuid;
  show_uuid : uuid -> pystr;
  parse_datetime : pystr -> option datetime;
  sha256_hex : pystr -> pystr
}.

(** One such environment, for concrete runs. *)
Definition demo_env : KbEnv :=
  {| py_lower := id; sql_lower := id;
     parse_uuid := fun s => match s with [c] => Some (c - 48) | _ => None end;
     show_uuid := show_int;
     parse_datetime := fun s => Some (len s);
     sha256_hex := id |}.

(** [PendingDraft.content_metadata], by the keys the services read; an absent key (or a
    NULL column) is [None] or the empty list. *)
Record content_metadata := mkMetadata {
  md_type : option string;
  md_dept : option pystr;
  md_sensitivity : option string;
  md_visibility : option string;
  md_explicit_user_ids : list pystr;
  md_denied_user_ids : list pystr;
  md_submission_kind : option string;
  md_suggested_update_article_id : option pystr;
  md_department_ids : list pystr;
  md_department_names : list pystr;
  md_external_id : option pystr;
  md_next_review : option pystr;
  md_domain : option pystr;
  md_language : option string;
  md_source_position : option json
}.

Definition empty_metadata : content_metadata :=
  mkMetadata None None None None [] [] None None [] [] None None None None None.

#[export] Instance eta_metadata : Eta content_metadata := fun m => mkMetadata
  (md_type m) (md_dept m) (md_sensitivity m) (md_visibility m) (md_explicit_user_ids m)
  (md_denied_user_ids m) (md_submission_kind m) (md_suggested_update_article_id m)
  (md_department_ids m) (md_department_names m) (md_external_id m) (md_next_review m)
  (md_domain m) (md_language m) (md_source_position m).

Record pending_draft := mkDraft {
  d_id : uuid;
  d_title : pystr;
  d_company_domain : string;
  d_dept : option pystr;
  d_source_ref : pystr;
  d_source_hash : pystr;
  d_summary : option pystr;
  d_restructured_body_md : option pystr;
  d_restructure_candidate_md : option pystr;
  d_restructure_decision : string;
  d_restructure_status : string;
  d_restructure_model : option pystr;
  d_restructure_error : option pystr;
  d_storage_key : option pystr;
  d_original_filename : option pystr;
  d_mime_type : option pystr;
  d_page_texts : option (list json);
  d_requires_update_confirmation : bool;
  d_update_target_article_id : option uuid;
  d_related_article_ids : option (list pystr);
  d_tags : option (list pystr);
  d_content_metadata : content_metadata;
  d_status : string;
  d_created_by : option uuid;
  d_assigned_approver_id : option uuid;
  d_assigned_by : option uuid;
  d_assigned_at : option datetime;
  d_reviewed_by : option uuid;
  d_reviewed_at : option datetime;
  d_review_note : option pystr;
  d_external_document_id : option uuid;
  d_created_at : datetime
}.

#[export] Instance eta_draft : Eta pending_draft := fun d => mkDraft
  (d_id d) (d_title d) (d_company_domain d) (d_dept d) (d_source_ref d) (d_source_hash d)
  (d_summary d) (d_restructured_body_md d) (d_restructure_candidate_md d)
  (d_restructure_decision d) (d_restructure_status d) (d_restructure_model d)
  (d_restructure_error d) (d_storage_key d) (d_original_filename d)
  (d_mime_type d) (d_page_texts d)
  (d_requires_update_confirmation d) (d_update_target_article_id d) (d_related_article_ids d)
  (d_tags d) (d_content_metadata d) (d_status d) (d_created_by d) (d_assigned_approver_id d)
  (d_assigned_by d) (d_assigned_at d) (d_reviewed_by d) (d_reviewed_at d) (d_review_note d)
  (d_external_document_id d) (d_created_at d).

Record draft_transition := mkTransition {
  tr_draft_id : uuid;
  tr_from_status : option string;
  tr_to_status : string;
  tr_actor_id : option uuid;
  tr_reason : option pystr;
  tr_outcome : string
}.

Record draft_candidate := mkCandidate {
  c_id : uuid;
  c_draft_id : uuid;
  c_position : Z;
  c_title : pystr;
  c_body_md : pystr;
  c_source_start : Z;
  c_source_end : Z;
  c_heading : option pystr;
  c_source_position : option json;
  c_department_ids : option (list pystr);
  c_department_suggestions : option (list json);
  c_proposed_department : option json;
  c_status : string;
  c_review_note : option pystr
}.

#[export] Instance eta_candidate : Eta draft_candidate := fun c => mkCandidate
  (c_id c) (c_draft_id c) (c_position c) (c_title c) (c_body_md c) (c_source_start c)
  (c_source_end c) (c_heading c)
  (c_source_position c) (c_department_ids c) (c_department_suggestions c)
  (c_proposed_department c) (c_status c) (c_review_note c).

Record approver_rule := mkRule {
  ru_company_domain : string;
  ru_dept : pystr;
  ru_approver_id : uuid;
  ru_active : bool
}.

Record ingestion_fingerprint := mkFingerprint {
  fp_company_domain : string;
  fp_source_hash : pystr;
  fp_status : string;
  fp_article_id : option uuid;
  fp_created_by : option uuid
}.

#[export] Instance eta_fingerprint : Eta ingestion_fingerprint := fun f => mkFingerprint
  (fp_company_domain f) (fp_source_hash f) (fp_status f) (fp_article_id f) (fp_created_by f).

Record audit_log := mkAudit {
  al_user_id : option uuid;
  al_action : string;
  al_target_type : string;
  al_target_id : option uuid
}.

Definition pid (o : option uuid) : payload_value :=
  match o with Some u => PId u | None => PNone end.
Definition ptext (o : option pystr) : payload_value :=
  match o with Some s => PText s | None => PNone end.

Record notification := mkNotification {
  nq_recipient_user_id : option uuid;
  nq_type : string;
  nq_payload : list (string * payload_value)
}.

Record snapshot := mkSnapshot {
  sn_title : option pystr;
  sn_body_md : option pystr;
  sn_dept : option pystr;
  sn_domain : option pystr;
  sn_type : option string;
  sn_sensitivity : option string;
  sn_language : option string;
  sn_tags : option (list pystr);
  sn_department_ids : option (list pystr);
  sn_visibility : option string;
  sn_explicit_user_ids : option (list pystr);
  sn_denied_user_ids : option (list pystr);
  sn_external_id : option pystr;
  sn_original_body_md : option pystr;
  sn_restored_from_version : option Z
}.

Record article_version := mkVersion {
  av_article_id : uuid;
  av_version : Z;
  av_snapshot : snapshot;
  av_edited_by : option uuid
}.

(** ** Connectors (src/models/connectors.py, src/models/ops.py) *)

(** How a provider principal was resolved without an administrator. *)
Inductive auto_entry :=
  | ViaCompany (name : pystr)
  | ViaEmail (name : pystr) (user_id : pystr)
  | ViaName (name : pystr) (department_id : uuid).

#[export] Instance auto_entry_eq_dec : EqDecision auto_entry.
Proof. solve_decision. Defined.

(** [metadata_json\["internal_acl_snapshot"\]]: the internal policy before any provider ACL. *)
Record internal_acl := mkInternalAcl {
  ia_visibility : string;
  ia_department_ids : list uuid;
  ia_allow_user_ids : list uuid
}.

(** [metadata_json\["ingest_failure"\]] *)
Record ingest_failure := mkIngestFailure {
  if_revision : pystr;
  if_reason : pystr;
  if_code : option string;
  if_attempts : Z;
  if_at : datetime
}.

(** [ExternalDocument.metadata_json]: the keys the code reads, each absent or present, and
    the provider's own keys. *)
Record external_metadata := mkExternalMetadata {
  k_unmapped_group_ids : option (list pystr);
  k_unmapped_source_user_ids : option (list pystr);
  k_unmapped_principal_ids : option (list pystr);
  k_mapped_department_ids : option (list uuid);
  k_mapped_source_user_ids : option (list pystr);
  k_provider_acl_present : option bool;
  k_sharepoint_acl_present : option bool;
  k_auto_resolved : option (list (pystr * auto_entry));
  k_source_users_without_account : option (list pystr);
  k_internal_acl_snapshot : option internal_acl;
  k_ingest_failure : option ingest_failure;
  k_provider : json
}.

#[export] Instance eta_external_metadata : Eta external_metadata := fun m => mkExternalMetadata
  (k_unmapped_group_ids m) (k_unmapped_source_user_ids m) (k_unmapped_principal_ids m)
  (k_mapped_department_ids m) (k_mapped_source_user_ids m) (k_provider_acl_present m)
  (k_sharepoint_acl_present m) (k_auto_resolved m) (k_source_users_without_account m)
  (k_internal_acl_snapshot m) (k_ingest_failure m) (k_provider m).

Definition no_metadata : external_metadata :=
  mkExternalMetadata None None None None None None None None None None None [].

(** [metadata.get(key, \[\])] *)
Definition em_unmapped_group_ids (m : external_metadata) := default [] (k_unmapped_group_ids m).
Definition em_unmapped_source_user_ids (m : external_metadata) :=
  default [] (k_unmapped_source_user_ids m).
Definition em_unmapped_principal_ids (m : external_metadata) :=
  default [] (k_unmapped_principal_ids m).
Definition em_mapped_department_ids (m : external_metadata) := default [] (k_mapped_department_ids m).
Definition em_mapped_source_user_ids (m : external_metadata) :=
  default [] (k_mapped_source_user_ids m).

Record external_document := mkExternalDocument {
  ed_id : uuid;
  ed_connector_id : uuid;
  ed_scope_id : option uuid;
  ed_article_id : option uuid;
  ed_corpus_id : pystr;
  ed_external_id : pystr;
  ed_parent_external_id : option pystr;
  ed_name : pystr;
  ed_mime_type : option pystr;
  ed_web_url : option pystr;
  ed_revision : option pystr;
  ed_content_hash : option pystr;
  ed_acl_hash : option pystr;
  ed_state : string;
  ed_metadata : external_metadata
}.

#[export] Instance eta_external_document : Eta external_document := fun e =>
  mkExternalDocument (ed_id e) (ed_connector_id e) (ed_scope_id e) (ed_article_id e)
    (ed_corpus_id e) (ed_external_id e) (ed_parent_external_id e) (ed_name e) (ed_mime_type e)
    (ed_web_url e) (ed_revision e) (ed_content_hash e) (ed_acl_hash e) (ed_state e) (ed_metadata e).

(** [Connector], with the keys of [config_json] the synchronisation reads. *)
Record connector := mkConnector {
  cn_id : uuid;
  cn_name : pystr;
  cn_system : string;
  cn_status : string;
  cn_last_sync : option datetime;
  cn_last_error : option pystr;
  cn_company_domain : string;
  cn_created_by : option uuid;
  cn_department_ids : list pystr;
  cn_department_names : list pystr;
  cn_acl_auto_resolve : bool
}.

#[export] Instance eta_connector : Eta connector := fun c => mkConnector
  (cn_id c) (cn_name c) (cn_system c) (cn_status c) (cn_last_sync c) (cn_last_error c)
  (cn_company_domain c) (cn_created_by c) (cn_department_ids c) (cn_department_names c)
  (cn_acl_auto_resolve c).

(** One entry of a provider's access list, as the adapters normalise it. *)
Record principal := mkPrincipal {
  pr_principal_type : option string;
  pr_principal_id : pystr;
  pr_principal_name : option pystr;
  pr_role : option pystr;
  pr_principal_email : option pystr;
  pr_principal_login : option pystr
}.

#[export] Instance principal_eq_dec : EqDecision principal.
Proof. solve_decision. Defined.

Record permission_snapshot := mkPermissionSnapshot {
  ps_id : uuid;
  ps_external_document_id : uuid;
  ps_acl_hash : pystr;
  ps_permissions_json : list principal;
  ps_active : bool
}.

#[export] Instance eta_permission_snapshot : Eta permission_snapshot := fun p =>
  mkPermissionSnapshot (ps_id p) (ps_external_document_id p) (ps_acl_hash p)
    (ps_permissions_json p) (ps_active p).

Record external_acl_principal := mkAclPrincipal {
  xp_permission_snapshot_id : uuid;
  xp_principal_type : string;
  xp_principal_id : pystr;
  xp_principal_name : option pystr;
  xp_role : pystr
}.

Record external_group_mapping := mkGroupMapping {
  gm_connector_id : uuid;
  gm_principal_type : string;
  gm_principal_id : pystr;
  gm_department_id : uuid;
  gm_active : bool
}.

(** [ExternalIdentity] (src/models/user.py) *)
Record external_identity := mkExternalIdentity {
  xi_user_id : uuid;
  xi_provider : string;
  xi_subject : pystr;
  xi_email : option pystr
}.

Record source_scope := mkScope {
  sc_id : uuid;
  sc_connector_id : uuid;
  sc_external_scope_id : pystr;
  sc_display_name : pystr;
  sc_selected : bool
}.

Record sync_cursor := mkCursor {
  cu_connector_id : uuid;
  cu_scope_id : uuid;
  cu_cursor_type : string;
  cu_cursor_value : option pystr;
  cu_last_success_at : option datetime;
  cu_status : string;
  cu_full_sync_required : bool;
  cu_last_reconcile_at : option datetime;
  cu_last_error : option pystr
}.

#[export] Instance eta_cursor : Eta sync_cursor := fun c => mkCursor
  (cu_connector_id c) (cu_scope_id c) (cu_cursor_type c) (cu_cursor_value c)
  (cu_last_success_at c) (cu_status c) (cu_full_sync_required c) (cu_last_reconcile_at c)
  (cu_last_error c).

Record document_version := mkDocumentVersion {
  dv_external_document_id : uuid;
  dv_revision : pystr;
  dv_content_hash : pystr;
  dv_storage_key : option pystr;
  dv_parser_version : string;
  dv_chunker_version : string;
  dv_status : string
}.

(** What [ConnectorJob.summary_json] counts. *)
Record item_entry := mkItem {
  ie_name : pystr;
  ie_action : string;
  ie_scope : pystr;
  ie_web_url : option pystr;
  ie_reason : option pystr
}.

Record scope_entry := mkScopeEntry {
  se_scope_id : uuid;
  se_name : pystr;
  se_changes : Z
}.

Record sync_summary := mkSummary {
  sy_scope_count : Z;
  sy_scopes : list scope_entry;
  sy_changes_seen : Z;
  sy_files_seen : Z;
  sy_imported : Z;
  sy_updated : Z;
  sy_deleted : Z;
  sy_unchanged : Z;
  sy_skipped : Z;
  sy_failed : Z;
  sy_permissions_updated : Z;
  sy_items : list item_entry;
  sy_errors : list item_entry
}.

#[export] Instance eta_summary : Eta sync_summary := fun s => mkSummary
  (sy_scope_count s) (sy_scopes s) (sy_changes_seen s) (sy_files_seen s) (sy_imported s)
  (sy_updated s) (sy_deleted s) (sy_unchanged s) (sy_skipped s) (sy_failed s)
  (sy_permissions_updated s) (sy_items s) (sy_errors s).

Record connector_job := mkJob {
  jb_id : uuid;
  jb_connector_id : uuid;
  jb_requested_by : option uuid;
  jb_status : string;
  jb_attempts : Z;
  jb_last_error : option pystr;
  jb_summary_json : option sync_summary;
  jb_completed_at : option datetime
}.

#[export] Instance eta_job : Eta connector_job := fun j => mkJob
  (jb_id j) (jb_connector_id j) (jb_requested_by j) (jb_status j) (jb_attempts j)
  (jb_last_error j) (jb_summary_json j) (jb_completed_at j).

Record sync_error := mkSyncError {
  sx_connector_id : uuid;
  sx_job_id : uuid;
  sx_external_document_id : option uuid;
  sx_stage : string;
  sx_error_code : option string;
  sx_message : pystr;
  sx_retryable : bool;
  sx_attempts : Z
}.

Record kbdb := mkDb {
  t_users : list user;
  t_departments : list department;
  t_articles : gmap uuid article;
  t_versions : list article_version;
  t_drafts : gmap uuid pending_draft;
  t_transitions : list draft_transition;
  t_candidates : gmap uuid draft_candidate;
  t_rules : list approver_rule;
  t_fingerprints : list ingestion_fingerprint;
  t_audits : list audit_log;
  t_notifications : list notification;
  t_external_documents : gmap uuid external_document;
  t_connectors : gmap uuid connector;
  t_followers : list (uuid * uuid);
  t_snapshots : list permission_snapshot;
  t_acl_principals : list external_acl_principal;
  t_group_mappings : list external_group_mapping;
  t_identities : list external_identity;
  t_scopes : gmap uuid source_scope;
  t_cursors : list sync_cursor;
  t_document_versions : list document_version;
  t_jobs : gmap uuid connector_job;
  t_sync_errors : list sync_error
}.

#[export] Instance eta_kbdb : Eta kbdb := fun d => mkDb
  (t_users d) (t_departments d) (t_articles d) (t_versions d) (t_drafts d) (t_transitions d)
  (t_candidates d) (t_rules d) (t_fingerprints d) (t_audits d) (t_notifications d)
  (t_external_documents d) (t_connectors d) (t_followers d)
  (t_snapshots d) (t_acl_principals d) (t_group_mappings d) (t_identities d) (t_scopes d)
  (t_cursors d) (t_document_versions d) (t_jobs d) (t_sync_errors d).

(** The event bus topics the services publish. *)
Inductive event :=
  | ArticlePublished (article_id : uuid)
  | ArticleUpdated (article_id : uuid)
  | ArticleDeleted (article_id : uuid)
  | PermissionChanged (article_id : uuid)
  | ReviewScheduled (article_id : uuid) (next_review : datetime)
  | ReviewExpired (article_id : uuid).

(** A service call runs in a session over these tables. *)
Abbreviation KB := (M kbdb event).

Definition empty_db : kbdb := mkDb [] [] ∅ [] ∅ [] ∅ [] [] [] [] ∅ ∅ []
  [] [] [] [] ∅ [] [] ∅ [].

(** ** Row writes *)

Definition put_draft (d : pending_draft) : KB unit :=
  write (fun db => db <| t_drafts := <[d_id d := d]> (t_drafts db) |>).
Definition put_article (a : article) : KB unit :=
  write (fun db => db <| t_articles := <[a_id a := a]> (t_articles db) |>).
Definition put_candidate (c : draft_candidate) : KB unit :=
  write (fun db => db <| t_candidates := <[c_id c := c]> (t_candidates db) |>).
Definition add_transition (t : draft_transition) : KB unit :=
  write (fun db => db <| t_transitions := t_transitions db ++ [t] |>).
Definition add_audit (a : audit_log) : KB unit :=
  write (fun db => db <| t_audits := t_audits db ++ [a] |>).
Definition add_notification (n : notification) : KB unit :=
  write (fun db => db <| t_notifications := t_notifications db ++ [n] |>).
Definition add_version (v : article_version) : KB unit :=
  write (fun db => db <| t_versions := t_versions db ++ [v] |>).

(** [GovernanceRepository.log_audit]: add the row and commit. *)
Definition log_audit (user_id : option uuid) (action target_type : string) (target : uuid) : KB unit :=
  add_audit (mkAudit user_id action target_type (Some target)) ;; commit.

(** [GovernanceRepository.update_draft]: add, commit, refresh. *)
Definition update_draft (d : pending_draft) : KB pending_draft :=
  put_draft d ;; commit ;; mret d.

(** ** Identity lookups (src/repositories/user.py) *)

(** The rows [UserRepository._identity_scope(viewer)] lets through. *)
Definition _identity_scope (viewer : option user) (row : user) : bool :=
  match viewer with
  | None => true
  | Some v =>
      if has_permission v "user.read" None "global" || has_permission v "user.manage" None "global"
      then true
      else if negb (has_permission v "user.read" None "company"
                    || has_permission v "user.manage" None "company") then false
      else String.eqb (u_company_domain row) (u_company_domain v)
  end.

Definition get_user_by_id (db : kbdb) (id : uuid) (viewer : option user) : option user :=
  List.find (fun u => Z.eqb (u_id u) id && _identity_scope viewer u) (t_users db).

(** [get_by_ids]: the rows whose id is listed, in table order. *)
Definition get_users_by_ids (db : kbdb) (ids : list uuid) (company : string) : list user :=
  match ids with
  | [] => []
  | _ => List.filter (fun u => existsb (Z.eqb (u_id u)) ids
                               && String.eqb (u_company_domain u) company) (t_users db)
  end.

Definition get_departments_by_ids (db : kbdb) (ids : list uuid) (company : string)
    : list department :=
  List.filter (fun d => existsb (Z.eqb (dp_id d)) ids
                        && (String.eqb company "" || String.eqb (dp_company_domain d) company))
    (t_departments db).

(** ** Departments (src/domain/departments.py) *)

Section Departments.
Context `{KbEnv}.

Definition normalize_department_name (name : option pystr) : option pystr :=
  match strip (default [] name) with [] => None | value => Some value end.

Definition resolve_active_department (company : string) (name : option pystr)
    (required : bool) : KB (option department) :=
  match normalize_department_name name with
  | None =>
      if required then raise (HTTPException 422 "A department is required")
      else mret None
  | Some canonical =>
      row ← query (fun db => List.find (fun d =>
              String.eqb (dp_company_domain d) company && dp_active d
              && bool_decide (sql_lower (dp_name d) = py_lower canonical)) (t_departments db));
      match row with
      | None => raise (HTTPException 422 "Department does not exist or is inactive")
      | Some d => mret (Some d)
      end
  end.

(** The [required=True] overload returns a Department. *)
Definition require_active_department (company : string) (name : option pystr) : KB department :=
  d ← resolve_active_department company name true;
  some_or d AssertionError.

Definition resolve_active_departments (company : string) (department_ids : list uuid)
    (required : bool) : KB (list department) :=
  let unique_ids := dedup department_ids in
  match unique_ids with
  | [] =>
      if required then raise (HTTPException 422 "At least one department is required")
      else mret []
  | _ =>
      rows ← query (fun db => List.filter (fun d => existsb (Z.eqb (dp_id d)) unique_ids
                && String.eqb (dp_company_domain d) company && dp_active d) (t_departments db));
      ensure (Nat.eqb (length rows) (length unique_ids))
        (HTTPException 422 "Every department must be active and belong to the user's company") ;;
      (* [by_id[department_id] for department_id in unique_ids] *)
      mret (omap (fun i => List.find (fun d => Z.eqb (dp_id d) i) rows) unique_ids)
  end.
End Departments.

(** ** Durability of the row writes *)

Section Durability.
Lemma quiet_put_draft d : quiet (put_draft d).
Proof. apply quiet_write. Qed.
Lemma quiet_put_article a : quiet (put_article a).
Proof. apply quiet_write. Qed.
Lemma quiet_put_candidate c : quiet (put_candidate c).
Proof. apply quiet_write. Qed.
Lemma quiet_add_transition t : quiet (add_transition t).
Proof. apply quiet_write. Qed.
Lemma quiet_add_audit a : quiet (add_audit a).
Proof. apply quiet_write. Qed.
Lemma quiet_add_notification n : quiet (add_notification n).
Proof. apply quiet_write. Qed.
Lemma quiet_add_version v : quiet (add_version v).
Proof. apply quiet_write. Qed.

Lemma total_put_draft d : total (put_draft d).
Proof. apply total_write. Qed.
Lemma total_put_article a : total (put_article a).
Proof. apply total_write. Qed.
Lemma total_add_audit a : total (add_audit a).
Proof. apply total_write. Qed.
Lemma total_add_notification n : total (add_notification n).
Proof. apply total_write. Qed.
Lemma total_add_version v : total (add_version v).
Proof. apply total_write. Qed.
Lemma total_log_audit u a t i : total (log_audit u a t i).
Proof. unfold log_audit. eauto using total_add_audit with session. Qed.
Lemma total_update_draft d : total (update_draft d).
Proof. unfold update_draft. eauto using total_put_draft with session. Qed.
End Durability.

#[export] Hint Resolve quiet_put_draft quiet_put_article quiet_put_candidate quiet_add_transition
  quiet_add_audit quiet_add_notification quiet_add_version : session.
#[export] Hint Resolve total_put_draft total_put_article total_add_audit total_add_notification
  total_add_version total_log_audit total_update_draft : session.

Section DepartmentLemmas.
Context `{KbEnv}.

Lemma readonly_resolve_department c n r : readonly (resolve_active_department c n r).
Proof. unfold resolve_active_department. solve_readonly. Qed.
Lemma readonly_require_department c n : readonly (require_active_department c n).
Proof.
  unfold require_active_department. eauto using readonly_resolve_department with session.
Qed.
Lemma readonly_resolve_departments c ids r : readonly (resolve_active_departments c ids r).
Proof. unfold resolve_active_departments. solve_readonly. Qed.

Lemma quiet_resolve_active_department c n r : quiet (resolve_active_department c n r).
Proof. apply readonly_quiet, readonly_resolve_department. Qed.
Lemma quiet_require_active_department c n : quiet (require_active_department c n).
Proof. apply readonly_quiet, readonly_require_department. Qed.
Lemma quiet_resolve_active_departments c ids r : quiet (resolve_active_departments c ids r).
Proof. apply readonly_quiet, readonly_resolve_departments. Qed.

(** A department handed to a handler is an active row of the company asked for. *)
Lemma require_active_department_return c n s d s' :
  require_active_department c n s = (Return d, s') ->
  s' = s /\ d ∈ t_departments (working s) /\ dp_company_domain d = c /\ dp_active d = true.
Proof.
  unfold require_active_department, resolve_active_department.
  intros H1. minv. destruct (normalize_department_name n); [|by minv].
  minv. destruct (List.find _ _) eqn:Hf; minv.
  apply find_some in Hf as [Hin Hf]. bools.
  rewrite list_elem_of_In. split_and!; [done|done|by apply String.eqb_eq|done].
Qed.
End DepartmentLemmas.

#[export] Hint Resolve quiet_resolve_active_department quiet_require_active_department
  quiet_resolve_active_departments readonly_require_department readonly_resolve_departments : session.
