(* ===== verification/Drafts.v ===== *)
(** * The draft review workflow (src/domain/governance.py, src/repositories/governance.py)

    The draft state machine and its transition log, who may load, review, assign, decide
    and list drafts, and the handlers [submit_draft], [assign_approver],
    [eligible_approvers], [decide_restructure] and [reject_draft] of GovernanceService. *)

From S2P Require Import Prelude PyText Models Rbac Store.
From Stdlib Require String.
#[local] Open Scope string_scope.
#[local] Open Scope list_scope.
#[local] Open Scope Z_scope.

(** A PendingDraft has no [departments] and no [owner_id] attribute: [getattr] gives the
    defaults. *)
#[export] Instance draft_resource : IsResource pending_draft := fun d =>
  mkResource (d_company_domain d) [] (d_dept d) None.

Definition PREPARING : list string := ["queued"; "processing"; "deferred"].

(** ** Authority over a draft *)

(** [GovernanceService._may_self_approve] *)
Definition _may_self_approve (u : user) : bool :=
  mem (u_role u) ["Admin"; "CEO"]
  || existsb (fun r => r_active r && mem (r_name r) ["Admin"; "CEO"]
       && match r_company_domain r with
          | None => true
          | Some d => String.eqb d (u_company_domain u)
          end) (u_roles u).

Definition may_publish_own_change (u : user) : bool := _may_self_approve u.
Definition _is_company_governance_lead (u : user) : bool := _may_self_approve u.

Definition _can_approve_draft (u : user) (d : pending_draft) : bool :=
  bool_decide (d_assigned_approver_id d = Some (u_id u)) || _may_self_approve u.

Definition _has_draft_permission (u : user) (key : string) (d : pending_draft) : bool :=
  has_any_scope u key (Some (to_resource d)) ["own"; "department"; "company"; "global"].

Definition _can_review_draft (u : user) (d : pending_draft) : bool :=
  _has_draft_permission u "article.review" d || _has_draft_permission u "article.publish" d.

Definition _can_assign_approver (u : user) (d : pending_draft) : bool := _can_review_draft u d.

Definition _is_global_publisher (u : user) : bool :=
  has_permission u "article.publish" None "global".

(** ** Loading a draft inside the actor's scope: [GovernanceRepository.get_draft_for_user] *)

(** The member departments of the actor and their primary department. *)
Definition actor_departments (u : user) : gset pystr :=
  match u_dept u with
  | Some (c :: s) => {[c :: s]} ∪ member_department_names u
  | _ => member_department_names u
  end.

Definition opt_in (o : option pystr) (names : gset pystr) : bool :=
  match o with Some n => bool_decide (n ∈ names) | None => false end.

Definition draft_in_scope (u : user) (d : pending_draft) : bool :=
  let global_access := has_permission u "governance.read" None "global"
                       || has_permission u "article.publish" None "global" in
  if global_access then true
  else
    let company_wide := mem (u_role u) ["Admin"; "CEO"]
      || existsb (fun r => r_active r && mem (r_name r) ["Admin"; "CEO"]) (u_roles u) in
    String.eqb (d_company_domain d) (u_company_domain u)
    && (company_wide
        || bool_decide (d_assigned_approver_id d = Some (u_id u))
        || bool_decide (d_created_by d = Some (u_id u))
        || opt_in (d_dept d) (actor_departments u)).

Definition _get_draft_for_user (draft_id : uuid) (u : user) : KB (option pending_draft) :=
  query (fun db => match t_drafts db !! draft_id with
                   | Some d => if draft_in_scope u d then Some d else None
                   | None => None
                   end).

(** [get_approver_rule]: the active rule of a company's department. *)
Definition get_approver_rule (db : kbdb) (company : string) (dept : option pystr)
    : option approver_rule :=
  match dept with
  | Some (c :: s) =>
      List.find (fun r => String.eqb (ru_company_domain r) company
                          && bool_decide (ru_dept r = c :: s) && ru_active r) (t_rules db)
  | _ => None
  end.

(** ** The state machine *)

(** The table [allowed] of [_transition_draft]. *)
Definition allowed (from : string) : list string :=
  if String.eqb from "draft" then ["pending"; "rejected"]
  else if String.eqb from "pending" then ["approved"; "rejected"]
  else if String.eqb from "rejected" then ["pending"]
  else [].

(** [reason.strip() if reason and reason.strip() else None] *)
Definition clean_reason (reason : option pystr) : option pystr :=
  match reason with
  | Some r => match strip r with [] => None | s => Some s end
  | None => None
  end.

(** [_transition_draft]: returns the draft with its new status; the caller stores it. *)
Definition _transition_draft (d : pending_draft) (actor : option user) (to_status : string)
    (reason : option pystr) : KB pending_draft :=
  ensure (mem to_status (allowed (d_status d)))
    (HTTPException 409 ("Draft cannot transition from " +:+ d_status d +:+ " to " +:+ to_status)) ;;
  add_transition (mkTransition (d_id d) (Some (d_status d)) to_status (u_id <$> actor)
                    (clean_reason reason) "applied") ;;
  let d' := d <| d_status := to_status |> in
  put_draft d' ;;
  mret d'.

Definition _ensure_preparation_complete (d : pending_draft) : KB unit :=
  ensure (negb (mem (d_restructure_status d) PREPARING))
    (HTTPException 409 "preparation_in_progress").

(** [GovernanceRepository.create_draft]: only a row in status [draft] gets an opening entry. *)
Definition create_draft (d : pending_draft) : KB pending_draft :=
  put_draft d ;;
  (if String.eqb (d_status d) "draft" then
     add_transition (mkTransition (d_id d) None "draft" (d_created_by d)
                       (Some $"Draft created") "applied")
   else mret tt) ;;
  commit ;;
  mret d.

(** ** The review queue *)

(** The keyword arguments [_draft_queue_scope] passes to the repository. *)
Record queue_scope := mkQueueScope {
  qs_company_domain : option string;
  qs_depts : list pystr;
  qs_assigned_approver_id : option uuid
}.

(** Lexicographic order of code points: [str.__le__]. *)
Fixpoint text_leb (a b : pystr) : bool :=
  match a, b with
  | [], _ => true
  | _, [] => false
  | x :: a', y :: b' => (x <? y) || ((x =? y) && text_leb a' b')
  end.

Definition _draft_queue_scope (u : user) : outcome queue_scope :=
  if _is_global_publisher u then Return (mkQueueScope None [] None)
  else if existsb (fun key => has_permission u key None "company")
            ["article.review"; "article.publish"; "governance.read"] then
    if _is_company_governance_lead u
    then Return (mkQueueScope (Some (u_company_domain u)) [] None)
    else Return (mkQueueScope (Some (u_company_domain u))
                   (stable_sort text_leb (elements (actor_departments u))) (Some (u_id u)))
  else Raise (HTTPException 403 "Not authorized to view the approval queue").

Section Queue.
(** The SQL text search over title, source_ref and dept ([ILIKE] over [immutable_unaccent]):
    the pattern built from the stripped term, matched by the database. *)
Variable sql_search : pystr -> pending_draft -> bool.

Definition _draft_scope_filters (status : option string) (sc : queue_scope)
    (search : option pystr) (d : pending_draft) : bool :=
  match strip (default [] search) with [] => true | term => sql_search term d end
  && match status with
     | Some s => String.eqb s "" || String.eqb (d_status d) s
     | None => true
     end
  && match qs_company_domain sc with
     | Some c => String.eqb c "" || String.eqb (d_company_domain d) c
     | None => true
     end
  && match qs_depts sc with
     | [] => true
     | depts => match d_dept d with Some n => bool_decide (n ∈ depts) | None => false end
     end
  && match qs_assigned_approver_id sc with
     | None => true
     | Some a =>
         bool_decide (d_assigned_approver_id d = None)
         || bool_decide (d_assigned_approver_id d = Some a)
         || match qs_depts sc with
            | [] => false
            | depts => match d_dept d with Some n => bool_decide (n ∈ depts) | None => false end
            end
     end.

(** [ORDER BY created_at DESC, id DESC] *)
Definition draft_order (a b : pending_draft) : bool :=
  (d_created_at b <? d_created_at a)
  || ((d_created_at a =? d_created_at b) && (d_id b <=? d_id a)).

Definition DRAFT_PAGE_LIMIT : Z := 500.

Definition matching_drafts (db : kbdb) (status : option string) (sc : queue_scope)
    (search : option pystr) : list pending_draft :=
  List.filter (_draft_scope_filters status sc search) (rows (t_drafts db)).

Definition repo_list_drafts (db : kbdb) (status : option string) (sc : queue_scope)
    (limit : option Z) (offset : Z) (search : option pystr) : list pending_draft :=
  let page_size := default DRAFT_PAGE_LIMIT limit in
  take (Z.to_nat page_size)
    (drop (Z.to_nat (Z.max 0 offset))
       (stable_sort draft_order (matching_drafts db status sc search))).

Definition repo_count_drafts (db : kbdb) (status : option string) (sc : queue_scope)
    (search : option pystr) : Z :=
  len (matching_drafts db status sc search).

Definition list_drafts (u : user) (status : option string) (limit : option Z) (offset : Z)
    (search : option pystr) : KB (list pending_draft) :=
  match _draft_queue_scope u with
  | Raise e => raise e
  | Return sc => query (fun db => repo_list_drafts db status sc limit offset search)
  end.

Definition count_drafts (u : user) (status : option string) (search : option pystr) : KB Z :=
  match _draft_queue_scope u with
  | Raise e => raise e
  | Return sc => query (fun db => repo_count_drafts db status sc search)
  end.
End Queue.

(** ** Handlers *)

(** [reason or default] on an optional text *)
Definition reason_or (reason : option pystr) (d : pystr) : pystr :=
  match reason with Some (c :: s) => c :: s | _ => d end.

Definition load_draft (u : user) (draft_id : uuid) : KB pending_draft :=
  d ← _get_draft_for_user draft_id u;
  some_or d (HTTPException 404 "Draft not found").

(** The approver an active rule designates for a submitted draft, when they may take it. *)
Definition rule_approver (db : kbdb) (u : user) (d : pending_draft) : option user :=
  match get_approver_rule db (d_company_domain d) (d_dept d) with
  | Some rule =>
      if ru_active rule then
        match get_user_by_id db (ru_approver_id rule) (Some u) with
        | Some approver =>
            if u_active approver && String.eqb (u_company_domain approver) (d_company_domain d)
               && _can_review_draft approver d
               && (bool_decide (d_created_by d = None)
                   || negb (bool_decide (d_created_by d = Some (u_id approver)))
                   || _may_self_approve approver)
            then Some approver else None
        | None => None
        end
      else None
  | None => None
  end.

Definition submit_draft (now : datetime) (u : user) (draft_id : uuid) (reason : option pystr)
    : KB pending_draft :=
  draft ← load_draft u draft_id;
  let derived_candidate :=
    bool_decide (md_submission_kind (d_content_metadata draft) = Some "split_candidate") in
  ensure (bool_decide (d_created_by draft = Some (u_id u)) || _is_global_publisher u
          || (derived_candidate && _can_review_draft u draft))
    (HTTPException 403 "Only the draft author or a global publisher can submit this draft") ;;
  ensure (String.eqb (d_status draft) "draft")
    (HTTPException 409 ("Draft cannot be submitted from status: " +:+ d_status draft)) ;;
  draft ← _transition_draft draft (Some u) "pending"
            (Some (reason_or reason $"Submitted for independent approval"));
  approver ← query (fun db => rule_approver db u draft);
  draft ← match approver with
          | Some approver =>
              add_notification (mkNotification (Some (u_id approver)) "in_app"
                [("event", PEvent "draft_assigned_by_rule"); ("draft_id", PId (d_id draft));
                 ("approver_id", PId (u_id approver)); ("assigned_by", PId (u_id u))]) ;;
              add_audit (mkAudit (Some (u_id u)) "assign_approver_rule" "draft" (Some (d_id draft))) ;;
              mret (draft <| d_assigned_approver_id := Some (u_id approver) |>
                          <| d_assigned_by := Some (u_id u) |> <| d_assigned_at := Some now |>)
          | None => mret draft
          end;
  updated ← update_draft draft;
  log_audit (Some (u_id u)) "submit" "draft" (d_id draft) ;;
  mret updated.

(** The company guard most decisions share. *)
Definition ensure_own_company (u : user) (d : pending_draft) : KB unit :=
  ensure (String.eqb (d_company_domain d) (u_company_domain u) || _is_global_publisher u)
    (HTTPException 403 "Draft is outside your company").

(** The approver chosen by the caller or, with [use_rule], by the department's rule. *)
Definition chosen_approver (draft : pending_draft) (approver_id : option uuid) (use_rule : bool)
    : KB uuid :=
  approver_id ←
    (if use_rule then
       rule ← query (fun db => get_approver_rule db (d_company_domain draft) (d_dept draft));
       match rule with
       | Some r => ensure (ru_active r)
                     (HTTPException 404 "No active approver rule exists for this department") ;;
                   mret (Some (ru_approver_id r))
       | None => raise (HTTPException 404 "No active approver rule exists for this department")
       end
     else mret approver_id);
  some_or approver_id (HTTPException 422 "approver_id is required unless use_rule is true").

(** The checks a designated approver must pass. *)
Definition check_approver (u : user) (draft : pending_draft) (approver_id : uuid) : KB user :=
  approver ← query (fun db => get_user_by_id db approver_id (Some u));
  approver ← some_or approver
    (HTTPException 422 "Approver must be an active user in the draft's company");
  ensure (u_active approver && String.eqb (u_company_domain approver) (d_company_domain draft))
    (HTTPException 422 "Approver must be an active user in the draft's company") ;;
  ensure (negb (bool_decide (d_created_by draft = Some (u_id approver)))
          || _may_self_approve approver)
    (HTTPException 422 "A submitter cannot approve their own draft") ;;
  ensure (_can_review_draft approver draft)
    (HTTPException 422 "Selected user does not have approval permission for this draft") ;;
  mret approver.

Definition assign_approver (now : datetime) (u : user) (draft_id : uuid)
    (approver_id : option uuid) (use_rule : bool) (reason : option pystr) : KB pending_draft :=
  draft ← load_draft u draft_id;
  ensure (String.eqb (d_status draft) "pending")
    (HTTPException 409 "Only pending drafts can be assigned") ;;
  ensure_own_company u draft ;;
  ensure (_can_assign_approver u draft)
    (HTTPException 403 "Not authorized to assign approvers for this draft") ;;
  approver_id ← chosen_approver draft approver_id use_rule;
  approver ← check_approver u draft approver_id;
  let previous := d_assigned_approver_id draft in
  ensure (negb (bool_decide (previous = Some (u_id approver))))
    (HTTPException 409 "The selected approver is already assigned") ;;
  updated ← update_draft
    (draft <| d_assigned_approver_id := Some (u_id approver) |>
           <| d_assigned_by := Some (u_id u) |> <| d_assigned_at := Some now |>);
  add_notification (mkNotification (Some (u_id approver)) "in_app"
    [("event", PEvent (match previous with Some _ => "draft_reassigned" | None => "draft_assigned" end));
     ("draft_id", PId draft_id); ("approver_id", PId (u_id approver));
     ("previous_approver_id", pid previous); ("assigned_by", PId (u_id u));
     ("reason", ptext (clean_reason reason))]) ;;
  match previous with
  | Some p =>
      add_notification (mkNotification (Some p) "in_app"
        [("event", PEvent "draft_reassigned_away"); ("draft_id", PId draft_id);
         ("previous_approver_id", PId p); ("approver_id", PId (u_id approver));
         ("assigned_by", PId (u_id u)); ("reason", ptext (clean_reason reason))])
  | None => mret tt
  end ;;
  commit ;;
  log_audit (Some (u_id u))
    (match previous with
     | Some _ => "reassign_approver"
     | None => if use_rule then "assign_approver_rule" else "assign_approver"
     end) "draft" draft_id ;;
  mret updated.

Definition eligible_approvers (u : user) (draft_id : uuid) : KB (list user) :=
  draft ← load_draft u draft_id;
  ensure_own_company u draft ;;
  ensure (_can_assign_approver u draft)
    (HTTPException 403 "Not authorized to assign approvers for this draft") ;;
  (* [list_users(limit=500, viewer=user, company_domain=draft.company_domain, active=True)] *)
  users ← query (fun db => take 500
    (List.filter (fun c => _identity_scope (Some u) c
       && String.eqb (u_company_domain c) (d_company_domain draft) && u_active c) (t_users db)));
  mret (List.filter (fun candidate =>
      (negb (bool_decide (d_created_by draft = Some (u_id candidate)))
       || _may_self_approve candidate)
      && _can_review_draft candidate draft) users).

Section Decide.
(** [content_restructure._fallback_text], a separate text component. *)
Variable _fallback_text : pystr -> pystr.

Definition decide_restructure (u : user) (draft_id : uuid) (decision : string) : KB pending_draft :=
  draft ← load_draft u draft_id;
  ensure (String.eqb (d_status draft) "pending")
    (HTTPException 400 "Only pending drafts can change the reading-view decision") ;;
  ensure_own_company u draft ;;
  ensure (bool_decide (d_assigned_approver_id draft = None)
          || bool_decide (d_assigned_approver_id draft = Some (u_id u)))
    (HTTPException 403 "This draft is assigned to another approver") ;;
  ensure (_can_review_draft u draft)
    (HTTPException 403 "You do not have approval permission for this draft") ;;
  ensure (mem decision ["keep_ai"; "keep_lossless"])
    (HTTPException 422 "Decision must be keep_ai or keep_lossless") ;;
  draft ←
    (if String.eqb decision "keep_ai" then
       ensure (otruthy (d_restructure_candidate_md draft))
         (HTTPException 409 "There is no retained AI candidate to keep") ;;
       mret (draft <| d_restructured_body_md := d_restructure_candidate_md draft |>
                   <| d_restructure_status := "llm_reviewed" |>
                   <| d_restructure_decision := "ai_kept" |>)
     else
       mret (draft <| d_restructured_body_md := Some (_fallback_text
                        (or_text (d_summary draft) (or_text (d_restructured_body_md draft) []))) |>
                   <| d_restructure_status := "fallback_formatting" |>
                   <| d_restructure_decision := "lossless_kept" |>));
  updated ← update_draft draft;
  log_audit (Some (u_id u)) ("restructure_" +:+ decision) "draft" (d_id draft) ;;
  mret updated.
End Decide.

(** [reject_draft] up to and including its commits; deleting the stored source object
    afterwards is best effort and touches no table. *)
Definition reject_draft (now : datetime) (u : user) (draft_id : uuid) (review_note : pystr)
    : KB pending_draft :=
  draft ← load_draft u draft_id;
  ensure (String.eqb (d_status draft) "pending")
    (HTTPException 409 ("Draft cannot be rejected from status: " +:+ d_status draft)) ;;
  _ensure_preparation_complete draft ;;
  ensure_own_company u draft ;;
  ensure (_can_approve_draft u draft)
    (HTTPException 403 "Only the assigned approver or an Admin can reject this draft") ;;
  draft ← _transition_draft draft (Some u) "rejected" (Some review_note);
  let draft := draft <| d_reviewed_by := Some (u_id u) |> <| d_reviewed_at := Some now |>
                     <| d_review_note := Some (strip review_note) |> in
  write (fun db => db <| t_fingerprints :=
    List.filter (fun f => negb (String.eqb (fp_company_domain f) (d_company_domain draft)
                                && bool_decide (fp_source_hash f = d_source_hash draft)))
      (t_fingerprints db) |>) ;;
  add_notification (mkNotification (d_created_by draft) "in_app"
    [("event", PEvent "draft_rejected"); ("draft_id", PId (d_id draft));
     ("created_by", pid (d_created_by draft)); ("reviewer_id", PId (u_id u));
     ("title", PText (d_title draft)); ("review_note", PText (upto 500 (strip review_note)))]) ;;
  updated ← update_draft draft;
  log_audit (Some (u_id u)) "reject" "draft" (d_id draft) ;;
  mret updated.

(** ** Paging *)

(** The [k]-th page of size [n] of a list *)
Definition page {A} (n k : nat) (l : list A) : list A := take n (drop (k * n) l).

Lemma concat_pages {A} (n K : nat) (l : list A) :
  concat (map (fun k => page n k l) (seq 0 K)) = take (K * n) l.
Proof.
  induction K as [|K IH]; [done|].
  rewrite seq_S, map_app, concat_app, IH. cbn. rewrite app_nil_r. unfold page.
  rewrite <- (take_drop (K * n) l) at 3.
  rewrite Nat.add_comm.
  rewrite take_app_ge by (rewrite length_take; lia).
  f_equal. destruct (Nat.le_gt_cases (K * n) (length l)) as [Hle|Hgt].
  - f_equal. rewrite length_take. lia.
  - rewrite (drop_ge l) by lia. by rewrite !take_nil.
Qed.

Lemma text_leb_total a b : text_leb a b = false -> text_leb b a = true.
Proof.
  revert b. induction a as [|x a IH]; intros [|y b]; cbn; try done.
  destruct (Z.ltb_spec x y), (Z.ltb_spec y x), (Z.eqb_spec x y), (Z.eqb_spec y x); cbn; try done; try lia; auto.
Qed.
Lemma text_leb_trans a b c : text_leb a b = true -> text_leb b c = true -> text_leb a c = true.
Proof.
  revert b c. induction a as [|x a IH]; intros [|y b] [|z c]; cbn; try done.
  destruct (Z.ltb_spec x y), (Z.eqb_spec x y), (Z.ltb_spec y z), (Z.eqb_spec y z), (Z.ltb_spec x z), (Z.eqb_spec x z); cbn; try done; try lia; eauto.
Qed.

Lemma draft_order_total a b : draft_order a b = false -> draft_order b a = true.
Proof.
  unfold draft_order. destruct (Z.ltb_spec (d_created_at b) (d_created_at a)),
    (Z.ltb_spec (d_created_at a) (d_created_at b)),
    (Z.eqb_spec (d_created_at a) (d_created_at b)), (Z.eqb_spec (d_created_at b) (d_created_at a)),
    (Z.leb_spec (d_id b) (d_id a)), (Z.leb_spec (d_id a) (d_id b)); cbn; try done; lia.
Qed.

Lemma draft_order_iff a b :
  draft_order a b = true <->
  d_created_at b < d_created_at a \/ (d_created_at a = d_created_at b /\ d_id b <= d_id a).
Proof.
  unfold draft_order. rewrite orb_true_iff, andb_true_iff, Z.ltb_lt, Z.eqb_eq, Z.leb_le. done.
Qed.

Lemma draft_order_trans a b c :
  draft_order a b = true -> draft_order b c = true -> draft_order a c = true.
Proof. rewrite !draft_order_iff. lia. Qed.

(** Every row is stored under its own id. *)
Definition keyed_drafts (db : kbdb) : Prop := keyed d_id (t_drafts db).

Lemma elem_of_matching ss db status sc search d :
  keyed_drafts db ->
  d ∈ matching_drafts ss db status sc search <->
  t_drafts db !! d_id d = Some d /\ _draft_scope_filters ss status sc search d = true.
Proof. intros Hk. unfold matching_drafts. by rewrite elem_of_filter_b, elem_of_rows. Qed.

Lemma matching_ids_nodup ss db status sc search :
  keyed_drafts db -> NoDup (map d_id (matching_drafts ss db status sc search)).
Proof. apply rows_nodup. Qed.

(** The queue is paged exactly: reading consecutive pages of size [n] until they cover
    the reported total yields every draft of the caller's scope once, in one strict total
    order (newest first, ties broken by id), and the total is the number of rows served. *)
Theorem queue_paging_exact (ss : pystr -> pending_draft -> bool) (db : kbdb)
    (status : option string) (sc : queue_scope) (search : option pystr) (n : Z) (K : nat)
    (Hkey : keyed_drafts db) (Hn : 0 < n)
    (HK : repo_count_drafts ss db status sc search <= Z.of_nat K * n) :
  let pages := map (fun k => repo_list_drafts ss db status sc (Some n) (Z.of_nat k * n) search)
                 (seq 0 K) in
  let served := concat pages in
  len served = repo_count_drafts ss db status sc search
  /\ NoDup (map d_id served)
  /\ StronglySorted (fun a b => draft_order a b = true) served
  /\ (forall d, d ∈ served <->
        t_drafts db !! d_id d = Some d /\ _draft_scope_filters ss status sc search d = true).
Proof.
  intros pages served.
  set (l := stable_sort draft_order (matching_drafts ss db status sc search)).
  assert (Hs : served = l).
  { unfold served, pages.
    rewrite (map_ext _ (fun k => page (Z.to_nat n) k l)).
    - rewrite concat_pages. apply take_ge. unfold l. rewrite stable_sort_length.
      unfold repo_count_drafts, len in HK. lia.
    - intros k. unfold repo_list_drafts, page. cbn [default]. do 2 f_equal. lia. }
  rewrite Hs. unfold l. split_and!.
  - unfold len, repo_count_drafts, len. by rewrite stable_sort_length.
  - rewrite stable_sort_perm. by apply matching_ids_nodup.
  - apply stable_sort_sorted; [apply draft_order_total|apply draft_order_trans].
  - intros d. rewrite elem_of_stable_sort. by apply elem_of_matching.
Qed.

(** ** Durability of the handlers *)

Section DraftDurability.
Lemma quiet_load_draft u id : quiet (load_draft u id).
Proof. unfold load_draft, _get_draft_for_user. auto with session. Qed.
Lemma quiet_transition d a t r : quiet (_transition_draft d a t r).
Proof. unfold _transition_draft. eauto with session. Qed.
Lemma quiet_ensure_preparation d : quiet (_ensure_preparation_complete d).
Proof. apply quiet_ensure. Qed.
Lemma quiet_ensure_own_company u d : quiet (ensure_own_company u d).
Proof. apply quiet_ensure. Qed.
Lemma quiet_chosen_approver d a b : quiet (chosen_approver d a b).
Proof.
  unfold chosen_approver. apply quiet_bind; [|auto with session].
  destruct b; [|auto with session]. apply quiet_bind; [auto with session|].
  intros [r|]; eauto with session.
Qed.
Lemma quiet_check_approver u d a : quiet (check_approver u d a).
Proof.
  unfold check_approver. apply quiet_bind; [auto with session|]. intros.
  apply quiet_bind; [auto with session|]. intros. eauto 10 with session.
Qed.
End DraftDurability.

#[export] Hint Resolve quiet_load_draft quiet_transition quiet_ensure_preparation
  quiet_ensure_own_company quiet_chosen_approver quiet_check_approver : session.

Lemma atomic_submit now u id r : atomic (submit_draft now u id r).
Proof. unfold submit_draft. solve_atomic. Qed.
Lemma atomic_assign now u id a b r : atomic (assign_approver now u id a b r).
Proof. unfold assign_approver. solve_atomic. Qed.
Lemma atomic_decide f u id dec : atomic (decide_restructure f u id dec).
Proof. unfold decide_restructure. solve_atomic. Qed.
Lemma atomic_reject now u id note : atomic (reject_draft now u id note).
Proof. unfold reject_draft. solve_atomic. Qed.

(** ** What each step did *)

Lemma load_draft_return u id s d s' :
  load_draft u id s = (Return d, s') ->
  s' = s /\ t_drafts (working s) !! id = Some d /\ draft_in_scope u d = true.
Proof.
  unfold load_draft, _get_draft_for_user. intros H. minv.
  destruct (t_drafts (working s) !! id) as [d0|] eqn:Hd; [|done].
  destruct (draft_in_scope u d0) eqn:Hs; [|done]. by simplify_eq.
Qed.

Lemma load_draft_run u id s d :
  t_drafts (working s) !! id = Some d -> draft_in_scope u d = true ->
  load_draft u id s = (Return d, s).
Proof.
  intros Hd Hs. unfold load_draft, _get_draft_for_user, mbind, M_bind, query.
  by rewrite Hd, Hs.
Qed.

Definition transition_entry (d : pending_draft) (actor : option user) (to : string)
    (reason : option pystr) : draft_transition :=
  mkTransition (d_id d) (Some (d_status d)) to (u_id <$> actor) (clean_reason reason) "applied".

Lemma transition_return d actor to reason s d' s' :
  _transition_draft d actor to reason s = (Return d', s') ->
  mem to (allowed (d_status d)) = true
  /\ d' = d <| d_status := to |>
  /\ s' = Session (committed s)
            ((working s) <| t_transitions := t_transitions (working s)
                            ++ [transition_entry d actor to reason] |>
                       <| t_drafts := <[d_id d := d']> (t_drafts (working s)) |>) (published s).
Proof. unfold _transition_draft, add_transition, put_draft. intros H. by minv. Qed.

(** A session just after a commit. *)
Definition durable (pub : list event) (db : kbdb) : session kbdb event := Session db db pub.

Lemma update_draft_return d s d' s' :
  update_draft d s = (Return d', s') ->
  d' = d /\ s' = durable (published s)
                   ((working s) <| t_drafts := <[d_id d := d]> (t_drafts (working s)) |>).
Proof. unfold update_draft, put_draft. intros H. by minv. Qed.

Lemma log_audit_return u a t i s x s' :
  log_audit u a t i s = (Return x, s') ->
  s' = durable (published s)
         ((working s) <| t_audits := t_audits (working s) ++ [mkAudit u a t (Some i)] |>).
Proof. unfold log_audit, add_audit. intros H. by minv. Qed.

Ltac dinv :=
  repeat (minv; match goal with
  | H : load_draft _ _ _ = (Return _, _) |- _ =>
      apply load_draft_return in H; destruct H as (? & ? & ?); subst
  | H : _transition_draft _ _ _ _ _ = (Return _, _) |- _ =>
      apply transition_return in H; destruct H as (? & ? & ?); subst
  | H : update_draft _ _ = (Return _, _) |- _ =>
      apply update_draft_return in H; destruct H as (? & ?); subst
  | H : log_audit _ _ _ _ _ = (Return _, _) |- _ => apply log_audit_return in H; subst
  | H : _ensure_preparation_complete _ _ = (Return _, _) |- _ => apply ensure_return in H; destruct H; subst
  | H : ensure_own_company _ _ _ = (Return _, _) |- _ => apply ensure_return in H; destruct H; subst
  end); minv.

(** A rejection that returns was made on a pending, fully prepared draft by its assigned
    approver or an Admin/CEO; it durably records the decision in one step: the draft is
    rejected with the reviewer, the time and the stripped note, the transition is appended to
    the log, the ingestion reservation of its source is released, and nothing else about any
    draft, article or version changes. *)
Theorem reject_draft_effect (now : datetime) (u : user) (id : uuid) (note : pystr)
    (s s' : session kbdb event) (r : pending_draft)
    (Hrun : reject_draft now u id note s = (Return r, s')) :
  exists d, t_drafts (working s) !! id = Some d
    /\ d_status d = "pending" /\ (d_restructure_status d ∉ PREPARING)
    /\ (d_assigned_approver_id d = Some (u_id u) \/ _may_self_approve u = true)
    /\ r = (d <| d_status := "rejected" |> <| d_reviewed_by := Some (u_id u) |>
              <| d_reviewed_at := Some now |> <| d_review_note := Some (strip note) |>)
    /\ t_drafts (committed s') = <[d_id d := r]> (t_drafts (working s))
    /\ t_transitions (committed s') = t_transitions (working s)
         ++ [transition_entry d (Some u) "rejected" (Some note)]
    /\ (forall f, f ∈ t_fingerprints (committed s') <-> f ∈ t_fingerprints (working s)
          /\ ~ (fp_company_domain f = d_company_domain d /\ fp_source_hash f = d_source_hash d))
    /\ t_articles (committed s') = t_articles (working s)
    /\ t_versions (committed s') = t_versions (working s)
    /\ published s' = published s.
Proof.
  unfold reject_draft, add_notification in Hrun. dinv.
  bools. eqs. match goal with H : t_drafts _ !! id = Some ?d |- _ => exists d end. cbn.
  split_and!; try done.
  - rewrite <- mem_In. by apply not_true_iff_false.
  - unfold _can_approve_draft in *. repeat match goal with Ho : (_ || _) = true |- _ =>
      apply orb_true_iff in Ho; destruct Ho end; bools; auto.
  - cbn. by rewrite insert_insert_eq.
  - intros f. rewrite elem_of_filter_b, negb_true_iff, andb_false_iff, String.eqb_neq,
      bool_decide_eq_false. destruct (decide (fp_source_hash f = d_source_hash x)),
      (decide (fp_company_domain f = d_company_domain x)); naive_solver.
Qed.

(** What the code demands of whoever a draft is assigned to. *)
Definition suitable_approver (db : kbdb) (d : pending_draft) (ap : user) : Prop :=
  ap ∈ t_users db /\ u_active ap = true /\ u_company_domain ap = d_company_domain d
  /\ _can_review_draft ap d = true
  /\ (d_created_by d = Some (u_id ap) -> _may_self_approve ap = true).

Lemma get_user_by_id_spec db id v u :
  get_user_by_id db id v = Some u -> u ∈ t_users db /\ u_id u = id /\ _identity_scope v u = true.
Proof.
  unfold get_user_by_id. intros [Hin Hf]%find_some. bools. eqs.
  by rewrite list_elem_of_In.
Qed.

Lemma chosen_approver_return d a b s i s' :
  chosen_approver d a b s = (Return i, s') -> s' = s.
Proof.
  unfold chosen_approver. intros H. minv. destruct b; minv; [|done].
  match goal with H : context [get_approver_rule] |- _ => revert H end.
  destruct (get_approver_rule _ _ _); intros; by minv.
Qed.

Lemma check_approver_return u d i s ap s' :
  check_approver u d i s = (Return ap, s') ->
  s' = s /\ suitable_approver (working s) d ap.
Proof.
  unfold check_approver. intros H. minv. split; [done|].
  match goal with Hg : get_user_by_id _ _ _ = Some _ |- _ =>
    apply get_user_by_id_spec in Hg as (Hin & _ & _) end.
  bools. eqs. unfold suitable_approver. split_and!; try done.
  intros Hc. match goal with Ho : (_ || _) = true |- _ =>
    apply orb_true_iff in Ho as [Ho|Ho]; [|done] end.
  bools. done.
Qed.

Lemma rule_approver_suitable db u d ap :
  rule_approver db u d = Some ap -> suitable_approver db d ap.
Proof.
  unfold rule_approver. destruct (get_approver_rule _ _ _) as [rule|]; [|done].
  destruct (ru_active rule); [|done].
  destruct (get_user_by_id _ _ _) as [a|] eqn:Hg; [|done].
  destruct (u_active a && _ && _ && _) eqn:Hc; [|done]. intros [= <-].
  apply get_user_by_id_spec in Hg as (Hin & _ & _). bools. eqs.
  unfold suitable_approver. split_and!; try done. intros Hcr.
  repeat match goal with Ho : (_ || _) = true |- _ => apply orb_true_iff in Ho; destruct Ho end;
    bools; congruence.
Qed.

(** Suitability only reads the author, tenant and department of the draft. *)
Lemma suitable_approver_ext db d d' ap :
  to_resource d = to_resource d' -> d_created_by d = d_created_by d' ->
  suitable_approver db d ap -> suitable_approver db d' ap.
Proof.
  unfold suitable_approver, _can_review_draft, _has_draft_permission.
  intros Hr Hc. rewrite Hr, Hc.
  replace (d_company_domain d') with (d_company_domain d) by (by injection Hr).
  done.
Qed.

(** Separation of duties in assignment: when [assign_approver] returns, the draft was
    pending, the actor may review it, and the draft is now assigned to an active user of its
    company who may review it and who is not its author unless they are an Admin/CEO; the
    status does not change and the previous assignee is someone else. *)
Theorem assign_approver_effect (now : datetime) (u : user) (id : uuid) (who : option uuid)
    (use_rule : bool) (reason : option pystr) (s s' : session kbdb event) (r : pending_draft)
    (Hrun : assign_approver now u id who use_rule reason s = (Return r, s')) :
  exists d ap, t_drafts (working s) !! id = Some d
    /\ d_status d = "pending" /\ _can_review_draft u d = true
    /\ suitable_approver (working s) d ap
    /\ d_assigned_approver_id d <> Some (u_id ap)
    /\ r = (d <| d_assigned_approver_id := Some (u_id ap) |>
              <| d_assigned_by := Some (u_id u) |> <| d_assigned_at := Some now |>)
    /\ t_drafts (committed s') = <[d_id d := r]> (t_drafts (working s))
    /\ t_transitions (committed s') = t_transitions (working s)
    /\ published s' = published s.
Proof.
  unfold assign_approver, add_notification in Hrun. dinv.
  match goal with H : chosen_approver _ _ _ _ = _ |- _ => apply chosen_approver_return in H; subst end.
  match goal with H : check_approver _ _ _ _ = (Return ?a, _) |- _ =>
    apply check_approver_return in H as [-> Hap]; rename a into ap end.
  match goal with H : t_drafts _ !! id = Some ?x |- _ => rename x into d end.
  dinv. bools. eqs. exists d, ap.
  match goal with H : (match _ with Some _ => _ | None => _ end) _ = (Return _, _) |- _ =>
    destruct (d_assigned_approver_id d); minv end; cbn; by split_and!.
Qed.

(** Submission moves a draft from [draft] to [pending] for its author, for a global
    publisher, or (for a split candidate) for a reviewer of it, logs that transition, and
    assigns it only as the department's rule says, to a suitable approver. *)
Theorem submit_draft_effect (now : datetime) (u : user) (id : uuid) (reason : option pystr)
    (s s' : session kbdb event) (r : pending_draft)
    (Hrun : submit_draft now u id reason s = (Return r, s')) :
  exists d, t_drafts (working s) !! id = Some d
    /\ d_status d = "draft" /\ d_status r = "pending"
    /\ (d_created_by d = Some (u_id u) \/ _is_global_publisher u = true
        \/ (md_submission_kind (d_content_metadata d) = Some "split_candidate"
            /\ _can_review_draft u d = true))
    /\ (d_assigned_approver_id r = d_assigned_approver_id d
        \/ exists ap, suitable_approver (working s) d ap
             /\ d_assigned_approver_id r = Some (u_id ap))
    /\ t_drafts (committed s') = <[d_id d := r]> (t_drafts (working s))
    /\ t_transitions (committed s') = t_transitions (working s)
         ++ [transition_entry d (Some u) "pending"
               (Some (reason_or reason $"Submitted for independent approval"))]
    /\ published s' = published s.
Proof.
  unfold submit_draft, add_notification, add_audit in Hrun. dinv.
  match goal with H : t_drafts _ !! id = Some ?x |- _ => rename x into d end.
  bools. eqs. exists d.
  assert (Hauth : d_created_by d = Some (u_id u) \/ _is_global_publisher u = true
        \/ (md_submission_kind (d_content_metadata d) = Some "split_candidate"
            /\ _can_review_draft u d = true)).
  { repeat match goal with Ho : (_ || _) = true |- _ =>
      apply orb_true_iff in Ho; destruct Ho end; bools; auto. }
  match goal with H : (match ?o with Some _ => _ | None => _ end) _ = (Return _, _) |- _ =>
    destruct o as [ap|] eqn:Hap; minv end; cbn; split_and!; try done.
  - right. exists ap. split; [|done].
    apply rule_approver_suitable in Hap.
    by apply (suitable_approver_ext _ _ d) in Hap.
  - by rewrite insert_insert_eq.
  - by left.
  - by rewrite insert_insert_eq.
Qed.

(** ** Where the queue and the draft loader disagree *)

(** A reviewer of a company who is neither a global publisher nor an Admin/CEO. *)
Record ordinary_reviewer (u : user) : Prop := {
  or_review : existsb (fun key => has_permission u key None "company")
                ["article.review"; "article.publish"; "governance.read"] = true;
  or_publisher : _is_global_publisher u = false;
  or_governance : has_permission u "governance.read" None "global" = false;
  or_lead : _may_self_approve u = false;
  or_tenant : forall r, r ∈ u_roles u -> r_company_domain r = Some (u_company_domain u)
}.

Lemma reviewer_scope u : ordinary_reviewer u ->
  _draft_queue_scope u = Return (mkQueueScope (Some (u_company_domain u))
    (stable_sort text_leb (elements (actor_departments u))) (Some (u_id u))).
Proof.
  intros [Hr Hp _ Hl _]. unfold _draft_queue_scope, _is_company_governance_lead.
  by rewrite Hp, Hr, Hl.
Qed.

Lemma reviewer_not_company_wide u : ordinary_reviewer u ->
  mem (u_role u) ["Admin"; "CEO"]
  || existsb (fun r => r_active r && mem (r_name r) ["Admin"; "CEO"]) (u_roles u) = false.
Proof.
  intros [_ _ _ Hl Ht]. unfold _may_self_approve in Hl. apply orb_false_iff in Hl as [-> Hl].
  cbn. rewrite existsb_false in Hl |- *. intros r Hr. specialize (Hl r Hr).
  rewrite (Ht r Hr), String.eqb_refl, andb_true_r in Hl. done.
Qed.

(** A reviewer who belongs to no department is shown every unassigned draft of the
    company, of any department (the empty department list drops the filter), although
    [get_draft_for_user] refuses to load those drafts for them. *)
Theorem queue_open_without_departments (ss : pystr -> pending_draft -> bool) (u : user)
    (d : pending_draft)
    (Hu : ordinary_reviewer u) (Hnone : actor_departments u = ∅)
    (Hdom : u_company_domain u <> "")
    (Htenant : d_company_domain d = u_company_domain u)
    (Hfree : d_assigned_approver_id d = None) (Hother : d_created_by d <> Some (u_id u)) :
  exists sc, _draft_queue_scope u = Return sc
    /\ _draft_scope_filters ss None sc None d = true
    /\ draft_in_scope u d = false.
Proof.
  rewrite (reviewer_scope u Hu), Hnone. eexists. split; [reflexivity|]. split.
  - unfold _draft_scope_filters. cbn. rewrite elements_empty. cbn.
    by rewrite Htenant, String.eqb_refl, orb_true_r, Hfree.
  - unfold draft_in_scope. rewrite (or_governance u Hu).
    pose proof (or_publisher u Hu) as Hp. unfold _is_global_publisher in Hp. rewrite Hp.
    cbn. pose proof (reviewer_not_company_wide u Hu) as Hcw. apply orb_false_iff in Hcw as [-> ->].
    rewrite Hfree, Hnone, bool_decide_eq_false_2, (bool_decide_eq_false_2 _ Hother) by done.
    cbn. unfold opt_in. case_match; [|by rewrite andb_false_r].
    rewrite bool_decide_eq_false_2 by set_solver. by rewrite andb_false_r.
Qed.

(** A pending draft assigned to a reviewer outside their departments is missing from
    that reviewer's own queue, although they may load it and are the one who may approve it. *)
Theorem assigned_draft_missing_from_queue (ss : pystr -> pending_draft -> bool) (u : user)
    (d : pending_draft) (status : option string) (search : option pystr) (n : pystr)
    (Hu : ordinary_reviewer u) (Hsome : actor_departments u <> ∅)
    (Htenant : d_company_domain d = u_company_domain u)
    (Hass : d_assigned_approver_id d = Some (u_id u))
    (Hdept : d_dept d = Some n) (Hout : n ∉ actor_departments u) :
  exists sc, _draft_queue_scope u = Return sc
    /\ _draft_scope_filters ss status sc search d = false
    /\ draft_in_scope u d = true /\ _can_approve_draft u d = true.
Proof.
  rewrite (reviewer_scope u Hu). eexists. split; [reflexivity|]. split_and!.
  - unfold _draft_scope_filters. cbn [qs_depts qs_assigned_approver_id qs_company_domain].
    rewrite Hdept.
    assert (Hn : n ∉ stable_sort text_leb (elements (actor_departments u)))
      by (rewrite elem_of_stable_sort, elem_of_elements; done).
    assert (Hne : stable_sort text_leb (elements (actor_departments u)) <> []).
    { intros Hnil. apply Hsome. apply set_eq. intros x. split; [|set_solver].
      intros Hx. apply elem_of_elements, elem_of_stable_sort with (leb := text_leb) in Hx.
      rewrite Hnil in Hx. set_solver. }
    destruct (stable_sort text_leb (elements (actor_departments u))) as [|x l] eqn:Hl; [done|].
    rewrite (bool_decide_eq_false_2 (n ∈ x :: l)) by done.
    by rewrite !andb_false_r.
  - unfold draft_in_scope. case_match; [done|].
    by rewrite Htenant, String.eqb_refl, Hass, bool_decide_eq_true_2, !orb_true_r by done.
  - unfold _can_approve_draft. by rewrite Hass, bool_decide_eq_true_2.
Qed.

(** ** Concrete inputs *)

Definition sample_dept (id : Z) (name : pystr) : department :=
  mkDepartment id "acme.test" name true true None.
Definition sample_user (id : Z) (role : string) (ds : list department) : user :=
  mkUser id $"u@acme.test" $"U" "acme.test" None role true ds [] [].
Definition sample_draft : pending_draft :=
  mkDraft 1 $"Title" "acme.test" (Some $"HR") $"ref" $"hash" (Some $"sum") (Some $"body") None
    "undecided" "done" None None None None None None false None None None empty_metadata "pending"
    (Some 5) None None None None None None None 100.
Definition sample_db : kbdb :=
  empty_db <| t_users := [sample_user 5 "Staff" []; sample_user 6 "Reviewer" [];
                          sample_user 9 "CEO" []] |>
           <| t_drafts := <[1 := sample_draft]> ∅ |>.

(** The value and the final state of a run, when it returns. *)
Definition returned {A} (o : outcome A * session kbdb event) : option (A * session kbdb event) :=
  match o.1 with Return a => Some (a, o.2) | Raise _ => None end.

Lemma returned_some {A} (o : outcome A * session kbdb event) a s :
  returned o = Some (a, s) -> o = (Return a, s).
Proof. destruct o as [[x|e] s0]; cbn; intros ?; by simplify_eq. Qed.

Lemma returned_is_some {A} (o : outcome A * session kbdb event) :
  is_Some (returned o) -> exists a s, o = (Return a, s).
Proof. intros [[a s] H]. exists a, s. by apply returned_some. Qed.

Lemma queue_paging_exact_witness :
  let ss := fun (_ : pystr) (_ : pending_draft) => true in
  let sc := mkQueueScope None [] None in
  0 < 20 /\ NoDup (map d_id (concat
    (map (fun k => repo_list_drafts ss sample_db None sc (Some 20) (Z.of_nat k * 20) None) (seq 0 1)))).
Proof.
  intros ss sc. split; [lia|].
  apply (queue_paging_exact ss sample_db None sc None 20 1); [|lia|vm_compute; done].
  intros i d Hd. unfold sample_db in Hd. cbn in Hd.
  apply lookup_insert_Some in Hd as [[<- <-]|[_ Hd]]; [done|by apply lookup_empty_Some in Hd].
Defined.

Lemma reject_draft_effect_witness :
  exists s' r, reject_draft 200 (sample_user 9 "CEO" []) 1 $" no " (open_session sample_db)
               = (Return r, s') /\ d_status r = "rejected".
Proof.
  destruct (returned_is_some (reject_draft 200 (sample_user 9 "CEO" []) 1 $" no "
              (open_session sample_db))) as (r & s' & H); [by eexists; vm_compute|].
  exists s', r. split; [exact H|].
  destruct (reject_draft_effect _ _ _ _ _ _ _ H) as (d & _ & _ & _ & _ & -> & _). reflexivity.
Defined.

Lemma assign_approver_effect_witness :
  exists s' r, assign_approver 200 (sample_user 9 "CEO" []) 1 (Some 6) false None
                 (open_session sample_db) = (Return r, s')
    /\ t_transitions (committed s') = [].
Proof.
  destruct (returned_is_some (assign_approver 200 (sample_user 9 "CEO" []) 1 (Some 6) false None
              (open_session sample_db))) as (r & s' & H); [by eexists; vm_compute|].
  exists s', r. split; [exact H|].
  destruct (assign_approver_effect _ _ _ _ _ _ _ _ _ H)
    as (d & ap & _ & _ & _ & _ & _ & _ & _ & Ht & _). rewrite Ht. reflexivity.
Defined.

Definition fresh_db : kbdb :=
  sample_db <| t_drafts := <[1 := (sample_draft <| d_status := "draft" |>)]> ∅ |>.

Lemma submit_draft_effect_witness :
  exists s' r, submit_draft 200 (sample_user 5 "Staff" []) 1 None (open_session fresh_db)
               = (Return r, s') /\ d_status r = "pending".
Proof.
  destruct (returned_is_some (submit_draft 200 (sample_user 5 "Staff" []) 1 None
              (open_session fresh_db))) as (r & s' & H); [by eexists; vm_compute|].
  exists s', r. split; [exact H|].
  destruct (submit_draft_effect _ _ _ _ _ _ _ H) as (d & _ & _ & Hr & _). exact Hr.
Defined.

Lemma sample_reviewer_ordinary ds : ordinary_reviewer (sample_user 6 "Reviewer" ds).
Proof. by constructor; [vm_compute..|intros r Hr%elem_of_nil]. Qed.

Lemma queue_open_without_departments_witness :
  let u := sample_user 6 "Reviewer" [] in
  actor_departments u = ∅ /\ draft_in_scope u sample_draft = false.
Proof.
  intros u. split; [reflexivity|].
  destruct (queue_open_without_departments (fun _ _ => true) u sample_draft) as (sc & _ & _ & H);
    [apply sample_reviewer_ordinary|reflexivity|done|reflexivity|reflexivity|done|exact H].
Defined.

Lemma assigned_draft_missing_from_queue_witness :
  let u := sample_user 6 "Reviewer" [sample_dept 2 $"IT"] in
  let d := sample_draft <| d_assigned_approver_id := Some 6 |> in
  actor_departments u <> ∅ /\ _can_approve_draft u d = true.
Proof.
  intros u d.
  assert (Hd : actor_departments u = {[ $"IT" ]}) by (vm_compute; reflexivity).
  assert (Hne : actor_departments u <> ∅) by (rewrite Hd; set_solver).
  split; [exact Hne|].
  destruct (assigned_draft_missing_from_queue (fun _ _ => true) u d (Some "pending") None $"HR")
    as (sc & _ & _ & _ & H);
    [apply sample_reviewer_ordinary|exact Hne|reflexivity|reflexivity|reflexivity
    |rewrite Hd; by intros Hx%elem_of_singleton|exact H].
Defined.
