(* ===== verification/DraftLog.v ===== *)
(** * The transition log of drafts

    The invariant the workflow keeps: the entries logged for a draft are a path of the state
    machine from the status it was created in to the status it has; and how one logged
    transition, edit or creation keeps it. *)

From S2P Require Import Prelude PyText Models Rbac Permissions Store Drafts.
From Stdlib Require String.
#[local] Open Scope string_scope.
#[local] Open Scope list_scope.
#[local] Open Scope Z_scope.

(** ** The invariant *)

Definition log_of (l : list draft_transition) (id : uuid) : list draft_transition :=
  List.filter (fun t => Z.eqb (tr_draft_id t) id) l.

(** [path a l b]: the entries of [l] lead from status [a] to status [b], each move allowed. *)
Fixpoint path (a : string) (l : list draft_transition) (b : string) : Prop :=
  match l with
  | [] => a = b
  | t :: l' => tr_from_status t = Some a /\ mem (tr_to_status t) (allowed a) = true
               /\ path (tr_to_status t) l' b
  end.

(** The entry that opens the log of a draft created in status [draft]. *)
Definition is_opening (t : draft_transition) : Prop :=
  tr_from_status t = None /\ tr_to_status t = "draft".

(** A log leads to [b]: an opening entry and a path from [draft], or, for a row created in
    another status, a path from that status. *)
Definition leads_to (l : list draft_transition) (b : string) : Prop :=
  (exists t l', l = t :: l' /\ is_opening t /\ path "draft" l' b) \/ exists a, path a l b.

Record log_ok (drafts : gmap uuid pending_draft) (l : list draft_transition) : Prop := {
  lo_keyed : keyed d_id drafts;
  lo_known : forall t, t ∈ l -> is_Some (drafts !! tr_draft_id t);
  lo_path : forall i d, drafts !! i = Some d -> leads_to (log_of l i) (d_status d)
}.

Definition logged (db : kbdb) : Prop := log_ok (t_drafts db) (t_transitions db).

(** ** How one change keeps it *)

Lemma log_of_app l l' i : log_of (l ++ l') i = log_of l i ++ log_of l' i.
Proof. apply List.filter_app. Qed.

Lemma path_app a l t b :
  path a l b -> tr_from_status t = Some b -> mem (tr_to_status t) (allowed b) = true ->
  path a (l ++ [t]) (tr_to_status t).
Proof.
  revert a. induction l as [|x l IH]; intros a; cbn; [intros ->; auto|].
  intros (? & ? & Hp) ? ?. auto.
Qed.

Lemma leads_to_app l t b :
  leads_to l b -> tr_from_status t = Some b -> mem (tr_to_status t) (allowed b) = true ->
  leads_to (l ++ [t]) (tr_to_status t).
Proof.
  intros [(o & l' & -> & Ho & Hp)|[a Hp]] Hf Hm.
  - left. exists o, (l' ++ [t]). split_and!; [done|done|]. by eapply path_app.
  - right. exists a. by eapply path_app.
Qed.

Lemma log_fresh drafts l i : log_ok drafts l -> drafts !! i = None -> log_of l i = [].
Proof.
  intros Hok Hi. unfold log_of. destruct (List.filter _ l) as [|t l'] eqn:Hf; [done|].
  assert (Ht : t ∈ t :: l') by (by left). rewrite <- Hf in Ht.
  apply elem_of_filter_b in Ht as [Ht Hid]. eqs. subst i.
  apply (lo_known _ _ Hok) in Ht as [d Hd]. congruence.
Qed.

(** A logged transition of a stored draft. *)
Lemma log_ok_transition drafts l d r actor to why :
  log_ok drafts l -> drafts !! d_id d = Some d -> mem to (allowed (d_status d)) = true ->
  d_id r = d_id d -> d_status r = to ->
  log_ok (<[d_id d := r]> drafts) (l ++ [transition_entry d actor to why]).
Proof.
  intros [Hk Hn Hp] Hd Hm Hr Hs. constructor.
  - intros i x [[<- <-]|[_ Hx]]%lookup_insert_Some; [done|by apply Hk].
  - intros t Ht. apply lookup_insert_is_Some'. apply elem_of_app in Ht as [Ht|Ht]; [right; auto|].
    apply elem_of_cons in Ht as [->|Ht]; [by left|by apply elem_of_nil in Ht].
  - intros i x Hx. rewrite log_of_app. cbn.
    apply lookup_insert_Some in Hx as [[<- <-]|[Hne Hx]].
    + rewrite Z.eqb_refl, Hs.
      apply (leads_to_app _ (transition_entry d actor to why) (d_status d)); [by apply Hp|done|done].
    + rewrite (proj2 (Z.eqb_neq _ _) Hne), app_nil_r. by apply Hp.
Qed.

(** A change of a stored draft that keeps its status and logs nothing. *)
Lemma log_ok_edit drafts l d r :
  log_ok drafts l -> drafts !! d_id d = Some d -> d_id r = d_id d -> d_status r = d_status d ->
  log_ok (<[d_id d := r]> drafts) l.
Proof.
  intros [Hk Hn Hp] Hd Hr Hs. constructor.
  - intros i x [[<- <-]|[_ Hx]]%lookup_insert_Some; [done|by apply Hk].
  - intros t Ht. apply lookup_insert_is_Some'. right. auto.
  - intros i x [[<- <-]|[_ Hx]]%lookup_insert_Some; [rewrite Hs|]; by apply Hp.
Qed.

(** A new draft, with its opening entry when it starts as [draft]. *)
Definition opening (actor : option uuid) (why : option pystr) (d : pending_draft) : draft_transition :=
  mkTransition (d_id d) None "draft" actor why "applied".

Lemma log_ok_create drafts l d actor why :
  log_ok drafts l -> drafts !! d_id d = None ->
  log_ok (<[d_id d := d]> drafts)
    (l ++ if String.eqb (d_status d) "draft" then [opening actor why d] else []).
Proof.
  intros Hok Hd. pose proof (log_fresh _ _ _ Hok Hd) as Hl. destruct Hok as [Hk Hn Hp]. constructor.
  - intros i x [[<- <-]|[_ Hx]]%lookup_insert_Some; [done|by apply Hk].
  - intros t Ht. apply lookup_insert_is_Some'. apply elem_of_app in Ht as [Ht|Ht]; [right; auto|].
    left. case_match; [|by apply elem_of_nil in Ht].
    by apply elem_of_cons in Ht as [->|Ht%elem_of_nil].
  - intros i x Hx. rewrite log_of_app.
    apply lookup_insert_Some in Hx as [[<- <-]|[Hne Hx]].
    + rewrite Hl. destruct (String.eqb_spec (d_status d) "draft") as [Heq|]; [|right; by exists (d_status d)].
      left. cbn. rewrite Z.eqb_refl, Heq. exists (opening actor why d), []. by split_and!.
    + replace (log_of (if String.eqb _ _ then _ else _) i) with (@nil draft_transition);
        [rewrite app_nil_r; by apply Hp|].
      case_match; [|done]. cbn. by rewrite (proj2 (Z.eqb_neq _ _) Hne).
Qed.

Lemma log_ok_children drafts l actor why (ds : list pending_draft) :
  log_ok drafts l -> NoDup (map d_id ds) ->
  (forall d, d ∈ ds -> drafts !! d_id d = None /\ d_status d = "draft") ->
  log_ok (store_rows d_id ds drafts) (l ++ map (opening actor why) ds).
Proof.
  revert drafts l. induction ds as [|d ds IH]; intros drafts l Hok Hnd Hds; cbn.
  - by rewrite app_nil_r.
  - cbn in Hnd. apply NoDup_cons in Hnd as [Hd Hnd].
    destruct (Hds d ltac:(by left)) as [Hfresh Hst].
    replace (l ++ opening actor why d :: map (opening actor why) ds)
      with ((l ++ [opening actor why d]) ++ map (opening actor why) ds) by (by rewrite <- app_assoc).
    apply IH; [|done|].
    + pose proof (log_ok_create drafts l d actor why Hok Hfresh) as Hc. by rewrite Hst in Hc.
    + intros x Hx. destruct (Hds x ltac:(by right)) as [Hx' Hs]. split; [|done].
      rewrite lookup_insert_ne; [done|]. intros Heq. apply Hd. rewrite Heq. apply elem_of_map. eauto.
Qed.

(** ** The handlers keep it *)

(** What the invariant reads of a database. *)
Definition drafts_and_log (db : kbdb) := (t_drafts db, t_transitions db).

Lemma logged_ext db db' : drafts_and_log db' = drafts_and_log db -> logged db -> logged db'.
Proof. unfold logged, drafts_and_log. intros [= -> ->]. done. Qed.

(** Closes the case of a handler that returned after one logged transition. *)
Ltac close_transition :=
  match goal with
  | Hok : logged (working _), Hd : t_drafts _ !! ?id = Some ?d |- logged _ =>
      pose proof (lo_keyed _ _ Hok _ _ Hd); subst id; unfold logged; cbn;
      rewrite ?insert_insert_eq; apply log_ok_transition; first [done | by destruct d]
  end.

Lemma submit_logged now u id why (s s' : session kbdb event) r :
  submit_draft now u id why s = (Return r, s') -> logged (working s) ->
  logged (working s') /\ committed s' = working s'.
Proof.
  intros Hr Hok. unfold submit_draft, add_notification, add_audit in Hr. dinv.
  match goal with H : (match ?o with Some _ => _ | None => _ end) _ = (Return _, _) |- _ =>
    destruct o; minv end; (split; [close_transition|done]).
Qed.

Lemma preserves_submit now u id why : preserves logged (submit_draft now u id why).
Proof.
  apply preserves_atomic; [apply atomic_submit|]. intros s r s' Hr Hok.
  destruct (submit_logged _ _ _ _ _ _ _ Hr Hok) as [Hl ->]. done.
Qed.
