(* ===== verification/SourceAcl.v ===== *)
(** * Provider access lists (src/domain/acl_auto.py, src/domain/cloud_sync.py)

    A connector document carries its provider's access list. This file models how the
    principals of that list are resolved to departments and accounts ([auto_resolve],
    [_save_permissions]) and how the article built from the document is narrowed with the
    result ([_provider_acl_intersection], [_apply_mapped_groups]). *)

From S2P Require Import Prelude PyText Models Rbac Permissions Store Drafts.
From Stdlib Require String.
#[local] Open Scope string_scope.
#[local] Open Scope list_scope.
#[local] Open Scope Z_scope.

(** Python's Unicode database and one setting: [unicodedata.normalize("NFD", s)] and
    [unicodedata.category(c) == "Mn"]. *)
Class AclEnv := {
  nfd : pystr -> pystr;
  nonspacing : Z -> bool;
  CONNECTOR_ACL_AUTO_RESOLVE : bool
}.

(** ** Resolution without an administrator (src/domain/acl_auto.py) *)

Definition USER_TYPES : list string := ["user"; "siteUser"].
Definition GROUP_TYPES : list string := ["group"; "siteGroup"].
Definition IGNORED_TYPES : list string := ["application"; "device"; "unknown"].
Definition COMPANY_TYPES : list string := ["domain"].
Definition COMPANY_LINKS : list pystr := [$"link:organization"; $"link:anonymous"].

Definition _ROLE_TOKENS : list pystr :=
  [$"members"; $"member"; $"owners"; $"owner"; $"visitors"; $"visitor"; $"thanh"; $"vien";
   $"chu"; $"so"; $"huu"; $"khach"].
Definition _ROLE_PHRASES : list pystr :=
  [$"thanh vien"; $"chu so huu"; $"khach truy cap"; $"nguoi truy cap"].
Definition _DEPARTMENT_WORDS : list pystr :=
  [$"phong"; $"ban"; $"bo"; $"phan"; $"department"; $"dept"; $"team"; $"group"; $"nhom";
   $"division"].

Definition text_in (x : pystr) (l : list pystr) : bool := existsb (fun y => bool_decide (x = y)) l.

(** [tokens.pop()] while the last is a role token *)
Fixpoint drop_roles (reversed : list pystr) : list pystr :=
  match reversed with
  | t :: l => if text_in t _ROLE_TOKENS then drop_roles l else reversed
  | [] => []
  end.

Definition email_local (c : Z) : bool :=
  is_lower c || is_upper c || is_digit c || existsb (Z.eqb c) [46; 95; 37; 43; 39; 45].
Definition email_label (c : Z) : bool := is_lower c || is_upper c || is_digit c || (c =? 45).

(** [(?:\.\[A-Za-z0-9-\]+)*], greedily: the text matched and the rest. *)
Fixpoint email_labels (fuel : nat) (s : pystr) : pystr * pystr :=
  match fuel, s with
  | S k, c :: s' =>
      if c =? 46 then
        match span email_label s' with
        | ([], _) => ([], s)
        | (label, rest) => let '(more, rest') := email_labels k rest in (c :: label ++ more, rest')
        end
      else ([], s)
  | _, _ => ([], s)
  end.

(** A match of [_EMAIL] at the start of [s]. *)
Definition email_at (s : pystr) : option (pystr * pystr) :=
  match span email_local s with
  | ([], _) => None
  | (user, c :: s') =>
      if c =? 64 then
        match span email_label s' with
        | ([], _) => None
        | (label, rest) =>
            match email_labels (length rest) rest with
            | ([], _) => None
            | (more, rest') => Some (user ++ c :: label ++ more, rest')
            end
        end
      else None
  | _ => None
  end.

(** [_EMAIL.finditer(s)] *)
Fixpoint find_emails (fuel : nat) (s : pystr) : list pystr :=
  match fuel, s with
  | S k, c :: s' =>
      match email_at s with
      | Some (m, rest) => m :: find_emails k rest
      | None => find_emails k s'
      end
  | _, _ => []
  end.

(** [str(item.get("principal_type") or "unknown")] *)
Definition principal_kind (item : principal) : string :=
  match pr_principal_type item with Some "" | None => "unknown" | Some t => t end.
Definition type_in (item : principal) (l : list string) : bool :=
  match pr_principal_type item with Some t => mem t l | None => false end.

Definition principal_key (principal_type : string) (principal_id : pystr) : pystr :=
  $principal_type ++ $":" ++ principal_id.

Record auto_resolution := mkResolution {
  ar_users : gmap pystr pystr;
  ar_department_ids : gset uuid;
  ar_resolved : gmap pystr auto_entry;
  ar_without_account : gset pystr;
  ar_ignored : gset pystr
}.

#[export] Instance eta_resolution : Eta auto_resolution := fun r => mkResolution
  (ar_users r) (ar_department_ids r) (ar_resolved r) (ar_without_account r) (ar_ignored r).

Definition no_resolution : auto_resolution := mkResolution ∅ ∅ ∅ ∅ ∅.

(** [AutoResolution.keys()] *)
Definition resolution_keys (r : auto_resolution) : gset pystr := dom (ar_resolved r) ∪ ar_ignored r.

Section AutoResolve.
Context `{KbEnv, AclEnv}.

Definition fold (text : pystr) : pystr :=
  let text := map (fun c => if c =? 273 then 100 else if c =? 272 then 68 else c) text in
  let stripped := List.filter (fun c => negb (nonspacing c)) (nfd text) in
  join $" " (words (map (fun c => if is_lower c || is_digit c then c else 32) (py_lower stripped))).

Definition normalize_group_name (name : pystr) : pystr :=
  let text := fold_left (fun t phrase => replace phrase $" " t) _ROLE_PHRASES (fold name) in
  let tokens := rev (drop_roles (rev (words text))) in
  join $" " (List.filter (fun t => negb (text_in t _DEPARTMENT_WORDS)) tokens).

Definition normalize_acl_department_name (name : pystr) : pystr :=
  join $" " (List.filter (fun t => negb (text_in t _DEPARTMENT_WORDS)) (words (fold name))).

Definition emails_of (item : principal) : list pystr :=
  let texts := [default [] (pr_principal_email item);
                after_last 124 (default [] (pr_principal_login item));
                pr_principal_id item; default [] (pr_principal_name item)] in
  dedup (map py_lower (concat (map (fun raw => find_emails (length raw) raw) texts))).

Definition match_department (group_name : pystr) (departments : list (uuid * pystr)) : option uuid :=
  match normalize_group_name group_name with
  | [] => None
  | wanted =>
      match List.filter (fun d => bool_decide (normalize_acl_department_name d.2 = wanted)) departments with
      | [d] => Some d.1
      | _ => None
      end
  end.

Definition enabled (cn : connector) : bool := CONNECTOR_ACL_AUTO_RESOLVE && cn_acl_auto_resolve cn.

Definition company_departments (db : kbdb) (company : string) : list (uuid * pystr) :=
  map (fun d => (dp_id d, dp_name d))
    (List.filter (fun d => String.eqb (dp_company_domain d) company && dp_active d) (t_departments db)).

(** The active accounts of a company whose address is among [emails], by address. *)
Definition users_by_email (db : kbdb) (company : string) (emails : list pystr) : gmap pystr pystr :=
  fold_left (fun m u => <[sql_lower (u_email u) := show_uuid (u_id u)]> m)
    (List.filter (fun u => text_in (sql_lower (u_email u)) emails
                           && String.eqb (u_company_domain u) company && u_active u) (t_users db)) ∅.

Definition is_company_principal (item : principal) : bool :=
  mem (principal_kind item) COMPANY_TYPES || text_in (pr_principal_id item) COMPANY_LINKS.
Definition is_ignored_principal (item : principal) : bool :=
  mem (principal_kind item) IGNORED_TYPES
  || (String.eqb (principal_kind item) "link" && negb (text_in (pr_principal_id item) COMPANY_LINKS)).

Definition key_of (item : principal) : pystr :=
  principal_key (principal_kind item) (pr_principal_id item).
Definition pname (item : principal) : pystr := default [] (pr_principal_name item).

(** Whole-organisation principals, and ones that grant nothing. *)
Definition resolve_bulk (r : auto_resolution) (item : principal) : auto_resolution :=
  if is_company_principal item
  then r <| ar_resolved := <[key_of item := ViaCompany (pname item)]> (ar_resolved r) |>
  else if is_ignored_principal item then r <| ar_ignored := ar_ignored r ∪ {[key_of item]} |>
  else r.

(** People: the account with the same e-mail. *)
Definition resolve_person (accounts : gmap pystr pystr) (r : auto_resolution) (item : principal)
    : auto_resolution :=
  match omap (fun e => accounts !! e) (emails_of item) with
  | hit :: _ =>
      r <| ar_users := <[pr_principal_id item := hit]> (ar_users r) |>
        <| ar_resolved := <[key_of item := ViaEmail (pname item) hit]> (ar_resolved r) |>
  | [] => r <| ar_without_account := ar_without_account r ∪ {[pr_principal_id item]} |>
  end.

(** Groups: the one department with the same name. *)
Definition resolve_group (departments : list (uuid * pystr)) (r : auto_resolution) (item : principal)
    : auto_resolution :=
  match match_department (pname item) departments with
  | Some target =>
      r <| ar_department_ids := ar_department_ids r ∪ {[target]} |>
        <| ar_resolved := <[key_of item := ViaName (pname item) target]> (ar_resolved r) |>
  | None => r
  end.

Definition auto_resolve (db : kbdb) (cn : connector) (principals : list principal)
    (already_resolved : list (string * pystr)) (matched_users : gmap pystr pystr) : auto_resolution :=
  if negb (enabled cn) then no_resolution else
  let pending := List.filter (fun item => truthy (pr_principal_id item)
       && negb (bool_decide ((principal_kind item, pr_principal_id item) ∈ already_resolved))) principals in
  match pending with
  | [] => no_resolution
  | _ =>
      let company := cn_company_domain cn in
      let wants_company := existsb is_company_principal pending in
      let r := fold_left resolve_bulk pending no_resolution in
      let unmatched := List.filter (fun item => type_in item USER_TYPES
           && bool_decide (matched_users !! pr_principal_id item = None)) pending in
      let accounts := users_by_email db company (concat (map emails_of unmatched)) in
      let r := fold_left (resolve_person accounts) unmatched r in
      let groups := List.filter (fun item => type_in item GROUP_TYPES) pending in
      let departments := company_departments db company in
      let r := fold_left (resolve_group departments) groups r in
      if wants_company
      then r <| ar_department_ids := ar_department_ids r ∪ list_to_set (map fst departments) |>
      else r
  end.
End AutoResolve.

(** ** The fingerprint of an access list *)

Definition hex_digit (n : Z) : Z := if n <? 10 then 48 + n else 87 + n.
Definition hex4 (n : Z) : pystr :=
  map (fun k => hex_digit (Z.land (Z.shiftr n k) 15)) [12; 8; 4; 0].

(** One code point inside a string of [json.dumps] (ensure_ascii). *)
Definition json_escape (c : Z) : pystr :=
  if c =? 34 then [92; 34] else if c =? 92 then [92; 92]
  else if c =? 10 then $"\n" else if c =? 13 then $"\r" else if c =? 9 then $"\t"
  else if c =? 12 then $"\f" else if c =? 8 then $"\b"
  else if (32 <=? c) && (c <=? 126) then [c]
  else if c <? 65536 then $"\u" ++ hex4 c
  else let v := c - 65536 in
       $"\u" ++ hex4 (Z.lor 55296 (Z.shiftr v 10)) ++ $"\u" ++ hex4 (Z.lor 56320 (Z.land v 1023)).

Definition json_string (s : pystr) : pystr := [34] ++ concat (map json_escape s) ++ [34].

(** [json.dumps(item, sort_keys=True)]: the keys the entry has, in order. *)
Definition dump_principal (p : principal) : pystr :=
  let field (k : string) (v : option pystr) :=
    match v with Some x => [json_string ($k) ++ $": " ++ json_string x] | None => [] end in
  $"{" ++ join $", "
    (field "principal_email" (pr_principal_email p) ++ field "principal_id" (Some (pr_principal_id p))
     ++ field "principal_login" (pr_principal_login p) ++ field "principal_name" (pr_principal_name p)
     ++ field "principal_type" (ps <$> pr_principal_type p) ++ field "role" (pr_role p)) ++ $"}".

Definition principal_leb (a b : principal) : bool :=
  let ta := $(default "" (pr_principal_type a)) in
  let tb := $(default "" (pr_principal_type b)) in
  if bool_decide (ta = tb) then text_leb (pr_principal_id a) (pr_principal_id b) else text_leb ta tb.

Definition dump_principals (l : list principal) : pystr :=
  $"[" ++ join $", " (map dump_principal (stable_sort principal_leb l)) ++ $"]".

(** ** The access list of a document *)

Definition put_document (d : external_document) : KB unit :=
  write (fun db => db <| t_external_documents := <[ed_id d := d]> (t_external_documents db) |>).

(** [identity_provider(system)], [cursor_type(system)] (src/domain/connector_providers.py) *)
Definition is_microsoft_graph (system : string) : bool := mem system MICROSOFT_GRAPH_PROVIDERS.
Definition identity_provider (system : string) : string :=
  if is_microsoft_graph system then "microsoft_entra" else system.
Definition cursor_type (system : string) : string :=
  if is_microsoft_graph system then "delta" else "changes".

Definition sort_ids (s : gset uuid) : list uuid := stable_sort Z.leb (elements s).
Definition sort_texts (l : list pystr) : list pystr := stable_sort text_leb l.

(** The mappings of a connector to departments of its company, for the principals given. *)
Definition mappings_for (db : kbdb) (cn : connector) (ids : list pystr) : list external_group_mapping :=
  List.filter (fun m => Z.eqb (gm_connector_id m) (cn_id cn) && gm_active m
       && text_in (gm_principal_id m) ids
       && existsb (fun d => Z.eqb (dp_id d) (gm_department_id m)
                            && String.eqb (dp_company_domain d) (cn_company_domain cn)) (t_departments db))
    (t_group_mappings db).

Section SavePermissions.
Context `{KbEnv, AclEnv}.

Definition _acl_hash (permissions : list principal) : pystr := sha256_hex (dump_principals permissions).

(** The identities and accounts the provider's users resolve to, by subject and address. *)
Definition matched_users (db : kbdb) (cn : connector) (user_ids : list pystr) : gmap pystr pystr :=
  match user_ids with
  | [] => ∅
  | _ =>
      let lowered := map py_lower user_ids in
      let identities := List.filter (fun x =>
           String.eqb (xi_provider x) (identity_provider (cn_system cn))
           && (text_in (xi_subject x) user_ids
               || match xi_email x with Some e => text_in (sql_lower e) lowered | None => false end)
           && existsb (fun u => Z.eqb (u_id u) (xi_user_id x)
                        && String.eqb (u_company_domain u) (cn_company_domain cn) && u_active u) (t_users db))
         (t_identities db) in
      let m := fold_left (fun m x => <[xi_subject x := show_uuid (xi_user_id x)]> m) identities ∅ in
      let m := fold_left (fun m x => match xi_email x with
                                     | Some (c :: s) => <[py_lower (c :: s) := show_uuid (xi_user_id x)]> m
                                     | _ => m end) identities m in
      if String.eqb (cn_system cn) "google_drive"
      then fold_left (fun m u => <[py_lower (u_email u) := show_uuid (u_id u)]> m)
             (List.filter (fun u => text_in (sql_lower (u_email u)) lowered
                  && String.eqb (u_company_domain u) (cn_company_domain cn) && u_active u) (t_users db)) m
      else m
  end.

(** [document.metadata_json] after an access list has been resolved. *)
Definition resolved_metadata (db : kbdb) (cn : connector) (permissions : list principal)
    (previous : external_metadata) : external_metadata :=
  let observed := dedup (map (fun p => (principal_kind p, pr_principal_id p))
                           (List.filter (fun p => truthy (pr_principal_id p)) permissions)) in
  let mappings := mappings_for db cn (map snd observed) in
  let mapped (t : string) (i : pystr) := existsb (fun m => String.eqb (gm_principal_type m) t
                                                   && bool_decide (gm_principal_id m = i)) mappings in
  let user_ids := dedup (map pr_principal_id
       (List.filter (fun p => type_in p USER_TYPES && truthy (pr_principal_id p)) permissions)) in
  let users := matched_users db cn user_ids in
  let known (i : pystr) := bool_decide (is_Some (users !! i)) in
  let already := map (fun m => (gm_principal_type m, gm_principal_id m)) mappings
       ++ map (fun p => (principal_kind p, pr_principal_id p))
            (List.filter (fun p => type_in p USER_TYPES && truthy (pr_principal_id p)
               && (known (pr_principal_id p) || known (py_lower (pr_principal_id p)))) permissions) in
  let auto := auto_resolve db cn permissions already users in
  let users := ar_users auto ∪ users in
  let keep (f : string -> pystr -> bool) := List.filter (fun o : string * pystr => f o.1 o.2) observed in
  let resolved (t : string) (i : pystr) := bool_decide (principal_key t i ∈ dom (ar_resolved auto)) in
  {| k_mapped_department_ids :=
       Some (sort_ids (list_to_set (map gm_department_id mappings) ∪ ar_department_ids auto));
     k_unmapped_group_ids := Some (sort_texts (map snd (keep (fun t i =>
       mem t GROUP_TYPES && negb (mapped t i) && negb (resolved t i)))));
     k_mapped_source_user_ids := Some (sort_texts (omap (fun i => users !! i) user_ids));
     k_unmapped_source_user_ids := Some (sort_texts (map snd (keep (fun t i =>
       mem t USER_TYPES && bool_decide (users !! i = None)
       && negb (bool_decide (i ∈ ar_without_account auto)) && negb (mapped t i)))));
     k_unmapped_principal_ids := Some (sort_texts (map (fun o => principal_key o.1 o.2) (keep (fun t i =>
       negb (mem t (GROUP_TYPES ++ USER_TYPES)) && negb (mapped t i)
       && negb (bool_decide (principal_key t i ∈ resolution_keys auto))))));
     k_auto_resolved := Some (take 100 (stable_sort (fun a b => text_leb a.1 b.1)
                                          (map_to_list (ar_resolved auto))));
     k_source_users_without_account := Some (take 200 (sort_texts (elements (ar_without_account auto))));
     k_provider_acl_present := Some true;
     k_sharepoint_acl_present :=
       if String.eqb (cn_system cn) "sharepoint" then Some true else k_sharepoint_acl_present previous;
     k_internal_acl_snapshot := k_internal_acl_snapshot previous;
     k_ingest_failure := k_ingest_failure previous;
     k_provider := k_provider previous |}.

(** [any(previous.get(key) != next.get(key) for key in ...)] *)
Definition mapping_changed (a b : external_metadata) : bool :=
  negb (bool_decide (k_sharepoint_acl_present a = k_sharepoint_acl_present b)
    && bool_decide (k_provider_acl_present a = k_provider_acl_present b)
    && bool_decide (k_mapped_department_ids a = k_mapped_department_ids b)
    && bool_decide (k_unmapped_group_ids a = k_unmapped_group_ids b)
    && bool_decide (k_mapped_source_user_ids a = k_mapped_source_user_ids b)
    && bool_decide (k_unmapped_source_user_ids a = k_unmapped_source_user_ids b)
    && bool_decide (k_unmapped_principal_ids a = k_unmapped_principal_ids b)
    && bool_decide (k_auto_resolved a = k_auto_resolved b)
    && bool_decide (k_source_users_without_account a = k_source_users_without_account b)).

(** The rows of [permission_snapshots] once the list with hash [h] is the active one of a
    document; a list not seen before gets the row [snapshot_id]. *)
Definition activate_snapshot (snapshot_id document_id : uuid) (h : pystr) (permissions : list principal)
    (l : list permission_snapshot) : list permission_snapshot :=
  let of_document (p : permission_snapshot) := Z.eqb (ps_external_document_id p) document_id in
  let same (p : permission_snapshot) := of_document p && bool_decide (ps_acl_hash p = h) in
  let l := map (fun p => if of_document p then p <| ps_active := same p |> else p) l in
  if existsb same l then l
  else l ++ [mkPermissionSnapshot snapshot_id document_id h permissions true].

Definition acl_principal (snapshot_id : uuid) (p : principal) : external_acl_principal :=
  mkAclPrincipal snapshot_id (default "user" (pr_principal_type p)) (pr_principal_id p)
    (match pr_principal_name p with Some (c :: s) => Some (c :: s) | _ => None end)
    (default $"reader" (pr_role p)).

(** The access list becomes the document's: its snapshot, its rows and its resolution. The
    answer says whether anything changed. *)
Definition _save_permissions (snapshot_id : uuid) (cn : connector) (document : external_document)
    (permissions : list principal) : KB (external_document * bool) :=
  let acl_hash := _acl_hash permissions in
  let acl_changed := negb (bool_decide (ed_acl_hash document = Some acl_hash)) in
  (if acl_changed then
     seen ← query (fun db => existsb (fun p => Z.eqb (ps_external_document_id p) (ed_id document)
                    && bool_decide (ps_acl_hash p = acl_hash)) (t_snapshots db));
     write (fun db => db <| t_snapshots := activate_snapshot snapshot_id (ed_id document) acl_hash
                                             permissions (t_snapshots db) |>) ;;
     if seen : bool then mret tt
     else write (fun db => db <| t_acl_principals := t_acl_principals db
                                   ++ map (acl_principal snapshot_id) permissions |>)
   else mret tt) ;;
  next_metadata ← query (fun db => resolved_metadata db cn permissions (ed_metadata document));
  let document' := document <| ed_acl_hash := Some acl_hash |> <| ed_metadata := next_metadata |> in
  put_document document' ;;
  mret (document', acl_changed || mapping_changed (ed_metadata document) next_metadata).

(** ** The article is narrowed *)

Record acl_decision := mkDecision {
  group_ids : gset uuid;
  direct_user_ids : gset pystr;
  internal_users_allowed_by_source : gset pystr;
  decided_visibility : string
}.

Definition empty_set {A} `{Countable A} (s : gset A) : bool := bool_decide (s = ∅).

Definition _provider_acl_intersection (internal_visibility : string) (internal_group_ids : gset uuid)
    (internal_user_ids : gset pystr) (source_group_ids : gset uuid) (source_user_ids : gset pystr)
    (source_group_member_ids : gset pystr) (unmapped_principals acl_present : bool) : acl_decision :=
  let effective_group_ids : gset uuid :=
    if String.eqb internal_visibility "users" then ∅
    else if String.eqb internal_visibility "public" || empty_set internal_group_ids
    then source_group_ids else source_group_ids ∩ internal_group_ids in
  let effective_direct_user_ids :=
    if String.eqb internal_visibility "public" then source_user_ids
    else source_user_ids ∩ internal_user_ids in
  let source_restricts := acl_present || negb (empty_set source_group_ids)
       || negb (empty_set source_user_ids) || unmapped_principals in
  let visibility :=
    if negb source_restricts then internal_visibility
    else if empty_set effective_group_ids && empty_set effective_direct_user_ids then "users"
    else if negb (empty_set effective_direct_user_ids) && empty_set effective_group_ids then "users"
    else if String.eqb internal_visibility "users" then "users"
    else "department" in
  mkDecision effective_group_ids effective_direct_user_ids
    (if source_restricts then internal_user_ids ∩ (source_user_ids ∪ source_group_member_ids)
     else internal_user_ids) visibility.

(** The internal policy of an article: what no provider has granted. *)
Definition internal_policy (a : article) : internal_acl :=
  mkInternalAcl (a_visibility a) (map dp_id (a_departments a))
    (map ap_user_id (List.filter (fun p => String.eqb (ap_effect p) "allow"
       && negb (match ap_source p with Some s => mem s SOURCE_ACL_PROVIDERS | None => false end))
       (a_user_permissions a))).

Definition id_texts (l : list uuid) : gset pystr := list_to_set (map show_uuid l).

(** The active accounts of a company in one of the departments. *)
Definition department_members (db : kbdb) (company : string) (departments : gset uuid) : gset pystr :=
  list_to_set (map (fun u => show_uuid (u_id u)) (List.filter (fun u =>
      String.eqb (u_company_domain u) company && u_active u
      && existsb (fun d => bool_decide (dp_id d ∈ departments)) (u_departments u)) (t_users db))).

Definition acl_decision_of (db : kbdb) (company : string) (internal : internal_acl)
    (m : external_metadata) : acl_decision :=
  let source_group_ids : gset uuid := list_to_set (em_mapped_department_ids m) in
  let nonempty {A} (l : list A) := match l with [] => false | _ => true end in
  _provider_acl_intersection
    (if String.eqb (ia_visibility internal) "" then "department" else ia_visibility internal)
    (list_to_set (ia_department_ids internal)) (id_texts (ia_allow_user_ids internal))
    source_group_ids (list_to_set (em_mapped_source_user_ids m))
    (if empty_set source_group_ids then ∅ else department_members db company source_group_ids)
    (nonempty (em_unmapped_group_ids m) || nonempty (em_unmapped_source_user_ids m)
     || nonempty (em_unmapped_principal_ids m))
    (default false (k_provider_acl_present m) || default false (k_sharepoint_acl_present m)).

(** The article under the decision: its departments, its source-managed rows, its visibility. *)
Definition narrowed_article (db : kbdb) (source : string) (internal : internal_acl) (d : acl_decision)
    (allowed : list uuid) (a : article) : article :=
  let denied := List.filter (fun i => negb (bool_decide (show_uuid i ∈ internal_users_allowed_by_source d)))
                  (dedup (ia_allow_user_ids internal)) in
  a <| a_departments := List.filter (fun x => bool_decide (dp_id x ∈ group_ids d)
                          && String.eqb (dp_company_domain x) (a_company_domain a)) (t_departments db) |>
    <| a_user_permissions :=
         List.filter (fun p => negb (bool_decide (ap_source p = Some source))) (a_user_permissions a)
         ++ map (fun i => mkAUP i "allow" (Some source)) allowed
         ++ map (fun i => mkAUP i "deny" (Some source)) denied |>
    <| a_visibility := decided_visibility d |>.

(** [pending]: the document's metadata was replaced since the last flush. The internal policy
    is recorded by mutating the metadata object in place and assigning that same object, which
    the ORM writes only when the attribute has a pending replacement to compare with. *)
Definition _apply_mapped_groups (pending : bool) (cn : connector) (document : external_document) : KB unit :=
  match ed_article_id document with
  | None => mret tt
  | Some article_id =>
      found ← query (fun db => t_articles db !! article_id);
      match found with
      | None => mret tt
      | Some a =>
          let m := ed_metadata document in
          let internal := default (internal_policy a) (k_internal_acl_snapshot m) in
          d ← query (fun db => acl_decision_of db (a_company_domain a) internal m);
          allowed ← some_or (mapM parse_uuid (elements (direct_user_ids d)))
                      (ValueError "badly formed hexadecimal UUID string");
          db ← query id;
          put_article (narrowed_article db (cn_system cn) internal d allowed a) ;;
          if pending
          then put_document (document <| ed_metadata := m <| k_internal_acl_snapshot := Some internal |> |>)
          else mret tt
      end
  end.

(** One document of the pass; its metadata was just replaced and not flushed. *)
Definition reconcile_document (snapshot_id : uuid) (cn : connector) (document : external_document)
    : KB (list uuid) :=
  latest ← query (fun db => last (List.filter (fun p =>
      Z.eqb (ps_external_document_id p) (ed_id document) && ps_active p) (t_snapshots db)));
  match latest with
  | None => mret []
  | Some p =>
      saved ← _save_permissions snapshot_id cn document (ps_permissions_json p);
      let '(document', changed) := (saved : external_document * bool) in
      match ed_article_id document' with
      | Some article_id =>
          if changed then _apply_mapped_groups true cn document' ;; mret [article_id] else mret []
      | None => mret []
      end
  end.

(** The stored access lists are applied again after the mappings have changed. *)
Definition reconcile_connector_acl_mappings (snapshot_id : uuid) (cn : connector) : KB (list uuid) :=
  documents ← query (fun db => List.filter (fun d => Z.eqb (ed_connector_id d) (cn_id cn)
                                && negb (String.eqb (ed_state d) "deleted")) (rows (t_external_documents db)));
  changed ← traverse documents (reconcile_document snapshot_id cn);
  mret (concat changed).
End SavePermissions.

(** [uuid.UUID(str(i)) == i] *)
Class UuidLaws `{KbEnv} := parse_show : forall i, parse_uuid (show_uuid i) = Some i.

(** ** Reading depends on the article monotonically *)

Lemma view_published u a :
  a_status a = "published" ->
  can_view_article u a = true <->
  lifecycle_active a = true
  /\ has_any_scope u "article.read" (Some (to_resource a)) ALL_SCOPES = true
  /\ sql_explicit "deny" u a = false /\ _source_acl_allows u a = true
  /\ (if String.eqb (a_visibility a) "users" then sql_explicit "allow" u a = true
      else has_full_company_article_access u = true \/ sql_explicit "allow" u a = true
           \/ (a_sensitivity a = "restricted" ->
                 meets (department_ids (u_departments u)) (department_ids (a_departments a)) = true)
              /\ can_access_article_departments u a = true).
Proof.
  intros Hp. unfold can_view_article. rewrite effect_deny, effect_allow, Hp. cbn.
  destruct (lifecycle_active a); cbn; [|naive_solver].
  destruct (has_any_scope u "article.read" (Some (to_resource a)) ALL_SCOPES); cbn; [|naive_solver].
  destruct (sql_explicit "deny" u a); cbn; [naive_solver|].
  destruct (_source_acl_allows u a); cbn; [|naive_solver].
  destruct (String.eqb (a_visibility a) "users"); [naive_solver|].
  destruct (has_full_company_article_access u); [naive_solver|].
  destruct (sql_explicit "allow" u a); [naive_solver|].
  destruct (String.eqb_spec (a_sensitivity a) "restricted"); cbn;
    destruct (meets (department_ids (u_departments u)) (department_ids (a_departments a))); cbn;
    naive_solver.
Qed.

Lemma scope_monotone u key a b :
  a_company_domain a = a_company_domain b -> a_owner_id a = a_owner_id b -> a_dept a = a_dept b ->
  a_departments a ⊆ a_departments b ->
  has_any_scope u key (Some (to_resource a)) ALL_SCOPES = true ->
  has_any_scope u key (Some (to_resource b)) ALL_SCOPES = true.
Proof.
  intros Hc Ho Hd Hsub. unfold has_any_scope. rewrite !existsb_elem.
  intros (q & Hq & H). exists q. split; [done|]. revert H. rewrite !has_permission_iff.
  intros (s & Hg & Hs). exists s. split; [done|]. revert Hs. rewrite !scope_allows_some.
  unfold to_resource, article_resource. cbn. rewrite <- Hc, <- Ho, <- Hd. naive_solver.
Qed.

Lemma department_names_monotone a b :
  a_dept a = a_dept b -> a_departments a ⊆ a_departments b ->
  article_department_names a ⊆ article_department_names b.
Proof.
  intros Hd Hsub. unfold article_department_names. rewrite Hd. intros n.
  rewrite !elem_of_difference. intros [Hn Hne]. split; [|done].
  assert (Hm : forall x, x ∈ (list_to_set (map dp_name (List.filter dp_active (a_departments a))) : gset pystr) ->
               x ∈ (list_to_set (map dp_name (List.filter dp_active (a_departments b))) : gset pystr)).
  { intros x. rewrite !elem_of_list_to_set, !elem_of_map. intros (d & -> & Hin).
    apply elem_of_filter_b in Hin as [Hin Ha]. exists d. rewrite elem_of_filter_b. auto. }
  destruct (truthy (a_dept b)); [|by apply Hm].
  apply elem_of_union in Hn as [Hn|Hn]; apply elem_of_union; [by left|right; by apply Hm].
Qed.

Lemma meets_monotone {A} `{Countable A} (x a b : gset A) :
  a ⊆ b -> meets x a = true -> meets x b = true.
Proof. rewrite !meets_true. set_solver. Qed.

Lemma department_ids_monotone l l' : l ⊆ l' -> department_ids l ⊆ department_ids l'.
Proof.
  intros Hsub i. unfold department_ids. rewrite !elem_of_list_to_set, !elem_of_map. naive_solver.
Qed.

Lemma access_departments_monotone u a b :
  a_dept a = a_dept b -> a_departments a ⊆ a_departments b ->
  can_access_article_departments u a = true -> can_access_article_departments u b = true.
Proof.
  intros Hd Hsub. unfold can_access_article_departments.
  destruct (has_permission u "article.read" None "global" || has_full_company_article_access u); [done|].
  apply meets_monotone. by apply department_names_monotone.
Qed.

Lemma sql_explicit_iff e u a :
  sql_explicit e u a = true <->
  exists p, p ∈ a_user_permissions a /\ ap_user_id p = u_id u /\ ap_effect p = e.
Proof.
  unfold sql_explicit. rewrite existsb_elem. setoid_rewrite andb_true_iff.
  setoid_rewrite Z.eqb_eq. setoid_rewrite String.eqb_eq. done.
Qed.

(** ** The intersection *)

Lemma empty_set_true {A} `{Countable A} (s : gset A) : empty_set s = true <-> s = ∅.
Proof. apply bool_decide_eq_true. Qed.

(** Under a provider's access list and an internal policy that is not public, the decision
    keeps only departments and people of both. *)
Lemma intersection_bounds vis igs ius sgs sus mems unmapped :
  vis <> "public" -> igs <> ∅ ->
  let d := _provider_acl_intersection vis igs ius sgs sus mems unmapped true in
  group_ids d ⊆ sgs ∩ igs /\ direct_user_ids d ⊆ sus ∩ ius
  /\ (decided_visibility d = "users" \/ decided_visibility d = "department")
  /\ (vis = "users" -> decided_visibility d = "users").
Proof.
  intros Hv Hg. unfold _provider_acl_intersection, empty_set. apply String.eqb_neq in Hv. rewrite Hv.
  rewrite (bool_decide_eq_false_2 _ Hg). cbn.
  destruct (String.eqb_spec vis "users") as [->|Hu].
  - split_and!; [set_solver|done|repeat case_match; auto|intros; by repeat case_match].
  - split_and!; [set_solver|done|repeat case_match; auto|done].
Qed.

(** ** What the narrowed article contains *)

Section Narrowing.
Context `{KbEnv, AclEnv}.

Lemma mapM_elem {A B} (f : A -> option B) l k y :
  mapM f l = Some k -> y ∈ k -> exists x, x ∈ l /\ f x = Some y.
Proof.
  intros Hm Hy. apply mapM_Some in Hm. apply list_elem_of_lookup in Hy as [i Hi].
  destruct (Forall2_lookup_r _ _ _ _ _ Hm Hi) as (x & Hx & Hf). exists x.
  split; [by eapply list_elem_of_lookup_2|done].
Qed.

Lemma mapM_total {A B} (f : A -> option B) l :
  (forall x, x ∈ l -> is_Some (f x)) -> exists k, mapM f l = Some k.
Proof.
  induction l as [|x l IH]; intros Hf; [by exists []|]. cbn.
  destruct (Hf x) as [y ->]; [by left|]. destruct IH as [k ->]; [|by exists (y :: k)].
  intros z Hz. apply Hf. by right.
Qed.

Lemma elem_of_id_texts (Hlaw : UuidLaws) l i : show_uuid i ∈ id_texts l -> i ∈ l.
Proof.
  unfold id_texts. rewrite elem_of_list_to_set, elem_of_map. intros (j & He & Hj).
  enough (Some i = Some j) as [= ->]; [done|]. by rewrite <- !parse_show, He.
Qed.

(** The identifiers the people of an internal policy parse to are people of that policy. *)
Lemma parsed_internal (Hlaw : UuidLaws) (s : gset pystr) l k i :
  s ⊆ id_texts l -> mapM parse_uuid (elements s) = Some k -> i ∈ k -> i ∈ l.
Proof.
  intros Hs Hm Hi. destruct (mapM_elem _ _ _ _ Hm Hi) as (t & Ht & Hp).
  apply elem_of_elements, Hs in Ht. unfold id_texts in Ht.
  apply elem_of_list_to_set, elem_of_map in Ht as (j & -> & Hj). rewrite parse_show in Hp. congruence.
Qed.

Lemma parsed_total (Hlaw : UuidLaws) (s : gset pystr) l :
  s ⊆ id_texts l -> exists k, mapM parse_uuid (elements s) = Some k.
Proof.
  intros Hs. apply mapM_total. intros t Ht. apply elem_of_elements, Hs in Ht. unfold id_texts in Ht.
  apply elem_of_list_to_set, elem_of_map in Ht as (j & -> & _). rewrite parse_show. by eexists.
Qed.

Lemma elem_narrowed db src internal d allowed a p :
  p ∈ a_user_permissions (narrowed_article db src internal d allowed a) <->
  p ∈ a_user_permissions a /\ ap_source p <> Some src
  \/ (exists i, p = mkAUP i "allow" (Some src) /\ i ∈ allowed)
  \/ exists i, p = mkAUP i "deny" (Some src) /\ i ∈ ia_allow_user_ids internal
        /\ show_uuid i ∉ internal_users_allowed_by_source d.
Proof.
  unfold narrowed_article. cbn. rewrite !elem_of_app, !elem_of_map, elem_of_filter_b.
  rewrite negb_true_iff, bool_decide_eq_false. setoid_rewrite elem_of_filter_b.
  setoid_rewrite negb_true_iff. setoid_rewrite bool_decide_eq_false. setoid_rewrite elem_of_dedup.
  naive_solver.
Qed.

Lemma elem_narrowed_departments db src internal d allowed a x :
  x ∈ a_departments (narrowed_article db src internal d allowed a) <->
  x ∈ t_departments db /\ dp_id x ∈ group_ids d /\ dp_company_domain x = a_company_domain a.
Proof.
  unfold narrowed_article. cbn.
  by rewrite elem_of_filter_b, andb_true_iff, bool_decide_eq_true, String.eqb_eq.
Qed.

Lemma elem_internal_policy a i :
  i ∈ ia_allow_user_ids (internal_policy a) <->
  exists p, p ∈ a_user_permissions a /\ ap_user_id p = i /\ ap_effect p = "allow"
    /\ (forall s, ap_source p = Some s -> s ∉ SOURCE_ACL_PROVIDERS).
Proof.
  unfold internal_policy. cbn. rewrite elem_of_map. setoid_rewrite elem_of_filter_b.
  setoid_rewrite andb_true_iff. setoid_rewrite String.eqb_eq. split.
  - intros (p & -> & Hp & He & Hs). exists p. split_and!; [done..|]. intros s Hps Hin.
    rewrite Hps, negb_true_iff in Hs. apply mem_In in Hin. congruence.
  - intros (p & Hp & <- & He & Hs). exists p. split_and!; [done..|].
    destruct (ap_source p) as [s|]; [|done]. apply negb_true_iff, not_true_iff_false.
    rewrite mem_In. by apply Hs.
Qed.

(** The article as the internal policy alone would have it. *)
Definition without_provider (a : article) : article :=
  a <| a_sources := [] |>
    <| a_user_permissions := List.filter (fun p =>
         negb (match ap_source p with Some s => mem s SOURCE_ACL_PROVIDERS | None => false end))
         (a_user_permissions a) |>.

Lemma elem_without_provider a p :
  p ∈ a_user_permissions (without_provider a) <->
  p ∈ a_user_permissions a /\ (forall s, ap_source p = Some s -> s ∉ SOURCE_ACL_PROVIDERS).
Proof.
  unfold without_provider. cbn. rewrite elem_of_filter_b. split.
  - intros [Hp Hs]. split; [done|]. intros s Hps Hin. rewrite Hps, negb_true_iff in Hs.
    apply mem_In in Hin. congruence.
  - intros [Hp Hs]. split; [done|]. destruct (ap_source p) as [s|]; [|done].
    apply negb_true_iff, not_true_iff_false. rewrite mem_In. by apply Hs.
Qed.

(** The decision a document's metadata gives. *)
Lemma decision_bounds db company internal m :
  default false (k_provider_acl_present m) || default false (k_sharepoint_acl_present m) = true ->
  ia_visibility internal <> "public" -> ia_department_ids internal <> [] ->
  let d := acl_decision_of db company internal m in
  group_ids d ⊆ list_to_set (em_mapped_department_ids m) ∩ list_to_set (ia_department_ids internal)
  /\ direct_user_ids d ⊆ list_to_set (em_mapped_source_user_ids m) ∩ id_texts (ia_allow_user_ids internal)
  /\ (decided_visibility d = "users" \/ decided_visibility d = "department")
  /\ (ia_visibility internal = "users" -> decided_visibility d = "users").
Proof.
  intros Hp Hv Hg. unfold acl_decision_of. rewrite Hp.
  assert (Hg' : (list_to_set (ia_department_ids internal) : gset uuid) <> ∅).
  { destruct (ia_department_ids internal) as [|x l]; [done|]. set_solver. }
  match goal with |- context [_provider_acl_intersection ?v _ _ _ _ _ _ _] =>
    assert (Hv' : v <> "public") by (destruct (String.eqb_spec (ia_visibility internal) ""); congruence)
  end.
  destruct (intersection_bounds _ _ (id_texts (ia_allow_user_ids internal))
    (list_to_set (em_mapped_department_ids m)) (list_to_set (em_mapped_source_user_ids m))
    (if empty_set (list_to_set (em_mapped_department_ids m) : gset uuid) then ∅
     else department_members db company (list_to_set (em_mapped_department_ids m)))
    (match em_unmapped_group_ids m with [] => false | _ => true end
     || match em_unmapped_source_user_ids m with [] => false | _ => true end
     || match em_unmapped_principal_ids m with [] => false | _ => true end) Hv' Hg') as (H1 & H2 & H3 & H4).
  split_and!; [exact H1|exact H2|exact H3|]. intros Hu. apply H4. by rewrite Hu.
Qed.
End Narrowing.

Section AclTheorems.
Context `{KbEnv, AclEnv}.
Context (Hlaw : UuidLaws).

Definition acl_present (m : external_metadata) : bool :=
  default false (k_provider_acl_present m) || default false (k_sharepoint_acl_present m).

Lemma run_apply pending cn document id a allowed (s : session kbdb event) :
  ed_article_id document = Some id -> t_articles (working s) !! id = Some a ->
  let m := ed_metadata document in
  let internal := default (internal_policy a) (k_internal_acl_snapshot m) in
  let d := acl_decision_of (working s) (a_company_domain a) internal m in
  mapM parse_uuid (elements (direct_user_ids d)) = Some allowed ->
  let a' := narrowed_article (working s) (cn_system cn) internal d allowed a in
  let db := (working s) <| t_articles := <[a_id a := a']> (t_articles (working s)) |> in
  _apply_mapped_groups pending cn document s
  = (Return tt, Session (committed s)
       (if pending then db <| t_external_documents :=
           <[ed_id document := document <| ed_metadata := m <| k_internal_acl_snapshot := Some internal |> |>]>
             (t_external_documents (working s)) |> else db) (published s)).
Proof.
  cbn zeta. intros Hd Ha Hm. unfold _apply_mapped_groups. rewrite Hd, run_query, Ha, run_query.
  rewrite (run_some_or _ _ _ _ _ Hm), run_query. destruct pending; reflexivity.
Qed.

(** The articles of one connector: the departments are rows of the table, and the
    source-managed permissions are that connector's. *)
Record one_connector (db : kbdb) (source : string) (a : article) : Prop := {
  oc_source : source ∈ SOURCE_ACL_PROVIDERS;
  oc_departments : forall x y, x ∈ t_departments db -> y ∈ a_departments a -> dp_id x = dp_id y -> x = y;
  oc_permissions : forall p s, p ∈ a_user_permissions a -> ap_source p = Some s ->
                     s ∈ SOURCE_ACL_PROVIDERS -> s = source
}.

Lemma narrowed_view db src internal d allowed a u :
  one_connector db src a -> a_status a = "published" ->
  group_ids d ⊆ list_to_set (map dp_id (a_departments a)) ->
  (forall i, i ∈ allowed -> i ∈ ia_allow_user_ids (internal_policy a)) ->
  (decided_visibility d = "users" \/ decided_visibility d = "department") ->
  (a_visibility a = "users" -> decided_visibility d = "users") ->
  can_view_article u (narrowed_article db src internal d allowed a) = true ->
  can_view_article u (without_provider a) = true.
Proof.
  intros Hone Hpub Hgr Hal Hvis Huv Hview.
  apply view_published in Hview as (Hl & Hsc & Hdeny & _ & Hrest); [|done].
  set (a' := narrowed_article db src internal d allowed a) in *.
  assert (Hsub : a_departments a' ⊆ a_departments a).
  { intros x Hx. apply elem_narrowed_departments in Hx as (Hx & Hin1 & _).
    apply Hgr, elem_of_list_to_set, elem_of_map in Hin1 as (y & Hy & Hin).
    by rewrite (oc_departments _ _ _ Hone x y Hx Hin Hy). }
  assert (Hallow : sql_explicit "allow" u a' = true -> sql_explicit "allow" u (without_provider a) = true).
  { rewrite !sql_explicit_iff. intros (p & Hp & Hpu & Hpe).
    apply elem_narrowed in Hp as [[Hp Hs]|[(i & -> & Hi)|(i & -> & _)]]; [| |done].
    - exists p. rewrite elem_without_provider. split_and!; [done| |done..].
      intros s Hps Hin. by rewrite <- (oc_permissions _ _ _ Hone p s Hp Hps Hin) in Hs.
    - cbn in Hpu. subst i. apply Hal, elem_internal_policy in Hi as (q & Hq & Hqu & Hqe & Hqs).
      exists q. rewrite elem_without_provider. by split_and!. }
  apply view_published; [done|]. split_and!.
  - done.
  - by apply (scope_monotone u _ a' (without_provider a)).
  - apply not_true_iff_false. rewrite sql_explicit_iff. intros (p & Hp & Hpu & Hpe).
    apply elem_without_provider in Hp as [Hp Hs]. apply not_true_iff_false in Hdeny. apply Hdeny.
    apply sql_explicit_iff. exists p. split_and!; [|done..]. apply elem_narrowed. left. split; [done|].
    intros Hps. by apply (Hs src Hps), (oc_source _ _ _ Hone).
  - done.
  - change (a_visibility (without_provider a)) with (a_visibility a).
    change (a_visibility a') with (decided_visibility d) in Hrest.
    destruct (String.eqb_spec (a_visibility a) "users") as [Hu|Hu].
    + rewrite (Huv Hu) in Hrest. by apply Hallow.
    + destruct Hvis as [Hv|Hv]; rewrite Hv in Hrest; cbn in Hrest; [right; left; by apply Hallow|].
      destruct Hrest as [Hf|[Hal'|[Hr Hd]]]; [by left|right; left; by apply Hallow|right; right].
      split.
      * intros Hse. apply (meets_monotone _ (department_ids (a_departments a'))); [|by apply Hr].
        by apply department_ids_monotone.
      * by apply (access_departments_monotone u a').
Qed.

End AclTheorems.

(** ** A list saved twice *)

Section SavedTwice.
Context `{KbEnv, AclEnv}.

Lemma resolved_tables db db' cn permissions previous :
  t_users db' = t_users db -> t_departments db' = t_departments db ->
  t_group_mappings db' = t_group_mappings db -> t_identities db' = t_identities db ->
  resolved_metadata db' cn permissions previous = resolved_metadata db cn permissions previous.
Proof.
  intros Hu Hd Hg Hi.
  assert (Hm : mappings_for db' cn = mappings_for db cn) by (unfold mappings_for; by rewrite Hd, Hg).
  assert (Hk : matched_users db' cn = matched_users db cn) by (unfold matched_users; by rewrite Hu, Hi).
  assert (Hc : company_departments db' = company_departments db) by (unfold company_departments; by rewrite Hd).
  assert (He : users_by_email db' = users_by_email db) by (unfold users_by_email; by rewrite Hu).
  assert (Ha : auto_resolve db' cn permissions = auto_resolve db cn permissions)
    by (unfold auto_resolve; by rewrite Hc, He).
  unfold resolved_metadata. by rewrite Hm, Hk, Ha.
Qed.

Lemma resolved_twice db cn permissions previous :
  resolved_metadata db cn permissions (resolved_metadata db cn permissions previous)
  = resolved_metadata db cn permissions previous.
Proof.
  unfold resolved_metadata. cbv zeta. destruct (String.eqb (cn_system cn) "sharepoint"); reflexivity.
Qed.

Lemma stored_twice (db : kbdb) (x : external_document) :
  let db1 := db <| t_external_documents := <[ed_id x := x]> (t_external_documents db) |> in
  db1 <| t_external_documents := <[ed_id x := x]> (t_external_documents db1) |> = db1.
Proof. cbn zeta. destruct db. cbn -[insert]. by rewrite insert_insert_eq. Qed.

Lemma mapping_unchanged m : mapping_changed m m = false.
Proof. unfold mapping_changed. by rewrite !bool_decide_eq_true_2. Qed.

Lemma run_save_permissions sid cn document permissions (s : session kbdb event) :
  let h := _acl_hash permissions in
  let changed := negb (bool_decide (ed_acl_hash document = Some h)) in
  let m := resolved_metadata (working s) cn permissions (ed_metadata document) in
  let document' := document <| ed_acl_hash := Some h |> <| ed_metadata := m |> in
  exists db, _save_permissions sid cn document permissions s
    = (Return (document', changed || mapping_changed (ed_metadata document) m),
       Session (committed s)
         (db <| t_external_documents := <[ed_id document := document']> (t_external_documents db) |>)
         (published s))
    /\ t_external_documents db = t_external_documents (working s)
    /\ t_users db = t_users (working s) /\ t_departments db = t_departments (working s)
    /\ t_group_mappings db = t_group_mappings (working s) /\ t_identities db = t_identities (working s)
    /\ t_drafts db = t_drafts (working s) /\ t_transitions db = t_transitions (working s)
    /\ t_articles db = t_articles (working s)
    /\ t_snapshots db = if changed then activate_snapshot sid (ed_id document) h permissions (t_snapshots (working s))
                        else t_snapshots (working s).
Proof.
  cbn zeta. unfold _save_permissions.
  set (changed := negb (bool_decide (ed_acl_hash document = Some (_acl_hash permissions)))).
  destruct changed; cbn [orb].
  - destruct (existsb (fun p => Z.eqb (ps_external_document_id p) (ed_id document)
      && bool_decide (ps_acl_hash p = _acl_hash permissions)) (t_snapshots (working s))) eqn:Hseen.
    + eexists ((working s) <| t_snapshots := activate_snapshot sid (ed_id document)
        (_acl_hash permissions) permissions (t_snapshots (working s)) |>).
      split; [|by split_and!].
      unfold query, write, mbind, M_bind, put_document, mret, M_ret. cbn -[resolved_metadata _acl_hash].
      rewrite Hseen. cbn -[resolved_metadata _acl_hash].
      by rewrite (resolved_tables (working s)).
    + eexists ((working s) <| t_snapshots := activate_snapshot sid (ed_id document)
        (_acl_hash permissions) permissions (t_snapshots (working s)) |>
        <| t_acl_principals := t_acl_principals (working s) ++ map (acl_principal sid) permissions |>).
      split; [|by split_and!].
      unfold query, write, mbind, M_bind, put_document, mret, M_ret. cbn -[resolved_metadata _acl_hash].
      rewrite Hseen. cbn -[resolved_metadata _acl_hash].
      by rewrite (resolved_tables (working s)).
  - exists (working s). split; [reflexivity|by split_and!].
Qed.

Lemma active_after sid i h perms l :
  forall p, p ∈ activate_snapshot sid i h perms l -> ps_external_document_id p = i -> ps_active p = true ->
  ps_acl_hash p = h.
Proof.
  intros p Hp Hi Ha. unfold activate_snapshot in Hp.
  set (same := fun q : permission_snapshot => Z.eqb (ps_external_document_id q) i
                  && bool_decide (ps_acl_hash q = h)) in *.
  assert (Hold : p ∈ map (fun q => if Z.eqb (ps_external_document_id q) i then q <| ps_active := same q |> else q) l
                 -> ps_acl_hash p = h).
  { intros (q & -> & _)%elem_of_map. destruct (Z.eqb_spec (ps_external_document_id q) i) as [He|He]; [|done].
    cbn in Ha. unfold same in Ha. by bools. }
  destruct (existsb same _); [by apply Hold|].
  apply elem_of_app in Hp as [Hp|Hp]; [by apply Hold|]. by apply list_elem_of_singleton in Hp as ->.
Qed.

(** Saving an access list is idempotent: the list becomes the document's only active
    snapshot, and saving it again, whatever identifier is drawn, answers that nothing changed
    and leaves the database as it is. *)
Theorem save_permissions_idempotent (sid sid' : uuid) (cn : connector) (document : external_document)
    (permissions : list principal) (s : session kbdb event) :
  exists document' changed s',
    _save_permissions sid cn document permissions s = (Return (document', changed), s')
    /\ (changed = true -> ed_acl_hash document <> Some (_acl_hash permissions)
         \/ mapping_changed (ed_metadata document) (ed_metadata document') = true)
    /\ (ed_acl_hash document <> Some (_acl_hash permissions) ->
         forall p, p ∈ t_snapshots (working s') -> ps_external_document_id p = ed_id document ->
           ps_active p = true -> ps_acl_hash p = _acl_hash permissions)
    /\ _save_permissions sid' cn document' permissions s' = (Return (document', false), s').
Proof.
  destruct (run_save_permissions sid cn document permissions s)
    as (db & Hrun & He & Hu & Hd & Hg & Hi & _ & _ & _ & Hsn).
  set (document' := document <| ed_acl_hash := Some (_acl_hash permissions) |>
    <| ed_metadata := resolved_metadata (working s) cn permissions (ed_metadata document) |>) in *.
  eexists document', _, _. split; [exact Hrun|]. split_and!.
  - intros Hc. apply orb_true_iff in Hc as [Hc|Hc]; [left|by right]. by bools.
  - intros Hne p Hp. rewrite bool_decide_eq_false_2 in Hsn by done. cbn in Hsn, Hp. rewrite Hsn in Hp.
    by apply (active_after sid (ed_id document) _ permissions (t_snapshots (working s))).
  - set (s1 := Session _ _ _).
    assert (Hh : ed_acl_hash document' = Some (_acl_hash permissions)) by done.
    assert (Hm : resolved_metadata (working s1) cn permissions (ed_metadata document') = ed_metadata document').
    { rewrite (resolved_tables (working s)) by done. apply resolved_twice. }
    unfold _save_permissions. rewrite bool_decide_eq_true_2 by done. cbn [negb orb].
    rewrite (run_bind _ _ s1 tt s1 eq_refl), run_query, Hm, mapping_unchanged.
    assert (Hsame : document' <| ed_acl_hash := Some (_acl_hash permissions) |>
                      <| ed_metadata := ed_metadata document' |> = document') by (by destruct document).
    rewrite Hsame.
    assert (Hw : (working s1) <| t_external_documents :=
                    <[ed_id document' := document']> (t_external_documents (working s1)) |> = working s1).
    { apply (stored_twice db document'). }
    unfold put_document, write, mbind, M_bind, mret, M_ret. rewrite Hw. reflexivity.
Qed.

End SavedTwice.

(** ** Passes after the first *)

Section LaterPasses.
Context `{KbEnv, AclEnv}.
Context (Hlaw : UuidLaws).

Lemma no_groups_users vis igs ius sgs sus mems unmapped :
  let d := _provider_acl_intersection vis igs ius sgs sus mems unmapped true in
  group_ids d = ∅ -> decided_visibility d = "users".
Proof.
  unfold _provider_acl_intersection. cbn. unfold empty_set. intros ->.
  rewrite (bool_decide_eq_true_2 _ (eq_refl (∅ : gset uuid))).
  by destruct (bool_decide _).
Qed.

Lemma decision_without_groups db company internal m :
  acl_present m = true -> group_ids (acl_decision_of db company internal m) = ∅ ->
  decided_visibility (acl_decision_of db company internal m) = "users".
Proof. unfold acl_present, acl_decision_of. intros ->. apply no_groups_users. Qed.

Lemma decision_of_users db company internal m :
  ia_visibility internal = "users" ->
  let d := acl_decision_of db company internal m in
  group_ids d = ∅ /\ direct_user_ids d ⊆ id_texts (ia_allow_user_ids internal).
Proof.
  intros Hu. unfold acl_decision_of. rewrite Hu. cbn. split; [done|]. set_solver.
Qed.

Lemma narrowed_without_groups db src internal d allowed a :
  group_ids d = ∅ -> a_departments (narrowed_article db src internal d allowed a) = [].
Proof.
  intros Hg. unfold narrowed_article. cbn. rewrite Hg.
  induction (t_departments db) as [|x l IH]; [done|]. cbn. by rewrite IH.
Qed.

Lemma narrowed_policy_users db src internal d allowed a i :
  src ∈ SOURCE_ACL_PROVIDERS ->
  i ∈ ia_allow_user_ids (internal_policy (narrowed_article db src internal d allowed a)) <->
  i ∈ ia_allow_user_ids (internal_policy a).
Proof.
  intros Hs. rewrite !elem_internal_policy. split.
  - intros (p & Hp & Hi & He & Hps). apply elem_narrowed in Hp as [[Hp _]|[(j & -> & _)|(j & -> & _)]].
    + by exists p.
    + by destruct (Hps src eq_refl).
    + done.
  - intros (p & Hp & Hi & He & Hps). exists p. split_and!; [|done..]. apply elem_narrowed. left.
    split; [done|]. intros Hsrc. by apply (Hps src Hsrc).
Qed.

Lemma explicit_reader u a :
  a_status a = "published" -> a_visibility a = "users" -> can_view_article u a = true ->
  exists p, p ∈ a_user_permissions a /\ ap_user_id p = u_id u /\ ap_effect p = "allow".
Proof.
  intros Hp Hv Hc. apply view_published in Hc as (_ & _ & _ & _ & Hr); [|done].
  rewrite Hv in Hr. cbn in Hr. by apply sql_explicit_iff.
Qed.

(** A provider that lists nobody for one pass hides the article for good: the walk commits
    the document before it narrows the article, so the internal policy recorded in place is
    not written; the next pass takes the emptied article for the internal policy, and however
    the provider then restores its list, only accounts with an internal grant of their own can
    read the article, an administrator with global authority included. *)
Theorem lost_access_never_returns (cn : connector) (document document2 : external_document)
    (id : uuid) (a : article) (s : session kbdb event)
    (Hdoc : ed_article_id document = Some id) (Hdoc2 : ed_article_id document2 = Some id)
    (Ha : t_articles (working s) !! id = Some a)
    (Hid : a_id a = id) (Hpub : a_status a = "published") (Hvis : a_visibility a <> "public")
    (Hdeps : a_departments a <> []) (Hone : one_connector (working s) (cn_system cn) a)
    (Hacl : acl_present (ed_metadata document) = true) (Hacl2 : acl_present (ed_metadata document2) = true)
    (Hnone : k_internal_acl_snapshot (ed_metadata document) = None)
    (Hnone2 : k_internal_acl_snapshot (ed_metadata document2) = None)
    (Hlost : em_mapped_department_ids (ed_metadata document) = []) :
  exists s1 s2 a2,
    _apply_mapped_groups false cn document s = (Return tt, s1)
    /\ t_external_documents (working s1) = t_external_documents (working s)
    /\ _apply_mapped_groups false cn document2 s1 = (Return tt, s2)
    /\ t_articles (working s2) !! id = Some a2
    /\ a_departments a2 = [] /\ a_visibility a2 = "users"
    /\ forall u, can_view_article u a2 = true -> u_id u ∈ ia_allow_user_ids (internal_policy a).
Proof.
  pose (d := acl_decision_of (working s) (a_company_domain a) (internal_policy a) (ed_metadata document)).
  destruct (decision_bounds (working s) (a_company_domain a) (internal_policy a) (ed_metadata document)
    Hacl Hvis) as (Hg & Hd & _); [cbn; by destruct (a_departments a)|]. fold d in Hg, Hd.
  rewrite Hlost in Hg. assert (Hg0 : group_ids d = ∅) by set_solver.
  destruct (parsed_total Hlaw (direct_user_ids d) (ia_allow_user_ids (internal_policy a))) as [allowed Hm];
    [set_solver|].
  pose proof (run_apply false cn document id a allowed s Hdoc Ha) as Hrun. cbn zeta in Hrun.
  rewrite Hnone in Hrun. cbn [default from_option] in Hrun. specialize (Hrun Hm).
  change (acl_decision_of _ _ _ _) with d in Hrun.
  set (a1 := narrowed_article (working s) (cn_system cn) (internal_policy a) d allowed a) in *.
  match type of Hrun with _ = (_, ?x) => set (s1 := x) in * end.
  assert (Ha1 : t_articles (working s1) !! id = Some a1) by (cbn; rewrite Hid; apply lookup_insert_eq).
  assert (Hu1 : ia_visibility (internal_policy a1) = "users") by (by apply decision_without_groups).
  pose (d2 := acl_decision_of (working s1) (a_company_domain a1) (internal_policy a1) (ed_metadata document2)).
  destruct (decision_of_users (working s1) (a_company_domain a1) (internal_policy a1)
    (ed_metadata document2) Hu1) as [Hg2 Hd2]. fold d2 in Hg2, Hd2.
  destruct (parsed_total Hlaw (direct_user_ids d2) (ia_allow_user_ids (internal_policy a1))) as [allowed2 Hm2];
    [done|].
  pose proof (run_apply false cn document2 id a1 allowed2 s1 Hdoc2 Ha1) as Hrun2. cbn zeta in Hrun2.
  rewrite Hnone2 in Hrun2. cbn [default from_option] in Hrun2. specialize (Hrun2 Hm2).
  change (acl_decision_of _ _ _ _) with d2 in Hrun2.
  set (a2 := narrowed_article (working s1) (cn_system cn) (internal_policy a1) d2 allowed2 a1) in *.
  assert (Hv2 : a_visibility a2 = "users") by (by apply decision_without_groups).
  assert (Hsrc := oc_source _ _ _ Hone).
  exists s1. eexists. exists a2. split; [exact Hrun|]. split; [reflexivity|].
  split; [exact Hrun2|]. split; [|split; [by apply narrowed_without_groups|split; [exact Hv2|]]].
  - assert (Hi2 : a_id a2 = id) by exact Hid. rewrite <- Hi2.
    change (t_articles _) with (<[a_id a2 := a2]> (t_articles (working s1))). apply lookup_insert_eq.
  - intros u Hc. apply explicit_reader in Hc as (p & Hp & Hpu & Hpe); [|exact Hpub|exact Hv2].
    rewrite <- (narrowed_policy_users (working s) (cn_system cn) (internal_policy a) d allowed a _ Hsrc).
    fold a1. apply elem_narrowed in Hp as [[Hp Hns]|[(i & -> & Hi)|(i & -> & _)]]; [| |done].
    + apply elem_internal_policy. exists p. split_and!; [done..|]. intros src Hps Hin.
      apply elem_narrowed in Hp as [[Hp _]|[(i & -> & _)|(i & -> & _)]]; [|by apply Hns..].
      rewrite (oc_permissions _ _ _ Hone p src Hp Hps Hin) in Hps. done.
    + cbn in Hpu. rewrite <- Hpu. by apply (parsed_internal Hlaw (direct_user_ids d2) _ allowed2).
Qed.

(** A recorded internal policy is applied as it was recorded: a department it names and
    the provider's list maps is put back on the article whatever an administrator has removed
    since, and so is the grant of a person both lists name. *)
Theorem later_edit_undone (pending : bool) (cn : connector) (document : external_document) (id : uuid)
    (a : article) (internal : internal_acl) (x : department) (i : uuid) (s s' : session kbdb event)
    (Hdoc : ed_article_id document = Some id) (Ha : t_articles (working s) !! id = Some a) (Hid : a_id a = id)
    (Hint : k_internal_acl_snapshot (ed_metadata document) = Some internal)
    (Hvis : ia_visibility internal = "department")
    (Hx : x ∈ t_departments (working s)) (Hxc : dp_company_domain x = a_company_domain a)
    (Hxi : dp_id x ∈ ia_department_ids internal)
    (Hxm : dp_id x ∈ em_mapped_department_ids (ed_metadata document))
    (Hi : i ∈ ia_allow_user_ids internal)
    (Him : show_uuid i ∈ em_mapped_source_user_ids (ed_metadata document))
    (Hrun : _apply_mapped_groups pending cn document s = (Return tt, s')) :
  exists a', t_articles (working s') !! id = Some a' /\ x ∈ a_departments a'
    /\ mkAUP i "allow" (Some (cn_system cn)) ∈ a_user_permissions a'.
Proof.
  set (d := acl_decision_of (working s) (a_company_domain a) internal (ed_metadata document)).
  assert (Hd : group_ids d = list_to_set (em_mapped_department_ids (ed_metadata document))
                 ∩ list_to_set (ia_department_ids internal)
               /\ direct_user_ids d = list_to_set (em_mapped_source_user_ids (ed_metadata document))
                 ∩ id_texts (ia_allow_user_ids internal)).
  { unfold d, acl_decision_of, _provider_acl_intersection. rewrite Hvis. cbn. unfold empty_set.
    rewrite bool_decide_eq_false_2; [done|]. intros Hemp.
    assert (Hin : dp_id x ∈ (list_to_set (ia_department_ids internal) : gset uuid)) by (by apply elem_of_list_to_set).
    rewrite Hemp in Hin. set_solver. }
  destruct Hd as [Hg Hdu].
  destruct (parsed_total Hlaw (direct_user_ids d) (ia_allow_user_ids internal)) as [allowed Hm]; [set_solver|].
  pose proof (run_apply pending cn document id a allowed s Hdoc Ha) as Hrun'. cbn zeta in Hrun'.
  rewrite Hint in Hrun'. cbn [default from_option] in Hrun'. specialize (Hrun' Hm).
  change (acl_decision_of _ _ _ _) with d in Hrun'.
  rewrite Hrun' in Hrun. injection Hrun as <-.
  exists (narrowed_article (working s) (cn_system cn) internal d allowed a). split; [|split].
  - destruct pending; cbn; rewrite Hid; apply lookup_insert_eq.
  - apply elem_narrowed_departments. split_and!; [done| |done]. rewrite Hg. set_solver.
  - apply elem_narrowed. right. left. exists i. split; [done|].
    assert (Hin : show_uuid i ∈ elements (direct_user_ids d)).
    { apply elem_of_elements. rewrite Hdu. apply elem_of_intersection. split; [by apply elem_of_list_to_set|].
      apply elem_of_list_to_set, elem_of_map. by exists i. }
    apply mapM_Some in Hm. apply list_elem_of_lookup in Hin as [k Hk].
    destruct (Forall2_lookup_l _ _ _ _ _ Hm Hk) as (y & Hy & Hp).
    rewrite parse_show in Hp. injection Hp as <-. by eapply list_elem_of_lookup_2.
Qed.

End LaterPasses.

(** ** Where the resolution falls short *)

Section ResolutionGaps.
Context `{KbEnv, AclEnv}.

Lemma fold_insert_keys {A} (f g : A -> pystr) (l : list A) (m : gmap pystr pystr) k :
  m !! k = None -> (forall x, x ∈ l -> f x <> k) ->
  fold_left (fun m x => <[f x := g x]> m) l m !! k = None.
Proof.
  revert m. induction l as [|x l IH]; intros m Hm Hf; [done|]. cbn. apply IH.
  - rewrite lookup_insert_ne; [done|]. apply Hf. by left.
  - intros y Hy. apply Hf. by right.
Qed.

Lemma fold_insert_some {A} (f g : A -> pystr) (l : list A) (m : gmap pystr pystr) k :
  is_Some (m !! k) \/ (exists x, x ∈ l /\ f x = k) ->
  is_Some (fold_left (fun m x => <[f x := g x]> m) l m !! k).
Proof.
  revert m. induction l as [|x l IH]; intros m Hm; cbn.
  - destruct Hm as [Hm|(x & Hx & _)]; [done|by apply elem_of_nil in Hx].
  - apply IH. destruct (decide (f x = k)) as [<-|Hne]; [left; by rewrite lookup_insert_eq|].
    rewrite lookup_insert_ne by done. destruct Hm as [Hm|(y & [->|Hy]%elem_of_cons & Hk)]; [by left|done|].
    right. by exists y.
Qed.

(** What the automatic rules say of people comes from the pending people only. *)
Lemma persons_untouched accounts l r i :
  (forall p, p ∈ l -> pr_principal_id p <> i) ->
  let r' := fold_left (resolve_person accounts) l r in
  ar_users r' !! i = ar_users r !! i /\ (i ∈ ar_without_account r' <-> i ∈ ar_without_account r).
Proof.
  revert r. induction l as [|p l IH]; intros r Hl; [done|]. cbn.
  destruct (IH (resolve_person accounts r p)) as [Hu Hw]; [intros q Hq; apply Hl; by right|].
  assert (Hp : pr_principal_id p <> i) by (apply Hl; by left). rewrite Hu, Hw. clear Hu Hw IH.
  unfold resolve_person. destruct (omap _ (emails_of p)); cbn; [set_solver|].
  by rewrite lookup_insert_ne.
Qed.

Lemma bulk_people l r :
  ar_users (fold_left resolve_bulk l r) = ar_users r
  /\ ar_without_account (fold_left resolve_bulk l r) = ar_without_account r.
Proof.
  revert r. induction l as [|p l IH]; intros r; [done|]. cbn. destruct (IH (resolve_bulk r p)) as [-> ->].
  unfold resolve_bulk. by repeat case_match.
Qed.

Lemma group_people ds l r :
  ar_users (fold_left (resolve_group ds) l r) = ar_users r
  /\ ar_without_account (fold_left (resolve_group ds) l r) = ar_without_account r.
Proof.
  revert r. induction l as [|p l IH]; intros r; [done|]. cbn. destruct (IH (resolve_group ds r p)) as [-> ->].
  unfold resolve_group. by case_match.
Qed.

Lemma resolved_people_pending db cn permissions already users i :
  (forall p, p ∈ permissions -> type_in p USER_TYPES = true -> pr_principal_id p = i ->
     (principal_kind p, i) ∈ already) ->
  let auto := auto_resolve db cn permissions already users in
  ar_users auto !! i = None /\ i ∉ ar_without_account auto.
Proof.
  intros Hal. cbn zeta. unfold auto_resolve. destruct (negb (enabled cn)); [done|].
  set (pending := List.filter _ permissions).
  assert (Hp : forall p, p ∈ pending -> type_in p USER_TYPES = true -> pr_principal_id p <> i).
  { intros p [Hp Hf]%elem_of_filter_b Ht Hi. apply andb_true_iff in Hf as [_ Hf].
    apply negb_true_iff, bool_decide_eq_false in Hf. apply Hf. rewrite Hi. by apply Hal. }
  destruct pending as [|p0 l0] eqn:Hpe; [done|]. rewrite <- Hpe in *. clearbody pending. cbv zeta.
  set (unmatched := List.filter (fun item => type_in item USER_TYPES && _) pending).
  set (groups := List.filter _ pending).
  assert (Hun : forall p, p ∈ unmatched -> pr_principal_id p <> i).
  { intros p [Hp' Hf]%elem_of_filter_b. bools. by apply Hp. }
  match goal with |- context [if existsb is_company_principal pending then ?r <| _ := _ |> else _] => set (res := r) end.
  assert (Hres : ar_users res !! i = None /\ i ∉ ar_without_account res).
  { unfold res. destruct (group_people (company_departments db (cn_company_domain cn)) groups
      (fold_left (resolve_person (users_by_email db (cn_company_domain cn) (concat (map emails_of unmatched))))
         unmatched (fold_left resolve_bulk pending no_resolution))) as [-> ->].
    destruct (persons_untouched (users_by_email db (cn_company_domain cn) (concat (map emails_of unmatched)))
      unmatched (fold_left resolve_bulk pending no_resolution) i Hun) as [-> ->].
    destruct (bulk_people pending no_resolution) as [-> ->]. done. }
  clearbody res. by destruct (existsb is_company_principal pending).
Qed.

Lemma elem_sort_texts t l : t ∈ sort_texts l <-> t ∈ l.
Proof. apply elem_of_stable_sort. Qed.

Lemma elem_sort_ids i (s : gset uuid) : i ∈ sort_ids s <-> i ∈ s.
Proof. unfold sort_ids. rewrite elem_of_stable_sort. apply elem_of_elements. Qed.

(** A person the provider names with capital letters blocks approval: the account with
    the same address is found under the lower-case address, which keeps the automatic rules
    from looking at the person, and is then looked up under the address as written. *)
Theorem mixed_case_address_blocks (db : kbdb) (cn : connector) (permissions : list principal)
    (previous : external_metadata) (p : principal) (x : user) (i : pystr)
    (Hsys : cn_system cn = "google_drive") (Hp : p ∈ permissions)
    (Hpt : pr_principal_type p = Some "user") (Hpi : pr_principal_id p = i) (Hi : truthy i = true)
    (Hx : x ∈ t_users db) (Hxc : u_company_domain x = cn_company_domain cn) (Hxa : u_active x = true)
    (Hxe : sql_lower (u_email x) = py_lower i) (Hxp : py_lower (u_email x) = py_lower i)
    (Hmixed : forall t, py_lower t <> i)
    (Hsub : forall y, y ∈ t_identities db -> xi_subject y <> i)
    (Hmap : forall m, m ∈ t_group_mappings db -> gm_principal_id m <> i) :
  i ∈ em_unmapped_source_user_ids (resolved_metadata db cn permissions previous).
Proof.
  unfold em_unmapped_source_user_ids, resolved_metadata. cbv zeta.
  set (observed := dedup (map (fun p => (principal_kind p, pr_principal_id p)) _)).
  set (mappings := mappings_for db cn (map snd observed)).
  set (user_ids := dedup (map pr_principal_id (List.filter (fun p => type_in p USER_TYPES && _) permissions))).
  set (users := matched_users db cn user_ids).
  set (already := map (fun m => (gm_principal_type m, gm_principal_id m)) mappings ++ _).
  cbn [k_unmapped_source_user_ids default from_option].
  assert (Hiu : i ∈ user_ids).
  { apply elem_of_dedup, elem_of_map. exists p. split; [done|]. apply elem_of_filter_b. split; [done|].
    unfold type_in. rewrite Hpt, Hpi, Hi. done. }
  assert (Hlow : py_lower i ∈ map py_lower user_ids) by (apply elem_of_map; by exists i).
  assert (Hnone : users !! i = None).
  { unfold users, matched_users. destruct user_ids; [by apply elem_of_nil in Hiu|]. rewrite Hsys. cbn [String.eqb].
    apply fold_insert_keys; [|intros; apply Hmixed].
    set (ys := List.filter _ (t_identities db)).
    assert (Hl : forall y, y ∈ ys -> xi_subject y <> i) by (intros y [Hy _]%elem_of_filter_b; by apply Hsub).
    pose proof (fold_insert_keys xi_subject (fun y => show_uuid (xi_user_id y)) ys ∅ i (lookup_empty _) Hl) as Hk.
    revert Hk. cbv beta.
    generalize (fold_left (fun (m : gmap pystr pystr) y => <[xi_subject y := show_uuid (xi_user_id y)]> m) ys ∅).
    clear Hl. clearbody ys. induction ys as [|y ys IH]; intros m0 Hm0; [done|]. cbn. apply IH.
    destruct (xi_email y) as [[|c e]|]; [done| |done]. rewrite lookup_insert_ne; [done|apply Hmixed]. }
  assert (Hsome : is_Some (users !! py_lower i)).
  { unfold users, matched_users. destruct user_ids; [by apply elem_of_nil in Hiu|]. rewrite Hsys. cbn [String.eqb].
    apply fold_insert_some. right. exists x. split; [|done]. apply elem_of_filter_b. split; [done|].
    rewrite Hxe, Hxc, Hxa, String.eqb_refl, !andb_true_r. apply existsb_elem. exists (py_lower i).
    split; [done|]. by apply bool_decide_eq_true. }
  assert (Hal : forall q, q ∈ permissions -> type_in q USER_TYPES = true -> pr_principal_id q = i ->
                  (principal_kind q, i) ∈ already).
  { intros q Hq Ht Hqi. unfold already. apply elem_of_app. right. apply elem_of_map. exists q.
    rewrite Hqi. split; [done|]. apply elem_of_filter_b. split; [done|].
    rewrite Ht, Hqi, Hi. cbn. apply orb_true_iff. right. by apply bool_decide_eq_true. }
  destruct (resolved_people_pending db cn permissions already users i Hal) as [Ha Hw].
  set (auto := auto_resolve db cn permissions already users) in *.
  apply elem_sort_texts, elem_of_map. exists ("user", i). split; [done|]. apply elem_of_filter_b. split.
  - apply elem_of_dedup, elem_of_map. exists p. unfold principal_kind. rewrite Hpt, Hpi. split; [done|].
    apply elem_of_filter_b. by rewrite Hpi.
  - cbn [fst snd]. change (mem "user" USER_TYPES) with true. cbn [andb].
    rewrite bool_decide_eq_true_2 by (by apply lookup_union_None).
    rewrite bool_decide_eq_false_2 by done. cbn. apply negb_true_iff, existsb_false.
    intros m Hm. apply andb_false_iff. right. apply bool_decide_eq_false. apply Hmap.
    unfold mappings, mappings_for in Hm. by apply elem_of_filter_b in Hm as [Hm _].
Qed.

(** A mapping of one kind of principal grants to every kind: the department an
    administrator has mapped to a person is granted to a group that carries the same id. *)
Theorem mapping_kind_ignored (db : kbdb) (cn : connector) (permissions : list principal)
    (previous : external_metadata) (p : principal) (m : external_group_mapping) (x : department)
    (Hp : p ∈ permissions) (Hpi : truthy (pr_principal_id p) = true)
    (Hm : m ∈ t_group_mappings db) (Hmc : gm_connector_id m = cn_id cn) (Hma : gm_active m = true)
    (Hmi : gm_principal_id m = pr_principal_id p) (Hkind : gm_principal_type m <> principal_kind p)
    (Hx : x ∈ t_departments db) (Hxi : dp_id x = gm_department_id m)
    (Hxc : dp_company_domain x = cn_company_domain cn) :
  gm_department_id m ∈ em_mapped_department_ids (resolved_metadata db cn permissions previous).
Proof.
  clear Hkind. unfold em_mapped_department_ids, resolved_metadata. cbv zeta. cbn [k_mapped_department_ids default from_option].
  apply elem_sort_ids, elem_of_union. left. apply elem_of_list_to_set, elem_of_map. exists m. split; [done|].
  unfold mappings_for. apply elem_of_filter_b. split; [done|].
  rewrite Hmc, Hma, Z.eqb_refl. cbn [andb]. apply andb_true_iff. split.
  - apply existsb_elem. exists (pr_principal_id p). rewrite bool_decide_eq_true. split; [|done].
    apply elem_of_map. exists (principal_kind p, pr_principal_id p). split; [done|].
    apply elem_of_dedup, elem_of_map. exists p. split; [done|]. by apply elem_of_filter_b.
  - apply existsb_elem. exists x. by rewrite Hxi, Hxc, Z.eqb_refl, String.eqb_refl.
Qed.
End ResolutionGaps.

(** ** A concrete environment and a connector *)

Definition ascii_lower (c : Z) : Z := if is_upper c then c + 32 else c.
Definition acl_env : KbEnv :=
  {| py_lower := map ascii_lower; sql_lower := map ascii_lower;
     parse_uuid := fun s => match s with [c] => Some c | _ => None end;
     show_uuid := fun i => [i];
     parse_datetime := fun s => Some (len s);
     sha256_hex := id |}.
Definition acl_unicode : AclEnv :=
  {| nfd := id; nonspacing := fun _ => false; CONNECTOR_ACL_AUTO_RESOLVE := true |}.
Definition acl_laws : @UuidLaws acl_env.
Proof. intros i. reflexivity. Defined.

Definition drive : connector :=
  mkConnector 50 $"Drive" "onedrive" "active" None None "acme.test" None [] [] true.
Definition it : department := sample_dept 2 $"IT".
Definition hr : department := sample_dept 3 $"HR".

(** An article of IT and HR, with an internal grant to the account 7. *)
Definition drive_article : article :=
  ex_article <| a_id := 5 |> <| a_departments := [it; hr] |> <| a_dept := $"IT" |>
    <| a_user_permissions := [mkAUP 7 "allow" None] |>.
Definition acl_db : kbdb :=
  empty_db <| t_articles := {[5 := drive_article]} |> <| t_departments := [it; hr] |>
    <| t_users := [sample_user 6 "Staff" [it]; sample_user 7 "Staff" [hr]] |>.
Definition drive_metadata (departments : list uuid) (users : list pystr) : external_metadata :=
  no_metadata <| k_mapped_department_ids := Some departments |>
    <| k_mapped_source_user_ids := Some users |> <| k_provider_acl_present := Some true |>.
Definition drive_document (m : external_metadata) : external_document :=
  mkExternalDocument 40 50 (Some 1) (Some 5) $"drive" $"file-1" None $"policy.md" None None None None
    None "active" m.

Lemma drive_one_connector : one_connector acl_db "onedrive" drive_article.
Proof.
  constructor.
  - vm_compute. set_solver.
  - intros x y Hx Hy. change (x ∈ [it; hr]) in Hx. change (y ∈ [it; hr]) in Hy.
    rewrite !elem_of_cons, elem_of_nil in Hx. rewrite !elem_of_cons, elem_of_nil in Hy.
    intros He. destruct Hx as [->|[->|[]]], Hy as [->|[->|[]]]; [done|discriminate He..|done].
  - intros p s Hp. change (p ∈ [mkAUP 7 "allow" None]) in Hp. by apply list_elem_of_singleton in Hp as ->.
Qed.


(** An empty list, then one that maps both departments again. *)
Lemma lost_access_never_returns_witness :
  exists a2 (s2 : session kbdb event), t_articles (working s2) !! 5 = Some a2 /\ a_departments a2 = [] /\ a_visibility a2 = "users"
    /\ forall u, can_view_article u a2 = true -> u_id u = 7.
Proof.
  destruct (@lost_access_never_returns acl_env acl_laws drive (drive_document (drive_metadata [] []))
    (drive_document (drive_metadata [2; 3] [])) 5 drive_article (open_session acl_db)
    eq_refl eq_refl) as (s1 & s2 & a2 & _ & _ & _ & Ha & Hd & Hv & Hr).
  - vm_compute. reflexivity.
  - reflexivity.
  - vm_compute. reflexivity.
  - vm_compute. discriminate.
  - vm_compute. discriminate.
  - exact drive_one_connector.
  - reflexivity.
  - reflexivity.
  - reflexivity.
  - reflexivity.
  - reflexivity.
  - exists a2, s2. split; [exact Ha|]. split; [exact Hd|]. split; [exact Hv|].
    intros u Hu. apply Hr in Hu. vm_compute in Hu. by apply list_elem_of_singleton in Hu.
Defined.

(** The article after an administrator has taken HR and the grant of 7 away. *)
Definition edited_db : kbdb :=
  acl_db <| t_articles := {[5 := drive_article <| a_departments := [it] |> <| a_user_permissions := [] |>]} |>.
Definition recorded_metadata : external_metadata :=
  (drive_metadata [2; 3] [[7]]) <| k_internal_acl_snapshot := Some (mkInternalAcl "department" [2; 3] [7]) |>.

Lemma later_edit_undone_witness :
  exists s' a', @_apply_mapped_groups acl_env true drive (drive_document recorded_metadata) (open_session edited_db)
      = (Return tt, s')
    /\ t_articles (working s') !! 5 = Some a' /\ hr ∈ a_departments a'
    /\ mkAUP 7 "allow" (Some "onedrive") ∈ a_user_permissions a'.
Proof.
  destruct (@_apply_mapped_groups acl_env true drive (drive_document recorded_metadata) (open_session edited_db))
    as [[[]|e] s'] eqn:Hrun; [|vm_compute in Hrun; discriminate].
  exists s'.
  destruct (@later_edit_undone acl_env acl_laws true drive (drive_document recorded_metadata) 5
    (drive_article <| a_departments := [it] |> <| a_user_permissions := [] |>)
    (mkInternalAcl "department" [2; 3] [7]) hr 7 (open_session edited_db) s' eq_refl) as (a' & Ha & Hd & Hp);
    [vm_compute; reflexivity|reflexivity|reflexivity|reflexivity| |reflexivity| | | | |exact Hrun|].
  - right. by left.
  - right. by left.
  - right. by left.
  - by left.
  - by left.
  - exists a'. by split_and!.
Defined.

Definition google : connector := drive <| cn_system := "google_drive" |>.
Definition mixed : principal := mkPrincipal (Some "user") $"An@acme.test" None (Some $"reader") None None.
Definition an : user :=
  mkUser 6 $"an@acme.test" $"An" "acme.test" None "Staff" true [] [] [].
Definition an_db : kbdb :=
  empty_db <| t_users := [an] |>.

Lemma mixed_case_address_blocks_witness :
  $"An@acme.test" ∈ em_unmapped_source_user_ids
    (@resolved_metadata acl_env acl_unicode an_db google [mixed] no_metadata).
Proof.
  apply (@mixed_case_address_blocks acl_env acl_unicode an_db google [mixed] no_metadata mixed
    an $"An@acme.test" eq_refl).
  - by left.
  - reflexivity.
  - reflexivity.
  - reflexivity.
  - by left.
  - reflexivity.
  - reflexivity.
  - reflexivity.
  - reflexivity.
  - intros t Ht. destruct t as [|c t]; [discriminate|]. cbn in Ht. injection Ht as Ht _.
    unfold ascii_lower, is_upper in Ht.
    destruct (Z.leb_spec 65 c), (Z.leb_spec c 90); 
      cbn in Ht; change (Z.of_nat _) with 65 in Ht; lia.
  - intros y Hy. by apply elem_of_nil in Hy.
  - intros m Hm. by apply elem_of_nil in Hm.
Defined.

(** HR mapped to the person "shared", and a group of the same id on the list. *)
Definition shared_group : principal := mkPrincipal (Some "group") $"shared" None None None None.
Definition kind_db : kbdb :=
  empty_db <| t_departments := [it; hr] |> <| t_group_mappings := [mkGroupMapping 50 "user" $"shared" 3 true] |>.

Lemma mapping_kind_ignored_witness :
  3 ∈ em_mapped_department_ids (@resolved_metadata acl_env acl_unicode kind_db drive [shared_group] no_metadata).
Proof.
  apply (@mapping_kind_ignored acl_env acl_unicode kind_db drive [shared_group] no_metadata shared_group
    (mkGroupMapping 50 "user" $"shared" 3 true) hr).
  - by left.
  - reflexivity.
  - by left.
  - reflexivity.
  - reflexivity.
  - reflexivity.
  - discriminate.
  - right. by left.
  - reflexivity.
  - reflexivity.
Defined.
