(* ===== verification/CloudSync.v ===== *)
(** * The walk of a cloud connector (src/domain/cloud_sync.py)

    [sync_cloud_connector]: the changes a provider reports for the selected scopes become
    documents, access lists, versions and drafts of the review workflow; a failing item is
    quarantined on its own, a failing connector ends the run, and the cursor advances when a
    scope has been walked. The provider's answers, document parsing, the language model that
    routes candidates, object storage and the formatter's queue are the class [Provider]. *)

From S2P Require Import Prelude PyText Models Rbac Permissions Store Drafts SourceAcl.
From Stdlib Require String.
#[local] Open Scope string_scope.
#[local] Open Scope list_scope.
#[local] Open Scope Z_scope.

(** [NormalizedChange] (src/domain/connector_adapters.py), the fields the walk reads *)
Record change := NormalizedChange {
  ch_external_id : pystr;
  ch_corpus_id : pystr;
  ch_name : pystr;
  ch_state : string;
  ch_revision : option pystr;
  ch_mime_type : option pystr;
  ch_parent_external_id : option pystr;
  ch_web_url : option pystr;
  ch_metadata : json
}.

(** What the walk asks of the outside. [authorized] is [ensure_connector_authorized];
    [dispatch_format] answers whether the formatter's task was queued, false when queueing
    raised. [ids n k] is the [k]-th identifier drawn for change number [n]. *)
Class Provider := {
  authorized : connector -> outcome unit;
  incremental_changes : connector -> source_scope -> option pystr -> outcome (list change * option pystr);
  provider_permissions : connector -> change -> outcome (list principal);
  download : connector -> change -> outcome pystr;
  content_sha256 : pystr -> pystr;
  extract_source_pages : pystr -> pystr -> outcome (option (list json));
  extract_source_markdown : pystr -> pystr -> option (list json) -> outcome pystr;
  save_source : pystr -> pystr -> pystr -> string -> outcome pystr;
  route_document_candidates : pystr -> pystr -> list department -> list draft_candidate;
  dispatch_format : uuid -> bool;
  CONNECTOR_AUTO_PUBLISH_MODE : pystr;
  str_exc : exn -> pystr;
  ids : Z -> nat -> uuid
}.

(** ** Text *)

(** [s.rsplit(sep, 1)\[0\]] *)
Fixpoint before_last (sep : Z) (s : pystr) : pystr :=
  match s with
  | [] => []
  | c :: s' => if existsb (Z.eqb sep) s' then c :: before_last sep s'
               else if c =? sep then [] else s
  end.
Definition ends_with (suffix s : pystr) : bool := starts_with (rev suffix) (rev s).

Definition SUPPORTED_EXTENSIONS : list pystr :=
  [$".pdf"; $".docx"; $".xlsx"; $".xlsm"; $".pptx"; $".txt"; $".md"; $".csv"; $".png"; $".jpg";
   $".jpeg"; $".tif"; $".tiff"; $".bmp"; $".webp"].
Definition _INGESTIBLE_GOOGLE_EDITORS : list pystr := [$"document"; $"presentation"; $"spreadsheet"].

(** ** Failures of one item *)

Definition _SCOPE_FATAL_CODES : list string :=
  ["401"; "403"; "429"; "500"; "502"; "503"; "504"; "not_authorized"; "invalid_auth_mode";
   "no_access_token"; "unsupported_provider"; "unsupported_publication_mode"; "resync_required";
   "untrusted_url"].
Definition _MAX_ITEM_ATTEMPTS : Z := 3.
Definition _MAX_CONSECUTIVE_ITEM_FAILURES : Z := 25.

Definition _is_item_level_failure (e : exn) : bool :=
  match e with
  | ConnectorProviderError _ _ code => negb (mem (default "" code) _SCOPE_FATAL_CODES)
  | _ => true
  end.

(** [exc.__class__.__name__] *)
Definition exception_name (e : exn) : string :=
  match e with
  | ConnectorProviderError _ _ _ => "ConnectorProviderError"
  | HTTPException _ _ => "HTTPException"
  | ValueError _ => "ValueError"
  | IntegrityError _ => "IntegrityError"
  | AssertionError => "AssertionError"
  | RuntimeError _ => "RuntimeError"
  | MultipleResultsFound => "MultipleResultsFound"
  | IndexError => "IndexError"
  | AttributeError => "AttributeError"
  end.
(** [getattr(exc, "code", None) or exc.__class__.__name__]; SQLAlchemy's IntegrityError has the
    documentation code gkpj. *)
Definition exception_code (e : exn) : string :=
  match e with
  | ConnectorProviderError _ _ (Some c) => if String.eqb c "" then exception_name e else c
  | IntegrityError _ => "gkpj"
  | _ => exception_name e
  end.
(** [bool(getattr(exc, "retryable", True))] *)
Definition exception_retryable (e : exn) : bool :=
  match e with ConnectorProviderError _ r _ => r | _ => true end.

Definition _ingest_failure (document : option external_document) : option ingest_failure :=
  d ← document; k_ingest_failure (ed_metadata d).

Definition revision_text (c : change) : pystr := default [] (ch_revision c).

Definition _is_quarantined (document : external_document) (c : change) : bool :=
  match _ingest_failure (Some document) with
  | Some f => bool_decide (if_revision f = revision_text c) && (_MAX_ITEM_ATTEMPTS <=? if_attempts f)
  | None => false
  end.

(** The attempts of the revision, this one included. *)
Definition next_attempt (previous : option ingest_failure) (c : change) : Z :=
  match previous with
  | Some f => if bool_decide (if_revision f = revision_text c) then if_attempts f + 1 else 1
  | None => 1
  end.

Definition _needs_content_ingest (is_file previous_exists : bool) (previous_revision current_revision : option pystr)
    (has_content_hash pending_draft_needs_candidates : bool) : bool :=
  is_file && (negb previous_exists || negb (bool_decide (previous_revision = current_revision))
              || negb has_content_hash || pending_draft_needs_candidates).

(** ** Rows *)

(** [scalar_one_or_none()] *)
Definition one_or_none {A} (l : list A) : KB (option A) :=
  match l with [] => mret None | [x] => mret (Some x) | _ => raise MultipleResultsFound end.

Definition find_document (db : kbdb) (connector_id : uuid) (c : change) : option external_document :=
  List.find (fun d => Z.eqb (ed_connector_id d) connector_id
       && bool_decide (ed_corpus_id d = ch_corpus_id c)
       && bool_decide (ed_external_id d = ch_external_id c)) (rows (t_external_documents db)).

(** The pending draft of a document. *)
Definition pending_of (document_id : uuid) : KB (option pending_draft) :=
  found ← query (fun db => List.filter (fun d => bool_decide (d_external_document_id d = Some document_id)
                  && String.eqb (d_status d) "pending") (rows (t_drafts db)));
  one_or_none found.

Definition has_candidates (db : kbdb) (draft_id : uuid) : bool :=
  existsb (fun c => Z.eqb (c_draft_id c) draft_id) (rows (t_candidates db)).

(** [uq_external_acl_principal], enforced when the rows added are flushed *)
Definition duplicate_principals (db : kbdb) : bool :=
  negb (bool_decide (NoDup (map (fun p => (xp_permission_snapshot_id p, xp_principal_type p,
                                           xp_principal_id p)) (t_acl_principals db)))).
Definition flush_principals : KB unit :=
  bad ← query duplicate_principals;
  ensure (negb bad) (IntegrityError "uq_external_acl_principal").

Definition put_connector (c : connector) : KB unit :=
  write (fun db => db <| t_connectors := <[cn_id c := c]> (t_connectors db) |>).
Definition put_job (j : connector_job) : KB unit :=
  write (fun db => db <| t_jobs := <[jb_id j := j]> (t_jobs db) |>).
Definition add_sync_error (x : sync_error) : KB unit :=
  write (fun db => db <| t_sync_errors := t_sync_errors db ++ [x] |>).

Definition same_cursor (connector_id scope_id : uuid) (c : sync_cursor) : bool :=
  Z.eqb (cu_connector_id c) connector_id && Z.eqb (cu_scope_id c) scope_id.
Definition find_cursor (db : kbdb) (connector_id scope_id : uuid) : option sync_cursor :=
  List.find (same_cursor connector_id scope_id) (t_cursors db).
Definition put_cursor (c : sync_cursor) : KB unit :=
  write (fun db =>
    let same := same_cursor (cu_connector_id c) (cu_scope_id c) in
    db <| t_cursors := if existsb same (t_cursors db)
                       then map (fun x => if same x then c else x) (t_cursors db)
                       else t_cursors db ++ [c] |>).
(** The cursor row of a scope, new when there is none. *)
Definition cursor_or_new (db : kbdb) (cn : connector) (scope_id : uuid) : sync_cursor :=
  default (mkCursor (cn_id cn) scope_id (cursor_type (cn_system cn)) None None "ready" false None None)
    (find_cursor db (cn_id cn) scope_id).

Definition active_departments (company : string) (db : kbdb) : list department :=
  List.filter (fun d => String.eqb (dp_company_domain d) company && dp_active d) (t_departments db).

Definition _notify_connector_state_change (cn : connector) (event : string) (detail : option pystr) : KB unit :=
  match cn_created_by cn with
  | None => mret tt
  | Some owner =>
      add_notification (mkNotification (Some owner) "in_app"
        [("event", PEvent event); ("connector_id", PId (cn_id cn));
         ("connector_name", PText (cn_name cn)); ("provider", PEvent (cn_system cn));
         ("detail", match upto 500 (default [] detail) with [] => PNone | t => PText t end)])
  end.

(** [_record_permission_change_audits] *)
Definition _record_permission_change_audits (article_ids : list uuid) (actor : option uuid) : KB unit :=
  for_each (dedup article_ids) (fun i =>
    add_audit (mkAudit actor "permission_change" "article" (Some i))).

Section Walk.
Context `{KbEnv, AclEnv, Provider}.

(** [str(exc)] *)
Definition exception_text (e : exn) : pystr :=
  match e with ConnectorProviderError m _ _ => m | _ => str_exc e end.

(** An answer of the outside. *)
Definition ask {A} (o : outcome A) : KB A := fun s => (o, s).

Definition _unsupported_reason (name : pystr) (mime_type : option pystr) : option pystr :=
  if match mime_type with Some m => starts_with $"application/vnd.google-apps." m | None => false end then
    let editor := after_last 46 (default [] mime_type) in
    if text_in editor _INGESTIBLE_GOOGLE_EDITORS then None
    else Some ($"Google Drive " ++ editor ++ $" files cannot be indexed")
  else
    let suffix := if existsb (Z.eqb 46) name then [46] ++ py_lower (after_last 46 name) else [] in
    if text_in suffix SUPPORTED_EXTENSIONS then None
    else Some ($"Unsupported file type (" ++ or_text (Some suffix) $"no extension" ++ $")").

(** [_record_item_failure]: on a clean transaction, so the session was rolled back. *)
Definition _record_item_failure (now : datetime) (connector_id job_id : uuid) (c : change) (reason : pystr)
    (code : string) (retryable : bool) : KB Z :=
  document ← query (fun db => find_document db connector_id c);
  let attempts := next_attempt (_ingest_failure document) c in
  match document with
  | Some d =>
      put_document (d <| ed_metadata := (ed_metadata d) <| k_ingest_failure :=
        Some (mkIngestFailure (revision_text c) (upto 500 reason) (Some code) attempts now) |> |>)
  | None => mret tt
  end ;;
  add_sync_error (mkSyncError connector_id job_id (ed_id <$> document) "ingest"
    (Some (String.substring 0 80 code)) (upto 4000 reason) retryable attempts) ;;
  commit ;;
  mret attempts.

Definition _clear_ingest_failure (d : external_document) : external_document :=
  d <| ed_metadata := (ed_metadata d) <| k_ingest_failure := None |> |>.

Definition _upsert_document (cn : connector) (scope : source_scope) (new_id : uuid) (c : change)
    : KB external_document :=
  found ← query (fun db => find_document db (cn_id cn) c);
  let document := default (mkExternalDocument new_id (cn_id cn) (Some (sc_id scope)) None (ch_corpus_id c)
      (ch_external_id c) None (ch_name c) None None None None None "active" no_metadata) found in
  let document := document <| ed_scope_id := Some (sc_id scope) |> in
  let document : external_document :=
    if negb (String.eqb (ch_state c) "deleted") || match ch_metadata c with [] => false | _ => true end
    then document <| ed_name := ch_name c |> <| ed_parent_external_id := ch_parent_external_id c |>
           <| ed_mime_type := ch_mime_type c |> <| ed_web_url := ch_web_url c |>
           <| ed_revision := ch_revision c |>
    else document in
  let document := document <| ed_metadata := (ed_metadata document)
      <| k_provider := json_merge (k_provider (ed_metadata document)) (ch_metadata c) |> |>
    <| ed_state := ch_state c |> in
  put_document document ;;
  mret document.

(** ** Drafts of imported documents *)

(** The rows of the candidates the router proposes, numbered from [base]. *)
Definition candidate_rows (fresh : nat -> uuid) (draft_id : uuid) (items : list draft_candidate)
    : list draft_candidate :=
  imap (fun k item => item <| c_id := fresh k |> <| c_draft_id := draft_id |>) items.

Definition add_candidates (fresh : nat -> uuid) (draft_id : uuid) (items : list draft_candidate) : KB unit :=
  for_each (candidate_rows fresh draft_id items) put_candidate.

(** A draft formatted by the language model is remembered for dispatch after the commit. *)
Definition _queue_draft_formatting (d : pending_draft) (wanted : bool) : pending_draft * list uuid :=
  if wanted && bool_decide (is_Some (d_created_by d))
  then (d <| d_restructure_status := "queued" |> <| d_restructure_error := None |>, [d_id d])
  else (d, []).

(** The import is submitted by its author, or enters the queue directly when it has none. *)
Definition submit_import (now : datetime) (d : pending_draft) : KB unit :=
  actor ← query (fun db => i ← d_created_by d; get_user_by_id db i None);
  match actor with
  | Some u =>
      submit_draft now u (d_id d) (Some $"Connector source submitted for independent approval") ;; mret tt
  | None =>
      put_draft (d <| d_status := "pending" |>) ;;
      add_transition (mkTransition (d_id d) (Some "draft") "pending" None
                        (Some $"Connector source submitted") "applied")
  end.

Definition format_import (draft_id : uuid) (wanted : bool) : KB (list uuid) :=
  stored ← query (fun db => t_drafts db !! draft_id);
  match stored with
  | Some stored =>
      let '(d', queued) := _queue_draft_formatting stored wanted in
      put_draft d' ;; mret queued
  | None => mret []
  end.

(** [_persist_connector_draft]: the draft enters the workflow as its author's; the ids queued
    for formatting are the answer. *)
Definition _persist_connector_draft (now : datetime) (fresh : nat -> uuid) (cn : connector) (d : pending_draft)
    (text : pystr) (wanted : bool) : KB (list uuid) :=
  ensure (bool_decide (py_lower (strip CONNECTOR_AUTO_PUBLISH_MODE) = $"governed"))
    (ConnectorProviderError $"CONNECTOR_AUTO_PUBLISH_MODE currently supports only governed publication"
       false (Some "unsupported_publication_mode")) ;;
  taken ← query (fun db => bool_decide (is_Some (t_drafts db !! d_id d)));
  ensure (negb taken) (IntegrityError "pending_drafts_pkey") ;;
  put_draft d ;;
  add_transition (mkTransition (d_id d) None "draft" (d_created_by d)
                    (Some $"Connector source imported") "applied") ;;
  departments ← query (active_departments (cn_company_domain cn));
  add_candidates fresh (d_id d) (route_document_candidates (d_title d) text departments) ;;
  submit_import now d ;;
  format_import (d_id d) wanted.

Definition _replace_split_candidates (fresh : nat -> uuid) (d : pending_draft) (text : pystr) : KB unit :=
  write (fun db => db <| t_candidates :=
    filter (fun e : uuid * draft_candidate => c_draft_id e.2 <> d_id d) (t_candidates db) |>) ;;
  departments ← query (active_departments (d_company_domain d));
  add_candidates fresh (d_id d) (route_document_candidates (d_title d) text departments).

(** [_dispatch_queued_formats] *)
Definition _dispatch_queued_formats (queue : list uuid) : KB unit :=
  match List.filter (fun i => negb (dispatch_format i)) queue with
  | [] => mret tt
  | failed =>
      write (fun db => db <| t_drafts := (fun d => if existsb (Z.eqb (d_id d)) failed
        then d <| d_restructure_status := "fallback_formatting" |>
               <| d_restructure_model := Some $"lossless-markdown" |>
               <| d_restructure_error :=
                    Some $"AI formatting could not be queued; retry from Pending Drafts." |>
        else d) <$> t_drafts db |>) ;;
      commit
  end.

(** ** Deletions *)

(** A draft, a source of an article or a version of a document points at the object. *)
Definition referenced (db : kbdb) (key : pystr) : bool :=
  existsb (fun d => bool_decide (d_storage_key d = Some key)) (rows (t_drafts db))
  || existsb (fun a => existsb (fun s => bool_decide (ds_storage_key s = Some key)) (a_sources a))
       (rows (t_articles db))
  || existsb (fun v => bool_decide (dv_storage_key v = Some key)) (t_document_versions db).

(** The keys [_cleanup_unreferenced_source_keys] deletes from storage. *)
Definition unreferenced_keys (db : kbdb) (keys : list pystr) : list pystr :=
  List.filter (fun k => negb (referenced db k)) (dedup (List.filter truthy keys)).

Definition deletion_reason : pystr := $"Source document was deleted by the provider during sync".

(** A draft whose document is gone. *)
Definition rejected_by_deletion (now : datetime) (actor : option uuid) (d : pending_draft) : pending_draft :=
  d <| d_storage_key := match d_storage_key d with Some (_ :: _) => None | k => k end |>
    <| d_status := "rejected" |> <| d_reviewed_by := actor |> <| d_reviewed_at := Some now |>
    <| d_review_note := Some deletion_reason |>.

Definition open_draft_of (document_id : uuid) (d : pending_draft) : bool :=
  bool_decide (d_external_document_id d = Some document_id) && mem (d_status d) ["draft"; "pending"].

(** The storage keys to clean up and the article taken out of service. *)
Definition _handle_deleted_document (now : datetime) (document : external_document) (actor : option uuid)
    : KB (list pystr * option uuid) :=
  put_document (document <| ed_state := "deleted" |>) ;;
  drafts ← query (fun db => List.filter (open_draft_of (ed_id document)) (rows (t_drafts db)));
  for_each drafts (fun d =>
    add_transition (mkTransition (d_id d) (Some (d_status d)) "rejected" actor (Some deletion_reason) "applied") ;;
    put_draft (rejected_by_deletion now actor d)) ;;
  let keys := omap (fun d => match d_storage_key d with Some (c :: k) => Some (c :: k) | _ => None end) drafts in
  article ← query (fun db => i ← ed_article_id document; t_articles db !! i);
  match article with
  | Some a =>
      put_article (a <| a_lifecycle_status := Some "inactive" |>) ;;
      add_audit (mkAudit actor "delete" "article" (Some (a_id a)))
  | None => mret tt
  end ;;
  add_audit (mkAudit actor "delete" "external_document" (Some (ed_id document))) ;;
  mret (keys, a_id <$> article).

(** ** Content *)

Definition title_of (c : change) : pystr := upto 255 (before_last 46 (ch_name c)).

(** The draft of an imported document; [dept], [target], [md] and the formatting columns
    depend on whether it revises an article. *)
Definition import_draft (now : datetime) (new_id : uuid) (cn : connector) (document : external_document) (c : change)
    (content_hash text storage_key : pystr) (pages : option (list json)) (dept : option pystr)
    (target : option uuid) (md : content_metadata) (restructure_status : string)
    (restructure_model : option pystr) : pending_draft :=
  mkDraft new_id (title_of c) (cn_company_domain cn) dept
    ($(cn_system cn) ++ $"://" ++ ch_corpus_id c ++ $"/" ++ ch_external_id c) content_hash
    (Some text) (Some text) None "not_reviewed" restructure_status restructure_model None
    (Some storage_key) (Some (ch_name c)) (ch_mime_type c) pages false target None None md "draft"
    (cn_created_by cn) None None None None None None (Some (ed_id document)) now.

(** The metadata of a draft that revises an article *)
Definition revision_metadata (a : article) : content_metadata :=
  empty_metadata <| md_domain := Some (a_domain a) |> <| md_type := Some (a_type a) |>
    <| md_sensitivity := Some (a_sensitivity a) |> <| md_language := Some (a_language a) |>
    <| md_department_ids := map (fun d => show_uuid (dp_id d)) (a_departments a) |>
    <| md_submission_kind := Some "connector_update" |>
    <| md_suggested_update_article_id := Some (show_uuid (a_id a)) |>.

(** The metadata a connector routed to departments gives its drafts *)
Definition routed_metadata (cn : connector) : content_metadata :=
  match cn_department_ids cn with
  | [] => empty_metadata
  | department_ids =>
      empty_metadata <| md_department_ids := department_ids |>
        <| md_department_names := cn_department_names cn |>
        <| md_submission_kind := Some "connector_import" |>
  end.

(** The previous object of a draft, when the new content replaces it *)
Definition replaced_key (d : pending_draft) (storage_key : pystr) : list pystr :=
  match d_storage_key d with
  | Some (c :: k) => if bool_decide (c :: k = storage_key) then [] else [c :: k]
  | _ => []
  end.

Definition add_document_version (v : document_version) : KB unit :=
  write (fun db => db <| t_document_versions := t_document_versions db ++ [v] |>).

(** [_ingest_content]: the document row after it, the storage keys replaced and the drafts to
    format. The adapter's download comes first; an unchanged document repairs its candidates. *)
Definition _ingest_content (now : datetime) (fresh : nat -> uuid) (cn : connector)
    (document : external_document) (c : change) : KB (external_document * list pystr * list uuid) :=
  data ← ask (download cn c);
  let content_hash := content_sha256 data in
  if bool_decide (ed_content_hash document = Some content_hash)
     && bool_decide (ed_revision document = ch_revision c) then
    existing ← pending_of (ed_id document);
    match existing with
    | None => mret (document, [], [])
    | Some d =>
        bare ← query (fun db => negb (has_candidates db (d_id d)));
        if bare : bool then
          pages ← ask (extract_source_pages (ch_name c) data);
          text ← ask (extract_source_markdown (ch_name c) data pages);
          put_draft (d <| d_summary := Some text |> <| d_page_texts := pages |>) ;;
          _replace_split_candidates (fun k => fresh (S k)) d text ;;
          mret (document, [], [])
        else mret (document, [], [])
    end
  else
    pages ← ask (extract_source_pages (ch_name c) data);
    text ← ask (extract_source_markdown (ch_name c) data pages);
    storage_key ← ask (save_source content_hash (ch_name c) data (cn_company_domain cn));
    let document : external_document := document <| ed_content_hash := Some content_hash |>
          <| ed_revision := ch_revision c |> <| ed_state := "active" |> in
    put_document document ;;
    let revision := or_text (ch_revision c) content_hash in
    known ← query (fun db => existsb (fun v => Z.eqb (dv_external_document_id v) (ed_id document)
                     && bool_decide (dv_revision v = revision)) (t_document_versions db));
    (if known : bool then mret tt
     else add_document_version (mkDocumentVersion (ed_id document) revision content_hash (Some storage_key)
            "source-extraction-v1" "parent-child-v1" "ready")) ;;
    article ← query (fun db => i ← ed_article_id document; a ← t_articles db !! i;
                       if bool_decide (a_lifecycle_status a = Some "active") then Some a else None);
    match article with
    | Some a =>
        put_article (a <| a_source_changed := true |> <| a_source_changed_at := Some now |>) ;;
        existing ← pending_of (ed_id document);
        match existing with
        | None =>
            _persist_connector_draft now (fun k => fresh (S k)) cn
              (import_draft now (fresh 0%nat) cn document c content_hash text storage_key pages
                 (Some (a_dept a)) (Some (a_id a)) (revision_metadata a) "not_requested" None) text false ;;
            mret (document, [], [])
        | Some d =>
            put_draft (d <| d_title := title_of c |> <| d_source_hash := content_hash |>
              <| d_summary := Some text |> <| d_restructured_body_md := Some text |>
              <| d_storage_key := Some storage_key |> <| d_page_texts := pages |>
              <| d_original_filename := Some (ch_name c) |>
              <| d_content_metadata := revision_metadata a |>) ;;
            _replace_split_candidates (fun k => fresh (S k)) (d <| d_title := title_of c |>) text ;;
            mret (document, replaced_key d storage_key, [])
        end
    | None =>
        existing ← pending_of (ed_id document);
        match existing with
        | None =>
            queued ← _persist_connector_draft now (fun k => fresh (S k)) cn
              (import_draft now (fresh 0%nat) cn document c content_hash text storage_key pages
                 (head (cn_department_names cn)) None (routed_metadata cn) "lossless_ready"
                 (Some $"connector-source")) text true;
            mret (document, [], queued)
        | Some d =>
            let d1 : pending_draft := d <| d_source_hash := content_hash |> <| d_summary := Some text |>
              <| d_storage_key := Some storage_key |> <| d_page_texts := pages |>
              <| d_original_filename := Some (ch_name c) |> in
            let '(d2, queued) := _queue_draft_formatting d1 true in
            let route := negb (otruthy (d_dept d)) && negb (bool_decide (cn_department_names cn = []))
                         && bool_decide (md_department_ids (d_content_metadata d) = []) in
            let d3 : pending_draft :=
              if route then d2 <| d_dept := head (cn_department_names cn) |>
                              <| d_content_metadata := routed_metadata cn |> else d2 in
            put_draft d3 ;;
            _replace_split_candidates (fun k => fresh (S k)) d3 text ;;
            mret (document, replaced_key d storage_key, queued)
        end
    end.

(** ** The walk *)

(** The Python objects of a run, which survive a rollback of the session. [wk_reported] says
    that [job.summary_json] is the very dict the run counts in: assigning a mutated object to
    the attribute that already holds it is no change to the ORM and is not written. *)
Record walk := mkWalk {
  wk_summary : sync_summary;
  wk_reported : bool;
  wk_cleanup_keys : list pystr;
  wk_format_queue : list uuid;
  wk_consecutive_failures : Z;
  wk_removed_objects : list pystr
}.
#[export] Instance eta_walk : Eta walk := fun w => mkWalk (wk_summary w) (wk_reported w)
  (wk_cleanup_keys w) (wk_format_queue w) (wk_consecutive_failures w) (wk_removed_objects w).

(** A step of the run: exceptions roll nothing of the walk back. *)
Definition W (A : Type) : Type := walk -> session kbdb event -> outcome A * walk * session kbdb event.

#[export] Instance W_ret : MRet W := fun A a w s => (Return a, w, s).
#[export] Instance W_bind : MBind W := fun A B k m w s =>
  match m w s with
  | (Return a, w', s') => k a w' s'
  | (Raise e, w', s') => (Raise e, w', s')
  end.
Definition lift {A} (m : KB A) : W A := fun w s => let '(o, s') := m s in (o, w, s').
Definition get_walk : W walk := fun w s => (Return w, w, s).
Definition change_walk (f : walk -> walk) : W unit := fun w s => (Return tt, f w, s).
Definition count (f : sync_summary -> sync_summary) : W unit :=
  change_walk (fun w => w <| wk_summary := f (wk_summary w) |>).
Definition wcatch {A} (m : W A) (h : exn -> W A) : W A := fun w s =>
  match m w s with
  | (Return a, w', s') => (Return a, w', s')
  | (Raise e, w', s') => h e w' s'
  end.
Fixpoint each {A} (l : list A) (f : A -> W unit) : W unit :=
  match l with
  | [] => mret tt
  | x :: l' => f x ;; each l' f
  end.

(** [job.summary_json = summary] *)
Definition report_summary (job_id : uuid) : W unit :=
  w ← get_walk;
  if wk_reported w then mret tt
  else
    lift (write (fun db => db <| t_jobs :=
      alter (fun j => j <| jb_summary_json := Some (wk_summary w) |>) job_id (t_jobs db) |>)) ;;
    change_walk (fun w => w <| wk_reported := true |>).

(** [_cleanup_unreferenced_source_keys] *)
Definition cleanup (keys : list pystr) : W unit :=
  removed ← lift (query (fun db => unreferenced_keys db keys));
  change_walk (fun w => w <| wk_removed_objects := wk_removed_objects w ++ removed |>).

(** [_note_item_outcome] *)
Definition note_outcome (e : item_entry) (y : sync_summary) : sync_summary :=
  let y : sync_summary := if len (sy_items y) <? 200 then y <| sy_items := sy_items y ++ [e] |> else y in
  match ie_reason e with
  | Some (_ :: _) => if len (sy_errors y) <? 50 then y <| sy_errors := sy_errors y ++ [e] |> else y
  | _ => y
  end.

(** The last scope entry counts the changes of the scope being walked. *)
Definition saw_change (y : sync_summary) : sync_summary :=
  y <| sy_changes_seen := sy_changes_seen y + 1 |>
    <| sy_scopes := match rev (sy_scopes y) with
                    | e :: l => rev (mkScopeEntry (se_scope_id e) (se_name e) (se_changes e + 1) :: l)
                    | [] => [] end |>.

Definition is_deleted (c : change) : bool := String.eqb (ch_state c) "deleted".

Definition effective_mime (c : change) (previous : option external_document) : option pystr :=
  match ch_mime_type c with
  | Some (x :: m) => Some (x :: m)
  | _ => p ← previous; ed_mime_type p
  end.
(** What the provider reports is a file. *)
Definition is_file (c : change) (previous : option external_document) : bool :=
  match effective_mime c previous with
  | Some (x :: m) => negb (ends_with $".folder" (x :: m))
  | _ => false
  end.
Definition unsupported (c : change) (previous : option external_document) : option pystr :=
  if is_file c previous && negb (is_deleted c) then _unsupported_reason (ch_name c) (ch_mime_type c) else None.

(** A pending draft of the document that has no candidates *)
Definition pending_needs_candidates (document_id : uuid) (db : kbdb) : bool :=
  match List.filter (fun d => bool_decide (d_external_document_id d = Some document_id)
                              && String.eqb (d_status d) "pending") (rows (t_drafts db)) with
  | d :: _ => negb (has_candidates db (d_id d))
  | [] => false
  end.

Definition quarantine_reason (document : external_document) : pystr :=
  $"Import failed 3 times for this version; not retried until the file changes at the source. Last error: "
  ++ match _ingest_failure (Some document) with Some f => if_reason f | None => $"None" end.

(** The body of the try block for one change: the action taken and its reason. *)
Definition item_body (now : datetime) (cn : connector) (scope : source_scope) (actor : option uuid)
    (n : Z) (c : change) (previous : option external_document) : W (string * option pystr) :=
  let file := is_file c previous in
  let refused := unsupported c previous in
  document ← lift (_upsert_document cn scope (ids n 0) c);
  let fetch := negb (is_deleted c) && file && bool_decide (refused = None) in
  saved ← lift (if fetch then permissions ← ask (provider_permissions cn c);
                              _save_permissions (ids n 1) cn document permissions
                else mret (document, false));
  let '(document, acl_changed) := (saved : external_document * bool) in
  (if file then count (fun y => y <| sy_files_seen := sy_files_seen y + 1 |>) else mret tt) ;;
  lift (flush_principals ;; commit) ;;
  bare ← lift (if fetch then query (pending_needs_candidates (ed_id document)) else mret false);
  outcome ←
    (if is_deleted c then
       (if file then count (fun y => y <| sy_deleted := sy_deleted y + 1 |>) else mret tt) ;;
       gone ← lift (_handle_deleted_document now document actor);
       let '(keys, article_id) := (gone : list pystr * option uuid) in
       lift commit ;;
       cleanup keys ;;
       lift (match article_id with Some i => publish (ArticleDeleted i) | None => mret tt end) ;;
       mret (document, "deleted", None, false)
     else match refused with
     | Some reason =>
         count (fun y => y <| sy_skipped := sy_skipped y + 1 |>) ;;
         mret (document, "skipped", Some reason, false)
     | None =>
         if _is_quarantined document c then
           count (fun y => y <| sy_skipped := sy_skipped y + 1 |>) ;;
           mret (document, "skipped", Some (quarantine_reason document), false)
         else if _needs_content_ingest file (bool_decide (is_Some previous)) (previous ≫= ed_revision)
                   (ch_revision c) (otruthy (ed_content_hash document)) bare then
           ingested ← lift (_ingest_content now (fun k => ids n (2 + k)) cn document c);
           let '(document, keys, queued) := (ingested : external_document * list pystr * list uuid) in
           change_walk (fun w => w <| wk_cleanup_keys := wk_cleanup_keys w ++ keys |>
                                   <| wk_format_queue := wk_format_queue w ++ queued |>) ;;
           let had_failure := bool_decide (is_Some (k_ingest_failure (ed_metadata document))) in
           lift (put_document (_clear_ingest_failure document)) ;;
           (if bool_decide (is_Some previous)
            then count (fun y => y <| sy_updated := sy_updated y + 1 |>)
            else count (fun y => y <| sy_imported := sy_imported y + 1 |>)) ;;
           mret (_clear_ingest_failure document,
                 if bool_decide (is_Some previous) then "updated" else "imported", None, had_failure)
         else mret (document, "unchanged", None, false)
     end);
  let '(document, action, reason, replaced) :=
    (outcome : external_document * string * option pystr * bool) in
  (match ed_article_id document with
   | Some article_id =>
       if acl_changed then
         lift (_apply_mapped_groups replaced cn document) ;;
         count (fun y => y <| sy_permissions_updated := sy_permissions_updated y + 1 |>) ;;
         lift (_record_permission_change_audits [article_id] actor ;; commit ;;
               publish (PermissionChanged article_id))
       else mret tt
   | None => mret tt
   end) ;;
  (if String.eqb action "unchanged" && file
   then count (fun y => y <| sy_unchanged := sy_unchanged y + 1 |>) else mret tt) ;;
  lift commit ;;
  w ← get_walk;
  lift (_dispatch_queued_formats (wk_format_queue w)) ;;
  change_walk (fun w => w <| wk_format_queue := [] |> <| wk_consecutive_failures := 0 |>) ;;
  mret (action, reason).

(** The handler of the try block: the item is recorded and the walk goes on. *)
Definition item_failed (now : datetime) (cn : connector) (scope : source_scope) (job_id : uuid) (c : change)
    (e : exn) : W (string * option pystr) :=
  if negb (_is_item_level_failure e) then lift (raise e)
  else
    lift rollback ;;
    change_walk (fun w => w <| wk_format_queue := [] |> <| wk_reported := false |>) ;;
    let reason := match exception_text e with [] => $(exception_name e) | t => t end in
    lift (_record_item_failure now (cn_id cn) job_id c reason (exception_code e) (exception_retryable e)) ;;
    count (fun y => y <| sy_failed := sy_failed y + 1 |>) ;;
    change_walk (fun w => w <| wk_consecutive_failures := wk_consecutive_failures w + 1 |>) ;;
    w ← get_walk;
    (if _MAX_CONSECUTIVE_ITEM_FAILURES <=? wk_consecutive_failures w
     then lift (raise (ConnectorProviderError
            ($"Aborted after " ++ show_int (wk_consecutive_failures w)
             ++ $" consecutive item failures; last error: " ++ reason) true (Some "too_many_item_failures")))
     else mret tt) ;;
    there ← lift (query (fun db => bool_decide (is_Some (t_connectors db !! cn_id cn))
              && bool_decide (is_Some (t_jobs db !! job_id)) && bool_decide (is_Some (t_scopes db !! sc_id scope))));
    if there : bool then mret ("failed", Some reason) else lift (raise e).

Definition sync_item (now : datetime) (cn : connector) (scope : source_scope) (job_id : uuid)
    (actor : option uuid) (c : change) : W unit :=
  count saw_change ;;
  previous ← lift (query (fun db => find_document db (cn_id cn) c));
  if is_deleted c && bool_decide (previous = None) then mret tt
  else
    w ← get_walk;
    result ← wcatch (item_body now cn scope actor (sy_changes_seen (wk_summary w)) c previous)
               (item_failed now cn scope job_id c);
    let '(action, reason) := (result : string * option pystr) in
    if is_file c previous
    then count (note_outcome (mkItem (ch_name c) action (sc_display_name scope) (ch_web_url c) reason))
    else mret tt.

(** ** One scope *)

(** A walk without a cursor enumerates the scope (src/domain/connector_adapters.py,
    [full_walk_is_authoritative]): the Graph adapters set it, the Google one does not. *)
Definition full_walk_is_authoritative (system : string) : bool := is_microsoft_graph system.

Definition EXPIRED_CODES : list string := ["410"; "resync_required"; "sync_state_not_found"; "invalid_delta"].

(** The changes since the cursor; an expired cursor is recorded and ends the run. *)
Definition fetch_changes (cn : connector) (scope : source_scope) (cursor : option pystr)
    : W (list change * option pystr) :=
  match incremental_changes cn scope cursor with
  | Return r => mret r
  | Raise (ConnectorProviderError m r code) =>
      if mem (default "" code) EXPIRED_CODES then
        row ← lift (query (fun db => cursor_or_new db cn (sc_id scope)));
        lift (put_cursor (row <| cu_cursor_value := None |> <| cu_status := "invalid" |>
                <| cu_full_sync_required := true |> <| cu_last_error := Some (upto 2000 m) |>) ;;
              commit ;;
              raise (ConnectorProviderError
                $"Provider delta state expired; a full reconciliation has been scheduled" true
                (Some "resync_required")))
      else lift (raise (ConnectorProviderError m r code))
  | Raise e => lift (raise e)
  end.

(** The documents of the scope an authoritative walk did not see *)
Definition stale_documents (cn : connector) (scope_id : uuid) (changes : list change) (db : kbdb)
    : list external_document :=
  List.filter (fun d => Z.eqb (ed_connector_id d) (cn_id cn) && bool_decide (ed_scope_id d = Some scope_id)
      && negb (String.eqb (ed_state d) "deleted")
      && negb (text_in (ed_external_id d) (map ch_external_id changes))) (rows (t_external_documents db)).

Definition sweep_one (now : datetime) (actor : option uuid) (d : external_document) : W unit :=
  gone ← lift (_handle_deleted_document now d actor);
  let '(keys, article_id) := (gone : list pystr * option uuid) in
  change_walk (fun w => w <| wk_cleanup_keys := wk_cleanup_keys w ++ keys |>) ;;
  lift (match article_id with Some i => publish (ArticleDeleted i) | None => mret tt end).

(** The cursor row once the scope has been walked *)
Definition advanced (now : datetime) (next_cursor : option pystr) (reconciled : bool) (c : sync_cursor)
    : sync_cursor :=
  c <| cu_cursor_value := match next_cursor with Some (x :: s) => Some (x :: s) | _ => cu_cursor_value c end |>
    <| cu_last_success_at := Some now |> <| cu_status := "ready" |> <| cu_full_sync_required := false |>
    <| cu_last_reconcile_at := if reconciled then Some now else cu_last_reconcile_at c |>
    <| cu_last_error := None |>.

(** The cursor to walk from, whether a reconciliation was asked for, and whether this walk
    enumerates the scope. *)
Definition walk_plan (cn : connector) (row : option sync_cursor) : option pystr * bool * bool :=
  let requested := match row with None => true | Some c => cu_full_sync_required c end in
  let full := requested && full_walk_is_authoritative (cn_system cn) in
  (if full then None else row ≫= cu_cursor_value, requested, full).

Definition sync_scope (now : datetime) (cn : connector) (job_id : uuid) (actor : option uuid) (scope_id : uuid)
    : W unit :=
  found ← lift (query (fun db => t_scopes db !! scope_id));
  match found with
  | None => mret tt
  | Some scope =>
      count (fun y => y <| sy_scopes := sy_scopes y ++ [mkScopeEntry (sc_id scope) (sc_display_name scope) 0] |>) ;;
      row ← lift (query (fun db => find_cursor db (cn_id cn) (sc_id scope)));
      let '(cursor, requested, full) := walk_plan cn row in
      answer ← fetch_changes cn scope cursor;
      let '(changes, next_cursor) := (answer : list change * option pystr) in
      change_walk (fun w => w <| wk_consecutive_failures := 0 |>) ;;
      each changes (sync_item now cn scope job_id actor) ;;
      (if full && negb (bool_decide (length changes = 0%nat)) then
         stale ← lift (query (stale_documents cn (sc_id scope) changes));
         each stale (sweep_one now actor)
       else mret tt) ;;
      row ← lift (query (fun db => cursor_or_new db cn (sc_id scope)));
      lift (put_cursor (advanced now next_cursor requested row)) ;;
      report_summary job_id ;;
      lift commit ;;
      w ← get_walk;
      cleanup (wk_cleanup_keys w) ;;
      change_walk (fun w => w <| wk_cleanup_keys := [] |>)
  end.

(** ** One run *)

Definition change_job (job_id : uuid) (f : connector_job -> connector_job) : KB unit :=
  write (fun db => db <| t_jobs := alter f job_id (t_jobs db) |>).
Definition change_connector (connector_id : uuid) (f : connector -> connector) : KB unit :=
  write (fun db => db <| t_connectors := alter f connector_id (t_connectors db) |>).

Definition run_audit (actor : option uuid) (job_id : uuid) : audit_log :=
  mkAudit actor "sync" "connector_job" (Some job_id).

Definition run_scopes (now : datetime) (cn : connector) (job_id : uuid) (actor : option uuid) (scope_ids : list uuid)
    : W unit :=
  each scope_ids (sync_scope now cn job_id actor) ;;
  current ← lift (query (fun db => default cn (t_connectors db !! cn_id cn)));
  lift (change_connector (cn_id cn) (fun c => c <| cn_last_sync := Some now |> <| cn_status := "active" |>
                                               <| cn_last_error := None |>)) ;;
  (if String.eqb (cn_status current) "error"
   then lift (_notify_connector_state_change current "connector_sync_recovered" None) else mret tt) ;;
  lift (change_job job_id (fun j => j <| jb_status := "completed" |> <| jb_completed_at := Some now |>)) ;;
  report_summary job_id ;;
  lift (add_audit (run_audit actor job_id) ;; commit).

(** The handler of the whole run: the failure is recorded on a clean transaction. *)
Definition run_failed (cn : connector) (job_id : uuid) (actor : option uuid) (e : exn) : W unit :=
  lift rollback ;;
  change_walk (fun w => w <| wk_reported := false |>) ;;
  current ← lift (query (fun db => t_connectors db !! cn_id cn));
  job ← lift (query (fun db => t_jobs db !! job_id));
  match current, job with
  | Some current, Some job =>
      lift (change_connector (cn_id cn) (fun c => c <| cn_status := "error" |>
              <| cn_last_error := Some (upto 2000 (exception_text e)) |>)) ;;
      (if negb (String.eqb (cn_status current) "error")
       then lift (_notify_connector_state_change current "connector_sync_failed" (Some (exception_text e)))
       else mret tt) ;;
      lift (change_job job_id (fun j => j <| jb_status := "failed" |>
              <| jb_last_error := Some (upto 2000 (exception_text e)) |>)) ;;
      report_summary job_id ;;
      lift (add_sync_error (mkSyncError (cn_id cn) job_id None "sync"
              match e with ConnectorProviderError _ _ c => c | IntegrityError _ => Some "gkpj" | _ => None end
              (upto 4000 (exception_text e)) (exception_retryable e) (jb_attempts job)) ;;
            add_audit (run_audit actor job_id) ;; commit) ;;
      lift (raise e)
  | _, _ => lift (raise e)
  end.

Definition empty_summary (scope_count : Z) : sync_summary :=
  mkSummary scope_count [] 0 0 0 0 0 0 0 0 0 [] [].

Definition SYNC_PROVIDERS : list string := ["sharepoint"; "onedrive"; "google_drive"].

Definition selected_scopes (cn : connector) (scope_id : option uuid) (db : kbdb) : list uuid :=
  map sc_id (List.filter (fun x => Z.eqb (sc_connector_id x) (cn_id cn) && sc_selected x
      && match scope_id with Some i => Z.eqb (sc_id x) i | None => true end) (rows (t_scopes db))).

(** What the run counts in, once the job has been marked as running with it. *)
Definition started (scope_count : Z) : walk := mkWalk (empty_summary scope_count) true [] [] 0 [].

(** [sync_cloud_connector(db, connector, job, scope_id)]: the outcome, the run's objects and
    the session. *)
Definition sync_cloud_connector (now : datetime) (cn : connector) (job : connector_job) (scope_id : option uuid)
    (s : session kbdb event) : outcome unit * walk * session kbdb event :=
  let prepare : KB (list uuid) :=
    ensure (mem (cn_system cn) SYNC_PROVIDERS)
      (ConnectorProviderError ($"Unsupported connector provider: " ++ $(cn_system cn)) false
         (Some "unsupported_provider")) ;;
    ask (authorized cn) ;;
    scopes ← query (selected_scopes cn scope_id);
    ensure (negb (bool_decide (length scopes = 0%nat)))
      (ConnectorProviderError $"No connector scopes are selected" false (Some "no_scopes")) ;;
    change_job (jb_id job) (fun j => j <| jb_status := "running" |> <| jb_attempts := jb_attempts j + 1 |>
                                       <| jb_summary_json := Some (empty_summary (len scopes)) |>) ;;
    commit ;;
    mret scopes in
  match prepare s with
  | (Raise e, s') => (Raise e, started 0, s')
  | (Return scopes, s') =>
      let actor := match jb_requested_by job with Some i => Some i | None => cn_created_by cn end in
      wcatch (run_scopes now cn (jb_id job) actor scopes) (run_failed cn (jb_id job) actor)
        (started (len scopes)) s'
  end.
End Walk.
