(* ===== verification/CloudWalk.v ===== *)
(** * What a connector run promises

    Theorems about CloudSync.v: a started run always ends in a recorded verdict, the log of
    every draft stays a path of the state machine, and what failing items, deleted documents
    and cursors amount to. *)

From S2P Require Import Prelude PyText Models Rbac Permissions Store Drafts DraftLog SourceAcl CloudSync.
From Stdlib Require String.
#[local] Open Scope string_scope.
#[local] Open Scope list_scope.
#[local] Open Scope Z_scope.

(** ** The invariant of a run *)

(** The connector's row and the job's row exist. *)
Definition run_rows (connector_id job_id : uuid) (db : kbdb) : Prop :=
  is_Some (t_connectors db !! connector_id) /\ is_Some (t_jobs db !! job_id).

Definition walk_ok (connector_id job_id : uuid) (db : kbdb) : Prop :=
  logged db /\ run_rows connector_id job_id db.

Definition walk_part (db : kbdb) := (t_drafts db, t_transitions db, t_connectors db, t_jobs db).

Lemma walk_ok_ext c j db db' : walk_part db' = walk_part db -> walk_ok c j db -> walk_ok c j db'.
Proof. unfold walk_part, walk_ok, logged, run_rows. intros [= -> -> -> ->]. done. Qed.

(** A change of every draft that keeps identifiers and statuses. *)
Lemma log_ok_fmap (g : pending_draft -> pending_draft) drafts l :
  (forall d, d_id (g d) = d_id d) -> (forall d, d_status (g d) = d_status d) ->
  log_ok drafts l -> log_ok (g <$> drafts) l.
Proof.
  intros Hi Hs [Hk Hn Hp]. constructor.
  - intros i x Hx. rewrite lookup_fmap in Hx. apply fmap_Some in Hx as (d & Hd & ->).
    rewrite Hi. by apply Hk.
  - intros t Ht. rewrite lookup_fmap. apply fmap_is_Some. by apply Hn.
  - intros i x Hx. rewrite lookup_fmap in Hx. apply fmap_Some in Hx as (d & Hd & ->).
    rewrite Hs. by apply Hp.
Qed.

Section Operations.
Context `{KbEnv, AclEnv, Provider}.
Variables (c j : uuid).
Abbreviation ok := (walk_ok c j).

Lemma keeps_part {A} (m : KB A) : frame walk_part m -> keeps ok m.
Proof. apply keeps_frame. apply walk_ok_ext. Qed.

Lemma frame_ask {A B} (f : kbdb -> B) (o : outcome A) : frame f (ask o).
Proof. by apply frame_readonly. Qed.

Lemma keeps_upsert cn scope i ch : keeps ok (_upsert_document cn scope i ch).
Proof. apply keeps_part. unfold _upsert_document, put_document. solve_frame. Qed.

Lemma keeps_save i cn d ps : keeps ok (_save_permissions i cn d ps).
Proof. apply keeps_part. unfold _save_permissions, put_document. cbv zeta. solve_frame. Qed.

Lemma keeps_apply b cn d : keeps ok (_apply_mapped_groups b cn d).
Proof. apply keeps_part. unfold _apply_mapped_groups, put_article, put_document. solve_frame. Qed.

Lemma keeps_record now ci ji ch r code b : keeps ok (_record_item_failure now ci ji ch r code b).
Proof. apply keeps_part. unfold _record_item_failure, put_document, add_sync_error. cbv zeta. solve_frame. Qed.

Lemma keeps_audits l actor : keeps ok (_record_permission_change_audits l actor).
Proof. apply keeps_part. unfold _record_permission_change_audits, add_audit. solve_frame. Qed.

Lemma keeps_put_document d : keeps ok (put_document d).
Proof. apply keeps_part. unfold put_document. solve_frame. Qed.

Lemma keeps_put_cursor x : keeps ok (put_cursor x).
Proof. apply keeps_part. unfold put_cursor. solve_frame. Qed.

Lemma keeps_notify cn e d : keeps ok (_notify_connector_state_change cn e d).
Proof. apply keeps_part. unfold _notify_connector_state_change, add_notification. solve_frame. Qed.

Lemma keeps_dispatch q : keeps ok (_dispatch_queued_formats q).
Proof.
  unfold _dispatch_queued_formats. destruct (List.filter _ q) as [|i l]; [by apply keeps_readonly|].
  apply keeps_bind; [|intros; apply keeps_commit]. apply keeps_write. intros db [Hl Hr]. split; [|done].
  apply log_ok_fmap; [intros d; by case_match..|done].
Qed.

Lemma keeps_submit now u id why : keeps ok (submit_draft now u id why).
Proof.
  apply keeps_atomic; [apply atomic_submit|]. intros s r s' Hr [Hl Hrow] _.
  destruct (submit_logged _ _ _ _ _ _ _ Hr Hl) as [Hl' ->].
  assert (Hf : frame (fun db => (t_connectors db, t_jobs db)) (submit_draft now u id why)).
  { unfold submit_draft, _transition_draft, update_draft, log_audit, add_audit, add_notification,
      add_transition, put_draft, load_draft, _get_draft_for_user. cbv zeta. solve_frame. }
  destruct (Hf s) as [Hw _]. rewrite Hr in Hw. injection Hw as Hw1 Hw2.
  unfold walk_ok, run_rows. by rewrite Hw1, Hw2.
Qed.

(** Continue from one state. *)
Definition keeps_at {A} (m : KB A) (s : session kbdb event) : Prop :=
  ok (working s) -> ok (committed s) ->
  ok (committed (m s).2) /\ (forall a, (m s).1 = Return a -> ok (working (m s).2)).

Lemma keeps_from {A} (m : KB A) : (forall s, keeps_at m s) <-> keeps ok m.
Proof. done. Qed.

Lemma keeps_at_readonly {A} (m : KB A) s : readonly m -> keeps_at m s.
Proof. intros Hm. revert s. by apply keeps_from, keeps_readonly. Qed.

Lemma keeps_at_write {A} f (k : unit -> KB A) s :
  (ok (working s) -> ok (f (working s))) ->
  keeps_at (k tt) (Session (committed s) (f (working s)) (published s)) -> keeps_at (write f ≫= k) s.
Proof. intros Hf Hk Hw Hc. unfold mbind, M_bind, write. cbn. apply Hk; cbn; auto. Qed.

Lemma keeps_at_query {A B} (f : kbdb -> B) (k : B -> KB A) s :
  keeps_at (k (f (working s))) s -> keeps_at (query f ≫= k) s.
Proof. done. Qed.

Lemma keeps_at_ask {A B} (o : outcome B) (k : B -> KB A) s :
  (forall b, keeps_at (k b) s) -> keeps_at (ask o ≫= k) s.
Proof. intros Hk Hw Hc. destruct o as [b|e]; [by apply (Hk b)|]. split; [done|]. intros a [=]. Qed.

Lemma keeps_at_ensure {A} (b : bool) e (k : unit -> KB A) s :
  (b = true -> keeps_at (k tt) s) -> keeps_at (ensure b e ≫= k) s.
Proof. intros Hk Hw Hc. destruct b; [by apply Hk|]. split; [done|]. intros a [=]. Qed.

(** The pending draft found is a stored one. *)
Lemma keeps_at_pending {A} i (k : option pending_draft -> KB A) s :
  keeps_at (k None) s ->
  (forall d, d ∈ rows (t_drafts (working s)) -> keeps_at (k (Some d)) s) ->
  keeps_at (pending_of i ≫= k) s.
Proof.
  intros Hn Hs. unfold pending_of. intros Hw Hc.
  destruct (List.filter (fun d => bool_decide (d_external_document_id d = Some i)
    && String.eqb (d_status d) "pending") (rows (t_drafts (working s)))) as [|d [|d' l]] eqn:Hf.
  - unfold query, mbind, M_bind. rewrite Hf. cbn. by apply Hn.
  - assert (Hd : d ∈ rows (t_drafts (working s))).
    { assert (Hin : d ∈ [d]) by (by left). rewrite <- Hf in Hin. by apply elem_of_filter_b in Hin as [? _]. }
    unfold query, mbind, M_bind. rewrite Hf. cbn. by apply (Hs d Hd).
  - unfold query, mbind, M_bind. rewrite Hf. cbn. split; [done|]. intros a [=].
Qed.

(** An edit of a stored draft that keeps its status. *)
Lemma ok_edit db d r :
  d ∈ rows (t_drafts db) -> d_id r = d_id d -> d_status r = d_status d ->
  ok db -> ok (db <| t_drafts := <[d_id r := r]> (t_drafts db) |>).
Proof.
  intros Hd Hi Hs [Hl Hr]. split; [|done]. rewrite Hi. apply (log_ok_edit _ _ d r); [done| |done|done].
  apply (elem_of_rows d_id) in Hd; [done|]. apply Hl.
Qed.

Lemma keeps_candidates fresh i items : keeps ok (add_candidates fresh i items).
Proof. apply keeps_part. unfold add_candidates, put_candidate. solve_frame. Qed.

Lemma keeps_replace fresh d text : keeps ok (_replace_split_candidates fresh d text).
Proof.
  apply keeps_part. unfold _replace_split_candidates, add_candidates, put_candidate. solve_frame.
Qed.

(** Candidate rows are all that adding candidates writes. *)
Lemma run_candidates fresh i items (s : session kbdb event) :
  exists m, add_candidates fresh i items s
    = (Return tt, Session (committed s) ((working s) <| t_candidates := m |>) (published s)).
Proof.
  unfold add_candidates. generalize (candidate_rows fresh i items). intros l. revert s.
  induction l as [|x l IH]; intros s; cbn [for_each].
  - exists (t_candidates (working s)). by destruct s as [? [] ?].
  - destruct (IH (Session (committed s) ((working s) <| t_candidates :=
        <[c_id x := x]> (t_candidates (working s)) |>) (published s))) as [m Hm].
    exists m. rewrite (run_bind (put_candidate x) _ s tt _ eq_refl). rewrite Hm. by destruct s as [? [] ?].
Qed.

Lemma queued_keeps d b : d_id (_queue_draft_formatting d b).1 = d_id d
  /\ d_status (_queue_draft_formatting d b).1 = d_status d.
Proof. unfold _queue_draft_formatting. by case_match. Qed.

Lemma keeps_formatting i b : keeps ok (format_import i b).
Proof.
  apply keeps_from. intros s. apply keeps_at_query.
  destruct (t_drafts (working s) !! i) as [x|] eqn:Hx; [|by apply keeps_at_readonly].
  destruct (_queue_draft_formatting x b) as [d' q] eqn:Hq.
  pose proof (queued_keeps x b) as [Hi Hs]. rewrite Hq in Hi, Hs. cbn in Hi, Hs.
  apply keeps_at_write; [|by apply keeps_at_readonly]. intros Hok.
  apply (ok_edit _ x); [|done..|done]. apply (elem_of_rows d_id); [apply Hok|].
  by rewrite (lo_keyed _ _ (proj1 Hok) _ _ Hx).
Qed.

(** A stored draft in status [draft] is submitted. *)
Lemma keeps_at_submit now d s :
  d_status d = "draft" -> t_drafts (working s) !! d_id d = Some d -> keeps_at (submit_import now d) s.
Proof.
  intros Hst Hd. apply keeps_at_query.
  destruct (i ← d_created_by d; get_user_by_id (working s) i None) as [u|].
  - revert Hd. generalize s. intros s' _. revert s'. apply keeps_from.
    apply keeps_bind; [apply keeps_submit|intros; by apply keeps_readonly].
  - intros [Hl Hr] Hc. cbn. split; [exact Hc|]. intros _ _. split; [|exact Hr].
    pose proof (log_ok_transition _ _ d (d <| d_status := "pending" |>) None "pending"
      (Some $"Connector source submitted") Hl Hd) as Ht. unfold transition_entry in Ht. rewrite Hst in Ht.
    change (clean_reason _) with (Some $"Connector source submitted") in Ht. by apply Ht.
Qed.

Lemma keeps_at_bind {A B} (m : KB A) (k : A -> KB B) s :
  keeps_at m s -> (forall a, keeps ok (k a)) -> keeps_at (m ≫= k) s.
Proof.
  intros Hm Hk Hw Hc. destruct (Hm Hw Hc) as [Hc1 Hw1]. unfold mbind, M_bind.
  destruct (m s) as [[a|e] s1]; cbn in *; [|split; [done|intros ? [=]]].
  apply (Hk a s1); [by apply (Hw1 a)|done].
Qed.

Lemma keeps_persist now fresh cn d text b :
  d_status d = "draft" -> keeps ok (_persist_connector_draft now fresh cn d text b).
Proof.
  intros Hst. apply keeps_from. intros s. unfold _persist_connector_draft.
  apply keeps_at_ensure. intros _. apply keeps_at_query, keeps_at_ensure. intros Hfree Hw Hc.
  apply negb_true_iff, bool_decide_eq_false, eq_None_not_Some in Hfree.
  rewrite (run_bind (put_draft d) _ s tt _ eq_refl). rewrite (run_bind (add_transition _) _ _ tt _ eq_refl).
  match goal with |- context [(_ ≫= ?k) ?s1] => set (s1' := s1) end.
  assert (Hok : ok (working s1')).
  { destruct Hw as [Hl Hr]. split; [|exact Hr].
    pose proof (log_ok_create _ _ d (d_created_by d) (Some $"Connector source imported") Hl Hfree) as Hcr.
    by rewrite Hst in Hcr. }
  assert (Hd : t_drafts (working s1') !! d_id d = Some d) by apply lookup_insert_eq.
  assert (Hc1 : ok (committed s1')) by exact Hc.
  clearbody s1'. clear Hw Hc Hfree s. revert Hok Hc1. apply keeps_at_query.
  destruct (run_candidates fresh (d_id d) (route_document_candidates (d_title d) text
    (active_departments (cn_company_domain cn) (working s1'))) s1') as [m Hm].
  intros Hw1 Hc1. rewrite (run_bind _ _ _ _ _ Hm).
  apply (keeps_at_bind (submit_import now d)); [|intros; apply keeps_formatting|exact Hw1|exact Hc1].
  by apply keeps_at_submit.
Qed.

Lemma keeps_version v : keeps ok (add_document_version v).
Proof. apply keeps_part. unfold add_document_version. solve_frame. Qed.

Lemma keeps_put_article a : keeps ok (put_article a).
Proof. apply keeps_part. unfold put_article. solve_frame. Qed.

(** A pending draft found is rewritten with its status, and something kept follows. *)
Lemma keeps_at_edit {A} d r (k : unit -> KB A) s :
  d ∈ rows (t_drafts (working s)) -> d_id r = d_id d -> d_status r = d_status d ->
  keeps ok (k tt) -> keeps_at (put_draft r ≫= k) s.
Proof.
  intros Hd Hi Hs Hk. apply keeps_at_write; [intros Hok; by apply (ok_edit _ d)|]. apply keeps_from, Hk.
Qed.

Lemma keeps_ask {A} (o : outcome A) : keeps ok (ask o).
Proof. by apply keeps_part, frame_ask. Qed.

Lemma keeps_replaced {A} fresh d text (a : A) : keeps ok (_replace_split_candidates fresh d text ;; mret a).
Proof. apply keeps_bind; [apply keeps_replace|intros; by apply keeps_readonly]. Qed.

Lemma keeps_persisted {A} now fresh cn d text b (f : list uuid -> A) :
  d_status d = "draft" ->
  keeps ok (queued ← _persist_connector_draft now fresh cn d text b; mret (f queued)).
Proof. intros Hd. apply keeps_bind; [by apply keeps_persist|intros; by apply keeps_readonly]. Qed.

Lemma keeps_ingest now fresh cn document ch : keeps ok (_ingest_content now fresh cn document ch).
Proof.
  apply keeps_from. intros s. unfold _ingest_content. apply keeps_at_ask. intros data. cbv zeta.
  destruct (bool_decide (ed_content_hash document = _) && _).
  - apply keeps_at_pending; [by apply keeps_at_readonly|]. intros d Hd. apply keeps_at_query.
    destruct (negb _); [|by apply keeps_at_readonly]. apply keeps_at_ask. intros pages.
    apply keeps_at_ask. intros text. apply (keeps_at_edit d); [done..|]. apply keeps_replaced.
  - apply keeps_at_ask. intros pages. apply keeps_at_ask. intros text. apply keeps_at_ask. intros key.
    apply keeps_at_bind; [apply keeps_from, keeps_put_document|]. intros _.
    apply keeps_bind; [by apply keeps_readonly|]. intros known.
    apply keeps_bind; [destruct known; [by apply keeps_readonly|apply keeps_version]|]. intros _.
    apply keeps_bind; [by apply keeps_readonly|]. intros [a|].
    + apply keeps_bind; [apply keeps_put_article|]. intros _. apply keeps_from. intros s'.
      apply keeps_at_pending.
      * apply keeps_from. apply (keeps_persisted _ _ _ _ _ _ (fun _ => (_, _, _))). done.
      * intros d Hd. apply (keeps_at_edit d); [done..|]. apply keeps_replaced.
    + apply keeps_from. intros s'. apply keeps_at_pending.
      * apply keeps_from. apply (keeps_persisted _ _ _ _ _ _ (fun q => (_, _, q))). done.
      * intros d Hd.
        match goal with |- context [_queue_draft_formatting ?x true] =>
          destruct (_queue_draft_formatting x true) as [d2 q] eqn:Hq;
          pose proof (queued_keeps x true) as [Hi Hs]; rewrite Hq in Hi, Hs; cbn in Hi, Hs end.
        apply (keeps_at_edit d); [done| | |apply keeps_replaced]; by case_match.
Qed.

Lemma log_ok_rejection now actor drafts l d :
  log_ok drafts l -> drafts !! d_id d = Some d -> mem (d_status d) ["draft"; "pending"] = true ->
  log_ok (<[d_id d := rejected_by_deletion now actor d]> drafts)
    (l ++ [mkTransition (d_id d) (Some (d_status d)) "rejected" actor (Some deletion_reason) "applied"]).
Proof.
  intros [Hk Hn Hp] Hd Hop. constructor.
  - intros i x [[<- <-]|[_ Hx]]%lookup_insert_Some; [done|by apply Hk].
  - intros t Ht. apply lookup_insert_is_Some'. apply elem_of_app in Ht as [Ht|Ht]; [right; auto|].
    apply list_elem_of_singleton in Ht as ->. by left.
  - intros i x Hx. rewrite log_of_app. cbn. apply lookup_insert_Some in Hx as [[<- <-]|[Hne Hx]].
    + rewrite Z.eqb_refl.
      apply (leads_to_app _ (mkTransition (d_id d) (Some (d_status d)) "rejected" actor _ _) (d_status d));
        [by apply Hp|done|]. apply mem_In in Hop. cbn.
      rewrite !elem_of_cons, elem_of_nil in Hop. by destruct Hop as [->|[->|[]]].
    + rewrite (proj2 (Z.eqb_neq _ _) Hne), app_nil_r. by apply Hp.
Qed.

(** The open drafts of a deleted document are rejected, each with its entry. *)
Lemma keeps_rejections now actor l s :
  (forall d, d ∈ l -> t_drafts (working s) !! d_id d = Some d) -> NoDup (map d_id l) ->
  (forall d, d ∈ l -> mem (d_status d) ["draft"; "pending"] = true) ->
  keeps_at (for_each l (fun d =>
    add_transition (mkTransition (d_id d) (Some (d_status d)) "rejected" actor (Some deletion_reason) "applied") ;;
    put_draft (rejected_by_deletion now actor d))) s.
Proof.
  revert s. induction l as [|d l IH]; intros s Hst Hnd Hop; [by apply keeps_at_readonly|].
  cbn [for_each]. intros Hw Hc. cbn in Hnd. apply NoDup_cons in Hnd as [Hni Hnd].
  set (s1 := Session (committed s) ((working s) <| t_transitions := t_transitions (working s) ++
      [mkTransition (d_id d) (Some (d_status d)) "rejected" actor (Some deletion_reason) "applied"] |>
      <| t_drafts := <[d_id d := rejected_by_deletion now actor d]> (t_drafts (working s)) |>) (published s)).
  lazymatch goal with |- ok (committed ((?m ≫= ?k) s).2) /\ _ => rewrite (run_bind m k s tt s1 eq_refl) end.
  apply (IH s1).
  - intros x Hx. cbn. rewrite lookup_insert_ne; [apply Hst; by right|]. intros He. apply Hni.
    rewrite He. apply elem_of_map. by exists x.
  - done.
  - intros x Hx. apply Hop. by right.
  - destruct Hw as [Hl Hr]. split; [|exact Hr].
    apply log_ok_rejection; [exact Hl|apply Hst; by left|apply Hop; by left].
  - exact Hc.
Qed.

Lemma keeps_deleted now d actor : keeps ok (_handle_deleted_document now d actor).
Proof.
  apply keeps_from. intros s Hw Hc. unfold _handle_deleted_document.
  rewrite (run_bind (put_document _) _ s tt _ eq_refl).
  match goal with |- context [(_ ≫= ?k) ?s1] => set (s1' := s1) end.
  assert (Hok : ok (working s1')) by exact Hw. assert (Hc1 : ok (committed s1')) by exact Hc.
  clearbody s1'. revert Hok Hc1. apply keeps_at_query. intros Hok Hc1. revert Hok Hc1. intros Hok Hc1.
  revert Hok Hc1. cbv zeta. set (l := List.filter _ _).
  match goal with |- ok _ -> ok _ -> ok (committed (?m s1').2) /\ _ => change (keeps_at m s1') end.
  intros Hok Hc1. refine (keeps_at_bind _ _ s1' _ _ Hok Hc1).
  - apply keeps_rejections.
    + intros x Hx. apply elem_of_filter_b in Hx as [Hx _]. apply (elem_of_rows d_id) in Hx; [done|apply Hok].
    + apply rows_nodup, Hok.
    + intros x Hx. apply elem_of_filter_b in Hx as [_ Hx]. unfold open_draft_of in Hx. by bools.
  - intros _. apply keeps_bind; [by apply keeps_readonly|]. intros article.
    apply keeps_bind; [|intros _; apply keeps_bind; [|intros; by apply keeps_readonly]].
    + destruct article; [|by apply keeps_readonly].
      apply keeps_part. unfold put_article, add_audit. solve_frame.
    + apply keeps_part. unfold add_audit. solve_frame.
Qed.

Lemma keeps_change_job i f : keeps ok (change_job i f).
Proof.
  apply keeps_write. intros db [Hl [Hc Hj]]. split; [exact Hl|]. split; [exact Hc|]. cbn.
  destruct (decide (i = j)) as [->|Hne].
  - rewrite lookup_alter_eq. by apply fmap_is_Some.
  - by rewrite lookup_alter_ne.
Qed.

Lemma keeps_change_connector i f : keeps ok (change_connector i f).
Proof.
  apply keeps_write. intros db [Hl [Hc Hj]]. split; [exact Hl|]. split; [|exact Hj]. cbn.
  destruct (decide (i = c)) as [->|Hne].
  - rewrite lookup_alter_eq. by apply fmap_is_Some.
  - by rewrite lookup_alter_ne.
Qed.
End Operations.

(** ** The run keeps its invariant *)

Section Run.
Context `{KbEnv, AclEnv, Provider}.
Variable P : kbdb -> Prop.

(** [keeps] for a step of the run, and for a handler, which starts after an exception. *)
Definition wkeeps {A} (m : W A) : Prop := forall w s o w' s',
  P (working s) -> P (committed s) -> m w s = (o, w', s') ->
  P (committed s') /\ (forall a, o = Return a -> P (working s')).
Definition recovers {A} (m : W A) : Prop := forall w s o w' s',
  P (committed s) -> m w s = (o, w', s') ->
  P (committed s') /\ (forall a, o = Return a -> P (working s')).

Lemma wkeeps_lift {A} (m : KB A) : keeps P m -> wkeeps (lift m).
Proof.
  intros Hm w s o w' s' Hw Hc Hr. unfold lift in Hr. destruct (Hm s Hw Hc) as [H1c H1w].
  destruct (m s) as [o1 s1]. injection Hr as <- <- <-. by split.
Qed.
Lemma wkeeps_ret {A} (a : A) : wkeeps (mret a).
Proof. intros w s o w' s' Hw Hc [= <- <- <-]. by split. Qed.
Lemma wkeeps_change f : wkeeps (change_walk f).
Proof. intros w s o w' s' Hw Hc [= <- <- <-]. by split. Qed.
Lemma wkeeps_get : wkeeps get_walk.
Proof. intros w s o w' s' Hw Hc [= <- <- <-]. by split. Qed.
Lemma wkeeps_count f : wkeeps (count f).
Proof. apply wkeeps_change. Qed.
Lemma wkeeps_bind {A B} (m : W A) (k : A -> W B) : wkeeps m -> (forall a, wkeeps (k a)) -> wkeeps (m ≫= k).
Proof.
  intros Hm Hk w s o w' s' Hw Hc Hr. unfold mbind, W_bind in Hr.
  destruct (m w s) as [[[a|e] w1] s1] eqn:Hm1.
  - destruct (Hm _ _ _ _ _ Hw Hc Hm1) as [Hc1 Hw1]. by apply (Hk a w1 s1 o w' s'); [apply (Hw1 a)|..].
  - injection Hr as <- <- <-. destruct (Hm _ _ _ _ _ Hw Hc Hm1) as [Hc1 _]. split; [done|]. by intros ? [=].
Qed.
Lemma wkeeps_each {A} (l : list A) f : (forall x, wkeeps (f x)) -> wkeeps (each l f).
Proof. intros Hf. induction l as [|x l IH]; [apply wkeeps_ret|]. by apply wkeeps_bind. Qed.
Lemma wkeeps_if {A} (b : bool) (m1 m2 : W A) : wkeeps m1 -> wkeeps m2 -> wkeeps (if b then m1 else m2).
Proof. by destruct b. Qed.
Lemma wkeeps_catch {A} (m : W A) (h : exn -> W A) :
  wkeeps m -> (forall e, recovers (h e)) -> wkeeps (wcatch m h).
Proof.
  intros Hm Hh w s o w' s' Hw Hc Hr. unfold wcatch in Hr.
  destruct (m w s) as [[[a|e] w1] s1] eqn:Hm1; destruct (Hm _ _ _ _ _ Hw Hc Hm1) as [Hc1 Hw1].
  - injection Hr as <- <- <-. by split.
  - by apply (Hh e w1 s1 o w' s').
Qed.
Lemma recovers_raise {A} e : recovers (lift (raise e) : W A).
Proof. intros w s o w' s' Hc [= <- <- <-]. split; [done|]. by intros ? [=]. Qed.
Lemma recovers_rollback {A} (k : unit -> W A) : wkeeps (k tt) -> recovers (lift rollback ≫= k).
Proof. intros Hk w s o w' s' Hc Hr. by apply (Hk w (Session (committed s) (committed s) (published s)) o w' s'). Qed.

(** What the steps of a run need of the invariant. *)
Class WalkInvariant := {
  inv_upsert : forall cn scope i c, keeps P (_upsert_document cn scope i c);
  inv_save : forall i cn d ps, keeps P (_save_permissions i cn d ps);
  inv_deleted : forall now d actor, keeps P (_handle_deleted_document now d actor);
  inv_ingest : forall now fresh cn d c, keeps P (_ingest_content now fresh cn d c);
  inv_apply : forall b cn d, keeps P (_apply_mapped_groups b cn d);
  inv_dispatch : forall q, keeps P (_dispatch_queued_formats q);
  inv_document : forall d, keeps P (put_document d);
  inv_audits : forall l actor, keeps P (_record_permission_change_audits l actor);
  inv_record : forall now ci ji c r code b, keeps P (_record_item_failure now ci ji c r code b);
  inv_cursor : forall c, keeps P (put_cursor c);
  inv_job : forall i f, keeps P (change_job i f);
  inv_connector : forall i f, keeps P (change_connector i f);
  inv_notify : forall cn e d, keeps P (_notify_connector_state_change cn e d);
  inv_error : forall x, keeps P (add_sync_error x);
  inv_audit : forall a, keeps P (add_audit a)
}.
Context `{WalkInvariant}.

Create HintDb walk.
Hint Resolve inv_upsert inv_save inv_deleted inv_ingest inv_apply inv_dispatch inv_document
  inv_audits inv_record inv_cursor inv_job inv_connector inv_notify inv_error inv_audit : walk.

(** Takes a step of the run apart down to the operations the invariant is told about. *)
Local Ltac solve_walk :=
  first
    [ solve [auto with walk]
    | apply wkeeps_ret | apply wkeeps_change | apply wkeeps_get | apply wkeeps_count
    | apply wkeeps_lift; solve_walk
    | apply wkeeps_bind; [solve_walk | intros; solve_walk]
    | apply wkeeps_each; intros; solve_walk
    | apply keeps_commit | apply keeps_publish
    | apply keeps_readonly; solve [solve_readonly]
    | apply keeps_bind; [solve_walk | intros; solve_walk]
    | match goal with
      | |- wkeeps (match ?x with _ => _ end) => destruct x; solve_walk
      | |- keeps _ (match ?x with _ => _ end) => destruct x; solve_walk
      end ].

Lemma wkeeps_report i : wkeeps (report_summary i).
Proof.
  unfold report_summary. apply wkeeps_bind; [apply wkeeps_get|]. intros w. destruct (wk_reported w); [apply wkeeps_ret|].
  apply wkeeps_bind; [|intros; apply wkeeps_change]. apply wkeeps_lift.
  exact (inv_job i (fun j => j <| jb_summary_json := Some (wk_summary w) |>)).
Qed.
Lemma wkeeps_cleanup keys : wkeeps (cleanup keys).
Proof. unfold cleanup. solve_walk. Qed.
Hint Resolve wkeeps_report wkeeps_cleanup : walk.

Lemma keeps_flush : keeps P flush_principals.
Proof. apply keeps_readonly. unfold flush_principals. solve_readonly. Qed.
Lemma keeps_asked {A} (o : outcome A) : keeps P (ask o).
Proof. by apply keeps_readonly. Qed.
Hint Resolve keeps_flush keeps_asked : walk.

Lemma wkeeps_body now cn scope actor n c previous : wkeeps (item_body now cn scope actor n c previous).
Proof. unfold item_body. cbv zeta. solve_walk. Qed.

Lemma recovers_item now cn scope job_id c e : recovers (item_failed now cn scope job_id c e).
Proof.
  unfold item_failed. destruct (negb _); [apply recovers_raise|]. apply recovers_rollback. solve_walk.
Qed.

Lemma wkeeps_item now cn scope job_id actor c : wkeeps (sync_item now cn scope job_id actor c).
Proof.
  unfold sync_item. apply wkeeps_bind; [apply wkeeps_count|]. intros _.
  apply wkeeps_bind; [solve_walk|]. intros previous. apply wkeeps_if; [apply wkeeps_ret|].
  apply wkeeps_bind; [apply wkeeps_get|]. intros w. apply wkeeps_bind; [|intros; solve_walk].
  apply wkeeps_catch; [apply wkeeps_body|intros; apply recovers_item].
Qed.
Hint Resolve wkeeps_item : walk.

Lemma wkeeps_scope now cn job_id actor i : wkeeps (sync_scope now cn job_id actor i).
Proof.
  unfold sync_scope, fetch_changes, sweep_one. apply wkeeps_bind; [solve_walk|]. intros [scope|]; [|apply wkeeps_ret].
  apply wkeeps_bind; [apply wkeeps_count|]. intros _. apply wkeeps_bind; [solve_walk|]. intros row.
  destruct (walk_plan cn row) as [[cursor requested] full]. solve_walk.
Qed.
Hint Resolve wkeeps_scope : walk.

Lemma wkeeps_scopes now cn job_id actor l : wkeeps (run_scopes now cn job_id actor l).
Proof. unfold run_scopes. solve_walk. Qed.

Lemma recovers_run cn job_id actor e : recovers (run_failed cn job_id actor e).
Proof.
  unfold run_failed. apply recovers_rollback. solve_walk.
Qed.

Lemma sync_keeps now cn job scope_id s o w' s' :
  P (working s) -> P (committed s) -> sync_cloud_connector now cn job scope_id s = (o, w', s') ->
  P (committed s') /\ (forall a, o = Return a -> P (working s')).
Proof.
  intros Hw Hc. unfold sync_cloud_connector.
  match goal with |- context [match ?m s with _ => _ end] => assert (Hk : keeps P m) by solve_walk;
    destruct (Hk s Hw Hc) as [Hc1 Hw1]; destruct (m s) as [[scopes|e] s1] end; cbn in Hc1, Hw1.
  - apply (wkeeps_catch _ _ (wkeeps_scopes now cn (jb_id job) _ scopes)
      (recovers_run cn (jb_id job) _)); [by apply (Hw1 scopes)|done].
  - intros [= <- <- <-]. split; [done|]. by intros ? [=].
Qed.
End Run.

#[export] Instance walk_invariant `{KbEnv, AclEnv, Provider} c j : WalkInvariant (walk_ok c j).
Proof.
  constructor.
  - apply keeps_upsert.
  - apply keeps_save.
  - apply keeps_deleted.
  - apply keeps_ingest.
  - apply keeps_apply.
  - apply keeps_dispatch.
  - apply keeps_put_document.
  - apply keeps_audits.
  - apply keeps_record.
  - apply keeps_put_cursor.
  - apply keeps_change_job.
  - apply keeps_change_connector.
  - apply keeps_notify.
  - intros x. apply keeps_part. unfold add_sync_error. solve_frame.
  - intros a. apply keeps_part. unfold add_audit. solve_frame.
Qed.

(** ** The verdict of a run *)

Section Verdict.
Context `{KbEnv, AclEnv, Provider}.

Lemma run_wbind {A B} (m : W A) (k : A -> W B) w s a w1 s1 :
  m w s = (Return a, w1, s1) -> (m ≫= k) w s = k a w1 s1.
Proof. intros Hm. unfold mbind, W_bind. by rewrite Hm. Qed.

Lemma wbind_return {A B} (m : W A) (k : A -> W B) w s b w' s' :
  (m ≫= k) w s = (Return b, w', s') ->
  exists a w1 s1, m w s = (Return a, w1, s1) /\ k a w1 s1 = (Return b, w', s').
Proof.
  unfold mbind, W_bind. destruct (m w s) as [[[a|e] w1] s1] eqn:Hm; intros Hr.
  - by exists a, w1, s1.
  - by injection Hr.
Qed.

(** What a run leaves of its job and its connector. *)
Definition completed_run (now : datetime) (cn : connector) (job_id : uuid) (db : kbdb) : Prop :=
  exists j c, t_jobs db !! job_id = Some j /\ t_connectors db !! cn_id cn = Some c
    /\ jb_status j = "completed" /\ jb_completed_at j = Some now
    /\ cn_status c = "active" /\ cn_last_sync c = Some now /\ cn_last_error c = None.

Definition failed_run (cn : connector) (job_id : uuid) (e : exn) (db : kbdb) : Prop :=
  exists j c, t_jobs db !! job_id = Some j /\ t_connectors db !! cn_id cn = Some c
    /\ jb_status j = "failed" /\ jb_last_error j = Some (upto 2000 (exception_text e))
    /\ cn_status c = "error" /\ cn_last_error c = Some (upto 2000 (exception_text e))
    /\ exists x, x ∈ t_sync_errors db /\ sx_job_id x = job_id /\ sx_stage x = "sync"
         /\ sx_message x = upto 4000 (exception_text e) /\ sx_retryable x = exception_retryable e.

Lemma run_report job_id w (s : session kbdb event) :
  exists w' m, report_summary job_id w s
    = (Return tt, w', Session (committed s) ((working s) <| t_jobs := m |>) (published s))
    /\ forall i, (jb_status <$> m !! i) = (jb_status <$> t_jobs (working s) !! i)
         /\ (jb_completed_at <$> m !! i) = (jb_completed_at <$> t_jobs (working s) !! i)
         /\ (jb_last_error <$> m !! i) = (jb_last_error <$> t_jobs (working s) !! i).
Proof.
  unfold report_summary, get_walk, lift, write, change_walk, mbind, W_bind.
  destruct (wk_reported w).
  - exists w, (t_jobs (working s)). split; [by destruct s as [? [] ?]|done].
  - eexists _, _. split; [reflexivity|]. intros i. cbn. destruct (decide (i = job_id)) as [->|Hne].
    + rewrite lookup_alter_eq. by destruct (t_jobs (working s) !! job_id).
    + by rewrite lookup_alter_ne.
Qed.

Lemma notify_return cn e d (s : session kbdb event) :
  exists l, _notify_connector_state_change cn e d s
    = (Return tt, Session (committed s) ((working s) <| t_notifications := l |>) (published s)).
Proof.
  unfold _notify_connector_state_change. destruct (cn_created_by cn).
  - eexists. reflexivity.
  - exists (t_notifications (working s)). by destruct s as [? [] ?].
Qed.

Lemma run_completed now cn job_id actor w (s : session kbdb event) :
  run_rows (cn_id cn) job_id (working s) ->
  exists w' s', run_scopes now cn job_id actor [] w s = (Return tt, w', s')
    /\ committed s' = working s' /\ completed_run now cn job_id (committed s').
Proof.
  intros [[c0 Hc] [j0 Hj]]. unfold run_scopes. cbn [each].
  rewrite (run_wbind (mret tt) _ w s tt w s eq_refl).
  rewrite (run_wbind (lift (query _)) _ w s c0 w s) by (unfold lift, query; cbn; by rewrite Hc).
  set (s1 := Session (committed s) ((working s) <| t_connectors := alter (fun c => c <| cn_last_sync := Some now |>
    <| cn_status := "active" |> <| cn_last_error := None |>) (cn_id cn) (t_connectors (working s)) |>) (published s)).
  rewrite (run_wbind (lift (change_connector _ _)) _ w s tt w s1 eq_refl).
  destruct (notify_return c0 "connector_sync_recovered" None s1) as [l Hn].
  assert (Hmid : exists l', (if String.eqb (cn_status c0) "error"
      then lift (_notify_connector_state_change c0 "connector_sync_recovered" None) else mret tt) w s1
      = (Return tt, w, Session (committed s1) ((working s1) <| t_notifications := l' |>) (published s1))).
  { destruct (String.eqb (cn_status c0) "error").
    - exists l. unfold lift. by rewrite Hn.
    - exists (t_notifications (working s1)). by destruct s as [? [] ?]. }
  destruct Hmid as [l' Hmid]. rewrite (run_wbind _ _ _ _ _ _ _ Hmid). clear Hn Hmid.
  set (s2 := Session (committed s1) ((working s1) <| t_notifications := l' |>) (published s1)).
  set (s3 := Session (committed s2) ((working s2) <| t_jobs := alter (fun j => j <| jb_status := "completed" |>
    <| jb_completed_at := Some now |>) job_id (t_jobs (working s2)) |>) (published s2)).
  rewrite (run_wbind (lift (change_job _ _)) _ w s2 tt w s3 eq_refl).
  destruct (run_report job_id w s3) as (w' & m & Hrep & Hm). rewrite (run_wbind _ _ _ _ _ _ _ Hrep).
  eexists w', _. split; [reflexivity|]. split; [done|]. cbn.
  assert (Hj3 : t_jobs (working s3) !! job_id = Some (j0 <| jb_status := "completed" |> <| jb_completed_at := Some now |>)).
  { cbn. by rewrite lookup_alter_eq, Hj. }
  destruct (Hm job_id) as (Hs & Hca & _). rewrite Hj3 in Hs, Hca. cbn in Hs, Hca.
  destruct (m !! job_id) as [j1|] eqn:Hj1; [|done]. cbn in Hs, Hca.
  eexists j1, _. split; [exact Hj1|]. split; [cbn; rewrite lookup_alter_eq, Hc; reflexivity|].
  cbn. split_and!; congruence.
Qed.

Lemma run_failure cn job_id actor e w (s : session kbdb event) :
  run_rows (cn_id cn) job_id (committed s) ->
  exists w' s', run_failed cn job_id actor e w s = (Raise e, w', s')
    /\ committed s' = working s' /\ failed_run cn job_id e (committed s').
Proof.
  intros [[c0 Hc] [j0 Hj]]. unfold run_failed.
  set (s0 := Session (committed s) (committed s) (published s)).
  rewrite (run_wbind (lift rollback) _ w s tt w s0 eq_refl).
  set (w0 := w <| wk_reported := false |>).
  rewrite (run_wbind (change_walk (fun w => w <| wk_reported := false |>)) _ w s0 tt w0 s0 eq_refl).
  rewrite (run_wbind (lift (query _)) _ w0 s0 (Some c0) w0 s0) by (unfold lift, query; cbn; by rewrite Hc).
  rewrite (run_wbind (lift (query _)) _ w0 s0 (Some j0) w0 s0) by (unfold lift, query; cbn; by rewrite Hj).
  set (s1 := Session (committed s0) ((working s0) <| t_connectors := alter (fun c => c <| cn_status := "error" |>
    <| cn_last_error := Some (upto 2000 (exception_text e)) |>) (cn_id cn) (t_connectors (working s0)) |>) (published s0)).
  rewrite (run_wbind (lift (change_connector _ _)) _ w0 s0 tt w0 s1 eq_refl).
  destruct (notify_return c0 "connector_sync_failed" (Some (exception_text e)) s1) as [l Hn].
  assert (Hmid : exists l', (if negb (String.eqb (cn_status c0) "error")
      then lift (_notify_connector_state_change c0 "connector_sync_failed" (Some (exception_text e))) else mret tt) w0 s1
      = (Return tt, w0, Session (committed s1) ((working s1) <| t_notifications := l' |>) (published s1))).
  { destruct (negb _).
    - exists l. unfold lift. by rewrite Hn.
    - exists (t_notifications (working s1)). unfold s1, s0. cbn. by destruct (committed s). }
  destruct Hmid as [l' Hmid]. rewrite (run_wbind _ _ _ _ _ _ _ Hmid). clear Hn Hmid.
  set (s2 := Session (committed s1) ((working s1) <| t_notifications := l' |>) (published s1)).
  set (s3 := Session (committed s2) ((working s2) <| t_jobs := alter (fun j => j <| jb_status := "failed" |>
    <| jb_last_error := Some (upto 2000 (exception_text e)) |>) job_id (t_jobs (working s2)) |>) (published s2)).
  rewrite (run_wbind (lift (change_job _ _)) _ w0 s2 tt w0 s3 eq_refl).
  destruct (run_report job_id w0 s3) as (w' & m & Hrep & Hm). rewrite (run_wbind _ _ _ _ _ _ _ Hrep).
  eexists w', _. split; [reflexivity|]. split; [done|]. cbn.
  assert (Hj3 : t_jobs (working s3) !! job_id = Some (j0 <| jb_status := "failed" |>
    <| jb_last_error := Some (upto 2000 (exception_text e)) |>)) by (cbn; by rewrite lookup_alter_eq, Hj).
  destruct (Hm job_id) as (Hs & _ & Hle). rewrite Hj3 in Hs, Hle. cbn in Hs, Hle.
  destruct (m !! job_id) as [j1|] eqn:Hj1; [|done]. cbn in Hs, Hle.
  eexists j1, _. split; [exact Hj1|]. split; [cbn; rewrite lookup_alter_eq, Hc; reflexivity|].
  cbn. split_and!; [congruence..|]. eexists. split; [apply elem_of_app; right; by left|]. by split_and!.
Qed.

(** The scopes, then the verdict. *)
Lemma run_scopes_split now cn job_id actor l w s :
  run_scopes now cn job_id actor l w s
  = match each l (sync_scope now cn job_id actor) w s with
    | (Return _, w1, s1) => run_scopes now cn job_id actor [] w1 s1
    | (Raise e, w1, s1) => (Raise e, w1, s1)
    end.
Proof.
  unfold run_scopes. cbn [each]. unfold mbind, W_bind at 1.
  destruct (each l _ w s) as [[[[]|e] w1] s1]; [|done]. reflexivity.
Qed.

(** Why a run is refused before it starts. *)
Definition refused_run (cn : connector) (scope_id : option uuid) (db : kbdb) (e : exn) : Prop :=
  mem (cn_system cn) SYNC_PROVIDERS = false \/ authorized cn = Raise e \/ selected_scopes cn scope_id db = [].

End Verdict.

(** ** A concrete run *)

(** A provider that reports [changes] and answers downloads with [file]. *)
Definition demo_provider (changes : list change) (file : change -> outcome pystr) (base : Z) : Provider :=
  {| authorized := fun _ => Return tt;
     incremental_changes := fun _ _ _ => Return (changes, Some $"next");
     provider_permissions := fun _ _ => Return [];
     download := fun _ c => file c;
     content_sha256 := id;
     extract_source_pages := fun _ _ => Return None;
     extract_source_markdown := fun _ data _ => Return data;
     save_source := fun content_hash _ _ _ => Return ($"key-" ++ content_hash);
     route_document_candidates := fun _ _ _ => [];
     dispatch_format := fun _ => true;
     CONNECTOR_AUTO_PUBLISH_MODE := $"governed";
     str_exc := fun _ => $"error";
     ids := fun n k => base + 100 * n + Z.of_nat k |}.

Definition policy_change : change :=
  NormalizedChange $"file-1" $"drive" $"policy.md" "active" (Some $"r2") (Some $"text/markdown") None None [].
Definition drive_scope : source_scope := mkScope 51 50 $"root" $"Root" true.
Definition drive_job : connector_job := mkJob 60 50 None "pending" 0 None None None.
Definition drive_db : kbdb :=
  empty_db <| t_connectors := {[50 := drive]} |> <| t_scopes := {[51 := drive_scope]} |>
    <| t_jobs := {[60 := drive_job]} |> <| t_departments := [it; hr] |>.

Lemma empty_logged db : t_drafts db = ∅ -> t_transitions db = [] -> logged db.
Proof.
  intros Hd Ht. unfold logged. rewrite Hd, Ht. constructor.
  - intros i d Hx. by apply lookup_empty_Some in Hx.
  - by intros t Hx%elem_of_nil.
  - intros i d Hx. by apply lookup_empty_Some in Hx.
Qed.

