(* ===== verification/CloudFacts.v ===== *)
(** * What one item, one deletion and one scope amount to

    Theorems about the parts of a connector run (CloudSync.v): the quarantine of a file that
    keeps failing, the withdrawal of a deleted document, the cursor of a walked scope, and two
    places where the run does less than it reports. *)

From S2P Require Import Prelude PyText Models Rbac Permissions Store Drafts DraftLog SourceAcl CloudSync CloudWalk.
From Stdlib Require String.
#[local] Open Scope string_scope.
#[local] Open Scope list_scope.
#[local] Open Scope Z_scope.

(** ** Runs that return *)

Lemma lift_return {A} (m : KB A) w s a w' s' :
  lift m w s = (Return a, w', s') -> m s = (Return a, s') /\ w' = w.
Proof. unfold lift. destruct (m s) as [o s1]. by intros [= -> -> ->]. Qed.

(** Takes apart a run that returned. *)
Ltac winv :=
  repeat match goal with
  | H : (_ ≫= _) _ _ = (Return _, _, _) |- _ =>
      apply wbind_return in H; destruct H as (? & ? & ? & ? & H)
  | H : lift _ _ _ = (Return _, _, _) |- _ => apply lift_return in H; destruct H as [? ->]
  | H : query _ _ = (Return _, _) |- _ => apply query_return in H; cbn beta in H; destruct H as [? ->]
  | H : commit _ = (Return _, _) |- _ => unfold commit in H; injection H as ?; subst
  | H : change_walk _ _ _ = (Return _, _, _) |- _ => unfold change_walk in H; injection H; clear H; intros; subst
  | H : count _ _ _ = (Return _, _, _) |- _ => unfold count, change_walk in H; injection H; clear H; intros; subst
  | H : get_walk _ _ = (Return _, _, _) |- _ => unfold get_walk in H; injection H; clear H; intros; subst
  | H : mret _ _ _ = (Return _, _, _) |- _ => unfold mret, W_ret in H; injection H; clear H; intros; subst
  end.

(** ** The quarantine *)

Section Quarantine.

(** The one row of the file a change is about ([uq_external_document]). *)
Definition same_file (connector_id : uuid) (c : change) (d : external_document) : bool :=
  Z.eqb (ed_connector_id d) connector_id && bool_decide (ed_corpus_id d = ch_corpus_id c)
  && bool_decide (ed_external_id d = ch_external_id c).

Record one_document (db : kbdb) (connector_id : uuid) (c : change) (d : external_document) : Prop := {
  od_stored : t_external_documents db !! ed_id d = Some d;
  od_same : same_file connector_id c d = true;
  od_only : forall i x, t_external_documents db !! i = Some x -> same_file connector_id c x = true -> i = ed_id d
}.

Lemma find_one db connector_id c d : one_document db connector_id c d -> find_document db connector_id c = Some d.
Proof.
  intros [Hs Hm Ho]. unfold find_document.
  assert (Hrows : forall x, x ∈ rows (t_external_documents db) -> exists i, t_external_documents db !! i = Some x).
  { intros x Hx. unfold rows in Hx. apply elem_of_map in Hx as ([i y] & -> & Hi). exists i.
    by apply elem_of_map_to_list in Hi. }
  destruct (List.find _ _) as [x|] eqn:Hf.
  - apply find_some in Hf as [Hx Hb]. apply list_elem_of_In, Hrows in Hx as [i Hi].
    pose proof (Ho i x Hi Hb) as ->. congruence.
  - exfalso. unfold same_file in Hm. rewrite (List.find_none _ _ Hf d) in Hm; [done|].
    apply list_elem_of_In. unfold rows. apply elem_of_map. exists (ed_id d, d).
    split; [done|]. by apply elem_of_map_to_list.
Qed.

Lemma one_document_update db connector_id c d d' :
  one_document db connector_id c d -> ed_id d' = ed_id d -> same_file connector_id c d' = true ->
  one_document (db <| t_external_documents := <[ed_id d' := d']> (t_external_documents db) |>) connector_id c d'.
Proof.
  intros [Hs Hm Ho] Hi Hsame. constructor; cbn.
  - by rewrite lookup_insert_eq.
  - done.
  - intros i x [[<- _]|[_ Hx]]%lookup_insert_Some Hb; [done|]. rewrite Hi. by apply (Ho i x).
Qed.

(** The row after a failure of the change. *)
Definition with_failure (d : external_document) (f : ingest_failure) : external_document :=
  d <| ed_metadata := (ed_metadata d) <| k_ingest_failure := Some f |> |>.

Lemma run_record now connector_id job_id c reason code retryable d (s : session kbdb event) :
  one_document (working s) connector_id c d ->
  exists s' f, _record_item_failure now connector_id job_id c reason code retryable s
      = (Return (next_attempt (_ingest_failure (Some d)) c), s')
    /\ committed s' = working s' /\ one_document (working s') connector_id c (with_failure d f)
    /\ if_revision f = revision_text c /\ if_attempts f = next_attempt (_ingest_failure (Some d)) c.
Proof.
  intros Hd. unfold _record_item_failure, query, mbind, M_bind. rewrite (find_one _ _ _ _ Hd).
  eexists _, _. split; [reflexivity|]. split; [done|]. split.
  - cbn. match goal with |- one_document (_ <| t_sync_errors := ?l |>) _ _ _ => set (errors := l) end.
    pose proof (one_document_update _ _ _ _ (with_failure d (mkIngestFailure (revision_text c) (upto 500 reason)
      (Some code) (next_attempt (_ingest_failure (Some d)) c) now)) Hd eq_refl (od_same _ _ _ _ Hd)) as [Hs Hm Ho].
    by constructor.
  - done.
Qed.

(** One failure of the change, as [item_failed] records it: (now, job, reason, code, retryable). *)
Definition failure := (datetime * uuid * pystr * string * bool)%type.
Definition record_failures (connector_id : uuid) (c : change) (l : list failure) : KB unit :=
  for_each l (fun '(now, job_id, reason, code, retryable) =>
    _record_item_failure now connector_id job_id c reason code retryable ;; mret tt).

(** The attempts recorded for the change's revision. *)
Definition attempts_of (d : external_document) (c : change) : Z :=
  match _ingest_failure (Some d) with
  | Some f => if bool_decide (if_revision f = revision_text c) then if_attempts f else 0
  | None => 0
  end.

Lemma next_attempt_of d c : next_attempt (_ingest_failure (Some d)) c = attempts_of d c + 1.
Proof. unfold next_attempt, attempts_of. by repeat case_match. Qed.

Lemma quarantined_attempts d c : _is_quarantined d c = (_MAX_ITEM_ATTEMPTS <=? attempts_of d c).
Proof.
  unfold _is_quarantined, attempts_of. destruct (_ingest_failure (Some d)) as [f|]; [|done].
  by destruct (bool_decide _).
Qed.

Lemma run_records connector_id c l d (s : session kbdb event) :
  one_document (working s) connector_id c d ->
  exists s' d', record_failures connector_id c l s = (Return tt, s')
    /\ one_document (working s') connector_id c d' /\ attempts_of d' c = attempts_of d c + len l
    /\ (l <> [] -> committed s' = working s' /\ exists f, _ingest_failure (Some d') = Some f
                                              /\ if_revision f = revision_text c).
Proof.
  revert d s. induction l as [|[[[[now job_id] reason] code] retryable] l IH]; intros d s Hd.
  - exists s, d. unfold len. cbn. split_and!; [done|done|lia|done].
  - destruct (run_record now connector_id job_id c reason code retryable d s Hd)
      as (s1 & f & Hr & Hc & Ho1 & Hrev & Hatt).
    assert (Ha : attempts_of (with_failure d f) c = attempts_of d c + 1).
    { rewrite <- next_attempt_of, <- Hatt. unfold attempts_of, with_failure. cbn.
      by rewrite bool_decide_eq_true_2. }
    destruct (IH _ s1 Ho1) as (s2 & d2 & Hr2 & Ho2 & Ha2 & Hl). exists s2, d2.
    split; [|split; [exact Ho2|split]].
    + unfold record_failures. cbn [for_each]. unfold mbind at 1, M_bind at 1. unfold mbind at 1, M_bind at 1.
      rewrite Hr. exact Hr2.
    + rewrite Ha2, Ha. unfold len. cbn [length]. lia.
    + intros _. destruct l as [|x l]; [|by apply Hl].
      cbn in Hr2. injection Hr2 as <-. split; [done|].
      exists f. split; [|done].
      pose proof (find_one _ _ _ _ Ho2) as Hf2. rewrite (find_one _ _ _ _ Ho1) in Hf2. injection Hf2 as <-. done.
Qed.

(** A file is quarantined by its third failure and not before: of the failures recorded
    one after another for one revision of a file, exactly the third and later ones make
    [_is_quarantined] answer for that revision, and no other revision of the file is ever held
    back by them. *)
Theorem quarantine_after_three connector_id c l d (s : session kbdb event) :
  one_document (working s) connector_id c d ->
  (forall f, _ingest_failure (Some d) = Some f -> if_revision f <> revision_text c) -> l <> [] ->
  exists s' d', record_failures connector_id c l s = (Return tt, s')
    /\ find_document (committed s') connector_id c = Some d'
    /\ _is_quarantined d' c = (3 <=? len l)
    /\ forall c', revision_text c' <> revision_text c -> _is_quarantined d' c' = false.
Proof.
  intros Hd Hfresh Hl. destruct (run_records connector_id c l d s Hd) as (s' & d' & Hr & Ho1 & Ha & Hrest).
  destruct (Hrest Hl) as (Hc & f & Hf & Hrev). exists s', d'. split; [done|].
  split; [rewrite Hc; by apply find_one|]. split.
  - rewrite quarantined_attempts, Ha. replace (attempts_of d c) with 0; [done|].
    unfold attempts_of. destruct (_ingest_failure (Some d)) as [g|] eqn:Hg; [|done].
    rewrite bool_decide_eq_false_2; [done|]. by apply Hfresh.
  - intros c' Hne. unfold _is_quarantined. rewrite Hf, bool_decide_eq_false_2; [done|congruence].
Qed.
End Quarantine.

(** ** A deletion at the source *)

Section Deletion.

Definition deletion_entry (actor : option uuid) (d : pending_draft) : draft_transition :=
  mkTransition (d_id d) (Some (d_status d)) "rejected" actor (Some deletion_reason) "applied".

Lemma run_rejections now actor l (s : session kbdb event) :
  for_each l (fun d => add_transition (deletion_entry actor d) ;; put_draft (rejected_by_deletion now actor d)) s
  = (Return tt, Session (committed s)
      ((working s) <| t_drafts := store_rows d_id (map (rejected_by_deletion now actor) l) (t_drafts (working s)) |>
                   <| t_transitions := t_transitions (working s) ++ map (deletion_entry actor) l |>) (published s)).
Proof.
  revert s. induction l as [|d l IH]; intros s; cbn [for_each].
  - cbn. rewrite app_nil_r. by destruct s as [? [] ?].
  - set (s1 := Session (committed s) ((working s) <| t_drafts := <[d_id d := rejected_by_deletion now actor d]>
        (t_drafts (working s)) |> <| t_transitions := t_transitions (working s) ++ [deletion_entry actor d] |>) (published s)).
    rewrite (run_bind _ _ s tt s1) by (destruct s as [? [] ?]; reflexivity).
    rewrite IH. unfold s1. cbn. by rewrite <- app_assoc.
Qed.

Lemma rejected_id now actor l : map d_id (map (rejected_by_deletion now actor) l) = map d_id l.
Proof. rewrite map_map. by apply map_ext. Qed.

Lemma inactive_hidden a a_rows u :
  a_lifecycle_status a = Some "inactive" ->
  can_view_article u a = false /\ _authorized_article_filters a_rows u a = false.
Proof.
  intros Ha. unfold can_view_article, lifecycle_active, _authorized_article_filters. rewrite Ha. cbn.
  split; [by rewrite orb_true_r|]. by rewrite andb_false_r.
Qed.

Lemma run_deleted now document actor (s : session kbdb event) :
  let l := List.filter (open_draft_of (ed_id document)) (rows (t_drafts (working s))) in
  exists r s', _handle_deleted_document now document actor s = (Return r, s')
    /\ t_drafts (working s') = store_rows d_id (map (rejected_by_deletion now actor) l) (t_drafts (working s))
    /\ t_transitions (working s') = t_transitions (working s) ++ map (deletion_entry actor) l
    /\ t_articles (working s') =
         match i ← ed_article_id document; t_articles (working s) !! i with
         | Some a => <[a_id a := a <| a_lifecycle_status := Some "inactive" |>]> (t_articles (working s))
         | None => t_articles (working s)
         end.
Proof.
  cbv zeta. unfold _handle_deleted_document.
  rewrite (run_bind (put_document _) _ s tt _ eq_refl), run_query.
  set (l := List.filter (open_draft_of (ed_id document)) _).
  match goal with |- context [for_each l ?f ≫= ?k] => set (g := f); set (k' := k) end.
  match goal with |- context [(for_each l g ≫= k') ?x] => set (s1 := x) end.
  assert (Hg : g = fun d => add_transition (deletion_entry actor d) ;; put_draft (rejected_by_deletion now actor d))
    by reflexivity.
  rewrite (run_bind (for_each l g) k' s1 tt _ (eq_trans (f_equal (fun g => for_each l g s1) Hg) (run_rejections now actor l s1))).
  clearbody g. subst k'. cbv beta zeta. rewrite run_query.
  match goal with |- context [ed_article_id document ≫= ?h] =>
    change (ed_article_id document ≫= h) with (i ← ed_article_id document; t_articles (working s) !! i) end.
  destruct (ed_article_id document ≫= fun i => t_articles (working s) !! i) as [a|];
    (eexists _, _; split; [reflexivity|by split_and!]).
Qed.

(** C19. A file deleted at the source is withdrawn: the call returns, every draft still open on
    it is rejected with its transition logged under the sync's actor, no draft of it is left
    open, drafts already decided are untouched, and the article built from it is stored
    inactive, so that nobody, global administrators included, can view it or find it. *)
Theorem deleted_document_hidden now document actor (s : session kbdb event) :
  keyed d_id (t_drafts (working s)) -> keyed a_id (t_articles (working s)) ->
  exists r s', _handle_deleted_document now document actor s = (Return r, s')
    /\ (forall i d, t_drafts (working s) !! i = Some d ->
          t_drafts (working s') !! i = Some (if open_draft_of (ed_id document) d
                                             then rejected_by_deletion now actor d else d)
          /\ (open_draft_of (ed_id document) d = true ->
               deletion_entry actor d ∈ t_transitions (working s')))
    /\ (forall i d, t_drafts (working s') !! i = Some d -> open_draft_of (ed_id document) d = false)
    /\ (forall i a, ed_article_id document = Some i -> t_articles (working s) !! i = Some a ->
          exists a', t_articles (working s') !! i = Some a' /\ a_body_md a' = a_body_md a
            /\ forall rows u, can_view_article u a' = false /\ _authorized_article_filters rows u a' = false).
Proof.
  intros Hkd Hka. destruct (run_deleted now document actor s) as (r & s' & Hr & Hd & Ht & Ha).
  set (l := List.filter (open_draft_of (ed_id document)) (rows (t_drafts (working s)))) in *.
  set (f := rejected_by_deletion now actor) in *.
  assert (Hnd : NoDup (map d_id (map f l))) by (unfold f; rewrite rejected_id; by apply rows_nodup).
  assert (Hl : forall i d, t_drafts (working s) !! i = Some d -> (d ∈ l <-> open_draft_of (ed_id document) d = true)).
  { intros i d Hi. unfold l. rewrite elem_of_filter_b, (elem_of_rows d_id) by done.
    rewrite (Hkd _ _ Hi). naive_solver. }
  assert (Hnew : forall i d, t_drafts (working s) !! i = Some d ->
    t_drafts (working s') !! i = Some (if open_draft_of (ed_id document) d then f d else d)).
  { intros i d Hi. rewrite Hd. pose proof (Hkd _ _ Hi) as <-.
    destruct (open_draft_of (ed_id document) d) eqn:Ho.
    - rewrite <- (store_rows_elem d_id (map f l) (t_drafts (working s)) (f d) Hnd); [done|].
      apply elem_of_map. exists d. split; [done|]. by apply (Hl _ _ Hi).
    - rewrite store_rows_other; [done|]. unfold f. rewrite rejected_id. intros (x & Hx & Hin)%elem_of_map.
      assert (Hxs : t_drafts (working s) !! d_id x = Some x).
      { unfold l in Hin. apply elem_of_filter_b in Hin as [Hin _]. by apply (elem_of_rows d_id) in Hin. }
      rewrite <- Hx, Hi in Hxs. injection Hxs as <-. apply (Hl _ _ Hi) in Hin. congruence. }
  exists r, s'. split; [done|]. split; [|split].
  - intros i d Hi. split; [by apply Hnew|]. intros Ho. rewrite Ht. apply elem_of_app. right.
    apply elem_of_map. exists d. split; [done|]. by apply (Hl _ _ Hi).
  - intros i d Hi. destruct (t_drafts (working s) !! i) as [x|] eqn:Hx.
    + rewrite (Hnew _ _ Hx) in Hi. injection Hi as <-.
      destruct (open_draft_of (ed_id document) x) eqn:Ho; [|done].
      unfold open_draft_of. by rewrite andb_comm.
    + rewrite Hd, store_rows_other in Hi; [congruence|]. unfold f. rewrite rejected_id.
      intros (y & -> & Hin)%elem_of_map. unfold l in Hin. apply elem_of_filter_b in Hin as [Hin _].
      apply (elem_of_rows d_id) in Hin; [congruence|done].
  - intros i a Hi Hai. rewrite Hi in Ha. cbn in Ha. rewrite Hai in Ha.
    exists (a <| a_lifecycle_status := Some "inactive" |>). rewrite Ha, <- (Hka _ _ Hai), lookup_insert_eq.
    split_and!; [done|done|]. intros rs u. by apply inactive_hidden.
Qed.
End Deletion.

(** ** The cursor of a scope *)

Section Cursor.
Context `{KbEnv, AclEnv, Provider}.

Lemma find_put_cursor (db : kbdb) (c : sync_cursor) s :
  (put_cursor c (Session (committed s) db (published s))).1 = Return tt
  /\ find_cursor (working (put_cursor c (Session (committed s) db (published s) : session kbdb event)).2)
       (cu_connector_id c) (cu_scope_id c) = Some c.
Proof.
  split; [done|]. unfold put_cursor, write, find_cursor. cbn.
  assert (Hself : same_cursor (cu_connector_id c) (cu_scope_id c) c = true)
    by (unfold same_cursor; by rewrite !Z.eqb_refl).
  induction (t_cursors db) as [|x l IH]; cbn; [by rewrite Hself|].
  destruct (same_cursor (cu_connector_id c) (cu_scope_id c) x) eqn:Hx; cbn.
  - by rewrite Hself.
  - destruct (existsb _ l); cbn; rewrite ?Hx; exact IH.
Qed.

Lemma cursor_or_new_ids db cn scope_id :
  cu_connector_id (cursor_or_new db cn scope_id) = cn_id cn /\ cu_scope_id (cursor_or_new db cn scope_id) = scope_id.
Proof.
  unfold cursor_or_new. destruct (find_cursor db (cn_id cn) scope_id) as [c|] eqn:Hf; [|done].
  apply find_some in Hf as [_ Hf]. unfold same_cursor in Hf. cbn. bools. by eqs.
Qed.

Lemma report_return job_id w s w' s' :
  report_summary job_id w s = (Return tt, w', s') ->
  t_cursors (working s') = t_cursors (working s).
Proof.
  intros Hr. destruct (run_report job_id w s) as (w1 & m & Hrun & _). rewrite Hrun in Hr.
  by injection Hr as <- <-.
Qed.

(** A scope that was walked to its end stores the provider's next cursor, whatever became
    of its items: the row is ready, no longer waits for a full synchronisation, and starts the
    next walk after all changes of this one, the failed ones included. *)
Theorem cursor_advances now cn job_id actor scope_id scope changes x next w s w' s' :
  t_scopes (working s) !! scope_id = Some scope ->
  incremental_changes cn scope (walk_plan cn (find_cursor (working s) (cn_id cn) (sc_id scope))).1.1
    = Return (changes, Some (x :: next)) ->
  sync_scope now cn job_id actor scope_id w s = (Return tt, w', s') ->
  exists c, find_cursor (committed s') (cn_id cn) (sc_id scope) = Some c
    /\ cu_cursor_value c = Some (x :: next) /\ cu_status c = "ready" /\ cu_full_sync_required c = false
    /\ cu_last_success_at c = Some now.
Proof.
  intros Hs Hi Hr. unfold sync_scope in Hr. winv. subst. rewrite Hs in Hr. winv. subst.
  destruct (walk_plan cn _) as [[cursor requested] full]. cbn in Hi. winv.
  unfold fetch_changes in *. rewrite Hi in *. winv. subst.
  match goal with H : put_cursor ?c ?s0 = (Return _, ?s1), H' : report_summary _ _ ?s1 = (Return ?u, _, ?s2),
    H'' : cleanup _ _ _ = (Return _, _, _) |- _ => rename H into Hput, H' into Hrep, H'' into Hcl;
    set (row := c) in *; destruct (find_put_cursor (working s0) row s0) as [_ Hfind];
    destruct s0 as [c0 w0 p0]; destruct u end.
  apply report_return in Hrep. unfold cleanup in Hcl. winv. subst.
  cbn [committed working published] in *. rewrite Hput in Hfind. cbn [snd] in Hfind.
  exists row. split; [|done]. unfold find_cursor in *. cbn. rewrite Hrep.
  destruct (cursor_or_new_ids w0 cn (sc_id scope)) as [Hc Hsc].
  change (cu_connector_id row) with (cu_connector_id (cursor_or_new w0 cn (sc_id scope))) in Hfind.
  change (cu_scope_id row) with (cu_scope_id (cursor_or_new w0 cn (sc_id scope))) in Hfind.
  by rewrite Hc, Hsc in Hfind.
Qed.
End Cursor.

(** ** A changed file that failed once *)

Section Forgotten.
Context `{KbEnv, AclEnv, Provider}.

(** The tables the content of a document lives in. *)
Definition content_tables (db : kbdb) := (t_drafts db, t_candidates db, t_document_versions db).

Lemma upsert_return cn scope i c d s d' s' :
  find_document (working s) (cn_id cn) c = Some d ->
  _upsert_document cn scope i c s = (Return d', s') ->
  ed_content_hash d' = ed_content_hash d /\ ed_id d' = ed_id d
  /\ content_tables (working s') = content_tables (working s).
Proof.
  intros Hf Hr. unfold _upsert_document, put_document in Hr. minv. rewrite Hf. cbn [default].
  split_and!; [by destruct (_ || _)..|reflexivity].
Qed.

Lemma save_return i cn d ps s d' b s' :
  _save_permissions i cn d ps s = (Return (d', b), s') ->
  ed_content_hash d' = ed_content_hash d /\ ed_id d' = ed_id d
  /\ content_tables (working s') = content_tables (working s).
Proof.
  intros Hr. assert (Hf : frame content_tables (_save_permissions i cn d ps))
    by (unfold _save_permissions, put_document; cbv zeta; solve_frame).
  destruct (Hf s) as [Hw _]. rewrite Hr in Hw. cbn in Hw.
  split; [|split]; [..|exact Hw]; destruct (run_save_permissions i cn d ps s) as (db & Hs & _); rewrite Hs in Hr;
    by injection Hr as <- _ _.
Qed.

(** A step that leaves the content and the formatter's queue alone. *)
Definition stays {A} (m : W A) : Prop := forall w s a w' s', m w s = (Return a, w', s') ->
  content_tables (working s') = content_tables (working s) /\ wk_format_queue w' = wk_format_queue w.

Lemma stays_ret {A} (a : A) : stays (mret a).
Proof. intros w s b w' s' [= <- <- <-]. done. Qed.
Lemma stays_count f : stays (count f).
Proof. intros w s b w' s' [= <- <- <-]. done. Qed.
Lemma stays_lift {A} (m : KB A) : frame content_tables m -> stays (lift m).
Proof.
  intros Hf w s a w' s' (Hr & ->)%lift_return. destruct (Hf s) as [Hw _]. rewrite Hr in Hw. by rewrite <- Hw.
Qed.
Lemma stays_bind {A B} (m : W A) (k : A -> W B) : stays m -> (forall a, stays (k a)) -> stays (m ≫= k).
Proof.
  intros Hm Hk w s b w' s' (a & w1 & s1 & Ha & Hb)%wbind_return.
  apply Hm in Ha as [Ht Hq]. apply Hk in Hb as [Ht' Hq'].
  by rewrite Ht', Hq', Ht, Hq.
Qed.
Lemma stays_if {A} (b : bool) (m1 m2 : W A) : stays m1 -> stays m2 -> stays (if b then m1 else m2).
Proof. by destruct b. Qed.

Lemma pending_tables i db db' :
  content_tables db' = content_tables db -> pending_needs_candidates i db' = pending_needs_candidates i db.
Proof. unfold content_tables, pending_needs_candidates, has_candidates. by intros [= -> -> _]. Qed.

Lemma stays_apply b cn d actor i :
  stays (lift (_apply_mapped_groups b cn d) ;;
         count (fun y => y <| sy_permissions_updated := sy_permissions_updated y + 1 |>) ;;
         lift (_record_permission_change_audits [i] actor ;; commit ;; publish (PermissionChanged i))).
Proof.
  apply stays_bind; [|intros; apply stays_bind; [apply stays_count|intros]]; apply stays_lift.
  - unfold _apply_mapped_groups, put_article, put_document. solve_frame.
  - unfold _record_permission_change_audits, add_audit. solve_frame.
Qed.

Lemma pending_query (b : bool) i (s : session kbdb event) v s' :
  (if b then query (pending_needs_candidates i) else mret false) s = (Return v, s') ->
  pending_needs_candidates i (working s) = false -> v = false /\ s' = s.
Proof. intros Hr Hp. destruct b; [apply query_return in Hr as [<- ->]|injection Hr as <- <-]; done. Qed.

(** The retries of a failed import never reach a file that was indexed before: once the
    revision of a change is the stored one, which the walk makes it before it downloads
    anything, a document that has a content hash is answered "unchanged" (or "skipped")
    whether or not that revision was ever ingested; nothing is downloaded into a draft, a
    candidate or a version. *)
Theorem failed_update_forgotten now cn scope actor n c d w s action reason w' s' :
  find_document (working s) (cn_id cn) c = Some d ->
  ed_revision d = ch_revision c -> otruthy (ed_content_hash d) = true ->
  pending_needs_candidates (ed_id d) (working s) = false ->
  is_deleted c = false -> wk_format_queue w = [] ->
  item_body now cn scope actor n c (Some d) w s = (Return (action, reason), w', s') ->
  (action = "unchanged" \/ action = "skipped")
  /\ content_tables (working s') = content_tables (working s).
Proof.
  intros Hf Hrev Hh Hp Hd Hq Hr. unfold item_body in Hr. rewrite Hd in Hr. cbn [negb andb] in Hr.
  unfold _needs_content_ingest in Hr. cbn [mbind option_bind] in Hr.
  rewrite (bool_decide_eq_true_2 _ Hrev) in Hr. cbn [negb orb] in Hr. winv.
  match goal with H : _upsert_document _ _ _ _ _ = _ |- _ => eapply upsert_return in H as (Hh1 & Hi1 & Ht1); [|exact Hf] end.
  match goal with H : (if _ then _ else mret (x, false)) _ = (Return ?y, ?s2) |- _ => rename H into Hsave, s2 into sv;
    assert (Hx : ed_content_hash y.1 = ed_content_hash x /\ ed_id y.1 = ed_id x
              /\ content_tables (working sv) = content_tables (working x1)) end.
  { destruct (is_file c (Some d) && _); [|by injection Hsave as <- <-].
    apply bind_return in Hsave as (ps & s1 & Ha & Hsave). unfold ask in Ha. injection Ha as _ <-.
    destruct x2. by apply save_return in Hsave. }
  destruct x2 as [doc changed]. cbn [fst] in Hx. destruct Hx as (Hh2 & Hi2 & Ht2). clear Hsave. winv.
  match goal with H : (if _ then count _ else mret tt) _ _ = (Return _, _, _) |- _ =>
    apply (stays_if _ _ _ (stays_count _) (stays_ret _)) in H as [Ht3 Hq3] end.
  match goal with H : (flush_principals ≫= _) _ = (Return _, ?s1) |- _ => 
    assert (Ht4 : content_tables (working s1) = content_tables (working s)) end.
  { assert (Hfr : frame content_tables (flush_principals ;; commit)) by (unfold flush_principals; solve_frame).
    match goal with H : (flush_principals ≫= _) ?s0 = _ |- _ =>
      destruct (Hfr s0) as [Hw _]; rewrite H in Hw end. cbn in Hw. congruence. }
  match goal with H : (if _ then query _ else mret false) _ = (Return _, _) |- _ =>
    apply pending_query in H as [-> ->]; [|rewrite Hi2, Hi1; by rewrite (pending_tables _ _ _ Ht4)] end.
  match goal with H : match unsupported _ _ with Some _ => _ | None => _ end _ _ = _ |- _ => rename H into Hout end.
  assert (Ho : exists a r, x10 = (doc, a, r, false) /\ (a = "unchanged" \/ a = "skipped")
    /\ content_tables (working x12) = content_tables (working x6) /\ wk_format_queue x11 = wk_format_queue x2).
  { rewrite Hh2, Hh1, Hh in Hout. cbn [negb orb] in Hout. rewrite bool_decide_eq_true_2, andb_false_r in Hout by done.
    destruct (unsupported c (Some d)); [|destruct (_is_quarantined doc c)]; winv; subst; by eauto 10. }
  destruct Ho as (a & r & -> & Ha & Ht5 & Hq5). clear Hout. winv. split; [exact Ha|].
  match goal with H : (match ed_article_id doc with Some _ => _ | None => _ end) _ _ = (Return _, ?wa, ?sa) |- _ =>
    assert (Hap : content_tables (working sa) = content_tables (working x12) /\ wk_format_queue wa = wk_format_queue x11)
  end.
  { match goal with H : (match ed_article_id doc with Some _ => _ | None => _ end) _ _ = _ |- _ => revert H end.
    destruct (ed_article_id doc); [destruct changed|]; [apply stays_apply|apply stays_ret..]. }
  match goal with H : (if _ then count _ else mret tt) _ _ = (Return _, _, _) |- _ =>
    apply (stays_if _ _ _ (stays_count _) (stays_ret _)) in H as [Ht6 Hq6] end.
  match goal with H : _dispatch_queued_formats ?q _ = (Return _, _) |- _ =>
    assert (Hqe : q = []) by (destruct Hap; congruence); rewrite Hqe in H; cbn in H; injection H as _ <- end.
  cbn [working]. destruct Hap. congruence.
Qed.
End Forgotten.

(** ** Concrete runs *)

(** The file was indexed at revision r1; the article 5 is built from it. *)
Definition policy_document : external_document :=
  mkExternalDocument 40 50 (Some 51) (Some 5) $"drive" $"file-1" None $"policy.md" (Some $"text/markdown") None
    (Some $"r1") (Some $"old") None "active" no_metadata.
Definition policy_draft : pending_draft :=
  sample_draft <| d_external_document_id := Some 40 |> <| d_created_by := None |>.
Definition indexed_db : kbdb :=
  drive_db <| t_external_documents := {[40 := policy_document]} |> <| t_articles := {[5 := drive_article]} |>.
Definition failing : Provider :=
  demo_provider [policy_change] (fun _ => Raise (ConnectorProviderError $"corrupt" true None)) 1000.
Definition working_provider : Provider := demo_provider [policy_change] (fun _ => Return $"new") 9000.

(** The next revision of the file *)
Definition repaired_change : change :=
  NormalizedChange $"file-1" $"drive" $"policy.md" "active" (Some $"r3") (Some $"text/markdown") None None [].

Lemma policy_one : one_document indexed_db 50 policy_change policy_document.
Proof.
  constructor; [reflexivity..|]. intros i x Hx _.
  change (({[40 := policy_document]} : gmap uuid external_document) !! i = Some x) in Hx. apply lookup_singleton_Some in Hx as [<- _]. reflexivity.
Qed.

Lemma quarantine_after_three_witness :
  exists d', _is_quarantined d' policy_change = true
    /\ _is_quarantined d' repaired_change = false.
Proof.
  destruct (quarantine_after_three 50 policy_change
    [(1, 60, $"corrupt", "x", true); (2, 60, $"corrupt", "x", true); (3, 60, $"corrupt", "x", true)]
    policy_document (open_session indexed_db) policy_one) as (s' & d' & _ & _ & Hq & Hr).
  - intros f Hf. discriminate Hf.
  - discriminate.
  - exists d'. split; [exact Hq|]. apply Hr. discriminate.
Defined.

Lemma deleted_document_hidden_witness :
  exists (s' : session kbdb event) a', t_articles (working s') !! 5 = Some a'
    /\ forall rows u, can_view_article u a' = false /\ _authorized_article_filters rows u a' = false.
Proof.
  destruct (deleted_document_hidden 700 policy_document None
    (open_session (indexed_db <| t_drafts := {[1 := policy_draft]} |>))) as (r & s' & _ & _ & _ & Ha).
  - intros i d Hd. change (({[1 := policy_draft]} : gmap uuid pending_draft) !! i = Some d) in Hd. apply lookup_singleton_Some in Hd as [<- <-]. reflexivity.
  - intros i a Ha. change (({[5 := drive_article]} : gmap uuid article) !! i = Some a) in Ha. apply lookup_singleton_Some in Ha as [<- <-]. reflexivity.
  - destruct (Ha 5 drive_article eq_refl eq_refl) as (a' & Hl & _ & Hv). exists s', a'. by split.
Defined.

Lemma cursor_advances_witness :
  exists (s' : session kbdb event) c, find_cursor (committed s') 50 51 = Some c /\ cu_cursor_value c = Some $"next".
Proof.
  destruct (@sync_scope acl_env acl_unicode failing 700 drive 60 None 51 (started 1) (open_session indexed_db))
    as [[[[]|e] w'] s'] eqn:Hrun; [|vm_compute in Hrun; discriminate].
  destruct (@cursor_advances acl_env acl_unicode failing 700 drive 60 None 51 drive_scope [policy_change]
    110 $"ext" (started 1) (open_session indexed_db) w' s') as (c & Hf & Hv & _).
  - reflexivity.
  - vm_compute. reflexivity.
  - exact Hrun.
  - exists s', c. by split.
Defined.

(** The durable database after a run in which the new revision could not be downloaded. *)
Definition failed_once : kbdb :=
  committed (@sync_cloud_connector acl_env acl_unicode failing 700 drive drive_job None (open_session indexed_db)).2.

(** The second run, whose download works, calls the file unchanged and keeps the old content. *)
Lemma failed_update_forgotten_witness :
  exists d, find_document failed_once 50 policy_change = Some d /\ ed_content_hash d = Some $"old"
    /\ (exists w' s' action reason, @item_body acl_env acl_unicode working_provider 800 drive drive_scope None 1
          policy_change (Some d) (started 1) (open_session failed_once) = (Return (action, reason), w', s')
        /\ (action = "unchanged" \/ action = "skipped")).
Proof.
  destruct (find_document failed_once 50 policy_change) as [d|] eqn:Hd; [|vm_compute in Hd; discriminate].
  exists d. assert (Hh : ed_content_hash d = Some $"old") by (vm_compute in Hd; injection Hd as <-; reflexivity).
  split; [done|]. split; [exact Hh|].
  destruct (@item_body acl_env acl_unicode working_provider 800 drive drive_scope None 1
    policy_change (Some d) (started 1) (open_session failed_once)) as [[[[action reason]|e] w'] s'] eqn:Hrun;
    [|vm_compute in Hd; injection Hd as <-; vm_compute in Hrun; discriminate].
  exists w', s', action, reason. split; [done|].
  apply (@failed_update_forgotten acl_env acl_unicode working_provider 800 drive drive_scope None 1 policy_change d
    (started 1) (open_session failed_once) action reason w' s').
  - exact Hd.
  - vm_compute in Hd. injection Hd as <-. reflexivity.
  - by rewrite Hh.
  - vm_compute in Hd. injection Hd as <-. vm_compute. reflexivity.
  - reflexivity.
  - reflexivity.
  - exact Hrun.
Defined.

(** A run that imports a file: what it counted, and what its job row says. *)
Definition clean_run : walk * session kbdb event :=
  let '(_, w, s) := @sync_cloud_connector acl_env acl_unicode working_provider 700 drive drive_job None
                      (open_session drive_db) in (w, s).

(** A run in which no item fails counts what it did and stores the empty summary it started
    with: the dict is mutated in place and assigned to the attribute that already holds it. *)
Example clean_run_reports_nothing :
  sy_imported (wk_summary clean_run.1) = 1
  /\ (jb_status <$> t_jobs (committed clean_run.2) !! 60) = Some "completed"
  /\ (jb_summary_json <$> t_jobs (committed clean_run.2) !! 60) = Some (Some (empty_summary 1)).
Proof. vm_compute. split_and!; reflexivity. Qed.
