(* ===== verification/Candidates.v ===== *)
(** * Batch review of split candidates (src/domain/governance.py)

    [list_candidates], [review_candidate] and [commit_candidates]: the edits a reviewer may
    make to the candidates a document was split into, and their commit as independent drafts. *)

From S2P Require Import Prelude PyText Models Rbac Store Drafts.
From Stdlib Require String.
#[local] Open Scope string_scope.
#[local] Open Scope list_scope.
#[local] Open Scope Z_scope.

(** ** Listing *)

Definition position_leb (a b : draft_candidate) : bool := c_position a <=? c_position b.

(** The candidates of a draft [ORDER BY position ASC] (GovernanceRepository.list_candidates,
    whose own scope check its caller has just made). *)
Definition candidates_of (db : kbdb) (draft_id : uuid) : list draft_candidate :=
  stable_sort position_leb
    (List.filter (fun c => Z.eqb (c_draft_id c) draft_id) (rows (t_candidates db))).

Definition list_candidates (u : user) (draft_id : uuid) : KB (list draft_candidate) :=
  draft ← load_draft u draft_id;
  ensure (_can_review_draft u draft || bool_decide (d_created_by draft = Some (u_id u)))
    (HTTPException 403 "Not authorized to review this document") ;;
  query (fun db => candidates_of db draft_id).

(** ** Editing *)

Definition is_active (c : draft_candidate) : bool := String.eqb (c_status c) "candidate".

Definition find_candidate (l : list draft_candidate) (id : uuid) : option draft_candidate :=
  List.find (fun c => Z.eqb (c_id c) id) l.

(** The flush inside [commit] enforces [uq_draft_candidate_position] on the rows it writes. *)
Definition positions_unique (db : kbdb) (draft_id : uuid) : bool :=
  bool_decide (NoDup (map c_position (candidates_of db draft_id))).

Definition commit_candidate_rows (draft_id : uuid) : KB unit :=
  unique ← query (fun db => positions_unique db draft_id);
  ensure unique (IntegrityError "uq_draft_candidate_position") ;;
  commit.

Definition rename_candidate (c : draft_candidate) (title : option pystr) : KB unit :=
  ensure (otruthy title && truthy (strip (default [] title)))
    (HTTPException 422 "A candidate title is required") ;;
  put_candidate (c <| c_title := upto 255 (strip (default [] title)) |>).

Definition discard_candidate (c : draft_candidate) (note : option pystr) : KB unit :=
  put_candidate (c <| c_status := "discarded" |>
                   <| c_review_note := Some (upto 2000
                        (or_text note $"Discarded during batch review")) |>).

(** [sorted((candidate, other), key=position)] *)
Definition in_position_order (a b : draft_candidate) : draft_candidate * draft_candidate :=
  if c_position a <=? c_position b then (a, b) else (b, a).

Definition merge_candidates (candidates : list draft_candidate) (c : draft_candidate)
    (other_id : option uuid) (title note : option pystr) : KB unit :=
  let other := match other_id with Some i => find_candidate candidates i | None => None end in
  other ← some_or other (HTTPException 422 "Choose another active candidate to merge");
  ensure (is_active other && negb (Z.eqb (c_id other) (c_id c)))
    (HTTPException 422 "Choose another active candidate to merge") ;;
  let '(first, second) := in_position_order c other in
  put_candidate (first <| c_body_md := rstrip (c_body_md first) ++ [10; 10]
                                         ++ lstrip (c_body_md second) |>
                       <| c_source_end := Z.max (c_source_end first) (c_source_end second) |>
                       <| c_title := upto 255 (or_text title (c_title first)) |>) ;;
  put_candidate (second <| c_status := "discarded" |>
                        <| c_review_note := Some (upto 2000 (or_text note
                             ($"Merged into candidate " ++ show_int (c_position first)))) |>).

(** [split_at or len(body) // 2] *)
Definition split_boundary (c : draft_candidate) (split_at : option Z) : Z :=
  match split_at with
  | Some z => if z =? 0 then len (c_body_md c) / 2 else z
  | None => len (c_body_md c) / 2
  end.

(** The active candidates after [c], each moved one position down. *)
Definition shifted (candidates : list draft_candidate) (c : draft_candidate) : list draft_candidate :=
  map (fun i => i <| c_position := c_position i + 1 |>)
    (List.filter (fun i => is_active i && (c_position c <? c_position i)) candidates).

Definition split_left (c : draft_candidate) (boundary : Z) : draft_candidate :=
  let left := rstrip (upto boundary (c_body_md c)) in
  c <| c_body_md := left |> <| c_source_end := c_source_start c + len left |>.

(** The inserted row; [new_id] is its [uuid.uuid4()]. *)
Definition split_right (new_id : uuid) (draft : pending_draft) (c : draft_candidate)
    (title : option pystr) (boundary : Z) : draft_candidate :=
  let left := split_left c boundary in
  mkCandidate new_id (d_id draft) (c_position c + 1)
    (upto 255 (or_text title (c_title c ++ [32; 8212; 32] ++ $"continued")))
    (lstrip (from boundary (c_body_md c)))
    (c_source_end left) (c_source_end c) (c_heading c) None (c_department_ids c)
    (c_department_suggestions c) (c_proposed_department c) "candidate" None.

Definition split_candidate (new_id : uuid) (draft : pending_draft)
    (candidates : list draft_candidate) (c : draft_candidate) (title : option pystr)
    (split_at : option Z) : KB unit :=
  let boundary := split_boundary c split_at in
  ensure (negb ((boundary <? 1) || (len (c_body_md c) <=? boundary)))
    (HTTPException 422 "The split position must be inside the candidate text") ;;
  for_each (shifted candidates c) put_candidate ;;
  put_candidate (split_left c boundary) ;;
  put_candidate (split_right new_id draft c title boundary).

Section Review.
Context `{KbEnv}.

Definition set_candidate_departments (draft : pending_draft) (c : draft_candidate)
    (department_ids : option (list uuid)) : KB unit :=
  departments ← resolve_active_departments (d_company_domain draft) (default [] department_ids) false;
  put_candidate (c <| c_department_ids := Some (map (fun d => show_uuid (dp_id d)) departments) |>).

Definition apply_operation (new_id : uuid) (draft : pending_draft)
    (candidates : list draft_candidate) (c : draft_candidate) (operation : string)
    (other_candidate_id : option uuid) (title : option pystr) (split_at : option Z)
    (department_ids : option (list uuid)) (note : option pystr) : KB unit :=
  if String.eqb operation "rename" then rename_candidate c title
  else if String.eqb operation "set_departments" then set_candidate_departments draft c department_ids
  else if String.eqb operation "discard" then discard_candidate c note
  else if String.eqb operation "merge" then
    merge_candidates candidates c other_candidate_id title note
  else if String.eqb operation "split" then
    split_candidate new_id draft candidates c title split_at
  else raise (HTTPException 422 "Unsupported candidate operation").

Definition review_candidate (new_id : uuid) (u : user) (draft_id : uuid) (operation : string)
    (candidate_id : uuid) (other_candidate_id : option uuid) (title : option pystr)
    (split_at : option Z) (department_ids : option (list uuid)) (note : option pystr)
    : KB (list draft_candidate) :=
  draft ← load_draft u draft_id;
  ensure (String.eqb (d_status draft) "pending")
    (HTTPException 409 "Only pending documents can be batch reviewed") ;;
  ensure (negb (mem (d_restructure_status draft) PREPARING))
    (HTTPException 409 "AI formatting is still in progress; candidates will be ready after it finishes") ;;
  ensure (_can_review_draft u draft)
    (HTTPException 403 "Not authorized to batch review this document") ;;
  candidates ← list_candidates u draft_id;
  candidate ← some_or (find_candidate candidates candidate_id)
                (HTTPException 404 "Candidate not found");
  ensure (is_active candidate) (HTTPException 404 "Candidate not found") ;;
  apply_operation new_id draft candidates candidate operation other_candidate_id title split_at
    department_ids note ;;
  commit_candidate_rows draft_id ;;
  log_audit (Some (u_id u)) ("candidate_" +:+ operation) "draft_candidate" (c_id candidate) ;;
  list_candidates u draft_id.
End Review.

(** ** Committing the kept candidates as drafts of their own *)

(** One entry of [results]. *)
Inductive candidate_result :=
  | CandidateFailed (candidate_id : uuid) (position : Z)
  | CandidateCreated (candidate_id : uuid) (position : Z) (draft_id : uuid) (title : pystr).

Section Commit.
Context `{KbEnv}.

(** [departments_by_id[i] for i in item.department_ids if i in departments_by_id] *)
Definition selected_departments (available : list department) (item : draft_candidate)
    : list department :=
  omap (fun i => List.find (fun d => bool_decide (show_uuid (dp_id d) = i)) available)
    (default [] (c_department_ids item)).

(** [not selected_departments and item.department_ids] *)
Definition department_missing (available : list department) (item : draft_candidate) : bool :=
  match selected_departments available item, c_department_ids item with
  | [], Some (_ :: _) => true
  | _, _ => false
  end.

Definition child_metadata (base : content_metadata) (selected : list department)
    (item : draft_candidate) : content_metadata :=
  base <| md_submission_kind := Some "split_candidate" |>
       <| md_source_position := Some (json_merge
            [("start", PInt (c_source_start item)); ("end", PInt (c_source_end item));
             ("heading", ptext (c_heading item))] (default [] (c_source_position item))) |>
       <| md_department_ids := match map (fun d => show_uuid (dp_id d)) selected with
                               | [] => md_department_ids base
                               | ids => ids
                               end |>.

Definition child_hash (parent : pending_draft) (item : draft_candidate) : pystr :=
  sha256_hex (d_source_hash parent ++ $":" ++ show_int (c_position item) ++ $":" ++ c_body_md item).

(** [PendingDraft(...)]: the columns not passed take their defaults. *)
Definition child_draft (now : datetime) (child_id : uuid) (parent : pending_draft)
    (available : list department) (item : draft_candidate) : pending_draft :=
  let selected := selected_departments available item in
  mkDraft child_id (c_title item) (d_company_domain parent)
    (match selected with d :: _ => Some (dp_name d) | [] => d_dept parent end)
    (d_source_ref parent ++ $"#candidate-" ++ show_int (c_position item))
    (child_hash parent item)
    (Some (c_body_md item)) (Some (c_body_md item)) None "not_reviewed" "lossless_ready"
    (Some $"structure-aware-splitter") None (d_storage_key parent) (d_original_filename parent)
    (d_mime_type parent) (d_page_texts parent) false None None (d_tags parent)
    (child_metadata (d_content_metadata parent) selected item)
    "draft" (d_created_by parent) None None None None None None None now.

(** One iteration of the loop; [fresh] draws the ids of the created drafts. *)
Definition commit_item (now : datetime) (fresh : uuid -> uuid) (u : user) (parent : pending_draft)
    (available : list department) (item : draft_candidate)
    : KB (candidate_result * option pending_draft) :=
  if department_missing available item then mret (CandidateFailed (c_id item) (c_position item), None)
  else
    let child := child_draft now (fresh (c_id item)) parent available item in
    put_draft child ;;
    add_transition (mkTransition (d_id child) None "draft" (Some (u_id u))
      (Some $"Created from batch-reviewed candidate") "applied") ;;
    put_candidate (item <| c_status := "committed" |>) ;;
    mret (CandidateCreated (c_id item) (c_position item) (d_id child) (d_title child), Some child).

Definition available_departments (db : kbdb) (parent : pending_draft)
    (candidates : list draft_candidate) : list department :=
  if existsb (fun item => match c_department_ids item with Some (_ :: _) => true | _ => false end)
       candidates
  then List.filter (fun d => String.eqb (dp_company_domain d) (d_company_domain parent) && dp_active d)
         (t_departments db)
  else [].

Definition split_note : pystr := $"Split candidates committed as independent drafts".

(** The transaction that creates the children and closes the parent. *)
Definition create_children (now : datetime) (fresh : uuid -> uuid) (u : user) (draft_id : uuid)
    : KB (pending_draft * list (candidate_result * option pending_draft)) :=
  parent ← load_draft u draft_id;
  ensure (String.eqb (d_status parent) "pending")
    (HTTPException 409 "Only pending documents can be committed") ;;
  ensure (negb (mem (d_restructure_status parent) PREPARING))
    (HTTPException 409 "AI formatting is still in progress; candidates cannot be committed yet") ;;
  ensure (_can_review_draft u parent)
    (HTTPException 403 "Not authorized to commit batch candidates") ;;
  listed ← list_candidates u draft_id;
  let candidates := List.filter is_active listed in
  ensure (match candidates with [] => false | _ => true end)
    (HTTPException 422 "Keep at least one candidate before committing") ;;
  available ← query (fun db => available_departments db parent candidates);
  rows ← traverse (stable_sort position_leb candidates) (commit_item now fresh u parent available);
  ensure (match omap snd rows with [] => false | _ => true end)
    (HTTPException 422 "No valid candidates could be committed") ;;
  parent ← _transition_draft parent (Some u) "rejected" (Some split_note);
  let parent := parent <| d_review_note := Some split_note |> in
  put_draft parent ;;
  commit ;;
  mret (parent, rows).

(** The returned children are the session's own objects, which [submit_draft] has changed. *)
Definition commit_candidates (now : datetime) (fresh : uuid -> uuid) (u : user) (draft_id : uuid)
    : KB (list candidate_result * list pending_draft) :=
  created ← create_children now fresh u draft_id;
  let '(parent, rows) := created in
  let children := omap snd rows in
  for_each children (fun child =>
    submit_draft now u (d_id child) (Some $"Committed from batch review") ;; mret tt) ;;
  log_audit (Some (u_id u)) "batch_commit" "draft" (d_id parent) ;;
  current ← query (fun db => omap (fun child => t_drafts db !! d_id child) children);
  mret (map fst rows, current).
End Commit.

(** ** Lemmas on the candidate rows *)

Definition keyed_candidates (db : kbdb) : Prop := keyed c_id (t_candidates db).

Lemma elem_of_candidates_of db id c :
  keyed_candidates db ->
  c ∈ candidates_of db id <-> t_candidates db !! c_id c = Some c /\ c_draft_id c = id.
Proof.
  intros Hk. unfold candidates_of.
  by rewrite elem_of_stable_sort, elem_of_filter_b, elem_of_rows, Z.eqb_eq.
Qed.

Lemma candidates_ids_nodup db id :
  keyed_candidates db -> NoDup (map c_id (candidates_of db id)).
Proof. intros Hk. unfold candidates_of. rewrite stable_sort_perm. by apply rows_nodup. Qed.

Lemma put_all_return cs (s : session kbdb event) x s' :
  for_each cs put_candidate s = (Return x, s') ->
  s' = Session (committed s)
         ((working s) <| t_candidates := store_rows c_id cs (t_candidates (working s)) |>)
         (published s).
Proof.
  revert s. induction cs as [|c cs IH]; intros s Hr; cbn in Hr.
  - minv. by destruct s' as [c [] p].
  - minv. apply IH in Hr. unfold put_candidate in *. minv. done.
Qed.

(** ** Splitting *)

Section Split.
Context (new_id : uuid) (draft : pending_draft) (db : kbdb) (c : draft_candidate).
Context (title : option pystr) (b : Z).

Definition split_rows : list draft_candidate :=
  shifted (candidates_of db (d_id draft)) c ++ [split_left c b; split_right new_id draft c title b].

Lemma shifted_ids l : map c_id (shifted l c)
  = map c_id (List.filter (fun i => is_active i && (c_position c <? c_position i)) l).
Proof. unfold shifted. rewrite map_map. by apply map_ext. Qed.

Lemma elem_of_shifted l x :
  x ∈ shifted l c <-> exists y, y ∈ l /\ is_active y = true /\ c_position c < c_position y
                        /\ x = (y <| c_position := c_position y + 1 |>).
Proof.
  unfold shifted. rewrite elem_of_map. setoid_rewrite elem_of_filter_b.
  setoid_rewrite andb_true_iff. setoid_rewrite Z.ltb_lt. naive_solver.
Qed.

(** Membership in the written rows, by id. *)
Lemma split_rows_id i :
  i ∈ map c_id split_rows <->
  i = c_id c \/ i = new_id
  \/ exists y, y ∈ candidates_of db (d_id draft) /\ is_active y = true
       /\ c_position c < c_position y /\ i = c_id y.
Proof.
  unfold split_rows. rewrite map_app, elem_of_app, shifted_ids, elem_of_map.
  setoid_rewrite elem_of_filter_b. setoid_rewrite andb_true_iff. setoid_rewrite Z.ltb_lt.
  cbn. rewrite !elem_of_cons, elem_of_nil. naive_solver.
Qed.

Hypothesis Hkey : keyed_candidates db.
Hypothesis Hfresh : t_candidates db !! new_id = None.
Hypothesis Hc : c ∈ candidates_of db (d_id draft).

Lemma candidate_stored x : x ∈ candidates_of db (d_id draft) -> t_candidates db !! c_id x = Some x.
Proof. intros Hx. by apply elem_of_candidates_of in Hx as [? _]. Qed.

Lemma candidate_id_inj x : x ∈ candidates_of db (d_id draft) -> c_id x = c_id c -> x = c.
Proof.
  intros Hx Hi. apply candidate_stored in Hx. pose proof (candidate_stored c Hc). congruence.
Qed.

Lemma split_rows_nodup : NoDup (map c_id split_rows).
Proof.
  unfold split_rows. rewrite map_app, shifted_ids. apply NoDup_app. split_and!.
  - apply NoDup_filter_map. by apply candidates_ids_nodup.
  - intros i (x & -> & Hx)%elem_of_map. apply elem_of_filter_b in Hx as [Hx Hf]. bools.
    cbn. rewrite !elem_of_cons, elem_of_nil. intros [Hi|[Hi|[]]].
    + apply candidate_id_inj in Hi; [subst x; lia|done].
    + apply candidate_stored in Hx. congruence.
  - cbn. apply NoDup_cons. split; [|repeat constructor; set_solver].
    rewrite elem_of_cons, elem_of_nil. intros [Heq|[]]. apply candidate_stored in Hc. congruence.
Qed.

(** The draft's candidates once the split is written. *)
Lemma split_rows_table db' x :
  t_candidates db' = store_rows c_id split_rows (t_candidates db) ->
  x ∈ candidates_of db' (d_id draft) <->
  x = split_left c b \/ x = split_right new_id draft c title b
  \/ x ∈ shifted (candidates_of db (d_id draft)) c
  \/ x ∈ candidates_of db (d_id draft) /\ x <> c
     /\ ~ (is_active x = true /\ c_position c < c_position x).
Proof.
  intros Ht.
  rewrite elem_of_candidates_of by (unfold keyed_candidates; rewrite Ht; by apply store_rows_keyed).
  rewrite Ht, store_rows_iff by apply split_rows_nodup. rewrite split_rows_id.
  unfold split_rows. rewrite elem_of_app, !elem_of_cons, elem_of_nil.
  rewrite (elem_of_candidates_of db _ x) by done.
  pose proof (proj1 (elem_of_candidates_of db _ c Hkey) Hc) as [Hcs Hcd].
  split.
  - intros [[[Hx|[Hx|[Hx|[]]]]|[Hid Hx]] Hd]; auto. do 3 right. split_and!; [done..| |].
    + intros ->. apply Hid. by left.
    + intros [Ha Hp]. apply Hid. do 2 right. exists x. split_and!; try done.
      by apply elem_of_candidates_of.
  - intros [->|[->|[Hx|(Hx & Hne & Hna)]]].
    + split; [auto|done].
    + split; [auto|done].
    + split; [auto|]. apply elem_of_shifted in Hx as (y & Hy & _ & _ & ->).
      by apply elem_of_candidates_of in Hy as [_ ?].
    + destruct Hx as [Hx Hd]. split; [right; split; [|done]|done]. intros [Hi|[Hi|(y & Hy & Ha & Hp & Hi)]].
      * apply Hne. congruence.
      * congruence.
      * apply candidate_stored in Hy. assert (x = y) as -> by congruence. auto.
Qed.
End Split.

(** A cut text loses only the white space around the cut. *)
Lemma cut_text (s : pystr) (b : Z) :
  exists ws, s = rstrip (upto b s) ++ ws ++ lstrip (from b s)
    /\ Forall (fun c => is_space c = true) ws.
Proof.
  destruct (drop_while_end_split is_space (upto b s)) as (suf & Hl & Hsuf).
  destruct (drop_while_split is_space (from b s)) as (pre & Hr & Hpre).
  exists (suf ++ pre). split; [|by apply Forall_app].
  rewrite <- (upto_from b s) at 1. rewrite Hl at 1. rewrite Hr at 1.
  by rewrite <- !app_assoc.
Qed.

Section ReviewRuns.
Context `{KbEnv}.

Lemma find_candidate_spec l id c : find_candidate l id = Some c -> c ∈ l /\ c_id c = id.
Proof. intros [Hin Hid]%find_some. apply list_elem_of_In in Hin. by apply Z.eqb_eq in Hid. Qed.

Lemma commit_rows_return id (s s' : session kbdb event) x :
  commit_candidate_rows id s = (Return x, s') ->
  positions_unique (working s) id = true /\ s' = durable (published s) (working s).
Proof. unfold commit_candidate_rows. intros Hr. by minv. Qed.

Lemma commit_rows_raise id (s : session kbdb event) :
  positions_unique (working s) id = false ->
  commit_candidate_rows id s = (Raise (IntegrityError "uq_draft_candidate_position"), s).
Proof. unfold commit_candidate_rows, mbind, M_bind, query. by intros ->. Qed.

Lemma list_candidates_return u id (s s' : session kbdb event) l :
  list_candidates u id s = (Return l, s') ->
  s' = s /\ l = candidates_of (working s) id /\ exists d, t_drafts (working s) !! id = Some d.
Proof.
  unfold list_candidates. intros Hr. minv.
  match goal with H : load_draft _ _ _ = _ |- _ => apply load_draft_return in H as (-> & ? & _) end.
  eauto.
Qed.

Lemma split_candidate_return new_id draft cs c title at_ (s s' : session kbdb event) x :
  split_candidate new_id draft cs c title at_ s = (Return x, s') ->
  let b := split_boundary c at_ in
  1 <= b < len (c_body_md c)
  /\ s' = Session (committed s)
            ((working s) <| t_candidates := store_rows c_id
                (shifted cs c ++ [split_left c b; split_right new_id draft c title b])
                (t_candidates (working s)) |>) (published s).
Proof.
  intros Hr. unfold split_candidate in Hr. cbn zeta in *. minv.
  match goal with H : for_each _ _ _ = _ |- _ => apply put_all_return in H; subst end.
  unfold put_candidate in *. minv. bools. split.
  - lia.
  - unfold store_rows. by rewrite fold_left_app.
Qed.

Lemma split_candidate_run new_id draft cs c title at_ (s : session kbdb event) :
  1 <= split_boundary c at_ < len (c_body_md c) ->
  split_candidate new_id draft cs c title at_ s
  = (Return tt, Session (committed s)
       ((working s) <| t_candidates := store_rows c_id
           (shifted cs c ++ [split_left c (split_boundary c at_);
                             split_right new_id draft c title (split_boundary c at_)])
           (t_candidates (working s)) |>) (published s)).
Proof.
  intros Hb. unfold split_candidate. rewrite run_ensure
    by (rewrite negb_true_iff, orb_false_iff, Z.ltb_ge, Z.leb_gt; lia).
  destruct (total_for_each (D:=kbdb) (E:=event) (shifted cs c) put_candidate) with (s := s)
    as ([] & s1 & H1); [intros; apply total_write|].
  rewrite (run_bind _ _ _ _ _ H1). apply put_all_return in H1 as ->.
  unfold store_rows. by rewrite fold_left_app.
Qed.

Lemma list_candidates_run u id (s : session kbdb event) d :
  t_drafts (working s) !! id = Some d -> draft_in_scope u d = true ->
  _can_review_draft u d = true ->
  list_candidates u id s = (Return (candidates_of (working s) id), s).
Proof.
  intros Hd Hs Hr. unfold list_candidates.
  rewrite (run_bind _ _ _ _ _ (load_draft_run _ _ _ _ Hd Hs)), run_ensure by (by rewrite Hr). done.
Qed.

Lemma find_candidate_run db id c :
  keyed_candidates db -> c ∈ candidates_of db id ->
  find_candidate (candidates_of db id) (c_id c) = Some c.
Proof.
  intros Hk Hc. unfold find_candidate. destruct (List.find _ _) as [x|] eqn:Hf.
  - apply find_candidate_spec in Hf as [Hx Hi]. apply elem_of_candidates_of in Hc as [Hc _], Hx as [Hx _];
      [congruence|done..].
  - apply list_elem_of_In in Hc. eapply find_none in Hf; [|exact Hc]. by rewrite Z.eqb_refl in Hf.
Qed.

Lemma apply_split new_id d cs c o title at_ ids note :
  apply_operation new_id d cs c "split" o title at_ ids note = split_candidate new_id d cs c title at_.
Proof. reflexivity. Qed.

End ReviewRuns.

Ltac cinv :=
  repeat (dinv; match goal with
  | H : list_candidates _ _ _ = (Return _, _) |- _ =>
      apply list_candidates_return in H; destruct H as (? & ? & ?); subst
  | H : commit_candidate_rows _ _ = (Return _, _) |- _ =>
      apply commit_rows_return in H; destruct H; subst
  | H : find_candidate _ _ = Some _ |- _ => apply find_candidate_spec in H; destruct H
  | H : split_candidate _ _ _ _ _ _ _ = (Return _, _) |- _ =>
      apply split_candidate_return in H; cbn zeta in H; destruct H as [? ?]; subst
  | H : apply_operation _ _ _ _ "split" _ _ _ _ _ _ = _ |- _ =>
      unfold apply_operation in H; cbn in H
  end); dinv.

Section ReviewTheorems.
Context `{KbEnv}.

(** Splitting a candidate replaces it, in place and in order, by the two halves of its
    text: only white space at the cut is lost, the source span is divided without a gap,
    the candidates after it move down by one, and no other row of the draft changes. *)
Theorem split_candidate_effect (new_id : uuid) (u : user) (id cid : uuid) (title : option pystr)
    (at_ : option Z) (s s' : session kbdb event) (l : list draft_candidate)
    (Hkey : keyed_candidates (working s)) (Hdraft : keyed_drafts (working s))
    (Hfresh : t_candidates (working s) !! new_id = None)
    (Hrun : review_candidate new_id u id "split" cid None title at_ None None s = (Return l, s')) :
  exists c draft ws,
    let b := split_boundary c at_ in
    let left := split_left c b in
    let right := split_right new_id draft c title b in
    c ∈ candidates_of (working s) id /\ c_id c = cid /\ is_active c = true
    /\ c_body_md c = c_body_md left ++ ws ++ c_body_md right
    /\ Forall (fun ch => is_space ch = true) ws
    /\ c_source_start left = c_source_start c /\ c_source_end left = c_source_start right
    /\ c_source_end right = c_source_end c
    /\ NoDup (map c_position l)
    /\ (forall x, x ∈ l <-> x = left \/ x = right
          \/ (exists y, y ∈ candidates_of (working s) id /\ is_active y = true
                /\ c_position c < c_position y /\ x = (y <| c_position := c_position y + 1 |>))
          \/ x ∈ candidates_of (working s) id /\ x <> c
             /\ ~ (is_active x = true /\ c_position c < c_position x))
    /\ t_candidates (committed s') = t_candidates (working s').
Proof.
  unfold review_candidate in Hrun. cinv.
  match goal with H : is_active ?x = true |- _ => rename x into c end.
  match goal with H : t_drafts _ !! id = Some ?x |- _ =>
    pose proof (Hdraft _ _ H); subst id; rename x into draft end.
  destruct (cut_text (c_body_md c) (split_boundary c at_)) as (ws & Hws & Hsp).
  exists c, draft, ws. cbn zeta. split_and!; try done.
  - match goal with H : positions_unique _ _ = true |- _ => by apply bool_decide_eq_true in H end.
  - intros x. rewrite <- elem_of_shifted.
    by apply (split_rows_table new_id draft (working s) c title).
Qed.

(** Once the candidate next to it has been discarded or merged away, a candidate can no
    longer be split: the shift skips inactive rows, so the inserted half takes a position
    that is still occupied and the commit fails on the uniqueness constraint; nothing of the
    operation becomes durable. *)
Theorem split_after_discard_collides (new_id : uuid) (u : user) (id : uuid)
    (title : option pystr) (at_ : option Z) (s : session kbdb event) (d : pending_draft)
    (c gone : draft_candidate)
    (Hkey : keyed_candidates (working s)) (Hdraft : keyed_drafts (working s))
    (Hfresh : t_candidates (working s) !! new_id = None)
    (Hd : t_drafts (working s) !! id = Some d) (Hpending : d_status d = "pending")
    (Hready : d_restructure_status d ∉ PREPARING)
    (Hscope : draft_in_scope u d = true) (Hrev : _can_review_draft u d = true)
    (Hc : c ∈ candidates_of (working s) id) (Hact : is_active c = true)
    (Hb : 1 <= split_boundary c at_ < len (c_body_md c))
    (Hgone : gone ∈ candidates_of (working s) id) (Hinact : is_active gone = false)
    (Hnext : c_position gone = c_position c + 1) :
  exists s', review_candidate new_id u id "split" (c_id c) None title at_ None None s
             = (Raise (IntegrityError "uq_draft_candidate_position"), s')
    /\ committed s' = committed s /\ published s' = published s.
Proof.
  unfold review_candidate. rewrite (run_bind _ _ _ _ _ (load_draft_run _ _ _ _ Hd Hscope)).
  rewrite run_ensure by (by rewrite Hpending).
  rewrite run_ensure by (rewrite negb_true_iff; apply not_true_iff_false; by rewrite mem_In).
  rewrite run_ensure by done.
  rewrite (run_bind _ _ _ _ _ (list_candidates_run _ _ _ _ Hd Hscope Hrev)).
  erewrite run_some_or by (by apply find_candidate_run). rewrite run_ensure by done.
  pose proof (Hdraft _ _ Hd) as <-. rewrite apply_split.
  rewrite (run_bind _ _ _ _ _ (split_candidate_run new_id d _ c title at_ s Hb)).
  eexists. split; [apply run_bind_raise, commit_rows_raise|done].
  apply bool_decide_eq_false. intros Hnd.
  match type of Hnd with NoDup (map _ (candidates_of ?x _)) => set (db' := x) in * end.
  assert (Hin : forall x, x = split_right new_id d c title (split_boundary c at_) \/ x = gone ->
            x ∈ candidates_of db' (d_id d)).
  { intros x Hx. apply (proj2 (split_rows_table new_id d (working s) c title (split_boundary c at_)
             Hkey Hfresh Hc db' x eq_refl)).
    destruct Hx as [->| ->]; [auto|]. do 3 right. split_and!; [done|congruence|].
    rewrite Hinact. by intros []. }
  assert (split_right new_id d c title (split_boundary c at_) = gone) as Heq.
  { apply (NoDup_map_eq c_position (candidates_of db' (d_id d))); auto. }
  apply elem_of_candidates_of in Hgone as [Hg _]; [|done]. rewrite <- Heq in Hg.
  cbn in Hg. congruence.
Qed.
End ReviewTheorems.

(** ** Committing *)

(** What [submit_draft] may change of a draft. *)
Definition submitted (d : pending_draft) (a b : option uuid) (t : option datetime) : pending_draft :=
  d <| d_status := "pending" |> <| d_assigned_approver_id := a |> <| d_assigned_by := b |>
    <| d_assigned_at := t |>.

Lemma submit_return now u id reason (s s' : session kbdb event) r :
  submit_draft now u id reason s = (Return r, s') ->
  exists d a b t, t_drafts (working s) !! id = Some d /\ d_status d = "draft"
    /\ r = submitted d a b t /\ committed s' = working s'
    /\ t_drafts (working s') = <[d_id d := r]> (t_drafts (working s))
    /\ t_candidates (working s') = t_candidates (working s).
Proof.
  intros Hrun. unfold submit_draft, add_notification, add_audit in Hrun. dinv.
  match goal with H : t_drafts _ !! id = Some ?x |- _ => exists x end.
  eqs.
  match goal with H : (match ?o with Some _ => _ | None => _ end) _ = (Return _, _) |- _ =>
    destruct o; minv end; do 3 eexists; split_and!; try done; cbn; by rewrite insert_insert_eq.
Qed.

Section CommitRuns.
Context `{KbEnv}.

Section Items.
Context (now : datetime) (fresh : uuid -> uuid) (u : user) (parent : pending_draft).
Context (available : list department).

(** What one iteration returns: it does not depend on the session. *)
Definition item_row (item : draft_candidate) : candidate_result * option pending_draft :=
  if department_missing available item then (CandidateFailed (c_id item) (c_position item), None)
  else (CandidateCreated (c_id item) (c_position item) (fresh (c_id item)) (c_title item),
        Some (child_draft now (fresh (c_id item)) parent available item)).

Definition children_of (items : list draft_candidate) : list pending_draft :=
  omap snd (map item_row items).

Definition committed_rows (items : list draft_candidate) : list draft_candidate :=
  map (fun i => i <| c_status := "committed" |>)
    (List.filter (fun i => negb (department_missing available i)) items).

Lemma commit_items_return items (s s' : session kbdb event) rs :
  traverse items (commit_item now fresh u parent available) s = (Return rs, s') ->
  rs = map item_row items /\ committed s' = committed s /\ published s' = published s
  /\ t_drafts (working s') = store_rows d_id (children_of items) (t_drafts (working s))
  /\ t_candidates (working s') = store_rows c_id (committed_rows items) (t_candidates (working s)).
Proof.
  revert s rs. induction items as [|i items IH]; intros s rs Hr; cbn in Hr; minv; [done|].
  match goal with H : commit_item _ _ _ _ _ _ _ = _ |- _ => rename H into Hi end.
  match goal with H : traverse _ _ _ = _ |- _ => apply IH in H as (-> & Hc & Hp & Hd & Hk) end.
  unfold commit_item, put_draft, add_transition, put_candidate in Hi.
  unfold children_of, committed_rows, item_row in *. cbn.
  destruct (department_missing available i); minv; cbn in *; by rewrite ?Hc, ?Hp, ?Hd, ?Hk.
Qed.

Lemma children_ids items :
  (forall x y, fresh x = fresh y -> x = y) -> NoDup (map c_id items) ->
  NoDup (map d_id (children_of items)).
Proof.
  intros Hinj. induction items as [|i items IH]; cbn; intros Hnd; [constructor|].
  apply NoDup_cons in Hnd as [Hi Hnd]. unfold children_of, item_row in *. cbn.
  destruct (department_missing available i); cbn; [auto|].
  apply NoDup_cons. split; [|auto]. intros (d & Hd & Hin)%elem_of_map. apply Hi.
  apply list_elem_of_omap in Hin as (r & Hr & Hs). apply elem_of_map in Hr as (j & -> & Hj).
  destruct (department_missing available j); cbn in Hs; simplify_eq/=.
  apply elem_of_map. exists j. split; [by apply Hinj|done].
Qed.

Lemma elem_of_children items d :
  d ∈ children_of items <->
  exists i, i ∈ items /\ department_missing available i = false
    /\ d = child_draft now (fresh (c_id i)) parent available i.
Proof.
  unfold children_of. rewrite list_elem_of_omap. setoid_rewrite elem_of_map. split.
  - intros (r & (i & -> & Hi) & Hs). exists i. unfold item_row in Hs.
    destruct (department_missing available i); cbn in Hs; naive_solver.
  - intros (i & Hi & Hm & ->). exists (item_row i). split; [eauto|].
    unfold item_row. by rewrite Hm.
Qed.

(** How the committed rows change the table, by whether the candidate was kept. *)
Lemma committed_rows_lookup items i m :
  NoDup (map c_id items) -> i ∈ items ->
  store_rows c_id (committed_rows items) m !! c_id i =
    if department_missing available i then m !! c_id i else Some (i <| c_status := "committed" |>).
Proof.
  intros Hnd Hi. destruct (department_missing available i) eqn:Hm.
  - apply store_rows_other. unfold committed_rows.
    intros (j & Hj & Hin)%elem_of_map. apply elem_of_map in Hin as (k & -> & Hk).
    apply elem_of_filter_b in Hk as [Hk Hmk]. cbn in Hj.
    assert (i = k) as <- by (by apply (NoDup_map_eq c_id items)). by rewrite Hm in Hmk.
  - change (c_id i) with (c_id (i <| c_status := "committed" |>)) at 1.
    apply store_rows_elem; unfold committed_rows.
    + rewrite map_map. by apply (NoDup_filter_map c_id).
    + apply elem_of_map. exists i. split; [done|]. apply elem_of_filter_b. by rewrite Hm.
Qed.
End Items.

(** Submitting a list of stored drafts, one after the other. *)
Lemma submit_all_return now u reason (ds : list pending_draft) (s s' : session kbdb event) x :
  for_each ds (fun d => submit_draft now u (d_id d) reason ;; mret tt) s = (Return x, s') ->
  committed s = working s -> NoDup (map d_id ds) ->
  (forall d, d ∈ ds -> t_drafts (working s) !! d_id d = Some d) ->
  committed s' = working s' /\ t_candidates (working s') = t_candidates (working s)
  /\ (forall i, (i ∉ map d_id ds) -> t_drafts (working s') !! i = t_drafts (working s) !! i)
  /\ (forall d, d ∈ ds -> exists a b t,
        t_drafts (working s') !! d_id d = Some (submitted d a b t)).
Proof.
  revert s x. induction ds as [|d ds IH]; intros s x Hr Hc Hnd Hin; cbn in Hr; minv.
  - split_and!; try done. by intros d Hd%elem_of_nil.
  - cbn in Hnd. apply NoDup_cons in Hnd as [Hd Hnd].
    match goal with H : submit_draft _ _ _ _ _ = _ |- _ =>
      apply submit_return in H as (d0 & a & b & t & Hd0 & _ & -> & Hw & Hdr & Hk) end.
    rewrite (Hin d) in Hd0 by (by left). simplify_eq.
    match goal with H : for_each _ _ _ = _ |- _ => apply IH in H as (Hc' & Hk' & Ho & Hi') end;
      [|done|done|].
    + split_and!; [done|congruence|..].
      * intros i [Hne Hni]%not_elem_of_cons. rewrite Ho by done. rewrite Hdr.
        by rewrite lookup_insert_ne.
      * intros d' [->|Hd']%elem_of_cons; [|by apply Hi'].
        exists a, b, t. rewrite Ho by done. rewrite Hdr. apply lookup_insert_eq.
    + intros d' Hd'. rewrite Hdr, lookup_insert_ne; [by apply Hin; right|].
      intros Heq. apply Hd. rewrite Heq. apply elem_of_map. eauto.
Qed.

Definition kept_candidates (db : kbdb) (id : uuid) : list draft_candidate :=
  stable_sort position_leb (List.filter is_active (candidates_of db id)).

Definition closed_parent (parent : pending_draft) : pending_draft :=
  parent <| d_status := "rejected" |> <| d_review_note := Some split_note |>.

Lemma create_children_return now fresh u id (s s' : session kbdb event) p rs :
  create_children now fresh u id s = (Return (p, rs), s') ->
  exists parent, t_drafts (working s) !! id = Some parent /\ d_status parent = "pending"
    /\ _can_review_draft u parent = true
    /\ let kept := kept_candidates (working s) id in
       let available := available_departments (working s) parent
                          (List.filter is_active (candidates_of (working s) id)) in
       rs = map (item_row now fresh parent available) kept
    /\ p = closed_parent parent /\ children_of now fresh parent available kept <> []
    /\ committed s' = working s' /\ published s' = published s
    /\ t_drafts (working s') = <[d_id parent := closed_parent parent]>
         (store_rows d_id (children_of now fresh parent available kept) (t_drafts (working s)))
    /\ t_candidates (working s')
       = store_rows c_id (committed_rows available kept) (t_candidates (working s)).
Proof.
  intros Hrun. unfold create_children, put_draft in Hrun. cinv. eqs.
  match goal with H : t_drafts _ !! id = Some ?x |- _ => exists x; rename x into parent end.
  match goal with H : traverse _ _ _ = _ |- _ =>
    apply commit_items_return in H as (-> & Hc & Hp & Hd & Hk) end.
  cbn in *. split_and!; try done.
  - unfold children_of, kept_candidates. intros Hnil.
    match goal with H : match omap _ _ with _ => _ end = true |- _ => by rewrite Hnil in H end.
  - rewrite Hd. by rewrite insert_insert_eq.
Qed.

Lemma kept_ids_nodup db id : keyed_candidates db -> NoDup (map c_id (kept_candidates db id)).
Proof.
  intros Hk. unfold kept_candidates. rewrite stable_sort_perm.
  apply NoDup_filter_map. by apply candidates_ids_nodup.
Qed.

(** Committing a split document handles every kept candidate exactly once, in document
    order: one result per candidate; a candidate whose departments are all gone is reported
    as failed and stays a candidate; every other becomes an independent draft of the same
    company and author, with the candidate's text, submitted for approval, and is marked
    committed; and the parent is closed as rejected. *)
Theorem commit_candidates_effect (now : datetime) (fresh : uuid -> uuid) (u : user) (id : uuid)
    (s s' : session kbdb event) (results : list candidate_result) (children : list pending_draft)
    (Hkd : keyed_drafts (working s)) (Hkc : keyed_candidates (working s))
    (Hinj : forall x y, fresh x = fresh y -> x = y)
    (Hfresh : forall x, t_drafts (working s) !! fresh x = None)
    (Hrun : commit_candidates now fresh u id s = (Return (results, children), s')) :
  exists parent available,
    let kept := kept_candidates (working s) id in
    t_drafts (working s) !! id = Some parent /\ d_status parent = "pending"
    /\ _can_review_draft u parent = true
    /\ t_drafts (committed s') !! id = Some (closed_parent parent)
    /\ results = map (fun i => (item_row now fresh parent available i).1) kept
    /\ (forall i, i ∈ kept -> department_missing available i = true ->
          t_candidates (committed s') !! c_id i = Some i)
    /\ (forall i, i ∈ kept -> department_missing available i = false ->
          t_candidates (committed s') !! c_id i = Some (i <| c_status := "committed" |>)
          /\ exists a b t, let child := submitted (child_draft now (fresh (c_id i)) parent available i) a b t in
               t_drafts (committed s') !! fresh (c_id i) = Some child /\ child ∈ children).
Proof.
  unfold commit_candidates in Hrun. minv.
  match goal with x : (pending_draft * _)%type |- _ => destruct x as [p rs] end.
  match goal with H : create_children _ _ _ _ _ = _ |- _ => rename H into Hcreate end.
  apply create_children_return in Hcreate as (parent & Hpar & Hst & Hrev & Hcc).
  cbn zeta in Hcc. destruct Hcc as (-> & -> & _ & Hcom & _ & Hdr & Hca).
  pose proof (Hkd _ _ Hpar) as Hid.
  set (available := available_departments _ _ _) in *.
  set (kept := kept_candidates (working s) id) in *.
  assert (Hnd : NoDup (map d_id (children_of now fresh parent available kept)))
    by (apply children_ids; [done|by apply kept_ids_nodup]).
  pose proof (kept_ids_nodup _ (d_id parent) Hkc) as Hndk.
  minv. fold (children_of now fresh parent available kept) in *.
  match goal with H : for_each _ _ _ = _ |- _ =>
    apply submit_all_return in H as (Hcom' & Hca' & Hother & Hsub); [|done|done|] end.
  2: { intros d Hd. rewrite Hdr. rewrite lookup_insert_ne; [by apply store_rows_elem|].
       apply elem_of_children in Hd as (i & _ & _ & ->). cbn. congruence. }
  match goal with H : log_audit _ _ _ _ _ = _ |- _ => apply log_audit_return in H; subst end.
  exists parent, available. cbn. split_and!; try done.
  - rewrite Hother, Hdr; [apply lookup_insert_eq|].
    intros (d & Hd & Hin)%elem_of_map. apply elem_of_children in Hin as (i & _ & _ & ->).
    cbn in Hd. congruence.
  - by rewrite map_map.
  - intros i Hi Hm. rewrite Hca', Hca, committed_rows_lookup, Hm by done.
    apply elem_of_stable_sort, elem_of_filter_b in Hi as [Hi _]. by apply elem_of_candidates_of in Hi as [? _].
  - intros i Hi Hm. split.
    + by rewrite Hca', Hca, committed_rows_lookup, Hm.
    + assert (Hin : child_draft now (fresh (c_id i)) parent available i
                      ∈ children_of now fresh parent available kept).
      { apply elem_of_children. eauto. }
      destruct (Hsub _ Hin) as (a & b & t & Hl). exists a, b, t. split; [exact Hl|].
      apply list_elem_of_omap. eexists. split; [exact Hin|exact Hl].
Qed.

(** The commit is not atomic: when the reviewer routed a candidate to a department whose
    drafts they may not load, the call answers 404, yet the parent is already durably
    rejected and every child is left durably in status [draft], submitted to nobody. *)
Theorem commit_strands_children (now : datetime) (fresh : uuid -> uuid) (u : user) (id : uuid)
    (s s1 : session kbdb event) (p : pending_draft)
    (rs : list (candidate_result * option pending_draft)) (child : pending_draft)
    (rest : list pending_draft)
    (Hkd : keyed_drafts (working s)) (Hkc : keyed_candidates (working s))
    (Hinj : forall x y, fresh x = fresh y -> x = y)
    (Hfresh : forall x, t_drafts (working s) !! fresh x = None)
    (Hcreate : create_children now fresh u id s = (Return (p, rs), s1))
    (Hfirst : omap snd rs = child :: rest) (Hout : draft_in_scope u child = false) :
  commit_candidates now fresh u id s = (Raise (HTTPException 404 "Draft not found"), s1)
  /\ (exists r, t_drafts (committed s1) !! id = Some r /\ d_status r = "rejected")
  /\ (forall c, c ∈ child :: rest ->
        t_drafts (committed s1) !! d_id c = Some c /\ d_status c = "draft").
Proof.
  pose proof (create_children_return _ _ _ _ _ _ _ _ Hcreate) as (parent & Hpar & _ & _ & Hcc).
  cbn zeta in Hcc. destruct Hcc as (-> & -> & _ & Hcom & _ & Hdr & _).
  pose proof (Hkd _ _ Hpar) as <-.
  set (kept := kept_candidates _ _) in *. set (available := available_departments _ _ _) in *.
  fold (children_of now fresh parent available kept) in Hfirst.
  assert (Hnd : NoDup (map d_id (children_of now fresh parent available kept)))
    by (apply children_ids; [done|by apply kept_ids_nodup]).
  assert (Hst : forall c, c ∈ child :: rest ->
            t_drafts (working s1) !! d_id c = Some c /\ d_status c = "draft").
  { intros c Hc. rewrite <- Hfirst in Hc. rewrite Hdr.
    pose proof Hc as (i & _ & _ & Hi)%elem_of_children. split; [|by rewrite Hi].
    rewrite lookup_insert_ne by (rewrite Hi; cbn; congruence). by apply store_rows_elem. }
  rewrite Hcom. split_and!; [|exists (closed_parent parent); split; [|done]|done].
  - unfold commit_candidates. rewrite (run_bind _ _ _ _ _ Hcreate).
    fold (children_of now fresh parent available kept). rewrite Hfirst.
    apply run_bind_raise. cbn. apply run_bind_raise, run_bind_raise.
    unfold submit_draft. apply run_bind_raise.
    unfold load_draft, _get_draft_for_user, mbind, M_bind, query.
    by rewrite (proj1 (Hst child ltac:(by left))), Hout.
  - rewrite Hdr. apply lookup_insert_eq.
Qed.
End CommitRuns.

(** ** Concrete inputs *)

Definition sample_candidate (id pos : Z) (body : pystr) (depts : option (list pystr)) (st : string)
    : draft_candidate :=
  mkCandidate id 1 pos $"part" body 0 (len body) None None depts None None st None.

Definition split_db (cs : list draft_candidate) : kbdb :=
  sample_db <| t_departments := [sample_dept 1 $"HR"; sample_dept 2 $"IT"] |>
            <| t_candidates := store_rows c_id cs ∅ |>.

Lemma sample_db_keyed : keyed_drafts sample_db.
Proof.
  intros i d Hd. unfold sample_db in Hd. cbn in Hd.
  apply lookup_insert_Some in Hd as [[<- <-]|[_ Hd]]; [done|by apply lookup_empty_Some in Hd].
Qed.

Lemma split_db_keyed cs : keyed_candidates (split_db cs) /\ keyed_drafts (split_db cs).
Proof. split; [|apply sample_db_keyed]. apply store_rows_keyed. intros i c Hc. by apply lookup_empty_Some in Hc. Qed.

Definition one_candidate : session kbdb event :=
  open_session (split_db [sample_candidate 11 0 $"abc def" None "candidate"]).

Lemma split_candidate_effect_witness :
  exists s' l, @review_candidate demo_env 99 (sample_user 9 "CEO" []) 1 "split" 11 None None (Some 3)
      None None one_candidate = (Return l, s') /\ NoDup (map c_position l).
Proof.
  destruct (returned_is_some (@review_candidate demo_env 99 (sample_user 9 "CEO" []) 1 "split" 11
    None None (Some 3) None None one_candidate)) as (l & s' & Hrun); [by eexists; vm_compute|].
  exists s', l. split; [exact Hrun|].
  destruct (@split_candidate_effect demo_env 99 _ 1 11 None (Some 3) one_candidate s' l
    (proj1 (split_db_keyed _)) (proj2 (split_db_keyed _)) eq_refl Hrun)
    as (c & d & ws & _ & _ & _ & _ & _ & _ & _ & _ & Hnd & _). exact Hnd.
Defined.

Lemma split_after_discard_collides_witness :
  let s := open_session (split_db [sample_candidate 11 0 $"abc def" None "candidate";
                                   sample_candidate 12 1 $"gone" None "discarded"]) in
  exists s', @review_candidate demo_env 99 (sample_user 9 "CEO" []) 1 "split" 11 None None None
      None None s = (Raise (IntegrityError "uq_draft_candidate_position"), s')
    /\ committed s' = committed s /\ published s' = published s.
Proof.
  intros s.
  assert (Hin : forall c, t_candidates (working s) !! c_id c = Some c -> c_draft_id c = 1 ->
            c ∈ candidates_of (working s) 1).
  { intros c Hc Hd. by apply elem_of_candidates_of; [apply split_db_keyed|]. }
  apply (@split_after_discard_collides demo_env 99 (sample_user 9 "CEO" []) 1 None None s sample_draft
    (sample_candidate 11 0 $"abc def" None "candidate")
    (sample_candidate 12 1 $"gone" None "discarded"));
    try apply split_db_keyed; try apply Hin; try reflexivity.
  - intros Hx. apply mem_In in Hx. vm_compute in Hx. discriminate.
  - vm_compute. split; [discriminate|reflexivity].
Defined.

(** Two candidates, one routed to a department that exists. *)
Definition two_candidates : session kbdb event :=
  open_session (split_db [sample_candidate 11 0 $"one" (Some [$"2"]) "candidate";
                          sample_candidate 12 1 $"two" (Some [$"7"]) "candidate"]).

(** Fresh identifiers for the sample database, whose only draft is 1. *)
Lemma doubles_fresh x : t_drafts (working two_candidates) !! (2 * x) = None.
Proof.
  cbn. rewrite lookup_insert_ne; [apply lookup_empty|]. lia.
Qed.

Lemma doubles_inj x y : 2 * x = 2 * y -> x = y.
Proof. lia. Qed.

Lemma commit_candidates_effect_witness :
  exists s' rc, @commit_candidates demo_env 300 (fun i => 2 * i) (sample_user 9 "CEO" []) 1
      two_candidates = (Return rc, s')
    /\ exists r, t_drafts (committed s') !! 1 = Some r /\ d_status r = "rejected".
Proof.
  destruct (returned_is_some (@commit_candidates demo_env 300 (fun i => 2 * i)
    (sample_user 9 "CEO" []) 1 two_candidates)) as ([rs cs] & s' & Hrun); [by eexists; vm_compute|].
  exists s', (rs, cs). split; [exact Hrun|].
  destruct (@commit_candidates_effect demo_env 300 (fun i => 2 * i) _ 1 two_candidates s' rs cs
    (proj2 (split_db_keyed _)) (proj1 (split_db_keyed _)) doubles_inj doubles_fresh Hrun)
    as (p & av & _ & _ & _ & Hr & _).
  exists (closed_parent p). split; [exact Hr|reflexivity].
Defined.

Lemma commit_strands_children_witness :
  exists s1, @commit_candidates demo_env 300 (fun i => 2 * i)
      (sample_user 6 "Reviewer" [sample_dept 1 $"HR"]) 1 two_candidates
      = (Raise (HTTPException 404 "Draft not found"), s1)
    /\ exists r, t_drafts (committed s1) !! 1 = Some r /\ d_status r = "rejected".
Proof.
  destruct (returned_is_some (@create_children demo_env 300 (fun i => 2 * i)
    (sample_user 6 "Reviewer" [sample_dept 1 $"HR"]) 1 two_candidates))
    as ([p rs] & s1 & Hrun); [by eexists; vm_compute|].
  assert (Hrs : exists child, omap snd rs = [child]
            /\ draft_in_scope (sample_user 6 "Reviewer" [sample_dept 1 $"HR"]) child = false).
  { vm_compute in Hrun. injection Hrun as _ <- _. eexists. split; reflexivity. }
  destruct Hrs as (child & Hfirst & Hout). exists s1.
  destruct (@commit_strands_children demo_env 300 (fun i => 2 * i) _ 1 two_candidates s1 p rs child []
    (proj2 (split_db_keyed _)) (proj1 (split_db_keyed _)) doubles_inj doubles_fresh Hrun Hfirst Hout)
    as (H1 & H2 & _).
  split; [exact H1|exact H2].
Defined.
