(* ===== verification/Approve.v ===== *)
(** * Approval (src/domain/governance.py, [GovernanceService.approve_draft])

    The publication of one pending draft: the reviewer's choices completed from the submitted
    metadata, the guards in the order of the code, the provider ACL of a connector document,
    the revision of an existing article or the creation of a new one, the records written
    with it, and the transaction around them.  The best-effort steps after the event
    (contradiction check, structured metadata, entity extraction) are not modelled: they call
    language models and every failure in them is swallowed. *)

From S2P Require Import Prelude PyText Models Rbac Permissions Store Drafts Candidates.
From Stdlib Require String.
#[local] Open Scope string_scope.
#[local] Open Scope list_scope.
#[local] Open Scope Z_scope.

(** [a or b] on an optional string of a closed vocabulary *)
Definition or_str (a : option string) (b : string) : string :=
  match a with Some s => if String.eqb s "" then b else s | None => b end.

(** The arguments of the call. *)
Record approval_request := mkRequest {
  rq_category : option string;
  rq_dept : option pystr;
  rq_update_article_id : option uuid;
  rq_treat_as_new : bool;
  rq_sensitivity : option string;
  rq_department_ids : option (list uuid);
  rq_review_note : option pystr;
  rq_visibility : option string;
  rq_explicit_user_ids : option (list uuid);
  rq_denied_user_ids : option (list uuid)
}.

(** The same choices once completed from the draft's metadata. *)
Record choices := mkChoices {
  ch_category : string;
  ch_dept : pystr;
  ch_sensitivity : string;
  ch_visibility : string;
  ch_explicit : list uuid;
  ch_denied : list uuid
}.

(** The audience the article will have. *)
Record audience := mkAudience {
  au_departments : list department;
  au_sensitivity : string;
  au_visibility : string;
  au_explicit : list uuid;
  au_denied : list uuid;
  au_external : list uuid;
  au_source : option string
}.

Definition ARTICLE_TYPES : list string :=
  ["POLICY"; "SOP"; "DECISION"; "FAQ"; "RCA"; "HOWTO"; "PLAYBOOK"; "REFERENCE"; "LESSON"].
Definition SENSITIVITIES : list string := ["public"; "internal"; "confidential"; "restricted"].
Definition VISIBILITIES : list string := ["public"; "department"; "users"].

Section Approve.
Context `{KbEnv}.

(** ** Completing the choices *)

(** [\[uuid.UUID(str(item)) for item in ids\]] *)
Fixpoint parse_ids (ids : list pystr) : option (list uuid) :=
  match ids with
  | [] => Some []
  | i :: rest => u ← parse_uuid i; us ← parse_ids rest; Some (u :: us)
  end.

Definition chosen_ids (given : option (list uuid)) (submitted : list pystr) (message : string)
    : KB (list uuid) :=
  match given with
  | Some ids => mret ids
  | None => some_or (parse_ids submitted) (HTTPException 422 message)
  end.

Definition complete_choices (d : pending_draft) (rq : approval_request) : KB choices :=
  let m := d_content_metadata d in
  let sensitivity := or_str (rq_sensitivity rq) (or_str (md_sensitivity m) "public") in
  let visibility := or_str (rq_visibility rq) (or_str (md_visibility m)
    (if String.eqb sensitivity "public" then "public" else "department")) in
  explicit ← chosen_ids (rq_explicit_user_ids rq) (md_explicit_user_ids m)
               "The submitted explicit-user selection is invalid";
  denied ← chosen_ids (rq_denied_user_ids rq) (md_denied_user_ids m)
             "The submitted explicit-deny selection is invalid";
  mret (mkChoices (or_str (rq_category rq) (or_str (md_type m) "SOP"))
          (or_text (rq_dept rq) (or_text (md_dept m) (default [] (d_dept d))))
          sensitivity visibility explicit denied).

(** ** Guards *)

Definition ensure_decidable (u : user) (d : pending_draft) : KB unit :=
  ensure (String.eqb (d_status d) "pending")
    (HTTPException 409 ("Draft cannot be approved from status: " +:+ d_status d)) ;;
  _ensure_preparation_complete d ;;
  ensure_own_company u d ;;
  ensure (_can_approve_draft u d)
    (HTTPException 403 "Only the assigned approver or an Admin can approve this draft").

(** [sorted(set(principals))] over the three lists, blank entries dropped *)
Definition _unmapped_external_acl_principals (m : external_metadata) : list pystr :=
  let named := fun prefix ids => map (fun i => prefix ++ i) (List.filter truthy ids) in
  stable_sort text_leb (dedup
    (named $"group:" (em_unmapped_group_ids m) ++ named $"user:" (em_unmapped_source_user_ids m)
     ++ List.filter truthy (em_unmapped_principal_ids m))).

Definition load_external_document (d : pending_draft) : KB (option external_document) :=
  match d_external_document_id d with
  | None => mret None
  | Some i =>
      doc ← query (fun db => t_external_documents db !! i);
      doc ← some_or doc
        (HTTPException 409 "The connector source record is missing; approval is blocked");
      ensure (match _unmapped_external_acl_principals (ed_metadata doc) with [] => true | _ => false end)
        (HTTPException 409 "external_acl_mapping_required") ;;
      mret (Some doc)
  end.

Definition is_some {A} (o : option A) : bool := match o with Some _ => true | None => false end.

Definition ensure_confirmed (d : pending_draft) (rq : approval_request) : KB unit :=
  active ← query (fun db => List.filter is_active (candidates_of db (d_id d)));
  ensure (Nat.leb (length active) 1) (HTTPException 409 "batch_review_required") ;;
  ensure (negb (d_requires_update_confirmation d && negb (is_some (rq_update_article_id rq))
                && negb (rq_treat_as_new rq)))
    (HTTPException 409 "update_confirmation_required") ;;
  if bool_decide (md_submission_kind (d_content_metadata d) = Some "manual_update") then
    let expected := default [] (md_suggested_update_article_id (d_content_metadata d)) in
    ensure (negb (rq_treat_as_new rq)
            && match rq_update_article_id rq with
               | Some i => bool_decide (show_uuid i = expected)
               | None => false
               end)
      (HTTPException 422 "A manually submitted article change must update its original article")
  else mret tt.

(** The primary department's name and the selected departments. *)
Definition resolve_departments (d : pending_draft) (rq : approval_request) (dept : pystr)
    : KB (pystr * list department) :=
  ensure (truthy (strip dept))
    (HTTPException 422 "An active department is required before publishing") ;;
  primary ← require_active_department (d_company_domain d) (Some dept);
  let dept := dp_name primary in
  ensure (negb (otruthy (d_dept d)) || bool_decide (d_dept d = Some dept))
    (HTTPException 422 "An approved article must remain in the submitted department") ;;
  ids ← chosen_ids (rq_department_ids rq) (md_department_ids (d_content_metadata d))
          "The submitted department selection is invalid";
  match ids with
  | [] =>
      only ← require_active_department (d_company_domain d) (Some dept);
      mret (dept, [only])
  | _ =>
      selected ← resolve_active_departments (d_company_domain d) ids true;
      ensure (existsb (fun x => bool_decide (dp_name x = dept)) selected)
        (HTTPException 422 "The submitted primary department must be selected") ;;
      mret (dept, selected)
  end.

Definition ensure_vocabulary (c : choices) : KB unit :=
  ensure (mem (ch_category c) ARTICLE_TYPES) (HTTPException 422 "Invalid article type") ;;
  ensure (mem (ch_sensitivity c) SENSITIVITIES) (HTTPException 422 "Invalid article sensitivity") ;;
  ensure (mem (ch_visibility c) VISIBILITIES) (HTTPException 422 "Invalid Article visibility").

(** [bool(set(a) & set(b))] *)
Definition overlap (a b : list uuid) : bool := existsb (fun i => existsb (Z.eqb i) b) a.

(** Every listed user is a user of the company. *)
Definition ensure_company_users (company : string) (ids : list uuid) (e : exn) : KB unit :=
  users ← query (fun db => get_users_by_ids db ids company);
  ensure (Nat.eqb (length users) (length (dedup ids))) e.

Definition internal_audience (d : pending_draft) (c : choices) (selected : list department)
    : KB audience :=
  let explicit := dedup (ch_explicit c) in
  let denied := dedup (ch_denied c) in
  ensure (negb (overlap explicit denied))
    (HTTPException 422 "A user cannot be both explicitly allowed and denied") ;;
  ensure_company_users (d_company_domain d) (explicit ++ denied)
    (HTTPException 422 "Every explicit Article user must belong to the Article company") ;;
  ensure (negb (String.eqb (ch_visibility c) "users" && match explicit with [] => true | _ => false end))
    (HTTPException 422 "Explicit-user visibility requires at least one user") ;;
  let legacy := negb (String.eqb (ch_sensitivity c) "public")
                && match selected with [] => true | _ => false end
                && match explicit with [] => true | _ => false end
                && bool_decide (d_external_document_id d = None) in
  mret (mkAudience selected (if legacy then "public" else ch_sensitivity c) (ch_visibility c)
          explicit denied [] None).

(** The company's departments the provider's groups are mapped to. *)
Definition mapped_departments (db : kbdb) (d : pending_draft) (doc : external_document)
    : list department :=
  match em_mapped_department_ids (ed_metadata doc) with
  | [] => []
  | ids => List.filter (fun x => existsb (Z.eqb (dp_id x)) ids
             && String.eqb (dp_company_domain x) (d_company_domain d)) (t_departments db)
  end.

(** A provider ACL replaces the departments and closes the article. *)
Definition connector_audience (d : pending_draft) (doc : external_document) (a : audience)
    : KB audience :=
  let em := ed_metadata doc in
  selected ← query (fun db => mapped_departments db d doc);
  ensure (Nat.eqb (length (dedup (map dp_id selected))) (length (dedup (em_mapped_department_ids em))))
    (HTTPException 422 "The connector ACL contains an invalid department") ;;
  mapped ← some_or (parse_ids (em_mapped_source_user_ids em))
             (HTTPException 422 "The connector ACL contains an invalid mapped user");
  let external := dedup mapped in
  ensure_company_users (d_company_domain d) external
    (HTTPException 422 "The connector ACL contains a user outside this company") ;;
  let explicit := dedup (au_explicit a ++ external) in
  ensure (negb (overlap explicit (au_denied a)))
    (HTTPException 422 "A connector-mapped user cannot be explicitly denied") ;;
  ensure_company_users (d_company_domain d) (explicit ++ au_denied a)
    (HTTPException 422 "Every explicit Article user must belong to the Article company") ;;
  cn ← query (fun db => t_connectors db !! ed_connector_id doc);
  cn ← some_or cn (HTTPException 422 "The connector document is outside this draft's company");
  ensure (String.eqb (cn_company_domain cn) (d_company_domain d))
    (HTTPException 422 "The connector document is outside this draft's company") ;;
  mret (mkAudience selected "restricted"
          (match external, selected with _ :: _, [] => "users" | _, _ => "department" end)
          explicit (au_denied a) external (Some (cn_system cn))).

Definition load_update_target (u : user) (target : option uuid) : KB (option article) :=
  match target with
  | None => mret None
  | Some i =>
      found ← query (fun db =>
        match t_articles db !! i with
        | Some a => if _authorized_article_filters (t_departments db) u a then Some a else None
        | None => None
        end);
      a ← some_or found (HTTPException 403 "The selected update target is not accessible");
      ensure (String.eqb (a_company_domain a) (u_company_domain u)
              || has_permission u "article.read" None "global")
        (HTTPException 403 "The selected update target is not accessible") ;;
      ensure (can_view_article u a
              && (has_any_scope u "article.edit" (Some (to_resource a)) ALL_SCOPES
                  || has_any_scope u "article.publish" (Some (to_resource a)) ALL_SCOPES))
        (HTTPException 403 "Not authorized to supersede the selected article") ;;
      ensure (bool_decide (a_lifecycle_status a = Some "active"))
        (HTTPException 409 "The selected update target is already inactive") ;;
      mret (Some a)
  end.

(** ** The content of the published article *)

(** [str(metadata.get("external_id") or "").strip() or (target.external_id if target else None)] *)
Definition requested_external_id (d : pending_draft) (target : option article) : option pystr :=
  match strip (default [] (md_external_id (d_content_metadata d))) with
  | [] => match target with Some a => a_external_id a | None => None end
  | e => Some e
  end.

Definition ensure_external_id_free (d : pending_draft) (target : option article)
    (external_id : option pystr) : KB unit :=
  if otruthy external_id then
    taken ← query (fun db => existsb (fun a =>
      String.eqb (a_company_domain a) (d_company_domain d) && bool_decide (a_external_id a = external_id)
      && match target with Some t => negb (Z.eqb (a_id a) (a_id t)) | None => true end)
      (rows (t_articles db)));
    ensure (negb taken)
      (HTTPException 409 "An article with this external ID already exists in this company")
  else mret tt.

(** [s.replace("Z", "+00:00")] *)
Definition replace_z (s : pystr) : pystr :=
  concat (map (fun c => if Z.eqb c 90 then $"+00:00" else [c]) s).

Definition approved_next_review (d : pending_draft) (target : option article)
    : KB (option datetime) :=
  match md_next_review (d_content_metadata d) with
  | Some (c :: s) =>
      t ← some_or (parse_datetime (replace_z (c :: s)))
            (HTTPException 422 "The submitted review date is invalid");
      mret (Some t)
  | _ => mret (match target with Some a => a_next_review a | None => None end)
  end.

Definition next_version (target : option article) : Z :=
  match target with Some a => a_version a + 1 | None => 1 end.

Definition approved_body (d : pending_draft) : pystr :=
  or_text (d_restructured_body_md d)
    (or_text (d_summary d)
       ($"Draft imported from " ++ d_source_ref d ++ $". Content pending edit.")).

Definition approved_tags (d : pending_draft) (target : option article) : list pystr :=
  match target, d_tags d with
  | Some a, None => a_tags a
  | _, tags => take 20 (dedup (List.filter truthy (map strip (default [] tags))))
  end.

(** A provider's permission row is kept; a provider grant not mirrored yet is added. *)
Definition revised_permissions (a : article) (au : audience) : list article_user_permission :=
  let connector_permissions := List.filter (fun p => match ap_source p with
      | Some s => mem s SOURCE_ACL_PROVIDERS | None => false end) (a_user_permissions a) in
  let source_allow_ids := map ap_user_id
    (List.filter (fun p => String.eqb (ap_effect p) "allow") connector_permissions) in
  connector_permissions
  ++ map (fun i => mkAUP i "allow" (au_source au))
       (List.filter (fun i => negb (existsb (Z.eqb i) source_allow_ids)) (au_external au))
  ++ map (fun i => mkAUP i "allow" None)
       (List.filter (fun i => negb (existsb (Z.eqb i) (au_external au))) (au_explicit au))
  ++ map (fun i => mkAUP i "deny" None) (au_denied au).

Definition new_permissions (au : audience) : list article_user_permission :=
  map (fun i => mkAUP i "allow" (if existsb (Z.eqb i) (au_external au) then au_source au else None))
    (au_explicit au)
  ++ map (fun i => mkAUP i "deny" None) (au_denied au).

Definition draft_position (d : pending_draft) : option json :=
  md_source_position (d_content_metadata d).

Definition revised_article (now : datetime) (d : pending_draft) (c : choices) (dept : pystr)
    (au : audience) (external_id : option pystr) (next_review : option datetime) (a : article)
    : article :=
  let m := d_content_metadata d in
  a <| a_title := d_title d |> <| a_body_md := approved_body d |>
    <| a_external_id := external_id |> <| a_dept := dept |>
    <| a_departments := au_departments au |>
    <| a_domain := or_text (md_domain m) (a_domain a) |>
    <| a_type := ch_category c |> <| a_sensitivity := au_sensitivity au |>
    <| a_visibility := au_visibility au |>
    <| a_language := or_str (md_language m) (a_language a) |>
    <| a_next_review := next_review |> <| a_status := "published" |>
    <| a_lifecycle_status := Some "active" |> <| a_source_changed := false |>
    <| a_source_changed_at := None |> <| a_version := next_version (Some a) |>
    <| a_last_reviewed := Some now |> <| a_index_status := "pending" |>
    <| a_index_error := None |>
    <| a_related_article_ids := match d_related_article_ids d with
                                | Some l => Some l | None => a_related_article_ids a end |>
    <| a_source_position := match draft_position d with
                            | Some (x :: l) => Some (x :: l) | _ => a_source_position a end |>
    <| a_user_permissions := revised_permissions a au |>
    <| a_tags := approved_tags d (Some a) |>.

Definition new_article (now : datetime) (new_id : uuid) (u : user) (d : pending_draft) (c : choices)
    (dept : pystr) (au : audience) (external_id : option pystr) (next_review : option datetime)
    : article :=
  let m := d_content_metadata d in
  mkArticle new_id (d_title d) external_id (approved_body d) dept
    (or_text (md_domain m) $"Ingestion") (d_company_domain d) (ch_category c)
    (au_sensitivity au) (au_visibility au) (or_str (md_language m) "vi") (Some (u_id u))
    "published" (Some "active") None false (d_related_article_ids d) (draft_position d) 1
    (Some now) next_review false (bool_decide (d_created_by d = Some (u_id u))) false None
    "pending" None (au_departments au) [] (new_permissions au) (approved_tags d None).

(** The tuples [permission_state_before] and [permission_state_after]. *)
Definition permission_state : Type := pystr * list pystr * string * string * list (pystr * string).

Definition row_leb (a b : pystr * string) : bool :=
  if bool_decide (a.1 = b.1) then String.leb a.2 b.2 else text_leb a.1 b.1.

Definition state_before (a : article) : permission_state :=
  (a_dept a, stable_sort text_leb (map (fun x => show_uuid (dp_id x)) (a_departments a)),
   a_sensitivity a, or_str (Some (a_visibility a)) "department",
   stable_sort row_leb (map (fun p => (show_uuid (ap_user_id p), ap_effect p)) (a_user_permissions a))).

Definition state_after (dept : pystr) (au : audience) : permission_state :=
  (dept, stable_sort text_leb (map (fun x => show_uuid (dp_id x)) (au_departments au)),
   au_sensitivity au, or_str (Some (au_visibility au)) "department",
   stable_sort row_leb (map (fun i => (show_uuid i, "allow")) (au_explicit au)
                        ++ map (fun i => (show_uuid i, "deny")) (au_denied au))).

(** ** The records of one approval *)

(** The unique indexes the flush of the article and its version meets:
    [ix_articles_external_id] spans every company. *)
Definition flush_article (a : article) : KB unit :=
  taken ← query (fun db => existsb (fun x => negb (Z.eqb (a_id x) (a_id a))
      && bool_decide (a_external_id a <> None) && bool_decide (a_external_id x = a_external_id a))
    (rows (t_articles db)));
  ensure (negb taken) (IntegrityError "ix_articles_external_id") ;;
  versioned ← query (fun db => existsb (fun v => Z.eqb (av_article_id v) (a_id a)
                                 && Z.eqb (av_version v) (a_version a)) (t_versions db));
  ensure (negb versioned) (IntegrityError "uq_article_versions_article_version").

Definition write_article (u : user) (dept : pystr) (au : audience) (target : option article)
    (a : article) : KB unit :=
  flush_article a ;;
  put_article a ;;
  match target with
  | Some before =>
      add_audit (mkAudit (Some (u_id u)) "update" "article" (Some (a_id a))) ;;
      if bool_decide (state_before before <> state_after dept au) then
        add_audit (mkAudit (Some (u_id u)) "permission_change" "article" (Some (a_id a)))
      else mret tt
  | None => add_audit (mkAudit (Some (u_id u)) "create" "article" (Some (a_id a)))
  end.

Definition approval_snapshot (a : article) (au : audience) : snapshot :=
  mkSnapshot (Some (a_title a)) (Some (a_body_md a)) (Some (a_dept a)) (Some (a_domain a))
    (Some (a_type a)) (Some (a_sensitivity a)) (Some (a_language a)) (Some (a_tags a))
    (Some (map (fun x => show_uuid (dp_id x)) (au_departments au))) (Some (a_visibility a))
    (Some (map show_uuid (au_explicit au))) (Some (map show_uuid (au_denied au)))
    (a_external_id a) None None.

(** The provenance row, when the draft has a stored object. *)
Definition approval_source (d : pending_draft) (au : audience) : list document_source :=
  if otruthy (d_storage_key d) then
    [mkSource (default "upload" (au_source au)) (d_source_ref d) (d_source_hash d) (d_storage_key d)
       (or_text (d_original_filename d) (d_title d)) (d_mime_type d) (d_page_texts d)]
  else [].

Definition same_fingerprint (d : pending_draft) (f : ingestion_fingerprint) : bool :=
  String.eqb (fp_company_domain f) (d_company_domain d)
  && bool_decide (fp_source_hash f = d_source_hash d).

Definition approve_fingerprint (d : pending_draft) (article_id : uuid)
    (fs : list ingestion_fingerprint) : list ingestion_fingerprint :=
  if existsb (same_fingerprint d) fs then
    map (fun f => if same_fingerprint d f
                  then f <| fp_status := "approved" |> <| fp_article_id := Some article_id |>
                  else f) fs
  else fs ++ [mkFingerprint (d_company_domain d) (d_source_hash d) "approved" (Some article_id)
                (d_created_by d)].

Definition link_document (article_id : uuid) (doc : option external_document) : KB unit :=
  match doc with
  | Some e => write (fun db => db <| t_external_documents :=
                <[ed_id e := (e <| ed_article_id := Some article_id |>)]> (t_external_documents db) |>)
  | None => mret tt
  end.

Definition notify_author (u : user) (d : pending_draft) (article_id : uuid) : KB unit :=
  match d_created_by d with
  | Some author =>
      if Z.eqb author (u_id u) then mret tt
      else add_notification (mkNotification (Some author) "in_app"
             [("event", PEvent "draft_approved"); ("draft_id", PId (d_id d));
              ("article_id", PId article_id); ("reviewer_id", PId (u_id u))])
  | None => mret tt
  end.

(** [t_followers] holds (article, user) pairs. *)
Definition notify_followers (u : user) (d : pending_draft) (a : article) (updated : bool) : KB unit :=
  followers ← query (fun db => map snd (List.filter (fun p => Z.eqb p.1 (a_id a)) (t_followers db)));
  for_each followers (fun f =>
    if negb (Z.eqb f (u_id u)) && negb (bool_decide (d_created_by d = Some f)) then
      add_notification (mkNotification (Some f) "in_app"
        [("event", PEvent "article_version_published"); ("article_id", PId (a_id a));
         ("version", PInt (a_version a)); ("source_changed", PBool updated)])
    else mret tt).

(** The rows of the approval, from the version to the audit entries. *)
Definition write_rows (now : datetime) (u : user) (d : pending_draft) (rq : approval_request)
    (doc : option external_document) (au : audience) (a : article) : KB unit :=
  add_version (mkVersion (a_id a) (a_version a) (approval_snapshot a au) (Some (u_id u))) ;;
  put_article (a <| a_sources := a_sources a ++ approval_source d au |>) ;;
  link_document (a_id a) doc ;;
  write (fun db => db <| t_fingerprints := approve_fingerprint d (a_id a) (t_fingerprints db) |>) ;;
  d ← _transition_draft d (Some u) "approved" (rq_review_note rq);
  put_draft (d <| d_reviewed_by := Some (u_id u) |> <| d_reviewed_at := Some now |>
               <| d_review_note := clean_reason (rq_review_note rq) |>) ;;
  add_audit (mkAudit (Some (u_id u))
    (if bool_decide (d_created_by d = Some (u_id u)) then "self_approve" else "approve")
    "draft" (Some (d_id d))) ;;
  add_audit (mkAudit (Some (u_id u)) "publish" "article" (Some (a_id a))).

Definition write_records (now : datetime) (u : user) (d : pending_draft) (rq : approval_request)
    (doc : option external_document) (au : audience) (updated : bool) (a : article) : KB unit :=
  write_rows now u d rq doc au a ;;
  notify_author u d (a_id a) ;;
  notify_followers u d a updated.

(** ** The transaction *)

(** Everything the [try] block decides before its first write. *)
Definition plan_approval (u : user) (d : pending_draft) (rq : approval_request)
    : KB (choices * option external_document * pystr * audience * option article
          * option pystr * option datetime) :=
  c ← complete_choices d rq;
  ensure_decidable u d ;;
  doc ← load_external_document d;
  ensure_confirmed d rq ;;
  chosen ← resolve_departments d rq (ch_dept c);
  let '(dept, selected) := chosen in
  ensure_vocabulary c ;;
  au ← internal_audience d c selected;
  au ← match doc with Some e => connector_audience d e au | None => mret au end;
  target ← load_update_target u (rq_update_article_id rq);
  let external_id := requested_external_id d target in
  ensure_external_id_free d target external_id ;;
  next_review ← approved_next_review d target;
  mret (c, doc, dept, au, target, external_id, next_review).

(** The [try] block; [new_id] is the [uuid.uuid4()] of a new article. *)
Definition approve_body (now : datetime) (new_id : uuid) (u : user) (d : pending_draft)
    (rq : approval_request) : KB (article * bool) :=
  plan ← plan_approval u d rq;
  let '(c, doc, dept, au, target, external_id, next_review) := plan in
  let a := match target with
           | Some t => revised_article now d c dept au external_id next_review t
           | None => new_article now new_id u d c dept au external_id next_review
           end in
  let d := match target with
           | Some t => d <| d_update_target_article_id := Some (a_id t) |>
           | None => d
           end in
  write_article u dept au target a ;;
  write_records now u d rq doc au (is_some target) a ;;
  commit ;;
  mret (a, is_some target).

Definition approve_draft (now : datetime) (new_id : uuid) (u : user) (draft_id : uuid)
    (rq : approval_request) : KB article :=
  d ← load_draft u draft_id;
  outcome ← rollback_on_error (approve_body now new_id u d rq);
  let '(a, updated) := (outcome : article * bool) in
  published ← query (fun db => t_articles db !! a_id a);
  published ← some_or published (HTTPException 500 "Published article could not be reloaded");
  publish (if updated then ArticleUpdated (a_id published) else ArticlePublished (a_id published)) ;;
  mret published.

(** ** Durability *)

Lemma readonly_chosen_ids g l m : readonly (chosen_ids g l m).
Proof. destruct g; cbn; auto with session. Qed.
Lemma readonly_ensure_company_users c ids e : readonly (ensure_company_users c ids e).
Proof. unfold ensure_company_users. solve_readonly. Qed.
End Approve.

#[export] Hint Resolve readonly_chosen_ids readonly_ensure_company_users : session.

Section ApproveReads.
Context `{KbEnv}.

Lemma readonly_complete_choices d rq : readonly (complete_choices d rq).
Proof. unfold complete_choices. solve_readonly. Qed.
Lemma readonly_ensure_decidable u d : readonly (ensure_decidable u d).
Proof. unfold ensure_decidable, _ensure_preparation_complete, ensure_own_company. solve_readonly. Qed.
Lemma readonly_load_external d : readonly (load_external_document d).
Proof. unfold load_external_document. solve_readonly. Qed.
Lemma readonly_ensure_confirmed d rq : readonly (ensure_confirmed d rq).
Proof. unfold ensure_confirmed. solve_readonly. Qed.
Lemma readonly_approval_departments d rq n : readonly (resolve_departments d rq n).
Proof. unfold resolve_departments. solve_readonly. Qed.
Lemma readonly_internal_audience d c s : readonly (internal_audience d c s).
Proof. unfold internal_audience. solve_readonly. Qed.
Lemma readonly_connector_audience d e a : readonly (connector_audience d e a).
Proof. unfold connector_audience. solve_readonly. Qed.
Lemma readonly_load_update_target u t : readonly (load_update_target u t).
Proof. unfold load_update_target. solve_readonly. Qed.
Lemma readonly_ensure_external_id d t e : readonly (ensure_external_id_free d t e).
Proof. unfold ensure_external_id_free. solve_readonly. Qed.
Lemma readonly_next_review d t : readonly (approved_next_review d t).
Proof. unfold approved_next_review. solve_readonly. Qed.
Lemma readonly_flush_article a : readonly (flush_article a).
Proof. unfold flush_article. solve_readonly. Qed.
End ApproveReads.

#[export] Hint Resolve readonly_complete_choices readonly_ensure_decidable
  readonly_load_external readonly_ensure_confirmed readonly_approval_departments
  readonly_internal_audience readonly_connector_audience readonly_load_update_target
  readonly_ensure_external_id readonly_next_review readonly_flush_article : session.

Section ApproveRuns.
Context `{KbEnv}.

Lemma readonly_plan u d rq : readonly (plan_approval u d rq).
Proof. unfold plan_approval, ensure_vocabulary. solve_readonly. Qed.

(** The audience of the article, by where the draft came from. *)
Definition audience_of (d : pending_draft) (doc : option external_document) (db : kbdb)
    (au : audience) : Prop :=
  match doc with
  | None => au_source au = None /\ au_external au = []
  | Some e => exists cn, t_connectors db !! ed_connector_id e = Some cn
      /\ cn_company_domain cn = d_company_domain d
      /\ au_source au = Some (cn_system cn) /\ au_sensitivity au = "restricted"
      /\ (au_visibility au = "users" /\ au_departments au = [] \/ au_visibility au = "department")
      /\ (forall x, x ∈ au_departments au ->
            x ∈ t_departments db /\ dp_id x ∈ em_mapped_department_ids (ed_metadata e)
            /\ dp_company_domain x = d_company_domain d)
      /\ (forall i, i ∈ au_external au -> i ∈ au_explicit au /\ (i ∉ au_denied au))
  end.

Lemma internal_audience_return d c sel (s s' : session kbdb event) au :
  internal_audience d c sel s = (Return au, s') -> au_source au = None /\ au_external au = [].
Proof.
  unfold internal_audience. intros Hr. minv.
  match goal with H : ensure_company_users _ _ _ _ = _ |- _ => clear H end. minv. done.
Qed.

Lemma overlap_false a b i : overlap a b = false -> i ∈ a -> i ∉ b.
Proof.
  unfold overlap. rewrite existsb_false. intros Ho Hi Hb. specialize (Ho i Hi).
  rewrite existsb_false in Ho. specialize (Ho i Hb). by rewrite Z.eqb_refl in Ho.
Qed.

Lemma connector_audience_return d e a (s s' : session kbdb event) au :
  connector_audience d e a s = (Return au, s') -> audience_of d (Some e) (working s) au.
Proof.
  unfold connector_audience, ensure_company_users. intros Hr. minv. bools. eqs.
  match goal with H : t_connectors _ !! _ = Some ?c |- _ => exists c end. cbn.
  split_and!; try done.
  - destruct (dedup x3), (mapped_departments (working s) d e); first [by left|by right].
  - intros x Hx. unfold mapped_departments in Hx. destruct (em_mapped_department_ids (ed_metadata e)) as [|m ms]; [by apply elem_of_nil in Hx|].
    apply elem_of_filter_b in Hx as [Hx Hf]. bools. eqs.
    match goal with H : dp_id x = _ |- _ => rewrite H end. done.
  - intros i Hi. split; [|eapply overlap_false; [done|]];
      apply elem_of_dedup, elem_of_app; by right.
Qed.

Definition target_of (u : user) (db : kbdb) (t : option article) : Prop :=
  match t with
  | None => True
  | Some a => t_articles db !! a_id a = Some a /\ can_view_article u a = true
      /\ (has_any_scope u "article.edit" (Some (to_resource a)) ALL_SCOPES = true
          \/ has_any_scope u "article.publish" (Some (to_resource a)) ALL_SCOPES = true)
      /\ a_lifecycle_status a = Some "active"
  end.

Definition keyed_articles (db : kbdb) : Prop := keyed a_id (t_articles db).

Lemma load_update_target_return u i (s s' : session kbdb event) t :
  keyed_articles (working s) ->
  load_update_target u i s = (Return t, s') ->
  a_id <$> t = i /\ target_of u (working s) t.
Proof.
  intros Hk Hr. unfold load_update_target in Hr. destruct i as [i|]; minv; [|done].
  match goal with H : _ = Some ?x |- _ => rename x into a end.
  destruct (t_articles (working s) !! i) as [a0|] eqn:Ha; [|done].
  destruct (_authorized_article_filters _ u a0); [|done]. simplify_eq.
  pose proof (Hk _ _ Ha) as <-. bools. cbn. split_and!; try done.
  match goal with H : (_ || _) = true |- context[has_any_scope] => apply orb_true_iff in H end. done.
Qed.

Lemma quiet_write_article u n au t a : quiet (write_article u n au t a).
Proof.
  unfold write_article. pose proof (readonly_quiet _ (readonly_flush_article a)). solve_quiet.
Qed.
Lemma quiet_write_records now u d rq doc au b a : quiet (write_records now u d rq doc au b a).
Proof.
  unfold write_records, write_rows, link_document, notify_author, notify_followers.
  pose proof (@quiet_for_each kbdb event uuid). solve_quiet.
Qed.

Lemma plan_return u d rq (s s' : session kbdb event) c doc dept au target eid nr :
  keyed_articles (working s) ->
  plan_approval u d rq s = (Return (c, doc, dept, au, target, eid, nr), s') ->
  s' = s /\ d_status d = "pending" /\ (d_restructure_status d ∉ PREPARING)
  /\ (d_company_domain d = u_company_domain u \/ _is_global_publisher u = true)
  /\ _can_approve_draft u d = true
  /\ match d_external_document_id d with
     | None => doc = None
     | Some i => exists e, doc = Some e /\ t_external_documents (working s) !! i = Some e
                   /\ _unmapped_external_acl_principals (ed_metadata e) = []
     end
  /\ audience_of d doc (working s) au
  /\ a_id <$> target = rq_update_article_id rq /\ target_of u (working s) target
  /\ eid = requested_external_id d target.
Proof.
  intros Hk Hp. pose proof (readonly_return _ _ _ _ (readonly_plan u d rq) Hp) as ->.
  unfold plan_approval in Hp. minv.
  repeat match goal with x : (_ * _)%type |- _ => destruct x end. minv.
  repeat match goal with
  | H : ?m _ = (Return _, ?x) |- _ =>
      is_var x; pose proof (readonly_return m _ _ _ ltac:(unfold ensure_vocabulary; solve_readonly) H); subst x
  end.
  match goal with H : ensure_decidable _ _ _ = _ |- _ =>
    unfold ensure_decidable, _ensure_preparation_complete, ensure_own_company in H end.
  minv. bools. eqs.
  match goal with H : internal_audience _ _ _ _ = _ |- _ => apply internal_audience_return in H end.
  match goal with H : load_update_target _ _ _ = _ |- _ =>
    apply load_update_target_return in H; [destruct H|done] end.
  split_and!; try done.
  - rewrite <- mem_In. by apply not_true_iff_false.
  - match goal with H : (String.eqb _ _ || _) = true |- _ => apply orb_true_iff in H as [?|?] end; [eqs|]; auto.
  - match goal with H : load_external_document _ _ = _ |- _ => unfold load_external_document in H end.
    destruct (d_external_document_id d); minv; [|done]. eexists. split_and!; [done..|].
    by destruct (_unmapped_external_acl_principals _).
  - destruct doc; [|by minv]. by eapply connector_audience_return.
Qed.

(** A database with its notifications blanked: what the notification loop keeps. *)
Definition but_notifications (db : kbdb) : kbdb := db <| t_notifications := [] |>.

Lemma notify_followers_return u d a b (s s' : session kbdb event) x :
  notify_followers u d a b s = (Return x, s') ->
  but_notifications (working s') = but_notifications (working s)
  /\ committed s' = committed s /\ published s' = published s.
Proof.
  unfold notify_followers. intros Hr. minv.
  revert Hr. apply (for_each_invariant (fun s1 => but_notifications (working s1) = but_notifications (working s)
    /\ committed s1 = committed s /\ published s1 = published s)); [|done].
  intros f s1 y s2 Hs1 Hf. case_match; unfold add_notification in Hf; by minv.
Qed.

Lemma notify_author_return u d i (s s' : session kbdb event) x :
  notify_author u d i s = (Return x, s') ->
  but_notifications (working s') = but_notifications (working s)
  /\ committed s' = committed s /\ published s' = published s.
Proof.
  unfold notify_author. intros Hr. destruct (d_created_by d) as [i'|]; [|by minv].
  case_match; unfold add_notification in Hr; by minv.
Qed.

(** The draft and the article as an approval leaves them. *)
Definition approved_draft (now : datetime) (u : user) (rq : approval_request) (d : pending_draft)
    : pending_draft :=
  d <| d_status := "approved" |> <| d_reviewed_by := Some (u_id u) |>
    <| d_reviewed_at := Some now |> <| d_review_note := clean_reason (rq_review_note rq) |>.
Definition with_source (d : pending_draft) (au : audience) (a : article) : article :=
  a <| a_sources := a_sources a ++ approval_source d au |>.

Definition approval_audits (u : user) (d : pending_draft) (a : article) : list audit_log :=
  [mkAudit (Some (u_id u)) (if bool_decide (d_created_by d = Some (u_id u))
                            then "self_approve" else "approve") "draft" (Some (d_id d));
   mkAudit (Some (u_id u)) "publish" "article" (Some (a_id a))].

(** The tables after [write_rows]; [m] are the external documents. *)
Definition approval_rows (now : datetime) (u : user) (d : pending_draft) (rq : approval_request)
    (au : audience) (a : article) (m : gmap uuid external_document) (db : kbdb) : kbdb :=
  db <| t_versions := t_versions db
          ++ [mkVersion (a_id a) (a_version a) (approval_snapshot a au) (Some (u_id u))] |>
     <| t_articles := <[a_id a := with_source d au a]> (t_articles db) |>
     <| t_external_documents := m |>
     <| t_fingerprints := approve_fingerprint d (a_id a) (t_fingerprints db) |>
     <| t_transitions := t_transitions db ++ [transition_entry d (Some u) "approved" (rq_review_note rq)] |>
     <| t_drafts := <[d_id d := approved_draft now u rq d]> (t_drafts db) |>
     <| t_audits := t_audits db ++ approval_audits u d a |>.

Lemma link_document_return i doc (s s' : session kbdb event) x :
  link_document i doc s = (Return x, s') ->
  exists m, s' = Session (committed s) ((working s) <| t_external_documents := m |>) (published s).
Proof.
  unfold link_document. intros Hl. destruct doc; minv; [by eexists|].
  exists (t_external_documents (working s')). by destruct s' as [? [] ?].
Qed.

Lemma write_rows_return now u d rq doc au a (s s' : session kbdb event) x :
  write_rows now u d rq doc au a s = (Return x, s') ->
  exists m, s' = Session (committed s) (approval_rows now u d rq au a m (working s)) (published s).
Proof.
  unfold write_rows, add_version, put_article, put_draft, add_audit. intros Hr. minv.
  match goal with H : link_document _ _ _ = _ |- _ => apply link_document_return in H as [m ->] end.
  match goal with H : _transition_draft _ _ _ _ _ = _ |- _ =>
    apply transition_return in H as (_ & -> & ->) end.
  minv. exists m. unfold approval_rows. cbn.
  rewrite insert_insert_eq. rewrite <- app_assoc. done.
Qed.

Lemma write_records_return now u d rq doc au b a (s s' : session kbdb event) x :
  write_records now u d rq doc au b a s = (Return x, s') ->
  exists m, committed s' = committed s /\ published s' = published s
    /\ but_notifications (working s') = but_notifications (approval_rows now u d rq au a m (working s)).
Proof.
  unfold write_records. intros Hr. minv.
  match goal with H : write_rows _ _ _ _ _ _ _ _ = _ |- _ => apply write_rows_return in H as [m ->] end.
  match goal with H : notify_followers _ _ _ _ _ = _ |- _ =>
    apply notify_followers_return in H as (Hf & Hfc & Hfp) end.
  match goal with H : notify_author _ _ _ _ = _ |- _ =>
    apply notify_author_return in H as (Ha & Hac & Hap) end.
  exists m. rewrite Hfc, Hfp, Hac, Hap, Hf, Ha. done.
Qed.

Lemma write_article_return u dept au target a (s s' : session kbdb event) x :
  write_article u dept au target a s = (Return x, s') ->
  exists au', s' = Session (committed s)
    ((working s) <| t_articles := <[a_id a := a]> (t_articles (working s)) |>
                 <| t_audits := t_audits (working s) ++ au' |>) (published s).
Proof.
  unfold write_article, put_article, add_audit. intros Hr. minv.
  match goal with H : flush_article _ _ = _ |- _ =>
    apply readonly_return in H; [subst|apply readonly_flush_article] end.
  destruct target; minv; [|by eexists]. case_bool_decide; minv; eexists; cbn; [|done].
  f_equal. cbn. by rewrite <- app_assoc.
Qed.

(** The draft as the transaction finally stores it, and the article it publishes. *)
Definition targeted (target : option article) (d : pending_draft) : pending_draft :=
  match target with Some t => d <| d_update_target_article_id := Some (a_id t) |> | None => d end.

Definition approved_article (now : datetime) (new_id : uuid) (u : user) (d : pending_draft)
    (c : choices) (dept : pystr) (au : audience) (eid : option pystr) (nr : option datetime)
    (target : option article) : article :=
  match target with
  | Some t => revised_article now d c dept au eid nr t
  | None => new_article now new_id u d c dept au eid nr
  end.

Lemma approve_body_return now new_id u d rq (s s' : session kbdb event) a b :
  approve_body now new_id u d rq s = (Return (a, b), s') ->
  exists c doc dept au target eid nr,
    plan_approval u d rq s = (Return (c, doc, dept, au, target, eid, nr), s)
    /\ a = approved_article now new_id u d c dept au eid nr target /\ b = is_some target
    /\ committed s' = working s' /\ published s' = published s
    /\ t_drafts (working s') = <[d_id d := approved_draft now u rq (targeted target d)]> (t_drafts (working s))
    /\ t_articles (working s') = <[a_id a := with_source d au a]> (t_articles (working s))
    /\ t_versions (working s') = t_versions (working s)
         ++ [mkVersion (a_id a) (a_version a) (approval_snapshot a au) (Some (u_id u))]
    /\ t_transitions (working s') = t_transitions (working s)
         ++ [transition_entry d (Some u) "approved" (rq_review_note rq)]
    /\ t_fingerprints (working s') = approve_fingerprint d (a_id a) (t_fingerprints (working s)).
Proof.
  unfold approve_body. intros Hr. minv.
  match goal with x : (_ * _)%type |- _ => destruct x as [[[[[[c doc] dept] au] target] eid] nr] end.
  minv. match goal with H : plan_approval _ _ _ _ = _ |- _ => rename H into Hp end.
  pose proof (readonly_return _ _ _ _ (readonly_plan _ _ _) Hp) as ->.
  exists c, doc, dept, au, target, eid, nr.
  match goal with H : write_article _ _ _ _ _ _ = _ |- _ => apply write_article_return in H as [au' ->] end.
  match goal with H : write_records _ _ _ _ _ _ _ _ _ = _ |- _ =>
    apply write_records_return in H as (m & Hc & Hpub & Hw) end.
  split_and!; try done.
  - etrans; [apply (f_equal t_drafts Hw)|]. by destruct target.
  - etrans; [apply (f_equal t_articles Hw)|]. destruct target; apply insert_insert_eq.
  - apply (f_equal t_versions Hw).
  - etrans; [apply (f_equal t_transitions Hw)|]. by destruct target.
  - etrans; [apply (f_equal t_fingerprints Hw)|]. by destruct target.
Qed.

Lemma approve_return now new_id u id rq (s s' : session kbdb event) r :
  approve_draft now new_id u id rq s = (Return r, s') ->
  exists d c doc dept au target eid nr,
    let a := approved_article now new_id u d c dept au eid nr target in
    t_drafts (working s) !! id = Some d /\ draft_in_scope u d = true
    /\ plan_approval u d rq s = (Return (c, doc, dept, au, target, eid, nr), s)
    /\ r = with_source d au a /\ committed s' = working s'
    /\ published s' = published s
         ++ [match target with Some _ => ArticleUpdated (a_id a) | None => ArticlePublished (a_id a) end]
    /\ t_drafts (working s') = <[d_id d := approved_draft now u rq (targeted target d)]> (t_drafts (working s))
    /\ t_articles (working s') = <[a_id a := with_source d au a]> (t_articles (working s))
    /\ t_versions (working s') = t_versions (working s)
         ++ [mkVersion (a_id a) (a_version a) (approval_snapshot a au) (Some (u_id u))]
    /\ t_transitions (working s') = t_transitions (working s)
         ++ [transition_entry d (Some u) "approved" (rq_review_note rq)]
    /\ t_fingerprints (working s') = approve_fingerprint d (a_id a) (t_fingerprints (working s)).
Proof.
  unfold approve_draft. intros Hr. dinv.
  match goal with x : (article * bool)%type |- _ => destruct x as [a b] end. minv.
  match goal with H : rollback_on_error ?m ?s1 = _ |- _ =>
    unfold rollback_on_error in H; destruct (m s1) as [[[a1 b1]|e1] s2] eqn:Hb; [|discriminate H] end.
  simplify_eq.
  apply approve_body_return in Hb as (c & doc & dept & au & target & eid & nr & Hp & -> & -> & Hc & Hpub & Hd & Ha & Hrest).
  match goal with H : t_articles _ !! _ = Some _ |- _ => rewrite Ha, lookup_insert_eq in H; simplify_eq end.
  do 8 eexists. cbn. split_and!; try done; try apply Hrest.
  rewrite Hpub. by destruct target.
Qed.
Lemma approve_raise now new_id u id rq : atomic (approve_draft now new_id u id rq).
Proof.
  intros s e s' Hrun. unfold approve_draft in Hrun.
  apply bind_raise in Hrun as [Hl|(d & s1 & Hl & Hrun)];
    [by apply (atomic_quiet _ (quiet_load_draft u id)) in Hl|].
  apply load_draft_return in Hl as (-> & _ & _).
  apply bind_raise in Hrun as [Hb|([a b] & s2 & Hb & Hrun)].
  - revert Hb. apply atomic_rollback_on_error. unfold approve_body.
    apply atomic_quiet_bind; [apply readonly_quiet, readonly_plan|].
    intros [[[[[[c doc] dept] au] target] eid] nr].
    apply atomic_quiet_bind; [apply quiet_write_article|]. intros _.
    apply atomic_quiet_bind; [apply quiet_write_records|]. intros _.
    apply atomic_total. solve_total.
  - unfold rollback_on_error in Hb.
    destruct (approve_body now new_id u d rq s) as [[[a1 b1]|e1] s3] eqn:Hbody; [|discriminate].
    simplify_eq.
    apply approve_body_return in Hbody as (? & ? & ? & ? & ? & ? & ? & _ & _ & _ & _ & _ & _ & Ha & _).
    rewrite run_query, Ha, lookup_insert_eq in Hrun. discriminate Hrun.
Qed.

Lemma plan_pending u d rq (s s' : session kbdb event) p :
  plan_approval u d rq s = (Return p, s') -> d_status d = "pending".
Proof.
  unfold plan_approval, ensure_decidable. intros Hp. minv. by eqs.
Qed.
End ApproveRuns.

Section ApproveTheorems.
Context `{KbEnv}.

(** C2. Approval is atomic: a call that raises, at whatever step, leaves the durable database
    as it was and publishes no event. *)
Theorem approve_atomic (now : datetime) (new_id : uuid) (u : user) (id : uuid)
    (rq : approval_request) (s s' : session kbdb event) (e : exn)
    (Hrun : approve_draft now new_id u id rq s = (Raise e, s')) :
  committed s' = committed s /\ published s' = published s.
Proof. by apply approve_raise in Hrun. Qed.

(** C1. What an approval does: it was made on a pending, fully prepared draft of the
    approver's company (or by a global publisher), by the assigned approver or an Admin/CEO;
    in one transaction the draft becomes approved with its reviewer, exactly one transition
    and exactly one version row are appended, exactly one article is written, published and
    active: a new article at version 1, or the confirmed target at its next version under the
    same identity; exactly one event is published. *)
Theorem approve_draft_effect (now : datetime) (new_id : uuid) (u : user) (id : uuid)
    (rq : approval_request) (s s' : session kbdb event) (a : article)
    (Hkey : keyed_articles (working s)) (Hdrafts : keyed_drafts (working s))
    (Hrun : approve_draft now new_id u id rq s = (Return a, s')) :
  exists d r v, t_drafts (working s) !! id = Some d
    /\ d_status d = "pending" /\ (d_restructure_status d ∉ PREPARING)
    /\ (d_company_domain d = u_company_domain u \/ _is_global_publisher u = true)
    /\ (d_assigned_approver_id d = Some (u_id u) \/ _may_self_approve u = true)
    /\ t_drafts (committed s') = <[id := r]> (t_drafts (working s))
    /\ d_status r = "approved" /\ d_reviewed_by r = Some (u_id u) /\ d_reviewed_at r = Some now
    /\ t_articles (committed s') = <[a_id a := a]> (t_articles (working s))
    /\ a_status a = "published" /\ a_lifecycle_status a = Some "active"
    /\ a_body_md a = approved_body d /\ a_title a = d_title d
    /\ t_transitions (committed s') = t_transitions (working s)
         ++ [transition_entry d (Some u) "approved" (rq_review_note rq)]
    /\ t_versions (committed s') = t_versions (working s) ++ [v]
    /\ av_article_id v = a_id a /\ av_version v = a_version a
    /\ sn_body_md (av_snapshot v) = Some (a_body_md a)
    /\ match rq_update_article_id rq with
       | None => a_id a = new_id /\ a_version a = 1 /\ a_company_domain a = d_company_domain d
                 /\ published s' = published s ++ [ArticlePublished (a_id a)]
       | Some i => exists before, t_articles (working s) !! i = Some before /\ a_id a = i
                 /\ a_version a = a_version before + 1
                 /\ a_company_domain a = a_company_domain before
                 /\ a_owner_id a = a_owner_id before
                 /\ can_view_article u before = true
                 /\ published s' = published s ++ [ArticleUpdated (a_id a)]
       end.
Proof.
  apply approve_return in Hrun as (d & c & doc & dept & au & target & eid & nr & Hr).
  cbn zeta in Hr. destruct Hr as (Hd & _ & Hp & -> & Hc & Hpub & Hdr & Ha & Hv & Ht & _).
  apply plan_return in Hp as (_ & Hst & Hprep & Hcomp & Happ & _ & _ & Htg & Htv & _); [|done].
  pose proof (Hdrafts _ _ Hd) as Hid. unfold _can_approve_draft in Happ.
  rewrite Hc. exists d, (approved_draft now u rq (targeted target d)). eexists.
  split_and!; try done; try by destruct target.
  - apply orb_true_iff in Happ as [Hx|Hx]; bools; auto.
  - rewrite Hdr, Hid. by destruct target.
  - rewrite <- Htg. destruct target as [t|]; cbn in *; [|done].
    destruct Htv as (Ht' & Hview & _). exists t. by split_and!.
Qed.

(** A draft is published at most once: after an approval has returned, every further
    approval of the same draft, by anyone and with any choices, raises, and changes nothing. *)
Theorem approve_once (now now' : datetime) (new_id new_id' : uuid) (u u' : user) (id : uuid)
    (rq rq' : approval_request) (s s' : session kbdb event) (a : article)
    (Hkey : keyed_articles (working s)) (Hdrafts : keyed_drafts (working s))
    (Hrun : approve_draft now new_id u id rq s = (Return a, s')) :
  exists e s'', approve_draft now' new_id' u' id rq' s' = (Raise e, s'')
    /\ committed s'' = committed s' /\ published s'' = published s'.
Proof.
  assert (Hgone : exists r, t_drafts (working s') !! id = Some r /\ d_status r = "approved").
  { apply approve_return in Hrun as (d & c & doc & dept & au & target & eid & nr & Hr).
    cbn zeta in Hr. destruct Hr as (Hd & _ & _ & _ & _ & _ & Hdr & _).
    pose proof (Hdrafts _ _ Hd) as <-. rewrite Hdr, lookup_insert_eq. eexists. split; [done|].
    by destruct target. }
  assert (Hkey' : keyed_articles (working s')).
  { apply approve_return in Hrun as (d & c & doc & dept & au & target & eid & nr & Hr).
    cbn zeta in Hr. destruct Hr as (_ & _ & _ & _ & _ & _ & _ & Ha & _).
    unfold keyed_articles. rewrite Ha. intros i x [[<- <-]|[_ Hx]]%lookup_insert_Some; [done|by apply Hkey]. }
  destruct (approve_draft now' new_id' u' id rq' s') as [[a'|e] s''] eqn:Hrun'.
  - exfalso. apply approve_return in Hrun' as (d & c & doc & dept & au & target & eid & nr & Hr).
    cbn zeta in Hr. destruct Hr as (Hd & _ & Hp & _).
    apply plan_return in Hp as (_ & Hst & _); [|done].
    destruct Hgone as (r & Hr & Hrs). congruence.
  - exists e, s''. split; [done|]. by apply approve_atomic in Hrun'.
Qed.

(** A provider's ACL only closes: approving a connector document succeeds only when every
    provider principal is mapped, and publishes a restricted, never public, article whose
    departments are mapped ones of the draft's company; with a stored object its provenance
    names the actual provider, so readers outside that provider's ACL cannot view it. *)
Theorem connector_article_restricted (now : datetime) (new_id : uuid) (u : user) (id i : uuid)
    (rq : approval_request) (s s' : session kbdb event) (a : article) (d : pending_draft)
    (Hkey : keyed_articles (working s))
    (Hd : t_drafts (working s) !! id = Some d) (Hext : d_external_document_id d = Some i)
    (Hrun : approve_draft now new_id u id rq s = (Return a, s')) :
  exists e cn, t_external_documents (working s) !! i = Some e
    /\ _unmapped_external_acl_principals (ed_metadata e) = []
    /\ t_connectors (working s) !! ed_connector_id e = Some cn
    /\ a_sensitivity a = "restricted" /\ a_visibility a <> "public"
    /\ (forall x, x ∈ a_departments a -> dp_id x ∈ em_mapped_department_ids (ed_metadata e)
          /\ dp_company_domain x = d_company_domain d)
    /\ (otruthy (d_storage_key d) = true -> mem (cn_system cn) SOURCE_ACL_PROVIDERS = true ->
          forall v, can_view_article v a = true ->
            (exists p, p ∈ a_user_permissions a /\ ap_user_id p = u_id v /\ ap_effect p = "allow"
               /\ exists g, ap_source p = Some g /\ mem g SOURCE_ACL_PROVIDERS = true)
            \/ exists x y, x ∈ u_departments v /\ y ∈ a_departments a /\ dp_id x = dp_id y).
Proof.
  apply approve_return in Hrun as (d' & c & doc & dept & au & target & eid & nr & Hr).
  cbn zeta in Hr. destruct Hr as (Hd' & _ & Hp & -> & _). rewrite Hd in Hd'. simplify_eq.
  apply plan_return in Hp as (_ & _ & _ & _ & _ & Hdoc & Hau & _); [|done].
  rewrite Hext in Hdoc. destruct Hdoc as (e & -> & He & Hun).
  destruct Hau as (cn & Hcn & _ & Hsrc & Hsens & Hvis & Hdep & _).
  exists e, cn. split_and!; try done.
  - by destruct target.
  - destruct target; cbn; destruct Hvis as [[-> _]| ->]; done.
  - intros x Hx. assert (Hin : x ∈ au_departments au) by (by destruct target).
    by apply Hdep in Hin as (_ & ? & ?).
  - intros Hst Hprov v Hv. apply can_view_gates in Hv as (_ & _ & _ & _ & Hacl & _).
    apply source_acl_governed in Hacl as [Hnone|Hacl]; [|done].
    exfalso. assert (Hin : cn_system cn ∈ governed_by (with_source d' au
                (approved_article now new_id u d' c dept au eid nr target))); [|by rewrite Hnone in Hin; apply elem_of_nil in Hin].
    apply elem_of_governed. split; [|done].
    exists (mkSource (cn_system cn) (d_source_ref d') (d_source_hash d') (d_storage_key d')
       (or_text (d_original_filename d') (d_title d')) (d_mime_type d') (d_page_texts d')).
    split; [|done]. cbn. unfold approval_source. rewrite Hst, Hsrc.
    destruct target; cbn; rewrite ?elem_of_app, elem_of_cons; auto.
Qed.

Lemma approve_unlinked now new_id u id rq (s s' : session kbdb event) art d :
  keyed_articles (working s) -> t_drafts (working s) !! id = Some d ->
  d_external_document_id d = None -> rq_update_article_id rq = None ->
  approve_draft now new_id u id rq s = (Return art, s') ->
  (forall src, src ∈ a_sources art -> ds_source_system src = "upload")
  /\ (forall p, p ∈ a_user_permissions art -> ap_source p = None)
  /\ (forall v, _source_acl_allows v art = true).
Proof.
  intros Hkey Hd Hno Hnew Hrun.
  apply approve_return in Hrun as (d' & c & doc & dept & au & target & eid & nr & Hr).
  cbn zeta in Hr. destruct Hr as (Hd' & _ & Hp & -> & _). rewrite Hd in Hd'. injection Hd' as <-.
  apply plan_return in Hp as (_ & _ & _ & _ & _ & Hdoc & Hau & Htg & _); [|done].
  rewrite Hno in Hdoc. subst doc. destruct Hau as [Hsrc Hext]. rewrite Hnew in Htg.
  destruct target; [done|].
  assert (Hsys : forall src, src ∈ approval_source d au -> ds_source_system src = "upload").
  { intros src. unfold approval_source. rewrite Hsrc. case_match; [|by intros ?%elem_of_nil].
    by intros [->|?%elem_of_nil]%elem_of_cons. }
  split_and!; [exact Hsys|..].
  - intros p Hp. cbn in Hp. unfold new_permissions in Hp. rewrite Hext in Hp.
    apply elem_of_app in Hp as [Hp|Hp]; apply elem_of_map in Hp as (x & -> & _); done.
  - intros v. unfold _source_acl_allows.
    destruct (governed_by _) as [|g gs] eqn:Hg; [done|]. exfalso.
    assert (Hin : g ∈ g :: gs) by (by left). rewrite <- Hg in Hin.
    apply elem_of_governed in Hin as [(src & Hs & <-) Hm]. cbn in Hs. rewrite (Hsys src Hs) in Hm.
    discriminate Hm.
Qed.

(** Splitting escapes the provider's ACL: the drafts a split connector document is
    committed into no longer name the external document, so an article published from one
    carries no provider provenance and no provider grant, and the provider ACL then admits
    every reader. *)
Theorem split_child_escapes_provider_acl (now now0 : datetime) (new_id cid : uuid) (u : user)
    (id : uuid) (rq : approval_request) (s s' : session kbdb event) (art : article)
    (parent : pending_draft) (available : list department) (item : draft_candidate)
    (a b : option uuid) (t : option datetime)
    (Hkey : keyed_articles (working s))
    (Hparent : d_external_document_id parent <> None)
    (Hd : t_drafts (working s) !! id = Some (submitted (child_draft now0 cid parent available item) a b t))
    (Hnew : rq_update_article_id rq = None)
    (Hrun : approve_draft now new_id u id rq s = (Return art, s')) :
  (forall src, src ∈ a_sources art -> ds_source_system src = "upload")
  /\ (forall p, p ∈ a_user_permissions art -> ap_source p = None)
  /\ (forall v, _source_acl_allows v art = true).
Proof.
  apply approve_unlinked with (d := submitted (child_draft now0 cid parent available item) a b t)
    in Hrun; done.
Qed.

(** External identifiers are not scoped to a company: an approval whose identifier is free
    in its own company, and which passes every check of the service, still fails on the
    database's global unique index as soon as another company uses the identifier. *)
Theorem external_id_collides_across_companies (now : datetime) (new_id : uuid) (u : user) (id : uuid)
    (rq : approval_request) (s s1 : session kbdb event) (d : pending_draft) (c : choices)
    (doc : option external_document) (dept : pystr) (au : audience) (eid : pystr)
    (nr : option datetime) (x : article)
    (Hkey : keyed_articles (working s))
    (Hd : t_drafts (working s) !! id = Some d) (Hscope : draft_in_scope u d = true)
    (Hplan : plan_approval u d rq s = (Return (c, doc, dept, au, None, Some eid, nr), s1))
    (Hx : t_articles (working s) !! a_id x = Some x) (Hother : a_company_domain x <> d_company_domain d)
    (Hid : a_external_id x = Some eid) (Hfresh : t_articles (working s) !! new_id = None) :
  exists s', approve_draft now new_id u id rq s
             = (Raise (IntegrityError "ix_articles_external_id"), s')
    /\ committed s' = committed s /\ published s' = published s.
Proof.
  pose proof (readonly_return _ _ _ _ (readonly_plan u d rq) Hplan) as ->.
  unfold approve_draft. rewrite (run_bind _ _ _ _ _ (load_draft_run _ _ _ _ Hd Hscope)).
  exists (Session (committed s) (committed s) (published s)). split; [|done].
  apply run_bind_raise. unfold rollback_on_error, approve_body.
  rewrite (run_bind _ _ _ _ _ Hplan). cbn zeta iota.
  rewrite (run_bind_raise _ _ s (IntegrityError "ix_articles_external_id") s); [done|].
  unfold write_article. apply run_bind_raise. unfold flush_article.
  rewrite run_query. apply run_bind_raise.
  match goal with |- ensure (negb ?b) _ _ = _ => assert (b = true) as -> end; [|done].
  apply existsb_elem. exists x. split; [by apply (elem_of_rows a_id)|].
  rewrite !andb_true_iff, negb_true_iff, Z.eqb_neq, !bool_decide_eq_true. cbn.
  split_and!; [|done|done]. congruence.
Qed.

(** Revising an article never drops a provider's ACL mirror: every source-managed
    permission row and every provenance row of the target survives, and the article's
    identity, company and owner do not change. *)
Theorem revision_keeps_provider_rows (now : datetime) (new_id : uuid) (u : user) (id i : uuid)
    (rq : approval_request) (s s' : session kbdb event) (a : article)
    (Hkey : keyed_articles (working s)) (Htarget : rq_update_article_id rq = Some i)
    (Hrun : approve_draft now new_id u id rq s = (Return a, s')) :
  exists before, t_articles (working s) !! i = Some before
    /\ a_id a = i /\ a_company_domain a = a_company_domain before /\ a_owner_id a = a_owner_id before
    /\ (forall p g, p ∈ a_user_permissions before -> ap_source p = Some g ->
          mem g SOURCE_ACL_PROVIDERS = true -> p ∈ a_user_permissions a)
    /\ (forall src, src ∈ a_sources before -> src ∈ a_sources a)
    /\ (forall g, g ∈ governed_by before -> g ∈ governed_by a).
Proof.
  apply approve_return in Hrun as (d & c & doc & dept & au & target & eid & nr & Hr).
  cbn zeta in Hr. destruct Hr as (_ & _ & Hp & -> & _).
  apply plan_return in Hp as (_ & _ & _ & _ & _ & _ & _ & Htg & Htv & _); [|done].
  rewrite Htarget in Htg. destruct target as [t|]; [|done]. cbn in Htg. simplify_eq.
  destruct Htv as (Ht & _).
  assert (Hs : forall src, src ∈ a_sources t -> src ∈ a_sources (with_source d au
      (approved_article now new_id u d c dept au eid nr (Some t)))).
  { intros src Hin. cbn. apply elem_of_app. by left. }
  exists t. split_and!; try done.
  - intros p g Hin Hg Hm. cbn. unfold revised_permissions. apply elem_of_app. left.
    apply elem_of_filter_b. by rewrite Hg.
  - intros g Hg. apply elem_of_governed in Hg as [(src & Hin & Hg) Hm].
    apply elem_of_governed. split; [|done]. exists src. by split; [apply Hs|].
Qed.
End ApproveTheorems.

(** ** Concrete inputs *)

Definition plain_request : approval_request :=
  mkRequest None None None false None None None None None None.
Definition ceo : user := sample_user 9 "CEO" [].
Definition approval_db : kbdb :=
  sample_db <| t_departments := [sample_dept 1 $"HR"; sample_dept 2 $"IT"] |>.

Definition sample_article (id : uuid) (company : string) (external_id : option pystr) : article :=
  mkArticle id $"t" external_id $"b" $"HR" $"d" company "SOP" "internal" "department" "vi" (Some 3)
    "published" (Some "active") None false None None 4 None None false false false None
    "indexed" None [sample_dept 1 $"HR"] [mkSource "onedrive" $"r" $"h" None $"f" None None]
    [mkAUP 6 "allow" (Some "onedrive"); mkAUP 9 "allow" (Some "onedrive")] [].
Definition with_article (a : article) (db : kbdb) : kbdb :=
  db <| t_articles := <[a_id a := a]> (t_articles db) |>.

Lemma approval_db_keyed : keyed_articles approval_db /\ keyed_drafts approval_db.
Proof. split; [|apply sample_db_keyed]. intros i a Ha. change ((∅ : gmap uuid article) !! i = Some a) in Ha. by apply lookup_empty_Some in Ha. Qed.

Lemma with_article_keyed a db : keyed_articles db -> keyed_articles (with_article a db).
Proof.
  intros Hk i x Hx. unfold with_article in Hx. cbn in Hx.
  apply lookup_insert_Some in Hx as [[<- <-]|[_ Hx]]; [done|by apply Hk].
Qed.

Lemma approve_atomic_witness :
  exists s' e, @approve_draft demo_env 300 77 ceo 1 plain_request (open_session fresh_db)
               = (Raise e, s') /\ committed s' = fresh_db.
Proof.
  destruct (@approve_draft demo_env 300 77 ceo 1 plain_request (open_session fresh_db))
    as [[r|e] s'] eqn:Hrun; [vm_compute in Hrun; discriminate|].
  exists s', e. split; [reflexivity|].
  destruct (@approve_atomic demo_env _ _ _ _ _ _ _ _ Hrun) as [Hc _]. exact Hc.
Defined.

Lemma approve_draft_effect_witness :
  exists s' a, @approve_draft demo_env 300 77 ceo 1 plain_request (open_session approval_db)
               = (Return a, s') /\ a_status a = "published".
Proof.
  destruct (returned_is_some (@approve_draft demo_env 300 77 ceo 1 plain_request
    (open_session approval_db))) as (a & s' & Hrun); [by eexists; vm_compute|].
  exists s', a. split; [exact Hrun|].
  destruct (@approve_draft_effect demo_env _ _ _ _ _ (open_session approval_db) _ _
    (proj1 approval_db_keyed) (proj2 approval_db_keyed) Hrun)
    as (d & r & v & _ & _ & _ & _ & _ & _ & _ & _ & _ & _ & Hpub & _). exact Hpub.
Defined.

Lemma approve_once_witness :
  exists s' e s'', @approve_draft demo_env 301 78 ceo 1 plain_request s' = (Raise e, s'')
    /\ committed s'' = committed s' /\ published s'' = published s'.
Proof.
  destruct (returned_is_some (@approve_draft demo_env 300 77 ceo 1 plain_request
    (open_session approval_db))) as (a & s' & Hrun); [by eexists; vm_compute|].
  exists s'.
  exact (@approve_once demo_env 300 301 77 78 ceo ceo 1 plain_request plain_request
    (open_session approval_db) s' a (proj1 approval_db_keyed) (proj2 approval_db_keyed) Hrun).
Defined.

(** A draft imported from a OneDrive connector, its ACL mapped to IT and to the user 6. *)
Definition connector_draft : pending_draft :=
  sample_draft <| d_external_document_id := Some 40 |> <| d_storage_key := Some $"key" |>.
Definition connector_db : kbdb :=
  approval_db <| t_drafts := <[1 := connector_draft]> ∅ |>
    <| t_external_documents := <[40 := mkExternalDocument 40 50 None None
         $"drive" $"file-1" None $"policy.md" None None None None None "active"
         (no_metadata <| k_mapped_department_ids := Some [2] |>
            <| k_mapped_source_user_ids := Some [$"6"] |>)]> ∅ |>
    <| t_connectors := <[50 := mkConnector 50 $"Drive" "onedrive" "active"
         None None "acme.test" None [] [] true]> ∅ |>.

Lemma connector_article_restricted_witness :
  exists s' a, @approve_draft demo_env 300 77 ceo 1 plain_request (open_session connector_db)
               = (Return a, s') /\ a_sensitivity a = "restricted".
Proof.
  destruct (returned_is_some (@approve_draft demo_env 300 77 ceo 1 plain_request
    (open_session connector_db))) as (a & s' & Hrun); [by eexists; vm_compute|].
  exists s', a. split; [exact Hrun|].
  destruct (@connector_article_restricted demo_env 300 77 ceo 1 40 plain_request
    (open_session connector_db) s' a connector_draft (proj1 approval_db_keyed) eq_refl eq_refl Hrun) as (e & cn & _ & _ & _ & H & _).
  exact H.
Defined.

(** The child a split of that draft is committed into. *)
Definition split_child : pending_draft :=
  submitted (@child_draft demo_env 200 1 connector_draft [] (sample_candidate 11 0 $"one" None "candidate"))
    None None None.
Definition child_db : kbdb := approval_db <| t_drafts := <[1 := split_child]> ∅ |>.

Lemma split_child_escapes_provider_acl_witness :
  exists s' a, @approve_draft demo_env 300 77 ceo 1 plain_request (open_session child_db)
               = (Return a, s') /\ forall v, _source_acl_allows v a = true.
Proof.
  destruct (returned_is_some (@approve_draft demo_env 300 77 ceo 1 plain_request
    (open_session child_db))) as (a & s' & Hrun); [by eexists; vm_compute|].
  exists s', a. split; [exact Hrun|].
  exact (proj2 (proj2 (@split_child_escapes_provider_acl demo_env 300 200 77 1 ceo 1 plain_request
    (open_session child_db) s' a connector_draft [] (sample_candidate 11 0 $"one" None "candidate")
    None None None (proj1 approval_db_keyed) ltac:(done) eq_refl eq_refl Hrun))).
Defined.

Definition numbered_draft : pending_draft :=
  sample_draft <| d_content_metadata := (empty_metadata <| md_external_id := Some $"X-1" |>) |>.
Definition collision_db : kbdb :=
  with_article (sample_article 60 "other.test" (Some $"X-1"))
    (approval_db <| t_drafts := <[1 := numbered_draft]> ∅ |>).

Lemma external_id_collides_across_companies_witness :
  exists s', @approve_draft demo_env 300 77 ceo 1 plain_request (open_session collision_db)
             = (Raise (IntegrityError "ix_articles_external_id"), s')
    /\ committed s' = collision_db /\ published s' = [].
Proof.
  destruct (returned_is_some (@plan_approval demo_env ceo numbered_draft plain_request
    (open_session collision_db)))
    as ([[[[[[c doc] dept] au] target] eid] nr] & s1 & Hplan); [by eexists; vm_compute|].
  assert (Hp : target = None /\ eid = Some $"X-1").
  { vm_compute in Hplan. injection Hplan as _ _ _ _ <- <- _ _. split; reflexivity. }
  destruct Hp as [-> ->].
  exact (@external_id_collides_across_companies demo_env 300 77 ceo 1 plain_request
    (open_session collision_db) s1 numbered_draft c doc dept au $"X-1" nr
    (sample_article 60 "other.test" (Some $"X-1"))
    (with_article_keyed _ _ (proj1 approval_db_keyed)) eq_refl eq_refl Hplan eq_refl
    ltac:(done) eq_refl eq_refl).
Defined.

Definition update_request : approval_request :=
  mkRequest None None (Some 60) false None None None None None None.
Definition update_db : kbdb := with_article (sample_article 60 "acme.test" None) approval_db.

Lemma revision_keeps_provider_rows_witness :
  exists s' a, @approve_draft demo_env 300 77 ceo 1 update_request (open_session update_db)
               = (Return a, s') /\ a_id a = 60.
Proof.
  destruct (returned_is_some (@approve_draft demo_env 300 77 ceo 1 update_request
    (open_session update_db))) as (a & s' & Hrun); [by eexists; vm_compute|].
  exists s', a. split; [exact Hrun|].
  destruct (@revision_keeps_provider_rows demo_env 300 77 ceo 1 60 update_request (open_session update_db) s' a
    (with_article_keyed _ _ (proj1 approval_db_keyed)) eq_refl Hrun) as (b & _ & H & _). exact H.
Defined.
