(* ===== verification/ReviewSweeps.v ===== *)
(** * Decisions without a reviewer in front

    The sweeps that decide waiting drafts unattended and the bulk decision of a reviewer: the
    rules of the approval agent and their versions (src/api/routers/governance.py), the agent
    (src/domain/approval_agent.py), the departments that publish without review
    (src/domain/department_auto_publish.py) and [bulk_decide_drafts]. All of them go through
    [Drafts.reject_draft] and [Approve.approve_draft].

    The rows a loop selected before a rollback are expired by it, and reading one of their
    attributes afterwards raises MissingGreenlet, as [_reload_actor] of the router explains;
    the loops below raise where the code reads one. *)

From S2P Require Import Prelude PyText Float64 Models Rbac Permissions Store Drafts Approve.
From Stdlib Require String.
#[local] Open Scope string_scope.
#[local] Open Scope list_scope.
#[local] Open Scope Z_scope.

(** ** Rules *)

Record approval_rule := mkApprovalRule {
  pr_id : uuid;
  pr_company_domain : string;
  pr_name : pystr;
  pr_active : bool;
  pr_priority : Z;
  pr_connector_id : option uuid;
  pr_dept : option pystr;
  pr_file_extensions : option (list pystr);
  pr_max_similarity_score : option float;
  pr_risk_tiers : option (list string);
  pr_instruction : pystr;
  pr_can_approve : bool;
  pr_can_reject : bool;
  pr_created_by : option uuid;
  pr_version : Z
}.

#[export] Instance eta_approval_rule : Eta approval_rule := fun r => mkApprovalRule (pr_id r) (pr_company_domain r)
  (pr_name r) (pr_active r) (pr_priority r) (pr_connector_id r) (pr_dept r) (pr_file_extensions r)
  (pr_max_similarity_score r) (pr_risk_tiers r) (pr_instruction r) (pr_can_approve r) (pr_can_reject r)
  (pr_created_by r) (pr_version r).

(** A row of approval_rule_versions: the fields of the rule, whose [pr_version] is the number
    of the version, and who wrote it. *)
Record rule_version := mkRuleVersion { rv_rule : approval_rule; rv_changed_by : option uuid }.

Record rule_audit := mkRuleAudit { ra_user_id : uuid; ra_action : string; ra_rule_id : uuid }.

Record rulesdb := mkRulesDb {
  t_approval_rules : gmap uuid approval_rule;
  t_rule_versions : list rule_version;
  t_rule_audits : list rule_audit
}.

#[export] Instance eta_rulesdb : Eta rulesdb := fun d =>
  mkRulesDb (t_approval_rules d) (t_rule_versions d) (t_rule_audits d).

Abbreviation RULES := (M rulesdb Empty_set).

(** [ApprovalRuleRequest] *)
Record approval_rule_request := mkRuleRequest {
  arr_name : pystr;
  arr_instruction : pystr;
  arr_active : bool;
  arr_priority : Z;
  arr_connector_id : option uuid;
  arr_dept : option pystr;
  arr_file_extensions : option (list pystr);
  arr_max_similarity_score : option float;
  arr_risk_tiers : option (list string);
  arr_can_approve : bool;
  arr_can_reject : bool
}.

Section Rules.
Context `{KbEnv}.

(** [text.lstrip(".")] *)
Definition lstrip_dots (s : pystr) : pystr := (span (Z.eqb 46) s).2.

Definition _normalise_extensions (values : option (list pystr)) : option (list pystr) :=
  match values with
  | None | Some [] => None
  | Some l =>
      let cleaned := List.filter truthy (map (fun v => py_lower (lstrip_dots (strip v))) l) in
      match stable_sort text_leb (dedup (map (cons 46) cleaned)) with [] => None | l' => Some l' end
  end.

(** The fields of the payload, over a row *)
Definition set_rule (payload : approval_rule_request) (r : approval_rule) : approval_rule :=
  mkApprovalRule (pr_id r) (pr_company_domain r) (strip (arr_name payload)) (arr_active payload) (arr_priority payload)
    (arr_connector_id payload) (match arr_dept payload with Some ((_ :: _) as n) => Some (strip n) | _ => None end)
    (_normalise_extensions (arr_file_extensions payload)) (arr_max_similarity_score payload) (arr_risk_tiers payload)
    (strip (arr_instruction payload)) (arr_can_approve payload) (arr_can_reject payload) (pr_created_by r) (pr_version r).

Definition _snapshot_rule_version (rule : approval_rule) (changed_by : uuid) : RULES unit :=
  write (fun d => d <| t_rule_versions := t_rule_versions d ++ [mkRuleVersion rule (Some changed_by)] |>).
Definition audit_rule (who : uuid) (action : string) (rule_id : uuid) : RULES unit :=
  write (fun d => d <| t_rule_audits := t_rule_audits d ++ [mkRuleAudit who action rule_id] |>).
Definition put_rule (r : approval_rule) : RULES unit :=
  write (fun d => d <| t_approval_rules := <[pr_id r := r]> (t_approval_rules d) |>).

(** The row of a new rule; [created_by] is whom the agent acts as. *)
Definition new_rule (rule_id : uuid) (payload : approval_rule_request) (current_user : user) : approval_rule :=
  set_rule payload (mkApprovalRule rule_id (u_company_domain current_user) [] true 100 None None None None None []
                      false false (Some (u_id current_user)) 1).

Definition create_approval_rule (rule_id : uuid) (payload : approval_rule_request) (current_user : user) : RULES approval_rule :=
  let rule := new_rule rule_id payload current_user in
  put_rule rule ;;
  _snapshot_rule_version rule (u_id current_user) ;;
  audit_rule (u_id current_user) "approval_rule_create" (pr_id rule) ;;
  commit ;;
  mret rule.

(** The rule of the caller's company *)
Definition own_rule (rule_id : uuid) (current_user : user) : RULES approval_rule :=
  found ← query (fun d => t_approval_rules d !! rule_id);
  rule ← some_or found (HTTPException 404 "Rule not found");
  ensure (String.eqb (pr_company_domain rule) (u_company_domain current_user)) (HTTPException 404 "Rule not found") ;;
  mret rule.

Definition update_approval_rule (rule_id : uuid) (payload : approval_rule_request) (current_user : user) : RULES approval_rule :=
  rule ← own_rule rule_id current_user;
  let rule := (set_rule payload rule) <| pr_version := pr_version rule + 1 |> in
  put_rule rule ;;
  _snapshot_rule_version rule (u_id current_user) ;;
  audit_rule (u_id current_user) "approval_rule_update" (pr_id rule) ;;
  commit ;;
  mret rule.

(** The versions go with the rule (ON DELETE CASCADE). *)
Definition delete_approval_rule (rule_id : uuid) (current_user : user) : RULES unit :=
  rule ← own_rule rule_id current_user;
  write (fun d => d <| t_approval_rules := delete (pr_id rule) (t_approval_rules d) |>
                    <| t_rule_versions := List.filter (fun v => negb (Z.eqb (pr_id (rv_rule v)) (pr_id rule))) (t_rule_versions d) |>) ;;
  audit_rule (u_id current_user) "approval_rule_delete" rule_id ;;
  commit.
End Rules.

(** ** Scoping *)

Class ReviewSettings := {
  APPROVAL_AGENT_ENABLED : bool;
  APPROVAL_AGENT_BATCH_LIMIT : Z;
  APPROVAL_AGENT_HIGH_RISK_DEPARTMENTS : pystr
}.

Inductive risk_tier := STANDARD_RISK | HIGH_RISK.
#[export] Instance risk_tier_eq_dec : EqDecision risk_tier.
Proof. solve_decision. Defined.
Definition tier_name (t : risk_tier) : string := match t with STANDARD_RISK => "standard" | HIGH_RISK => "high" end.

(** [s.split(sep)] for a separator of one character *)
Fixpoint split_on (sep : Z) (s : pystr) : list pystr :=
  match s with
  | [] => [[]]
  | c :: s' => if c =? sep then [] :: split_on sep s'
               else match split_on sep s' with w :: ws => (c :: w) :: ws | [] => [[c]] end
  end.

Section Scoping.
Context `{KbEnv, ReviewSettings}.

Definition approval_agent_high_risk_department_list : list pystr :=
  map (fun d => py_lower (strip d)) (List.filter (fun d => truthy (strip d)) (split_on 44 APPROVAL_AGENT_HIGH_RISK_DEPARTMENTS)).

(** [(text or "").strip().lower()] *)
Definition plain (o : option pystr) : pystr := py_lower (strip (default [] o)).

Definition compute_draft_risk_tier (draft : pending_draft) : risk_tier :=
  let sensitivity := py_lower (strip (ps (default "" (md_sensitivity (d_content_metadata draft))))) in
  if bool_decide (sensitivity ∈ [$"restricted"; $"confidential"]) then HIGH_RISK
  else
    let dept := plain (d_dept draft) in
    if truthy dept && bool_decide (dept ∈ approval_agent_high_risk_department_list) then HIGH_RISK else STANDARD_RISK.

Definition _extension (filename : option pystr) : option pystr :=
  match filename with
  | Some ((_ :: _) as f) => if existsb (Z.eqb 46) f then Some (46 :: py_lower (after_last 46 f)) else None
  | _ => None
  end.

(** The [similarity_matches] of a draft, by their scores where these are numbers *)
Variable similarity_matches : pending_draft -> list (option float).

(** [max] of a non-empty list *)
Definition top_similarity (draft : pending_draft) : option float :=
  match omap id (similarity_matches draft) with
  | [] => None
  | x :: l => Some (foldl f_max x l)
  end.

Definition rule_applies (rule : approval_rule) (draft : pending_draft) (connector_id : option uuid) : bool :=
  pr_active rule
  && String.eqb (pr_company_domain rule) (d_company_domain draft)
  && match pr_connector_id rule with Some c => bool_decide (connector_id = Some c) | None => true end
  && match pr_dept rule with Some n => bool_decide (plain (d_dept draft) = py_lower (strip n)) | None => true end
  && match pr_file_extensions rule with
     | Some ((_ :: _) as l) => match _extension (d_original_filename draft) with
                             | Some e => bool_decide (e ∈ map (fun v => py_lower (strip v)) l)
                             | None => false
                             end
     | _ => true
     end
  && match pr_max_similarity_score rule with
     | Some m => match top_similarity draft with Some score => negb (f_ltb m score) | None => false end
     | None => true
     end
  && match pr_risk_tiers rule with
     | Some ((_ :: _) as l) => mem (tier_name (compute_draft_risk_tier draft)) l
     | _ => true
     end.

(** [(rule.priority, str(rule.id))] *)
Definition rule_before (a b : approval_rule) : bool :=
  (pr_priority a <? pr_priority b) || (pr_priority a =? pr_priority b) && text_leb (show_uuid (pr_id a)) (show_uuid (pr_id b)).

Definition select_rule (rules : list approval_rule) (draft : pending_draft) (connector_id : option uuid) : option approval_rule :=
  head (stable_sort rule_before (List.filter (fun r => rule_applies r draft connector_id) rules)).
End Scoping.

(** ** The question put to the model *)

Definition is_letter (c : Z) : bool := is_lower c || is_upper c.

(** A match of [</?[A-Za-z]] starts here: what the pattern of tags requires, its tail being
    optional. *)
Definition tag_here (s : pystr) : bool :=
  match s with
  | c :: d :: s' => (c =? 60) && (is_letter d || (d =? 47) && match s' with e :: _ => is_letter e | [] => false end)
  | _ => false
  end.

(** [_TAG_LIKE.sub]: the tail of a match holds no [<], so every match start is seen. *)
Fixpoint fence_text (s : pystr) : pystr :=
  match s with
  | [] => []
  | c :: s' => if tag_here s then 60 :: 8203 :: fence_text s' else c :: fence_text s'
  end.
Definition fence_untrusted (text : option pystr) : pystr := fence_text (default [] text).

Definition _BODY_CHARS : Z := 6000.

Definition _draft_text (draft : pending_draft) : pystr :=
  if otruthy (d_restructured_body_md draft) then upto _BODY_CHARS (default [] (d_restructured_body_md draft))
  else upto _BODY_CHARS (default [] (d_summary draft)).

(** [a or b] *)
Definition or_else (o : option pystr) (b : pystr) : pystr := match o with Some ((_ :: _) as a) => a | _ => b end.

(** [sep.join(lines)] for a line break *)
Fixpoint join_lines (l : list pystr) : pystr :=
  match l with
  | [] => []
  | [x] => x
  | x :: l' => x ++ 10 :: join_lines l'
  end.

Definition _prompt (rule : approval_rule) (draft : pending_draft) : pystr :=
  join_lines
    [$"RULE:"; strip (pr_instruction rule); [];
     $"DOCUMENT TITLE: " ++ fence_untrusted (Some (d_title draft));
     $"DEPARTMENT: " ++ fence_untrusted (Some (or_else (d_dept draft) ($"unassigned")));
     $"ORIGINAL FILENAME: " ++ fence_untrusted (Some (or_else (d_original_filename draft) ($"unknown"))); [];
     $"<untrusted-document>"; fence_untrusted (Some (_draft_text draft)); $"</untrusted-document>"].

(** ** The verdict *)

Inductive decision := APPROVE | REJECT | ABSTAIN.
#[export] Instance decision_eq_dec : EqDecision decision.
Proof. solve_decision. Defined.

Record verdict := mkVerdict {
  vd_action : decision;
  vd_reason : pystr;
  vd_rule : option (uuid * pystr * Z)
}.

Definition acted (v : verdict) : bool := match vd_action v with ABSTAIN => false | _ => true end.

Definition _abstain (reason : pystr) (rule : option approval_rule) : verdict :=
  mkVerdict ABSTAIN reason ((fun r => (pr_id r, pr_name r, pr_version r)) <$> rule).

(** What [resolve_provider] and [complete] give, and the decision object of a reply: the text
    of [decision] when it is one, its repr, and the text of [reason]. *)
Inductive model_reply := NoProvider | Unreachable | Reply (text : pystr).
Record decision_object := mkDecisionObject { do_decision : option pystr; do_repr : pystr; do_reason : pystr }.
Class Reviewer := {
  complete : pystr -> model_reply;
  (** [json.loads] and the two fields; [None] when it raises *)
  loads : pystr -> option decision_object
}.

(** [re.sub(r"^```[a-zA-Z]*\s*", "", text)] and [re.sub(r"\s*```$", "", text)] *)
Definition open_fence (s : pystr) : pystr := lstrip (span is_letter (from 3 s)).2.
Definition close_fence (s : pystr) : pystr :=
  if starts_with ($"```") (rev s) then rstrip (rev (from 3 (rev s))) else s.

(** The offset of the first, the last occurrence *)
Fixpoint find_char (c : Z) (s : pystr) : option nat :=
  match s with
  | [] => None
  | x :: s' => if x =? c then Some O else S <$> find_char c s'
  end.
Definition rfind_char (c : Z) (s : pystr) : option nat := (fun i => (length s - 1 - i)%nat) <$> find_char c (rev s).

Section Deciding.
Context `{KbEnv, ReviewSettings, Reviewer}.
Variable similarity_matches : pending_draft -> list (option float).

(** [parse_decision]; [None] when it raises, and the decision [None] stands for "unsure". *)
Definition parse_decision (reply : pystr) : option (option decision * pystr) :=
  let text := strip reply in
  let text := if starts_with ($"```") text then close_fence (open_fence text) else text in
  match find_char 123 text, rfind_char 125 text with
  | Some a, Some b =>
      if Nat.leb b a then Some (None, $"The model did not return a decision.")
      else
        p ← loads (take (b + 1 - a) (drop a text));
        let reason := upto 500 (strip (do_reason p)) in
        if bool_decide (do_decision p = Some ($"approve")) then Some (Some APPROVE, or_else (Some reason) ($"No reason given."))
        else if bool_decide (do_decision p = Some ($"reject")) then Some (Some REJECT, or_else (Some reason) ($"No reason given."))
        else if bool_decide (do_decision p = Some ($"unsure")) then Some (None, or_else (Some reason) ($"No reason given."))
        else Some (None, or_else (Some reason) ($"Unrecognised decision: " ++ do_repr p))
  | _, _ => Some (None, $"The model did not return a decision.")
  end.

Definition decide_draft (draft : pending_draft) (rules : list approval_rule) (connector_id : option uuid) : verdict :=
  if mem (d_restructure_status draft) PREPARING then _abstain ($"Document preparation is still in progress.") None
  else match select_rule similarity_matches rules draft connector_id with
  | None => _abstain ($"No rule covers this document.") None
  | Some rule =>
      if negb (pr_can_approve rule || pr_can_reject rule)
      then _abstain ($"Rule '" ++ pr_name rule ++ $"' is not allowed to act.") (Some rule)
      else match complete (_prompt rule draft) with
      | NoProvider => _abstain ($"No LLM provider is configured.") (Some rule)
      | Unreachable => _abstain ($"The model could not be reached; left for a human.") (Some rule)
      | Reply reply =>
          match parse_decision reply with
          | None => _abstain ($"The model's answer could not be read; left for a human.") (Some rule)
          | Some (Some APPROVE, reason) =>
              if pr_can_approve rule then mkVerdict APPROVE reason (Some (pr_id rule, pr_name rule, pr_version rule))
              else _abstain ($"Rule '" ++ pr_name rule ++ $"' may not approve. Model said: " ++ reason) (Some rule)
          | Some (Some REJECT, reason) =>
              if pr_can_reject rule then mkVerdict REJECT reason (Some (pr_id rule, pr_name rule, pr_version rule))
              else _abstain ($"Rule '" ++ pr_name rule ++ $"' may not reject. Model said: " ++ reason) (Some rule)
          | Some (_, reason) => _abstain reason (Some rule)
          end
      end
  end.
End Deciding.

(** ** The agent *)

(** Raised on reading an attribute of an expired row outside a greenlet *)
Definition MissingGreenlet : exn := RuntimeError "MissingGreenlet".

(** [select(PendingDraft)] of the sweeps: waiting, prepared, oldest first *)
Definition waiting_drafts (company_domain : string) (p : pending_draft -> bool) (limit : Z) (db : kbdb) : list pending_draft :=
  take (Z.to_nat limit)
    (stable_sort (fun a b => d_created_at a <=? d_created_at b)
      (List.filter (fun d => String.eqb (d_company_domain d) company_domain && String.eqb (d_status d) "pending" && p d
                             && negb (mem (d_restructure_status d) PREPARING)) (rows (t_drafts db)))).

(** [limit or settings.APPROVAL_AGENT_BATCH_LIMIT] *)
Definition batch_limit `{ReviewSettings} (limit : option Z) : Z :=
  match limit with Some n => if n =? 0 then APPROVAL_AGENT_BATCH_LIMIT else n | None => APPROVAL_AGENT_BATCH_LIMIT end.

(** An approval that chooses nothing itself *)
Definition bare_request (review_note : option pystr) : approval_request :=
  mkRequest None None None false None None review_note None None None.

Record agent_result := mkAgentResult {
  ar_draft_id : uuid;
  ar_verdict : verdict;
  ar_applied : bool;
  ar_reason : pystr
}.

Section Agent.
Context `{KbEnv, ReviewSettings, Reviewer}.
Variables (now : datetime) (fresh : uuid -> uuid).
Variable similarity_matches : pending_draft -> list (option float).

Definition _connector_for_draft (db : kbdb) (draft : pending_draft) : option uuid :=
  e ← d_external_document_id draft;
  ed_connector_id <$> t_external_documents db !! e.

(** [draft.status] and the preparation are those of the selection: each draft is met once. *)
Definition _apply (draft : pending_draft) (rule : option approval_rule) (v : verdict) : KB (bool * pystr) :=
  if negb (String.eqb (d_status draft) "pending") || mem (d_restructure_status draft) PREPARING
  then mret (false, $"Document preparation is still in progress or the draft was already decided.")
  else
    rule ← some_or rule AttributeError;
    match pr_created_by rule with
    | None => mret (false, $"The rule has no author to act as.")
    | Some created_by =>
        author ← query (fun db => get_user_by_id db created_by None);
        match author with
        | Some author =>
            if u_active author then
              let note := $"Approval agent, rule '" ++ pr_name rule ++ $"': " ++ vd_reason v in
              match vd_action v with
              | APPROVE => approve_draft now (fresh (d_id draft)) author (d_id draft) (bare_request None) ;; mret (true, note)
              | _ => reject_draft now author (d_id draft) note ;; mret (true, note)
              end
            else mret (false, $"The rule's author no longer has an active account.")
        | None => mret (false, $"The rule's author no longer has an active account.")
        end
    end.

(** One turn of the loop. When the verdict cannot be applied, the handler rolls back and reads
    the draft again: the run ends there. *)
Definition decide_one (rules : list approval_rule) (dry_run : bool) (draft : pending_draft) : KB agent_result :=
  connector_id ← query (fun db => _connector_for_draft db draft);
  let v := decide_draft similarity_matches draft rules connector_id in
  applied ← (if acted v && negb dry_run then
               let rule := List.find (fun r => bool_decide (Some (pr_id r) = (fun x => x.1.1) <$> vd_rule v)) rules in
               catch (_apply draft rule v) (fun _ => rollback ;; raise MissingGreenlet)
             else mret (false, vd_reason v));
  add_audit (mkAudit None "approval_agent_decision" "draft" (Some (d_id draft))) ;;
  mret (mkAgentResult (d_id draft) v applied.1 (upto 500 applied.2)).

(** [rules] is the table of rules. The counters of the summary are those of the results. *)
Definition run_agent (table : list approval_rule) (company_domain : string) (limit : option Z) (dry_run : bool)
    : KB (list agent_result) :=
  if negb APPROVAL_AGENT_ENABLED then mret []
  else
    let rules := List.filter (fun r => String.eqb (pr_company_domain r) company_domain && pr_active r) table in
    match rules with
    | [] => mret []
    | _ =>
        drafts ← query (waiting_drafts company_domain (fun _ => true) (batch_limit limit));
        results ← traverse drafts (decide_one rules dry_run);
        commit ;;
        mret results
    end.

(** The beat task: every company with an active rule *)
Definition _run_approval_agent_sweep (table : list approval_rule) : KB unit :=
  for_each (dedup (map pr_company_domain (List.filter pr_active table)))
    (fun company => run_agent table company None false ;; mret tt).
End Agent.

(** ** Departments that publish without review *)

Record sweep_summary := mkSweepSummary { sw_approved : Z; sw_left_for_review : Z; sw_skipped : Z }.

#[export] Instance eta_sweep_summary : Eta sweep_summary := fun s => mkSweepSummary (sw_approved s) (sw_left_for_review s) (sw_skipped s).

Section AutoPublish.
Context `{KbEnv, ReviewSettings}.
Variables (now : datetime) (fresh : uuid -> uuid).

Definition NOTE (name : pystr) : pystr := $"Auto-published: department " ++ name ++ $" does not require review.".

(** An active department an Admin opted out of review, still naming that Admin *)
Definition opted_out (company_domain : string) (x : department) : bool :=
  String.eqb (dp_company_domain x) company_domain && dp_active x && negb (dp_review_required x)
  && match dp_auto_publish_by x with Some _ => true | None => false end.

(** [{row.name: row.auto_publish_by}]: a later row of the same name replaces an earlier one. *)
Definition publishers (company_domain : string) (db : kbdb) : gmap pystr uuid :=
  list_to_map (rev (omap (fun x => if opted_out company_domain x then pair (dp_name x) <$> dp_auto_publish_by x else None)
                      (t_departments db))).

(** [expired]: a refusal has rolled back, so that the drafts still to come cannot be read. *)
Fixpoint publish_each (departments : gmap pystr uuid) (expired : bool) (summary : sweep_summary) (drafts : list pending_draft)
    : KB sweep_summary :=
  match drafts with
  | [] => mret summary
  | draft :: drafts' =>
      ensure (negb expired) MissingGreenlet ;;
      if bool_decide (compute_draft_risk_tier draft = HIGH_RISK)
      then publish_each departments expired (summary <| sw_skipped := sw_skipped summary + 1 |>) drafts'
      else
        let department_name := default [] (d_dept draft) in
        actor ← query (fun db => i ← departments !! department_name; get_user_by_id db i None);
        match actor with
        | Some actor =>
            if u_active actor then
              done ← catch (approve_draft now (fresh (d_id draft)) actor (d_id draft) (bare_request (Some (NOTE department_name))) ;;
                            mret true)
                           (fun _ => rollback ;; mret false);
              if (done : bool) then
                add_audit (mkAudit (Some (u_id actor)) "department_auto_publish" "draft" (Some (d_id draft))) ;;
                commit ;;
                publish_each departments expired (summary <| sw_approved := sw_approved summary + 1 |>) drafts'
              else publish_each departments true (summary <| sw_left_for_review := sw_left_for_review summary + 1 |>) drafts'
            else publish_each departments expired (summary <| sw_left_for_review := sw_left_for_review summary + 1 |>) drafts'
        | None => publish_each departments expired (summary <| sw_left_for_review := sw_left_for_review summary + 1 |>) drafts'
        end
  end.

Definition run_auto_publish (company_domain : string) (limit : option Z) : KB sweep_summary :=
  departments ← query (publishers company_domain);
  if bool_decide (departments = ∅) then mret (mkSweepSummary 0 0 0)
  else
    drafts ← query (waiting_drafts company_domain (fun d => match d_dept d with Some n => bool_decide (is_Some (departments !! n)) | None => false end)
                      (batch_limit limit));
    publish_each departments false (mkSweepSummary 0 0 0) drafts.

(** The beat task: every company with a department that does not require review *)
Definition _run_department_auto_publish_sweep : KB unit :=
  companies ← query (fun db => dedup (map dp_company_domain
                       (List.filter (fun x => dp_active x && negb (dp_review_required x)) (t_departments db))));
  for_each companies (fun company => run_auto_publish company None ;; mret tt).
End AutoPublish.

(** Independent: a failure in one must not skip the other. Each has a session of its own, which
    is rolled back when it ends. *)
Definition own_session (sweep : KB unit) : KB unit :=
  catch sweep (fun _ => mret tt) ;; rollback.

Definition _run_review_sweeps `{KbEnv, ReviewSettings, Reviewer} (now : datetime) (fresh : uuid -> uuid)
    (similarity_matches : pending_draft -> list (option float)) (table : list approval_rule) : KB unit :=
  own_session (_run_approval_agent_sweep now fresh similarity_matches table) ;;
  own_session (_run_department_auto_publish_sweep now fresh).

(** ** A reviewer's batch *)

Record bulk_request := mkBulkRequest {
  bk_draft_ids : list uuid;
  bk_approve : bool;
  bk_dept : option pystr;
  bk_department_ids : option (list uuid);
  bk_visibility : option string;
  bk_review_note : option pystr
}.

(** [decided] and [blocked], a refusal with its status code; the texts are left out. *)
Record bulk_report := mkBulkReport { br_decided : list uuid; br_blocked : list (uuid * Z) }.

#[export] Instance eta_bulk_report : Eta bulk_report := fun r => mkBulkReport (br_decided r) (br_blocked r).

Definition status_code (e : exn) : Z := match e with HTTPException c _ => c | _ => 500 end.

Section Bulk.
Context `{KbEnv}.
Variables (now : datetime) (fresh : uuid -> uuid).

Definition bulk_choices (req : bulk_request) : approval_request :=
  mkRequest None (bk_dept req) None false None (bk_department_ids req) (bk_review_note req) (bk_visibility req) None None.

Definition decide_bulk (req : bulk_request) (actor : user) (draft_id : uuid) : KB unit :=
  if bk_approve req then approve_draft now (fresh draft_id) actor draft_id (bulk_choices req) ;; mret tt
  else reject_draft now actor draft_id (default [] (bk_review_note req)) ;; mret tt.

(** After a refusal the acting user is loaded again by id; the batch stops when it is gone. *)
Fixpoint bulk_each (req : bulk_request) (actor_id : uuid) (actor : user) (report : bulk_report) (ids : list uuid) : KB bulk_report :=
  match ids with
  | [] => mret report
  | id :: ids' =>
      refused ← catch (decide_bulk req actor id ;; mret None) (fun e => mret (Some e));
      match (refused : option exn) with
      | None => bulk_each req actor_id actor (report <| br_decided := br_decided report ++ [id] |>) ids'
      | Some e =>
          let report := report <| br_blocked := br_blocked report ++ [(id, status_code e)] |> in
          reloaded ← query (fun db => get_user_by_id db actor_id None);
          match reloaded with
          | None => mret report
          | Some actor => bulk_each req actor_id actor report ids'
          end
      end
  end.

(** The audit is a transaction of its own; the number of decided drafts stands in the target. *)
Definition bulk_decide_drafts (req : bulk_request) (current_user : user) : KB bulk_report :=
  ensure (bk_approve req || truthy (strip (default [] (bk_review_note req)))) (HTTPException 422 "review_note_required") ;;
  report ← bulk_each req (u_id current_user) current_user (mkBulkReport [] []) (dedup (bk_draft_ids req));
  add_audit (mkAudit (Some (u_id current_user)) (if bk_approve req then "draft_bulk_approve" else "draft_bulk_reject")
               "pending_draft" (Some (len (br_decided report)))) ;;
  commit ;;
  mret report.
End Bulk.

(** ** What a decision leaves alone *)

(** What the sweeps read besides the drafts: people, departments and the connector of each
    document *)
Definition connectors_of (db : kbdb) : gmap uuid uuid := ed_connector_id <$> t_external_documents db.
Definition surroundings (db : kbdb) : list user * list department * gmap uuid uuid := (t_users db, t_departments db, connectors_of db).

Record tables_ok (db : kbdb) : Prop := {
  to_articles : keyed_articles db;
  to_drafts : keyed_drafts db;
  to_documents : keyed ed_id (t_external_documents db)
}.

Section Decisions.
Context `{KbEnv}.

Lemma frame_run {A B} (f : kbdb -> B) (m : KB A) (s s' : session kbdb event) o : frame f m -> m s = (o, s') -> f (working s') = f (working s).
Proof. intros Hf Hr. destruct (Hf s) as [Hw _]. by rewrite Hr in Hw. Qed.

(** The draft [id] was waiting and [u], who may decide it, gave it the status [status]; nothing
    else that the sweeps read moved. *)
Record settled (u : user) (id : uuid) (status : string) (old new : pending_draft) (db db' : kbdb) : Prop := {
  se_old : t_drafts db !! id = Some old;
  se_waiting : d_status old = "pending";
  se_may : _can_approve_draft u old = true;
  se_drafts : t_drafts db' = <[id := new]> (t_drafts db);
  se_id : d_id new = d_id old;
  se_status : d_status new = status;
  se_reviewer : d_reviewed_by new = Some (u_id u);
  se_ok : tables_ok db';
  se_surroundings : surroundings db' = surroundings db
}.

Definition documents (db : kbdb) : gmap uuid external_document := t_external_documents db.

Lemma linked_documents i doc (s s' : session kbdb event) x : link_document i doc s = (Return x, s') ->
  keyed ed_id (documents (working s)) -> (forall e, doc = Some e -> documents (working s) !! ed_id e = Some e) ->
  keyed ed_id (documents (working s')) /\ connectors_of (working s') = connectors_of (working s).
Proof.
  unfold link_document, connectors_of, documents. intros Hl Hk Hdoc. destruct doc as [e|]; minv; [|done]. specialize (Hdoc e eq_refl). cbn.
  split; [by apply insert_keyed|]. rewrite fmap_insert. apply insert_id. rewrite lookup_fmap, Hdoc. done.
Qed.

Lemma rows_documents now u d rq doc au a (s s' : session kbdb event) x : write_rows now u d rq doc au a s = (Return x, s') ->
  keyed ed_id (documents (working s)) -> (forall e, doc = Some e -> documents (working s) !! ed_id e = Some e) ->
  keyed ed_id (documents (working s')) /\ connectors_of (working s') = connectors_of (working s).
Proof.
  unfold write_rows. intros Hr Hk Hdoc.
  apply bind_return in Hr as (? & s1 & H1 & Hr). apply bind_return in Hr as (? & s2 & H2 & Hr). apply bind_return in Hr as (? & s3 & H3 & Hr).
  assert (E1 : documents (working s1) = documents (working s)) by (eapply frame_run; [|exact H1]; unfold add_version; solve_frame).
  assert (E2 : documents (working s2) = documents (working s1)) by (eapply frame_run; [|exact H2]; unfold put_article; solve_frame).
  rewrite <- E1, <- E2 in Hk, Hdoc. pose proof (linked_documents _ _ _ _ _ H3 Hk Hdoc) as [Hk3 Hc3].
  assert (E4 : documents (working s') = documents (working s3)).
  { eapply frame_run; [|exact Hr]. unfold _transition_draft, add_transition, put_draft, add_audit. repeat first [solve [solve_frame]|apply frame_bind; [|intros]]. }
  split; [by rewrite E4|]. unfold connectors_of in *. fold (documents (working s')) in *. rewrite E4. unfold documents. rewrite Hc3.
  fold (documents (working s2)). by rewrite E2, E1.
Qed.

Lemma approve_documents now new_id u id rq (s s' : session kbdb event) a : approve_draft now new_id u id rq s = (Return a, s') ->
  keyed_articles (working s) -> keyed ed_id (documents (working s)) ->
  keyed ed_id (documents (working s')) /\ connectors_of (working s') = connectors_of (working s).
Proof.
  unfold approve_draft. intros Hr Hka Hk. dinv.
  match goal with x : (article * bool)%type |- _ => destruct x end. minv.
  match goal with H : rollback_on_error ?m ?s1 = _ |- _ =>
    unfold rollback_on_error in H; destruct (m s1) as [[p|e1] s2] eqn:Hb; [|discriminate H] end.
  simplify_eq. cbn [working]. unfold approve_body in Hb. minv.
  match goal with x : (_ * _)%type |- _ => destruct x as [[[[[[c doc] dept] au] target] eid] nr] end.
  minv. match goal with H : plan_approval _ _ _ _ = _ |- _ => apply plan_return in H as (-> & _ & _ & _ & _ & Hdoc & _); [|exact Hka] end.
  match goal with H : write_article _ _ _ _ _ _ = _ |- _ => apply write_article_return in H as [au' ->] end.
  match goal with H : write_records _ _ _ _ _ _ _ _ _ = _ |- _ => unfold write_records in H end. minv.
  cbn [working].
  match goal with H : write_rows _ _ _ _ _ _ _ ?s1 = (Return _, ?s2), N : notify_author _ _ _ ?s2 = (_, ?s3), F : notify_followers _ _ _ _ ?s3 = (_, ?s4) |- _ =>
    assert (E1 : documents (working s4) = documents (working s3)) by
      (eapply frame_run; [|exact F]; unfold notify_followers, add_notification; repeat first [solve [solve_frame]|apply frame_bind; [|intros]|apply frame_for_each; intros|case_match]);
    assert (E2 : documents (working s3) = documents (working s2)) by
      (eapply frame_run; [|exact N]; unfold notify_author, add_notification; repeat first [solve [solve_frame]|case_match]);
    apply rows_documents in H as [Hk' Hc'];
    [unfold connectors_of in *; fold (documents (working s4)); rewrite E1, E2; split; [exact Hk'|exact Hc']|exact Hk|]
  end.
  intros e ->. destruct (d_external_document_id _) as [i|]; [|discriminate Hdoc]. destruct Hdoc as (e' & [= <-] & He & _).
  cbn. by rewrite (Hk i e He).
Qed.

Definition people (db : kbdb) : list user * list department := (t_users db, t_departments db).

Lemma frame_reject_surroundings now u id note : frame (fun db => (people db, documents db, t_articles db)) (reject_draft now u id note).
Proof.
  unfold reject_draft, load_draft, _get_draft_for_user, _transition_draft, update_draft, put_draft, add_transition, log_audit, add_audit,
    add_notification, _ensure_preparation_complete, ensure_own_company.
  repeat first [solve [solve_frame]|apply frame_bind; [|intros]|case_match].
Qed.

Lemma frame_approve_body_people now new_id u d rq : frame people (approve_body now new_id u d rq).
Proof.
  unfold approve_body, write_article, write_records, write_rows, link_document, notify_author, notify_followers, _transition_draft, put_draft,
    put_article, add_version, add_transition, add_audit, add_notification.
  apply frame_bind; [apply frame_readonly, readonly_plan|]. intros.
  repeat first [solve [solve_frame]|apply frame_bind; [|intros]|apply frame_for_each; intros|case_match|apply frame_readonly, readonly_flush_article].
Qed.

Lemma approve_people now new_id u id rq (s s' : session kbdb event) a : approve_draft now new_id u id rq s = (Return a, s') ->
  people (working s') = people (working s).
Proof.
  unfold approve_draft. intros Hr. dinv.
  match goal with x : (article * bool)%type |- _ => destruct x end. minv.
  match goal with H : rollback_on_error ?m ?s1 = _ |- _ =>
    unfold rollback_on_error in H; destruct (m s1) as [[p|e1] s2] eqn:Hb; [|discriminate H] end.
  simplify_eq. cbn [working]. by apply (frame_run people _ _ _ _ (frame_approve_body_people now new_id u _ rq)) in Hb.
Qed.

Lemma surroundings_eq (db db' : kbdb) : people db' = people db -> connectors_of db' = connectors_of db -> surroundings db' = surroundings db.
Proof. unfold people, surroundings. intros [= -> ->] ->. done. Qed.

(** An approval that returns settles its draft and is durable. *)
Lemma approve_settles now new_id u id rq (s s' : session kbdb event) a : approve_draft now new_id u id rq s = (Return a, s') ->
  tables_ok (working s) -> committed s' = working s' /\ exists old new, settled u id "approved" old new (working s) (working s').
Proof.
  intros Hr [Ka Kd Ke]. pose proof (approve_documents _ _ _ _ _ _ _ _ Hr Ka Ke) as [Ke' Hc']. pose proof (approve_people _ _ _ _ _ _ _ _ Hr) as Hp'.
  apply approve_return in Hr as (d & c & doc & dept & au & target & eid & nr & Hr). cbn zeta in Hr.
  destruct Hr as (Hd & _ & Hp & _ & Hc & _ & Hdr & Har & _). apply plan_return in Hp as (_ & Hst & _ & _ & Hmay & _); [|exact Ka].
  pose proof (Kd _ _ Hd) as Hid. split; [exact Hc|]. exists d, (approved_draft now u rq (targeted target d)).
  split; try done.
  - rewrite Hdr, Hid. done.
  - by destruct target.
  - constructor; [| |exact Ke'].
    + unfold keyed_articles. rewrite Har. by apply insert_keyed.
    + unfold keyed_drafts. rewrite Hdr. apply insert_keyed; [by destruct target|exact Kd].
  - by apply surroundings_eq.
Qed.

Lemma reject_settles now u id note (s s' : session kbdb event) r : reject_draft now u id note s = (Return r, s') ->
  tables_ok (working s) -> committed s' = working s' /\ exists old new, settled u id "rejected" old new (working s) (working s').
Proof.
  intros Hr [Ka Kd Ke]. pose proof (frame_run _ _ _ _ _ (frame_reject_surroundings now u id note) Hr) as Hf. cbv beta in Hf.
  injection Hf as Hf1 Hf2 Hf3. unfold reject_draft, add_notification in Hr. dinv. bools. eqs.
  match goal with H : t_drafts _ !! id = Some ?d |- _ => rename H into Hd; pose proof (Kd _ _ Hd) as Hid; rename d into old end.
  split; [done|]. exists old, (old <| d_status := "rejected" |> <| d_reviewed_by := Some (u_id u) |> <| d_reviewed_at := Some now |>
                                <| d_review_note := Some (strip note) |>).
  split; try done.
  - cbn. rewrite insert_insert_eq. by rewrite Hid.
  - split; cbn.
    + exact Ka.
    + unfold keyed_drafts. cbn. rewrite insert_insert_eq. by apply insert_keyed.
    + exact Ke.
Qed.
End Decisions.

(** ** How a database may have moved *)

(** Every draft is as it was, or was one that waited and became something [Q] allows. *)
Definition moved (Q : pending_draft -> pending_draft -> Prop) (db db' : kbdb) : Prop := forall id,
  t_drafts db' !! id = t_drafts db !! id
  \/ exists old new, t_drafts db !! id = Some old /\ d_status old = "pending" /\ t_drafts db' !! id = Some new /\ Q old new.

Record good (Q : pending_draft -> pending_draft -> Prop) (db db' : kbdb) : Prop := {
  gd_ok : tables_ok db';
  gd_surroundings : surroundings db' = surroundings db;
  gd_moved : moved Q db db'
}.

Section Moves.
Context `{KbEnv}.
Variable Q : pending_draft -> pending_draft -> Prop.
Hypothesis Q_decided : forall old new, Q old new -> d_status new <> "pending".
Variable db : kbdb.

Lemma good_start : tables_ok db -> good Q db db.
Proof. intros Hok. split; [done|done|]. intros id. by left. Qed.

Lemma good_users d : good Q db d -> t_users d = t_users db.
Proof. intros [_ Hs _]. by injection Hs. Qed.
Lemma good_connectors d : good Q db d -> connectors_of d = connectors_of db.
Proof. intros [_ Hs _]. by injection Hs. Qed.

(** A draft that waits now waited from the start. *)
Lemma good_waiting d id old : good Q db d -> t_drafts d !! id = Some old -> d_status old = "pending" -> t_drafts db !! id = Some old.
Proof.
  intros [_ _ Hm] Hd Hp. destruct (Hm id) as [He|(o & n & _ & _ & Hn & HQ)]; [congruence|].
  exfalso. apply (Q_decided _ _ HQ). congruence.
Qed.

Lemma good_settled u id status old new d d' : good Q db d -> settled u id status old new d d' -> (t_drafts db !! id = Some old -> Q old new) -> good Q db d'.
Proof.
  intros Hg [Ho Hp _ Hdr _ _ _ Hok' Hs'] HQ. pose proof (good_waiting d id old Hg Ho Hp) as Hdb. destruct Hg as [_ Hs Hm].
  split; [done|congruence|]. intros j. rewrite Hdr. destruct (decide (j = id)) as [->|Hne].
  - right. exists old, new. rewrite lookup_insert_eq. auto.
  - rewrite lookup_insert_ne by done. apply Hm.
Qed.

Lemma keeps_approve now new_id u id rq :
  (forall old new d d', t_drafts db !! id = Some old -> settled u id "approved" old new d d' -> Q old new) ->
  keeps (good Q db) (approve_draft now new_id u id rq).
Proof.
  intros HQ. apply keeps_atomic; [intros s e s'; apply approve_raise|]. intros s a s' Hr Hw _.
  apply approve_settles in Hr as [Hc (old & new & Hs)]; [|apply Hw]. rewrite Hc.
  assert (Hg : good Q db (working s')) by (eapply good_settled; [done|done|]; intros; by eapply HQ). by split.
Qed.

Lemma keeps_reject now u id note :
  (forall old new d d', t_drafts db !! id = Some old -> settled u id "rejected" old new d d' -> Q old new) ->
  keeps (good Q db) (reject_draft now u id note).
Proof.
  intros HQ. apply keeps_atomic; [apply atomic_reject|]. intros s a s' Hr Hw _.
  apply reject_settles in Hr as [Hc (old & new & Hs)]; [|apply Hw]. rewrite Hc.
  assert (Hg : good Q db (working s')) by (eapply good_settled; [done|done|]; intros; by eapply HQ). by split.
Qed.

Lemma keeps_audit a : keeps (good Q db) (add_audit a).
Proof. apply keeps_write. intros d [[Ha Hd He] Hs Hm]. by split. Qed.
End Moves.

(** A user found by id *)
Lemma found_user (db : kbdb) i u : get_user_by_id db i None = Some u -> u ∈ t_users db /\ u_id u = i.
Proof. intros [Hin Hi]%find_some. apply andb_true_iff in Hi as [Hi%Z.eqb_eq _]. split; [by apply list_elem_of_In|done]. Qed.

(** What the sweeps select *)
Lemma selected_waiting company p limit (db : kbdb) d : keyed_drafts db -> d ∈ waiting_drafts company p limit db ->
  t_drafts db !! d_id d = Some d /\ d_company_domain d = company /\ d_status d = "pending" /\ p d = true.
Proof.
  intros Hk Hin. unfold waiting_drafts in Hin.
  assert (Hs : d ∈ stable_sort (fun a b => d_created_at a <=? d_created_at b)
      (List.filter (fun d => String.eqb (d_company_domain d) company && String.eqb (d_status d) "pending" && p d
                             && negb (mem (d_restructure_status d) PREPARING)) (rows (t_drafts db)))).
  { apply list_elem_of_In. apply list_elem_of_In in Hin. revert Hin. rewrite <- (firstn_skipn (Z.to_nat limit) (stable_sort _ _)) at 2.
    intros Hin. apply in_or_app. by left. }
  apply elem_of_stable_sort, elem_of_filter_b in Hs as [Hr Hb]. bools. eqs. split; [|done]. by apply (elem_of_rows d_id).
Qed.

(** ** Publishing without review *)

Section AutoTheorems.
Context `{KbEnv, ReviewSettings}.

Lemma publisher_of company (db : kbdb) name i : publishers company db !! name = Some i ->
  exists x, x ∈ t_departments db /\ opted_out company x = true /\ dp_name x = name /\ dp_auto_publish_by x = Some i.
Proof.
  unfold publishers. intros Hl%elem_of_list_to_map_2. apply list_elem_of_In, in_rev, list_elem_of_In, list_elem_of_omap in Hl as (x & Hx & He).
  exists x. destruct (opted_out company x) eqn:Ho; [|done]. destruct (dp_auto_publish_by x); [|done]. by injection He as -> ->.
Qed.

(** The draft was of a department that publishes without review, was no sensitive one, and the
    Admin who opted the department out, who may decide it and is active, approved it. *)
Definition published_unreviewed (db : kbdb) (company : string) (old new : pending_draft) : Prop :=
  d_company_domain old = company /\ compute_draft_risk_tier old = STANDARD_RISK /\ d_status new = "approved"
  /\ exists dept actor, dept ∈ t_departments db /\ opted_out company dept = true /\ d_dept old = Some (dp_name dept)
       /\ dp_auto_publish_by dept = Some (u_id actor) /\ actor ∈ t_users db /\ u_active actor = true
       /\ _can_approve_draft actor old = true /\ d_reviewed_by new = Some (u_id actor).

Lemma keeps_publish_each now fresh company (db : kbdb) l expired sm :
  (forall d, d ∈ l -> t_drafts db !! d_id d = Some d /\ d_company_domain d = company /\ exists n, d_dept d = Some n) ->
  keeps (good (published_unreviewed db company) db) (publish_each now fresh (publishers company db) expired sm l).
Proof.
  assert (HQ : forall old new, published_unreviewed db company old new -> d_status new <> "pending")
    by (intros old new (_ & _ & -> & _); done).
  revert expired sm. induction l as [|d l IH]; intros expired sm Hl; [by apply keeps_readonly|].
  assert (Hl' : forall e, e ∈ l -> t_drafts db !! d_id e = Some e /\ d_company_domain e = company /\ exists n, d_dept e = Some n)
    by (intros e He; apply Hl; by right).
  specialize (Hl d ltac:(by left)) as (Hd & Hc & n & Hn). cbn [publish_each].
  apply keeps_bind; [apply keeps_readonly; solve_readonly|]. intros _.
  case_bool_decide as Hrisk; [by apply IH|]. rewrite Hn. change (default [] (Some n)) with n.
  apply keeps_query. intros d' Hg. rewrite (option_bind_ext_fun _ (fun i => get_user_by_id db i None)).
  2: { intros i. unfold get_user_by_id. by rewrite (good_users _ _ _ Hg). }
  destruct (publishers company db !! n) as [i|] eqn:Hpub; cbn [mbind option_bind]; cbv beta iota; [|by apply IH].
  destruct (get_user_by_id db i None) as [actor|] eqn:Hact; cbv iota; [|by apply IH]. destruct (u_active actor) eqn:Hactive; [|by apply IH].
  apply found_user in Hact as [Hin <-]. apply publisher_of in Hpub as (x & Hx & Ho & Hxn & Hxa).
  apply keeps_bind.
  - apply keeps_catch_rollback; [|intros; by apply keeps_readonly]. apply keeps_bind; [|intros; by apply keeps_readonly].
    apply keeps_approve; [done|]. intros old new d1 d2 Hold Hs. rewrite Hd in Hold. injection Hold as <-. destruct Hs.
    split; [done|]. split; [by destruct (compute_draft_risk_tier d)|]. split; [done|]. exists x, actor. by subst n.
  - intros [].
    + apply keeps_bind; [apply keeps_audit|]. intros _. apply keeps_bind; [apply keeps_commit|]. intros _. by apply IH.
    + by apply IH.
Qed.

(** C4. However a sweep ends, it has decided only drafts of departments that publish without
    review, none of them restricted, confidential or of a high-risk department, and in the name
    of the Admin who opted the department out, while that account is active and has the
    standing to approve. *)
Theorem auto_publish_within_policy now fresh company limit d s' o :
  tables_ok d -> run_auto_publish now fresh company limit (open_session d) = (o, s') -> moved (published_unreviewed d company) d (committed s').
Proof.
  intros Hok Hr. pose proof (good_start (published_unreviewed d company) d Hok) as Hgood. revert Hr.
  unfold run_auto_publish. rewrite query_bind. case_bool_decide; [intros [= <- <-]; by intros id; left|]. rewrite query_bind. cbn [working open_session].
  intros Hr. eapply gd_moved. refine (proj1 (keeps_run _ _ _ _ _ (keeps_publish_each now fresh company d _ false _ _) Hr Hgood Hgood)).
  intros x Hx. apply selected_waiting in Hx as (Hl & Hc & _ & Hp); [|apply Hok]. split; [done|]. split; [done|]. destruct (d_dept x); [by eexists|done].
Qed.
End AutoTheorems.

(** ** The agent *)

(** The rules a run consults *)
Definition rules_of (table : list approval_rule) (company : string) : list approval_rule :=
  List.filter (fun r => String.eqb (pr_company_domain r) company && pr_active r) table.

Section AgentTheorems.
Context `{KbEnv, ReviewSettings, Reviewer}.
Variable similarity_matches : pending_draft -> list (option float).

Lemma rule_before_total a b : rule_before a b = false -> rule_before b a = true.
Proof.
  unfold rule_before. intros [Hlt Heq]%orb_false_iff. apply Z.ltb_ge in Hlt. apply orb_true_iff.
  destruct (Z.eqb_spec (pr_priority a) (pr_priority b)) as [He|He]; cbn [andb] in Heq.
  - right. rewrite He, Z.eqb_refl. by apply text_leb_total.
  - left. apply Z.ltb_lt. lia.
Qed.

Lemma rule_before_trans a b c : rule_before a b = true -> rule_before b c = true -> rule_before a c = true.
Proof.
  unfold rule_before. rewrite !orb_true_iff, !andb_true_iff, !Z.ltb_lt, !Z.eqb_eq.
  intros [?|[? H1']] [?|[? H2']]; try (left; lia). right. split; [lia|]. by eapply text_leb_trans.
Qed.

(** The rule that governs a draft is in scope, and comes first of those in scope. *)
Lemma selected_rule rules draft connector r : select_rule similarity_matches rules draft connector = Some r ->
  r ∈ rules /\ rule_applies similarity_matches r draft connector = true
  /\ forall r', r' ∈ rules -> rule_applies similarity_matches r' draft connector = true -> rule_before r r' = true.
Proof.
  unfold select_rule. set (l := List.filter _ rules). intros Hh.
  pose proof (stable_sort_sorted rule_before l rule_before_total rule_before_trans) as Hs.
  assert (Hin : forall x, x ∈ stable_sort rule_before l <-> x ∈ rules /\ rule_applies similarity_matches x draft connector = true)
    by (intros x; rewrite elem_of_stable_sort; apply (elem_of_filter_b (fun r => rule_applies similarity_matches r draft connector))).
  destruct (stable_sort rule_before l) as [|x l'] eqn:He; [done|]. injection Hh as ->.
  destruct (proj1 (Hin r) ltac:(by left)) as [Hr Ha]. split; [done|]. split; [done|]. intros r' Hr' Ha'.
  apply StronglySorted_inv in Hs as [_ Hf]. rewrite Forall_forall in Hf.
  pose proof (proj2 (Hin r') (conj Hr' Ha')) as Hin'. apply elem_of_cons in Hin' as [->|Ht]; [|by apply Hf].
  unfold rule_before. rewrite Z.eqb_refl. cbn [andb]. apply orb_true_iff. right.
  destruct (text_leb (show_uuid (pr_id r)) (show_uuid (pr_id r))) eqn:Ht; [done|]. pose proof (text_leb_total _ _ Ht). congruence.
Qed.

(** A verdict that acts is that of the governing rule, which grants the authority. *)
Lemma decided_by_rule draft rules connector : let v := decide_draft similarity_matches draft rules connector in
  acted v = true ->
  exists rule, select_rule similarity_matches rules draft connector = Some rule /\ vd_rule v = Some (pr_id rule, pr_name rule, pr_version rule)
    /\ (vd_action v = APPROVE /\ pr_can_approve rule = true \/ vd_action v = REJECT /\ pr_can_reject rule = true)
    /\ exists reply, complete (_prompt rule draft) = Reply reply /\ option_map fst (parse_decision reply) = Some (Some (vd_action v)).
Proof.
  cbv zeta. unfold decide_draft. destruct (mem _ _); [done|]. destruct (select_rule _ _ _ _) as [rule|]; [|done].
  destruct (negb _); [done|]. destruct (complete _) as [| |reply] eqn:Hc; [done|done|].
  destruct (parse_decision reply) as [[[[]|] reason]|] eqn:Hp; try done.
  - destruct (pr_can_approve rule) eqn:Ha; [|done]. intros _. exists rule. rewrite Hc. split_and!; try done; [by left|]. exists reply. by rewrite Hp.
  - destruct (pr_can_reject rule) eqn:Ha; [|done]. intros _. exists rule. rewrite Hc. split_and!; try done; [by right|]. exists reply. by rewrite Hp.
Qed.

(** The draft was in the scope of an active rule of its company, the first of those in whose
    scope it was; the rule may do what was done, the model answered so, and it was done as the
    author of the rule, whose account is active and who may decide the draft. *)
Definition decided_by_agent (table : list approval_rule) (company : string) (db : kbdb) (old new : pending_draft) : Prop :=
  let connector := _connector_for_draft db old in
  exists rule author reply, rule ∈ rules_of table company /\ rule_applies similarity_matches rule old connector = true
    /\ (forall r, r ∈ rules_of table company -> rule_applies similarity_matches r old connector = true -> pr_priority rule <= pr_priority r)
    /\ pr_created_by rule = Some (u_id author) /\ author ∈ t_users db /\ u_active author = true
    /\ _can_approve_draft author old = true /\ d_reviewed_by new = Some (u_id author)
    /\ complete (_prompt rule old) = Reply reply
    /\ (d_status new = "approved" /\ pr_can_approve rule = true /\ option_map fst (parse_decision reply) = Some (Some APPROVE)
        \/ d_status new = "rejected" /\ pr_can_reject rule = true /\ option_map fst (parse_decision reply) = Some (Some REJECT)).

Lemma agent_decided table company db old new : decided_by_agent table company db old new -> d_status new <> "pending".
Proof. intros (? & ? & ? & _ & _ & _ & _ & _ & _ & _ & _ & _ & [[-> _]|[-> _]]); done. Qed.

Lemma connector_same (db db' : kbdb) d : connectors_of db' = connectors_of db -> _connector_for_draft db' d = _connector_for_draft db d.
Proof.
  intros Hc. unfold _connector_for_draft. destruct (d_external_document_id d) as [e|]; [|done]. cbn.
  change (ed_connector_id <$> t_external_documents db' !! e = ed_connector_id <$> t_external_documents db !! e).
  rewrite <- !lookup_fmap. unfold connectors_of in Hc. by rewrite Hc.
Qed.

Lemma keeps_decide_one now fresh table company (db : kbdb) d dry_run :
  NoDup (map pr_id table) -> t_drafts db !! d_id d = Some d ->
  keeps (good (decided_by_agent table company db) db) (decide_one now fresh similarity_matches (rules_of table company) dry_run d).
Proof.
  intros Hnd Hd. unfold decide_one. apply keeps_query. intros d' Hg. rewrite (connector_same db d' d) by (by eapply good_connectors).
  apply keeps_bind; [|intros; apply keeps_bind; [apply keeps_audit|intros; by apply keeps_readonly]].
  destruct (acted _ && negb dry_run) eqn:Hact; [|by apply keeps_readonly]. apply andb_true_iff in Hact as [Hact _].
  apply keeps_catch_rollback; [|intros; apply keeps_raise].
  apply decided_by_rule in Hact as (rule & Hsel & Hv & Hmay & reply & Hask & Hparse). rewrite Hv. cbn [fmap option_fmap option_map fst].
  apply selected_rule in Hsel as (Hin & Happ & Hfirst).
  assert (Hfind : List.find (fun r => bool_decide (Some (pr_id r) = Some (pr_id rule))) (rules_of table company) = Some rule).
  { destruct (List.find _ _) as [r|] eqn:Hf.
    - apply find_some in Hf as [Hr He%bool_decide_eq_true]. f_equal. apply (NoDup_map_eq pr_id (rules_of table company)).
      + by apply NoDup_filter_map.
      + by apply list_elem_of_In.
      + done.
      + congruence.
    - eapply find_none in Hf; [|by apply list_elem_of_In]. cbn in Hf. by rewrite bool_decide_true in Hf. }
  assert (Hpriority : forall r, r ∈ rules_of table company -> rule_applies similarity_matches r d (_connector_for_draft db d) = true -> pr_priority rule <= pr_priority r).
  { intros r Hr Ha. specialize (Hfirst r Hr Ha). unfold rule_before in Hfirst. apply orb_true_iff in Hfirst as [?%Z.ltb_lt|[?%Z.eqb_eq _]%andb_true_iff]; lia. }
  rewrite Hfind. unfold _apply. destruct (_ || _); [by apply keeps_readonly|].
  change (keeps (good (decided_by_agent table company db) db) (match pr_created_by rule with
    | None => mret (false, $"The rule has no author to act as.")
    | Some created_by => author ← query (fun db0 => get_user_by_id db0 created_by None);
        match author with
        | Some author => if u_active author then
            let note := $"Approval agent, rule '" ++ pr_name rule ++ $"': " ++ vd_reason (decide_draft similarity_matches d (rules_of table company) (_connector_for_draft db d)) in
            match vd_action (decide_draft similarity_matches d (rules_of table company) (_connector_for_draft db d)) with
            | APPROVE => approve_draft now (fresh (d_id d)) author (d_id d) (bare_request None) ;; mret (true, note)
            | _ => reject_draft now author (d_id d) note ;; mret (true, note)
            end
          else mret (false, $"The rule's author no longer has an active account.")
        | None => mret (false, $"The rule's author no longer has an active account.")
        end
    end)).
  destruct (pr_created_by rule) as [by_|] eqn:Hby; [|by apply keeps_readonly].
  apply keeps_query. intros d'' Hg'. destruct (get_user_by_id d'' by_ None) as [author|] eqn:Hauthor; [|by apply keeps_readonly].
  apply found_user in Hauthor as [Hau <-]. rewrite (good_users _ _ _ Hg') in Hau.
  destruct (u_active author) eqn:Hactive; [|by apply keeps_readonly]. cbv zeta.
  destruct Hmay as [[Ha Hc]|[Ha Hc]]; rewrite Ha in *; (apply keeps_bind; [|intros; by apply keeps_readonly]).
  - apply keeps_approve; [apply agent_decided|]. intros old new d1 d2 Hold Hs. rewrite Hd in Hold. injection Hold as <-. destruct Hs.
    exists rule, author, reply. split_and!; try done. by left.
  - apply keeps_reject; [apply agent_decided|]. intros old new d1 d2 Hold Hs. rewrite Hd in Hold. injection Hold as <-. destruct Hs.
    exists rule, author, reply. split_and!; try done. by right.
Qed.

(** C3. However a run of the agent ends, every draft it decided was in the scope of an active rule
    of the company, the first in priority; that rule grants the approval or the rejection, the
    model answered so, and it was made as the rule's author, active and with the standing to
    decide that draft. *)
Theorem agent_acts_within_rules now fresh table company limit dry_run d o s' :
  tables_ok d -> NoDup (map pr_id table) ->
  run_agent now fresh similarity_matches table company limit dry_run (open_session d) = (o, s') ->
  moved (decided_by_agent table company d) d (committed s').
Proof.
  intros Hok Hnd Hr. pose proof (good_start (decided_by_agent table company d) d Hok) as Hgood. revert Hr.
  assert (Hsame : moved (decided_by_agent table company d) d d) by (intros id; by left).
  unfold run_agent. destruct (negb _); [by intros [= <- <-]|]. fold (rules_of table company).
  destruct (rules_of table company) as [|r rs] eqn:He; [by intros [= <- <-]|]. rewrite <- He. rewrite query_bind. cbn [working open_session].
  intros Hr. eapply gd_moved. refine (proj1 (keeps_run _ _ _ _ _ _ Hr Hgood Hgood)).
  apply keeps_bind; [|intros; apply keeps_bind; [apply keeps_commit|intros; by apply keeps_readonly]].
  apply keeps_traverse. intros x Hx. apply selected_waiting in Hx as (Hl & _); [|apply Hok]. by apply keeps_decide_one.
Qed.
End AgentTheorems.

(** ** A dry run *)

Definition agent_audit (r : agent_result) : audit_log := mkAudit None "approval_agent_decision" "draft" (Some (ar_draft_id r)).

Section DryRun.
Context `{KbEnv, ReviewSettings, Reviewer}.
Variables (now : datetime) (fresh : uuid -> uuid).
Variable similarity_matches : pending_draft -> list (option float).

Lemma dry_one rules d (s : session kbdb event) : exists v,
  decide_one now fresh similarity_matches rules true d s
  = (Return (mkAgentResult (d_id d) v false (upto 500 (vd_reason v))),
     Session (committed s) ((working s) <| t_audits := t_audits (working s) ++ [mkAudit None "approval_agent_decision" "draft" (Some (d_id d))] |>) (published s)).
Proof. eexists. unfold decide_one. rewrite query_bind. cbv zeta. change (negb true) with false. rewrite andb_false_r. reflexivity. Qed.

Lemma dry_traverse rules l (s : session kbdb event) : exists results,
  traverse l (decide_one now fresh similarity_matches rules true) s
  = (Return results, Session (committed s) ((working s) <| t_audits := t_audits (working s) ++ map agent_audit results |>) (published s))
  /\ map ar_draft_id results = map d_id l /\ Forall (fun r => ar_applied r = false) results.
Proof.
  revert s. induction l as [|d l IH]; intros s.
  - exists []. cbn. rewrite app_nil_r. split; [|by split]. by destruct s as [? [] ?].
  - cbn [traverse]. destruct (dry_one rules d s) as [v Hv].
    destruct (IH (Session (committed s) ((working s) <| t_audits := t_audits (working s) ++ [mkAudit None "approval_agent_decision" "draft" (Some (d_id d))] |>) (published s)))
      as (results & Hr & Hids & Hall).
    exists (mkAgentResult (d_id d) v false (upto 500 (vd_reason v)) :: results). split.
    + unfold mbind, M_bind. rewrite Hv, Hr. cbn. rewrite <- app_assoc. reflexivity.
    + cbn. rewrite Hids. split; [done|]. by constructor.
Qed.

(** A dry run always returns and changes nothing but the audit log, which says for each draft
    it looked at that nothing was applied. *)
Theorem dry_run_only_reports table company limit d : exists results s',
  run_agent now fresh similarity_matches table company limit true (open_session d) = (Return results, s')
  /\ published s' = [] /\ Forall (fun r => ar_applied r = false) results
  /\ committed s' = d <| t_audits := t_audits d ++ map agent_audit results |>.
Proof.
  assert (Hnone : d <| t_audits := t_audits d ++ map agent_audit [] |> = d) by (cbn; rewrite app_nil_r; by destruct d).
  unfold run_agent. destruct (negb _); [exists [], (open_session d); by rewrite Hnone|].
  destruct (List.filter _ table) as [|r rs]; [exists [], (open_session d); by rewrite Hnone|].
  rewrite query_bind. cbn [working open_session].
  destruct (dry_traverse (r :: rs) (waiting_drafts company (fun _ => true) (batch_limit limit) d) (open_session d)) as (results & Hr & _ & Hall).
  eexists results, _. unfold mbind at 1, M_bind at 1. rewrite Hr. split; [reflexivity|]. done.
Qed.
End DryRun.

(** ** One refusal ends a sweep *)

Section Refusal.
Context `{KbEnv, ReviewSettings}.

(** When the checks of an approval refuse the first draft of a sweep and another waits behind
    it, the sweep raises and nothing is published; as the refused draft stays first in the
    queue, so does every later sweep of the same queue. *)
Theorem refusal_holds_up_the_queue now fresh company limit d x y l i actor e s1 :
  waiting_drafts company (fun z => match d_dept z with Some n => bool_decide (is_Some (publishers company d !! n)) | None => false end)
    (batch_limit limit) d = x :: y :: l ->
  compute_draft_risk_tier x = STANDARD_RISK -> publishers company d !! default [] (d_dept x) = Some i ->
  get_user_by_id d i None = Some actor -> u_active actor = true ->
  approve_draft now (fresh (d_id x)) actor (d_id x) (bare_request (Some (NOTE (default [] (d_dept x))))) (open_session d) = (Raise e, s1) ->
  run_auto_publish now fresh company limit (open_session d) = (Raise MissingGreenlet, Session d d []).
Proof.
  intros Hw Hrisk Hpub Hact Hactive Happ. unfold run_auto_publish. rewrite query_bind. cbn [working open_session].
  rewrite bool_decide_false by (intros He; by rewrite He, lookup_empty in Hpub).
  rewrite query_bind. cbn [working open_session]. rewrite Hw. cbn [publish_each]. rewrite Hrisk.
  rewrite bool_decide_false by done. cbn [negb]. unfold ensure.
  pose proof (approve_raise _ _ _ _ _ _ _ _ Happ) as [Hc Hp].
  unfold mbind at 1, M_bind at 1. cbn [mret M_ret]. rewrite query_bind. cbn [working open_session]. rewrite Hpub. cbn [mbind option_bind]. rewrite Hact, Hactive.
  unfold catch, mbind, M_bind. rewrite Happ. cbn. by rewrite Hc, Hp.
Qed.
End Refusal.

(** ** The document stays inside its envelope *)

(** No tag, opening or closing, starts anywhere in the text. *)
Definition tagless (s : pystr) : Prop := forall pre suf, s = pre ++ suf -> tag_here suf = false.
Definition visible_text (s : pystr) : pystr := List.filter (fun c => negb (c =? 8203)) s.

Lemma tag_at_bracket s : tag_here s = true -> exists s', s = 60 :: s'.
Proof. destruct s as [|c [|d s]]; [done|done|]. intros [->%Z.eqb_eq _]%andb_true_iff. by eexists. Qed.

Lemma tag_here_fence s : tag_here (fence_text s) = false.
Proof.
  destruct s as [|c s]; [done|]. cbn [fence_text]. destruct (tag_here (c :: s)) eqn:Ht; [done|].
  destruct s as [|d s]; [done|]. cbn [tag_here] in Ht. cbn [fence_text]. destruct (tag_here (d :: s)) eqn:Ht2.
  - cbn. by rewrite andb_false_r.
  - destruct s as [|e s]; [exact Ht|]. cbn [fence_text]. destruct (tag_here (e :: s)); [|exact Ht].
    cbn [tag_here]. rewrite andb_false_r, orb_false_r. apply andb_false_iff in Ht as [->|[Ht _]%orb_false_iff]; [done|]. rewrite Ht. by rewrite andb_false_r.
Qed.

Lemma fence_tagless s : tagless (fence_text s).
Proof.
  induction s as [|c s IH]; intros pre suf He; [symmetry in He; by apply app_eq_nil in He as [-> ->]|].
  destruct pre as [|p pre]; [cbn [app] in He; rewrite <- He; apply tag_here_fence|].
  cbn [fence_text] in He. destruct (tag_here (c :: s)).
  - destruct pre as [|q pre]; cbn [app] in He.
    + injection He as <- <-. cbn. by destruct (fence_text s).
    + injection He as <- <- He. by apply (IH pre).
  - injection He as <- He. by apply (IH pre).
Qed.

Lemma fence_visible s : visible_text (fence_text s) = visible_text s.
Proof.
  induction s as [|c s IH]; [done|]. cbn [fence_text]. destruct (tag_here (c :: s)) eqn:Ht; unfold visible_text in *; cbn [List.filter]; [|by rewrite IH].
  apply tag_at_bracket in Ht as [s' [= -> ->]]. cbn. by rewrite IH.
Qed.


(** ** The versions of a rule *)

Definition versions_of (d : rulesdb) (i : uuid) : list approval_rule :=
  List.filter (fun r => Z.eqb (pr_id r) i) (map rv_rule (t_rule_versions d)).

(** Every rule has its versions 1..n, the last one what it is now; no version is without a rule. *)
Record history_ok (d : rulesdb) : Prop := {
  ho_keyed : keyed pr_id (t_approval_rules d);
  ho_numbers : forall i r, t_approval_rules d !! i = Some r -> 1 <= pr_version r /\ map pr_version (versions_of d i) = seqZ 1 (pr_version r);
  ho_newest : forall i r, t_approval_rules d !! i = Some r -> last (versions_of d i) = Some r;
  ho_orphans : forall i, t_approval_rules d !! i = None -> versions_of d i = []
}.

Section RuleHistory.
Context `{KbEnv}.

(** The calls, with the id the database draws *)
Inductive rule_call (d : rulesdb) : rulesdb -> Prop :=
  | rc_create i payload u r s' : t_approval_rules d !! i = None -> create_approval_rule i payload u (open_session d) = (r, s') -> rule_call d (committed s')
  | rc_update i payload u r s' : update_approval_rule i payload u (open_session d) = (r, s') -> rule_call d (committed s')
  | rc_delete i u r s' : delete_approval_rule i u (open_session d) = (r, s') -> rule_call d (committed s').

Inductive rules_reachable : rulesdb -> Prop :=
  | rr_empty : rules_reachable (mkRulesDb ∅ [] [])
  | rr_call d d' : rules_reachable d -> rule_call d d' -> rules_reachable d'.

Lemma set_rule_fields payload r : pr_id (set_rule payload r) = pr_id r /\ pr_version (set_rule payload r) = pr_version r
  /\ pr_company_domain (set_rule payload r) = pr_company_domain r.
Proof. done. Qed.

Lemma filter_snoc {A} (p : A -> bool) l x : List.filter p (l ++ [x]) = List.filter p l ++ (if p x then [x] else []).
Proof. rewrite List.filter_app. cbn. by destruct (p x). Qed.

(** Storing a rule with its next version *)
Lemma store_history d d' (r : approval_rule) u :
  history_ok d -> t_approval_rules d' = <[pr_id r := r]> (t_approval_rules d) -> t_rule_versions d' = t_rule_versions d ++ [mkRuleVersion r u] ->
  pr_version r = match t_approval_rules d !! pr_id r with Some before => pr_version before + 1 | None => 1 end ->
  history_ok d'.
Proof.
  intros [Hk Hnum Hnew Horph] Hr Hv Hver.
  assert (Hvs : forall i, versions_of d' i = versions_of d i ++ (if Z.eqb (pr_id r) i then [r] else [])).
  { intros i. unfold versions_of. rewrite Hv, map_app. cbn [map rv_rule]. apply (filter_snoc (fun x => Z.eqb (pr_id x) i)). }
  assert (Hnumbers : 1 <= pr_version r /\ map pr_version (versions_of d (pr_id r) ++ [r]) = seqZ 1 (pr_version r)).
  { rewrite map_app. cbn [map]. destruct (t_approval_rules d !! pr_id r) as [before|] eqn:Hb.
    - destruct (Hnum _ _ Hb) as [Hpos ->]. split; [lia|]. rewrite Hver, seqZ_app by lia. f_equal. rewrite Z.add_comm. unfold seqZ. change (Z.to_nat 1) with 1%nat. reflexivity.
    - rewrite (Horph _ Hb), Hver. split; [lia|]. done. }
  split.
  - rewrite Hr. by apply insert_keyed.
  - intros i x. rewrite Hr, Hvs. intros [[<- <-]|[Hne Hx]]%lookup_insert_Some; [by rewrite Z.eqb_refl|].
    rewrite (proj2 (Z.eqb_neq _ _) Hne), app_nil_r. by apply Hnum.
  - intros i x. rewrite Hr, Hvs. intros [[<- <-]|[Hne Hx]]%lookup_insert_Some; [rewrite Z.eqb_refl; apply last_snoc|].
    rewrite (proj2 (Z.eqb_neq _ _) Hne), app_nil_r. by apply Hnew.
  - intros i. rewrite Hr, Hvs. intros [Hx Hne]%lookup_insert_None. rewrite (proj2 (Z.eqb_neq _ _) Hne), app_nil_r. by apply Horph.
Qed.

Lemma drop_history d d' i :
  history_ok d -> t_approval_rules d' = delete i (t_approval_rules d) ->
  t_rule_versions d' = List.filter (fun v => negb (Z.eqb (pr_id (rv_rule v)) i)) (t_rule_versions d) -> history_ok d'.
Proof.
  intros [Hk Hnum Hnew Horph] Hr Hv.
  assert (Hvs : forall j, versions_of d' j = if Z.eqb i j then [] else versions_of d j).
  { intros j. unfold versions_of. rewrite Hv. clear Hv Hnum Hnew Horph. induction (t_rule_versions d) as [|v l IH]; cbn; [by destruct (Z.eqb i j)|].
    destruct (Z.eqb_spec (pr_id (rv_rule v)) i) as [He|He]; cbn; rewrite IH.
    - destruct (Z.eqb_spec i j) as [->|Hij]; [done|]. rewrite (proj2 (Z.eqb_neq (pr_id (rv_rule v)) j)) by congruence. done.
    - destruct (Z.eqb_spec (pr_id (rv_rule v)) j) as [Hj|Hj]; [|done]. rewrite (proj2 (Z.eqb_neq i j)) by congruence. done. }
  split.
  - rewrite Hr. intros j x [_ Hx]%lookup_delete_Some. by apply Hk.
  - intros j x. rewrite Hr, Hvs. intros [Hne Hx]%lookup_delete_Some. rewrite (proj2 (Z.eqb_neq _ _) Hne). by apply Hnum.
  - intros j x. rewrite Hr, Hvs. intros [Hne Hx]%lookup_delete_Some. rewrite (proj2 (Z.eqb_neq _ _) Hne). by apply Hnew.
  - intros j. rewrite Hr, Hvs. intros [->|Hx]%lookup_delete_None; [by rewrite Z.eqb_refl|]. destruct (Z.eqb i j); [done|by apply Horph].
Qed.

Lemma own_rule_return i u (s s' : session rulesdb Empty_set) r : own_rule i u s = (Return r, s') ->
  s' = s /\ t_approval_rules (working s) !! i = Some r /\ pr_company_domain r = u_company_domain u.
Proof. unfold own_rule. intros Hr. minv. eqs. done. Qed.

Lemma readonly_own_rule i u : readonly (own_rule i u).
Proof. unfold own_rule. solve_readonly. Qed.

Lemma call_keeps_history d d' : rule_call d d' -> history_ok d -> history_ok d'.
Proof.
  intros [i payload u r s' Hfree Hr|i payload u r s' Hr|i u r s' Hr] Hok.
  - assert (s' = (create_approval_rule i payload u (open_session d)).2) as -> by (by rewrite Hr).
    apply (store_history d _ (new_rule i payload u) (Some (u_id u))); [exact Hok|reflexivity|reflexivity|].
    change (pr_id (new_rule i payload u)) with i. by rewrite Hfree.
  - unfold update_approval_rule in Hr. destruct r as [r|e].
    + apply bind_return in Hr as (rule & s1 & Ho & Hr). apply own_rule_return in Ho as (-> & Hl & _). cbv zeta in Hr.
      unfold put_rule, _snapshot_rule_version, audit_rule in Hr. minv. cbn [committed working open_session] in *.
      apply (store_history d _ ((set_rule payload rule) <| pr_version := pr_version rule + 1 |>) (Some (u_id u))); [exact Hok|reflexivity|reflexivity|].
      change (pr_id ((set_rule payload rule) <| pr_version := pr_version rule + 1 |>)) with (pr_id rule).
      by rewrite (ho_keyed d Hok _ _ Hl), Hl.
    + apply bind_raise in Hr as [Ho|(rule & s1 & Ho & Hr)].
      * pose proof (readonly_own_rule i u (open_session d)) as Hs. rewrite Ho in Hs. cbn in Hs. by subst s'.
      * discriminate Hr.
  - unfold delete_approval_rule in Hr. destruct r as [r|e].
    + apply bind_return in Hr as (rule & s1 & Ho & Hr). apply own_rule_return in Ho as (-> & Hl & _).
      apply (drop_history d _ (pr_id rule)); [exact Hok|..]; unfold audit_rule in Hr; minv; reflexivity.
    + apply bind_raise in Hr as [Ho|(rule & s1 & Ho & Hr)].
      * pose proof (readonly_own_rule i u (open_session d)) as Hs. rewrite Ho in Hs. cbn in Hs. by subst s'.
      * discriminate Hr.
Qed.

Lemma reachable_history d : rules_reachable d -> history_ok d.
Proof.
  induction 1 as [|d d' _ IH Hc]; [|exact (call_keeps_history d d' Hc IH)].
  split; cbn; try by intros ? ? ?%lookup_empty_Some. done.
Qed.

(** C13. A decision recorded with a rule and its version stays attributable as long as the rule
    exists: in every reachable table the versions of a rule are numbered 1..n, one snapshot
    each, and the newest is the rule as it stands. *)
Theorem rule_versions_complete d i r : rules_reachable d -> t_approval_rules d !! i = Some r ->
  map pr_version (versions_of d i) = seqZ 1 (pr_version r) /\ last (versions_of d i) = Some r.
Proof.
  intros Hreach Hl. pose proof (reachable_history d Hreach) as Hok.
  split; [by apply (ho_numbers d Hok)|by apply (ho_newest d Hok)].
Qed.
End RuleHistory.

(** ** A batch *)

Section BulkTheorems.
Context `{KbEnv}.
Variables (now : datetime) (fresh : uuid -> uuid).

Lemma readonly_load_draft u id : readonly (load_draft u id).
Proof. unfold load_draft, _get_draft_for_user. solve_readonly. Qed.

Lemma approve_refused new_id u id rq (s s' : session kbdb event) e : committed s = working s ->
  approve_draft now new_id u id rq s = (Raise e, s') -> s' = s.
Proof.
  intros Hc Hr. pose proof (approve_raise _ _ _ _ _ _ _ _ Hr) as [Hcs Hps].
  assert (Hw : working s' = committed s').
  { unfold approve_draft in Hr. apply bind_raise in Hr as [Hl|(d & s1 & Hl & Hr)].
    - pose proof (readonly_load_draft u id s) as Hs. rewrite Hl in Hs. cbn in Hs. by subst s'.
    - apply load_draft_return in Hl as (-> & _). unfold rollback_on_error in Hr. unfold mbind at 1, M_bind at 1 in Hr.
      destruct (approve_body now new_id u d rq s) as [[[a b]|e1] s2] eqn:Hb; [|by injection Hr as _ <-].
      apply approve_body_return in Hb as (? & ? & ? & ? & ? & ? & ? & _ & _ & _ & Hcw & _ & _ & Ha & _).
      exfalso. rewrite query_bind, Ha, lookup_insert_eq in Hr. discriminate Hr. }
  destruct s, s'; cbn in *. congruence.
Qed.

Lemma reject_refused u id note (s s' : session kbdb event) e : reject_draft now u id note s = (Raise e, s') -> s' = s.
Proof.
  unfold reject_draft. intros Hr. apply bind_raise in Hr as [Hl|(d & s1 & Hl & Hr)].
  { pose proof (readonly_load_draft u id s) as Hs. by rewrite Hl in Hs. }
  apply load_draft_return in Hl as (-> & _).
  repeat match goal with Hr : (ensure ?b ?x ≫= _) ?s0 = (Raise _, _) |- _ =>
    apply bind_raise in Hr as [Hr|(? & ? & Hn & Hr)]; [unfold ensure in Hr; destruct b; [discriminate Hr|by injection Hr as _ <-]|apply ensure_return in Hn as [_ ->]]
  | Hr : (_ensure_preparation_complete _ ≫= _) _ = _ |- _ => unfold _ensure_preparation_complete in Hr
  | Hr : (ensure_own_company _ _ ≫= _) _ = _ |- _ => unfold ensure_own_company in Hr
  end.
  apply bind_raise in Hr as [Ht|(? & ? & _ & Hr)]; [|discriminate Hr].
  unfold _transition_draft in Ht. apply bind_raise in Ht as [Ht|(? & ? & _ & Ht)]; [|discriminate Ht].
  unfold ensure in Ht. destruct (mem _ _); [discriminate Ht|by injection Ht as _ <-].
Qed.

Lemma decide_bulk_refused req u id (s s' : session kbdb event) e : committed s = working s -> decide_bulk now fresh req u id s = (Raise e, s') -> s' = s.
Proof.
  unfold decide_bulk. intros Hc Hr. destruct (bk_approve req); apply bind_raise in Hr as [Hr|(? & ? & _ & Hr)]; try discriminate Hr.
  - by eapply approve_refused.
  - by eapply reject_refused.
Qed.

(** The status a batch gives *)
Definition bulk_status (req : bulk_request) : string := if bk_approve req then "approved" else "rejected".

Lemma decide_bulk_settles req u id (s s' : session kbdb event) x : tables_ok (working s) -> decide_bulk now fresh req u id s = (Return x, s') ->
  committed s' = working s' /\ exists old new, settled u id (bulk_status req) old new (working s) (working s').
Proof.
  unfold decide_bulk, bulk_status. intros Hok Hr. destruct (bk_approve req); minv.
  - by eapply approve_settles.
  - by eapply reject_settles.
Qed.

(** [id] waited and has now been given the status of the batch in the name of [actor_id]. *)
Definition decided_in (req : bulk_request) (actor_id : uuid) (db db' : kbdb) (id : uuid) : Prop :=
  exists old new, t_drafts db !! id = Some old /\ d_status old = "pending" /\ t_drafts db' !! id = Some new
    /\ d_status new = bulk_status req /\ d_reviewed_by new = Some actor_id.

(** What a loop over [ids] adds to the report *)
Record batch_done (req : bulk_request) (actor_id : uuid) (ids decided : list uuid) (blocked : list (uuid * Z)) (db db' : kbdb) : Prop := {
  bd_ok : tables_ok db';
  bd_users : t_users db' = t_users db;
  bd_decided : forall id, id ∈ decided -> id ∈ ids /\ decided_in req actor_id db db' id;
  bd_others : forall id, id ∉ decided -> t_drafts db' !! id = t_drafts db !! id;
  bd_all : is_Some (get_user_by_id db actor_id None) -> decided ++ map fst blocked ≡ₚ ids
}.

Lemma bulk_loop req actor_id ids : NoDup ids -> forall u report (s : session kbdb event),
  committed s = working s -> tables_ok (working s) -> u_id u = actor_id ->
  exists decided blocked s', bulk_each now fresh req actor_id u report ids s
    = (Return (mkBulkReport (br_decided report ++ decided) (br_blocked report ++ blocked)), s')
    /\ committed s' = working s' /\ batch_done req actor_id ids decided blocked (working s) (working s').
Proof.
  induction 1 as [|id ids Hnot Hnd IH]; intros u report s Hc Hok Hu.
  { exists [], [], s. rewrite !app_nil_r. split; [by destruct report|]. split; [done|]. split; try done. by intros ? ?%elem_of_nil. }
  cbn [bulk_each]. unfold catch, mbind, M_bind, mret, M_ret.
  destruct (decide_bulk now fresh req u id s) as [[x|e] s1] eqn:Hr.
  - apply decide_bulk_settles in Hr as [Hc1 (old & new & Hs)]; [|done].
    destruct (IH u (report <| br_decided := br_decided report ++ [id] |>) s1 Hc1 (se_ok _ _ _ _ _ _ _ Hs) Hu) as (dec & blk & s' & Hr & Hc' & Hb).
    exists (id :: dec), blk, s'. split; [rewrite Hr; cbn; by rewrite <- app_assoc|]. split; [done|].
    destruct Hs as [Ho Hp _ Hdr _ Hst Hrev _ Hsur], Hb as [Bok Bu Bd Bo Ba]. injection Hsur as Hus _ _.
    assert (Hid : id ∉ dec) by (intros Hin; by apply Bd in Hin as [Hin _]).
    split; [done|by rewrite Bu| | |].
    + intros j [->|Hj]%elem_of_cons.
      * split; [by left|]. exists old, new. rewrite Bo, Hdr, lookup_insert_eq by done. by rewrite Hrev, Hu.
      * apply Bd in Hj as [Hj (o & n & Hj1 & Hj2 & Hj3)]. split; [by right|]. exists o, n. rewrite Hdr, lookup_insert_ne in Hj1 by (intros <-; done). done.
    + intros j Hj. apply not_elem_of_cons in Hj as [Hne Hj]. rewrite Bo by done. by rewrite Hdr, lookup_insert_ne.
    + intros Ha. cbn. constructor. apply Ba. unfold get_user_by_id in *. by rewrite Hus.
  - apply decide_bulk_refused in Hr as ->; [|done]. unfold query. cbn [fst snd].
    destruct (get_user_by_id (working s) actor_id None) as [v|] eqn:Hv.
    + destruct (IH v (report <| br_blocked := br_blocked report ++ [(id, status_code e)] |>) s Hc Hok) as (dec & blk & s' & Hr & Hc' & Hb);
        [by apply found_user in Hv as [_ ?]|].
      exists dec, ((id, status_code e) :: blk), s'. split; [rewrite Hr; cbn; by rewrite <- app_assoc|]. split; [done|].
      destruct Hb as [Bok Bu Bd Bo Ba]. split; try done.
      * intros j Hj. destruct (Bd j Hj) as [Hj' ?]. split; [by right|done].
      * intros Ha. cbn. rewrite <- Permutation_middle. constructor. by apply Ba.
    + exists [], [(id, status_code e)], s. rewrite app_nil_r. split; [done|]. split; [done|]. split; try done.
      * by intros ? ?%elem_of_nil.
      * rewrite Hv. by intros [? [=]].
Qed.

(** C5. A batch always reports: every draft named once, as decided or as blocked, however many of
    them are refused. The decided ones waited and now carry the decision in the name of the
    reviewer; every other draft is untouched. *)
Theorem bulk_reports_every_draft req u d : tables_ok d -> (bk_approve req = true \/ strip (default [] (bk_review_note req)) <> []) ->
  is_Some (get_user_by_id d (u_id u) None) ->
  exists report s', bulk_decide_drafts now fresh req u (open_session d) = (Return report, s')
    /\ br_decided report ++ map fst (br_blocked report) ≡ₚ dedup (bk_draft_ids req)
    /\ (forall id, id ∈ br_decided report -> decided_in req (u_id u) d (committed s') id)
    /\ (forall id, id ∉ br_decided report -> t_drafts (committed s') !! id = t_drafts d !! id).
Proof.
  intros Hok Hnote Hu.
  destruct (bulk_loop req (u_id u) (dedup (bk_draft_ids req)) (NoDup_dedup _) u (mkBulkReport [] []) (open_session d) eq_refl Hok eq_refl)
    as (dec & blk & s1 & Hr & Hc & [Bok Bu Bd Bo Ba]).
  assert (Hb : bk_approve req || truthy (strip (default [] (bk_review_note req))) = true).
  { destruct Hnote as [->|Hn]; [done|]. destruct (strip _); [done|]. by rewrite orb_true_r. }
  unfold bulk_decide_drafts. rewrite Hb. cbn [ensure]. unfold mbind at 1, M_bind at 1. cbn [mret M_ret]. unfold mbind at 1, M_bind at 1.
  rewrite Hr. eexists _, _. split; [reflexivity|]. cbn. split; [by apply Ba|]. split; [|exact Bo]. intros id Hid. by apply Bd.
Qed.
End BulkTheorems.

(** ** A concrete queue *)

#[local] Existing Instance demo_env.
#[local] Instance review_settings : ReviewSettings :=
  {| APPROVAL_AGENT_ENABLED := true; APPROVAL_AGENT_BATCH_LIMIT := 50; APPROVAL_AGENT_HIGH_RISK_DEPARTMENTS := $"it, legal" |}.
(** A model that approves whatever it is asked, in a code block *)
#[local] Instance willing_model : Reviewer :=
  {| complete := fun _ => Reply ($"```json {} ```");
     loads := fun _ => Some (mkDecisionObject (Some ($"approve")) [] ($"It names its course.")) |}.

Definition no_matches (d : pending_draft) : list (option float) := [].
Definition new_article (n : uuid) : uuid := 70 + n.

(** HR publishes without review, on the word of the CEO. *)
Definition open_hr : department := mkDepartment 1 "acme.test" ($"HR") true false (Some 9).
Definition in_queue (l : list pending_draft) : kbdb :=
  sample_db <| t_departments := [open_hr] |> <| t_drafts := list_to_map (map (fun d => (d_id d, d)) l) |>.
(** A draft that may change an article waits for a person. *)
Definition doubtful : pending_draft := sample_draft <| d_id := 2 |> <| d_requires_update_confirmation := true |> <| d_created_at := 50 |>.
Definition one_draft : kbdb := in_queue [sample_draft].
Definition held_up : kbdb := in_queue [doubtful; sample_draft].

Lemma one_draft_ok : tables_ok one_draft.
Proof.
  split.
  - intros i a Ha. change ((∅ : gmap uuid article) !! i = Some a) in Ha. by apply lookup_empty_Some in Ha.
  - intros i a Ha. change ((<[1 := sample_draft]> ∅ : gmap uuid pending_draft) !! i = Some a) in Ha. by apply lookup_singleton_Some in Ha as [<- <-].
  - intros i a Ha. change ((∅ : gmap uuid external_document) !! i = Some a) in Ha. by apply lookup_empty_Some in Ha.
Qed.

Lemma held_up_ok : tables_ok held_up.
Proof.
  split; [exact (to_articles _ one_draft_ok)| |exact (to_documents _ one_draft_ok)].
  intros i a Ha. change ((<[2 := doubtful]> (<[1 := sample_draft]> ∅) : gmap uuid pending_draft) !! i = Some a) in Ha.
  apply lookup_insert_Some in Ha as [[<- <-]|[_ Ha]]; [reflexivity|]. by apply lookup_singleton_Some in Ha as [<- <-].
Qed.

Definition sweep (d : kbdb) := run_auto_publish 300 new_article "acme.test" None (open_session d).

Lemma auto_publish_within_policy_witness : exists o s',
  sweep one_draft = (o, s') /\ d_status <$> t_drafts (committed s') !! 1 = Some "approved"
  /\ moved (published_unreviewed one_draft "acme.test") one_draft (committed s').
Proof.
  exists (sweep one_draft).1, (sweep one_draft).2. split; [apply surjective_pairing|]. split; [vm_compute; reflexivity|].
  apply (auto_publish_within_policy 300 new_article "acme.test" None one_draft (sweep one_draft).2 (sweep one_draft).1 one_draft_ok).
  apply surjective_pairing.
Defined.

(** A rule of the CEO for the drafts of HR *)
Definition course_rule (can_approve : bool) : approval_rule :=
  mkApprovalRule 3 "acme.test" ($"Courses") true 100 None (Some ($"HR")) None None (Some ["standard"])
    ($"Approve lecture material that names its course.") can_approve false (Some 9) 1.
Definition agent_run (d : kbdb) := run_agent 300 new_article no_matches [course_rule true] "acme.test" None false (open_session d).

Lemma agent_acts_within_rules_witness : exists o s',
  agent_run one_draft = (o, s') /\ d_status <$> t_drafts (committed s') !! 1 = Some "approved"
  /\ moved (decided_by_agent no_matches [course_rule true] "acme.test" one_draft) one_draft (committed s').
Proof.
  exists (agent_run one_draft).1, (agent_run one_draft).2. split; [apply surjective_pairing|]. split; [vm_compute; reflexivity|].
  apply (agent_acts_within_rules no_matches 300 new_article [course_rule true] "acme.test" None false one_draft (agent_run one_draft).1 (agent_run one_draft).2 one_draft_ok).
  - apply NoDup_singleton.
  - apply surjective_pairing.
Defined.

Definition chief : user := sample_user 9 "CEO" [].

Lemma refusal_holds_up_the_queue_witness : sweep held_up = (Raise MissingGreenlet, Session held_up held_up []).
Proof.
  destruct (approve_draft 300 (new_article 2) chief 2 (bare_request (Some (NOTE ($"HR")))) (open_session held_up)) as [[a|e] s1] eqn:Hr.
  - exfalso. vm_compute in Hr. discriminate Hr.
  - apply (refusal_holds_up_the_queue 300 new_article "acme.test" None held_up doubtful sample_draft [] 9 chief e s1); [vm_compute; reflexivity..|exact Hr].
Defined.

(** The agent's run ends in the same way, and loses the audit of what it had left alone. *)
Example agent_refusal_loses_audits :
  let restricted := sample_draft <| d_id := 4 |> <| d_created_at := 10 |> <| d_content_metadata := (empty_metadata <| md_sensitivity := Some "restricted" |>) |> in
  let r := agent_run (in_queue [restricted; doubtful; sample_draft]) in
  r.1 = Raise MissingGreenlet /\ t_audits (committed r.2) = [].
Proof. vm_compute. split; reflexivity. Qed.

(** A batch of a reviewer goes past the refusal. *)
Definition batch : bulk_request := mkBulkRequest [2; 1; 2] true None None None None.

Lemma bulk_reports_every_draft_witness : exists report s',
  bulk_decide_drafts 300 new_article batch chief (open_session held_up) = (Return report, s')
  /\ report = mkBulkReport [1] [(2, 409)] /\ decided_in batch 9 held_up (committed s') 1.
Proof.
  destruct (bulk_reports_every_draft 300 new_article batch chief held_up held_up_ok) as (report & s' & Hr & _ & Hd & _);
    [left; reflexivity|exists chief; reflexivity|].
  assert (Hv : (bulk_decide_drafts 300 new_article batch chief (open_session held_up)).1 = Return (mkBulkReport [1] [(2, 409)])) by (vm_compute; reflexivity).
  rewrite Hr in Hv. injection Hv as Hv. exists report, s'. split; [exact Hr|]. split; [exact Hv|]. apply (Hd 1). rewrite Hv. left.
Defined.

Definition wanted (name : string) : approval_rule_request :=
  mkRuleRequest (ps name) ($"Approve it.") true 10 None None (Some [$" .pdf"; $"docx"; $"..pdf"]) None None true false.
Definition rules_after : rulesdb :=
  committed (update_approval_rule 3 (wanted "Second") chief (open_session (committed (create_approval_rule 3 (wanted "First") chief (open_session (mkRulesDb ∅ [] []))).2))).2.

Lemma rule_versions_complete_witness : exists r, t_approval_rules rules_after !! 3 = Some r /\ pr_file_extensions r = Some [$".docx"; $".pdf"]
  /\ map pr_version (versions_of rules_after 3) = [1; 2].
Proof.
  destruct (t_approval_rules rules_after !! 3) as [r|] eqn:Hr; [|exfalso; vm_compute in Hr; discriminate Hr].
  exists r. split; [reflexivity|].
  assert (Hf : pr_file_extensions <$> t_approval_rules rules_after !! 3 = Some (Some [$".docx"; $".pdf"]) /\ pr_version <$> t_approval_rules rules_after !! 3 = Some 2)
    by (split; vm_compute; reflexivity).
  rewrite Hr in Hf. destruct Hf as [Hf1 Hf2]. injection Hf1 as Hf1. injection Hf2 as Hf2. split; [exact Hf1|].
  destruct (rule_versions_complete rules_after 3 r) as [Hv _]; [|exact Hr|].
  - unfold rules_after. eapply rr_call; [eapply rr_call; [apply rr_empty|eapply rc_create; [reflexivity|apply surjective_pairing]]|].
    eapply rc_update. apply surjective_pairing.
  - etransitivity; [exact Hv|]. rewrite Hf2. reflexivity.
Defined.
