(* ===== verification/DraftLife.v ===== *)
(** * The life of a draft: the workflow as a transition system

    The handlers of Drafts.v, Candidates.v and Approve.v and the connector runs of CloudSync.v as
    the steps of one relation over durable databases, and the invariant every reachable database satisfies: the transition
    log of each draft is a path of the state machine from the status it was created in to
    the status it has. *)

From S2P Require Import Prelude PyText Models Rbac Permissions Store Drafts DraftLog SourceAcl CloudSync CloudWalk Candidates Approve.
From Stdlib Require String.
#[local] Open Scope string_scope.
#[local] Open Scope list_scope.
#[local] Open Scope Z_scope.

(** ** The handlers keep the log *)

Lemma preserves_reject now u id note : preserves logged (reject_draft now u id note).
Proof.
  apply preserves_atomic; [apply atomic_reject|]. intros s r s' Hr Hok.
  unfold reject_draft, add_notification in Hr. dinv. close_transition.
Qed.

(** Closes the case of a handler that returned after editing a draft. *)
Ltac close_edit :=
  match goal with
  | Hok : logged (working _), Hd : t_drafts _ !! ?id = Some ?d |- logged _ =>
      pose proof (lo_keyed _ _ Hok _ _ Hd); subst id; unfold logged; cbn;
      apply (log_ok_edit _ _ d); done
  end.

Lemma preserves_assign now u id who rule why : preserves logged (assign_approver now u id who rule why).
Proof.
  apply preserves_atomic; [apply atomic_assign|]. intros s r s' Hr Hok.
  unfold assign_approver, add_notification in Hr. dinv.
  match goal with H : chosen_approver _ _ _ _ = _ |- _ => apply chosen_approver_return in H; subst end.
  match goal with H : check_approver _ _ _ _ = (Return ?a, _) |- _ =>
    apply check_approver_return in H as [-> _] end.
  dinv.
  match goal with H : (match ?o with Some _ => _ | None => _ end) _ = (Return _, _) |- _ =>
    destruct o; minv end; close_edit.
Qed.

Lemma preserves_decide f u id dec : preserves logged (decide_restructure f u id dec).
Proof.
  apply preserves_atomic; [apply atomic_decide|]. intros s r s' Hr Hok.
  unfold decide_restructure in Hr. dinv.
  match goal with H : (if ?b then _ else _) _ = (Return _, _) |- _ => destruct b; dinv end; close_edit.
Qed.

Section Handlers.
Context `{KbEnv}.

Lemma preserves_approve now new_id u id rq : preserves logged (approve_draft now new_id u id rq).
Proof.
  apply preserves_atomic; [intros s e s'; apply approve_raise|]. intros s r s' Hr Hok.
  apply approve_return in Hr as (d & c & doc & dept & au & target & eid & nr & Hr).
  cbn zeta in Hr. destruct Hr as (Hd & _ & Hp & _ & Hc & _ & Hdr & _ & _ & Ht & _).
  pose proof (lo_keyed _ _ Hok _ _ Hd). subst id. rewrite Hc. unfold logged. rewrite Hdr, Ht.
  apply plan_pending in Hp.
  apply log_ok_transition; [done|done|by rewrite Hp|by destruct target..].
Qed.

Lemma frame_list_candidates u id : frame drafts_and_log (list_candidates u id).
Proof.
  apply frame_readonly. unfold list_candidates, load_draft, _get_draft_for_user. solve_readonly.
Qed.

Lemma frame_operation new_id d cs c op o title at_ ids note :
  frame drafts_and_log (apply_operation new_id d cs c op o title at_ ids note).
Proof.
  unfold apply_operation, rename_candidate, set_candidate_departments, discard_candidate,
    merge_candidates, split_candidate, put_candidate.
  solve_frame.
Qed.

Lemma preserves_review new_id u id op cid o title at_ ids note :
  preserves logged (review_candidate new_id u id op cid o title at_ ids note).
Proof.
  apply (preserves_frame _ _ _ logged_ext). unfold review_candidate, commit_candidate_rows, log_audit, add_audit,
    load_draft, _get_draft_for_user.
  pose proof frame_list_candidates. pose proof frame_operation.
  repeat first [apply frame_list_candidates | apply frame_operation | solve [solve_frame]
               | apply frame_bind; [|intros]].
Qed.

Definition created_note : option pystr := Some $"Created from batch-reviewed candidate".

Lemma commit_items_log now fresh u parent available items (s s' : session kbdb event) rs :
  traverse items (commit_item now fresh u parent available) s = (Return rs, s') ->
  t_transitions (working s') = t_transitions (working s)
    ++ map (opening (Some (u_id u)) created_note) (children_of now fresh parent available items).
Proof.
  revert s rs. induction items as [|i items IH]; intros s rs Hr; cbn in Hr; minv;
    [by rewrite app_nil_r|].
  match goal with H : commit_item _ _ _ _ _ _ _ = _ |- _ => rename H into Hi end.
  match goal with H : traverse _ _ _ = _ |- _ => apply IH in H as -> end.
  unfold commit_item, put_draft, add_transition, put_candidate in Hi.
  unfold children_of, item_row in *. cbn.
  destruct (department_missing available i); minv; cbn; [done|]. by rewrite <- app_assoc.
Qed.

(** [fresh] draws identifiers no draft of [db] has. *)
Definition fresh_ids (fresh : uuid -> uuid) (db : kbdb) : Prop :=
  (forall x y, fresh x = fresh y -> x = y) /\ forall x, t_drafts db !! fresh x = None.

Lemma atomic_create_children now fresh u id : atomic (create_children now fresh u id).
Proof.
  unfold create_children. pose proof (@quiet_traverse kbdb event draft_candidate).
  assert (Hl : forall u id, quiet (list_candidates u id)).
  { intros. unfold list_candidates. solve_quiet. }
  assert (Hi : forall u p av i, quiet (commit_item now fresh u p av i)).
  { intros. unfold commit_item. solve_quiet. }
  solve_atomic.
Qed.

Lemma children_logged now fresh u id (s s' : session kbdb event) r :
  create_children now fresh u id s = (Return r, s') -> keyed_candidates (working s) ->
  fresh_ids fresh (working s) -> logged (working s) -> logged (committed s').
Proof.
  unfold create_children, put_draft. intros Hr Hkc [Hinj Hfresh] Hok. cinv.
  match goal with H : t_drafts _ !! id = Some ?x |- _ =>
    rename x into parent; rename H into Hpar; pose proof (lo_keyed _ _ Hok _ _ Hpar); subst id end.
  match goal with H : traverse _ _ _ = _ |- _ => rename H into Ht end.
  pose proof (commit_items_log _ _ _ _ _ _ _ _ _ Ht) as Hlog.
  apply commit_items_return in Ht as (_ & _ & _ & Hd & _).
  unfold logged. cbn. rewrite insert_insert_eq, Hd, Hlog. eqs.
  set (ds := children_of _ _ _ _ _).
  assert (Hds : forall d, d ∈ ds -> t_drafts (working s) !! d_id d = None /\ d_status d = "draft").
  { intros d (i & _ & _ & ->)%elem_of_children. cbn. auto. }
  apply log_ok_transition; [|rewrite store_rows_other; [done|]|done..].
  - apply log_ok_children; [done| |done]. apply children_ids; [done|]. by apply kept_ids_nodup.
  - intros (d & Heq & Hin)%elem_of_map. destruct (Hds d Hin) as [Hn _]. congruence.
Qed.
End Handlers.

(** ** The transition system *)

Section Life.
Context `{KbEnv}.

(** One run of a connector, whatever its provider and the parsers answer in it. *)
Definition connector_run (env : AclEnv) (provider : Provider) (now : datetime) (cn : connector)
    (job : connector_job) (scope_id : option uuid) : KB unit := fun s =>
  let '(o, _, s') := sync_cloud_connector now cn job scope_id s in (o, s').

(** The handler calls and connector runs that may run against a database; the identifiers
    drawn for new rows are unused there, except by a run, which meets them as an IntegrityError
    of the failing item. *)
Inductive handler (db : kbdb) : forall A, KB A -> Prop :=
  | h_create d : t_drafts db !! d_id d = None -> handler db _ (create_draft d)
  | h_submit now u id why : handler db _ (submit_draft now u id why)
  | h_assign now u id who rule why : handler db _ (assign_approver now u id who rule why)
  | h_decide f u id dec : handler db _ (decide_restructure f u id dec)
  | h_review new_id u id op cid o title at_ ids note :
      handler db _ (review_candidate new_id u id op cid o title at_ ids note)
  | h_commit now fresh u id : fresh_ids fresh db -> keyed_candidates db ->
      handler db _ (commit_candidates now fresh u id)
  | h_approve now new_id u id rq : handler db _ (approve_draft now new_id u id rq)
  | h_reject now u id note : handler db _ (reject_draft now u id note)
  | h_sync env provider now cn job scope_id : run_rows (cn_id cn) (jb_id job) db ->
      handler db _ (connector_run env provider now cn job scope_id).

(** One request: a handler runs in a session opened on the durable database; the durable
    database afterwards is what it left, returned or raised. *)
Definition step (db db' : kbdb) : Prop :=
  exists A m s, handler db A m /\ committed s = db /\ working s = db /\ db' = committed (m s).2.

Lemma step_of (db : kbdb) A (m : KB A) :
  handler db A m -> step db (committed (m (open_session db)).2).
Proof. intros Hm. by exists A, m, (open_session db). Qed.

Lemma submits_logged now u why (ds : list pending_draft) (s : session kbdb event) :
  committed s = working s -> logged (working s) ->
  let o := for_each ds (fun d => submit_draft now u (d_id d) why ;; mret tt) s in
  logged (committed o.2) /\ (forall x, o.1 = Return x -> committed o.2 = working o.2).
Proof.
  revert s. induction ds as [|d ds IH]; intros s Hc Hok; cbn; [by rewrite Hc|].
  pose proof (preserves_submit now u (d_id d) why s Hc Hok) as Hp.
  unfold mbind, M_bind in *. destruct (submit_draft now u (d_id d) why s) as [[r|e] s1] eqn:Hs; cbn in *.
  - apply submit_return in Hs as (_ & _ & _ & _ & _ & _ & _ & Hc1 & _).
    specialize (IH s1 Hc1). rewrite Hc1 in Hp. specialize (IH Hp). cbn in IH. exact IH.
  - split; [done|]. intros x Hx. discriminate Hx.
Qed.

Lemma commit_logged now fresh u id (s : session kbdb event) :
  committed s = working s -> logged (working s) -> fresh_ids fresh (working s) ->
  keyed_candidates (working s) -> logged (committed (commit_candidates now fresh u id s).2).
Proof.
  intros Hc Hok Hf Hk. unfold commit_candidates, mbind, M_bind.
  destruct (create_children now fresh u id s) as [[[p rs]|e] s1] eqn:Hs.
  - pose proof (children_logged _ _ _ _ _ _ _ Hs Hk Hf Hok) as Hok1.
    apply create_children_return in Hs as (parent & _ & _ & _ & Hcc). cbn zeta in Hcc.
    destruct Hcc as (_ & _ & _ & Hc1 & _). rewrite Hc1 in Hok1.
    pose proof (submits_logged now u (Some $"Committed from batch review") (omap snd rs) s1 Hc1 Hok1) as [Hl Hd].
    unfold mbind, M_bind in Hl, Hd. cbn zeta in *.
    destruct (for_each _ _ s1) as [[x|e] s2]; cbn in *; [|done].
    specialize (Hd x eq_refl). by rewrite Hd in Hl.
  - cbn. apply atomic_create_children in Hs as [-> _]. by rewrite Hc.
Qed.

Lemma create_logged d (s : session kbdb event) :
  logged (working s) -> t_drafts (working s) !! d_id d = None ->
  logged (committed (create_draft d s).2).
Proof.
  intros Hok Hd.
  pose proof (log_ok_create _ _ d (d_created_by d) (Some $"Draft created") Hok Hd) as Hc.
  unfold create_draft, put_draft, add_transition, mbind, M_bind, write, commit, mret, M_ret, logged.
  destruct (String.eqb (d_status d) "draft"); cbn in *; [done|]. by rewrite app_nil_r in Hc.
Qed.

Lemma run_logged env provider now cn job scope_id (s : session kbdb event) :
  committed s = working s -> logged (working s) -> run_rows (cn_id cn) (jb_id job) (working s) ->
  logged (committed (connector_run env provider now cn job scope_id s).2).
Proof.
  intros Hc Hl Hr. unfold connector_run. destruct (sync_cloud_connector now cn job scope_id s) as [[o w'] s'] eqn:Hs.
  assert (Hw : walk_ok (cn_id cn) (jb_id job) (working s)) by done.
  apply sync_keeps with (P := walk_ok (cn_id cn) (jb_id job)) in Hs as [[Hl' _] _];
    [done|apply _|done|by rewrite Hc].
Qed.

Lemma step_logged db db' : step db db' -> logged db -> logged db'.
Proof.
  intros (A & m & s & Hh & Hc & Hw & ->) Hok. subst db. rewrite <- Hw in *. symmetry in Hw.
  destruct Hh; try (rewrite Hw in *); 
    first [ by apply create_logged | by apply preserves_submit | by apply preserves_assign
          | by apply preserves_decide | by apply preserves_review | by apply commit_logged
          | by apply preserves_approve | by apply preserves_reject | by apply run_logged ].
Qed.

(** The databases the workflow can reach from one without drafts. *)
Definition reachable (db : kbdb) : Prop :=
  exists db0, t_drafts db0 = ∅ /\ t_transitions db0 = [] /\ rtc step db0 db.

Lemma reachable_logged db : reachable db -> logged db.
Proof.
  intros (db0 & Hd & Ht & Hr).
  assert (Hok : logged db0) by (by apply empty_logged).
  clear Hd Ht. induction Hr as [|x y z Hs _ IH]; [done|]. apply IH. by eapply step_logged.
Qed.
End Life.

Section LifeTheorems.
Context `{KbEnv}.


Lemma path_approved a l1 t l2 b :
  path a (l1 ++ t :: l2) b -> tr_to_status t = "approved" -> l2 = [] /\ b = "approved".
Proof.
  revert a. induction l1 as [|x l1 IH]; intros a; cbn; [|intros (_ & _ & Hp); by apply (IH (tr_to_status x))].
  intros (_ & _ & Hp) Ht. rewrite Ht in Hp. destruct l2 as [|y l2]; [done|].
  destruct Hp as (_ & Hm & _). discriminate Hm.
Qed.

(** Approval is terminal: in every reachable database, a draft whose log holds an
    approval has that approval as its last entry and is approved; it was approved once and
    nothing moved it since. *)
Theorem approved_is_terminal (db : kbdb) (i : uuid) (d : pending_draft)
    (l1 l2 : list draft_transition) (t : draft_transition)
    (Hreach : reachable db) (Hd : t_drafts db !! i = Some d)
    (Hlog : log_of (t_transitions db) i = l1 ++ t :: l2) (Hto : tr_to_status t = "approved") :
  l2 = [] /\ d_status d = "approved" /\ (forall x, x ∈ l1 -> tr_to_status x <> "approved").
Proof.
  apply reachable_logged in Hreach. pose proof (lo_path _ _ Hreach _ _ Hd) as Hp. rewrite Hlog in Hp.
  assert (Hgen : forall k1 k2 x, l1 ++ t :: l2 = k1 ++ x :: k2 -> tr_to_status x = "approved" ->
            k2 = [] /\ d_status d = "approved").
  { intros k1 k2 x Heq Hx. rewrite Heq in Hp. destruct Hp as [(o & l' & Ho & [_ Hod] & Hp)|[a Hp]].
    - destruct k1 as [|y k1]; cbn in Ho; simplify_eq; [congruence|].
      by apply (path_approved "draft") in Hp.
    - by apply (path_approved a) in Hp. }
  destruct (Hgen l1 l2 t eq_refl Hto) as [Hl2 Hs]. split_and!; [done|done|].
  intros x Hx Hxa. apply list_elem_of_split in Hx as (k1 & k2 & ->).
  destruct (Hgen k1 (k2 ++ t :: l2) x) as [Hk _]; [by rewrite <- app_assoc|done|]. by destruct k2.
Qed.
End LifeTheorems.

(** ** A concrete history: created, submitted, approved *)

Definition start_db : kbdb := approval_db <| t_drafts := ∅ |>.
Definition first_draft : pending_draft := sample_draft <| d_status := "draft" |>.
Definition db_created : kbdb := committed (create_draft first_draft (open_session start_db)).2.
Definition db_submitted : kbdb :=
  committed (submit_draft 150 (sample_user 5 "Staff" []) 1 None (open_session db_created)).2.
Definition db_approved : kbdb :=
  committed (@approve_draft demo_env 300 77 ceo 1 plain_request (open_session db_submitted)).2.

Lemma history_reachable : @reachable demo_env db_approved.
Proof.
  exists start_db. split_and!; [reflexivity..|].
  apply (rtc_l _ _ db_created); [apply (step_of _ _ _ (h_create start_db first_draft eq_refl))|].
  apply (rtc_l _ _ db_submitted);
    [apply (step_of _ _ _ (h_submit db_created 150 (sample_user 5 "Staff" []) 1 None))|].
  apply rtc_once. apply (step_of _ _ _ (h_approve db_submitted 300 77 ceo 1 plain_request)).
Qed.


Lemma approved_is_terminal_witness :
  exists d, t_drafts db_approved !! 1 = Some d /\ d_status d = "approved".
Proof.
  destruct (t_drafts db_approved !! 1) as [d|] eqn:Hd; [|vm_compute in Hd; discriminate].
  exists d. split; [reflexivity|].
  destruct (log_of (t_transitions db_approved) 1) as [|t1 [|t2 [|t3 l]]] eqn:Hl;
    [vm_compute in Hl; discriminate..|].
  destruct (@approved_is_terminal demo_env db_approved 1 d [t1; t2] l t3 history_reachable Hd Hl)
    as (_ & H & _); [vm_compute in Hl; by injection Hl as _ _ <- _|exact H].
Defined.
