(* ===== verification/Articles.v ===== *)
(** * Articles and their version history (src/domain/articles.py)

    [ArticleService]: creation, editing, deletion, history and restoration of articles, each
    write in one transaction with its version snapshot and audit entries, and the events
    published after it. *)

From S2P Require Import Prelude PyText Models Rbac Permissions Store Drafts Candidates Approve DraftLife.
From Stdlib Require String.
#[local] Open Scope string_scope.
#[local] Open Scope list_scope.
#[local] Open Scope Z_scope.

(** ** Lookups of ArticleRepository *)

(** [get_by_id(article_id, user=user)]: the row, inside the SQL visibility predicate. *)
Definition get_by_id_for (db : kbdb) (u : user) (id : uuid) : option article :=
  match t_articles db !! id with
  | Some a => if _authorized_article_filters (t_departments db) u a then Some a else None
  | None => None
  end.

(** [ORDER BY version DESC] *)
Definition newer (a b : article_version) : bool := av_version b <=? av_version a.

Definition get_versions (db : kbdb) (u : user) (id : uuid) : list article_version :=
  match get_by_id_for db u id with
  | Some _ => stable_sort newer (List.filter (fun v => Z.eqb (av_article_id v) id) (t_versions db))
  | None => []
  end.

Definition get_version_by_number (db : kbdb) (u : user) (id : uuid) (n : Z) : option article_version :=
  match get_by_id_for db u id with
  | Some _ => List.find (fun v => Z.eqb (av_article_id v) id && Z.eqb (av_version v) n) (t_versions db)
  | None => None
  end.

(** [create_version]: the flush meets the unique index on (article, version). *)
Definition create_version (v : article_version) : KB unit :=
  taken ← query (fun db => existsb (fun w => Z.eqb (av_article_id w) (av_article_id v)
                                    && Z.eqb (av_version w) (av_version v)) (t_versions db));
  ensure (negb taken) (IntegrityError "uq_article_versions_article_version") ;;
  add_version v.

(** [sync_tags]: the rows of the article are replaced; the flush meets [uq_article_tag]. *)
Definition sync_tags (a : article) (tags : list pystr) : KB article :=
  ensure (bool_decide (NoDup tags)) (IntegrityError "uq_article_tag") ;;
  let a := a <| a_tags := tags |> in
  put_article a ;;
  mret a.

(** [create] and [update] with [commit=False]: the flush meets the index on external ids. *)
Definition flush_row (a : article) : KB unit :=
  taken ← query (fun db => existsb (fun x => negb (Z.eqb (a_id x) (a_id a))
      && bool_decide (a_external_id a <> None) && bool_decide (a_external_id x = a_external_id a))
    (rows (t_articles db)));
  ensure (negb taken) (IntegrityError "ix_articles_external_id") ;;
  put_article a.

(** [soft_delete]: UPDATE ... WHERE the predicate holds; the number of rows touched. *)
Definition soft_delete (u : user) (id : uuid) : KB bool :=
  found ← query (fun db => get_by_id_for db u id);
  match found with
  | Some a => put_article (a <| a_status := "deleted" |>) ;; mret true
  | None => mret false
  end.

(** ** The service *)

Section Service.
Context `{KbEnv}.
(** Whether the service was built with an audit repository. *)
Variable audited : bool.

Definition _audit (u : user) (action : string) (id : uuid) : KB unit :=
  if audited then add_audit (mkAudit (Some (u_id u)) action "article" (Some id)) else mret tt.

(** A transient [Article(company_domain=..., dept=..., owner_id=...)] *)
Definition transient (company : string) (dept : pystr) (owner : option uuid) : resource :=
  mkResource company [] (Some dept) owner.

Definition ensure_can_create (u : user) (dept : pystr) : KB unit :=
  ensure (has_any_scope u "article.create"
            (Some (transient (u_company_domain u) dept (Some (u_id u)))) ALL_SCOPES)
    (HTTPException 403 "Not authorized to create articles in this department").

(** The read audience: the primary department first, then the other requested ones. *)
Definition resolve_audience (u : user) (primary : department) (ids : option (list uuid))
    : KB (list department) :=
  match ids with
  | Some (i :: l) =>
      resolved ← query (fun db => get_departments_by_ids db (i :: l) (u_company_domain u));
      ensure (Nat.eqb (length (dedup (map dp_id resolved))) (length (dedup (i :: l))))
        (HTTPException 422 "One or more departments do not exist") ;;
      mret (primary :: List.filter (fun d => negb (Z.eqb (dp_id d) (dp_id primary))) resolved)
  | _ => mret [primary]
  end.

(** The arguments of [create_article] *)
Record article_input := mkInput {
  in_title : pystr;
  in_body_md : pystr;
  in_dept : pystr;
  in_domain : pystr;
  in_type : string;
  in_sensitivity : string;
  in_tags : list pystr;
  in_language : string;
  in_audience : option (list uuid);
  in_next_review : option datetime;
  in_external_id : option pystr;
  in_original_body_md : option pystr;
  in_publish_without_review : bool
}.

Definition created_article (now : datetime) (new_id : uuid) (u : user) (i : article_input)
    (dept : pystr) (audiences : list department) (st : string) : article :=
  mkArticle new_id (in_title i) (in_external_id i) (in_body_md i) dept (in_domain i)
    (u_company_domain u) (in_type i) (in_sensitivity i) "department" (in_language i)
    (Some (u_id u)) st (Some "active") None false None None 1
    (if String.eqb st "published" then Some now else None) (in_next_review i)
    false false false None "pending" None audiences [] [] [].

Definition creation_snapshot (i : article_input) (a : article) : snapshot :=
  mkSnapshot (Some (a_title a)) (Some (a_body_md a)) (Some (a_dept a)) (Some (a_domain a))
    (Some (a_type a)) (Some (a_sensitivity a)) (Some (a_language a)) (Some (in_tags i))
    None None None None None (Some (or_text (in_original_body_md i) (a_body_md a))) None.

Definition create_rows (u : user) (i : article_input) (a : article) : KB unit :=
  flush_row a ;;
  a ← match in_tags i with [] => mret a | tags => sync_tags a tags end;
  create_version (mkVersion (a_id a) 1 (creation_snapshot i a) (Some (u_id u))) ;;
  _audit u "create" (a_id a) ;;
  (if String.eqb (a_status a) "published" then _audit u "publish" (a_id a) else mret tt) ;;
  commit.

Definition create_article (now : datetime) (new_id : uuid) (u : user) (i : article_input) : KB article :=
  department ← require_active_department (u_company_domain u) (Some (in_dept i));
  let dept := dp_name department in
  ensure_can_create u dept ;;
  audiences ← resolve_audience u department (in_audience i);
  ensure (mem (in_sensitivity i) SENSITIVITIES) (HTTPException 422 "Invalid article sensitivity") ;;
  let can_publish := has_any_scope u "article.publish"
    (Some (transient (u_company_domain u) dept (Some (u_id u)))) ALL_SCOPES in
  let a := created_article now new_id u i dept audiences
    (if can_publish || in_publish_without_review i then "published" else "draft") in
  rollback_on_error (create_rows u i a) ;;
  found ← query (fun db => t_articles db !! a_id a);
  updated ← some_or found (HTTPException 500 "Failed to retrieve created article");
  (if String.eqb (a_status updated) "published" then publish (ArticlePublished (a_id updated)) else mret tt) ;;
  mret updated.

(** [get_by_id(...)] and the 404 most operations start with *)
Definition load_article (u : user) (id : uuid) : KB article :=
  found ← query (fun db => get_by_id_for db u id);
  a ← some_or found (HTTPException 404 "Article not found");
  ensure (negb (String.eqb (a_status a) "deleted")) (HTTPException 404 "Article not found") ;;
  mret a.

(** The optional arguments of [update_article] *)
Record article_edit := mkEdit {
  e_title : option pystr;
  e_body_md : option pystr;
  e_dept : option pystr;
  e_domain : option pystr;
  e_type : option string;
  e_sensitivity : option string;
  e_language : option string;
  e_status : option string;
  e_tags : option (list pystr);
  e_audience : option (list uuid);
  e_next_review : option datetime
}.

(** [new is not None and new != old] *)
Definition differs {A} `{EqDecision A} (new : option A) (old : A) : bool :=
  match new with Some x => bool_decide (x <> old) | None => false end.

Definition ensure_may_move (u : user) (a : article) (target_dept : pystr) : KB unit :=
  if bool_decide (target_dept = a_dept a) then mret tt
  else ensure (has_any_scope u "article.edit"
                 (Some (transient (a_company_domain a) target_dept (a_owner_id a)))
                 ["department"; "company"; "global"])
         (HTTPException 403 "Not authorized to move an article to this department").

Definition proposed_audience (a : article) (ids : option (list uuid)) : KB (list department) :=
  match ids with
  | None => mret (a_departments a)
  | Some l =>
      found ← query (fun db => match l with
                               | [] => []
                               | _ => get_departments_by_ids db l (a_company_domain a)
                               end);
      ensure (Nat.eqb (length (dedup (map dp_id found))) (length (dedup l)))
        (HTTPException 422 "One or more departments do not exist") ;;
      ensure (match found with [] => false | _ => true end)
        (HTTPException 422 "An article requires at least one department") ;;
      mret found
  end.

Definition audience_changed (a : article) (e : article_edit) (proposed : list department) : bool :=
  match e_audience e with
  | Some _ => bool_decide (department_ids (a_departments a) <> department_ids proposed)
  | None => false
  end.

Definition permissions_changed (a : article) (e : article_edit) (proposed : list department) : bool :=
  differs (e_sensitivity e) (a_sensitivity a) || audience_changed a e proposed
  || differs (e_dept e) (a_dept a).

Definition content_changed (a : article) (e : article_edit) : bool :=
  differs (e_language e) (a_language a) || differs (e_title e) (a_title a)
  || differs (e_body_md e) (a_body_md a) || differs (e_dept e) (a_dept a)
  || differs (e_domain e) (a_domain a) || differs (e_type e) (a_type a).

Definition edited_article (a : article) (e : article_edit) (proposed : list department) : article :=
  a <| a_sensitivity := default (a_sensitivity a) (e_sensitivity e) |>
    <| a_language := default (a_language a) (e_language e) |>
    <| a_departments := if audience_changed a e proposed then proposed else a_departments a |>
    <| a_title := default (a_title a) (e_title e) |>
    <| a_body_md := default (a_body_md a) (e_body_md e) |>
    <| a_dept := default (a_dept a) (e_dept e) |>
    <| a_domain := default (a_domain a) (e_domain e) |>
    <| a_type := default (a_type a) (e_type e) |>
    <| a_next_review := match e_next_review e with Some t => Some t | None => a_next_review a end |>
    <| a_version := if content_changed a e then a_version a + 1 else a_version a |>.

Definition content_snapshot (a : article) (restored_from : option Z) : snapshot :=
  mkSnapshot (Some (a_title a)) (Some (a_body_md a)) (Some (a_dept a)) (Some (a_domain a))
    (Some (a_type a)) (Some (a_sensitivity a)) (Some (a_language a)) (Some (a_tags a))
    None None None None None None restored_from.

Definition update_rows (u : user) (e : article_edit) (permissions content : bool) (a : article)
    : KB article :=
  flush_row a ;;
  a ← match e_tags e with Some tags => sync_tags a tags | None => mret a end;
  (if content then
     create_version (mkVersion (a_id a) (a_version a) (content_snapshot a None) (Some (u_id u)))
   else mret tt) ;;
  (if permissions then _audit u "permission_change" (a_id a) else mret tt) ;;
  (if content then _audit u "update" (a_id a) else mret tt) ;;
  commit ;;
  mret a.

Definition update_article (u : user) (id : uuid) (e : article_edit) : KB article :=
  a ← load_article u id;
  ensure (can_edit_article u a) (HTTPException 403 "Not authorized to edit this article") ;;
  ensure (match e_sensitivity e with Some s => mem s SENSITIVITIES | None => true end)
    (HTTPException 422 "Invalid article sensitivity") ;;
  ensure_may_move u a (default (a_dept a) (e_dept e)) ;;
  proposed ← proposed_audience a (e_audience e);
  ensure (negb (differs (e_status e) (a_status a)))
    (HTTPException 400 "Article status changes must be approved through the review workflow") ;;
  let permissions := permissions_changed a e proposed in
  let content := content_changed a e in
  updated ← rollback_on_error (update_rows u e permissions content (edited_article a e proposed));
  (if permissions then publish (PermissionChanged (a_id updated)) else mret tt) ;;
  (if content && String.eqb (a_status updated) "published"
   then publish (ArticleUpdated (a_id updated)) else mret tt) ;;
  mret updated.

Definition get_article (u : user) (id : uuid) : KB article :=
  a ← load_article u id;
  department ← resolve_active_department (a_company_domain a) (Some (a_dept a)) false;
  ensure (is_some department)
    (HTTPException 404 "Article department is inactive or no longer exists") ;;
  ensure (can_view_article u a) (HTTPException 403 "Access denied") ;;
  mret a.

Definition soft_delete_rows (u : user) (id : uuid) : KB unit :=
  deleted ← soft_delete u id;
  (if deleted : bool then _audit u "delete" id else mret tt) ;;
  commit.

Definition soft_delete_article (today : date) (u : user) (id : uuid) : KB unit :=
  a ← load_article u id;
  ensure (can_delete_article u a) (HTTPException 403 "Not authorized to delete this article") ;;
  ensure (negb (a_legal_hold a))
    (HTTPException 409 "This article is under legal hold and cannot be deleted.") ;;
  ensure (match a_retention_until a with Some r => r <? today | None => true end)
    (HTTPException 409 "This article must be retained and cannot be deleted yet.") ;;
  rollback_on_error (soft_delete_rows u id) ;;
  publish (ArticleDeleted id).

Definition get_history (u : user) (id : uuid) : KB (list article_version) :=
  a ← load_article u id;
  ensure (can_view_article u a) (HTTPException 403 "Access denied") ;;
  query (fun db => get_versions db u id).

Definition get_version (u : user) (id : uuid) (n : Z) : KB article_version :=
  a ← load_article u id;
  ensure (can_view_article u a) (HTTPException 403 "Access denied") ;;
  found ← query (fun db => get_version_by_number db u id n);
  some_or found (HTTPException 404 "Version not found").

Definition restored_article (a : article) (sn : snapshot) : article :=
  a <| a_title := default (a_title a) (sn_title sn) |>
    <| a_body_md := default (a_body_md a) (sn_body_md sn) |>
    <| a_dept := default (a_dept a) (sn_dept sn) |>
    <| a_domain := default (a_domain a) (sn_domain sn) |>
    <| a_type := default (a_type a) (sn_type sn) |>
    <| a_sensitivity := default (a_sensitivity a) (sn_sensitivity sn) |>
    <| a_language := default (a_language a) (sn_language sn) |>
    <| a_version := a_version a + 1 |> <| a_lifecycle_status := Some "active" |>
    <| a_index_status := "pending" |> <| a_index_error := None |>.

Definition restore_rows (u : user) (n : Z) (sn : snapshot) (a : article) : KB article :=
  flush_row a ;;
  a ← match sn_tags sn with Some tags => sync_tags a tags | None => mret a end;
  create_version (mkVersion (a_id a) (a_version a) (content_snapshot a (Some n)) (Some (u_id u))) ;;
  _audit u "restore_version" (a_id a) ;;
  commit ;;
  mret a.

Definition restore_version (u : user) (id : uuid) (n : Z) : KB article :=
  a ← load_article u id;
  ensure (can_edit_article u a) (HTTPException 403 "Not authorized to restore this article version") ;;
  found ← query (fun db => get_version_by_number db u id n);
  v ← some_or found (HTTPException 404 "Version not found");
  ensure (negb (Z.eqb (av_version v) (a_version a)))
    (HTTPException 409 "This version is already active") ;;
  restored ← rollback_on_error (restore_rows u n (av_snapshot v) (restored_article a (av_snapshot v)));
  (if String.eqb (a_status restored) "published" then publish (ArticleUpdated (a_id restored))
   else mret tt) ;;
  mret restored.
End Service.

(** ** The version history invariant *)

Definition versions_of (l : list article_version) (i : uuid) : list article_version :=
  List.filter (fun v => Z.eqb (av_article_id v) i) l.

(** The versioned fields of an article, and those a snapshot holds. *)
Definition content_of (a : article) :=
  (a_title a, a_body_md a, a_dept a, a_domain a, a_type a, a_language a).
Definition snapshot_content (sn : snapshot) :=
  (sn_title sn, sn_body_md sn, sn_dept sn, sn_domain sn, sn_type sn, sn_language sn).

(** A version whose snapshot holds the current content of the article. *)
Definition describes (v : article_version) (a : article) : Prop :=
  snapshot_content (av_snapshot v)
  = (Some (a_title a), Some (a_body_md a), Some (a_dept a), Some (a_domain a), Some (a_type a),
     Some (a_language a)).

Record histories (arts : gmap uuid article) (vs : list article_version) : Prop := {
  hs_keyed : keyed a_id arts;
  hs_known : forall v, v ∈ vs -> is_Some (arts !! av_article_id v);
  hs_numbers : forall i a, arts !! i = Some a ->
    map av_version (versions_of vs i) = seqZ 1 (a_version a);
  hs_latest : forall i a, arts !! i = Some a ->
    exists v, list.last (versions_of vs i) = Some v /\ describes v a
}.

Definition recorded (db : kbdb) : Prop := histories (t_articles db) (t_versions db).

Lemma versions_of_app vs vs' i : versions_of (vs ++ vs') i = versions_of vs i ++ versions_of vs' i.
Proof. apply List.filter_app. Qed.

Lemma versions_of_single v i :
  versions_of [v] i = if Z.eqb (av_article_id v) i then [v] else [].
Proof. cbn. by destruct (Z.eqb _ _). Qed.

Lemma version_positive arts vs i a : histories arts vs -> arts !! i = Some a -> 1 <= a_version a.
Proof.
  intros Hh Ha. destruct (hs_latest _ _ Hh i a Ha) as (v & Hv & _).
  pose proof (hs_numbers _ _ Hh i a Ha) as Hn.
  destruct (Z.leb_spec 1 (a_version a)); [done|].
  rewrite seqZ_nil in Hn by lia. apply map_eq_nil in Hn. by rewrite Hn in Hv.
Qed.

(** Writing an article together with its next version row. *)
Lemma histories_append arts vs a v :
  histories arts vs -> av_article_id v = a_id a -> av_version v = a_version a -> describes v a ->
  match arts !! a_id a with
  | Some before => a_version a = a_version before + 1
  | None => a_version a = 1
  end ->
  histories (<[a_id a := a]> arts) (vs ++ [v]).
Proof.
  intros Hh Hid Hv Hd Hn. pose proof Hh as [Hk Hkn Hnum Hl]. constructor.
  - intros i x [[<- <-]|[_ Hx]]%lookup_insert_Some; [done|by apply Hk].
  - intros w Hw. apply lookup_insert_is_Some'. apply elem_of_app in Hw as [Hw|Hw]; [right; auto|].
    left. apply elem_of_cons in Hw as [->|Hw%elem_of_nil]; done.
  - intros i x Hx. rewrite versions_of_app, versions_of_single, map_app, Hid.
    apply lookup_insert_Some in Hx as [[<- <-]|[Hne Hx]].
    + rewrite Z.eqb_refl. cbn. rewrite Hv. destruct (arts !! a_id a) as [b|] eqn:Hb.
      * rewrite (Hnum _ _ Hb), Hn. pose proof (version_positive _ _ _ _ Hh Hb).
        rewrite seqZ_app by lia. f_equal. change (seqZ (1 + a_version b) 1) with [0 + (1 + a_version b)]. f_equal. lia.
      * replace (versions_of vs (a_id a)) with (@nil article_version); [by rewrite Hn|].
        symmetry. destruct (versions_of vs (a_id a)) as [|w l] eqn:Hw; [done|].
        assert (Hin : w ∈ w :: l) by (by left). rewrite <- Hw in Hin.
        apply elem_of_filter_b in Hin as [Hin Hi]. eqs. apply Hkn in Hin as [? Hs]. congruence.
    + rewrite (proj2 (Z.eqb_neq _ _) Hne). cbn. rewrite app_nil_r. by apply Hnum.
  - intros i x Hx. rewrite versions_of_app, versions_of_single, Hid.
    apply lookup_insert_Some in Hx as [[<- <-]|[Hne Hx]].
    + rewrite Z.eqb_refl, last_snoc. eauto.
    + rewrite (proj2 (Z.eqb_neq _ _) Hne), app_nil_r. by apply Hl.
Qed.

(** Rewriting an article without touching what its newest version describes. *)
Lemma histories_touch arts vs a before :
  histories arts vs -> arts !! a_id a = Some before -> a_version a = a_version before ->
  content_of a = content_of before ->
  histories (<[a_id a := a]> arts) vs.
Proof.
  intros [Hk Hkn Hnum Hl] Hb Hv Hc. constructor.
  - intros i x [[<- <-]|[_ Hx]]%lookup_insert_Some; [done|by apply Hk].
  - intros w Hw. apply lookup_insert_is_Some'. right. auto.
  - intros i x [[<- <-]|[_ Hx]]%lookup_insert_Some; [rewrite Hv|]; by apply Hnum.
  - intros i x [[<- <-]|[_ Hx]]%lookup_insert_Some; [|by apply Hl].
    destruct (Hl _ _ Hb) as (v & Hlast & Hd). exists v. split; [done|].
    unfold describes, content_of in *. congruence.
Qed.

(** ** What the row writers did *)

Section Rows.
Context `{KbEnv}.
Variable audited : bool.

Lemma flush_row_return a (s s' : session kbdb event) x :
  flush_row a s = (Return x, s') ->
  s' = Session (committed s) ((working s) <| t_articles := <[a_id a := a]> (t_articles (working s)) |>)
         (published s).
Proof. unfold flush_row, put_article. intros Hr. by minv. Qed.

(** The tag step of a writer, when it may be skipped. *)
Lemma tags_return a (tags : option (list pystr)) (s s' : session kbdb event) a' :
  (match tags with Some l => sync_tags a l | None => mret a end) s = (Return a', s') ->
  t_articles (working s) !! a_id a = Some a ->
  a' = a <| a_tags := default (a_tags a) tags |>
  /\ s' = Session (committed s) ((working s) <| t_articles := <[a_id a := a']> (t_articles (working s)) |>)
            (published s).
Proof.
  intros Hr Ha. destruct tags as [l|]; unfold sync_tags, put_article in Hr; minv; [done|].
  split; [by destruct a'|]. rewrite insert_id by done. by destruct s' as [? [] ?].
Qed.

Lemma create_version_return v (s s' : session kbdb event) x :
  create_version v s = (Return x, s') ->
  s' = Session (committed s) ((working s) <| t_versions := t_versions (working s) ++ [v] |>) (published s).
Proof. unfold create_version, add_version. intros Hr. by minv. Qed.

(** The audit entry, when [b] holds and the service records audits. *)
Definition audit_if (b : bool) (u : user) (act : string) (id : uuid) : list audit_log :=
  if b && audited then [mkAudit (Some (u_id u)) act "article" (Some id)] else [].

Lemma audit_return u act id (s s' : session kbdb event) x :
  _audit audited u act id s = (Return x, s') ->
  s' = Session (committed s) ((working s) <| t_audits := t_audits (working s)
         ++ audit_if true u act id |>) (published s).
Proof.
  unfold _audit, audit_if, add_audit. intros Hr. destruct audited; minv; [done|].
  rewrite app_nil_r. by destruct s' as [? [] ?].
Qed.

(** The durable outcome of writing article [a] with the version rows [vs] and audits [aus]. *)
Definition wrote (s s' : session kbdb event) (a : article) (vs : list article_version)
    (aus : list audit_log) : Prop :=
  s' = durable (published s)
    ((working s) <| t_articles := <[a_id a := a]> (t_articles (working s)) |>
                 <| t_versions := t_versions (working s) ++ vs |>
                 <| t_audits := t_audits (working s) ++ aus |>).

Lemma audit_if_return b u act id (s s' : session kbdb event) x :
  (if b : bool then _audit audited u act id else mret tt) s = (Return x, s') ->
  s' = Session (committed s) ((working s) <| t_audits := t_audits (working s) ++ audit_if b u act id |>)
         (published s).
Proof.
  intros Hr. destruct b.
  - apply audit_return in Hr as ->. done.
  - minv. unfold audit_if. cbn. rewrite app_nil_r. by destruct s' as [? [] ?].
Qed.

Lemma version_if_return (b : bool) v (s s' : session kbdb event) x :
  (if b then create_version v else mret tt) s = (Return x, s') ->
  s' = Session (committed s)
    ((working s) <| t_versions := t_versions (working s) ++ (if b then [v] else []) |>) (published s).
Proof.
  intros Hr. destruct b; [by apply create_version_return in Hr|].
  minv. rewrite app_nil_r. by destruct s' as [? [] ?].
Qed.

Ltac rows_inv :=
  repeat (minv; match goal with
  | H : flush_row _ _ = _ |- _ => apply flush_row_return in H; subst
  | H : create_version _ _ = _ |- _ => apply create_version_return in H; subst
  | H : _audit _ _ _ _ _ = _ |- _ => apply audit_return in H; subst
  | H : (if ?b then _audit _ _ _ _ else _) _ = _ |- _ => apply audit_if_return in H; subst
  | H : (if ?b then create_version _ else _) _ = _ |- _ => apply version_if_return in H; subst
  | H : (match _ with Some _ => sync_tags _ _ | None => _ end) _ = _ |- _ =>
      apply tags_return in H; [destruct H; subst|cbn; apply lookup_insert_eq]
  end); minv.

(** Closes a [wrote] goal: the same tables, the appends reassociated. *)
Ltac wrote_done := unfold wrote, durable; cbn; rewrite ?insert_insert_eq, <- ?app_assoc; done.

Lemma create_rows_return u i a (s s' : session kbdb event) x :
  create_rows audited u i a s = (Return x, s') -> a_tags a = [] ->
  let a' := a <| a_tags := in_tags i |> in
  wrote s s' a' [mkVersion (a_id a) 1 (creation_snapshot i a') (Some (u_id u))]
    (audit_if true u "create" (a_id a) ++ audit_if (String.eqb (a_status a) "published") u "publish" (a_id a)).
Proof.
  unfold create_rows. intros Hr Ht. minv.
  match goal with H : (match in_tags i with [] => _ | _ => _ end) ?s1 = _ |- _ =>
    assert (Hsync : (match (match in_tags i with [] => None | l => Some l end) with
                     | Some l => sync_tags a l | None => mret a end) s1 = (Return x2, x3))
      by (destruct (in_tags i); exact H); clear H end.
  assert (Hd : default (a_tags a) (match in_tags i with [] => None | l => Some l end) = in_tags i)
    by (destruct (in_tags i); [by rewrite Ht|done]).
  rows_inv. rewrite Hd. wrote_done.
Qed.

Lemma update_rows_return u e p c a (s s' : session kbdb event) r :
  update_rows audited u e p c a s = (Return r, s') ->
  r = a <| a_tags := default (a_tags a) (e_tags e) |>
  /\ wrote s s' r (if c then [mkVersion (a_id a) (a_version a) (content_snapshot r None) (Some (u_id u))] else [])
       (audit_if p u "permission_change" (a_id a) ++ audit_if c u "update" (a_id a)).
Proof. unfold update_rows. intros Hr. rows_inv. split; [done|]. wrote_done. Qed.

Lemma restore_rows_return u n sn a (s s' : session kbdb event) r :
  restore_rows audited u n sn a s = (Return r, s') ->
  r = a <| a_tags := default (a_tags a) (sn_tags sn) |>
  /\ wrote s s' r [mkVersion (a_id a) (a_version a) (content_snapshot r (Some n)) (Some (u_id u))]
       (audit_if true u "restore_version" (a_id a)).
Proof. unfold restore_rows. intros Hr. rows_inv. split; [done|]. wrote_done. Qed.
End Rows.

(** What the tag step keeps. *)
Lemma tagged_id x l : a_id (x <| a_tags := l |>) = a_id x.
Proof. done. Qed.
Lemma tagged_status x l : a_status (x <| a_tags := l |>) = a_status x.
Proof. done. Qed.
Lemma tagged_version x l : a_version (x <| a_tags := l |>) = a_version x.
Proof. done. Qed.

(** What the edits keep. *)
Lemma edited_id a e p : a_id (edited_article a e p) = a_id a.
Proof. done. Qed.
Lemma edited_status a e p : a_status (edited_article a e p) = a_status a.
Proof. done. Qed.
Lemma edited_tags a e p : a_tags (edited_article a e p) = a_tags a.
Proof. done. Qed.
Lemma restored_id a sn : a_id (restored_article a sn) = a_id a.
Proof. done. Qed.
Lemma restored_status a sn : a_status (restored_article a sn) = a_status a.
Proof. done. Qed.
Lemma restored_dept a sn : a_dept (restored_article a sn) = default (a_dept a) (sn_dept sn).
Proof. done. Qed.
Lemma restored_sensitivity a sn :
  a_sensitivity (restored_article a sn) = default (a_sensitivity a) (sn_sensitivity sn).
Proof. done. Qed.
Lemma restored_tags a sn : a_tags (restored_article a sn) = a_tags a.
Proof. done. Qed.

Section Runs.
Context `{KbEnv}.
#[local] Opaque edited_article restored_article.
Variable audited : bool.

Lemma readonly_load_article u id : readonly (load_article u id).
Proof. unfold load_article. solve_readonly. Qed.

Lemma load_article_return u id (s s' : session kbdb event) a :
  load_article u id s = (Return a, s') ->
  s' = s /\ t_articles (working s) !! id = Some a /\ a_status a <> "deleted"
  /\ get_by_id_for (working s) u id = Some a.
Proof.
  intros Hr. pose proof (readonly_return _ _ _ _ (readonly_load_article u id) Hr) as ->.
  unfold load_article in Hr. minv. bools. eqs. split_and!; try done.
  unfold get_by_id_for in *.
  match goal with H : (match ?o with Some _ => _ | None => _ end) = Some _ |- _ =>
    destruct o; [|done]; by case_match end.
Qed.

Lemma rollback_return {A} (m : KB A) (s s' : session kbdb event) a :
  rollback_on_error m s = (Return a, s') -> m s = (Return a, s').
Proof. unfold rollback_on_error. destruct (m s) as [[x|e] s1]; [done|discriminate]. Qed.

(** The session after an event that may be withheld. *)
Definition announced (b : bool) (e : event) (s : session kbdb event) : session kbdb event :=
  Session (committed s) (working s) (published s ++ if b then [e] else []).

Lemma publish_if_return (b : bool) e (s s' : session kbdb event) x :
  (if b then publish e else mret tt) s = (Return x, s') -> s' = announced b e s.
Proof.
  intros Hr. unfold announced. destruct b; minv; [done|]. rewrite app_nil_r.
  match goal with |- ?x = _ => by destruct x end.
Qed.

Lemma readonly_create_guards u dept : readonly (ensure_can_create u dept).
Proof. apply readonly_ensure. Qed.
Lemma readonly_resolve_audience u d ids : readonly (resolve_audience u d ids).
Proof. unfold resolve_audience. solve_readonly. Qed.

Lemma create_return now new_id u i (s s' : session kbdb event) r :
  create_article audited now new_id u i s = (Return r, s') ->
  exists d audiences st s1,
    let a := created_article now new_id u i (dp_name d) audiences st in
    r = a <| a_tags := in_tags i |>
    /\ wrote s s1 r [mkVersion new_id 1 (creation_snapshot i r) (Some (u_id u))]
         (audit_if audited true u "create" new_id ++ audit_if audited (String.eqb st "published") u "publish" new_id)
    /\ s' = announced (String.eqb st "published") (ArticlePublished new_id) s1
    /\ d ∈ t_departments (working s) /\ dp_company_domain d = u_company_domain u /\ dp_active d = true
    /\ (exists q, has_permission u "article.create"
          (Some (transient (u_company_domain u) (dp_name d) (Some (u_id u)))) q = true)
    /\ (st = "published" -> in_publish_without_review i = true
          \/ exists q, has_permission u "article.publish"
               (Some (transient (u_company_domain u) (dp_name d) (Some (u_id u)))) q = true).
Proof.
  unfold create_article, ensure_can_create. intros Hr. minv.
  match goal with H : require_active_department _ _ _ = (Return ?x, _) |- _ =>
    apply require_active_department_return in H as (-> & Hd & Hc & Ha); rename x into d end.
  match goal with H : resolve_audience _ _ _ _ = _ |- _ =>
    apply readonly_return in H; [subst|apply readonly_resolve_audience] end.
  match goal with H : rollback_on_error _ _ = _ |- _ =>
    apply rollback_return in H; apply create_rows_return in H; [|done]; cbn zeta in H; rename H into Hw end.
  match goal with H : (if ?b then publish _ else _) _ = _ |- _ => apply publish_if_return in H end.
  subst. rewrite Hw in *. cbn in *.
  match goal with H : <[_:=_]> _ !! _ = Some _ |- _ => rewrite lookup_insert_eq in H; simplify_eq end.
  do 4 eexists. split_and!; [reflexivity|reflexivity|reflexivity|done..| |].
  - match goal with H : has_any_scope _ _ _ _ = true |- _ =>
      apply has_any_scope_iff in H as (q & _ & Hq) end. eauto.
  - intros Hst. match type of Hst with (if ?b then _ else _) = _ => destruct b eqn:Hb; [|done] end.
    apply orb_true_iff in Hb as [Hb|Hb]; [right|by left].
    apply has_any_scope_iff in Hb as (q & _ & Hq). eauto.
Qed.

Lemma readonly_may_move u a n : readonly (ensure_may_move u a n).
Proof. unfold ensure_may_move. solve_readonly. Qed.
Lemma readonly_proposed_audience a ids : readonly (proposed_audience a ids).
Proof. unfold proposed_audience. solve_readonly. Qed.

Lemma update_return u id e (s s' : session kbdb event) r :
  update_article audited u id e s = (Return r, s') ->
  exists a proposed s1,
    let p := permissions_changed a e proposed in
    let c := content_changed a e in
    t_articles (working s) !! id = Some a /\ a_status a <> "deleted" /\ can_edit_article u a = true
    /\ r = (edited_article a e proposed) <| a_tags := default (a_tags a) (e_tags e) |>
    /\ wrote s s1 r (if c then [mkVersion (a_id a) (a_version r) (content_snapshot r None) (Some (u_id u))] else [])
         (audit_if audited p u "permission_change" (a_id a) ++ audit_if audited c u "update" (a_id a))
    /\ s' = announced (c && String.eqb (a_status a) "published") (ArticleUpdated (a_id a))
             (announced p (PermissionChanged (a_id a)) s1)
    /\ (default (a_dept a) (e_dept e) <> a_dept a ->
          has_any_scope u "article.edit" (Some (transient (a_company_domain a)
            (default (a_dept a) (e_dept e)) (a_owner_id a))) ["department"; "company"; "global"] = true).
Proof.
  unfold update_article. intros Hr. minv.
  match goal with H : load_article _ _ _ = (Return ?x, _) |- _ =>
    apply load_article_return in H as (-> & Ha & Hst & _); rename x into a end.
  match goal with H : ensure_may_move _ _ _ ?s1 = (Return _, ?s2) |- _ =>
    rename H into Hmv; pose proof (readonly_return _ _ _ _ (readonly_may_move _ _ _) Hmv); subst s2 end.
  match goal with H : proposed_audience _ _ _ = (Return ?x, _) |- _ =>
    apply readonly_return in H; [subst; rename x into proposed|apply readonly_proposed_audience] end.
  match goal with H : rollback_on_error _ _ = _ |- _ =>
    apply rollback_return in H; apply update_rows_return in H as [Hu Hw] end.
  repeat match goal with H : (if ?b then publish _ else _) _ = _ |- _ => apply publish_if_return in H as -> end.
  rewrite edited_tags in Hu. rewrite edited_id in Hw. rewrite Hu in Hw.
  exists a, proposed. eexists. cbn zeta. rewrite Hu, tagged_version, tagged_id, tagged_status, edited_id, edited_status.
  split_and!; [exact Ha|exact Hst|assumption|reflexivity|exact Hw|reflexivity|].
  intros Hne. unfold ensure_may_move in Hmv. rewrite bool_decide_eq_false_2 in Hmv by done. by minv.
Qed.

Lemma restore_return u id n (s s' : session kbdb event) r :
  restore_version audited u id n s = (Return r, s') ->
  exists a v s1,
    t_articles (working s) !! id = Some a /\ can_edit_article u a = true
    /\ v ∈ t_versions (working s) /\ av_article_id v = id /\ av_version v = n /\ n <> a_version a
    /\ r = (restored_article a (av_snapshot v)) <| a_tags := default (a_tags a) (sn_tags (av_snapshot v)) |>
    /\ wrote s s1 r [mkVersion (a_id a) (a_version r) (content_snapshot r (Some n)) (Some (u_id u))]
         (audit_if audited true u "restore_version" (a_id a))
    /\ s' = announced (String.eqb (a_status a) "published") (ArticleUpdated (a_id a)) s1.
Proof.
  unfold restore_version. intros Hr. minv.
  match goal with H : load_article _ _ _ = (Return ?x, _) |- _ =>
    apply load_article_return in H as (-> & Ha & Hst & Hg); rename x into a end.
  match goal with H : get_version_by_number _ _ _ _ = Some ?x |- _ =>
    unfold get_version_by_number in H; rewrite Hg in H; apply find_some in H as [Hin Hf]; rename x into v end.
  match goal with H : rollback_on_error _ _ = _ |- _ =>
    apply rollback_return in H; apply restore_rows_return in H as [Hu Hw] end.
  match goal with H : (if ?b then publish _ else _) _ = _ |- _ => apply publish_if_return in H as -> end.
  bools. eqs. subst n. apply list_elem_of_In in Hin.
  rewrite restored_tags in Hu. rewrite restored_id in Hw. rewrite Hu in Hw.
  exists a, v. eexists. rewrite Hu, tagged_version, tagged_id, tagged_status, restored_id, restored_status.
  split_and!; [exact Ha|assumption|exact Hin|assumption|reflexivity|assumption|reflexivity
              |exact Hw|reflexivity].
Qed.

Lemma delete_return today u id (s s' : session kbdb event) x :
  soft_delete_article audited today u id s = (Return x, s') ->
  exists a s1, t_articles (working s) !! id = Some a
    /\ can_delete_article u a = true /\ a_legal_hold a = false
    /\ (forall d, a_retention_until a = Some d -> d < today)
    /\ wrote s s1 (a <| a_status := "deleted" |>) [] (audit_if audited true u "delete" id)
    /\ s' = announced true (ArticleDeleted id) s1.
Proof.
  unfold soft_delete_article, soft_delete_rows, soft_delete, put_article. intros Hr. minv.
  match goal with H : load_article _ _ _ = (Return ?x, _) |- _ =>
    apply load_article_return in H as (-> & Ha & Hst & Hg); rename x into a end.
  match goal with H : rollback_on_error _ _ = _ |- _ => apply rollback_return in H end. minv.
  rewrite Hg in *. minv.
  match goal with H : _audit _ _ _ _ _ = _ |- _ => apply audit_return in H; subst end.
  bools. do 2 eexists. split_and!; [done|done|done| | |reflexivity].
  - intros d Hd. rewrite Hd in *. by apply Z.ltb_lt.
  - unfold wrote, durable. cbn. by rewrite app_nil_r.
Qed.
(** ** Failed calls *)

Ltac guards :=
  repeat first
    [ apply atomic_quiet_bind; [solve [apply readonly_quiet; first
        [apply readonly_load_article | apply readonly_may_move | apply readonly_proposed_audience
        | apply readonly_create_guards | apply readonly_resolve_audience | solve_readonly]]|intros] ].

Lemma quiet_audit u act id : quiet (_audit audited u act id).
Proof. unfold _audit. solve_quiet. Qed.
Lemma quiet_flush a : quiet (flush_row a).
Proof. unfold flush_row. solve_quiet. Qed.
Lemma quiet_tags a l : quiet (sync_tags a l).
Proof. unfold sync_tags. solve_quiet. Qed.
Lemma quiet_version v : quiet (create_version v).
Proof. unfold create_version. solve_quiet. Qed.

(** Row writers: quiet up to the final commit. *)
Ltac writers :=
  apply atomic_rollback_on_error;
  repeat (apply atomic_quiet_bind;
    [solve [ apply quiet_flush | apply quiet_version | apply quiet_audit
           | case_match; first [apply quiet_tags | apply quiet_version | apply quiet_audit | apply quiet_ret]
           | solve_quiet]|intros]);
  apply atomic_total; solve_total.

Lemma atomic_update u id e : atomic (update_article audited u id e).
Proof.
  unfold update_article. guards. apply atomic_bind_total; [|intros; solve_total].
  unfold update_rows. writers.
Qed.
Lemma atomic_restore u id n : atomic (restore_version audited u id n).
Proof.
  unfold restore_version. guards. apply atomic_bind_total; [|intros; solve_total].
  unfold restore_rows. writers.
Qed.
Lemma atomic_delete today u id : atomic (soft_delete_article audited today u id).
Proof.
  unfold soft_delete_article. guards. apply atomic_bind_total; [|intros; solve_total].
  unfold soft_delete_rows, soft_delete. writers.
Qed.
Lemma atomic_create now new_id u i : atomic (create_article audited now new_id u i).
Proof.
  unfold create_article. guards.
  intros s e s' Hr. apply bind_raise in Hr as [Hr|(x & s1 & Hw & Hr)].
  - revert Hr. assert (Ha : forall x, atomic (rollback_on_error (create_rows audited u i x)))
      by (intros; unfold create_rows; writers). apply Ha.
  - apply rollback_return, create_rows_return in Hw; [|done]. cbn zeta in Hw. unfold wrote in Hw. subst s1. exfalso.
    rewrite run_query in Hr. erewrite run_some_or in Hr by (cbn; apply lookup_insert_eq).
    match type of Hr with ?m ?s1 = _ =>
      assert (Ht : total m) by solve_total; destruct (Ht s1) as (? & ? & ?); congruence end.
Qed.
End Runs.

(** ** The handlers keep the histories *)

Section Keep.
Context `{KbEnv}.
Variable audited : bool.

Definition articles_and_versions (db : kbdb) := (t_articles db, t_versions db).

Lemma recorded_ext db db' : articles_and_versions db' = articles_and_versions db -> recorded db -> recorded db'.
Proof. unfold recorded, articles_and_versions. intros [= -> ->]. done. Qed.

(** A row written with its next version, or with none when the content stays. *)
Lemma wrote_recorded (s s' : session kbdb event) a v aus :
  wrote s s' a [v] aus -> recorded (working s) ->
  av_article_id v = a_id a -> av_version v = a_version a -> describes v a ->
  match t_articles (working s) !! a_id a with
  | Some before => a_version a = a_version before + 1
  | None => a_version a = 1
  end -> recorded (committed s').
Proof. intros -> Hok Hi Hv Hd Hn. by apply histories_append. Qed.

Lemma wrote_nothing (s s' : session kbdb event) a aus before :
  wrote s s' a [] aus -> recorded (working s) -> t_articles (working s) !! a_id a = Some before ->
  a_version a = a_version before -> content_of a = content_of before -> recorded (committed s').
Proof.
  intros -> Hok Hb Hv Hc. unfold recorded, durable. cbn. rewrite app_nil_r.
  by apply (histories_touch _ _ _ before).
Qed.

Lemma differs_default {A} `{EqDecision A} (new : option A) old :
  differs new old = false -> default old new = old.
Proof.
  destruct new as [x|]; cbn; [|done]. intros Hd%bool_decide_eq_false. by apply dec_stable.
Qed.

Lemma unchanged_content a e p :
  content_changed a e = false ->
  content_of (edited_article a e p) = content_of a /\ a_version (edited_article a e p) = a_version a.
Proof.
  intros Hc. split; [|unfold edited_article; cbn; by rewrite Hc].
  unfold content_changed in Hc. bools. unfold content_of, edited_article. cbn.
  repeat match goal with H : differs ?n _ = false |- _ => apply differs_default in H; rewrite H; clear H end.
  done.
Qed.

Lemma edited_version a e p :
  a_version (edited_article a e p) = if content_changed a e then a_version a + 1 else a_version a.
Proof. done. Qed.
Lemma restored_version a sn : a_version (restored_article a sn) = a_version a + 1.
Proof. done. Qed.

Lemma preserves_create now new_id u i (s : session kbdb event) :
  committed s = working s -> t_articles (working s) !! new_id = None -> recorded (working s) ->
  recorded (committed (create_article audited now new_id u i s).2).
Proof.
  intros Hc Hnew Hok. destruct (create_article audited now new_id u i s) as [[r|e] s'] eqn:Hr; cbn.
  - apply create_return in Hr as (d & au & st & s1 & Hr & Hw & -> & _). cbn zeta in *.
    apply (wrote_recorded _ _ _ _ _ Hw); subst r; try done. cbn. by rewrite Hnew.
  - apply atomic_create in Hr as [-> _]. by rewrite Hc.
Qed.
Lemma content_tagged a l : content_of (a <| a_tags := l |>) = content_of a.
Proof. done. Qed.

Lemma recorded_keyed db i a : recorded db -> t_articles db !! i = Some a -> a_id a = i.
Proof. intros Hok. apply (hs_keyed _ _ Hok). Qed.

#[local] Opaque edited_article restored_article.

Lemma preserves_update u id e : preserves recorded (update_article audited u id e).
Proof.
  apply preserves_atomic; [apply atomic_update|]. intros s r s' Hr Hok.
  apply update_return in Hr as (a & p & s1 & Ha & _ & _ & Hr & Hw & -> & _). cbn zeta in *.
  pose proof (recorded_keyed _ _ _ Hok Ha). subst id.
  unfold announced. cbn [committed].
  assert (Hid : a_id r = a_id a) by (by rewrite Hr, tagged_id, edited_id).
  assert (Hv : a_version r = if content_changed a e then a_version a + 1 else a_version a)
    by (by rewrite Hr, tagged_version, edited_version).
  destruct (content_changed a e) eqn:Hc.
  - apply (wrote_recorded _ _ _ _ _ Hw); try done. rewrite Hid, Ha. by rewrite Hv.
  - apply (wrote_nothing _ _ _ _ a Hw); try done; [by rewrite Hid|].
    rewrite Hr, content_tagged. by apply unchanged_content.
Qed.

Lemma preserves_restore u id n : preserves recorded (restore_version audited u id n).
Proof.
  apply preserves_atomic; [apply atomic_restore|]. intros s r s' Hr Hok.
  apply restore_return in Hr as (a & v & s1 & Ha & _ & _ & _ & _ & _ & Hr & Hw & ->).
  pose proof (recorded_keyed _ _ _ Hok Ha). subst id.
  assert (Hid : a_id r = a_id a) by (by rewrite Hr, tagged_id, restored_id).
  assert (Hv : a_version r = a_version a + 1) by (by rewrite Hr, tagged_version, restored_version).
  apply (wrote_recorded _ _ _ _ _ Hw); try done. by rewrite Hid, Ha.
Qed.

Lemma preserves_delete today u id : preserves recorded (soft_delete_article audited today u id).
Proof.
  apply preserves_atomic; [apply atomic_delete|]. intros s r s' Hr Hok.
  apply delete_return in Hr as (a & s1 & Ha & _ & _ & _ & Hw & ->).
  pose proof (recorded_keyed _ _ _ Hok Ha). subst id.
  by apply (wrote_nothing _ _ _ _ a Hw).
Qed.

Lemma preserves_approval now new_id u id rq (s : session kbdb event) :
  committed s = working s -> t_articles (working s) !! new_id = None -> recorded (working s) ->
  recorded (committed (approve_draft now new_id u id rq s).2).
Proof.
  intros Hc Hnew Hok. destruct (approve_draft now new_id u id rq s) as [[r|e] s'] eqn:Hr; cbn.
  - apply approve_return in Hr as (d & c & doc & dept & au & target & eid & nr & Hr).
    cbn zeta in Hr. destruct Hr as (_ & _ & Hp & _ & -> & _ & _ & Ha & Hv & _).
    apply plan_return in Hp as (_ & _ & _ & _ & _ & _ & _ & _ & Ht & _); [|apply (hs_keyed _ _ Hok)].
    unfold recorded. rewrite Ha, Hv. destruct target as [t|]; cbn in *.
    + apply (histories_append _ _ (with_source d au (revised_article now d c dept au eid nr t)));
        try done. cbn. destruct Ht as [-> _]. done.
    + apply (histories_append _ _ (with_source d au (new_article now new_id u d c dept au eid nr)));
        try done. cbn. by rewrite Hnew.
  - apply approve_raise in Hr as [-> _]. by rewrite Hc.
Qed.

(** The workflow's other handlers write neither articles nor versions. *)
Ltac frame_workflow :=
  unfold ensure_own_company, _ensure_preparation_complete;
  repeat first [ solve [solve_frame] | apply frame_bind; [|intros] | apply frame_traverse; intros
               | apply frame_for_each; intros | case_match ].

Lemma frame_create_draft d : frame articles_and_versions (create_draft d).
Proof. unfold create_draft, put_draft, add_transition. frame_workflow. Qed.
Lemma frame_submit now u id why : frame articles_and_versions (submit_draft now u id why).
Proof.
  unfold submit_draft, load_draft, _get_draft_for_user, _transition_draft, update_draft, put_draft,
    add_transition, log_audit, add_audit, add_notification. frame_workflow.
Qed.
Lemma frame_assign now u id who rule why :
  frame articles_and_versions (assign_approver now u id who rule why).
Proof.
  unfold assign_approver, chosen_approver, check_approver, load_draft, _get_draft_for_user,
    update_draft, put_draft, log_audit, add_audit, add_notification. frame_workflow.
Qed.
Lemma frame_decide f u id dec : frame articles_and_versions (decide_restructure f u id dec).
Proof.
  unfold decide_restructure, load_draft, _get_draft_for_user, update_draft, put_draft, log_audit,
    add_audit. frame_workflow.
Qed.
Lemma frame_reject now u id note : frame articles_and_versions (reject_draft now u id note).
Proof.
  unfold reject_draft, load_draft, _get_draft_for_user, _transition_draft, update_draft, put_draft,
    add_transition, log_audit, add_audit, add_notification. frame_workflow.
Qed.
Lemma frame_review new_id u id op cid o title at_ ids note :
  frame articles_and_versions (review_candidate new_id u id op cid o title at_ ids note).
Proof.
  unfold review_candidate, list_candidates, commit_candidate_rows, apply_operation, rename_candidate,
    set_candidate_departments, discard_candidate, merge_candidates, split_candidate, put_candidate,
    log_audit, add_audit, load_draft, _get_draft_for_user. frame_workflow.
Qed.
Lemma frame_commit_candidates now fresh u id :
  frame articles_and_versions (commit_candidates now fresh u id).
Proof.
  unfold commit_candidates, create_children, commit_item, list_candidates, _transition_draft,
    update_draft, put_draft, put_candidate, add_transition, log_audit, add_audit, load_draft,
    _get_draft_for_user.
  repeat first [apply frame_submit | solve [solve_frame] | apply frame_bind; [|intros]
               | apply frame_traverse; intros | apply frame_for_each; intros | case_match].
Qed.
End Keep.

(** ** The transition system *)

Section ArticleLife.
Context `{KbEnv}.
Variable audited : bool.

(** Every call of the two services that may run against a database; the identifier drawn
    for a new article is unused there. *)
Inductive service_call (db : kbdb) : forall A, KB A -> Prop :=
  | sc_create now new_id u i : t_articles db !! new_id = None ->
      service_call db _ (create_article audited now new_id u i)
  | sc_update u id e : service_call db _ (update_article audited u id e)
  | sc_restore u id n : service_call db _ (restore_version audited u id n)
  | sc_delete today u id : service_call db _ (soft_delete_article audited today u id)
  | sc_approve now new_id u id rq : t_articles db !! new_id = None ->
      service_call db _ (approve_draft now new_id u id rq)
  | sc_draft d : service_call db _ (create_draft d)
  | sc_submit now u id why : service_call db _ (submit_draft now u id why)
  | sc_assign now u id who rule why : service_call db _ (assign_approver now u id who rule why)
  | sc_decide f u id dec : service_call db _ (decide_restructure f u id dec)
  | sc_review new_id u id op cid o title at_ ids note :
      service_call db _ (review_candidate new_id u id op cid o title at_ ids note)
  | sc_commit now fresh u id : service_call db _ (commit_candidates now fresh u id)
  | sc_reject now u id note : service_call db _ (reject_draft now u id note).

Definition service_step (db db' : kbdb) : Prop :=
  exists A m s, service_call db A m /\ committed s = db /\ working s = db /\ db' = committed (m s).2.

Lemma preserves_workflow {A} (m : KB A) : frame articles_and_versions m -> preserves recorded m.
Proof. apply preserves_frame, recorded_ext. Qed.

Lemma step_recorded db db' : service_step db db' -> recorded db -> recorded db'.
Proof.
  intros (A & m & s & Hh & Hc & Hw & ->) Hok. subst db. rewrite <- Hw in *. symmetry in Hw.
  destruct Hh; try (rewrite Hw in * );
    first [ by apply preserves_create | by apply preserves_update | by apply preserves_restore
          | by apply preserves_delete | by apply preserves_approval
          | apply preserves_workflow; [|done|done]; first
              [ apply frame_create_draft | apply frame_submit | apply frame_assign
              | apply frame_decide | apply frame_review | apply frame_commit_candidates
              | apply frame_reject ] ].
Qed.

(** The databases the services can reach from one without articles. *)
Definition article_reachable (db : kbdb) : Prop :=
  exists db0, t_articles db0 = ∅ /\ t_versions db0 = [] /\ rtc service_step db0 db.

Lemma reachable_recorded db : article_reachable db -> recorded db.
Proof.
  intros (db0 & Ha & Hv & Hr).
  assert (Hok : recorded db0).
  { unfold recorded. rewrite Ha, Hv. constructor.
    - intros i a Hx. by apply lookup_empty_Some in Hx.
    - by intros t Hx%elem_of_nil.
    - intros i a Hx. by apply lookup_empty_Some in Hx.
    - intros i a Hx. by apply lookup_empty_Some in Hx. }
  clear Ha Hv. induction Hr as [|x y z Hs _ IH]; [done|]. apply IH. by eapply step_recorded.
Qed.


(** Failed calls leave no trace: when [create_article], [update_article],
    [restore_version] or [soft_delete_article] raises, at whatever point, the durable database
    is the one before the call and no event was published. *)
Theorem article_calls_atomic (now : datetime) (today : date) (new_id id : uuid) (u : user)
    (i : article_input) (ed : article_edit) (n : Z) :
  atomic (create_article audited now new_id u i)
  /\ atomic (update_article audited u id ed)
  /\ atomic (restore_version audited u id n)
  /\ atomic (soft_delete_article audited today u id).
Proof. split_and!; [apply atomic_create|apply atomic_update|apply atomic_restore|apply atomic_delete]. Qed.
End ArticleLife.

Section ArticleTheorems.
Context `{KbEnv}.
Variable audited : bool.

Lemma numbers_unique db id a v w :
  recorded db -> t_articles db !! id = Some a -> v ∈ t_versions db -> w ∈ t_versions db ->
  av_article_id v = id -> av_article_id w = id -> av_version v = av_version w -> v = w.
Proof.
  intros Hok Ha Hv Hw Hi Hj. apply (NoDup_map_eq av_version (versions_of (t_versions db) id)).
  - rewrite (hs_numbers _ _ Hok _ _ Ha). apply NoDup_seqZ.
  - apply elem_of_filter_b. by rewrite Hi, Z.eqb_refl.
  - apply elem_of_filter_b. by rewrite Hj, Z.eqb_refl.
Qed.

Lemma last_number db id a v :
  recorded db -> t_articles db !! id = Some a ->
  list.last (versions_of (t_versions db) id) = Some v -> av_version v = a_version a.
Proof.
  intros Hok Ha Hl. pose proof (hs_numbers _ _ Hok _ _ Ha) as Hn.
  pose proof (version_positive _ _ _ _ Hok Ha) as Hp.
  apply last_Some in Hl as [l Hl]. rewrite Hl, map_app in Hn. cbn in Hn.
  replace (a_version a) with ((a_version a - 1) + 1) in Hn by lia. rewrite seqZ_app in Hn by lia.
  apply app_inj_tail in Hn as [_ Hn]. lia.
Qed.

(** The row numbered as the article holds the article's content. *)
Lemma current_version db id a v :
  recorded db -> t_articles db !! id = Some a -> v ∈ t_versions db -> av_article_id v = id ->
  av_version v = a_version a -> describes v a.
Proof.
  intros Hok Ha Hv Hi Hn. destruct (hs_latest _ _ Hok _ _ Ha) as (w & Hw & Hd).
  replace v with w; [done|]. symmetry. apply (numbers_unique db id a); try done.
  - apply last_Some in Hw as [l Hl].
    assert (Hin : w ∈ versions_of (t_versions db) id) by (rewrite Hl; set_solver).
    by apply elem_of_filter_b in Hin as [? _].
  - apply last_Some in Hw as [l Hl].
    assert (Hin : w ∈ versions_of (t_versions db) id) by (rewrite Hl; set_solver).
    apply elem_of_filter_b in Hin as [_ ?]. by eqs.
  - by rewrite (last_number db id a w).
Qed.

Lemma content_restored a v b :
  describes v b -> content_of (restored_article a (av_snapshot v)) = content_of b.
Proof.
  unfold describes, snapshot_content, content_of. intros Hd. simplify_eq Hd.
  intros Ht Hb Hde Hdo Hty Hl. cbn. by rewrite Ht, Hb, Hde, Hdo, Hty, Hl.
Qed.

#[local] Opaque edited_article restored_article.

(** An [update_article] that returns was made by a user who may edit the article (and,
    when the department changes, may edit it there); it durably stores the edited row, and
    exactly when the title, body, department, domain, type or language changed it raises the
    version by one, appends the version row that records the new content and publishes
    [ArticleUpdated] for a published article; a change of sensitivity, department or audience is
    announced by [PermissionChanged]. Edits of tags alone leave neither version nor audit. *)
Theorem update_article_effect (u : user) (id : uuid) (e : article_edit) (s s' : session kbdb event)
    (r : article) (Hrun : update_article audited u id e s = (Return r, s')) :
  exists a proposed, let c := content_changed a e in let p := permissions_changed a e proposed in
    t_articles (working s) !! id = Some a /\ a_status a <> "deleted" /\ can_edit_article u a = true
    /\ (a_dept r <> a_dept a -> has_any_scope u "article.edit"
          (Some (transient (a_company_domain a) (a_dept r) (a_owner_id a)))
          ["department"; "company"; "global"] = true)
    /\ r = (edited_article a e proposed) <| a_tags := default (a_tags a) (e_tags e) |>
    /\ a_version r = (if c then a_version a + 1 else a_version a)
    /\ t_articles (committed s') = <[a_id a := r]> (t_articles (working s))
    /\ t_versions (committed s') = t_versions (working s)
         ++ (if c then [mkVersion (a_id a) (a_version a + 1) (content_snapshot r None) (Some (u_id u))] else [])
    /\ t_audits (committed s') = t_audits (working s)
         ++ audit_if audited p u "permission_change" (a_id a) ++ audit_if audited c u "update" (a_id a)
    /\ published s' = (published s ++ if p then [PermissionChanged (a_id a)] else [])
         ++ (if c && String.eqb (a_status a) "published" then [ArticleUpdated (a_id a)] else []).
Proof.
  apply update_return in Hrun as (a & p & s1 & Ha & Hst & Hed & Hr & Hw & -> & Hmove).
  exists a, p. cbn zeta in *.
  assert (Hv : a_version r = if content_changed a e then a_version a + 1 else a_version a)
    by (by rewrite Hr, tagged_version, edited_version).
  assert (Hid : a_id r = a_id a) by (by rewrite Hr, tagged_id, edited_id).
  assert (Hd : a_dept r = default (a_dept a) (e_dept e)) by (by rewrite Hr).
  unfold wrote, announced in *. rewrite Hid in Hw. subst s1.
  split_and!; try done; [by rewrite Hd|]. cbn. rewrite Hv. by destruct (content_changed a e).
Qed.

(** Undoing an edit: in a database the services can reach, restoring the version an
    article had before an [update_article] brings back its title, body, department, domain,
    type and language as they were; the restored state is a new version on top of the edited
    one, and no earlier version is changed or removed. *)
Theorem undo_edit (u u' : user) (id : uuid) (e : article_edit) (a r r' : article)
    (s s1 s2 : session kbdb event)
    (Hreach : article_reachable audited (working s)) (Ha : t_articles (working s) !! id = Some a)
    (Hedit : update_article audited u id e s = (Return r, s1))
    (Hundo : restore_version audited u' id (a_version a) s1 = (Return r', s2)) :
  content_of r' = content_of a /\ a_version r = a_version a + 1 /\ a_version r' = a_version a + 2
  /\ exists v w, t_versions (committed s2) = t_versions (working s) ++ [v; w]
      /\ av_version v = a_version r /\ describes v r /\ av_version w = a_version r' /\ describes w r'.
Proof.
  apply reachable_recorded in Hreach as Hok.
  apply update_return in Hedit as (a0 & p & s3 & Ha0 & _ & _ & Hr & Hw & -> & _). cbn zeta in *.
  assert (a0 = a) by congruence. subst a0. clear Ha0. pose proof (recorded_keyed _ _ _ Hok Ha) as Hk. subst id.
  assert (Hid : a_id r = a_id a) by (by rewrite Hr, tagged_id, edited_id).
  assert (Hv : a_version r = if content_changed a e then a_version a + 1 else a_version a)
    by (by rewrite Hr, tagged_version, edited_version).
  apply restore_return in Hundo as (b & v & s4 & Hb & _ & Hin & Hi & Hn & Hne & Hr' & Hw' & ->).
  unfold wrote, announced in *. rewrite Hid in Hw. subst s3. cbn in Hb, Hin.
  rewrite lookup_insert_eq in Hb. injection Hb as <-.
  destruct (content_changed a e) eqn:Hc; [|by rewrite Hv in Hne].
  apply elem_of_app in Hin as [Hin|Hin].
  2: { apply elem_of_cons in Hin as [Hvv|Hin%elem_of_nil]; [|done].
       rewrite Hvv in Hn. cbn in Hn. lia. }
  pose proof (current_version _ _ _ _ Hok Ha Hin Hi Hn) as Hd.
  assert (Hv' : a_version r' = a_version a + 2)
    by (rewrite Hr', tagged_version, restored_version, Hv; lia).
  split_and!; [rewrite Hr', content_tagged; by apply content_restored|done|done|].
  subst s4. cbn. do 2 eexists. rewrite <- app_assoc. split_and!; [reflexivity|done|done|done|done].
Qed.

(** A deletion that returns was made by a user who may delete the article, of an article
    neither under legal hold nor within its retention period; the row stays, marked deleted,
    with its versions, and an audited service records the deletion. *)
Theorem soft_delete_effect (today : date) (u : user) (id : uuid) (s s' : session kbdb event) (x : unit)
    (Hrun : soft_delete_article audited today u id s = (Return x, s')) :
  exists a, t_articles (working s) !! id = Some a
    /\ can_delete_article u a = true /\ a_legal_hold a = false
    /\ (forall d, a_retention_until a = Some d -> d < today)
    /\ t_articles (committed s') = <[a_id a := a <| a_status := "deleted" |>]> (t_articles (working s))
    /\ t_versions (committed s') = t_versions (working s)
    /\ t_audits (committed s') = t_audits (working s) ++ audit_if audited true u "delete" id
    /\ published s' = published s ++ [ArticleDeleted id].
Proof.
  apply delete_return in Hrun as (a & s1 & Ha & Hd & Hh & Hr & Hw & ->). exists a.
  unfold wrote in Hw. subst s1. cbn. rewrite app_nil_r. by split_and!.
Qed.

(** No two articles share an external id: what [ix_articles_external_id] keeps. *)
Definition external_ids_unique (db : kbdb) : Prop :=
  forall i j x y, t_articles db !! i = Some x -> t_articles db !! j = Some y ->
    a_external_id x <> None -> a_external_id x = a_external_id y -> a_id x = a_id y.

Lemma run_flush_row a b (s : session kbdb event) :
  recorded (working s) -> external_ids_unique (working s) ->
  t_articles (working s) !! a_id a = Some b -> a_id b = a_id a -> a_external_id b = a_external_id a ->
  flush_row a s = (Return tt, Session (committed s)
    ((working s) <| t_articles := <[a_id a := a]> (t_articles (working s)) |>) (published s)).
Proof.
  intros Hok Hu Hb Hi He. unfold flush_row. rewrite run_query, run_ensure; [done|].
  apply negb_true_iff, existsb_false. intros x Hx.
  apply (elem_of_rows a_id) in Hx; [|apply (hs_keyed _ _ Hok)].
  destruct (Z.eqb_spec (a_id x) (a_id a)) as [|Hne]; [done|]. cbn.
  case_bool_decide as Hn; [|done]. cbn. apply bool_decide_eq_false. intros Hxa.
  apply Hne. rewrite <- Hi. apply (Hu (a_id x) (a_id a) x b); try done; congruence.
Qed.

Lemma run_create_version v (s : session kbdb event) :
  (forall w, w ∈ t_versions (working s) -> av_article_id w = av_article_id v -> av_version w < av_version v) ->
  create_version v s = (Return tt, Session (committed s)
    ((working s) <| t_versions := t_versions (working s) ++ [v] |>) (published s)).
Proof.
  intros Hf. unfold create_version. rewrite run_query, run_ensure; [done|].
  apply negb_true_iff, existsb_false. intros w Hw.
  destruct (Z.eqb_spec (av_article_id w) (av_article_id v)) as [Hi|]; [|done]. cbn.
  apply Z.eqb_neq. specialize (Hf w Hw Hi). lia.
Qed.

Lemma numbers_bounded db i a w :
  recorded db -> t_articles db !! i = Some a -> w ∈ t_versions db -> av_article_id w = i ->
  av_version w < a_version a + 1.
Proof.
  intros Hok Ha Hw Hi.
  assert (Hin : av_version w ∈ map av_version (versions_of (t_versions db) i)).
  { apply elem_of_map. exists w. split; [done|]. apply elem_of_filter_b. by rewrite Hi, Z.eqb_refl. }
  rewrite (hs_numbers _ _ Hok _ _ Ha) in Hin. apply elem_of_seqZ in Hin. lia.
Qed.

Lemma run_sync_tags a (tags : option (list pystr)) (s : session kbdb event) :
  (match tags with Some l => NoDup l | None => True end) -> t_articles (working s) !! a_id a = Some a ->
  let a' := a <| a_tags := default (a_tags a) tags |> in
  (match tags with Some l => sync_tags a l | None => mret a end) s
  = (Return a', Session (committed s) ((working s) <| t_articles := <[a_id a := a']> (t_articles (working s)) |>)
                  (published s)).
Proof.
  intros Hn Ha. cbn zeta. destruct tags as [l|]; cbn [default].
  - unfold sync_tags. by rewrite run_ensure by (by apply bool_decide_eq_true).
  - assert (Heq : a <| a_tags := a_tags a |> = a) by (by destruct a). cbn [id from_option]. rewrite Heq.
    rewrite insert_id by done. by destruct s as [? [] ?].
Qed.

Lemma run_restore_rows u n sn a b (s : session kbdb event) :
  recorded (working s) -> external_ids_unique (working s) ->
  t_articles (working s) !! a_id a = Some b -> a_external_id b = a_external_id a ->
  a_version a = a_version b + 1 -> (match sn_tags sn with Some l => NoDup l | None => True end) ->
  exists s', restore_rows audited u n sn a s = (Return (a <| a_tags := default (a_tags a) (sn_tags sn) |>), s').
Proof.
  intros Hok Hu Hb He Hv Ht. pose proof (recorded_keyed _ _ _ Hok Hb) as Hi. unfold restore_rows.
  rewrite (run_bind _ _ _ _ _ (run_flush_row a b s Hok Hu Hb Hi He)).
  erewrite run_bind by (apply run_sync_tags; [done|cbn; apply lookup_insert_eq]).
  erewrite run_bind by (apply run_create_version; cbn; rewrite Hv; intros w Hw Hwi;
    by apply (numbers_bounded (working s) (a_id a))).
  unfold _audit. destruct audited; eexists; reflexivity.
Qed.

Lemma run_load_article u id a (s : session kbdb event) :
  get_by_id_for (working s) u id = Some a -> a_status a <> "deleted" -> load_article u id s = (Return a, s).
Proof.
  intros Hg Hst. unfold load_article. rewrite run_query, Hg, (run_some_or _ _ _ _ a) by done.
  by rewrite run_ensure by (by apply negb_true_iff, String.eqb_neq).
Qed.

(** The edit that only moves an article to another department. *)
Definition move_to (dept : pystr) : article_edit :=
  mkEdit None None (Some dept) None None None None None None None None.

(** Restoring bypasses the check of a move: take an editor of an article who has no right
    to edit in department [d], and an earlier version of the article that was in [d].
    [update_article] refuses to move the article to [d] with a 403; [restore_version] puts it
    there, with the old sensitivity, records no permission change and publishes no
    [PermissionChanged]. *)
Theorem restore_skips_move_check (u : user) (id : uuid) (n : Z) (a : article) (v : article_version)
    (d : pystr) (s : session kbdb event)
    (Hreach : article_reachable audited (working s)) (Hext : external_ids_unique (working s))
    (Hvis : get_by_id_for (working s) u id = Some a) (Hst : a_status a <> "deleted")
    (Hedit : can_edit_article u a = true)
    (Hv : get_version_by_number (working s) u id n = Some v) (Hn : av_version v <> a_version a)
    (Htags : match sn_tags (av_snapshot v) with Some l => NoDup l | None => True end)
    (Hd : sn_dept (av_snapshot v) = Some d) (Hne : d <> a_dept a)
    (Hno : has_any_scope u "article.edit" (Some (transient (a_company_domain a) d (a_owner_id a)))
             ["department"; "company"; "global"] = false) :
  update_article audited u id (move_to d) s
  = (Raise (HTTPException 403 "Not authorized to move an article to this department"), s)
  /\ exists r s', restore_version audited u id n s = (Return r, s')
      /\ t_articles (committed s') = <[id := r]> (t_articles (working s))
      /\ a_dept r = d /\ a_sensitivity r = default (a_sensitivity a) (sn_sensitivity (av_snapshot v))
      /\ t_audits (committed s') = t_audits (working s) ++ audit_if audited true u "restore_version" id
      /\ published s' = published s
           ++ (if String.eqb (a_status a) "published" then [ArticleUpdated id] else []).
Proof.
  apply reachable_recorded in Hreach as Hok.
  assert (Ha : t_articles (working s) !! id = Some a).
  { unfold get_by_id_for in Hvis. destruct (t_articles (working s) !! id); [|done]. by destruct (_authorized_article_filters _ _ _). }
  pose proof (recorded_keyed _ _ _ Hok Ha) as Hid. subst id. split.
  - unfold update_article. rewrite (run_bind _ _ _ _ _ (run_load_article _ _ _ _ Hvis Hst)).
    rewrite !run_ensure by done. apply run_bind_raise. unfold ensure_may_move.
    rewrite bool_decide_eq_false_2 by done. cbn [move_to e_dept default from_option]. unfold id.
    by rewrite Hno.
  - assert (Hrun : exists r s', restore_version audited u (a_id a) n s = (Return r, s')).
    { unfold restore_version. rewrite (run_bind _ _ _ _ _ (run_load_article _ _ _ _ Hvis Hst)).
      rewrite run_ensure, run_query, Hv, (run_some_or _ _ _ _ v) by done.
      rewrite run_ensure by (by apply negb_true_iff, Z.eqb_neq).
      destruct (run_restore_rows u n (av_snapshot v) (restored_article a (av_snapshot v)) a s) as [s1 Hs1];
        try done.
      destruct (String.eqb (a_status a) "published") eqn:Hp; eexists _, _;
        erewrite run_bind by (unfold rollback_on_error; by rewrite Hs1);
        rewrite tagged_status, restored_status, Hp; reflexivity. }
    destruct Hrun as (r & s' & Hrun). exists r, s'. split; [done|].
    apply restore_return in Hrun as (b & w & s1 & Hb & _ & Hin & Hi & Hw & _ & Hr & Hwr & ->).
    assert (b = a) by congruence. subst b.
    assert (w = v).
    { unfold get_version_by_number in Hv. rewrite Hvis in Hv. apply find_some in Hv as [Hvin Hvf]. bools. eqs.
      apply (numbers_unique (working s) (a_id a) a); try done; [by apply list_elem_of_In|congruence]. }
    subst w. pose proof (restored_id a (av_snapshot v)) as Hqi.
    pose proof (restored_dept a (av_snapshot v)) as Hqd. rewrite Hd in Hqd.
    pose proof (restored_sensitivity a (av_snapshot v)) as Hqs.
    revert Hr Hqi Hqd Hqs. generalize (restored_article a (av_snapshot v)). intros q Hr Hqi Hqd Hqs.
    unfold wrote in Hwr. subst s1 r. cbn. by rewrite Hqi, Hqd, Hqs.
Qed.
End ArticleTheorems.

(** ** A concrete history: an article written in HR, moved to IT, and restored *)

Definition first_article : article_input :=
  mkInput $"Leave" $"Body" $"HR" $"people" "SOP" "internal" [$"leave"] "en" None None None None false.
Definition article_created : kbdb :=
  committed (@create_article demo_env true 10 60 ceo first_article (open_session start_db)).2.
Definition article_moved : kbdb :=
  committed (update_article true ceo 60 (move_to $"IT") (open_session article_created)).2.

(** A member of both departments whose role edits within the department they head, IT. *)
Definition it_head : user :=
  mkUser 8 $"h@acme.test" $"H" "acme.test" None "Head" true [sample_dept 1 $"HR"; sample_dept 2 $"IT"]
    [mkDepartmentManager (sample_dept 2 $"IT") true]
    [mkRole 1 "Department Head" (Some "acme.test") true
       [mkRolePermission (Some (mkPermission 1 "article.read")) "company";
        mkRolePermission (Some (mkPermission 2 "article.edit")) "department"] true None].

Lemma article_created_reachable : @article_reachable demo_env true article_created.
Proof.
  exists start_db. split_and!; [reflexivity..|]. apply rtc_once.
  exists _, (@create_article demo_env true 10 60 ceo first_article), (open_session start_db).
  split_and!; [by apply (@sc_create demo_env)|done..].
Qed.

Lemma article_moved_reachable : @article_reachable demo_env true article_moved.
Proof.
  destruct article_created_reachable as (db0 & Ha & Hv & Hr). exists db0. split_and!; [done..|].
  eapply rtc_r; [exact Hr|].
  exists _, (update_article true ceo 60 (move_to $"IT")), (open_session article_created).
  split_and!; [apply (@sc_update demo_env)|done..].
Qed.


Lemma update_article_effect_witness :
  exists r s', update_article true ceo 60 (move_to $"IT") (open_session article_created) = (Return r, s')
    /\ exists a, t_articles article_created !! 60 = Some a /\ a_status a <> "deleted".
Proof.
  destruct (returned_is_some (update_article true ceo 60 (move_to $"IT")
    (open_session article_created))) as (r & s' & Hrun); [by eexists; vm_compute|].
  exists r, s'. split; [exact Hrun|].
  destruct (update_article_effect _ _ _ _ _ _ _ Hrun) as (a & p & Ha & Hst & _).
  exists a. split; [exact Ha|exact Hst].
Defined.

Lemma undo_edit_witness :
  exists a r r' s1 s2, t_articles article_created !! 60 = Some a
    /\ update_article true ceo 60 (move_to $"IT") (open_session article_created) = (Return r, s1)
    /\ restore_version true ceo 60 (a_version a) s1 = (Return r', s2)
    /\ content_of r' = content_of a.
Proof.
  destruct (t_articles article_created !! 60) as [a|] eqn:Ha; [|vm_compute in Ha; discriminate].
  assert (Hv : a_version a = 1) by (vm_compute in Ha; by injection Ha as <-).
  destruct (returned_is_some (update_article true ceo 60 (move_to $"IT")
    (open_session article_created))) as (r & s1 & Hrun); [by eexists; vm_compute|].
  assert (Hs1 : s1 = (update_article true ceo 60 (move_to $"IT") (open_session article_created)).2)
    by (by rewrite Hrun).
  destruct (returned_is_some (restore_version true ceo 60 (a_version a) s1)) as (r' & s2 & Hres);
    [rewrite Hv, Hs1; by eexists; vm_compute|].
  exists a, r, r', s1, s2. split; [reflexivity|]. split; [exact Hrun|]. split; [exact Hres|].
  exact (proj1 (@undo_edit demo_env true ceo ceo 60 (move_to $"IT") a r r' (open_session article_created)
    s1 s2 article_created_reachable Ha Hrun Hres)).
Defined.

Lemma soft_delete_effect_witness :
  exists s', soft_delete_article true 500 ceo 60 (open_session article_moved) = (Return tt, s')
    /\ published s' = [ArticleDeleted 60].
Proof.
  destruct (returned_is_some (soft_delete_article true 500 ceo 60 (open_session article_moved)))
    as ([] & s' & Hrun); [by eexists; vm_compute|].
  exists s'. split; [exact Hrun|].
  destruct (soft_delete_effect _ _ _ _ _ _ _ Hrun) as (a & _ & _ & _ & _ & _ & _ & _ & Hp). exact Hp.
Defined.

(** What the restore below reads of the article and of its first version. *)
Definition article_facts (a : article) :=
  (negb (String.eqb (a_status a) "deleted"), can_edit_article it_head a, a_version a, a_dept a,
   has_any_scope it_head "article.edit" (Some (transient (a_company_domain a) $"HR" (a_owner_id a)))
     ["department"; "company"; "global"]).
Definition version_facts (v : article_version) :=
  (av_version v, sn_tags (av_snapshot v), sn_dept (av_snapshot v)).

Lemma moved_article_facts :
  article_facts <$> get_by_id_for article_moved it_head 60 = Some (true, true, 2, $"IT", false).
Proof. vm_compute. reflexivity. Qed.
Lemma moved_version_facts :
  version_facts <$> get_version_by_number article_moved it_head 60 1 = Some (1, Some [$"leave"], Some $"HR").
Proof. vm_compute. reflexivity. Qed.

Lemma moved_external_ids : external_ids_unique article_moved.
Proof.
  assert (Hall : forallb (fun kv => bool_decide (a_external_id kv.2 = None))
                   (map_to_list (t_articles article_moved)) = true) by (vm_compute; reflexivity).
  intros i j x y Hx _ Hne _. exfalso. apply Hne.
  rewrite forallb_forall in Hall. apply elem_of_map_to_list, list_elem_of_In in Hx.
  apply Hall, bool_decide_eq_true in Hx. exact Hx.
Qed.

Lemma restore_skips_move_check_witness :
  exists r s', restore_version true it_head 60 1 (open_session article_moved) = (Return r, s')
    /\ a_dept r = $"HR"
    /\ update_article true it_head 60 (move_to $"HR") (open_session article_moved)
       = (Raise (HTTPException 403 "Not authorized to move an article to this department"),
          open_session article_moved).
Proof.
  pose proof moved_article_facts as Hf. pose proof moved_version_facts as Hg.
  destruct (get_by_id_for article_moved it_head 60) as [a|] eqn:Ha; [|discriminate].
  destruct (get_version_by_number article_moved it_head 60 1) as [v|] eqn:Hv; [|discriminate].
  unfold article_facts, version_facts in Hf, Hg. cbn [fmap option_fmap option_map] in Hf, Hg.
  injection Hf as Hst Hed Hver Hdept Hno. injection Hg as Hvv Htags Hvd.
  destruct (@restore_skips_move_check demo_env true it_head 60 1 a v $"HR" (open_session article_moved)
    article_moved_reachable moved_external_ids Ha) as (Hrefuse & r & s' & Hrun & _ & Hd & _).
  - intros Heq. rewrite Heq in Hst. discriminate.
  - exact Hed.
  - exact Hv.
  - rewrite Hvv, Hver. discriminate.
  - rewrite Htags. apply NoDup_singleton.
  - exact Hvd.
  - rewrite Hdept. discriminate.
  - exact Hno.
  - exists r, s'. split; [exact Hrun|]. split; [exact Hd|exact Hrefuse].
Defined.
