(* ===== verification/SyncQueue.v ===== *)
(** * The connector work queue (src/domain/sync_queue.py)

    Requests for a provider walk are rows of [sync_requests]; workers claim them under a
    transaction-scoped advisory lock per connector, run them, and put them back with a
    backoff when they fail.  The operations are transactions over the queue's tables; the
    claim is also split at its database statements, so that several workers interleave. *)

From S2P Require Import Prelude PyText Models Rbac.
#[local] Open Scope string_scope.
#[local] Open Scope list_scope.
#[local] Open Scope Z_scope.

(** src/models/connectors.py *)
Record sync_request := mkSyncRequest {
  sr_id : uuid;
  sr_connector_id : uuid;
  sr_scope_id : option uuid;
  sr_job_id : option uuid;
  sr_reason : string;
  sr_priority : Z;
  sr_status : string;
  sr_attempts : Z;
  sr_available_at : datetime;
  sr_locked_at : option datetime;
  sr_started_at : option datetime;
  sr_completed_at : option datetime;
  sr_last_error : option pystr;
  sr_created_at : datetime
}.

#[export] Instance eta_sync_request : Eta sync_request := fun r => mkSyncRequest
  (sr_id r) (sr_connector_id r) (sr_scope_id r) (sr_job_id r) (sr_reason r) (sr_priority r)
  (sr_status r) (sr_attempts r) (sr_available_at r) (sr_locked_at r) (sr_started_at r)
  (sr_completed_at r) (sr_last_error r) (sr_created_at r).

(** src/models/ops.py: the columns the queue writes *)
Record connector_job := mkJob {
  cj_id : uuid;
  cj_connector_id : uuid;
  cj_requested_by : option uuid;
  cj_status : string;
  cj_attempts : Z
}.

Record syncdb := mkSyncDb {
  t_requests : gmap uuid sync_request;
  t_jobs : gmap uuid connector_job
}.

#[export] Instance eta_syncdb : Eta syncdb := fun d => mkSyncDb (t_requests d) (t_jobs d).

Abbreviation SQ := (M syncdb Empty_set).

Definition COALESCIBLE_REQUEST_STATES : list string := ["queued"].

(** [timedelta(minutes=m)], [timedelta(seconds=s)] in microseconds *)
Definition minutes (m : Z) : Z := m * 60000000.
Definition seconds (s : Z) : Z := s * 1000000.

Definition put_request (r : sync_request) : SQ unit :=
  write (fun d => d <| t_requests := <[sr_id r := r]> (t_requests d) |>).

(** ** Enqueueing *)

(** [ORDER BY priority, created_at] *)
Definition sooner (a b : sync_request) : bool :=
  (sr_priority a <? sr_priority b)
  || ((sr_priority a =? sr_priority b) && (sr_created_at a <=? sr_created_at b)).

Definition coalescible (connector_id : uuid) (scope_id : option uuid) (r : sync_request) : bool :=
  (sr_connector_id r =? connector_id) && bool_decide (sr_scope_id r = scope_id)
  && mem (sr_status r) COALESCIBLE_REQUEST_STATES.

Definition find_coalescible (connector_id : uuid) (scope_id : option uuid) (d : syncdb)
    : option sync_request :=
  head (stable_sort sooner (List.filter (coalescible connector_id scope_id) (rows (t_requests d)))).

(** The reused request: more urgent, free of its backoff, its reason upgraded. *)
Definition coalesced (now : datetime) (reason : string) (priority : Z) (r : sync_request)
    : sync_request :=
  let more_urgent := priority <? sr_priority r in
  let r1 := if more_urgent then r <| sr_priority := priority |> else r in
  let r2 := if more_urgent || mem reason ["manual"; "webhook"]
            then r1 <| sr_available_at := Z.min (sr_available_at r) now |> else r1 in
  if negb (String.eqb reason "") && String.eqb (sr_reason r) "polling"
  then r2 <| sr_reason := reason |> else r2.

(** The ids are drawn for the two new rows. *)
Definition enqueue_connector_sync (now : datetime) (request_id job_id : uuid) (connector_id : uuid)
    (scope_id : option uuid) (reason : string) (requested_by : option uuid) (priority : Z)
    : SQ sync_request :=
  existing ← query (find_coalescible connector_id scope_id);
  match existing with
  | Some r =>
      let r' := coalesced now reason priority r in
      put_request r' ;; mret r'
  | None =>
      write (fun d => d <| t_jobs := <[job_id := mkJob job_id connector_id requested_by "queued" 0]> (t_jobs d) |>) ;;
      let r := mkSyncRequest request_id connector_id scope_id (Some job_id) reason priority
                 "queued" 0 now None None None None now in
      put_request r ;; mret r
  end.

(** ** Claiming *)

Definition in_flight (r : sync_request) : bool := mem (sr_status r) ["dispatched"; "running"].

(** The SELECT ... FOR UPDATE of the claim. *)
Definition claimable (now : datetime) (d : syncdb) (request_id : uuid) : option sync_request :=
  match t_requests d !! request_id with
  | Some r => if String.eqb (sr_status r) "queued" && (sr_available_at r <=? now) then Some r else None
  | None => None
  end.

(** Another request of the connector is dispatched or running. *)
Definition connector_busy (d : syncdb) (r : sync_request) : bool :=
  existsb (fun x => (sr_connector_id x =? sr_connector_id r) && negb (sr_id x =? sr_id r) && in_flight x)
    (rows (t_requests d)).

Definition dispatched (now : datetime) (r : sync_request) : sync_request :=
  r <| sr_status := "dispatched" |> <| sr_locked_at := Some now |>
    <| sr_attempts := sr_attempts r + 1 |>.

(** The claim as one transaction; the advisory lock it takes decides between concurrent
    claims and is modelled with them below. *)
Definition claim_sync_request (now : datetime) (request_id : uuid) : SQ (option sync_request) :=
  found ← query (fun d => claimable now d request_id);
  match found with
  | None => mret None
  | Some r =>
      busy ← query (fun d => connector_busy d r);
      if busy : bool then commit ;; mret None
      else put_request (dispatched now r) ;; commit ;; mret (Some (dispatched now r))
  end.

(** ** Running, finishing, recovering *)

Definition started (now : datetime) (r : sync_request) : sync_request :=
  r <| sr_status := "running" |>
    <| sr_started_at := match sr_started_at r with Some t => Some t | None => Some now end |>.

Definition mark_sync_request_running (now : datetime) (request_id : uuid) : SQ unit :=
  found ← query (fun d => t_requests d !! request_id);
  match found with
  | Some r => put_request (started now r) ;; commit
  | None => mret tt
  end.

Definition backoff (attempts : Z) : Z := Z.min 1800 (2 ^ Z.min attempts 10).

Definition finished (now : datetime) (success : bool) (error : option pystr) (retryable : bool)
    (r : sync_request) : sync_request :=
  let r := r <| sr_locked_at := None |>
             <| sr_last_error := match error with
                                 | Some (c :: e) => Some (take 2000 (c :: e)) | _ => None end |> in
  if success then r <| sr_status := "completed" |> <| sr_completed_at := Some now |>
  else if retryable && (sr_attempts r <? 8) then
    r <| sr_status := "queued" |>
      <| sr_available_at := now + seconds (backoff (sr_attempts r)) |>
  else r <| sr_status := "failed" |>.

Definition finish_sync_request (now : datetime) (request_id : uuid) (success : bool)
    (error : option pystr) (retryable : bool) : SQ unit :=
  found ← query (fun d => t_requests d !! request_id);
  match found with
  | Some r => put_request (finished now success error retryable r) ;; commit
  | None => mret tt
  end.

(** SQL comparisons with NULL are not true. *)
Definition before (t : option datetime) (cutoff : datetime) : bool :=
  match t with Some t => t <? cutoff | None => false end.

Definition stale (now : datetime) (stale_after running_stale_after : Z) (r : sync_request) : bool :=
  (String.eqb (sr_status r) "dispatched"
   && (bool_decide (sr_locked_at r = None) || before (sr_locked_at r) (now - minutes stale_after)))
  || (String.eqb (sr_status r) "running"
      && before (sr_started_at r) (now - minutes running_stale_after)).

Definition recovered (now : datetime) (r : sync_request) : sync_request :=
  r <| sr_status := "queued" |> <| sr_available_at := now |> <| sr_locked_at := None |>
    <| sr_last_error := Some $"Recovered after worker/process interruption" |>.

Definition recover_stale_sync_requests (now : datetime) (stale_after running_stale_after : Z) : SQ Z :=
  found ← query (fun d => List.filter (stale now stale_after running_stale_after) (rows (t_requests d)));
  for_each found (fun r => put_request (recovered now r)) ;;
  (match found with [] => mret tt | _ => commit end) ;;
  mret (len found).

(** ** One walk per connector *)

(** [calm d d']: every request in flight in [d'] was in flight in [d], for the same connector. *)
Definition calm (d d' : syncdb) : Prop :=
  keyed sr_id (t_requests d')
  /\ forall i r', t_requests d' !! i = Some r' -> in_flight r' = true ->
       exists r, t_requests d !! i = Some r /\ in_flight r = true
         /\ sr_connector_id r = sr_connector_id r'.

Lemma calm_refl d : keyed sr_id (t_requests d) -> calm d d.
Proof. intros Hk. split; [done|]. eauto. Qed.

Lemma calm_put d d' r :
  calm d d' ->
  (in_flight r = true -> exists r0, t_requests d !! sr_id r = Some r0 /\ in_flight r0 = true
     /\ sr_connector_id r0 = sr_connector_id r) ->
  calm d (d' <| t_requests := <[sr_id r := r]> (t_requests d') |>).
Proof.
  intros [Hk Hc] Hr. split.
  - intros i x Hx. cbn in Hx. apply lookup_insert_Some in Hx as [[<- <-]|[_ Hx]]; [done|by apply Hk].
  - intros i x Hx Hf. cbn in Hx.
    apply lookup_insert_Some in Hx as [[<- <-]|[_ Hx]]; [by apply Hr|by apply Hc].
Qed.

Lemma calm_jobs d d' j : calm d d' -> calm d (d' <| t_jobs := j |>).
Proof. done. Qed.

(** The operations beside the claim, as they may be called: a request is marked running by
    the worker its claim was handed to, while it is in flight. *)
Inductive queue_call (d : syncdb) : forall A, SQ A -> Prop :=
  | q_enqueue now request_id job_id c scope reason by_ priority :
      t_requests d !! request_id = None ->
      queue_call d _ (enqueue_connector_sync now request_id job_id c scope reason by_ priority)
  | q_running now i : (forall r, t_requests d !! i = Some r -> in_flight r = true) ->
      queue_call d _ (mark_sync_request_running now i)
  | q_finish now i success error retryable :
      queue_call d _ (finish_sync_request now i success error retryable)
  | q_recover now a b : queue_call d _ (recover_stale_sync_requests now a b).

Lemma coalescible_queued c scope d r :
  find_coalescible c scope d = Some r -> sr_status r = "queued" /\ r ∈ rows (t_requests d).
Proof.
  unfold find_coalescible. intros Hh. apply head_Some_elem_of in Hh.
  rewrite elem_of_stable_sort in Hh. apply elem_of_filter_b in Hh as [Hin Hc].
  unfold coalescible in Hc. bools. split; [|done].
  match goal with H : mem _ _ = true |- _ => apply mem_In in H; unfold COALESCIBLE_REQUEST_STATES in H end.
  set_solver.
Qed.

Lemma coalesced_keeps now reason p r :
  sr_id (coalesced now reason p r) = sr_id r /\ sr_status (coalesced now reason p r) = sr_status r.
Proof. unfold coalesced. by repeat case_match. Qed.

Lemma finished_keeps now ok e re r :
  sr_id (finished now ok e re r) = sr_id r /\ in_flight (finished now ok e re r) = false.
Proof. unfold finished. by repeat case_match. Qed.

Lemma run_mark now i (s : session syncdb Empty_set) :
  working (mark_sync_request_running now i s).2
  = match t_requests (working s) !! i with
    | Some r => (working s) <| t_requests := <[sr_id r := started now r]> (t_requests (working s)) |>
    | None => working s
    end.
Proof. unfold mark_sync_request_running. rewrite run_query. by destruct (_ !! i). Qed.

Lemma run_finish now i ok e re (s : session syncdb Empty_set) :
  working (finish_sync_request now i ok e re s).2
  = match t_requests (working s) !! i with
    | Some r => (working s) <| t_requests := <[sr_id r := finished now ok e re r]> (t_requests (working s)) |>
    | None => working s
    end.
Proof.
  unfold finish_sync_request. rewrite run_query. destruct (_ !! i) as [r|]; [|done].
  destruct (finished_keeps now ok e re r) as [<- _]. done.
Qed.

Lemma run_recover now a b (s : session syncdb Empty_set) :
  working (recover_stale_sync_requests now a b s).2
  = (working s) <| t_requests := store_rows sr_id
      (map (recovered now) (List.filter (stale now a b) (rows (t_requests (working s)))))
      (t_requests (working s)) |>.
Proof.
  unfold recover_stale_sync_requests. rewrite run_query. set (l := List.filter _ _). clearbody l.
  assert (Hl : forall s0 : session syncdb Empty_set, exists s1,
    for_each l (fun r => put_request (recovered now r)) s0 = (Return tt, s1)
    /\ working s1 = (working s0) <| t_requests := store_rows sr_id (map (recovered now) l) (t_requests (working s0)) |>).
  { induction l as [|r l IH]; intros s0; cbn; [exists s0; split; [done|by destruct (working s0)]|].
    unfold mbind, M_bind. cbn. destruct (IH (Session (committed s0)
      ((working s0) <| t_requests := <[sr_id r := recovered now r]> (t_requests (working s0)) |>)
      (published s0))) as (s1 & -> & Hs1). exists s1. split; [done|]. rewrite Hs1. done. }
  destruct (Hl s) as (s1 & Hs1 & Hw). rewrite (run_bind _ _ _ _ _ Hs1), <- Hw. by destruct l.
Qed.

Lemma queue_call_calm d A (m : SQ A) (s : session syncdb Empty_set) :
  queue_call d A m -> working s = d -> keyed sr_id (t_requests d) -> calm d (working (m s).2).
Proof.
  intros Hq Hw Hk. pose proof (calm_refl d Hk) as Hr. symmetry in Hw. subst d.
  destruct Hq as [now ri ji c sc re by_ p Hf|now i Hi|now i ok e re|now a b].
  - unfold enqueue_connector_sync. rewrite run_query.
    destruct (find_coalescible c sc (working s)) as [r|] eqn:Hfind; cbn.
    + apply coalescible_queued in Hfind as [Hq _]. apply calm_put; [done|]. intros Hin. exfalso.
      unfold in_flight in Hin. rewrite (proj2 (coalesced_keeps now re p r)), Hq in Hin. discriminate.
    + by apply (calm_put _ ((working s) <| t_jobs := _ |>)).
  - rewrite run_mark. destruct (t_requests (working s) !! i) as [r|] eqn:Hr0; [|done].
    pose proof (Hk _ _ Hr0). subst i. apply (calm_put _ _ (started now r)); [done|]. intros _.
    exists r. by split_and!; [|apply Hi|].
  - rewrite run_finish. destruct (t_requests (working s) !! i) as [r|] eqn:Hr0; [|done].
    destruct (finished_keeps now ok e re r) as [Hid Hff]. rewrite <- Hid.
    apply calm_put; [done|]. by rewrite Hff.
  - rewrite run_recover. set (l := List.filter _ _). clearbody l.
    assert (Hl : forall m, calm (working s) ((working s) <| t_requests := m |>) ->
      calm (working s) ((working s) <| t_requests := store_rows sr_id (map (recovered now) l) m |>)).
    { induction l as [|r l IH]; intros m Hm; cbn; [done|]. apply IH.
      apply (calm_put (working s) ((working s) <| t_requests := m |>) (recovered now r) Hm).
      intros Hf. discriminate Hf. }
    apply Hl. by destruct (working s).
Qed.

(** A claim in progress, at the statement it has reached, with the row it locked. *)
Inductive claim :=
  | Selected (r : sync_request)
  | Holding (r : sync_request)
  | Cleared (r : sync_request).

Definition row_of (c : claim) : sync_request :=
  match c with Selected r | Holding r | Cleared r => r end.
(** Past the advisory lock of the connector. *)
Definition holds_lock (c : claim) : bool := match c with Selected _ => false | _ => true end.

(** The committed tables and the claims the workers have in progress. *)
Record world := World { w_db : syncdb; w_claims : gmap Z claim }.

(** One statement of a claim ([locking] says whether the database has advisory locks), a
    worker that dies, or another operation as a whole transaction; a transaction that would
    change a row locked by a claim waits. *)
Inductive claim_step (locking : bool) : world -> world -> Prop :=
  | w_select d cs k now i r : cs !! k = None -> claimable now d i = Some r ->
      (forall k' c, cs !! k' = Some c -> sr_id (row_of c) <> i) ->
      claim_step locking (World d cs) (World d (<[k := Selected r]> cs))
  | w_lock d cs k r : cs !! k = Some (Selected r) ->
      (locking = true -> forall k' c, cs !! k' = Some c -> holds_lock c = true ->
         sr_connector_id (row_of c) <> sr_connector_id r) ->
      claim_step locking (World d cs) (World d (<[k := Holding r]> cs))
  | w_busy d cs k r : cs !! k = Some (Holding r) -> connector_busy d r = true ->
      claim_step locking (World d cs) (World d (delete k cs))
  | w_free d cs k r : cs !! k = Some (Holding r) -> connector_busy d r = false ->
      claim_step locking (World d cs) (World d (<[k := Cleared r]> cs))
  | w_claimed d cs k now r : cs !! k = Some (Cleared r) ->
      claim_step locking (World d cs)
        (World (d <| t_requests := <[sr_id r := dispatched now r]> (t_requests d) |>) (delete k cs))
  | w_died d cs k : claim_step locking (World d cs) (World d (delete k cs))
  | w_other d cs A (m : SQ A) : queue_call d A m ->
      let d' := working (m (open_session d)).2 in
      (forall k c, cs !! k = Some c -> t_requests d' !! sr_id (row_of c) = t_requests d !! sr_id (row_of c)) ->
      claim_step locking (World d cs) (World d' cs).

(** What holds of the queue in every reachable world. *)
Record queue_ok (w : world) : Prop := {
  qo_keyed : keyed sr_id (t_requests (w_db w));
  qo_one : forall i j x y, t_requests (w_db w) !! i = Some x -> t_requests (w_db w) !! j = Some y ->
    in_flight x = true -> in_flight y = true -> sr_connector_id x = sr_connector_id y -> i = j;
  qo_rows : forall k c, w_claims w !! k = Some c ->
    t_requests (w_db w) !! sr_id (row_of c) = Some (row_of c) /\ sr_status (row_of c) = "queued";
  qo_lock : forall k k' c c', w_claims w !! k = Some c -> w_claims w !! k' = Some c' ->
    holds_lock c = true -> holds_lock c' = true ->
    sr_connector_id (row_of c) = sr_connector_id (row_of c') -> k = k';
  qo_distinct : forall k k' c c', w_claims w !! k = Some c -> w_claims w !! k' = Some c' ->
    sr_id (row_of c) = sr_id (row_of c') -> k = k';
  qo_cleared : forall k r, w_claims w !! k = Some (Cleared r) ->
    forall i x, t_requests (w_db w) !! i = Some x -> in_flight x = true ->
      sr_connector_id x <> sr_connector_id r
}.

Lemma queued_not_in_flight r : sr_status r = "queued" -> in_flight r = false.
Proof. unfold in_flight. by intros ->. Qed.

Lemma not_busy d r i x :
  connector_busy d r = false -> keyed sr_id (t_requests d) -> t_requests d !! i = Some x ->
  in_flight x = true -> sr_connector_id x = sr_connector_id r -> sr_id x = sr_id r.
Proof.
  unfold connector_busy. intros Hb Hk Hx Hf Hc. rewrite existsb_false in Hb.
  assert (Hin : x ∈ rows (t_requests d)) by (apply (elem_of_rows sr_id); [done|by rewrite (Hk _ _ Hx)]).
  specialize (Hb x Hin). rewrite Hf, Hc, Z.eqb_refl, andb_true_r in Hb. cbn in Hb. by bools; eqs.
Qed.

(** Claims that lose a member, or whose members only lose the lock, keep the invariant. *)
Lemma queue_ok_delete d cs k : queue_ok (World d cs) -> queue_ok (World d (delete k cs)).
Proof.
  intros [Hk Ho Hr Hl Hd Hc]. constructor; cbn in *; try done.
  - intros k' c [_ Hk']%lookup_delete_Some. eauto.
  - intros k1 k2 c1 c2 [_ H1]%lookup_delete_Some [_ H2]%lookup_delete_Some. eauto.
  - intros k1 k2 c1 c2 [_ H1]%lookup_delete_Some [_ H2]%lookup_delete_Some. eauto.
  - intros k' r [_ Hk']%lookup_delete_Some. eauto.
Qed.

(** One worker's claim moves: the obligations about it alone. *)
Lemma queue_ok_move d cs k c :
  queue_ok (World d cs) ->
  t_requests d !! sr_id (row_of c) = Some (row_of c) -> sr_status (row_of c) = "queued" ->
  (holds_lock c = true -> forall k' c', cs !! k' = Some c' -> k' <> k -> holds_lock c' = true ->
     sr_connector_id (row_of c') <> sr_connector_id (row_of c)) ->
  (forall k' c', cs !! k' = Some c' -> k' <> k -> sr_id (row_of c') <> sr_id (row_of c)) ->
  (forall r, c = Cleared r -> forall i x, t_requests d !! i = Some x -> in_flight x = true ->
     sr_connector_id x <> sr_connector_id r) ->
  queue_ok (World d (<[k := c]> cs)).
Proof.
  intros [Hk Ho Hr Hl Hd Hc] Hrow Hq Hlock Hdist Hclear. constructor; cbn in *; try done.
  - intros k' c' [[<- <-]|[_ Hk']]%lookup_insert_Some; [done|eauto].
  - intros k1 k2 c1 c2 [[<- <-]|[Hn1 H1]]%lookup_insert_Some [[<- <-]|[Hn2 H2]]%lookup_insert_Some Hh1 Hh2 He;
      [done| | |by eapply Hl]; exfalso.
    + by apply (Hlock Hh1 k2 c2).
    + by apply (Hlock Hh2 k1 c1).
  - intros k1 k2 c1 c2 [[<- <-]|[Hn1 H1]]%lookup_insert_Some [[<- <-]|[Hn2 H2]]%lookup_insert_Some He;
      [done| | |by eapply Hd]; exfalso.
    + by apply (Hdist k2 c2).
    + by apply (Hdist k1 c1).
  - intros k' r [[<- Heq]|[_ Hk']]%lookup_insert_Some; [by apply Hclear|eauto].
Qed.

(** A whole transaction that is calm and leaves the locked rows alone. *)
Lemma queue_ok_calm d d' cs :
  queue_ok (World d cs) -> calm d d' ->
  (forall k c, cs !! k = Some c -> t_requests d' !! sr_id (row_of c) = t_requests d !! sr_id (row_of c)) ->
  queue_ok (World d' cs).
Proof.
  intros [Hk Ho Hr Hl Hd Hc] [Hk' Hcalm] Hlocked. constructor; cbn in *; try done.
  - intros i j x y Hx Hy Hfx Hfy He.
    destruct (Hcalm _ _ Hx Hfx) as (x0 & Hx0 & Hfx0 & Hxc).
    destruct (Hcalm _ _ Hy Hfy) as (y0 & Hy0 & Hfy0 & Hyc).
    apply (Ho i j x0 y0); congruence.
  - intros k c Hkc. rewrite (Hlocked _ _ Hkc). eauto.
  - intros k r Hkr i x Hx Hf. destruct (Hcalm _ _ Hx Hf) as (x0 & Hx0 & Hf0 & <-). eauto.
Qed.

(** The claim that passed the check dispatches its row and lets the lock go. *)
Lemma queue_ok_claimed d cs k now r :
  queue_ok (World d cs) -> cs !! k = Some (Cleared r) ->
  (forall k' c, cs !! k' = Some c -> k' <> k -> sr_id (row_of c) <> sr_id r) ->
  queue_ok (World (d <| t_requests := <[sr_id r := dispatched now r]> (t_requests d) |>) (delete k cs)).
Proof.
  intros [Hk Ho Hr Hl Hd Hc] Hcl Hrows. cbn in *.
  pose proof (Hc _ _ Hcl) as Hnone.
  constructor; cbn in *.
  - intros i x [[<- <-]|[_ Hx]]%lookup_insert_Some; [done|by apply Hk].
  - intros i j x y [[<- <-]|[Hi Hx]]%lookup_insert_Some [[<- <-]|[Hj Hy]]%lookup_insert_Some Hfx Hfy He;
      [done| | |by eapply Ho]; exfalso.
    + by apply (Hnone _ _ Hy Hfy).
    + by apply (Hnone _ _ Hx Hfx).
  - intros k' c [Hne Hk']%lookup_delete_Some. split; [|by apply (Hr _ _ Hk')].
    rewrite lookup_insert_ne; [by apply (Hr _ _ Hk')|]. symmetry. by apply (Hrows k').
  - intros k1 k2 c1 c2 [_ H1]%lookup_delete_Some [_ H2]%lookup_delete_Some. eauto.
  - intros k1 k2 c1 c2 [_ H1]%lookup_delete_Some [_ H2]%lookup_delete_Some. eauto.
  - intros k' r' [Hne Hk']%lookup_delete_Some i x Hx Hf He.
    apply lookup_insert_Some in Hx as [[<- <-]|[_ Hx]]; [|by apply (Hc _ _ Hk' _ _ Hx)].
    apply Hne. by apply (Hl k k' (Cleared r) (Cleared r')).
Qed.

Lemma claim_step_ok w w' : claim_step true w w' -> queue_ok w -> queue_ok w'.
Proof.
  intros Hs Hok. pose proof Hok as [Hk Ho Hr Hl Hd Hc]. cbn in *.
  destruct Hs as [d cs k now i r Hnone Hcl Hfree|d cs k r Hsel Hlock|d cs k r Hh Hb|d cs k r Hh Hb
                 |d cs k now r Hcl|d cs k|d cs A m Hq d' Hlocked]; cbn in *.
  - unfold claimable in Hcl. destruct (t_requests d !! i) as [x|] eqn:Hx; [|done].
    case_match eqn:Ht; [|done]. simplify_eq. bools. eqs. pose proof (Hk _ _ Hx). subst i.
    apply queue_ok_move; try done. intros k' c' Hk' _. by apply (Hfree k').
  - destruct (Hr _ _ Hsel) as [Hrow Hq]. apply queue_ok_move; try done.
    + intros _ k' c' Hk' _ Hh. by apply (Hlock eq_refl k').
    + intros k' c' Hk' Hne He. apply Hne. by apply (Hd k' k c' (Selected r)).
  - by apply queue_ok_delete.
  - destruct (Hr _ _ Hh) as [Hrow Hq]. apply queue_ok_move; try done.
    + intros _ k' c' Hk' Hne Hh' He. apply Hne. by apply (Hl k' k c' (Holding r)).
    + intros k' c' Hk' Hne He. apply Hne. by apply (Hd k' k c' (Holding r)).
    + intros r' [= <-] i x Hx Hf He. cbn in *. pose proof (not_busy _ _ _ _ Hb Hk Hx Hf He) as Hid.
      rewrite (Hk _ _ Hx) in Hid. subst i. rewrite Hrow in Hx. simplify_eq.
      by rewrite (queued_not_in_flight _ Hq) in Hf.
  - apply queue_ok_claimed; try done. intros k' c Hk' Hne He. apply Hne. by apply (Hd k' k c (Cleared r)).
  - by apply queue_ok_delete.
  - apply (queue_ok_calm d); [done| |done]. by apply (queue_call_calm d A m (open_session d)).
Qed.

(** The transaction of the code is one uninterrupted run of the claim's statements. *)
Lemma claim_is_steps (k : Z) now i d (o : option sync_request) (s' : session syncdb Empty_set) :
  claim_sync_request now i (open_session d) = (Return o, s') ->
  rtc (claim_step true) (World d ∅) (World (committed s') ∅)
  /\ match o with Some r => t_requests (committed s') !! sr_id r = Some r | None => committed s' = d end.
Proof.
  unfold claim_sync_request. rewrite run_query. cbn [working open_session].
  destruct (claimable now d i) as [r|] eqn:Hc; intros Hr; [|by minv].
  rewrite run_query in Hr. cbn [working open_session] in Hr.
  assert (Hsel : rtc (claim_step true) (World d ∅) (World d {[k := Holding r]})).
  { eapply rtc_l; [by apply (w_select true d ∅ k now i r)|].
    eapply rtc_l; [eapply (w_lock true d _ k r); [apply lookup_insert_eq|]|].
    - intros _ k' c [[_ <-]|[_ Hk']]%lookup_insert_Some; [done|]. by rewrite lookup_empty in Hk'.
    - rewrite insert_insert_eq. apply rtc_refl. }
  assert (Hdel : forall c, delete k ({[k := c]} : gmap Z claim) = ∅) by (intros; by rewrite delete_singleton_eq).
  destruct (connector_busy d r) eqn:Hb; unfold put_request in Hr; minv; cbn.
  - split; [|done]. eapply rtc_r; [exact Hsel|].
    rewrite <- (Hdel (Holding r)). eapply w_busy; [apply lookup_singleton_eq|done].
  - split; [|apply lookup_insert_eq]. eapply rtc_r.
    + eapply rtc_r; [exact Hsel|]. eapply w_free; [apply lookup_singleton_eq|done].
    + rewrite <- (Hdel (Cleared r)). rewrite insert_singleton_eq. eapply w_claimed, lookup_singleton_eq.
Qed.

(** The durable tables after a call in a session of its own. *)
Definition after {A} (m : SQ A) (d : syncdb) : syncdb := committed (m (open_session d)).2.

Lemma after_recover t a b d :
  after (recover_stale_sync_requests t a b) d
  = d <| t_requests := store_rows sr_id
      (map (recovered t) (List.filter (stale t a b) (rows (t_requests d)))) (t_requests d) |>.
Proof.
  pose proof (run_recover t a b (open_session d)) as Hr. cbn [working open_session] in Hr.
  rewrite <- Hr. unfold after, recover_stale_sync_requests. rewrite !run_query. cbn [working open_session].
  destruct (List.filter _ _) as [|x l]; [done|].
  assert (Hl : forall l (s0 : session syncdb Empty_set), exists s1,
    for_each l (fun r => put_request (recovered t r)) s0 = (Return tt, s1)).
  { clear. induction l as [|r l IH]; intros s0; cbn; [eauto|]. unfold mbind, M_bind. cbn. apply IH. }
  destruct (Hl (x :: l) (open_session d)) as [s1 Hs1]. by rewrite !(run_bind _ _ _ _ _ Hs1).
Qed.

Lemma run_recover_open t a b d :
  working (recover_stale_sync_requests t a b (open_session d)).2
  = d <| t_requests := store_rows sr_id
      (map (recovered t) (List.filter (stale t a b) (rows (t_requests d)))) (t_requests d) |>.
Proof. by rewrite run_recover. Qed.

Lemma after_mark t i d r :
  t_requests d !! i = Some r ->
  after (mark_sync_request_running t i) d
  = d <| t_requests := <[sr_id r := started t r]> (t_requests d) |>.
Proof. intros Hr. unfold after, mark_sync_request_running. rewrite run_query. cbn. by rewrite Hr. Qed.

(** A stale row after a recovery. *)
Lemma recover_row t a b d r :
  keyed sr_id (t_requests d) -> t_requests d !! sr_id r = Some r -> stale t a b r = true ->
  keyed sr_id (t_requests (after (recover_stale_sync_requests t a b) d))
  /\ t_requests (after (recover_stale_sync_requests t a b) d) !! sr_id r = Some (recovered t r).
Proof.
  intros Hk Hr Hs. rewrite after_recover. cbn. split; [by apply store_rows_keyed|].
  apply (store_rows_elem sr_id _ _ (recovered t r)).
  - rewrite map_map. by apply (rows_nodup sr_id).
  - apply elem_of_map. exists r. split; [done|]. apply elem_of_filter_b. split; [|done].
    by apply (elem_of_rows sr_id).
Qed.

Lemma walk_stale t a b r t' :
  sr_status r = "running" -> sr_started_at r = Some t' -> t' < t - minutes b -> stale t a b r = true.
Proof. intros Hr Hs Ht. unfold stale, before. rewrite Hr, Hs. cbn. by apply Z.ltb_lt. Qed.

(** The claim of a waiting request whose connector is idle succeeds. *)
Lemma claim_idle t d r :
  t_requests d !! sr_id r = Some r -> sr_status r = "queued" -> sr_available_at r <= t ->
  connector_busy d r = false ->
  claim_sync_request t (sr_id r) (open_session d)
  = (Return (Some (dispatched t r)),
     let d' := d <| t_requests := <[sr_id r := dispatched t r]> (t_requests d) |> in Session d' d' []).
Proof.
  intros Hr Hq Ha Hb. unfold claim_sync_request. rewrite run_query. unfold claimable. cbn [working open_session].
  rewrite Hr, Hq, (proj2 (Z.leb_le _ _) Ha), String.eqb_refl. cbn [andb].
  rewrite run_query. cbn [working open_session]. by rewrite Hb.
Qed.

(** After a calm transaction the only request of a connector that may be in flight is [r]. *)
Lemma idle_after d d' r r' :
  keyed sr_id (t_requests d) -> calm d d' -> sr_id r' = sr_id r -> sr_connector_id r' = sr_connector_id r ->
  (forall x, x ∈ rows (t_requests d) -> sr_connector_id x = sr_connector_id r ->
     in_flight x = true -> sr_id x = sr_id r) ->
  connector_busy d' r' = false.
Proof.
  intros Hk [Hk' Hc] Hi Hcn Hidle. unfold connector_busy. apply existsb_false. intros x Hx.
  apply (elem_of_rows sr_id) in Hx; [|done]. rewrite Hi, Hcn.
  destruct (Z.eqb_spec (sr_connector_id x) (sr_connector_id r)) as [He|]; [|done]. cbn.
  destruct (in_flight x) eqn:Hf; [|by rewrite andb_false_r]. rewrite andb_true_r.
  destruct (Hc _ _ Hx Hf) as (x0 & Hx0 & Hf0 & Hc0). apply negb_false_iff, Z.eqb_eq.
  rewrite <- (Hk _ _ Hx0). apply Hidle; [|congruence|done].
  apply (elem_of_rows sr_id); [done|]. by rewrite (Hk _ _ Hx0).
Qed.

Lemma status_in_flight r : sr_status r = "dispatched" \/ sr_status r = "running" -> in_flight r = true.
Proof. unfold in_flight. by intros [->| ->]. Qed.

Section QueueTheorems.


(** A stalled walk never settles: a request whose walk outlived the recovery window is
    recovered, claimed again and started again; the new walk inherits the old start time, so
    the next recovery puts it back in the queue while it runs, however short it has been
    running, and another worker may claim it beside the walk in progress. *)
Theorem recovered_walk_recovered_again (t0 t1 t2 t3 a b : Z) (d : syncdb) (r : sync_request)
    (t : datetime) (Hk : keyed sr_id (t_requests d)) (Hr : t_requests d !! sr_id r = Some r)
    (Hrun : sr_status r = "running") (Hstart : sr_started_at r = Some t)
    (Hold : t < t0 - minutes b) (H1 : t0 <= t1) (H2 : t1 <= t2) (H3 : t2 <= t3)
    (Hidle : forall x, x ∈ rows (t_requests d) -> sr_connector_id x = sr_connector_id r ->
       in_flight x = true -> sr_id x = sr_id r) :
  let d1 := after (recover_stale_sync_requests t0 a b) d in
  let d2 := after (claim_sync_request t1 (sr_id r)) d1 in
  let d3 := after (mark_sync_request_running t2 (sr_id r)) d2 in
  let d4 := after (recover_stale_sync_requests t3 a b) d3 in
  (exists r1, (claim_sync_request t1 (sr_id r) (open_session d1)).1 = Return (Some r1))
  /\ (exists r3, t_requests d3 !! sr_id r = Some r3 /\ sr_status r3 = "running")
  /\ exists r4, claimable t3 d4 (sr_id r) = Some r4.
Proof.
  cbn zeta. destruct (recover_row t0 a b d r Hk Hr) as [Hk1 Hr1]; [by apply (walk_stale _ _ _ _ t)|].
  set (d1 := after (recover_stale_sync_requests t0 a b) d) in *.
  assert (Hc1 : calm d d1).
  { unfold d1. rewrite after_recover, <- run_recover_open.
    by apply (queue_call_calm d _ _ (open_session d) (q_recover d t0 a b)). }
  assert (Hclaim : claim_sync_request t1 (sr_id r) (open_session d1)
    = (Return (Some (dispatched t1 (recovered t0 r))),
       let d2 := d1 <| t_requests := <[sr_id r := dispatched t1 (recovered t0 r)]> (t_requests d1) |> in
       Session d2 d2 [])).
  { apply (claim_idle t1 d1 (recovered t0 r)); [done|done|done|]. by apply (idle_after d d1 r). }
  cbn zeta in Hclaim. set (d2 := d1 <| t_requests := _ |>) in Hclaim.
  assert (Hd2 : after (claim_sync_request t1 (sr_id r)) d1 = d2) by (unfold after; by rewrite Hclaim).
  rewrite Hd2, Hclaim.
  assert (Hr2 : t_requests d2 !! sr_id r = Some (dispatched t1 (recovered t0 r))) by apply lookup_insert_eq.
  assert (Hk2 : keyed sr_id (t_requests d2)).
  { intros j x Hx. cbn in Hx. apply lookup_insert_Some in Hx as [[<- <-]|[_ Hx]]; [done|by apply Hk1]. }
  rewrite (after_mark _ _ _ _ Hr2). set (r3 := started t2 _).
  split; [by eexists|]. split; [exists r3; split; [apply lookup_insert_eq|done]|].
  set (d3 := d2 <| t_requests := _ |>).
  assert (Hk3 : keyed sr_id (t_requests d3)).
  { intros j x Hx. cbn in Hx. apply lookup_insert_Some in Hx as [[<- <-]|[_ Hx]]; [done|by apply Hk2]. }
  destruct (recover_row t3 a b d3 r3 Hk3) as [_ Hr4]; [apply lookup_insert_eq| |].
  { apply (walk_stale _ _ _ _ t); [done|by cbn; rewrite Hstart|lia]. }
  exists (recovered t3 r3). unfold claimable.
  change (sr_id r) with (sr_id r3). rewrite Hr4. cbn. by rewrite Z.leb_refl.
Qed.

(** Retries are bounded and quick: a failed walk of a claimed request goes back to the
    queue at most seven times, each time to wait [2 ^ attempts] seconds and never more than
    128, so the cap of 1800 seconds is never reached; the eighth failure, or one that may not
    be retried, is final. *)
Theorem retry_bounded (now : datetime) (error : option pystr) (retryable : bool) (r : sync_request)
    (Hclaimed : 1 <= sr_attempts r) :
  let r' := finished now false error retryable r in
  sr_attempts r' = sr_attempts r /\ sr_locked_at r' = None
  /\ (if retryable && (sr_attempts r <? 8)
      then sr_status r' = "queued" /\ sr_available_at r' = now + seconds (2 ^ sr_attempts r)
           /\ now + seconds 2 <= sr_available_at r' <= now + seconds 128
      else sr_status r' = "failed" /\ sr_available_at r' = sr_available_at r).
Proof.
  cbn zeta. unfold finished. cbn. destruct (retryable && (sr_attempts r <? 8)) eqn:Hb; cbn; [|done].
  bools. assert (Hlt : sr_attempts r < 8) by (by apply Z.ltb_lt).
  assert (Hpow : 2 ^ 1 <= 2 ^ sr_attempts r <= 2 ^ 7) by (split; apply Z.pow_le_mono_r; lia).
  unfold backoff. rewrite (Z.min_l (sr_attempts r) 10) by lia.
  rewrite Z.min_r by lia. unfold seconds. split_and!; try done; lia.
Qed.
End QueueTheorems.

(** ** A concrete queue *)

Definition empty_queue : syncdb := mkSyncDb ∅ ∅.
Definition one_request : syncdb :=
  working (enqueue_connector_sync 10 1 2 7 None "webhook" None 50 (open_session empty_queue)).2.
Definition one_claimed : syncdb := committed (claim_sync_request 20 1 (open_session one_request)).2.


Definition stalled_request : sync_request :=
  mkSyncRequest 1 7 None (Some 2) "webhook" 50 "running" 1 0 (Some 0) (Some 0) None None 0.
Definition stalled_queue : syncdb := mkSyncDb {[1 := stalled_request]} ∅.

(** A walk started at 0 and recovered after three hours runs again for one second. *)
Lemma recovered_walk_recovered_again_witness :
  let t0 := minutes 181 in
  let d1 := after (recover_stale_sync_requests t0 15 180) stalled_queue in
  let d2 := after (claim_sync_request t0 1) d1 in
  let d3 := after (mark_sync_request_running t0 1) d2 in
  let d4 := after (recover_stale_sync_requests (t0 + seconds 1) 15 180) d3 in
  exists r4, claimable (t0 + seconds 1) d4 1 = Some r4.
Proof.
  assert (Hk : keyed sr_id (t_requests stalled_queue)).
  { intros i x Hx. cbn in Hx. apply lookup_singleton_Some in Hx as [<- <-]. reflexivity. }
  refine (proj2 (proj2 (recovered_walk_recovered_again (minutes 181) (minutes 181) (minutes 181)
    (minutes 181 + seconds 1) 15 180 stalled_queue stalled_request 0 Hk eq_refl eq_refl eq_refl
    ltac:(vm_compute; reflexivity) (Z.le_refl _) (Z.le_refl _) ltac:(vm_compute; discriminate) _))).
  intros x Hx _ _. apply (elem_of_rows sr_id) in Hx; [|exact Hk].
  cbn in Hx. apply lookup_singleton_Some in Hx as [Hx _]. symmetry. exact Hx.
Defined.

Lemma retry_bounded_witness :
  sr_available_at (finished 1000 false None true stalled_request) = 1000 + seconds 2.
Proof.
  destruct (retry_bounded 1000 None true stalled_request ltac:(cbn; lia)) as (_ & _ & H).
  exact (proj1 (proj2 H)).
Defined.
