(* ===== verification/Outbox.v ===== *)
(** * Domain events and their outbox

    src/domain/events.py and the event tasks of src/workers/tasks.py. A published event is a
    row of [outbox_events] that is handed to a worker (as a message of the task queue) or run
    in the process itself; a message can be lost, wait behind other work or come twice, a
    process can die, and two sweeps hand unsettled rows out again. The operations are
    functions on the rows, the queues and the running tasks, with what the environment
    answers as arguments; [step] interleaves them. *)

From S2P Require Import Prelude PyText Models Rbac Store SyncQueue.
From Stdlib Require String.
#[local] Open Scope string_scope.
#[local] Open Scope list_scope.
#[local] Open Scope Z_scope.

(** ** Rows, queues, tasks *)

(** src/models/ops.py *)
Record outbox_event := mkOutbox {
  oe_id : uuid;
  oe_event_type : string;
  oe_payload : json;
  oe_status : string;
  oe_attempts : Z;
  oe_next_attempt_at : datetime;
  oe_last_error : option pystr;
  oe_completed_at : option datetime;
  oe_dead_at : option datetime;
  oe_created_at : datetime
}.
#[export] Instance eta_outbox_event : Eta outbox_event := fun e => mkOutbox
  (oe_id e) (oe_event_type e) (oe_payload e) (oe_status e) (oe_attempts e) (oe_next_attempt_at e)
  (oe_last_error e) (oe_completed_at e) (oe_dead_at e) (oe_created_at e).

Record dead_letter_job := mkDeadLetter { dl_source_queue : string; dl_payload : json; dl_error : pystr }.

(** src/models/ai.py: a cached answer and the articles it quotes *)
Record ai_cache := mkCache { ca_key : string; ca_article_ids : list uuid }.

(** An event with its payload, as it waits in the queue or runs as a task of the process. *)
Record message := mkMessage { ms_event_type : string; ms_payload : json }.

(** The tasks of the worker that a domain event stands for. *)
Inductive article_work :=
  | generate_embeddings_task (article_id : uuid)
  | recompute_permissions_task (article_id : uuid)
  | delete_article_chunks_task (article_id : uuid).

(** [articles.index_status] and [index_error], by article *)
Definition index_table : Type := gmap uuid (string * option pystr).

Record outbox_world := mkWorld {
  ow_now : datetime;
  ow_events : gmap uuid outbox_event;
  ow_dead_letters : list dead_letter_job;
  ow_cache : list ai_cache;
  ow_messages : list message;
  ow_work : list article_work;
  ow_tasks : list message;
  ow_index : index_table
}.
#[export] Instance eta_outbox_world : Eta outbox_world := fun w => mkWorld
  (ow_now w) (ow_events w) (ow_dead_letters w) (ow_cache w) (ow_messages w) (ow_work w) (ow_tasks w)
  (ow_index w).

(** [payload.get(key)] where the value, if there is one, is an id. *)
Definition id_of (key : string) (payload : json) : option uuid :=
  match assoc key payload with Some (PId u) => Some u | _ => None end.

Definition put_event (e : outbox_event) (w : outbox_world) : outbox_world :=
  w <| ow_events := <[oe_id e := e]> (ow_events w) |>.
Definition add_dead_letter (source_queue : string) (payload : json) (error : pystr) (w : outbox_world)
    : outbox_world :=
  w <| ow_dead_letters := ow_dead_letters w ++ [mkDeadLetter source_queue payload error] |>.

(** ** Publishing *)

(** The topics of the services ([Store.event]) as the bus is handed them. *)
Definition event_message (isoformat : datetime -> pystr) (e : event) : message :=
  match e with
  | ArticlePublished a => mkMessage "ArticlePublished" [("article_id", PId a)]
  | ArticleUpdated a => mkMessage "ArticleUpdated" [("article_id", PId a)]
  | ArticleDeleted a => mkMessage "ArticleDeleted" [("article_id", PId a)]
  | PermissionChanged a => mkMessage "PermissionChanged" [("article_id", PId a)]
  | ReviewScheduled a t => mkMessage "ReviewScheduled" [("article_id", PId a); ("next_review", PText (isoformat t))]
  | ReviewExpired a => mkMessage "ReviewExpired" [("article_id", PId a)]
  end.

(** What the environment answers to one [publish]. *)
Record publish_env := mkPublishEnv {
  pe_outbox_id : option uuid;      (** the id of the new row; [None]: it could not be written *)
  pe_cache_error : option pystr;   (** the cache invalidation failed *)
  pe_dead_letters : bool;          (** a dead letter can be written *)
  pe_celery : bool;                (** [JOB_MODE] is celery *)
  pe_queued : bool;                (** the broker took the message *)
  pe_listeners : list (json -> option pystr)   (** the subscribed callbacks: their errors *)
}.

Definition invalidates (event_type : string) : bool :=
  mem event_type ["ArticlePublished"; "ArticleUpdated"; "PermissionChanged"; "ArticleDeleted"; "ConflictResolved"].

Definition _mark_outbox (event_id : option uuid) (status : string) (error : option pystr) (w : outbox_world)
    : outbox_world :=
  match event_id ≫= fun i => ow_events w !! i with
  | None => w
  | Some e =>
      put_event (mkOutbox (oe_id e) (oe_event_type e) (oe_payload e) status (oe_attempts e) (oe_next_attempt_at e) error
        (if String.eqb status "completed" then Some (ow_now w) else oe_completed_at e)
        (if negb (String.eqb status "completed") && String.eqb status "dead" then Some (ow_now w) else oe_dead_at e)
        (oe_created_at e)) w
  end.

(** The new row, and the payload that carries its id. *)
Definition persist_event (outbox_id : option uuid) (m : message) (w : outbox_world) : outbox_world * message :=
  match outbox_id with
  | Some i =>
      (put_event (mkOutbox i (ms_event_type m) (ms_payload m) "pending" 0 (ow_now w) None None None (ow_now w)) w,
       mkMessage (ms_event_type m) (json_set (ms_payload m) "_outbox_id" (PId i)))
  | None => (w, m)
  end.

Definition invalidate_cache (env : publish_env) (m : message) (w : outbox_world) : outbox_world :=
  if invalidates (ms_event_type m) then
    match id_of "article_id" (ms_payload m) with
    | None => w
    | Some article_id =>
        match pe_cache_error env with
        | None =>
            w <| ow_cache := List.filter (fun c => negb (existsb (Z.eqb article_id) (ca_article_ids c))) (ow_cache w) |>
        | Some error =>
            if pe_dead_letters env then add_dead_letter ("cache:" +:+ ms_event_type m) (ms_payload m) error w else w
        end
    end
  else w.

Definition run_listeners (env : publish_env) (m : message) (w : outbox_world) : outbox_world :=
  fold_left (fun w callback =>
      match callback (ms_payload m) with
      | Some error => if pe_dead_letters env then add_dead_letter (ms_event_type m) (ms_payload m) error w else w
      | None => w
      end) (pe_listeners env) w.

Definition start_lifecycle (m : message) (w : outbox_world) : outbox_world :=
  match id_of "article_id" (ms_payload m) with
  | Some _ => w <| ow_tasks := ow_tasks w ++ [m] |>
  | None => _mark_outbox (id_of "_outbox_id" (ms_payload m)) "completed" None w
  end.

Definition to_worker (env : publish_env) : bool := pe_celery env && pe_queued env.

Definition publish (env : publish_env) (m : message) (w : outbox_world) : outbox_world :=
  let '(w, queued) := persist_event (pe_outbox_id env) m w in
  let w := invalidate_cache env m w in
  if to_worker env then w <| ow_messages := ow_messages w ++ [queued] |>
  else start_lifecycle queued (run_listeners env m w).

(** ** The life cycle of an article, in the process *)

Definition set_index_status (article_id : uuid) (status : string) (error : option pystr) (t : index_table)
    : index_table :=
  match t !! article_id with Some _ => <[article_id := (status, error)]> t | None => t end.

(** What a life-cycle task meets: the indexing work itself, and which of the records of a
    failure can be written. *)
Record lifecycle_env := mkLifecycleEnv {
  le_work : string -> uuid -> index_table -> index_table * option pystr;
  le_status : bool;
  le_mark : bool;
  le_dead_letters : bool
}.

Definition _run_article_lifecycle (env : lifecycle_env) (article_id : uuid) (m : message) (w : outbox_world)
    : outbox_world :=
  let '(index, error) := le_work env (ms_event_type m) article_id (ow_index w) in
  let w := w <| ow_index := index |> in
  let outbox_id := id_of "_outbox_id" (ms_payload m) in
  match error with
  | None => _mark_outbox outbox_id "completed" None w
  | Some e =>
      let w :=
        if mem (ms_event_type m) ["ArticlePublished"; "ArticleUpdated"] && le_status env
        then w <| ow_index := set_index_status article_id "failed" (Some e) (ow_index w) |> else w in
      let w := if le_mark env then _mark_outbox outbox_id "failed" (Some e) w else w in
      if le_dead_letters env then add_dead_letter (ms_event_type m) (ms_payload m) e w else w
  end.

(** A task of the process runs to its end. *)
Definition finish_task (env : lifecycle_env) (m : message) (w : outbox_world) : outbox_world :=
  match id_of "article_id" (ms_payload m) with
  | Some article_id => _run_article_lifecycle env article_id m w
  | None => w
  end.

(** ** The sweep of the process *)

(** [min(30, 2 ** min(attempts, 5))] minutes *)
Definition backoff_minutes (attempts : Z) : Z := Z.min 30 (2 ^ Z.min attempts 5).

Definition older (a b : outbox_event) : bool := oe_created_at a <=? oe_created_at b.

Definition is_stale (stale_minutes : Z) (now : datetime) (e : outbox_event) : bool :=
  mem (oe_status e) ["failed"; "pending"; "processing"]
  && (oe_next_attempt_at e <=? now)
  && (oe_created_at e <? now - minutes stale_minutes).

Definition stale_events (stale_minutes : Z) (batch_limit : nat) (w : outbox_world) : list outbox_event :=
  take batch_limit (stable_sort older (List.filter (is_stale stale_minutes (ow_now w)) (rows (ow_events w)))).

Definition again (now : datetime) (e : outbox_event) : outbox_event :=
  e <| oe_attempts := oe_attempts e + 1 |>
    <| oe_next_attempt_at := now + minutes (backoff_minutes (oe_attempts e + 1)) |>.

Definition outbox_message (e : outbox_event) : message :=
  mkMessage (oe_event_type e) (json_set (oe_payload e) "_outbox_id" (PId (oe_id e))).

(** One row of the batch; a row out of attempts is dead. *)
Definition recover_row (max_attempts : Z) (now : datetime) (e : outbox_event) : outbox_event :=
  if max_attempts <=? oe_attempts e then e <| oe_status := "dead" |> else again now e.

Definition retryable (max_attempts : Z) (e : outbox_event) : bool := negb (max_attempts <=? oe_attempts e).

Definition recover_outbox_once (max_attempts stale_minutes : Z) (batch_limit : nat) (w : outbox_world)
    : outbox_world * Z :=
  let events := stale_events stale_minutes batch_limit w in
  let w := w <| ow_events := store_rows oe_id (map (recover_row max_attempts (ow_now w)) events) (ow_events w) |> in
  let retried := List.filter (retryable max_attempts) events in
  (fold_left (fun w e => start_lifecycle (outbox_message e) w) retried w, len retried).

(** ** The worker *)

(** [_fan_out] *)
Definition _fan_out (m : message) (w : outbox_world) : outbox_world :=
  match id_of "article_id" (ms_payload m) with
  | None => w
  | Some a =>
      if mem (ms_event_type m) ["ArticlePublished"; "ArticleUpdated"]
      then w <| ow_work := ow_work w ++ [generate_embeddings_task a] |>
      else if String.eqb (ms_event_type m) "PermissionChanged"
      then w <| ow_work := ow_work w ++ [recompute_permissions_task a] |>
      else if String.eqb (ms_event_type m) "ArticleDeleted"
      then w <| ow_work := ow_work w ++ [delete_article_chunks_task a] |>
      else w
  end.

Definition _OUTBOX_SETTLED : list string := ["dispatched"; "completed"; "dead"].

(** The row a message stands for is settled: the message is a second copy. *)
Definition is_duplicate (m : message) (w : outbox_world) : bool :=
  match id_of "_outbox_id" (ms_payload m) ≫= fun i => ow_events w !! i with
  | Some e => mem (oe_status e) _OUTBOX_SETTLED
  | None => false
  end.

(** One transaction under a lock of the row; [taken]: the broker took the fanned out task,
    otherwise the transaction rolls back. *)
Definition handle_domain_event_task (taken : bool) (m : message) (w : outbox_world) : outbox_world :=
  if is_duplicate m w then w
  else if taken then
    let w := _fan_out m w in
    match id_of "_outbox_id" (ms_payload m) ≫= fun i => ow_events w !! i with
    | Some e => put_event (e <| oe_status := "dispatched" |> <| oe_last_error := None |>) w
    | None => w
    end
  else w.

Definition OUTBOX_MAX_ATTEMPTS : Z := 5.

(** A due row that no other transaction holds ([locked]). *)
Definition is_due (locked : list uuid) (now : datetime) (e : outbox_event) : bool :=
  mem (oe_status e) ["pending"; "failed"; "processing"]
  && (oe_next_attempt_at e <=? now)
  && negb (existsb (Z.eqb (oe_id e)) locked).

Definition due_events (locked : list uuid) (w : outbox_world) : list outbox_event :=
  take 100 (stable_sort older (List.filter (is_due locked (ow_now w)) (rows (ow_events w)))).

Definition replay_row (now : datetime) (e : outbox_event) : outbox_event :=
  if OUTBOX_MAX_ATTEMPTS <=? oe_attempts e
  then e <| oe_status := "dead" |> <| oe_dead_at := Some now |>
  else again now e <| oe_status := "processing" |>.

(** The batch is claimed in one transaction, then handed to the broker; [sent]: how many of
    its messages were, before the process died or the broker failed. *)
Definition replay_outbox_task (locked : list uuid) (sent : nat) (w : outbox_world) : outbox_world :=
  let events := due_events locked w in
  let w := w <| ow_events := store_rows oe_id (map (replay_row (ow_now w)) events) (ow_events w) |> in
  w <| ow_messages := ow_messages w
         ++ take sent (map outbox_message (List.filter (retryable OUTBOX_MAX_ATTEMPTS) events)) |>.

(** ** Retention *)

Definition terminal (e : outbox_event) : bool := mem (oe_status e) ["completed"; "dead"].

Definition or_else {A} (a b : option A) : option A := match a with Some _ => a | None => b end.

(** The rule of [prune_operational_metrics] for the outbox. *)
Definition prunable (now : datetime) (retention : Z) (e : outbox_event) : bool :=
  terminal e
  && (default (oe_created_at e) (or_else (oe_completed_at e) (oe_dead_at e)) <? now - retention).

(** The rule of the loop that replaces the worker in an inline deployment. *)
Definition prunable_inline (now : datetime) (retention : Z) (e : outbox_event) : bool :=
  terminal e && (oe_created_at e <? now - retention).

Definition prune (rule : outbox_event -> bool) (w : outbox_world) : outbox_world :=
  w <| ow_events := filter (fun e => rule e.2 = false) (ow_events w) |>.

(** ** Interleavings *)

(** What happens to the event of a row: it is handed out (as a message or a task), or a
    message of it is turned into work. *)
Inductive action := HandOut (i : uuid) | Dispatch (i : uuid).
#[export] Instance action_eq_dec : EqDecision action.
Proof. solve_decision. Defined.

#[export] Instance handout_inj : Inj (=) (=) HandOut.
Proof. by intros x y [= ->]. Qed.

Definition times (a : action) (l : list action) : nat := length (List.filter (fun b => bool_decide (b = a)) l).

Definition published_action (env : publish_env) (m : message) : list action :=
  match pe_outbox_id env with
  | Some i => if to_worker env || bool_decide (is_Some (id_of "article_id" (ms_payload m))) then [HandOut i] else []
  | None => []
  end.

Definition delivery_action (taken : bool) (m : message) (w : outbox_world) : list action :=
  match id_of "_outbox_id" (ms_payload m) with
  | Some i => if negb (is_duplicate m w) && taken then [Dispatch i] else []
  | None => []
  end.

(** One step of the system; [local]: the process runs life cycles itself, because it is
    deployed without a worker or because the broker refused a message. *)
Inductive step (local : bool) : outbox_world -> list action -> outbox_world -> Prop :=
  | s_tick w now : ow_now w <= now -> step local w [] (w <| ow_now := now |>)
  | s_publish w env m :
      (forall i, pe_outbox_id env = Some i -> ow_events w !! i = None) ->
      assoc "_outbox_id" (ms_payload m) = None ->
      local = true \/ to_worker env = true ->
      step local w (published_action env m) (publish env m w)
  | s_deliver w taken pre m post :
      ow_messages w = pre ++ m :: post ->
      step local w (delivery_action taken m w)
        (handle_domain_event_task taken m (w <| ow_messages := pre ++ post |>))
  | s_lose w pre m post :
      ow_messages w = pre ++ m :: post -> step local w [] (w <| ow_messages := pre ++ post |>)
  | s_replay w locked sent :
      step local w
        (take sent (map (HandOut ∘ oe_id) (List.filter (retryable OUTBOX_MAX_ATTEMPTS) (due_events locked w))))
        (replay_outbox_task locked sent w)
  | s_task w env pre m post :
      ow_tasks w = pre ++ m :: post -> step local w [] (finish_task env m (w <| ow_tasks := pre ++ post |>))
  | s_die w : step local w [] (w <| ow_tasks := [] |>)
  | s_recover w :
      local = true ->
      step local w (map (HandOut ∘ oe_id) (List.filter (retryable 5) (stale_events 10 20 w)))
        (recover_outbox_once 5 10 20 w).1.

Inductive run (local : bool) (w0 : outbox_world) : list action -> outbox_world -> Prop :=
  | run_start : run local w0 [] w0
  | run_step acts w new w' : run local w0 acts w -> step local w new w' -> run local w0 (acts ++ new) w'.

Definition fresh_start (w : outbox_world) : Prop := ow_events w = ∅ /\ ow_messages w = [] /\ ow_tasks w = [].

(** The waits before the [n]th hand-out of the sweeps, in all. *)
Fixpoint waited (n : nat) : Z :=
  match n with O => 0 | S k => waited k + minutes (backoff_minutes (Z.of_nat n)) end.

Record row_ok (handed : nat) (now : datetime) (e : outbox_event) : Prop := {
  ro_attempts : 0 <= oe_attempts e <= 5;
  ro_handed : Z.of_nat handed <= 1 + oe_attempts e;
  ro_waited : oe_created_at e + waited (Z.to_nat (oe_attempts e)) <= oe_next_attempt_at e;
  ro_dead : oe_status e = "dead" -> oe_attempts e = 5 /\ oe_next_attempt_at e <= now
}.

Definition has_row (w : outbox_world) (m : message) : Prop :=
  forall i, id_of "_outbox_id" (ms_payload m) = Some i -> is_Some (ow_events w !! i).

Record outbox_ok (local : bool) (acts : list action) (w : outbox_world) : Prop := {
  ok_keyed : keyed oe_id (ow_events w);
  ok_rows : forall i e, ow_events w !! i = Some e -> row_ok (times (HandOut i) acts) (ow_now w) e;
  ok_fresh : forall i, ow_events w !! i = None -> times (HandOut i) acts = 0%nat /\ times (Dispatch i) acts = 0%nat;
  ok_messages : Forall (has_row w) (ow_messages w);
  ok_local : local = false -> ow_tasks w = [] /\
    forall i e, ow_events w !! i = Some e ->
      times (Dispatch i) acts = if String.eqb (oe_status e) "dispatched" then 1%nat else 0%nat
}.

(** ** Counting *)

Lemma times_app a l k : times a (l ++ k) = (times a l + times a k)%nat.
Proof. unfold times. by rewrite List.filter_app, length_app. Qed.

Lemma times_none a l : ~ a ∈ l -> times a l = 0%nat.
Proof.
  intros Ha. unfold times. induction l as [|b l IH]; [done|]. cbn. rewrite elem_of_cons in Ha.
  case_bool_decide; [subst; tauto|]. apply IH. tauto.
Qed.

Lemma times_once a l : NoDup l -> (times a l <= 1)%nat.
Proof.
  unfold times. induction 1 as [|b l Hb _ IH]; [cbn; lia|]. cbn. case_bool_decide as Hab; [|done].
  subst b. cbn. pose proof (times_none a l Hb) as Hn. unfold times in Hn. lia.
Qed.

Lemma handouts_elem i (l : list outbox_event) n :
  HandOut i ∈ take n (map (HandOut ∘ oe_id) l) -> exists e, e ∈ l /\ oe_id e = i.
Proof.
  intros Hi. apply elem_of_take in Hi as (k & Hk & _). apply list_elem_of_lookup_2 in Hk.
  apply elem_of_map in Hk as (e & [= ->] & He). eauto.
Qed.

Lemma handouts_nodup (l : list outbox_event) n :
  NoDup (map oe_id l) -> NoDup (take n (map (HandOut ∘ oe_id) l)).
Proof.
  intros Hl. eapply sublist_NoDup; [|apply sublist_take]. change (HandOut ∘ oe_id) with (fun e => HandOut (oe_id e)).
  rewrite <- (map_map oe_id HandOut).
  by apply (NoDup_fmap_2 HandOut).
Qed.

Lemma no_dispatch i (l : list outbox_event) n : times (Dispatch i) (take n (map (HandOut ∘ oe_id) l)) = 0%nat.
Proof.
  apply times_none. intros Hi. apply elem_of_take in Hi as (k & Hk & _). apply list_elem_of_lookup_2 in Hk.
  by apply elem_of_map in Hk as (e & [=] & _).
Qed.

Lemma waited_pos n : 0 <= waited n.
Proof.
  induction n as [|n IH]; [done|]. cbn [waited]. unfold minutes, backoff_minutes.
  pose proof (Z.pow_nonneg 2 (Z.min (Z.of_nat (S n)) 5) ltac:(lia)). lia.
Qed.

(** ** What the steps do to the rows *)

Lemma assoc_json_set k k' v o : assoc k (json_set o k' v) = if bool_decide (k = k') then Some v else assoc k o.
Proof.
  unfold json_set. destruct (existsb _ o) eqn:He.
  - induction o as [|[j u] l IH]; [done|]. cbn [map assoc fst]. cbn [existsb fst] in He.
    destruct (String.eqb_spec k' j) as [<-|Hj]; cbn [assoc].
    + case_bool_decide as Hk; [done|]. clear He IH. induction l as [|[j u'] l IH]; [done|]. cbn [map assoc fst].
      destruct (String.eqb_spec k' j) as [<-|]; cbn [assoc]; [by rewrite bool_decide_false by congruence|by rewrite IH].
    + rewrite IH by done. by repeat case_bool_decide; subst.
  - induction o as [|[j u] l IH]; [cbn; by case_bool_decide|]. cbn [app assoc fst]. cbn [existsb fst] in He.
    apply orb_false_iff in He as [Hk He]. apply String.eqb_neq in Hk. rewrite IH by done.
    by repeat case_bool_decide; subst.
Qed.

Lemma id_of_set payload i : id_of "_outbox_id" (json_set payload "_outbox_id" (PId i)) = Some i.
Proof. unfold id_of. by rewrite assoc_json_set. Qed.

Lemma id_of_set_other payload i : id_of "article_id" (json_set payload "_outbox_id" (PId i)) = id_of "article_id" payload.
Proof. unfold id_of. by rewrite assoc_json_set. Qed.

Lemma mark_same i st err w : exists ev, _mark_outbox i st err w = w <| ow_events := ev |>.
Proof.
  unfold _mark_outbox, put_event. destruct (i ≫= _); [eexists; reflexivity|].
  exists (ow_events w). by destruct w.
Qed.

(** A mark changes the status and the times of one row. *)
Definition marked (st : string) (err : option pystr) (now : datetime) (e e' : outbox_event) : Prop :=
  oe_id e' = oe_id e /\ oe_status e' = st /\ oe_attempts e' = oe_attempts e /\ oe_last_error e' = err
  /\ oe_next_attempt_at e' = oe_next_attempt_at e /\ oe_created_at e' = oe_created_at e
  /\ oe_event_type e' = oe_event_type e /\ oe_payload e' = oe_payload e.

Lemma mark_lookup id st err w i :
  keyed oe_id (ow_events w) ->
  match ow_events w !! i with
  | None => ow_events (_mark_outbox id st err w) !! i = None
  | Some e => exists e', ow_events (_mark_outbox id st err w) !! i = Some e'
      /\ (if decide (id = Some i) then marked st err (ow_now w) e e' else e' = e)
  end.
Proof.
  intros Hk. unfold _mark_outbox. destruct id as [j|]; cbn [mbind option_bind].
  - destruct (ow_events w !! j) as [e|] eqn:Hj.
    + pose proof (Hk j e Hj) as Hid. cbn [put_event ow_events oe_id]. unfold put_event. cbn [ow_events oe_id].
      destruct (decide (Some j = Some i)) as [[= ->]|Hne].
      * rewrite Hj. eexists. split; [cbn; rewrite Hid; apply lookup_insert_eq|]. done.
      * assert (j <> i) by congruence. cbn. rewrite Hid, lookup_insert_ne by done.
        destruct (ow_events w !! i) as [e'|]; [by eexists|done].
    + destruct (ow_events w !! i) as [e'|] eqn:Hi; [|done]. exists e'. split; [done|].
      rewrite decide_False; [done|]. intros [= ->]. congruence.
  - destruct (ow_events w !! i) as [e'|]; [|done]. exists e'. split; [done|]. by rewrite decide_False.
Qed.

(** ** The invariant is kept *)

Definition same_rows (w w' : outbox_world) : Prop :=
  ow_now w' = ow_now w /\ ow_events w' = ow_events w /\ ow_messages w' = ow_messages w /\ ow_tasks w' = ow_tasks w.

Lemma ok_frame local acts w w' : same_rows w w' -> outbox_ok local acts w -> outbox_ok local acts w'.
Proof.
  intros (Hn & He & Hm & Ht) [Hk Hr Hf Hms Hl].
  constructor; rewrite ?He, ?Hn, ?Hm, ?Ht; try done.
  eapply Forall_impl; [exact Hms|]. intros m Hm' i Hi. rewrite He. by apply Hm'.
Qed.

Lemma ok_messages_set local acts w ms :
  outbox_ok local acts w -> Forall (has_row w) ms -> outbox_ok local acts (w <| ow_messages := ms |>).
Proof. intros [Hk Hr Hf Hms Hl] Hnew. by constructor. Qed.

Lemma ok_tasks_set acts w ts : outbox_ok true acts w -> outbox_ok true acts (w <| ow_tasks := ts |>).
Proof. intros [Hk Hr Hf Hms Hl]. by constructor. Qed.

Lemma ok_tasks_gone local acts w : outbox_ok local acts w -> outbox_ok local acts (w <| ow_tasks := [] |>).
Proof. intros [Hk Hr Hf Hms Hl]. constructor; try done. intros Hloc. split; [done|]. by apply (proj2 (Hl Hloc)). Qed.

Lemma row_ok_later n now now' e : row_ok n now e -> now <= now' -> row_ok n now' e.
Proof. intros [Ha Hh Hw Hd] Hn. constructor; [done..|]. intros Hs. specialize (Hd Hs). lia. Qed.

Lemma ok_tick local acts w now :
  outbox_ok local acts w -> ow_now w <= now -> outbox_ok local acts (w <| ow_now := now |>).
Proof.
  intros [Hk Hr Hf Hms Hl] Hn. constructor; try done. intros i e He. eapply row_ok_later; [by apply Hr|done].
Qed.

Lemma ok_marked id st err acts w :
  st <> "dead" -> outbox_ok true acts w -> outbox_ok true acts (_mark_outbox id st err w).
Proof.
  intros Hst [Hk Hr Hf Hms Hl]. pose proof (fun i => mark_lookup id st err w i Hk) as Hlk.
  destruct (mark_same id st err w) as [ev Hev].
  assert (Hsome : forall i e', ow_events (_mark_outbox id st err w) !! i = Some e' ->
      exists e, ow_events w !! i = Some e /\ (marked st err (ow_now w) e e' \/ e' = e)).
  { intros i e' He'. specialize (Hlk i). destruct (ow_events w !! i) as [e|]; [|congruence].
    destruct Hlk as (e2 & He2 & Hm). rewrite He' in He2. injection He2 as <-. exists e. split; [done|].
    destruct (decide _); [by left|by right]. }
  assert (Hnow : ow_now (_mark_outbox id st err w) = ow_now w) by (by rewrite Hev).
  assert (Hmsg : ow_messages (_mark_outbox id st err w) = ow_messages w) by (by rewrite Hev).
  constructor.
  - intros i e' He'. destruct (Hsome i e' He') as (e & He & [(Hi & _)| ->]); [rewrite Hi|]; by apply Hk.
  - intros i e' He'. rewrite Hnow. destruct (Hsome i e' He') as (e & He & [(_ & Hs & Ha & _ & Hn & Hc & _)| ->]); [|by apply Hr].
    destruct (Hr i e He) as [Ra Rh Rw Rd]. constructor; rewrite ?Ha, ?Hn, ?Hc; [done..|]. by rewrite Hs.
  - intros i Hi. apply Hf. specialize (Hlk i). destruct (ow_events w !! i); [|done]. destruct Hlk as (? & ? & _). congruence.
  - rewrite Hmsg. eapply Forall_impl; [exact Hms|]. intros m Hm i Hi. destruct (Hm i Hi) as [e He].
    specialize (Hlk i). rewrite He in Hlk. destruct Hlk as (e' & He' & _). eauto.
  - done.
Qed.

Lemma ok_insert local acts new w i ev p :
  outbox_ok local acts w -> ow_events w !! i = None ->
  (times (HandOut i) new <= 1)%nat -> (forall j, j <> i -> times (HandOut j) new = 0%nat) ->
  (forall j, times (Dispatch j) new = 0%nat) ->
  outbox_ok local (acts ++ new) (put_event (mkOutbox i ev p "pending" 0 (ow_now w) None None None (ow_now w)) w).
Proof.
  intros [Hk Hr Hf Hms Hl] Hi H1' H2' H3'.
  set (e0 := mkOutbox _ _ _ _ _ _ _ _ _ _). set (w' := put_event e0 w).
  assert (Hev : ow_events w' = <[i := e0]> (ow_events w)) by reflexivity.
  constructor; rewrite ?Hev.
  - intros j e. rewrite lookup_insert_Some. intros [[<- <-]|[_ He]]; [done|by apply Hk].
  - intros j e. rewrite lookup_insert_Some, times_app. intros [[<- <-]|[Hne He]].
    + rewrite (proj1 (Hf i Hi)). constructor; unfold e0; cbn [oe_attempts oe_created_at oe_next_attempt_at oe_status];
        [lia|lia|change (ow_now w + 0 <= ow_now w); lia|done].
    + rewrite (H2' j) by congruence. rewrite Nat.add_0_r. by apply Hr.
  - intros j. rewrite lookup_insert_None, !times_app, H3'. intros [He Hne]. rewrite (H2' j) by congruence.
    destruct (Hf j He). lia.
  - eapply Forall_impl; [exact Hms|]. intros m Hm j Hj. rewrite Hev. destruct (Hm j Hj) as [e He].
    destruct (decide (j = i)) as [->|Hne]; [rewrite lookup_insert_eq|rewrite lookup_insert_ne by done]; eauto.
  - intros Hloc. destruct (Hl Hloc) as [Ht Hd]. split; [done|]. intros j e.
    rewrite lookup_insert_Some, times_app, H3', Nat.add_0_r. intros [[<- <-]|[_ He]]; [by apply Hf|by apply Hd].
Qed.

Section BatchOk.
Variable f : outbox_event -> outbox_event.
Hypothesis f_id : forall e, oe_id (f e) = oe_id e.

Lemma ok_batch local acts new w events :
  outbox_ok local acts w ->
  NoDup (map oe_id events) -> (forall e, e ∈ events -> ow_events w !! oe_id e = Some e) ->
  (forall e n, e ∈ events -> row_ok n (ow_now w) e -> row_ok (n + times (HandOut (oe_id e)) new) (ow_now w) (f e)) ->
  (forall i, among oe_id i events = false -> times (HandOut i) new = 0%nat) ->
  (forall i, times (Dispatch i) new = 0%nat) ->
  (forall e, e ∈ events -> oe_status e <> "dispatched" /\ oe_status (f e) <> "dispatched") ->
  outbox_ok local (acts ++ new) (w <| ow_events := store_rows oe_id (map f events) (ow_events w) |>).
Proof.
  intros [Hk Hr Hf Hms Hl] Hnd Hin Hrow Hout Hdis Hst.
  pose proof (fun i => store_map_lookup oe_id f events (ow_events w) i f_id Hnd Hin) as Hlk.
  assert (Hsome : forall i e', store_rows oe_id (map f events) (ow_events w) !! i = Some e' ->
      exists e, ow_events w !! i = Some e /\ oe_id e = i
        /\ ((among oe_id i events = true /\ e ∈ events /\ e' = f e) \/ (among oe_id i events = false /\ e' = e))).
  { intros i e' He'. rewrite Hlk in He'. destruct (ow_events w !! i) as [e|] eqn:He; [|done].
    injection He' as <-. exists e. pose proof (Hk i e He) as Hid. split; [done|]. split; [done|].
    destruct (among oe_id i events) eqn:Ha; [left|by right]. split; [done|]. split; [|done].
    apply among_elem in Ha as (e2 & He2 & Hid2). pose proof (Hin e2 He2) as Hl2. rewrite Hid2, He in Hl2. by injection Hl2 as ->. }
  set (w' := w <| ow_events := _ |>).
  assert (Hev : ow_events w' = store_rows oe_id (map f events) (ow_events w)) by reflexivity.
  constructor; rewrite ?Hev.
  - intros i e' (e & _ & Hid & [(_ & _ & ->)|(_ & ->)])%Hsome; [by rewrite f_id|done].
  - intros i e' (e & He & Hid & [(_ & Hm & ->)|(Ha & ->)])%Hsome; rewrite times_app.
    + rewrite <- Hid. apply Hrow; [done|]. rewrite Hid. by apply Hr.
    + rewrite (Hout i Ha), Nat.add_0_r. by apply Hr.
  - intros i Hi. rewrite Hlk in Hi. destruct (ow_events w !! i) eqn:He; [done|].
    destruct (Hf i He) as [Hh Hd]. rewrite !times_app, Hdis, Hh, Hd, Nat.add_0_r. split; [|done]. apply Hout.
    destruct (among oe_id i events) eqn:Ha; [|done]. apply among_elem in Ha as (e & Hm & Hid). apply Hin in Hm. congruence.
  - eapply Forall_impl; [exact Hms|]. intros m Hm i Hi. destruct (Hm i Hi) as [e He]. rewrite Hev, Hlk, He. by eexists.
  - intros Hloc. destruct (Hl Hloc) as [Ht Hd]. split; [done|].
    intros i e' (e & He & Hid & [(_ & Hm & ->)|(Ha & ->)])%Hsome; rewrite times_app, Hdis, Nat.add_0_r, (Hd i e He); [|done].
    destruct (Hst e Hm) as [Hs1 Hs2]. by rewrite (proj2 (String.eqb_neq _ _) Hs1), (proj2 (String.eqb_neq _ _) Hs2).
Qed.
End BatchOk.

Lemma again_ok n now e k :
  row_ok n now e -> oe_next_attempt_at e <= now -> oe_attempts e < 5 -> (k <= 1)%nat -> oe_status e <> "dead" ->
  row_ok (n + k) now (again now e).
Proof.
  intros [[Ha Ha5] Hh Hw Hd] Hn Hlt Hk1 Hs.
  assert (Hatt : oe_attempts (again now e) = oe_attempts e + 1) by reflexivity.
  assert (Hnext : oe_next_attempt_at (again now e) = now + minutes (backoff_minutes (oe_attempts e + 1))) by reflexivity.
  constructor; rewrite ?Hatt, ?Hnext; [lia|lia| |done].
  change (oe_created_at (again now e)) with (oe_created_at e).
  replace (Z.to_nat (oe_attempts e + 1)) with (S (Z.to_nat (oe_attempts e))) by lia. cbn [waited].
  replace (Z.of_nat (S (Z.to_nat (oe_attempts e)))) with (oe_attempts e + 1) by lia. lia.
Qed.

Lemma dead_ok n now e f :
  row_ok n now e -> oe_next_attempt_at e <= now -> 5 <= oe_attempts e ->
  oe_attempts (f e) = oe_attempts e -> oe_next_attempt_at (f e) = oe_next_attempt_at e -> oe_created_at (f e) = oe_created_at e ->
  row_ok (n + 0) now (f e).
Proof.
  intros [Ha Hh Hw Hd] Hn H5 Ea En Ec. rewrite Nat.add_0_r. constructor; rewrite ?Ea, ?En, ?Ec; [done..|]. intros _. lia.
Qed.

Lemma ok_nothing local acts w : outbox_ok local acts w -> outbox_ok local (acts ++ []) w.
Proof. by rewrite app_nil_r. Qed.

Lemma cache_same_rows env m w : same_rows w (invalidate_cache env m w).
Proof. unfold invalidate_cache. repeat case_match; done. Qed.

Lemma listeners_same_rows env m w : same_rows w (run_listeners env m w).
Proof.
  unfold run_listeners. generalize (pe_listeners env). intros l. revert w. induction l as [|c l IH]; intros w; [done|].
  cbn [fold_left]. destruct (c _) as [err|]; [|apply IH]. destruct (pe_dead_letters env); [|apply IH].
  pose proof (IH (add_dead_letter (ms_event_type m) (ms_payload m) err w)) as (Ha & Hb & Hc & Hd). done.
Qed.

Lemma fan_out_same_rows m w : same_rows w (_fan_out m w).
Proof. unfold _fan_out. repeat case_match; done. Qed.

Lemma ok_lifecycle acts m w : outbox_ok true acts w -> outbox_ok true acts (start_lifecycle m w).
Proof. intros Hok. unfold start_lifecycle. case_match; [by apply ok_tasks_set|by apply ok_marked]. Qed.

Lemma ok_persist local acts env m w :
  outbox_ok local acts w -> (forall i, pe_outbox_id env = Some i -> ow_events w !! i = None) ->
  assoc "_outbox_id" (ms_payload m) = None ->
  let '(w', queued) := persist_event (pe_outbox_id env) m w in
  outbox_ok local (acts ++ published_action env m) w' /\ has_row w' queued /\ ow_messages w' = ow_messages w.
Proof.
  intros Hok Hf Hm. unfold persist_event, published_action. destruct (pe_outbox_id env) as [i|].
  - split; [|split; [|done]].
    + apply ok_insert; [done|by apply Hf|..].
      * case_match; [|cbn; lia]. apply times_once, NoDup_singleton.
      * intros j Hj. case_match; [|done]. apply times_none. by intros [= ->]%list_elem_of_singleton.
      * intros j. case_match; [|done]. apply times_none. by intros [=]%list_elem_of_singleton.
    + intros j Hj. cbn [ms_payload] in Hj. rewrite id_of_set in Hj. injection Hj as <-.
      exists (mkOutbox i (ms_event_type m) (ms_payload m) "pending" 0 (ow_now w) None None None (ow_now w)).
      apply lookup_insert_eq.
  - split; [by rewrite app_nil_r|]. split; [|done]. intros j. unfold id_of. by rewrite Hm.
Qed.

Lemma ok_publish local acts env m w :
  outbox_ok local acts w -> (forall i, pe_outbox_id env = Some i -> ow_events w !! i = None) ->
  assoc "_outbox_id" (ms_payload m) = None -> local = true \/ to_worker env = true ->
  outbox_ok local (acts ++ published_action env m) (publish env m w).
Proof.
  intros Hok Hf Hm Hloc. unfold publish. pose proof (ok_persist local acts env m w Hok Hf Hm) as Hp.
  destruct (persist_event _ _ _) as [w1 queued]. destruct Hp as (Hok1 & Hq & Hms).
  pose proof (cache_same_rows env m w1) as Hc. apply (ok_frame _ _ _ _ Hc) in Hok1 as Hok2.
  destruct (to_worker env) eqn:Hw.
  - apply ok_messages_set; [done|]. apply Forall_app. split; [by destruct Hok2|]. constructor; [|constructor].
    destruct Hc as (_ & He & _). intros i Hi. rewrite He. by apply Hq.
  - destruct Hloc as [->|?]; [|done]. apply ok_lifecycle. eapply ok_frame; [apply listeners_same_rows|done].
Qed.

Lemma ok_dispatch local acts w i e :
  outbox_ok local acts w -> ow_events w !! i = Some e -> mem (oe_status e) _OUTBOX_SETTLED = false ->
  outbox_ok local (acts ++ [Dispatch i]) (put_event (e <| oe_status := "dispatched" |> <| oe_last_error := None |>) w).
Proof.
  intros [Hk Hr Hf Hms Hl] Hi Hs. set (e' := e <| oe_status := _ |> <| oe_last_error := _ |>). set (w' := put_event e' w).
  assert (Hid : oe_id e' = i) by exact (Hk i e Hi).
  assert (Hev : ow_events w' = <[i := e']> (ow_events w)) by (unfold w', put_event; rewrite Hid; reflexivity).
  assert (Hh : forall j, times (HandOut j) (acts ++ [Dispatch i]) = times (HandOut j) acts).
  { intros j. rewrite times_app, (times_none (HandOut j) [Dispatch i]); [lia|]. by intros [=]%list_elem_of_singleton. }
  assert (Hd : forall j, j <> i -> times (Dispatch j) (acts ++ [Dispatch i]) = times (Dispatch j) acts).
  { intros j Hj. rewrite times_app, (times_none (Dispatch j) [Dispatch i]); [lia|]. by intros [= ->]%list_elem_of_singleton. }
  constructor; rewrite ?Hev.
  - intros j x. rewrite lookup_insert_Some. intros [[<- <-]|[_ Hx]]; [done|by apply Hk].
  - intros j x. rewrite lookup_insert_Some, Hh. intros [[<- <-]|[_ Hx]]; [|by apply Hr].
    destruct (Hr i e Hi) as [Ha Hn Hw Hdd]. constructor; [done..|]. by intros [=].
  - intros j. rewrite lookup_insert_None. intros [Hj Hne]. rewrite Hh, Hd by done. by apply Hf.
  - eapply Forall_impl; [exact Hms|]. intros m Hm j Hj. rewrite Hev. destruct (Hm j Hj) as [x Hx].
    destruct (decide (j = i)) as [->|Hne]; [rewrite lookup_insert_eq|rewrite lookup_insert_ne by done]; eauto.
  - intros Hloc. destruct (Hl Hloc) as [Ht Hn]. split; [done|]. intros j x.
    rewrite lookup_insert_Some. intros [[<- <-]|[Hne Hx]]; [|rewrite Hd by done; by apply Hn].
    rewrite times_app, (Hn i e Hi). destruct (String.eqb_spec (oe_status e) "dispatched") as [Hq|_].
    + by rewrite Hq in Hs.
    + unfold times. cbn. by rewrite bool_decide_true.
Qed.

Lemma ok_deliver local acts taken m w :
  outbox_ok local acts w -> has_row w m ->
  outbox_ok local (acts ++ delivery_action taken m w) (handle_domain_event_task taken m w).
Proof.
  intros Hok Hm. unfold handle_domain_event_task, delivery_action, is_duplicate.
  destruct (fan_out_same_rows m w) as (Hn & He & Hmsg & Ht).
  assert (Hfan : outbox_ok local acts (_fan_out m w)) by (by eapply ok_frame; [apply fan_out_same_rows|]).
  cbv zeta. rewrite He. destruct (id_of "_outbox_id" (ms_payload m)) as [i|] eqn:Hid; cbn [mbind option_bind].
  - destruct (Hm i Hid) as [e Hi]. rewrite Hi. destruct (mem (oe_status e) _OUTBOX_SETTLED) eqn:Hs; cbn [negb andb];
      [by apply ok_nothing|]. destruct taken; [|by apply ok_nothing]. apply ok_dispatch; [done|by rewrite He|done].
  - cbn [negb andb]. destruct taken; by apply ok_nothing.
Qed.

Lemma ok_task acts env m w : outbox_ok true acts w -> outbox_ok true acts (finish_task env m w).
Proof.
  intros Hok. unfold finish_task, _run_article_lifecycle. destruct (id_of "article_id" _) as [a|]; [|done].
  destruct (le_work _ _ _ _) as [index error].
  assert (Hok1 : outbox_ok true acts (w <| ow_index := index |>)) by (by eapply ok_frame; [|exact Hok]).
  destruct error as [err|]; [|by apply ok_marked]. cbv zeta.
  set (w1 := if _ && _ then _ else _).
  assert (Hok2 : outbox_ok true acts w1) by (unfold w1; case_match; [by eapply ok_frame; [|exact Hok1]|done]).
  clearbody w1. set (w2 := if le_mark env then _ else _).
  assert (Hok3 : outbox_ok true acts w2) by (unfold w2; case_match; [by apply ok_marked|done]).
  clearbody w2. case_match; [|done]. by eapply ok_frame; [|exact Hok3].
Qed.

(** The rows of a sweep that are handed out are counted once. *)
Lemma swept_count (events : list outbox_event) n :
  NoDup (map oe_id events) ->
  let out := take n (map (HandOut ∘ oe_id) (List.filter (retryable 5) events)) in
  (forall i, (times (HandOut i) out <= 1)%nat)
  /\ (forall i, among oe_id i events = false -> times (HandOut i) out = 0%nat)
  /\ (forall e, e ∈ events -> 5 <= oe_attempts e -> times (HandOut (oe_id e)) out = 0%nat).
Proof.
  intros Hnd. cbv zeta. split; [|split].
  - intros i. apply times_once, handouts_nodup. clear -Hnd. induction events as [|e l IH]; [constructor|].
    cbn [map] in Hnd. apply NoDup_cons in Hnd as [He Hl]. cbn [List.filter]. destruct (retryable 5 e); [|by apply IH].
    cbn [map]. constructor; [|by apply IH]. intros (x & Hx & Hin)%elem_of_map. apply elem_of_filter_b in Hin as [Hin _].
    apply He. rewrite Hx. apply elem_of_map. eauto.
  - intros i Ha. apply times_none. intros (e & He & Hid)%handouts_elem. apply elem_of_filter_b in He as [He _].
    enough (among oe_id i events = true) by congruence. apply among_elem; eauto.
  - intros e He H5. apply times_none. intros (x & Hx & Hid)%handouts_elem. apply elem_of_filter_b in Hx as [Hx Hr].
    assert (x = e) as -> by (by eapply (NoDup_map_eq oe_id events)). unfold retryable in Hr.
    apply negb_true_iff, Z.leb_gt in Hr. lia.
Qed.

Lemma mem_in x l : mem x l = true <-> x ∈ l.
Proof.
  unfold mem. rewrite existsb_exists. setoid_rewrite list_elem_of_In.
  split; [intros (y & Hy & ->%String.eqb_eq)|]; eauto using String.eqb_refl.
Qed.

Lemma open_unsettled s : mem s ["pending"; "failed"; "processing"] = true -> mem s _OUTBOX_SETTLED = false.
Proof. rewrite mem_in, !elem_of_cons. by intros [->|[->|[->|[]%elem_of_nil]]]. Qed.

(** Statuses a sweep selects. *)
Lemma open_status e l : mem (oe_status e) l = true -> ~ "dispatched" ∈ l -> ~ "dead" ∈ l ->
  oe_status e <> "dispatched" /\ oe_status e <> "dead".
Proof. intros Hm Hd Hx. apply mem_in in Hm. split; intros He; rewrite He in Hm; tauto. Qed.

Lemma ok_sweep local acts w (p : outbox_event -> bool) limit f sent :
  let events := take limit (stable_sort older (List.filter p (rows (ow_events w)))) in
  outbox_ok local acts w -> (forall e, oe_id (f e) = oe_id e) ->
  (forall e, p e = true -> oe_next_attempt_at e <= ow_now w /\ oe_status e <> "dispatched" /\ oe_status e <> "dead") ->
  (forall e, oe_status e <> "dispatched" -> oe_status (f e) <> "dispatched") ->
  (forall e, oe_attempts e < 5 -> exists st, f e = again (ow_now w) e <| oe_status := st |> /\ (oe_status e <> "dead" -> st <> "dead")) ->
  (forall e, 5 <= oe_attempts e -> oe_attempts (f e) = oe_attempts e
     /\ oe_next_attempt_at (f e) = oe_next_attempt_at e /\ oe_created_at (f e) = oe_created_at e) ->
  outbox_ok local (acts ++ take sent (map (HandOut ∘ oe_id) (List.filter (retryable 5) events)))
    (w <| ow_events := store_rows oe_id (map f events) (ow_events w) |>).
Proof.
  intros events Hok f_id Hp Hst Hagain Hdead. pose proof Hok as [Hk _ _ _ _].
  destruct (selected_rows oe_id older p limit (ow_events w) Hk) as [Hnd Hsel]. fold events in Hnd, Hsel.
  destruct (swept_count events sent Hnd) as (Hone & Hnone & Hfive).
  apply ok_batch; [done|done|done|by intros e He; apply Hsel| |done|by intros i; apply no_dispatch|].
  - intros e n He Hrow. destruct (Hsel e He) as [_ Hpe]. destruct (Hp e Hpe) as (Hdue & _ & Hnd2).
    destruct (Z.lt_ge_cases (oe_attempts e) 5) as [Hlt|Hge].
    + destruct (Hagain e Hlt) as (st & -> & Hs). destruct (again_ok n (ow_now w) e _ Hrow Hdue Hlt (Hone (oe_id e)) Hnd2) as [Ra Rh Rw Rd].
      constructor; [done..|]. intros Hq. by destruct (Hs Hnd2).
    + rewrite (Hfive e He Hge). destruct (Hdead e Hge) as (Ea & En & Ec). by apply dead_ok.
  - intros e He. destruct (Hsel e He) as [_ Hpe]. destruct (Hp e Hpe) as (_ & Hd & _). split; [done|by apply Hst].
Qed.

Lemma due_rows locked w :
  keyed oe_id (ow_events w) ->
  NoDup (map oe_id (due_events locked w))
  /\ forall e, e ∈ due_events locked w -> ow_events w !! oe_id e = Some e /\ mem (oe_status e) _OUTBOX_SETTLED = false.
Proof.
  intros Hk. unfold due_events. destruct (selected_rows oe_id older (is_due locked (ow_now w)) 100 (ow_events w) Hk) as [Hnd Hsel].
  split; [exact Hnd|]. intros e He. destruct (Hsel e He) as [Hlk [[Hs _]%andb_true_iff _]%andb_true_iff].
  split; [done|]. by apply open_unsettled.
Qed.

Lemma replay_row_id now e : oe_id (replay_row now e) = oe_id e.
Proof. unfold replay_row. by case_match. Qed.

Lemma ok_replay local acts locked sent w :
  outbox_ok local acts w ->
  outbox_ok local
    (acts ++ take sent (map (HandOut ∘ oe_id) (List.filter (retryable OUTBOX_MAX_ATTEMPTS) (due_events locked w))))
    (replay_outbox_task locked sent w).
Proof.
  intros Hok. unfold replay_outbox_task. cbv zeta.
  set (w1 := w <| ow_events := store_rows oe_id (map (replay_row (ow_now w)) (due_events locked w)) (ow_events w) |>).
  assert (Hok1 : outbox_ok local
    (acts ++ take sent (map (HandOut ∘ oe_id) (List.filter (retryable OUTBOX_MAX_ATTEMPTS) (due_events locked w)))) w1).
  { apply ok_sweep; [done|apply replay_row_id| |..].
    - intros e [[Hs Hd]%andb_true_iff _]%andb_true_iff. split; [by apply Z.leb_le|].
      apply (open_status _ _ Hs); intros Hin; set_solver.
    - intros e He. unfold replay_row. by case_match.
    - intros e He. exists "processing". unfold replay_row, OUTBOX_MAX_ATTEMPTS. by rewrite (proj2 (Z.leb_gt _ _) He).
    - intros e He. unfold replay_row, OUTBOX_MAX_ATTEMPTS. by rewrite (proj2 (Z.leb_le _ _) He). }
  apply ok_messages_set; [done|]. apply Forall_app. split; [by destruct Hok1|].
  apply Forall_forall. intros m (k & Hm & _)%elem_of_take. apply list_elem_of_lookup_2, elem_of_map in Hm as (e & -> & He).
  apply elem_of_filter_b in He as [He _]. intros i Hi. cbn [ms_payload outbox_message] in Hi. rewrite id_of_set in Hi.
  injection Hi as <-. pose proof Hok as [Hk _ _ _ _].
  destruct (due_rows locked w Hk) as [Hnd Hsel]. destruct (Hsel e He) as [Hlk _].
  change (is_Some (store_rows oe_id (map (replay_row (ow_now w)) (due_events locked w)) (ow_events w) !! oe_id e)).
  rewrite store_map_lookup; [rewrite Hlk; by eexists|apply replay_row_id|exact Hnd|by intros x Hx; apply Hsel].
Qed.

Lemma ok_recover acts w :
  outbox_ok true acts w ->
  outbox_ok true (acts ++ map (HandOut ∘ oe_id) (List.filter (retryable 5) (stale_events 10 20 w)))
    (recover_outbox_once 5 10 20 w).1.
Proof.
  intros Hok. unfold recover_outbox_once. cbv zeta. cbn [fst].
  set (events := stale_events 10 20 w).
  assert (Hok1 : outbox_ok true (acts ++ map (HandOut ∘ oe_id) (List.filter (retryable 5) events))
      (w <| ow_events := store_rows oe_id (map (recover_row 5 (ow_now w)) events) (ow_events w) |>)).
  { rewrite <- (firstn_all (map (HandOut ∘ oe_id) _)).
    apply ok_sweep; [done|intros e; unfold recover_row; by case_match| |..].
    - intros e [[Hs Hd]%andb_true_iff _]%andb_true_iff. split; [by apply Z.leb_le|].
      apply (open_status _ _ Hs); intros Hin; set_solver.
    - intros e He. unfold recover_row. by case_match.
    - intros e He. exists (oe_status e). unfold recover_row. by rewrite (proj2 (Z.leb_gt _ _) He).
    - intros e He. unfold recover_row. by rewrite (proj2 (Z.leb_le _ _) He). }
  revert Hok1. generalize (acts ++ map (HandOut ∘ oe_id) (List.filter (retryable 5) events)).
  generalize (w <| ow_events := store_rows oe_id (map (recover_row 5 (ow_now w)) events) (ow_events w) |>).
  induction (List.filter (retryable 5) events) as [|e l IH]; intros w1 acts1 Hok1; [done|].
  cbn [fold_left]. apply IH. by apply ok_lifecycle.
Qed.

Lemma has_row_messages w pre m post :
  Forall (has_row w) (ow_messages w) -> ow_messages w = pre ++ m :: post ->
  has_row w m /\ Forall (has_row w) (pre ++ post).
Proof.
  intros Hall Hq. rewrite Hq in Hall. apply Forall_app in Hall as [Hp Hr]. apply Forall_cons in Hr as [Hm Hr].
  split; [done|]. by apply Forall_app.
Qed.

Lemma ok_step local acts w new w' : outbox_ok local acts w -> step local w new w' -> outbox_ok local (acts ++ new) w'.
Proof.
  intros Hok Hstep. destruct Hstep as [w now Hn|w env m Hf Hm Hloc|w taken pre m post Hms|w pre m post Hms|w locked sent
    |w env pre m post Ht|w|w Hloc].
  - by apply ok_nothing, ok_tick.
  - by apply ok_publish.
  - pose proof Hok as [_ _ _ Hall _]. destruct (has_row_messages w pre m post Hall Hms) as [Hm Hrest].
    change (delivery_action taken m w) with (delivery_action taken m (w <| ow_messages := pre ++ post |>)).
    apply ok_deliver; [by apply ok_messages_set|done].
  - pose proof Hok as [_ _ _ Hall _]. destruct (has_row_messages w pre m post Hall Hms) as [_ Hrest].
    by apply ok_nothing, ok_messages_set.
  - by apply ok_replay.
  - apply ok_nothing. destruct local; [by apply ok_task, ok_tasks_set|].
    pose proof Hok as [_ _ _ _ Hl]. rewrite (proj1 (Hl eq_refl)) in Ht. by destruct pre.
  - by apply ok_nothing, ok_tasks_gone.
  - subst local. by apply ok_recover.
Qed.

Lemma run_ok local w0 acts w : fresh_start w0 -> run local w0 acts w -> outbox_ok local acts w.
Proof.
  intros (He & Hm & Ht). induction 1 as [|acts w new w' _ IH Hstep]; [|by apply (ok_step local acts w)].
  constructor; rewrite ?He, ?Hm, ?Ht.
  - intros i e. by rewrite lookup_empty.
  - intros i e. by rewrite lookup_empty.
  - done.
  - constructor.
  - intros _. split; [done|]. intros i e. by rewrite lookup_empty.
Qed.

Section OutboxTheorems.

(** C27. A poison event is bounded: whatever is lost, delayed, delivered twice or fails, in
    both modes, an event is handed out at most six times, its row counts at most five
    attempts, and it is given up at the earliest an hour after it was published. *)
Theorem poison_event_bounded (local : bool) (w0 w : outbox_world) (acts : list action) (i : uuid) (e : outbox_event) :
  fresh_start w0 -> run local w0 acts w -> ow_events w !! i = Some e ->
  (times (HandOut i) acts <= 6)%nat /\ 0 <= oe_attempts e <= 5
  /\ (oe_status e = "dead" -> oe_created_at e + minutes 60 <= ow_now w).
Proof.
  intros Hs Hrun He. destruct (run_ok local w0 acts w Hs Hrun) as [_ Hr _ _ _].
  destruct (Hr i e He) as [Ha Hh Hw Hd]. split; [lia|]. split; [done|]. intros Hdead.
  destruct (Hd Hdead) as [H5 Hn]. rewrite H5 in Hw. change (waited (Z.to_nat 5)) with (minutes 60) in Hw. lia.
Qed.

End OutboxTheorems.

Lemma fan_out_work m w w' :
  ow_work w' = ow_work w -> ow_work (_fan_out m w') = ow_work (_fan_out m w).
Proof. intros Hw. unfold _fan_out. repeat case_match; cbn; by rewrite Hw. Qed.

Section OutboxEffects.

(** Publishing with the outbox row written: the row is pending with the payload, the
    event waits for the worker or runs as a task of the process, and of a topic that changes
    what may be quoted exactly the cached answers that quote the article are gone. *)
Theorem published_effect (env : publish_env) (m : message) (w : outbox_world) (i a : uuid) :
  pe_outbox_id env = Some i -> id_of "article_id" (ms_payload m) = Some a -> pe_cache_error env = None ->
  let queued := mkMessage (ms_event_type m) (json_set (ms_payload m) "_outbox_id" (PId i)) in
  let w' := publish env m w in
  ow_events w' = <[i := mkOutbox i (ms_event_type m) (ms_payload m) "pending" 0 (ow_now w) None None None (ow_now w)]> (ow_events w)
  /\ (if to_worker env then ow_messages w' = ow_messages w ++ [queued] /\ ow_tasks w' = ow_tasks w
      else ow_tasks w' = ow_tasks w ++ [queued] /\ ow_messages w' = ow_messages w)
  /\ forall c, c ∈ ow_cache w' <->
       c ∈ ow_cache w /\ (invalidates (ms_event_type m) = true -> ~ a ∈ ca_article_ids c).
Proof.
  intros Hi Ha Hc. cbv zeta. unfold publish, persist_event. rewrite Hi.
  set (w1 := put_event _ w). set (q := mkMessage _ _).
  destruct (cache_same_rows env m w1) as (Hn & He & Hms & Ht).
  assert (Hcache : forall c, c ∈ ow_cache (invalidate_cache env m w1) <->
      c ∈ ow_cache w /\ (invalidates (ms_event_type m) = true -> ~ a ∈ ca_article_ids c)).
  { intros c. unfold invalidate_cache. rewrite Ha, Hc. destruct (invalidates _); [|by split; [|intros [? _]]].
    cbn [ow_cache]. change (c ∈ List.filter (fun c => negb (existsb (Z.eqb a) (ca_article_ids c))) (ow_cache w)
      <-> c ∈ ow_cache w /\ (true = true -> ~ a ∈ ca_article_ids c)).
    rewrite elem_of_filter_b, negb_true_iff, <- not_true_iff_false, existsb_exists.
    split; intros [Hin Hno]; (split; [done|]).
    - intros _ Hm. apply Hno. exists a. split; [by apply list_elem_of_In|apply Z.eqb_refl].
    - intros (x & Hx & ->%Z.eqb_eq). apply (Hno eq_refl). by apply list_elem_of_In. }
  destruct (to_worker env).
  - split; [exact He|]. split; [|exact Hcache]. split; [|exact Ht].
    change (ow_messages (invalidate_cache env m w1) ++ [q] = ow_messages w ++ [q]). by rewrite Hms.
  - destruct (listeners_same_rows env m (invalidate_cache env m w1)) as (Hn2 & He2 & Hms2 & Ht2).
    unfold start_lifecycle, q. cbn [ms_payload]. rewrite id_of_set_other, Ha.
    split; [by rewrite <- He2 in He|]. split.
    + split; [change (ow_tasks (run_listeners env m (invalidate_cache env m w1)) ++ [q] = ow_tasks w ++ [q]);
        by rewrite Ht2, Ht|by rewrite Hms in Hms2].
    + intros c. rewrite <- Hcache. apply reflexive_eq. f_equal.
      change (ow_cache (run_listeners env m (invalidate_cache env m w1)) = ow_cache (invalidate_cache env m w1)).
      unfold run_listeners. generalize (pe_listeners env). generalize (invalidate_cache env m w1).
      intros w2 l. revert w2. induction l as [|f l IH]; intros w2; [done|]. cbn [fold_left]. rewrite IH. by repeat case_match.
Qed.

(** Nothing is lost for good while it has attempts left: the next replay hands a due event
    out again, whatever became of its earlier messages, and the delivery of that message
    queues the work of the event and settles the row. *)
Theorem replay_delivers (local : bool) (w0 w : outbox_world) (acts : list action) (e : outbox_event) :
  fresh_start w0 -> run local w0 acts w -> e ∈ due_events [] w -> oe_attempts e < 5 ->
  let w1 := replay_outbox_task [] 100 w in
  exists pre post, ow_messages w1 = pre ++ outbox_message e :: post
    /\ let w2 := handle_domain_event_task true (outbox_message e) (w1 <| ow_messages := pre ++ post |>) in
       ow_work w2 = ow_work (_fan_out (outbox_message e) w)
       /\ exists e', ow_events w2 !! oe_id e = Some e' /\ oe_status e' = "dispatched" /\ oe_attempts e' = oe_attempts e + 1.
Proof.
  intros Hs Hrun He H5. cbv zeta. pose proof (run_ok local w0 acts w Hs Hrun) as [Hk _ _ _ _].
  destruct (due_rows [] w Hk) as [Hnd Hsel]. destruct (Hsel e He) as [Hlk Hopen].
  set (w1 := replay_outbox_task [] 100 w).
  assert (Hin : outbox_message e ∈ map outbox_message (List.filter (retryable OUTBOX_MAX_ATTEMPTS) (due_events [] w))).
  { apply elem_of_map. exists e. split; [done|]. apply elem_of_filter_b. split; [done|].
    apply negb_true_iff, Z.leb_gt. exact H5. }
  assert (Hmsg : ow_messages w1 = ow_messages w ++ map outbox_message (List.filter (retryable OUTBOX_MAX_ATTEMPTS) (due_events [] w))).
  { unfold w1, replay_outbox_task. cbv zeta. rewrite firstn_all2; [done|]. rewrite length_map.
    etransitivity; [apply filter_length_le|]. unfold due_events. rewrite length_take. lia. }
  apply list_elem_of_split in Hin as (pre & post & Hin). exists (ow_messages w ++ pre), post.
  split; [by rewrite Hmsg, Hin, app_assoc|].
  set (w1' := w1 <| ow_messages := _ |>).
  assert (Hrow : ow_events w1' !! oe_id e = Some (replay_row (ow_now w) e)).
  { change (store_rows oe_id (map (replay_row (ow_now w)) (due_events [] w)) (ow_events w) !! oe_id e = Some (replay_row (ow_now w) e)).
    rewrite store_map_lookup; [|apply replay_row_id|exact Hnd|by intros x Hx; apply Hsel]. rewrite Hlk. cbn.
    replace (among oe_id (oe_id e) (due_events [] w)) with true; [done|]. symmetry. apply among_elem; eauto. }
  assert (Hrep : replay_row (ow_now w) e = again (ow_now w) e <| oe_status := "processing" |>)
    by (unfold replay_row, OUTBOX_MAX_ATTEMPTS; by rewrite (proj2 (Z.leb_gt _ _) H5)).
  unfold handle_domain_event_task, is_duplicate. cbn [ms_payload outbox_message]. rewrite id_of_set.
  cbn [mbind option_bind]. rewrite Hrow, Hrep. cbv zeta.
  destruct (fan_out_same_rows (outbox_message e) w1') as (_ & Hev & _). fold (outbox_message e). rewrite Hev, Hrow, Hrep.
  split; [by apply fan_out_work|]. eexists. split; [apply lookup_insert_eq|]. done.
Qed.

(** A dispatched event stays in the table for ever: the retention rule removes only
    completed and dead rows, and the worker never completes what it dispatched. *)
Theorem dispatched_never_pruned (w0 w : outbox_world) (acts : list action) (i : uuid) (e : outbox_event)
    (now : datetime) (retention : Z) :
  fresh_start w0 -> run false w0 acts w -> ow_events w !! i = Some e -> times (Dispatch i) acts = 1%nat ->
  ow_events (prune (prunable now retention) w) !! i = Some e.
Proof.
  intros Hs Hrun He Ht. destruct (run_ok false w0 acts w Hs Hrun) as [_ _ _ _ Hl].
  rewrite (proj2 (Hl eq_refl) i e He) in Ht. destruct (String.eqb_spec (oe_status e) "dispatched") as [Hst|]; [|done].
  apply map_lookup_filter_Some. split; [done|]. unfold prunable, terminal. cbn. by rewrite Hst.
Qed.
End OutboxEffects.

(** ** A concrete run *)

Definition quiet_start : outbox_world := mkWorld 0 ∅ [] [mkCache "q1" [7]; mkCache "q2" [8]] [] [] [] ∅.
Definition worker_env (i : uuid) : publish_env := mkPublishEnv (Some i) None true true true [].
Definition published_7 : outbox_world :=
  publish (worker_env 1) (event_message (fun _ => []) (ArticlePublished 7)) quiet_start.
Definition queued_7 : message := mkMessage "ArticlePublished" [("article_id", PId 7); ("_outbox_id", PId 1)].
Definition delivered_7 : outbox_world :=
  handle_domain_event_task true queued_7 (published_7 <| ow_messages := [] |>).

Lemma fresh_quiet : fresh_start quiet_start.
Proof. done. Qed.

Lemma run_published : run false quiet_start ([] ++ [HandOut 1]) published_7.
Proof. eapply run_step; [constructor|]. apply (s_publish false quiet_start (worker_env 1)); [by intros i [= <-]|done|by right]. Qed.

Lemma run_delivered : run false quiet_start (([] ++ [HandOut 1]) ++ [Dispatch 1]) delivered_7.
Proof. eapply run_step; [apply run_published|]. exact (s_deliver false published_7 true [] queued_7 [] eq_refl). Qed.

Lemma poison_event_bounded_witness :
  exists e, ow_events delivered_7 !! 1 = Some e /\ (times (HandOut 1) [HandOut 1; Dispatch 1] <= 6)%nat.
Proof.
  eexists. split; [reflexivity|].
  exact (proj1 (poison_event_bounded false quiet_start delivered_7 _ 1 _ fresh_quiet run_delivered eq_refl)).
Defined.


Lemma dispatched_never_pruned_witness :
  exists e, ow_events (prune (prunable (minutes 1000000) (minutes 10)) delivered_7) !! 1 = Some e.
Proof. eexists. exact (dispatched_never_pruned quiet_start delivered_7 _ 1 _ _ _ fresh_quiet run_delivered eq_refl eq_refl). Defined.

Lemma published_effect_witness : ow_cache published_7 = [mkCache "q2" [8]] /\ ~ mkCache "q1" [7] ∈ ow_cache published_7.
Proof.
  split; [reflexivity|]. intros Hin.
  apply (published_effect (worker_env 1) (mkMessage "ArticlePublished" [("article_id", PId 7)]) quiet_start 1 7 eq_refl eq_refl eq_refl) in Hin
    as [_ Hno]. apply (Hno eq_refl). by left.
Defined.

Lemma replay_delivers_witness :
  exists e, ow_events published_7 !! 1 = Some e /\ outbox_message e ∈ ow_messages (replay_outbox_task [] 100 published_7).
Proof.
  eexists. split; [reflexivity|].
  destruct (replay_delivers false quiet_start published_7 _ (mkOutbox 1 "ArticlePublished" [("article_id", PId 7)] "pending" 0 0 None None None 0)
    fresh_quiet run_published) as (pre & post & Hm & _); [vm_compute; by left|vm_compute; reflexivity|].
  rewrite Hm. apply elem_of_app. right. by left.
Defined.

(** The messages wait behind a long task for an hour: the replay hands the event out five
    more times, then declares it dead, and every waiting message of it is ignored as a
    duplicate. The article is never indexed. *)
Definition replay_at (w : outbox_world) (t : Z) : outbox_world := replay_outbox_task [] 100 (w <| ow_now := minutes t |>).
Definition deliver_all (w : outbox_world) : outbox_world :=
  fold_left (fun w m => handle_domain_event_task true m w) (ow_messages w) (w <| ow_messages := [] |>).

Example backlogged_event_dies :
  let w := fold_left replay_at [1; 3; 7; 15; 31; 61] published_7 in
  length (ow_messages w) = 6%nat /\ oe_status <$> ow_events w !! 1 = Some "dead" /\ ow_work (deliver_all w) = [].
Proof. vm_compute. done. Qed.

(** An event that needed a retry is pruned by the inline rule in the minute it completes. *)
Example completed_row_pruned_at_once :
  let e := mkOutbox 1 "ArticlePublished" [] "completed" 3 0 None (Some (minutes 100)) None 0 in
  prunable_inline (minutes 100) (minutes 99) e = true /\ prunable (minutes 100) (minutes 99) e = false.
Proof. vm_compute. done. Qed.

(** The inline sweep gives an event up without the time of death the retention keys on. *)
Example dead_without_time :
  let e := mkOutbox 1 "ArticlePublished" [] "failed" 5 0 None None None 0 in
  oe_dead_at (recover_row 5 (minutes 100) e) = None /\ oe_dead_at (replay_row (minutes 100) e) = Some (minutes 100).
Proof. vm_compute. done. Qed.
