(* ===== verification/MailQueue.v ===== *)
(** * The mail queue

    [deliver_notification_queue] of src/workers/tasks.py with the verdicts of [MailSendError]
    (src/services/email.py): notifications of type email wait in a table and are sent in
    batches, oldest due first, with a backoff per row, a pause of the whole queue when nothing
    can be delivered, and death by refusal or by age. What the mail provider answers is a
    parameter. *)

From S2P Require Import Prelude PyText Models Rbac SyncQueue.
From Stdlib Require String.
#[local] Open Scope string_scope.
#[local] Open Scope list_scope.
#[local] Open Scope Z_scope.

(** ** Rows, errors *)

(** src/models/ops.py *)
Record mail_row := mkMailRow {
  mq_id : uuid;
  mq_type : string;
  mq_payload : json;
  mq_status : string;
  mq_sent_at : option datetime;
  mq_attempts : Z;
  mq_last_error : option pystr;
  mq_next_attempt_at : option datetime;
  mq_created_at : datetime
}.
#[export] Instance eta_mail_row : Eta mail_row := fun r => mkMailRow
  (mq_id r) (mq_type r) (mq_payload r) (mq_status r) (mq_sent_at r) (mq_attempts r) (mq_last_error r)
  (mq_next_attempt_at r) (mq_created_at r).

#[export] Instance mail_row_eq_dec : EqDecision mail_row.
Proof. solve_decision. Defined.

(** What [send] raises: a [MailSendError], or anything else (a missing address, a network
    error) of which only the text is read. *)
Inductive send_error :=
  | MailSendError (message : pystr) (status : option Z) (stage : string) (retry_after : option Z)
  | OtherError (message : pystr).

Definition status_in (l : list Z) (status : option Z) : bool :=
  match status with Some s => existsb (Z.eqb s) l | None => false end.

Definition SENDER_BACKOFF_SECONDS : Z := 15 * 60.

Definition permanent (e : send_error) : bool :=
  match e with
  | MailSendError _ status stage _ => String.eqb stage "send" && status_in [400; 413] status
  | OtherError _ => false
  end.

Definition sender_refused (e : send_error) : bool :=
  match e with
  | MailSendError _ status stage _ => String.eqb stage "send" && status_in [403; 404] status
  | OtherError _ => false
  end.

Definition stops_the_batch (e : send_error) : bool :=
  match e with
  | MailSendError _ status stage _ =>
      mem stage ["config"; "token"] || status_in [429; 503] status || sender_refused e
  | OtherError _ => false
  end.

Definition minimum_wait (e : send_error) : Z :=
  match e with
  | MailSendError _ _ _ retry_after => Z.max (default 0 retry_after) (if sender_refused e then SENDER_BACKOFF_SECONDS else 0)
  | OtherError _ => 0
  end.

Definition error_text (e : send_error) : pystr :=
  match e with MailSendError m _ _ _ => m | OtherError m => m end.

(** [getattr(exc, "stage", "send")] *)
Definition error_stage (e : send_error) : string :=
  match e with MailSendError _ _ stage _ => stage | OtherError _ => "send" end.

(** ** Waits *)

Definition MAIL_MAX_AGE : Z := 24 * 60 * 60.
Definition MAIL_BACKOFF_BASE_SECONDS : Z := 30.
Definition MAIL_BACKOFF_CAP_SECONDS : Z := 3600.
Definition MAIL_STAGE_FAILURE_FLOOR_SECONDS : Z := 300.

Definition mail_backoff_seconds (attempts : Z) : Z :=
  Z.min (MAIL_BACKOFF_BASE_SECONDS * 2 ^ Z.max 0 (attempts - 1)) MAIL_BACKOFF_CAP_SECONDS.

Definition wait_seconds (attempts : Z) (e : send_error) : Z :=
  Z.max (Z.max (mail_backoff_seconds (Z.max attempts 1)) (minimum_wait e))
    (if mem (error_stage e) ["config"; "token"] then MAIL_STAGE_FAILURE_FLOOR_SECONDS else 0).

(** ** One batch *)

Record mail := mkMail { m_to : pystr; m_subject : pystr; m_text : pystr; m_html : option pystr }.

(** [bool] of a JSON value *)
Definition truthy_value (v : payload_value) : bool :=
  match v with
  | PText s => truthy s
  | PInt z => negb (z =? 0)
  | PBool b => b
  | PNone => false
  | PId _ | PEvent _ => true
  end.

Section Delivery.
(** [str] of a JSON value, and what the provider answers to a mail: an error, or none. *)
Variable str : payload_value -> pystr.
Variable send : mail -> option send_error.

(** [str(payload.get(key) or default)] *)
Definition field (key : string) (default : pystr) (payload : json) : pystr :=
  match assoc key payload with Some v => if truthy_value v then str v else default | None => default end.

(** The mail of a row; [None]: it has no address. *)
Definition mail_of (payload : json) : option mail :=
  match assoc "to" payload with
  | Some v =>
      Some (mkMail (str v) (field "subject" ($"QNSC notification") payload) (field "text" [] payload)
        (match assoc "html" payload with Some h => if truthy_value h then Some (str h) else None | None => None end))
  | None => None
  end.

Definition attempt (r : mail_row) : option send_error :=
  match mail_of (mq_payload r) with
  | Some m => send m
  | None => Some (OtherError ($"'to'"))
  end.

Definition deliverable (r : mail_row) : bool :=
  String.eqb (mq_type r) "email" && mem (mq_status r) ["pending"; "failed"].

(** A row the batch may take; [locked] are the rows of a batch running elsewhere. *)
Definition eligible (locked : list uuid) (now : datetime) (r : mail_row) : bool :=
  deliverable r
  && match mq_next_attempt_at r with None => true | Some t => t <=? now end
  && negb (existsb (Z.eqb (mq_id r)) locked).

(** [ORDER BY next_attempt_at ASC NULLS FIRST, created_at] *)
Definition due_first (a b : mail_row) : bool :=
  match mq_next_attempt_at a, mq_next_attempt_at b with
  | None, None => mq_created_at a <=? mq_created_at b
  | None, Some _ => true
  | Some _, None => false
  | Some x, Some y => (x <? y) || ((x =? y) && (mq_created_at a <=? mq_created_at b))
  end.

Definition batch (locked : list uuid) (now : datetime) (t : gmap uuid mail_row) : list mail_row :=
  take 100 (stable_sort due_first (List.filter (eligible locked now) (rows t))).

Definition sent_row (now : datetime) (r : mail_row) : mail_row :=
  mkMailRow (mq_id r) (mq_type r) (mq_payload r) "sent" (Some now) (mq_attempts r + 1) None None (mq_created_at r).

Definition charged (e : send_error) (r : mail_row) : Z :=
  if stops_the_batch e then mq_attempts r else mq_attempts r + 1.

Definition too_old (now : datetime) (r : mail_row) : bool := seconds MAIL_MAX_AGE <? now - mq_created_at r.

Definition failed_row (now : datetime) (e : send_error) (r : mail_row) : mail_row :=
  let attempts := charged e r in
  if permanent e || too_old now r then
    mkMailRow (mq_id r) (mq_type r) (mq_payload r) "dead" (mq_sent_at r) attempts (Some (upto 1000 (error_text e))) None (mq_created_at r)
  else
    mkMailRow (mq_id r) (mq_type r) (mq_payload r) (if attempts =? 0 then mq_status r else "failed") (mq_sent_at r)
      attempts (Some (upto 1000 (error_text e))) (Some (now + seconds (wait_seconds attempts e))) (mq_created_at r).

(** The one UPDATE that pauses the queue. *)
Definition deferred (now until : datetime) (r : mail_row) : mail_row :=
  if deliverable r then r <| mq_next_attempt_at := Some (Z.max (default now (mq_next_attempt_at r)) until) |> else r.

Record pass := mkPass { p_table : gmap uuid mail_row; p_sent : list uuid }.

Fixpoint deliver_rows (now : datetime) (batch : list mail_row) (p : pass) : pass :=
  match batch with
  | [] => p
  | r :: batch' =>
      match attempt r with
      | None => deliver_rows now batch' (mkPass (<[mq_id r := sent_row now r]> (p_table p)) (p_sent p ++ [mq_id r]))
      | Some e =>
          let t := <[mq_id r := failed_row now e r]> (p_table p) in
          if stops_the_batch e
          then mkPass (deferred now (now + seconds (wait_seconds (charged e r) e)) <$> t) (p_sent p)
          else deliver_rows now batch' (mkPass t (p_sent p))
      end
  end.

(** [configured]: a provider is selected and the mail app has its client id. *)
Definition deliver_notification_queue (configured : bool) (locked : list uuid) (now : datetime) (t : gmap uuid mail_row)
    : pass :=
  if configured then deliver_rows now (batch locked now t) (mkPass t []) else mkPass t [].
End Delivery.

(** ** What a batch does, row by row *)

Section DeliveryFacts.
Variable str : payload_value -> pystr.
Variable send : mail -> option send_error.

Definition stops (r : mail_row) : bool :=
  match attempt str send r with Some e => stops_the_batch e | None => false end.
Definition is_sent (r : mail_row) : bool := match attempt str send r with None => true | Some _ => false end.

(** The rows a batch gets to: up to the first one whose error stops it. *)
Fixpoint tried (batch : list mail_row) : list mail_row :=
  match batch with [] => [] | r :: batch' => r :: if stops r then [] else tried batch' end.

(** How long it pauses the queue, in seconds. *)
Fixpoint pause_of (batch : list mail_row) : option Z :=
  match batch with
  | [] => None
  | r :: batch' =>
      match attempt str send r with
      | Some e => if stops_the_batch e then Some (wait_seconds (charged e r) e) else pause_of batch'
      | None => pause_of batch'
      end
  end.

Definition settled (now : datetime) (r : mail_row) : mail_row :=
  match attempt str send r with None => sent_row now r | Some e => failed_row now e r end.

Definition paused (now : datetime) (pause : option Z) (r : mail_row) : mail_row :=
  match pause with Some wait => deferred now (now + seconds wait) r | None => r end.

Lemma settled_id now r : mq_id (settled now r) = mq_id r.
Proof. unfold settled, failed_row. by repeat case_match. Qed.

Lemma deferred_id now until r : mq_id (deferred now until r) = mq_id r.
Proof. unfold deferred. by case_match. Qed.

Lemma paused_id now pause r : mq_id (paused now pause r) = mq_id r.
Proof. destruct pause; [apply deferred_id|done]. Qed.

Lemma deliver_rows_spec now batch p :
  deliver_rows str send now batch p
  = mkPass (paused now (pause_of batch) <$> store_rows mq_id (map (settled now) (tried batch)) (p_table p))
      (p_sent p ++ map mq_id (List.filter is_sent (tried batch))).
Proof.
  revert p. induction batch as [|r batch IH]; intros [t s]; cbn [deliver_rows tried pause_of p_table p_sent].
  - cbn. rewrite app_nil_r. f_equal. symmetry. etransitivity; [|apply map_fmap_id]. done.
  - assert (Hcons : forall l, store_rows mq_id (settled now r :: l) t = store_rows mq_id l (<[mq_id r := settled now r]> t))
      by (intros l; unfold store_rows; cbn [fold_left]; by rewrite settled_id).
    cbn [map List.filter]. rewrite Hcons. clear Hcons. unfold stops.
    assert (Hset : settled now r = match attempt str send r with None => sent_row now r | Some e => failed_row now e r end) by done.
    assert (Hsent : is_sent r = match attempt str send r with None => true | Some _ => false end) by done.
    rewrite Hset, Hsent. clear Hset Hsent. destruct (attempt str send r) as [e|]; [destruct (stops_the_batch e)|].
    + cbn. by rewrite app_nil_r.
    + by rewrite IH.
    + rewrite IH. cbn. by rewrite <- app_assoc.
Qed.

Lemma tried_prefix batch : exists rest, batch = tried batch ++ rest.
Proof.
  induction batch as [|r batch [rest IH]]; [by exists []|]. cbn [tried].
  destruct (stops r); [by exists batch|]. exists rest. cbn. by rewrite <- IH.
Qed.
End DeliveryFacts.

(** ** Waits and pauses *)

Lemma backoff_bounds n : 30 <= mail_backoff_seconds n <= 3600.
Proof.
  unfold mail_backoff_seconds, MAIL_BACKOFF_BASE_SECONDS, MAIL_BACKOFF_CAP_SECONDS.
  pose proof (Z.pow_pos_nonneg 2 (Z.max 0 (n - 1)) ltac:(lia) ltac:(lia)). lia.
Qed.

Lemma wait_bounds n e :
  Z.max 30 (minimum_wait e) <= wait_seconds n e <= Z.max 3600 (minimum_wait e).
Proof.
  unfold wait_seconds, MAIL_STAGE_FAILURE_FLOOR_SECONDS. pose proof (backoff_bounds (Z.max n 1)). case_match; lia.
Qed.

(** The server's pacing is capped at an hour by [_retry_after]. *)
Definition paced (e : send_error) : Prop :=
  match e with MailSendError _ _ _ (Some s) => s <= 3600 | _ => True end.

Lemma minimum_wait_paced e : paced e -> minimum_wait e <= 3600.
Proof.
  unfold paced, minimum_wait, SENDER_BACKOFF_SECONDS. destruct e as [m s g [r|]|m]; cbn; intros Hp; try case_match; lia.
Qed.

(** ** Passes over the table *)

Lemma batch_none (p : mail_row -> bool) leb n t :
  (forall x, x ∈ rows t -> p x = false) -> take n (stable_sort leb (List.filter p (rows t))) = [].
Proof.
  intros Hp. replace (List.filter p (rows t)) with (@nil mail_row); [by destruct n|]. symmetry.
  revert Hp. generalize (rows t). intros l Hp. induction l as [|x l IH]; [done|]. cbn. rewrite (Hp x) by (by left).
  apply IH. intros y Hy. apply Hp. by right.
Qed.

Lemma deferred_not_eligible locked now now' until r : now' < until -> eligible locked now' (deferred now until r) = false.
Proof.
  intros Hn. unfold deferred. destruct (deliverable r) eqn:Hd.
  - unfold eligible. cbn [mq_next_attempt_at]. change (deliverable r && (Z.max (default now (mq_next_attempt_at r)) until <=? now')
      && negb (existsb (Z.eqb (mq_id r)) locked) = false).
    rewrite (proj2 (Z.leb_gt _ _)) by lia. by rewrite andb_false_r.
  - unfold eligible. by rewrite Hd.
Qed.

Lemma deferred_attempts now until r : mq_attempts (deferred now until r) = mq_attempts r.
Proof. unfold deferred. by case_match. Qed.


(** A row that cannot be delivered is not paused. *)
Lemma paused_settled now pause r : deliverable r = false -> paused now pause r = r.
Proof. intros Hd. destruct pause; [|done]. cbn. unfold deferred. by rewrite Hd. Qed.

Lemma eligible_deliverable locked now r : eligible locked now r = true -> deliverable r = true.
Proof. unfold eligible. by intros [[H _]%andb_true_iff _]%andb_true_iff. Qed.

Lemma failed_row_live now e r :
  permanent e = false -> too_old now r = false -> deliverable r = true ->
  deliverable (failed_row now e r) = true
  /\ mq_next_attempt_at (failed_row now e r) = Some (now + seconds (wait_seconds (charged e r) e)).
Proof.
  intros Hp Hd Hel. unfold failed_row. rewrite Hp, Hd. cbn [orb]. split; [|done].
  apply andb_true_iff in Hel as [Ht Hs]. unfold deliverable. cbn [mq_type mq_status]. rewrite Ht.
  by destruct (_ =? 0).
Qed.

Section Passes.
Variable str : payload_value -> pystr.
Variable send : mail -> option send_error.

Lemma batch_rows locked now t :
  keyed mq_id t ->
  NoDup (map mq_id (batch locked now t))
  /\ forall r, r ∈ batch locked now t -> t !! mq_id r = Some r /\ eligible locked now r = true.
Proof. apply selected_rows. Qed.

(** What a pass leaves in the table under each id. *)
Lemma pass_lookup locked now t i :
  keyed mq_id t ->
  p_table (deliver_notification_queue str send true locked now t) !! i
  = (fun r => paused now (pause_of str send (batch locked now t))
                (if among mq_id i (tried str send (batch locked now t)) then settled str send now r else r)) <$> t !! i.
Proof.
  intros Hk. unfold deliver_notification_queue. rewrite deliver_rows_spec. cbn [p_table].
  destruct (batch_rows locked now t Hk) as [Hnd Hsel].
  destruct (tried_prefix str send (batch locked now t)) as [rest Hb].
  rewrite lookup_fmap, store_map_lookup.
  - destruct (t !! i); reflexivity.
  - apply settled_id.
  - rewrite Hb, map_app in Hnd. by apply NoDup_app in Hnd as [Hnd _].
  - intros r Hr. apply Hsel. rewrite Hb. apply elem_of_app. by left.
Qed.

Lemma pass_keyed locked now t configured :
  keyed mq_id t -> keyed mq_id (p_table (deliver_notification_queue str send configured locked now t)).
Proof.
  intros Hk. destruct configured; [|done]. intros i r Hr. rewrite pass_lookup in Hr by done.
  destruct (t !! i) as [r0|] eqn:Hi; [|done]. injection Hr as <-. rewrite paused_id.
  case_match; rewrite ?settled_id; by apply Hk.
Qed.

Lemma tried_in r b : r ∈ tried str send b -> r ∈ b.
Proof. destruct (tried_prefix str send b) as [rest Hb]. intros Hr. rewrite Hb. apply elem_of_app. by left. Qed.

Lemma pause_of_stop b r e :
  r ∈ tried str send b -> attempt str send r = Some e -> stops_the_batch e = true ->
  pause_of str send b = Some (wait_seconds (charged e r) e).
Proof.
  induction b as [|x b IH]; intros Hr Ha Hs; [by apply elem_of_nil in Hr|]. cbn [tried pause_of] in *.
  unfold stops in Hr. apply elem_of_cons in Hr as [<-|Hr]; [by rewrite Ha, Hs|].
  destruct (attempt str send x) as [e'|]; [|by apply IH]. destruct (stops_the_batch e'); [by apply elem_of_nil in Hr|by apply IH].
Qed.

(** A failure that concerns every mail pauses the whole queue: after a batch that met a
    configuration, credential, throttling or sender error no row can be taken by any batch
    before the wait is over, at least 30 seconds and the wait the error asks for, 300 seconds
    when it was the configuration or the token; and the failure is not charged to the row that met it. *)
Theorem stopped_batch_waits (locked locked' : list uuid) (now now' : datetime) (t : gmap uuid mail_row)
    (r : mail_row) (e : send_error) :
  keyed mq_id t -> r ∈ tried str send (batch locked now t) -> attempt str send r = Some e -> stops_the_batch e = true ->
  now' < now + seconds (Z.max (Z.max 30 (minimum_wait e)) (if mem (error_stage e) ["config"; "token"] then 300 else 0)) ->
  let t' := p_table (deliver_notification_queue str send true locked now t) in
  batch locked' now' t' = []
  /\ mq_attempts <$> t' !! mq_id r = Some (mq_attempts r).
Proof.
  intros Hk Hr Ha Hs Hn. cbv zeta. pose proof (pause_of_stop _ r e Hr Ha Hs) as Hp.
  set (t' := p_table _).
  set (until := now + seconds (wait_seconds (charged e r) e)).
  assert (Hlk : forall i, t' !! i = (fun x => deferred now until
      (if among mq_id i (tried str send (batch locked now t)) then settled str send now x else x)) <$> t !! i).
  { intros i. unfold t'. rewrite pass_lookup by done. by rewrite Hp. }
  assert (Huntil : now' < until).
  { unfold until, seconds in *. pose proof (wait_bounds (charged e r) e). unfold wait_seconds, MAIL_STAGE_FAILURE_FLOOR_SECONDS in *. lia. }
  split.
  - unfold batch. apply batch_none. intros x Hx. apply (elem_of_rows mq_id) in Hx; [|by apply pass_keyed].
    fold t' in Hx. rewrite Hlk in Hx. destruct (t !! mq_id x) as [y|]; [|done]. injection Hx as <-.
    by apply deferred_not_eligible.
  - destruct (batch_rows locked now t Hk) as [_ Hsel]. destruct (Hsel r (tried_in r _ Hr)) as [Hlr _].
    assert (Hin : among mq_id (mq_id r) (tried str send (batch locked now t)) = true) by (apply among_elem; eauto).
    rewrite Hlk, Hlr. cbn. rewrite Hin.
    rewrite deferred_attempts. unfold settled. rewrite Ha. unfold failed_row, charged. rewrite Hs.
    by destruct (permanent e || too_old now r).
Qed.

Lemma attempt_paced r e : (forall m e, send m = Some e -> paced e) -> attempt str send r = Some e -> paced e.
Proof. intros Hp. unfold attempt. destruct (mail_of str (mq_payload r)); [apply Hp|]. by intros [= <-]. Qed.

(** A row never keeps failing silently: every row a batch gets to is then sent, dead (the
    mail was refused, or it is older than a day), or due again between 30 seconds and an hour
    later; a row older than a day is not due again. *)
Theorem tried_row_settles (locked : list uuid) (now : datetime) (t : gmap uuid mail_row) (r r' : mail_row) :
  keyed mq_id t -> (forall m e, send m = Some e -> paced e) ->
  r ∈ tried str send (batch locked now t) ->
  p_table (deliver_notification_queue str send true locked now t) !! mq_id r = Some r' ->
  mq_status r' = "sent" /\ attempt str send r = None
  \/ mq_status r' = "dead" /\ (too_old now r = true \/ exists e, attempt str send r = Some e /\ permanent e = true)
  \/ deliverable r' = true /\ too_old now r = false
     /\ exists next, mq_next_attempt_at r' = Some next /\ now + seconds 30 <= next <= now + seconds 3600.
Proof.
  intros Hk Hpaced Hr Hr'. destruct (batch_rows locked now t Hk) as [_ Hsel].
  pose proof (tried_in r _ Hr) as Hb. destruct (Hsel r Hb) as [Hlr Hel].
  assert (Hin : among mq_id (mq_id r) (tried str send (batch locked now t)) = true) by (apply among_elem; eauto).
  rewrite pass_lookup, Hlr in Hr' by done. cbn in Hr'. rewrite Hin in Hr'.
  assert (Hpause : forall wait, pause_of str send (batch locked now t) = Some wait -> 30 <= wait <= 3600).
  { clear -Hpaced. induction (batch locked now t) as [|x l IH]; [done|]. intros wait. cbn [pause_of].
    destruct (attempt str send x) as [e|] eqn:Ha; [|apply IH]. destruct (stops_the_batch e); [|apply IH].
    intros [= <-]. pose proof (wait_bounds (charged e x) e). pose proof (minimum_wait_paced e (attempt_paced x e Hpaced Ha)). lia. }
  injection Hr' as <-. unfold settled. destruct (attempt str send r) as [e|] eqn:Ha.
  - right. pose proof (wait_bounds (charged e r) e) as Hw. pose proof (minimum_wait_paced e (attempt_paced r e Hpaced Ha)) as Hm.
    unfold failed_row. destruct (permanent e || too_old now r) eqn:Hd.
    + left. rewrite paused_settled by (apply andb_false_r). split; [done|]. apply orb_true_iff in Hd as [Hd|Hd]; eauto.
    + right. apply orb_false_iff in Hd as [Hp Hd].
      destruct (failed_row_live now e r Hp Hd ltac:(by apply eligible_deliverable in Hel)) as [Hdel Hnext].
      unfold failed_row in Hdel, Hnext. rewrite Hp, Hd in Hdel, Hnext. cbn [orb] in Hdel, Hnext.
      set (x := mkMailRow _ _ _ _ _ _ _ _ _) in *.
      destruct (pause_of str send (batch locked now t)) as [wait|] eqn:Hpo; cbn [paused].
      * specialize (Hpause wait eq_refl). unfold deferred. rewrite Hdel. split; [exact Hdel|]. split; [done|].
        eexists. split; [reflexivity|]. rewrite Hnext. cbn [from_option]. unfold id, seconds. lia.
      * split; [done|]. split; [done|]. eexists. split; [exact Hnext|]. unfold seconds. lia.
  - left. rewrite paused_settled by (apply andb_false_r). done.
Qed.
End Passes.

(** ** Order *)

Lemma due_first_total a b : due_first a b = false -> due_first b a = true.
Proof.
  unfold due_first. destruct (mq_next_attempt_at a) as [x|], (mq_next_attempt_at b) as [y|]; try done.
  - rewrite orb_false_iff, andb_false_iff, orb_true_iff, andb_true_iff, Z.ltb_ge, !Z.leb_gt, !Z.ltb_lt, Z.eqb_neq, Z.eqb_eq, Z.leb_le. lia.
  - rewrite Z.leb_gt, Z.leb_le. lia.
Qed.

Lemma due_first_trans a b c : due_first a b = true -> due_first b c = true -> due_first a c = true.
Proof.
  unfold due_first.
  destruct (mq_next_attempt_at a) as [x|], (mq_next_attempt_at b) as [y|], (mq_next_attempt_at c) as [z|]; try done.
  - rewrite !orb_true_iff, !andb_true_iff, !Z.ltb_lt, !Z.eqb_eq, !Z.leb_le. lia.
  - rewrite !Z.leb_le. lia.
Qed.

Lemma sorted_across {A} (R : A -> A -> Prop) l k x y : StronglySorted R (l ++ k) -> x ∈ l -> y ∈ k -> R x y.
Proof.
  induction l as [|a l IH]; intros Hs Hx Hy; [by apply elem_of_nil in Hx|].
  apply StronglySorted_inv in Hs as [Hs Ha]. apply elem_of_cons in Hx as [->|Hx]; [|by apply IH].
  rewrite Forall_forall in Ha. apply Ha, elem_of_app. by right.
Qed.

(** ** Runs of completed batches *)

(** [mw_sent]: the rows whose mail the provider took, in order. *)
Record mail_world := mkMailWorld { mw_now : datetime; mw_rows : gmap uuid mail_row; mw_sent : list uuid }.

Inductive mail_step : mail_world -> mail_world -> Prop :=
  | m_tick w now : mw_now w <= now -> mail_step w (mkMailWorld now (mw_rows w) (mw_sent w))
  | m_queue w i type payload :
      mw_rows w !! i = None ->
      mail_step w (mkMailWorld (mw_now w)
        (<[i := mkMailRow i type payload "pending" None 0 None None (mw_now w)]> (mw_rows w)) (mw_sent w))
  | m_batch w str send configured locked :
      let p := deliver_notification_queue str send configured locked (mw_now w) (mw_rows w) in
      mail_step w (mkMailWorld (mw_now w) (p_table p) (mw_sent w ++ p_sent p)).

Definition occurrences (i : uuid) (l : list uuid) : nat := length (List.filter (Z.eqb i) l).

Lemma occurrences_app i l k : occurrences i (l ++ k) = (occurrences i l + occurrences i k)%nat.
Proof. unfold occurrences. by rewrite List.filter_app, length_app. Qed.

Lemma occurrences_none i l : ~ i ∈ l -> occurrences i l = 0%nat.
Proof.
  unfold occurrences. induction l as [|j l IH]; [done|]. rewrite elem_of_cons. intros Hi. cbn.
  destruct (Z.eqb_spec i j) as [->|_]; [tauto|]. apply IH. tauto.
Qed.

Lemma occurrences_filter (p : mail_row -> bool) l r :
  NoDup (map mq_id l) -> r ∈ l -> occurrences (mq_id r) (map mq_id (List.filter p l)) = if p r then 1%nat else 0%nat.
Proof.
  induction l as [|x l IH]; intros Hnd Hr; [by apply elem_of_nil in Hr|]. cbn [map] in Hnd.
  apply NoDup_cons in Hnd as [Hx Hnd]. cbn [List.filter]. apply elem_of_cons in Hr as [->|Hr].
  - assert (Hz : occurrences (mq_id x) (map mq_id (List.filter p l)) = 0%nat).
    { apply occurrences_none. intros (y & Hy & Hin)%elem_of_map. apply elem_of_filter_b in Hin as [Hin _].
      apply Hx. rewrite Hy. apply elem_of_map. eauto. }
    destruct (p x); [|done]. unfold occurrences in *. cbn. by rewrite Z.eqb_refl, <- Hz.
  - rewrite <- (IH Hnd Hr). destruct (p x); [|done]. unfold occurrences. cbn.
    destruct (Z.eqb_spec (mq_id r) (mq_id x)) as [He|_]; [|done]. exfalso. apply Hx. rewrite <- He. apply elem_of_map. eauto.
Qed.

Definition sent_count (o : option mail_row) : nat :=
  match o with Some r => if String.eqb (mq_status r) "sent" then 1 else 0 | None => 0 end.

Definition mails_ok (w : mail_world) : Prop :=
  keyed mq_id (mw_rows w) /\ forall i, occurrences i (mw_sent w) = sent_count (mw_rows w !! i).

Lemma paused_status now pause r : mq_status (paused now pause r) = mq_status r.
Proof. destruct pause; [|done]. cbn. unfold deferred. by case_match. Qed.

Lemma deliverable_not_sent r : deliverable r = true -> String.eqb (mq_status r) "sent" = false.
Proof.
  intros [_ Hd]%andb_true_iff. apply not_true_iff_false. intros Hs%String.eqb_eq. by rewrite Hs in Hd.
Qed.

Lemma settled_status str send now r :
  deliverable r = true -> String.eqb (mq_status (settled str send now r)) "sent" = is_sent str send r.
Proof.
  intros Hd. unfold settled, is_sent. destruct (attempt str send r) as [e|]; [|done].
  unfold failed_row. destruct (_ || _); [done|]. cbn [mq_status]. destruct (_ =? 0); [|done].
  by apply deliverable_not_sent.
Qed.

Lemma mails_ok_step w w' : mails_ok w -> mail_step w w' -> mails_ok w'.
Proof.
  intros [Hk Hc] Hstep. destruct Hstep as [w now Hn|w i ty pl Hi|w str send configured locked p].
  - by split.
  - split; cbn [mw_rows mw_sent].
    + intros j r [[<- <-]|[_ Hr]]%lookup_insert_Some; [done|by apply Hk].
    + intros j. rewrite Hc. destruct (decide (j = i)) as [->|Hne]; [by rewrite Hi, lookup_insert_eq|by rewrite lookup_insert_ne].
  - destruct configured; [|split; [done|]; intros i; unfold p; cbn [deliver_notification_queue p_sent p_table mw_sent mw_rows]; by rewrite app_nil_r].
    split; [by apply pass_keyed|]. intros i. cbn [mw_rows mw_sent]. unfold p. rewrite pass_lookup by done.
    set (b := batch locked (mw_now w) (mw_rows w)).
    assert (Hsent : p_sent (deliver_notification_queue str send true locked (mw_now w) (mw_rows w))
        = map mq_id (List.filter (is_sent str send) (tried str send b)))
      by (unfold deliver_notification_queue; by rewrite deliver_rows_spec).
    rewrite Hsent, occurrences_app, Hc. destruct (batch_rows locked (mw_now w) (mw_rows w) Hk) as [Hnd Hsel]. fold b in Hnd, Hsel.
    assert (Hndt : NoDup (map mq_id (tried str send b))).
    { destruct (tried_prefix str send b) as [rest Hb]. rewrite Hb, map_app in Hnd. by apply NoDup_app in Hnd as [Hnd _]. }
    destruct (among mq_id i (tried str send b)) eqn:Ha.
    + apply among_elem in Ha as (r & Hr & <-). destruct (Hsel r (tried_in str send r b Hr)) as [Hlr Hel].
      apply eligible_deliverable in Hel as Hd. rewrite Hlr. cbn. rewrite occurrences_filter by done.
      rewrite paused_status, settled_status, deliverable_not_sent by done. by destruct (is_sent _ _ _).
    + rewrite occurrences_none, Nat.add_0_r.
      * destruct (mw_rows w !! i); [cbn; by rewrite paused_status|done].
      * intros (r & -> & Hr)%elem_of_map. apply elem_of_filter_b in Hr as [Hr _].
        enough (among mq_id (mq_id r) (tried str send b) = true) by congruence. apply among_elem. by exists r.
Qed.

Section MailTheorems.

(** C29. No mail is sent twice: over any sequence of completed batches, on any number of
    workers that skip each other's rows, the provider took the mail of a row once when the
    row is sent and never otherwise. *)
Theorem mail_delivered_once (w : mail_world) (i : uuid) :
  rtc mail_step (mkMailWorld 0 ∅ []) w -> occurrences i (mw_sent w) = sent_count (mw_rows w !! i).
Proof.
  intros Hr. enough (Hok : mails_ok w) by apply Hok.
  apply (rtc_ind_r mails_ok (mkMailWorld 0 ∅ [])) in Hr; [done| |by intros x y _ Hs Hx; apply (mails_ok_step x)].
  split; [intros j r; cbn [mw_rows]; by rewrite lookup_empty|]. intros j. cbn [mw_rows]. by rewrite lookup_empty.
Qed.

(** Rows that keep failing cannot starve new mail: when a row that never failed is left
    out of a batch, the batch is full of rows that never failed either and are no younger. *)
Theorem fresh_mail_first (locked : list uuid) (now : datetime) (t : gmap uuid mail_row) (r x : mail_row) :
  r ∈ rows t -> eligible locked now r = true -> mq_next_attempt_at r = None ->
  (r ∉ batch locked now t) -> x ∈ batch locked now t ->
  mq_next_attempt_at x = None /\ mq_created_at x <= mq_created_at r /\ length (batch locked now t) = 100%nat.
Proof.
  intros Hr He Hn Hout Hx. unfold batch in *. set (l := stable_sort due_first (List.filter (eligible locked now) (rows t))) in *.
  assert (Hl : r ∈ l) by (apply elem_of_stable_sort, elem_of_filter_b; done).
  assert (Hs : StronglySorted (fun a b => due_first a b = true) l)
    by (apply stable_sort_sorted; [apply due_first_total|apply due_first_trans]).
  rewrite <- (take_drop 100 l) in Hl, Hs. apply elem_of_app in Hl as [Hl|Hl]; [done|].
  pose proof (sorted_across _ _ _ x r Hs Hx Hl) as Hxy. cbn in Hxy. unfold due_first in Hxy. rewrite Hn in Hxy.
  destruct (mq_next_attempt_at x); [done|]. split; [done|]. split; [by apply Z.leb_le|].
  rewrite length_take. assert (100 < length l)%nat; [|lia].
  apply Nat.nle_gt. intros Hle. rewrite drop_ge in Hl by lia. by apply elem_of_nil in Hl.
Qed.
End MailTheorems.

(** ** A concrete queue *)

Definition text_only (v : payload_value) : pystr := match v with PText s => s | _ => [] end.
Definition to_an : json := [("to", PText ($"an@acme.test"))].
Definition to_bo : json := [("to", PText ($"bo@acme.test"))].
Definition two_mails : gmap uuid mail_row :=
  {[1 := mkMailRow 1 "email" to_an "pending" None 0 None None 0; 2 := mkMailRow 2 "email" to_bo "pending" None 0 None None 1]}.
Definition takes_all (m : mail) : option send_error := None.
Definition throttled (m : mail) : option send_error :=
  Some (MailSendError ($"Graph sendMail failed: HTTP 429") (Some 429) "send" (Some 120)).

Lemma two_mails_keyed : keyed mq_id two_mails.
Proof.
  intros i r. unfold two_mails. intros [[<- <-]|[_ Hr]]%lookup_insert_Some; [done|].
  by apply lookup_singleton_Some in Hr as [<- <-].
Qed.

(** The tenant is throttled for two minutes: a minute later there is nothing to take. *)
Lemma stopped_batch_waits_witness :
  batch [] (seconds 60) (p_table (deliver_notification_queue text_only throttled true [] 0 two_mails)) = [].
Proof.
  apply (stopped_batch_waits text_only throttled [] [] 0 (seconds 60) two_mails
    (mkMailRow 1 "email" to_an "pending" None 0 None None 0)
    (MailSendError ($"Graph sendMail failed: HTTP 429") (Some 429) "send" (Some 120)) two_mails_keyed);
    [vm_compute; by left|reflexivity|reflexivity|vm_compute; reflexivity].
Defined.

Lemma tried_row_settles_witness :
  exists r', p_table (deliver_notification_queue text_only throttled true [] 0 two_mails) !! 1 = Some r'
    /\ deliverable r' = true /\ mq_next_attempt_at r' = Some (seconds 120) /\ mq_status r' <> "sent".
Proof.
  eexists. split; [vm_compute; reflexivity|]. split; [reflexivity|]. split; [reflexivity|].
  destruct (tried_row_settles text_only throttled [] 0 two_mails
    (mkMailRow 1 "email" to_an "pending" None 0 None None 0)
    (mkMailRow 1 "email" to_an "pending" None 0 (Some ($"Graph sendMail failed: HTTP 429")) (Some (seconds 120)) 0) two_mails_keyed)
    as [[_ Ha]|[[Hd _]|_]]; [intros m e [= <-]; cbn; lia|vm_compute; by left|vm_compute; reflexivity|discriminate Ha|discriminate Hd|].
  discriminate.
Defined.

Definition queued_one : mail_world :=
  mkMailWorld 0 (<[1 := mkMailRow 1 "email" to_an "pending" None 0 None None 0]> ∅) [].
Definition sent_one : mail_world :=
  let p := deliver_notification_queue text_only takes_all true [] (mw_now queued_one) (mw_rows queued_one) in
  mkMailWorld (mw_now queued_one) (p_table p) (mw_sent queued_one ++ p_sent p).

Lemma mail_delivered_once_witness : occurrences 1 (mw_sent sent_one) = 1%nat.
Proof.
  etransitivity; [apply mail_delivered_once|reflexivity].
  apply rtc_l with queued_one; [exact (m_queue (mkMailWorld 0 ∅ []) 1 "email" to_an eq_refl)|].
  apply rtc_once. exact (m_batch queued_one text_only takes_all true []).
Defined.

(** A hundred mails never tried and one that is backing off: the new ones are taken. *)
Definition busy_queue : gmap uuid mail_row :=
  <[200 := mkMailRow 200 "email" to_bo "pending" None 0 None None 500]>
  (store_rows mq_id (map (fun n => mkMailRow (Z.of_nat n) "email" to_an "pending" None 0 None None (Z.of_nat n)) (seq 1 100)) ∅).

Lemma fresh_mail_first_witness :
  length (batch [] 1000 busy_queue) = 100%nat.
Proof.
  apply (fresh_mail_first [] 1000 busy_queue (mkMailRow 200 "email" to_bo "pending" None 0 None None 500)
    (mkMailRow 1 "email" to_an "pending" None 0 None None 1));
    [apply (bool_decide_eq_true_1 _); vm_compute; reflexivity|reflexivity|reflexivity| |];
    apply (bool_decide_eq_true_1 _); vm_compute; reflexivity.
Defined.

(** The worker dies after the provider took a mail and before the batch is committed: the
    next batch sends it again. *)
Example killed_batch_sends_again :
  p_sent (deliver_notification_queue text_only takes_all true [] 0 two_mails) = [1; 2]
  /\ p_sent (deliver_notification_queue text_only takes_all true [] (seconds 30) two_mails) = [1; 2].
Proof. vm_compute. done. Qed.

(** A credential the provider refuses when the mail is sent (401) stops nothing and is
    charged to every row. *)
Example refused_credential_charged :
  let refused := fun _ : mail => Some (MailSendError [] (Some 401) "send" None) in
  mq_attempts <$> map snd (map_to_list (p_table (deliver_notification_queue text_only refused true [] 0 two_mails))) = [1; 1].
Proof. vm_compute. done. Qed.
