(* ===== verification/Identity.v ===== *)
(** * Accounts, roles and tokens (src/models/user.py, src/models/sessions.py, src/domain/rbac.py,
      src/api/deps.py)

    The identity tables, the RBAC bootstrap that provisions roles, the lookups of
    UserRepository, the tokens of core/security.py, and [get_current_user], the gate of every
    authenticated request. *)

From S2P Require Import Prelude PyText Models Rbac Store.
From Stdlib Require String.
#[local] Open Scope string_scope.
#[local] Open Scope list_scope.
#[local] Open Scope Z_scope.

(** ** Libraries and settings *)

(** The claims of a JWT; [exp] counts seconds, an absent or non-string [sub] is [None]. *)
Record claims := mkClaims {
  cl_exp : Z;
  cl_sub : option pystr;
  cl_type : string;
  cl_av : Z;
  cl_jti : option pystr
}.

(** PyJWT with the deployment's key, and bcrypt: [jwt_decode now] is [None] where it raises,
    [checkpw] is false where bcrypt raises. *)
Class AuthEnv := {
  jwt_encode : claims -> pystr;
  jwt_decode : datetime -> pystr -> option claims;
  hashpw : pystr -> pystr -> pystr;
  checkpw : pystr -> pystr -> bool
}.

(** What these libraries document: a token decodes to the claims it was made of until it
    expires, its claims never change, it is not empty, and a hash accepts its password. *)
Class AuthLaws `{AuthEnv} := {
  jwt_fresh : forall now c, now < cl_exp c * 1000000 -> jwt_decode now (jwt_encode c) = Some c;
  jwt_expired : forall now c, cl_exp c * 1000000 <= now -> jwt_decode now (jwt_encode c) = None;
  jwt_stable : forall now now' t c c', jwt_decode now t = Some c -> jwt_decode now' t = Some c' -> c = c';
  jwt_valid_until : forall now t c, jwt_decode now t = Some c -> now < cl_exp c * 1000000;
  jwt_nonempty : forall c, jwt_encode c <> [];
  checkpw_hashpw : forall p salt, checkpw p (hashpw p salt) = true
}.

(** src/core/config.py, the settings read here *)
Class Settings := {
  is_development_environment : bool;
  cors_origin_list : list pystr;
  ACCESS_TOKEN_EXPIRE_MINUTES : Z;
  REFRESH_TOKEN_EXPIRE_DAYS : Z;
  MCP_ENABLED : bool;
  MCP_TOKEN_MAX_DAYS : Z;
  MCP_TOKENS_PER_USER : Z;
  reset_operator : pystr -> bool
}.

(** ** Tables *)

(** A [users] row with its association rows: department memberships, department ownerships
    (with their [active] flag) and role assignments, by id. *)
Record account := mkAccount {
  ac_id : uuid;
  ac_email : pystr;
  ac_name : pystr;
  ac_password_hash : pystr;
  ac_company_domain : string;
  ac_dept : option pystr;
  ac_role : string;
  ac_active : bool;
  ac_auth_version : Z;
  ac_department_ids : list uuid;
  ac_ownerships : list (uuid * bool);
  ac_role_ids : list uuid
}.

#[export] Instance eta_account : Eta account := fun a => mkAccount
  (ac_id a) (ac_email a) (ac_name a) (ac_password_hash a) (ac_company_domain a) (ac_dept a)
  (ac_role a) (ac_active a) (ac_auth_version a) (ac_department_ids a) (ac_ownerships a)
  (ac_role_ids a).

#[export] Instance account_eq_dec : EqDecision account.
Proof. solve_decision. Defined.

Record refresh_session := mkRefreshSession {
  rs_id : uuid;
  rs_user_id : uuid;
  rs_token_hash : pystr;
  rs_expires_at : datetime;
  rs_revoked_at : option datetime;
  rs_family_id : option uuid;
  rs_user_agent : option pystr;
  rs_ip_address : option pystr;
  rs_signed_in_at : option datetime;
  rs_last_used_at : option datetime
}.

#[export] Instance eta_refresh_session : Eta refresh_session := fun r => mkRefreshSession
  (rs_id r) (rs_user_id r) (rs_token_hash r) (rs_expires_at r) (rs_revoked_at r) (rs_family_id r)
  (rs_user_agent r) (rs_ip_address r) (rs_signed_in_at r) (rs_last_used_at r).

Record password_reset_token := mkResetToken {
  pt_id : uuid;
  pt_user_id : uuid;
  pt_token_hash : pystr;
  pt_expires_at : datetime;
  pt_used_at : option datetime;
  pt_requested_for_email : pystr
}.

#[export] Instance eta_reset_token : Eta password_reset_token := fun t => mkResetToken
  (pt_id t) (pt_user_id t) (pt_token_hash t) (pt_expires_at t) (pt_used_at t)
  (pt_requested_for_email t).

Record invitation := mkInvitation {
  iv_id : uuid;
  iv_email : pystr;
  iv_name : pystr;
  iv_role : string;
  iv_company_domain : string;
  iv_audience_ids : list uuid;
  iv_token_hash : pystr;
  iv_expires_at : datetime;
  iv_used_at : option datetime;
  iv_revoked_at : option datetime;
  iv_invited_by : option uuid;
  iv_accepted_user_id : option uuid
}.

#[export] Instance eta_invitation : Eta invitation := fun i => mkInvitation
  (iv_id i) (iv_email i) (iv_name i) (iv_role i) (iv_company_domain i) (iv_audience_ids i)
  (iv_token_hash i) (iv_expires_at i) (iv_used_at i) (iv_revoked_at i) (iv_invited_by i)
  (iv_accepted_user_id i).

Record access_token := mkAccessToken {
  at_id : uuid;
  at_user_id : uuid;
  at_name : pystr;
  at_token_prefix : pystr;
  at_token_hash : pystr;
  at_scope : string;
  at_created_at : datetime;
  at_expires_at : datetime;
  at_last_used_at : option datetime;
  at_revoked_at : option datetime
}.

#[export] Instance eta_access_token : Eta access_token := fun t => mkAccessToken
  (at_id t) (at_user_id t) (at_name t) (at_token_prefix t) (at_token_hash t) (at_scope t)
  (at_created_at t) (at_expires_at t) (at_last_used_at t) (at_revoked_at t).

(** An audit entry of the account routes. *)
Record account_audit := mkAccountAudit {
  aa_user_id : uuid;
  aa_action : string;
  aa_target_type : string;
  aa_target_id : uuid;
  aa_outcome : string
}.

(** An email queued in [notification_queue]: the owner of the row, the address, the secret the
    link in its text carries. *)
Record queued_mail := mkMail { ml_recipient : uuid; ml_to : pystr; ml_link_token : pystr }.

(** The assignment columns of a pending draft that deactivation clears. *)
Record assigned_draft := mkAssigned {
  ad_draft_id : uuid;
  ad_status : string;
  ad_assigned_approver_id : option uuid
}.

Record authdb := mkAuthDb {
  t_accounts : gmap uuid account;
  t_roles : list role;
  t_permissions : list permission;
  t_depts : list department;
  t_sessions : gmap uuid refresh_session;
  t_resets : gmap uuid password_reset_token;
  t_invitations : gmap uuid invitation;
  t_tokens : gmap uuid access_token;
  t_account_audits : list account_audit;
  t_mails : list queued_mail;
  t_assigned : list assigned_draft
}.

#[export] Instance eta_authdb : Eta authdb := fun d => mkAuthDb
  (t_accounts d) (t_roles d) (t_permissions d) (t_depts d) (t_sessions d) (t_resets d)
  (t_invitations d) (t_tokens d) (t_account_audits d) (t_mails d) (t_assigned d).

Abbreviation AUTH := (M authdb Empty_set).

Definition put_account (a : account) : AUTH unit :=
  write (fun d => d <| t_accounts := <[ac_id a := a]> (t_accounts d) |>).
Definition put_session (r : refresh_session) : AUTH unit :=
  write (fun d => d <| t_sessions := <[rs_id r := r]> (t_sessions d) |>).

(** [AuditRepository.record]: the row is flushed, and committed unless the caller will. *)
Definition record (who : uuid) (action target : string) (target_id : uuid) (outcome : string)
    (committing : bool) : AUTH unit :=
  write (fun d => d <| t_account_audits :=
    t_account_audits d ++ [mkAccountAudit who action target target_id outcome] |>) ;;
  if committing then commit else mret tt.

(** ** Users as the services see them: the row joined with its association rows *)

Definition department_by_id (d : authdb) (i : uuid) : option department :=
  List.find (fun x => Z.eqb (dp_id x) i) (t_depts d).
Definition role_by_id (d : authdb) (i : uuid) : option role :=
  List.find (fun r => Z.eqb (r_id r) i) (t_roles d).

Definition loaded (d : authdb) (a : account) : user :=
  mkUser (ac_id a) (ac_email a) (ac_name a) (ac_company_domain a) (ac_dept a) (ac_role a)
    (ac_active a) (omap (department_by_id d) (ac_department_ids a))
    (omap (fun o => x ← department_by_id d o.1; Some (mkDepartmentManager x o.2)) (ac_ownerships a))
    (omap (role_by_id d) (ac_role_ids a)).

(** ** The RBAC bootstrap *)

Definition same_role (name : string) (domain : option string) (r : role) : bool :=
  String.eqb (r_name r) name && bool_decide (r_company_domain r = domain).

(** The permission row of a catalog key, created when it is missing. *)
Definition ensure_permission (fresh : uuid -> uuid) (d : authdb) (key : string) : authdb :=
  if existsb (fun p => String.eqb (p_key p) key) (t_permissions d) then d
  else d <| t_permissions := t_permissions d ++ [mkPermission (fresh (len (t_permissions d))) key] |>.

Definition granted_keys (r : role) : list string :=
  omap (fun a => p_key <$> rp_permission a) (r_permissions r).

(** The default permissions a role lacks. *)
Definition missing_permissions (d : authdb) (r : role) (perms : list (string * string)) : list role_permission :=
  omap (fun kv => if mem kv.1 (granted_keys r) then None
                  else p ← List.find (fun p => String.eqb (p_key p) kv.1) (t_permissions d);
                       Some (mkRolePermission (Some p) kv.2)) perms.

Definition ensure_role (fresh : uuid -> uuid) (name : string) (domain : option string) (d : authdb) : authdb :=
  let perms := default [] (assoc name DEFAULT_ROLE_PERMISSIONS) in
  let complete r := mkRole (r_id r) (r_name r) (r_company_domain r) (r_active r)
                      (r_permissions r ++ missing_permissions d r perms) (r_system r) (r_description r) in
  if existsb (same_role name domain) (t_roles d) then
    d <| t_roles := map (fun r => if same_role name domain r then complete r else r) (t_roles d) |>
  else d <| t_roles := t_roles d ++ [complete (mkRole (fresh (len (t_roles d))) name domain true [] true None)] |>.

(** The legacy role string a user without roles is backfilled from. *)
Definition backfill_name (a : account) : string :=
  match assoc (ac_role a) DEFAULT_ROLE_PERMISSIONS with Some _ => ac_role a | None => "Staff" end.

Definition backfill (fresh : uuid -> uuid) (d : authdb) (a : account) : authdb :=
  match ac_role_ids a with
  | [] =>
      let d := ensure_role fresh (backfill_name a) (Some (ac_company_domain a)) d in
      match List.find (same_role (backfill_name a) (Some (ac_company_domain a))) (t_roles d) with
      | Some r => d <| t_accounts := <[ac_id a := a <| ac_role_ids := [r_id r] |>]> (t_accounts d) |>
      | None => d
      end
  | _ => d
  end.

Definition bootstrapped (fresh : uuid -> uuid) (d : authdb) : authdb :=
  let d := fold_left (ensure_permission fresh) PERMISSION_CATALOG d in
  let users := rows (t_accounts d) in
  let domains := dedup (List.filter (fun x => negb (String.eqb x "")) (map ac_company_domain users)) in
  let d := ensure_role fresh "Admin" None d in
  let d := fold_left (fun d domain => fold_left (fun d name => ensure_role fresh name (Some domain) d)
             (map fst DEFAULT_ROLE_PERMISSIONS) d) domains d in
  fold_left (backfill fresh) users d.

(** [fresh] draws the ids of the rows it creates. *)
Definition bootstrap_rbac (fresh : uuid -> uuid) : AUTH unit :=
  write (bootstrapped fresh) ;; commit.

(** ** Lookups *)

Section Lookups.
Context `{KbEnv}.

Definition get_account (d : authdb) (id : uuid) : option account := t_accounts d !! id.

Inductive email_lookup :=
  | NoAccount
  | Found (a : account)
  | AmbiguousEmail.

Definition email_is (e : pystr) (a : account) : bool := bool_decide (ac_email a = e).

(** [get_by_email]: the address as given, then normalised, then case-insensitively. *)
Definition get_by_email (d : authdb) (email : pystr) : email_lookup :=
  let raw := strip email in
  let normalized := py_lower raw in
  let candidates := List.filter truthy (dedup [raw; normalized]) in
  match omap (fun c => List.find (email_is c) (rows (t_accounts d))) candidates with
  | a :: _ => Found a
  | [] =>
      match List.filter (fun a => bool_decide (sql_lower (ac_email a) = normalized)) (rows (t_accounts d)) with
      | [] => NoAccount
      | [a] => Found a
      | _ => AmbiguousEmail
      end
  end.
End Lookups.

(** ** Tokens (src/core/security.py) *)

Section Tokens.
Context `{KbEnv} `{AuthEnv} `{Settings}.

Definition verify_password (plain hashed : pystr) : bool := checkpw plain hashed.

(** UTF-8 length of a string *)
Definition utf8_len (s : pystr) : Z :=
  fold_right (fun c n => n + (if c <? 128 then 1 else if c <? 2048 then 2
                              else if c <? 65536 then 3 else 4)) 0 s.

Definition get_password_hash (salt password : pystr) : AUTH pystr :=
  ensure (utf8_len password <=? 72) (ValueError "password cannot be longer than 72 UTF-8 bytes") ;;
  mret (hashpw password salt).

(** Numeric dates are truncated to seconds. *)
Definition expiry (now delta : Z) : Z := (now + delta) / 1000000.

Definition create_access_token (now : datetime) (subject : pystr) (auth_version : Z) : pystr :=
  jwt_encode (mkClaims (expiry now (ACCESS_TOKEN_EXPIRE_MINUTES * 60000000)) (Some subject) "access"
    auth_version None).

Definition refresh_claims (now : datetime) (jti subject : pystr) (auth_version : Z) : claims :=
  mkClaims (expiry now (REFRESH_TOKEN_EXPIRE_DAYS * 86400000000)) (Some subject) "refresh"
    auth_version (Some jti).
Definition create_refresh_token (now : datetime) (jti subject : pystr) (auth_version : Z) : pystr :=
  jwt_encode (refresh_claims now jti subject auth_version).

Definition has_at (s : pystr) : bool := existsb (Z.eqb 64) s.

(** ** The request gate (src/api/deps.py) *)

(** What the gate reads of a request: its method, the [Origin] and [Referer] headers (a
    Referer parsed by urlparse: scheme, host name, and the port, where reading it may raise),
    the bearer token, and the two generations of the access cookie. *)
Record referer := mkReferer {
  rf_scheme : pystr;
  rf_hostname : pystr;
  rf_port : option (option Z)
}.
Record request := mkHttp {
  rq_method : string;
  rq_origin : pystr;
  rq_referer : option (option referer);
  rq_bearer : pystr;
  rq_access_cookie : pystr;
  rq_host_access_cookie : pystr
}.

Definition _CSRF_SAFE_METHODS : list string := ["GET"; "HEAD"; "OPTIONS"].

Definition origin_allowed (o : pystr) : bool := existsb (fun x => bool_decide (x = o)) cors_origin_list.

Definition referer_origin (r : referer) (port : option Z) : pystr :=
  (rf_scheme r ++ $"://" ++ rf_hostname r
   ++ match port with Some p => if Z.eqb p 0 then [] else $":" ++ show_int p | None => [] end)%list.

(** [_reject_cross_site_cookie_request]; the method is upper-cased by the server. *)
Definition cross_site (r : request) : bool :=
  if mem (rq_method r) _CSRF_SAFE_METHODS then false
  else if truthy (rq_origin r) then negb (origin_allowed (rq_origin r))
  else match rq_referer r with
       | None => false
       | Some None => true
       | Some (Some f) =>
           match rf_port f with
           | None => true
           | Some port =>
               negb (truthy (rf_scheme f)) || negb (truthy (rf_hostname f))
               || negb (origin_allowed (referer_origin f port))
           end
       end.

Definition cross_site_exception : exn := HTTPException 403 "Cross-site requests are not allowed".
Definition credentials_exception : exn := HTTPException 401 "Could not validate credentials".
Definition deactivated_exception : exn := HTTPException 403 "This account has been deactivated".

(** The token a request authenticates with: the bearer header, or else a cookie, which must
    not come from another site. *)
Definition request_token (r : request) : AUTH pystr :=
  let cookie := match rq_host_access_cookie r with
                | [] => if is_development_environment then rq_access_cookie r else []
                | c => c
                end in
  match rq_bearer r with
  | [] =>
      match cookie with
      | [] => raise credentials_exception
      | c => ensure (negb (cross_site r)) cross_site_exception ;; mret c
      end
  | t => mret t
  end.

(** [active_user_with_context]: roles are provisioned on first use; the row-level-security
    context it sets is the database's own and is not modelled. *)
Definition active_user_with_context (fresh : uuid -> uuid) (a : account) : AUTH (option account) :=
  if negb (ac_active a) then mret None
  else match ac_role_ids a with
  | [] =>
      bootstrap_rbac fresh ;;
      again ← query (fun d => get_by_email d (ac_email a));
      match again with
      | Found b => if ac_active b then mret (Some b) else mret None
      | _ => mret None
      end
  | _ => mret (Some a)
  end.

Definition access_claims (now : datetime) (token : pystr) : AUTH (pystr * Z) :=
  c ← some_or (jwt_decode now token) credentials_exception;
  ensure (String.eqb (cl_type c) "access") credentials_exception ;;
  sub ← some_or (cl_sub c) credentials_exception;
  mret (py_lower (strip sub), cl_av c).

Definition get_current_user (now : datetime) (fresh : uuid -> uuid) (r : request) : AUTH account :=
  token ← request_token r;
  who ← access_claims now token;
  let '(email, av) := who in
  ensure (has_at email) credentials_exception ;;
  found ← query (fun d => get_by_email d email);
  a ← match found with Found a => mret a | _ => raise credentials_exception end;
  ensure (ac_active a) deactivated_exception ;;
  ensure (Z.eqb av (ac_auth_version a)) credentials_exception ;;
  usable ← active_user_with_context fresh a;
  some_or usable deactivated_exception.

(** [require_permission(permission)] *)
Definition require_permission (permission : string) (now : datetime) (fresh : uuid -> uuid)
    (r : request) : AUTH account :=
  a ← get_current_user now fresh r;
  u ← query (fun d => loaded d a);
  ensure (has_permission u permission None "company") (HTTPException 403 "Missing permission") ;;
  mret a.
End Tokens.

(** ** Facts *)

(** What the tables' unique constraints keep. *)
Record auth_ok (d : authdb) : Prop := {
  ok_accounts : keyed ac_id (t_accounts d);
  ok_sessions : keyed rs_id (t_sessions d);
  ok_resets : keyed pt_id (t_resets d);
  ok_emails : forall a b, a ∈ rows (t_accounts d) -> b ∈ rows (t_accounts d) ->
    ac_email a = ac_email b -> a = b;
  ok_hashes : forall r r', r ∈ rows (t_sessions d) -> r' ∈ rows (t_sessions d) ->
    rs_token_hash r = rs_token_hash r' -> r = r'
}.

Section Facts.
Context `{KbEnv}.

Lemma omap_found {A B C} (g : B -> C) (f : A -> option B) (l : list A) :
  omap (fun x => g <$> f x) l = map g (omap f l).
Proof. induction l as [|x l IH]; cbn; [done|]. destruct (f x); cbn; [by f_equal|done]. Qed.

(** Rewriting the accounts without touching their addresses rewrites what a lookup finds. *)
Lemma get_by_email_map (d d' : authdb) (g : account -> account) e :
  rows (t_accounts d') ≡ₚ map g (rows (t_accounts d)) ->
  (forall a, a ∈ rows (t_accounts d) -> ac_email (g a) = ac_email a) ->
  (forall a b, a ∈ rows (t_accounts d) -> b ∈ rows (t_accounts d) -> ac_email a = ac_email b -> a = b) ->
  get_by_email d' e = match get_by_email d e with Found a => Found (g a) | o => o end.
Proof.
  intros Hp Hg Hu. unfold get_by_email. cbn zeta.
  set (cs := List.filter truthy _).
  assert (Hfind : forall c, List.find (email_is c) (rows (t_accounts d'))
                            = g <$> List.find (email_is c) (rows (t_accounts d))).
  { intros c. transitivity (List.find (email_is c) (map g (rows (t_accounts d)))).
    - symmetry. apply find_perm; [by symmetry|]. unfold email_is.
      intros x y (a & -> & Ha)%elem_of_map (b & -> & Hb)%elem_of_map Hx Hy. bools.
      f_equal. apply Hu; [done..|]. rewrite Hg in Hx by done. rewrite Hg in Hy by done. congruence.
    - rewrite find_map. f_equal. apply find_ext_in. intros x Hx. unfold email_is. by rewrite Hg. }
  assert (Hf : List.filter (fun a => bool_decide (sql_lower (ac_email a) = py_lower (strip e))) (rows (t_accounts d'))
               ≡ₚ map g (List.filter (fun a => bool_decide (sql_lower (ac_email a) = py_lower (strip e)))
                    (rows (t_accounts d)))).
  { rewrite (filter_perm _ _ _ Hp). clear -Hg. induction (rows (t_accounts d)) as [|x l IH]; cbn; [done|].
    rewrite Hg by (by left). specialize (IH (fun a Ha => Hg a (list_elem_of_further a x l Ha))).
    case_match; cbn; by rewrite IH. }
  replace (omap (fun c => List.find (email_is c) (rows (t_accounts d'))) cs)
    with (map g (omap (fun c => List.find (email_is c) (rows (t_accounts d))) cs)).
  2: { rewrite <- omap_found. clear -Hfind. induction cs as [|c cs IH]; cbn; [done|].
       rewrite <- Hfind. by rewrite IH. }
  destruct (omap _ cs) as [|a l]; cbn; [|done].
  destruct (List.filter _ (rows (t_accounts d))) as [|x [|y l]]; cbn in Hf.
  - apply Permutation_nil_r in Hf. by rewrite Hf.
  - apply Permutation_singleton_r in Hf. by rewrite Hf.
  - apply Permutation_length in Hf. destruct (List.filter _ (rows (t_accounts d'))) as [|? [|]]; done.
Qed.

(** One account rewritten in place. *)
Lemma get_by_email_update d d' a b e :
  auth_ok d -> t_accounts d !! ac_id a = Some a -> t_accounts d' = <[ac_id a := b]> (t_accounts d) ->
  ac_email b = ac_email a ->
  get_by_email d' e = match get_by_email d e with
                      | Found x => Found (if Z.eqb (ac_id x) (ac_id a) then b else x)
                      | o => o end.
Proof.
  intros [Hk _ _ Hu _] Ha Hd' Hb.
  apply (get_by_email_map d d' (fun x => if Z.eqb (ac_id x) (ac_id a) then b else x)); [| |done].
  - rewrite Hd', (insert_as_fmap ac_id) by (done || by eexists). apply rows_fmap.
  - intros x Hx%(elem_of_rows ac_id); [|done]. destruct (Z.eqb_spec (ac_id x) (ac_id a)) as [He|]; [|done].
    rewrite He in Hx. congruence.
Qed.

(** A lookup finds a row of the table. *)
Lemma get_by_email_elem d e a : get_by_email d e = Found a -> a ∈ rows (t_accounts d).
Proof.
  unfold get_by_email. cbn zeta. destruct (omap _ _) as [|x l] eqn:Ho.
  - destruct (List.filter _ (rows _)) as [|x [|y l]] eqn:Hf; intros ?; simplify_eq.
    assert (Hx : a ∈ [a]) by (by left). rewrite <- Hf in Hx. by apply elem_of_filter_b in Hx as [Hx _].
  - intros ?; simplify_eq. assert (Hx : a ∈ a :: l) by (by left). rewrite <- Ho in Hx.
    apply list_elem_of_omap in Hx as (c & _ & Hc). apply find_some in Hc as [Hc _].
    by apply list_elem_of_In.
Qed.

Lemma get_by_email_row d e a :
  auth_ok d -> get_by_email d e = Found a -> t_accounts d !! ac_id a = Some a.
Proof. intros Hok Ha. apply (elem_of_rows ac_id), (get_by_email_elem _ e); [apply Hok|done]. Qed.
End Facts.

Section GateFacts.
Context `{KbEnv} `{AuthEnv} `{Settings}.

(** Computations that only look at their arguments. *)
Definition stateless {A} (m : AUTH A) : Prop := exists o, forall s, m s = (o, s).

Lemma stateless_ret {A} (a : A) : stateless (mret a).
Proof. by exists (Return a). Qed.
Lemma stateless_raise {A} e : stateless (@raise authdb Empty_set A e).
Proof. by exists (Raise e). Qed.
Lemma stateless_ensure b e : stateless (ensure b e).
Proof. destruct b; [apply stateless_ret|apply stateless_raise]. Qed.
Lemma stateless_some_or {A} (o : option A) e : stateless (some_or o e).
Proof. destruct o; [apply stateless_ret|apply stateless_raise]. Qed.
Lemma stateless_bind {A B} (m : AUTH A) (k : A -> AUTH B) :
  stateless m -> (forall a, stateless (k a)) -> stateless (m ≫= k).
Proof.
  intros [[a|e] Hm] Hk.
  - destruct (Hk a) as [o Ho]. exists o. intros s. by rewrite (run_bind _ _ _ _ _ (Hm s)).
  - exists (Raise e). intros s. by rewrite (run_bind_raise _ _ _ _ _ (Hm s)).
Qed.

Lemma stateless_request_token r : stateless (request_token r).
Proof.
  unfold request_token. cbn zeta. destruct (rq_bearer r); [|apply stateless_ret].
  case_match; [apply stateless_raise|]. apply stateless_bind; [apply stateless_ensure|].
  intros _. apply stateless_ret.
Qed.
Lemma stateless_access_claims now t : stateless (access_claims now t).
Proof.
  unfold access_claims. repeat (apply stateless_bind; [auto using stateless_ensure, stateless_some_or|intros ?]).
  apply stateless_ret.
Qed.

(** Tables without rows *)
Definition no_tables : authdb := mkAuthDb ∅ [] [] [] ∅ ∅ ∅ ∅ [] [] [].

(** Whom a request names: the address and version its token carries. *)
Definition named (now : datetime) (r : request) : outcome (pystr * Z) :=
  ((request_token r ≫= access_claims now) (open_session no_tables)).1.

(** What the gate decides of a request, read off the tables. *)
Definition gate (now : datetime) (r : request) (d : authdb) : outcome account :=
  match named now r with
  | Raise e => Raise e
  | Return (email, av) =>
      if has_at email then
        match get_by_email d email with
        | Found a =>
            if ac_active a then if Z.eqb av (ac_auth_version a) then Return a else Raise credentials_exception
            else Raise deactivated_exception
        | _ => Raise credentials_exception
        end
      else Raise credentials_exception
  end.

Lemma run_named now r s : (request_token r ≫= access_claims now) s = (named now r, s).
Proof.
  destruct (stateless_bind _ _ (stateless_request_token r) (stateless_access_claims now)) as [o Ho].
  unfold named. by rewrite !Ho.
Qed.

Lemma run_gate now fresh r s :
  get_current_user now fresh r s
  = match gate now r (working s) with
    | Return a => (active_user_with_context fresh a ≫= fun u => some_or u deactivated_exception) s
    | Raise e => (Raise e, s)
    end.
Proof.
  assert (Hassoc : get_current_user now fresh r s = ((request_token r ≫= access_claims now) ≫= (fun who =>
     let '(email, av) := who in
     ensure (has_at email) credentials_exception ;;
     found ← query (fun d => get_by_email d email);
     a ← match found with Found a => mret a | _ => raise credentials_exception end;
     ensure (ac_active a) deactivated_exception ;;
     ensure (Z.eqb av (ac_auth_version a)) credentials_exception ;;
     usable ← active_user_with_context fresh a;
     some_or usable deactivated_exception)) s).
  { unfold get_current_user, mbind, M_bind. by destruct (request_token r s) as [[]]. }
  rewrite Hassoc. unfold gate. pose proof (run_named now r s) as Hn.
  destruct (named now r) as [[email av]|e].
  2: { by rewrite (run_bind_raise _ _ _ _ _ Hn). }
  rewrite (run_bind _ _ _ _ _ Hn). unfold mbind, M_bind, mret, M_ret, ensure, raise, query.
  destruct (has_at email); [|done]. cbn beta iota delta [mret M_ret].
  destruct (get_by_email (working s) email) as [|a|]; [done| |done].
  cbn beta iota. destruct (ac_active a); [|done]. cbn beta iota.
  by destruct (Z.eqb av (ac_auth_version a)).
Qed.
End GateFacts.

(** ** A concrete deployment *)

Definition claims_tuple (c : claims) : Z * option pystr * string * Z * option pystr :=
  (cl_exp c, cl_sub c, cl_type c, cl_av c, cl_jti c).
Definition claims_of (t : Z * option pystr * string * Z * option pystr) : claims :=
  let '(e, s, ty, av, j) := t in mkClaims e s ty av j.

(** Tokens that carry their claims in the clear, and hashes that are the password. *)
Definition demo_decode (now : datetime) (t : pystr) : option claims :=
  match t with
  | [Zpos n] => c ← claims_of <$> decode n; if now <? cl_exp c * 1000000 then Some c else None
  | _ => None
  end.
Definition demo_auth : AuthEnv :=
  {| jwt_encode := fun c => [Zpos (encode (claims_tuple c))];
     jwt_decode := demo_decode;
     hashpw := fun p _ => p;
     checkpw := fun p h => bool_decide (p = h) |}.

Lemma demo_decode_inv now t c : demo_decode now t = Some c ->
  exists n, t = [Zpos n] /\ claims_of <$> decode n = Some c /\ now < cl_exp c * 1000000.
Proof.
  unfold demo_decode. destruct t as [|[|n|n] [|]]; try done. intros Hc.
  destruct (claims_of <$> decode n) as [c'|] eqn:Hd; cbn in Hc; [|done].
  destruct (Z.ltb_spec now (cl_exp c' * 1000000)); simplify_eq. eauto.
Qed.

Definition demo_laws : @AuthLaws demo_auth.
Proof.
  constructor; cbn.
  - intros now [e s ty av j] Hn. cbn in *. rewrite decode_encode. cbn. by rewrite (proj2 (Z.ltb_lt _ _) Hn).
  - intros now [e s ty av j] Hn. cbn in *. rewrite decode_encode. cbn. by rewrite (proj2 (Z.ltb_ge _ _) Hn).
  - intros now now' t c c' (n & -> & Hc & _)%demo_decode_inv (n' & [= <-] & Hc' & _)%demo_decode_inv. congruence.
  - intros now t c (n & _ & _ & Hc)%demo_decode_inv. done.
  - done.
  - intros p _. by apply bool_decide_eq_true.
Qed.

Definition demo_settings : Settings :=
  {| is_development_environment := false; cors_origin_list := [$"https://kb.example"];
     ACCESS_TOKEN_EXPIRE_MINUTES := 15; REFRESH_TOKEN_EXPIRE_DAYS := 7; MCP_ENABLED := true;
     MCP_TOKEN_MAX_DAYS := 90; MCP_TOKENS_PER_USER := 2; reset_operator := fun _ => false |}.

Definition ann : account :=
  mkAccount 1 ($"ann@kb.example") ($"Ann") ($"correct horse battery") "kb.example" None "Staff" true 3 [] [] [1].
