(* ===== verification/Sessions.v ===== *)
(** * Sign-in, refresh, and credentials (src/api/routers/auth.py, src/api/routers/account.py,
      src/domain/auth.py)

    Login, the rotation of refresh sessions, logout, the reset and change of passwords, and the
    account page's session list: each handler in the session of its request, with the answers of
    the rate limiter as arguments. *)

From S2P Require Import Prelude PyText Models Rbac Store Identity.
From Stdlib Require String.
#[local] Open Scope string_scope.
#[local] Open Scope list_scope.
#[local] Open Scope Z_scope.

Section Handlers.
Context `{KbEnv} `{AuthEnv} `{Settings}.

(** ** Refresh sessions *)

(** [_reject_cross_site_auth_request] *)
Definition _reject_cross_site_auth_request (origin : pystr) : AUTH unit :=
  ensure (negb (truthy origin) || origin_allowed origin)
    (HTTPException 403 "Cross-site authentication requests are not allowed").

Definition too_many : exn := HTTPException 429 "Too many attempts".

(** The client context of a request, trimmed to the columns. *)
Record client := mkClient { cx_agent : option pystr; cx_address : option pystr }.
Definition _client_context (user_agent address : pystr) : client :=
  mkClient (match take 300 (strip user_agent) with [] => None | s => Some s end)
           (match take 64 address with [] => None | s => Some s end).

Definition _refresh_hash (token : pystr) : pystr := sha256_hex token.
Definition _token_hash (raw : pystr) : pystr := sha256_hex raw.

Definition or_opt {A} (a b : option A) : option A := match a with Some x => Some x | None => b end.

(** The row of a new refresh session; [exp] are the seconds of its token's claim. *)
Definition session_row (now : datetime) (id family : uuid) (user_id : uuid) (token : pystr) (exp : Z)
    (c : client) (previous : option refresh_session) : refresh_session :=
  mkRefreshSession id user_id (_refresh_hash token) (exp * 1000000) None
    (Some (default family (p ← previous; rs_family_id p)))
    (or_opt (cx_agent c) (p ← previous; rs_user_agent p))
    (or_opt (cx_address c) (p ← previous; rs_ip_address p))
    (Some (default now (p ← previous; rs_signed_in_at p))) (Some now).

(** [token_hash] is unique. *)
Definition hash_taken (d : authdb) (h : pystr) : bool :=
  existsb (fun r => bool_decide (rs_token_hash r = h)) (rows (t_sessions d)).

Definition _store_refresh_session (now : datetime) (id family : uuid) (user_id : uuid) (token : pystr)
    (c : client) (previous : option refresh_session) : AUTH unit :=
  payload ← some_or (jwt_decode now token) (RuntimeError "jwt.InvalidTokenError");
  taken ← query (fun d => hash_taken d (_refresh_hash token));
  ensure (negb taken) (IntegrityError "refresh_sessions_token_hash") ;;
  put_session (session_row now id family user_id token (cl_exp payload) c previous).

Definition invalid_refresh : exn := HTTPException 401 "Refresh token is invalid or expired".

Definition _refresh_claims_from_token (now : datetime) (value : pystr) : AUTH (pystr * Z) :=
  c ← some_or (jwt_decode now value) invalid_refresh;
  ensure (String.eqb (cl_type c) "refresh") invalid_refresh ;;
  sub ← some_or (cl_sub c) invalid_refresh;
  let subject := py_lower (strip sub) in
  ensure (has_at subject) invalid_refresh ;;
  mret (subject, cl_av c).

Definition revoke_all (now : datetime) (user_id : uuid) (m : gmap uuid refresh_session)
    : gmap uuid refresh_session :=
  (fun r => if Z.eqb (rs_user_id r) user_id && bool_decide (rs_revoked_at r = None)
            then r <| rs_revoked_at := Some now |> else r) <$> m.

Definition _revoke_refresh_sessions (now : datetime) (user_id : uuid) : AUTH unit :=
  write (fun d => d <| t_sessions := revoke_all now user_id (t_sessions d) |>).

(** ** Login *)

Definition incorrect : exn := HTTPException 401 "Incorrect email or password".

(** [AuthService.authenticate_user]; the comparison made when no account matches only spends
    its time. *)
Definition authenticate_user (email password : pystr) : AUTH account :=
  found ← query (fun d => get_by_email d email);
  match found with
  | Found a => ensure (verify_password password (ac_password_hash a)) incorrect ;; mret a
  | _ => raise incorrect
  end.

Definition provision_roles (fresh : uuid -> uuid) (a : account) : AUTH account :=
  match ac_role_ids a with
  | [] =>
      bootstrap_rbac fresh ;;
      again ← query (fun d => get_account d (ac_id a));
      some_or again AssertionError
  | _ => mret a
  end.

(** The pair of tokens a response carries. *)
Record token_pair := mkPair { tp_access : pystr; tp_refresh : pystr }.

(** The ids, the [jti] and the random values a request draws. *)
Record draws := mkDraws {
  dw_session_id : uuid;
  dw_family_id : uuid;
  dw_jti : pystr;
  dw_salt : pystr;
  dw_row_ids : uuid -> uuid
}.

Definition mint (now : datetime) (dw : draws) (a : account) : token_pair :=
  mkPair (create_access_token now (ac_email a) (ac_auth_version a))
         (create_refresh_token now (dw_jti dw) (ac_email a) (ac_auth_version a)).

Definition login (now : datetime) (dw : draws) (origin : pystr) (c : client)
    (account_allowed ip_allowed : bool) (username password : pystr) : AUTH (account * token_pair) :=
  _reject_cross_site_auth_request origin ;;
  ensure (has_at (py_lower (strip username))) incorrect ;;
  ensure (account_allowed && ip_allowed) (HTTPException 429 "Too many login attempts") ;;
  a ← authenticate_user username password;
  a ← provision_roles (dw_row_ids dw) a;
  let p := mint now dw a in
  _store_refresh_session now (dw_session_id dw) (dw_family_id dw) (ac_id a) (tp_refresh p) c None ;;
  record (ac_id a) "login" "user" (ac_id a) "success" false ;;
  commit ;;
  mret (a, p).

(** ** Refresh and logout *)

(** The refresh token of a request: its body, or else a cookie; the plain cookie counts only
    in development. *)
Definition _current_refresh_value (body host plain : pystr) : pystr :=
  match body with
  | [] => match host with [] => if is_development_environment then plain else [] | h => h end
  | b => b
  end.

Definition live_session (now : datetime) (r : refresh_session) : bool :=
  bool_decide (rs_revoked_at r = None) && (now <? rs_expires_at r).

Definition find_session (now : datetime) (d : authdb) (value : pystr) : option refresh_session :=
  List.find (fun r => bool_decide (rs_token_hash r = _refresh_hash value) && live_session now r)
    (rows (t_sessions d)).

Definition unavailable : exn := HTTPException 401 "Account is unavailable".

Definition refresh_account (session : refresh_session) (subject : pystr) (av : Z) : AUTH account :=
  found ← query (fun d => get_by_email d subject);
  match found with
  | Found a =>
      ensure (ac_active a && Z.eqb (ac_id a) (rs_user_id session) && Z.eqb av (ac_auth_version a))
        unavailable ;;
      mret a
  | _ => raise unavailable
  end.

Definition refresh_token (now : datetime) (dw : draws) (origin : pystr) (c : client) (value : pystr)
    : AUTH (account * token_pair) :=
  _reject_cross_site_auth_request origin ;;
  ensure (truthy value) (HTTPException 401 "Refresh token is required") ;;
  who ← _refresh_claims_from_token now value;
  let '(subject, av) := who in
  found ← query (fun d => find_session now d value);
  session ← some_or found (HTTPException 401 "Refresh token has been revoked or expired");
  a ← refresh_account session subject av;
  a ← provision_roles (dw_row_ids dw) a;
  let p := mint now dw a in
  put_session (session <| rs_revoked_at := Some now |>) ;;
  _store_refresh_session now (dw_session_id dw) (dw_family_id dw) (ac_id a) (tp_refresh p) c
    (Some session) ;;
  commit ;;
  mret (a, p).

(** The session row of a well-formed token, revoked or not; a malformed token has none. *)
Definition session_of_token (now : datetime) (d : authdb) (value : pystr) : option refresh_session :=
  c ← jwt_decode now value;
  sub ← cl_sub c;
  if String.eqb (cl_type c) "refresh" && has_at (py_lower (strip sub))
  then List.find (fun r => bool_decide (rs_token_hash r = _refresh_hash value)) (rows (t_sessions d))
  else None.

Definition logout (now : datetime) (origin value : pystr) : AUTH unit :=
  _reject_cross_site_auth_request origin ;;
  found ← query (fun d => match value with [] => None | _ => session_of_token now d value end);
  match found with
  | Some session =>
      if bool_decide (rs_revoked_at session = None) then
        put_session (session <| rs_revoked_at := Some now |>) ;;
        record (rs_user_id session) "logout" "user" (rs_user_id session) "success" false ;;
        commit
      else mret tt
  | None => mret tt
  end.

(** ** Passwords *)

Definition PASSWORD_MIN_LENGTH : Z := 12.
Definition PASSWORD_MAX_BYTES : Z := 72.

Definition _validate_password (password : pystr) : AUTH unit :=
  ensure (PASSWORD_MIN_LENGTH <=? len password)
    (HTTPException 422 "Password must be at least 12 characters") ;;
  ensure (utf8_len password <=? PASSWORD_MAX_BYTES)
    (HTTPException 422 "Password must be at most 72 bytes").

Definition forgot_password (now : datetime) (grant_id : uuid) (raw_token origin email : pystr)
    (address_allowed ip_allowed : bool) : AUTH unit :=
  _reject_cross_site_auth_request origin ;;
  ensure (address_allowed && ip_allowed) (HTTPException 429 "Too many reset requests") ;;
  found ← query (fun d => List.find (fun a => email_is (py_lower (strip email)) a && ac_active a)
                            (rows (t_accounts d)));
  match found with
  | Some a =>
      write (fun d => d <| t_resets := <[grant_id := mkResetToken grant_id (ac_id a) (_token_hash raw_token)
               (now + 3600000000) None (py_lower (strip email))]> (t_resets d) |>) ;;
      write (fun d => d <| t_mails := t_mails d ++ [mkMail (ac_id a) (py_lower (strip email)) raw_token] |>) ;;
      commit ;;
      record (ac_id a) "password_reset_request" "user" (ac_id a) "success" true
  | None => mret tt
  end.

Definition spend_all (now : datetime) (user_id : uuid) (m : gmap uuid password_reset_token)
    : gmap uuid password_reset_token :=
  (fun t => if Z.eqb (pt_user_id t) user_id && bool_decide (pt_used_at t = None)
            then t <| pt_used_at := Some now |> else t) <$> m.

(** The row after a new password: its hash and a bumped [auth_version]. *)
Definition with_password (hash : pystr) (a : account) : account :=
  a <| ac_password_hash := hash |> <| ac_auth_version := ac_auth_version a + 1 |>.

Definition find_grant (d : authdb) (raw : pystr) : option password_reset_token :=
  List.find (fun t => bool_decide (pt_token_hash t = _token_hash raw)) (rows (t_resets d)).

Definition live_grant (now : datetime) (raw : pystr) : AUTH password_reset_token :=
  found ← query (fun d => find_grant d raw);
  grant ← some_or found (HTTPException 404 "This reset link is not valid");
  ensure (bool_decide (pt_used_at grant = None)) (HTTPException 410 "This reset link has already been used") ;;
  ensure (now <? pt_expires_at grant) (HTTPException 410 "This reset link has expired") ;;
  mret grant.

Definition reset_password (now : datetime) (salt origin : pystr) (allowed : bool) (token password : pystr)
    : AUTH unit :=
  _reject_cross_site_auth_request origin ;;
  ensure allowed too_many ;;
  _validate_password password ;;
  grant ← live_grant now token;
  found ← query (fun d => get_account d (pt_user_id grant));
  a ← some_or found (HTTPException 410 "This account is no longer active");
  ensure (ac_active a) (HTTPException 410 "This account is no longer active") ;;
  hash ← get_password_hash salt password;
  put_account (with_password hash a) ;;
  write (fun d => d <| t_resets := spend_all now (ac_id a)
           (<[pt_id grant := grant <| pt_used_at := Some now |>]> (t_resets d)) |>) ;;
  _revoke_refresh_sessions now (ac_id a) ;;
  commit ;;
  record (ac_id a) "password_reset" "user" (ac_id a) "success" true.

Definition change_password (now : datetime) (dw : draws) (origin : pystr) (c : client) (allowed : bool)
    (current_user : account) (current_password new_password : pystr) : AUTH token_pair :=
  _reject_cross_site_auth_request origin ;;
  ensure allowed too_many ;;
  (if verify_password current_password (ac_password_hash current_user) then mret tt
   else record (ac_id current_user) "password_change" "user" (ac_id current_user) "failure" true ;;
        raise (HTTPException 401 "Current password is incorrect")) ;;
  _validate_password new_password ;;
  ensure (negb (bool_decide (new_password = current_password)))
    (HTTPException 422 "The new password must differ from the current one") ;;
  found ← query (fun d => get_account d (ac_id current_user));
  a ← some_or found (HTTPException 404 "Account not found");
  hash ← get_password_hash (dw_salt dw) new_password;
  let a := with_password hash a in
  put_account a ;;
  _revoke_refresh_sessions now (ac_id a) ;;
  let p := mint now dw a in
  _store_refresh_session now (dw_session_id dw) (dw_family_id dw) (ac_id a) (tp_refresh p) c None ;;
  commit ;;
  record (ac_id a) "password_change" "user" (ac_id a) "success" true ;;
  mret p.

(** ** The account page *)

(** [_live_sessions], ordered by last use, the rows never used last. *)
Definition used_later (a b : refresh_session) : bool :=
  match rs_last_used_at a, rs_last_used_at b with
  | Some x, Some y => y <=? x
  | Some _, None => true
  | None, Some _ => false
  | None, None => true
  end.

Definition _live_sessions (now : datetime) (d : authdb) (user_id : uuid) : list refresh_session :=
  stable_sort used_later
    (List.filter (fun r => Z.eqb (rs_user_id r) user_id && live_session now r) (rows (t_sessions d))).

(** [_session_view]: the id and whether it is the caller's own. *)
Definition _session_view (current_hash : option pystr) (r : refresh_session) : uuid * bool :=
  (rs_id r, bool_decide (current_hash = Some (rs_token_hash r))).

Definition current_hash_of (value : pystr) : option pystr :=
  match value with [] => None | v => Some (_refresh_hash v) end.

Definition list_sessions (now : datetime) (current_user : account) (value : pystr)
    : AUTH (list (uuid * bool)) :=
  query (fun d => map (_session_view (current_hash_of value)) (_live_sessions now d (ac_id current_user))).

Definition revoke_session (now : datetime) (origin : pystr) (current_user : account) (session_id : uuid)
    (value : pystr) : AUTH bool :=
  _reject_cross_site_auth_request origin ;;
  found ← query (fun d => r ← t_sessions d !! session_id;
     if Z.eqb (rs_user_id r) (ac_id current_user) && bool_decide (rs_revoked_at r = None)
     then Some r else None);
  r ← some_or found (HTTPException 404 "Session not found");
  let was_current := bool_decide (current_hash_of value = Some (rs_token_hash r)) in
  put_session (r <| rs_revoked_at := Some now |>) ;;
  record (ac_id current_user) "session_revoke" "user" (ac_id current_user) "success" false ;;
  commit ;;
  mret was_current.

Definition unidentified : exn := HTTPException 400 "The current session could not be identified".

Definition revoke_other_sessions (now : datetime) (dw : draws) (origin : pystr) (c : client)
    (current_user : account) (value : pystr) : AUTH (Z * token_pair) :=
  _reject_cross_site_auth_request origin ;;
  ensure (truthy value) unidentified ;;
  sessions ← query (fun d => _live_sessions now d (ac_id current_user));
  current ← some_or (List.find (fun r => bool_decide (rs_token_hash r = _refresh_hash value)) sessions)
              unidentified;
  let others := List.filter (fun r => negb (Z.eqb (rs_id r) (rs_id current))) sessions in
  found ← query (fun d => get_account d (ac_id current_user));
  a ← some_or found (HTTPException 404 "Account not found");
  let a := a <| ac_auth_version := ac_auth_version a + 1 |> in
  put_account a ;;
  _revoke_refresh_sessions now (ac_id a) ;;
  let p := mint now dw a in
  _store_refresh_session now (dw_session_id dw) (dw_family_id dw) (ac_id a) (tp_refresh p) c
    (Some current) ;;
  record (ac_id a) "sessions_revoke_others" "user" (ac_id a) "success" false ;;
  commit ;;
  mret (len others, p).

(** [re.sub] of the control characters by blanks, then the words joined by one blank. *)
Definition control (c : Z) : bool := ((0 <=? c) && (c <=? 31)) || Z.eqb c 127.
Definition words (s : pystr) : list pystr :=
  List.filter truthy
    (fold_right (fun c acc => if is_space c then [] :: acc
                              else match acc with w :: ws => (c :: w) :: ws | [] => [[c]] end) [[]] s).
Definition _clean_name (raw : pystr) : AUTH pystr :=
  let name := join $" " (words (map (fun c => if control c then 32 else c) raw)) in
  ensure (truthy name) (HTTPException 422 "Name cannot be empty") ;;
  ensure (len name <=? 255) (HTTPException 422 "Name is too long") ;;
  mret name.

Definition update_profile (origin : pystr) (current_user : account) (raw_name : pystr) : AUTH account :=
  _reject_cross_site_auth_request origin ;;
  name ← _clean_name raw_name;
  found ← query (fun d => get_account d (ac_id current_user));
  a ← some_or found (HTTPException 404 "Account not found");
  (if bool_decide (name = ac_name a) then mret tt
   else put_account (a <| ac_name := name |>) ;;
        record (ac_id a) "profile_update" "user" (ac_id a) "success" false ;;
        commit) ;;
  again ← query (fun d => get_account d (ac_id a));
  mret (default a again).
End Handlers.
