(* ===== verification/Credentials.v ===== *)
(** * What sign-in promises

    Theorems about Identity.v and Sessions.v: a change of credentials ends every session, a
    refresh token works once and hands its session to its replacement, a reset link works
    once, and a deactivated account. *)

From S2P Require Import Prelude PyText Models Rbac Store Identity Sessions.
From Stdlib Require String.
#[local] Open Scope string_scope.
#[local] Open Scope list_scope.
#[local] Open Scope Z_scope.

Section Facts.
Context `{KbEnv} `{AuthEnv} `{!AuthLaws} `{Settings}.

(** ** The gates under a change of version *)

Lemma named_stable now now' r x :
  named now r = Return x -> named now' r = Return x \/ named now' r = Raise credentials_exception.
Proof.
  intros Hx. pose proof (run_named now r (open_session no_tables)) as Hr1.
  pose proof (run_named now' r (open_session no_tables)) as Hr2.
  rewrite Hx in Hr1. apply bind_return in Hr1 as (t & s1 & Ht & Ha).
  rewrite (run_bind _ _ _ _ _ Ht) in Hr2. revert Ha Hr2. unfold access_claims.
  destruct (jwt_decode now t) as [c|] eqn:Hc; [|done].
  destruct (jwt_decode now' t) as [c'|] eqn:Hc'; cbn.
  - rewrite (jwt_stable _ _ _ _ _ Hc' Hc). unfold mbind, M_bind, mret, M_ret.
    intros Ha Hr2. left. congruence.
  - intros _ [= Hr2 _]. by right.
Qed.

(** The account [a] is rewritten to [b]: same address, same standing, next version. *)
Record next_version (d d' : authdb) (a b : account) : Prop := {
  nv_row : t_accounts d !! ac_id a = Some a;
  nv_accounts : t_accounts d' = <[ac_id a := b]> (t_accounts d);
  nv_email : ac_email b = ac_email a;
  nv_active : ac_active b = ac_active a;
  nv_version : ac_auth_version b = ac_auth_version a + 1
}.

Lemma lookup_next_version d d' a b e x :
  auth_ok d -> next_version d d' a b -> get_by_email d e = Found x -> ac_id x = ac_id a ->
  x = a /\ get_by_email d' e = Found b.
Proof.
  intros Hok [Hr Ha He _ _] Hx Hi. rewrite (get_by_email_update d d' a b) by done.
  rewrite Hx, (proj2 (Z.eqb_eq _ _) Hi). split; [|done].
  apply get_by_email_row in Hx; [|done]. rewrite Hi in Hx. congruence.
Qed.

Lemma gate_next_version d d' a b now now' r x :
  auth_ok d -> next_version d d' a b -> gate now r d = Return x -> ac_id x = ac_id a ->
  gate now' r d' = Raise credentials_exception.
Proof.
  intros Hok Hn. unfold gate. destruct (named now r) as [[e av]|] eqn:He; [|done].
  destruct (has_at e) eqn:Hat; [|done]. destruct (get_by_email d e) as [|y|] eqn:Hy; try done.
  destruct (ac_active y) eqn:Hact; [|done]. destruct (Z.eqb_spec av (ac_auth_version y)) as [->|]; [|done].
  intros [= ->] Hi. destruct (lookup_next_version d d' a b e x) as [-> Hb]; try done.
  destruct (named_stable now now' r _ He) as [->| ->]; [|done].
  rewrite Hat, Hb, (nv_active _ _ _ _ Hn), Hact, (nv_version _ _ _ _ Hn).
  by destruct (Z.eqb_spec (ac_auth_version a) (ac_auth_version a + 1)); [lia|].
Qed.

(** ** The gate of a refresh *)

Lemma stateless_refresh_claims now v : stateless (_refresh_claims_from_token now v).
Proof.
  unfold _refresh_claims_from_token. cbn zeta.
  repeat (apply stateless_bind; [auto using stateless_ensure, stateless_some_or|intros ?]).
  apply stateless_ret.
Qed.

Definition refresh_named (now : datetime) (value : pystr) : outcome (pystr * Z) :=
  (_refresh_claims_from_token now value (open_session no_tables)).1.

Lemma run_refresh_named now v s : _refresh_claims_from_token now v s = (refresh_named now v, s).
Proof.
  destruct (stateless_refresh_claims now v) as [o Ho]. unfold refresh_named. by rewrite !Ho.
Qed.

Lemma refresh_named_claims now v subject av :
  refresh_named now v = Return (subject, av) <->
  exists c sub, jwt_decode now v = Some c /\ cl_type c = "refresh" /\ cl_sub c = Some sub
    /\ subject = py_lower (strip sub) /\ has_at subject = true /\ av = cl_av c.
Proof.
  unfold refresh_named, _refresh_claims_from_token, mbind, M_bind, ensure, some_or, raise, mret, M_ret.
  destruct (jwt_decode now v) as [c|]; [|split; [done|naive_solver]].
  destruct (String.eqb (cl_type c) "refresh") eqn:Ht; eqs.
  2: { split; [done|]. intros (c' & sub & [= <-] & Hc & _). done. }
  destruct (cl_sub c) as [sub|] eqn:Hs.
  2: { split; [done|]. intros (c' & sub & [= <-] & _ & Hc & _). congruence. }
  destruct (has_at (py_lower (strip sub))) eqn:Hat.
  2: { split; [done|]. intros (c' & s' & [= <-] & _ & Hc & -> & Hh & _). congruence. }
  split.
  - intros [= <- <-]. by exists c, sub.
  - intros (c' & s' & [= <-] & _ & Hc & -> & _ & ->). by simplify_eq.
Qed.

(** What a refresh decides of a token, read off the tables. *)
Definition refresh_gate (now : datetime) (value : pystr) (d : authdb) : outcome (refresh_session * account) :=
  if truthy value then
    match refresh_named now value with
    | Raise e => Raise e
    | Return (subject, av) =>
        match find_session now d value with
        | None => Raise (HTTPException 401 "Refresh token has been revoked or expired")
        | Some session =>
            match get_by_email d subject with
            | Found a =>
                if ac_active a && Z.eqb (ac_id a) (rs_user_id session) && Z.eqb av (ac_auth_version a)
                then Return (session, a) else Raise unavailable
            | _ => Raise unavailable
            end
        end
    end
  else Raise (HTTPException 401 "Refresh token is required").

(** The rest of a refresh, once its gate has passed. *)
Definition rotate (now : datetime) (dw : draws) (c : client) (session : refresh_session) (a : account)
    : AUTH (account * token_pair) :=
  a ← provision_roles (dw_row_ids dw) a;
  let p := mint now dw a in
  put_session (session <| rs_revoked_at := Some now |>) ;;
  _store_refresh_session now (dw_session_id dw) (dw_family_id dw) (ac_id a) (tp_refresh p) c
    (Some session) ;;
  commit ;;
  mret (a, p).

Lemma run_refresh now dw origin c value s :
  refresh_token now dw origin c value s
  = if negb (truthy origin) || origin_allowed origin then
      match refresh_gate now value (working s) with
      | Return (session, a) => rotate now dw c session a s
      | Raise e => (Raise e, s)
      end
    else (Raise (HTTPException 403 "Cross-site authentication requests are not allowed"), s).
Proof.
  unfold refresh_token, _reject_cross_site_auth_request, refresh_gate.
  destruct (negb (truthy origin) || origin_allowed origin); [rewrite run_ensure by done|done].
  destruct (truthy value); [rewrite run_ensure by done|done].
  pose proof (run_refresh_named now value s) as Hn.
  destruct (refresh_named now value) as [[subject av]|e]; [|by rewrite (run_bind_raise _ _ _ _ _ Hn)].
  rewrite (run_bind _ _ _ _ _ Hn), run_query.
  destruct (find_session now (working s) value) as [session|]; [|done].
  assert (Ha : refresh_account session subject av s
    = (match get_by_email (working s) subject with
       | Found a => if ac_active a && Z.eqb (ac_id a) (rs_user_id session) && Z.eqb av (ac_auth_version a)
                    then Return a else Raise unavailable
       | _ => Raise unavailable end, s)).
  { unfold refresh_account. rewrite run_query. destruct (get_by_email _ _) as [|a|]; [done| |done].
    by destruct (_ && _). }
  rewrite (run_some_or _ _ _ _ session) by done.
  destruct (get_by_email (working s) subject) as [|a|];
    [by rewrite (run_bind_raise _ _ _ _ _ Ha)| |by rewrite (run_bind_raise _ _ _ _ _ Ha)].
  destruct (_ && _); [|by rewrite (run_bind_raise _ _ _ _ _ Ha)].
  by rewrite (run_bind _ _ _ _ _ Ha).
Qed.

Lemma refresh_gate_next_version d d' a b now now' v ss x :
  auth_ok d -> next_version d d' a b -> refresh_gate now v d = Return (ss, x) -> ac_id x = ac_id a ->
  forall y, refresh_gate now' v d' <> Return y.
Proof.
  intros Hok Hn. unfold refresh_gate. destruct (truthy v); [|done].
  destruct (refresh_named now v) as [[e av]|] eqn:He; [|done].
  destruct (find_session now d v); [|done]. destruct (get_by_email d e) as [|y|] eqn:Hy; try done.
  destruct (_ && _) eqn:Hb; [|done]. intros [= -> ->] Hi. bools. eqs.
  destruct (lookup_next_version d d' a b e x) as [-> Hl]; try done.
  intros z. destruct (refresh_named now' v) as [[e' av']|] eqn:He'; [|done].
  apply refresh_named_claims in He as (c & sub & Hc & _ & Hsub & -> & _ & ->).
  apply refresh_named_claims in He' as (c' & sub' & Hc' & _ & Hsub' & -> & _ & ->).
  rewrite (jwt_stable _ _ _ _ _ Hc' Hc) in *. rewrite Hsub in Hsub'. simplify_eq.
  destruct (find_session now' d' v); [|done]. rewrite Hl.
  replace (cl_av c =? ac_auth_version b) with false; [by rewrite andb_false_r|].
  symmetry. apply Z.eqb_neq. rewrite (nv_version _ _ _ _ Hn). lia.
Qed.

(** ** What the credential operations write *)

Lemma get_account_id d i a : auth_ok d -> get_account d i = Some a -> ac_id a = i.
Proof. intros Hok. apply (ok_accounts _ Hok). Qed.

Lemma reset_password_effect now salt origin allowed token password d s' :
  reset_password now salt origin allowed token password (open_session d) = (Return tt, s') ->
  exists g a, find_grant d token = Some g /\ pt_used_at g = None /\ now < pt_expires_at g
    /\ t_accounts d !! pt_user_id g = Some a /\ ac_active a = true
    /\ 12 <= len password /\ utf8_len password <= 72
    /\ committed s' = d
         <| t_accounts := <[ac_id a := with_password (hashpw password salt) a]> (t_accounts d) |>
         <| t_resets := spend_all now (ac_id a) (<[pt_id g := g <| pt_used_at := Some now |>]> (t_resets d)) |>
         <| t_sessions := revoke_all now (ac_id a) (t_sessions d) |>
         <| t_account_audits := t_account_audits d
              ++ [mkAccountAudit (ac_id a) "password_reset" "user" (ac_id a) "success"] |>.
Proof.
  unfold reset_password, _reject_cross_site_auth_request, _validate_password, live_grant, get_password_hash,
    put_account, _revoke_refresh_sessions, record.
  intros Hr. minv. bools. unfold get_account, PASSWORD_MIN_LENGTH, PASSWORD_MAX_BYTES in *.
  do 2 eexists. split_and!; try done; lia.
Qed.

Lemma store_refresh_session_effect now id family user_id token c previous s u s' :
  _store_refresh_session now id family user_id token c previous s = (Return u, s') ->
  exists cl, jwt_decode now token = Some cl
    /\ hash_taken (working s) (_refresh_hash token) = false
    /\ s' = Session (committed s)
              ((working s) <| t_sessions := <[id := session_row now id family user_id token (cl_exp cl) c previous]>
                 (t_sessions (working s)) |>) (published s).
Proof.
  unfold _store_refresh_session, put_session. intros Hr. minv. bools. by eexists.
Qed.

(** The tables after the caller's other sessions were cut off and one new session opened. *)
Definition new_session_only (now : datetime) (dw : draws) (c : client) (previous : option refresh_session)
    (b : account) (cl : claims) (audit : string) (d : authdb) : authdb :=
  d <| t_accounts := <[ac_id b := b]> (t_accounts d) |>
    <| t_sessions := <[dw_session_id dw := session_row now (dw_session_id dw) (dw_family_id dw) (ac_id b)
                         (tp_refresh (mint now dw b)) (cl_exp cl) c previous]>
                       (revoke_all now (ac_id b) (t_sessions d)) |>
    <| t_account_audits := t_account_audits d ++ [mkAccountAudit (ac_id b) audit "user" (ac_id b) "success"] |>.

Lemma change_password_effect now dw origin c allowed u current new d p s' :
  change_password now dw origin c allowed u current new (open_session d) = (Return p, s') ->
  exists a cl, t_accounts d !! ac_id u = Some a /\ verify_password current (ac_password_hash u) = true
    /\ new <> current /\ 12 <= len new /\ utf8_len new <= 72
    /\ let b := with_password (hashpw new (dw_salt dw)) a in
       p = mint now dw b /\ jwt_decode now (tp_refresh p) = Some cl
       /\ committed s' = new_session_only now dw c None b cl "password_change" d.
Proof.
  unfold change_password, _reject_cross_site_auth_request, _validate_password, get_password_hash,
    put_account, _revoke_refresh_sessions, record.
  intros Hr. destruct (verify_password current (ac_password_hash u)) eqn:Hv.
  2: { minv. }
  minv.
  match goal with H : _store_refresh_session _ _ _ _ _ _ _ _ = _ |- _ =>
    apply store_refresh_session_effect in H as (cl & Hc & _ & ->) end.
  unfold get_account, PASSWORD_MIN_LENGTH, PASSWORD_MAX_BYTES in *. bools.
  do 2 eexists. split_and!; try done; lia.
Qed.

Lemma revoke_other_sessions_effect now dw origin c u value d out s' :
  revoke_other_sessions now dw origin c u value (open_session d) = (Return out, s') ->
  exists a cl current, t_accounts d !! ac_id u = Some a
    /\ current ∈ _live_sessions now d (ac_id u) /\ rs_token_hash current = _refresh_hash value
    /\ let b := a <| ac_auth_version := ac_auth_version a + 1 |> in
       out.2 = mint now dw b /\ jwt_decode now (tp_refresh out.2) = Some cl
       /\ committed s' = new_session_only now dw c (Some current) b cl "sessions_revoke_others" d.
Proof.
  unfold revoke_other_sessions, _reject_cross_site_auth_request, put_account, _revoke_refresh_sessions, record.
  intros Hr. minv. match goal with H : _store_refresh_session _ _ _ _ _ _ _ _ = _ |- _ =>
    apply store_refresh_session_effect in H as (cl & Hc & _ & ->) end.
  match goal with H : List.find _ _ = Some _ |- _ => apply find_some in H as [Hin Hh] end.
  apply list_elem_of_In in Hin. bools. unfold get_account in *.
  do 3 eexists. split_and!; try done.
Qed.

(** The operations after which the account [i] has new credentials: a reset by link, a change
    of password, and "sign out everywhere else". *)
Inductive credential_change (d d' : authdb) (i : uuid) : Prop :=
  | by_reset now salt origin allowed token password g s' :
      reset_password now salt origin allowed token password (open_session d) = (Return tt, s') ->
      find_grant d token = Some g -> pt_user_id g = i -> d' = committed s' -> credential_change d d' i
  | by_password now dw origin c allowed u current new p s' :
      change_password now dw origin c allowed u current new (open_session d) = (Return p, s') ->
      ac_id u = i -> d' = committed s' -> credential_change d d' i
  | by_revoking_others now dw origin c u value out s' :
      revoke_other_sessions now dw origin c u value (open_session d) = (Return out, s') ->
      ac_id u = i -> d' = committed s' -> credential_change d d' i.

Lemma credential_change_version d d' i :
  auth_ok d -> credential_change d d' i -> exists a b, ac_id a = i /\ next_version d d' a b.
Proof.
  intros Hok [now salt origin allowed token password g s' Hr Hg <- ->
             |now dw origin c allowed u current new p s' Hr <- ->
             |now dw origin c u value out s' Hr <- ->].
  - apply reset_password_effect in Hr as (g' & a & Hg' & _ & _ & Ha & _ & _ & _ & ->).
    rewrite Hg in Hg'. simplify_eq. pose proof (get_account_id d _ a Hok Ha) as Hi.
    exists a, (with_password (hashpw password salt) a). split; [done|]. rewrite <- Hi in Ha. by constructor.
  - apply change_password_effect in Hr as (a & cl & Ha & _ & _ & _ & _ & _ & _ & ->).
    pose proof (get_account_id d _ a Hok Ha) as Hi. eexists a, _. split; [done|].
    rewrite <- Hi in Ha. by constructor.
  - apply revoke_other_sessions_effect in Hr as (a & cl & cur & Ha & _ & _ & _ & _ & ->).
    pose proof (get_account_id d _ a Hok Ha) as Hi. eexists a, _. split; [done|].
    rewrite <- Hi in Ha. by constructor.
Qed.

Lemma spent i now m j g :
  spend_all now i m !! j = Some g -> pt_user_id g = i -> pt_used_at g <> None.
Proof.
  unfold spend_all. rewrite lookup_fmap. destruct (m !! j) as [t|]; [|done]. cbn.
  destruct (Z.eqb (pt_user_id t) i && bool_decide (pt_used_at t = None)) eqn:Hb; intros [= <-]; [done|].
  intros Hi Hn. rewrite Hi, Hn, Z.eqb_refl in Hb. done.
Qed.

Lemma find_grant_elem d raw g : keyed pt_id (t_resets d) -> find_grant d raw = Some g -> t_resets d !! pt_id g = Some g.
Proof.
  intros Hk Hf. apply find_some in Hf as [Hin _]. apply list_elem_of_In in Hin.
  by apply (elem_of_rows pt_id).
Qed.

Lemma spend_all_keyed now i m : keyed pt_id m -> keyed pt_id (spend_all now i m).
Proof.
  intros Hk j g. unfold spend_all. rewrite lookup_fmap. destruct (m !! j) as [t|] eqn:Ht; [|done]. cbn.
  intros [= <-]. pose proof (Hk _ _ Ht). by case_match.
Qed.

(** ** The rotation of a refresh token *)

Lemma expiry_later now delta : 1000000 <= delta -> now < expiry now delta * 1000000.
Proof. intros Hd. unfold expiry. pose proof (Z.mul_succ_div_gt (now + delta) 1000000). lia. Qed.

Lemma hash_free d h : keyed rs_id (t_sessions d) ->
  hash_taken d h = false <-> forall i r, t_sessions d !! i = Some r -> rs_token_hash r <> h.
Proof.
  intros Hk. unfold hash_taken. rewrite existsb_false. split.
  - intros Hf i r Hr. specialize (Hf r). rewrite (elem_of_rows rs_id) in Hf by done.
    rewrite (Hk _ _ Hr) in Hf. specialize (Hf Hr). by bools.
  - intros Hf r Hr. apply (elem_of_rows rs_id) in Hr; [|done]. apply bool_decide_eq_false. by apply (Hf (rs_id r)).
Qed.

Lemma find_session_some d now v r : keyed rs_id (t_sessions d) -> find_session now d v = Some r ->
  t_sessions d !! rs_id r = Some r /\ rs_token_hash r = _refresh_hash v /\ live_session now r = true.
Proof.
  intros Hk Hf. apply find_some in Hf as [Hin Hb]. apply list_elem_of_In, (elem_of_rows rs_id) in Hin; [|done].
  by bools.
Qed.

Lemma find_session_is d now v r : keyed rs_id (t_sessions d) -> t_sessions d !! rs_id r = Some r ->
  rs_token_hash r = _refresh_hash v -> live_session now r = true ->
  (forall i x, t_sessions d !! i = Some x -> rs_token_hash x = _refresh_hash v -> x = r) ->
  find_session now d v = Some r.
Proof.
  intros Hk Hr Hh Hl Hu. destruct (find_session now d v) as [x|] eqn:Hx.
  - apply find_session_some in Hx as (Hx & Hxh & _); [|done]. f_equal. by eapply Hu.
  - eapply find_none in Hx; [|apply list_elem_of_In; by apply (elem_of_rows rs_id)].
    cbn in Hx. rewrite Hh, bool_decide_true, Hl in Hx by done. done.
Qed.

Lemma run_store now id family user_id token c previous s cl :
  jwt_decode now token = Some cl -> hash_taken (working s) (_refresh_hash token) = false ->
  _store_refresh_session now id family user_id token c previous s
  = (Return tt, Session (committed s)
      ((working s) <| t_sessions := <[id := session_row now id family user_id token (cl_exp cl) c previous]>
         (t_sessions (working s)) |>) (published s)).
Proof.
  intros Hd Hf. unfold _store_refresh_session. rewrite Hd, (run_some_or _ _ _ _ cl), run_query, Hf by done. done.
Qed.

(** The tables after the session [session] was handed over to [row]. *)
Definition handed_over (now : datetime) (session row : refresh_session) (d : authdb) : authdb :=
  d <| t_sessions := <[rs_id row := row]> (<[rs_id session := session <| rs_revoked_at := Some now |>]> (t_sessions d)) |>.

Section Handover.
Context (d : authdb) (now : datetime) (value next : pystr) (session row : refresh_session).
Hypothesis Hok : auth_ok d.
Hypothesis Hfound : find_session now d value = Some session.
Hypothesis Hid : t_sessions d !! rs_id row = None.
Hypothesis Hnext : rs_token_hash row = _refresh_hash next.
Hypothesis Hfree : hash_taken d (_refresh_hash next) = false.

Lemma handed_over_rows i x : t_sessions (handed_over now session row d) !! i = Some x ->
  x = row \/ x = session <| rs_revoked_at := Some now |> \/ t_sessions d !! i = Some x /\ i <> rs_id session.
Proof.
  intros Hx. cbn in Hx. apply lookup_insert_Some in Hx as [[_ <-]|[_ Hx]]; [by left|].
  apply lookup_insert_Some in Hx as [[_ <-]|[Hne Hx]]; [by right; left|right; right; by split].
Qed.

Lemma handed_over_keyed : keyed rs_id (t_sessions (handed_over now session row d)).
Proof. apply insert_keyed; [done|]. apply insert_keyed; [done|apply Hok]. Qed.

Lemma session_row_stored : t_sessions d !! rs_id session = Some session /\ rs_token_hash session = _refresh_hash value.
Proof. apply find_session_some in Hfound as (? & ? & _); [done|apply Hok]. Qed.

Lemma old_hash_other : _refresh_hash value <> _refresh_hash next.
Proof.
  destruct session_row_stored as [Hs Hh]. rewrite <- Hh.
  apply (proj1 (hash_free d _ (ok_sessions _ Hok)) Hfree _ _ Hs).
Qed.

Lemma old_token_dead now' : find_session now' (handed_over now session row d) value = None.
Proof.
  destruct (find_session now' _ value) as [x|] eqn:Hx; [|done]. exfalso.
  apply find_session_some in Hx as (Hx & Hh & Hl); [|apply handed_over_keyed].
  destruct session_row_stored as [Hs Hsh].
  apply handed_over_rows in Hx as [->|[->|[Hx Hne]]].
  - rewrite Hnext in Hh. by apply old_hash_other.
  - done.
  - apply Hne. f_equal. apply (ok_hashes _ Hok); [| |congruence]; apply (elem_of_rows rs_id); try done; apply Hok.
Qed.

Lemma new_token_live now' : live_session now' row = true ->
  find_session now' (handed_over now session row d) next = Some row.
Proof.
  intros Hl. apply find_session_is; [apply handed_over_keyed|apply lookup_insert_eq|done|done|].
  intros i x Hx Hh. destruct session_row_stored as [Hs Hsh].
  apply handed_over_rows in Hx as [->|[->|[Hx Hne]]]; [done|exfalso..].
  - cbn in Hh. rewrite Hsh in Hh. by apply old_hash_other.
  - by apply (proj1 (hash_free d _ (ok_sessions _ Hok)) Hfree _ _ Hx).
Qed.

Lemma hash_still_free : hash_taken
  (d <| t_sessions := <[rs_id session := session <| rs_revoked_at := Some now |>]> (t_sessions d) |>)
  (_refresh_hash next) = false.
Proof.
  destruct session_row_stored as [Hs Hsh].
  apply hash_free; [apply insert_keyed; [done|apply Hok]|]. intros i x Hx. cbn in Hx.
  apply lookup_insert_Some in Hx as [[_ <-]|[_ Hx]]; cbn.
  - rewrite Hsh. apply old_hash_other.
  - by apply (proj1 (hash_free d _ (ok_sessions _ Hok)) Hfree _ _ Hx).
Qed.
End Handover.

(** A token the service mints is read back until it expires. *)
Lemma mint_refresh_read now dw a now' :
  has_at (py_lower (strip (ac_email a))) = true ->
  now' < cl_exp (refresh_claims now (dw_jti dw) (ac_email a) (ac_auth_version a)) * 1000000 ->
  jwt_decode now' (tp_refresh (mint now dw a)) = Some (refresh_claims now (dw_jti dw) (ac_email a) (ac_auth_version a))
  /\ truthy (tp_refresh (mint now dw a)) = true
  /\ refresh_named now' (tp_refresh (mint now dw a)) = Return (py_lower (strip (ac_email a)), ac_auth_version a).
Proof.
  intros Hat Hexp.
  assert (Hd : jwt_decode now' (tp_refresh (mint now dw a))
    = Some (refresh_claims now (dw_jti dw) (ac_email a) (ac_auth_version a))) by by apply jwt_fresh.
  split_and!; [done| |].
  - pose proof (jwt_nonempty (refresh_claims now (dw_jti dw) (ac_email a) (ac_auth_version a))) as Hne.
    cbn. unfold create_refresh_token. by destruct (jwt_encode _).
  - apply refresh_named_claims. do 2 eexists. split_and!; [exact Hd|done..].
Qed.

(** A request that carries nothing but a bearer token. *)
Definition bearer (token : pystr) : request := mkHttp "GET" [] None token [] [].

Lemma bearer_named now token : truthy token = true ->
  named now (bearer token) = (access_claims now token (open_session no_tables)).1.
Proof. by destruct token. Qed.

Lemma minted_access_gate now dw a now' d :
  now' < expiry now (ACCESS_TOKEN_EXPIRE_MINUTES * 60000000) * 1000000 ->
  has_at (py_lower (strip (ac_email a))) = true ->
  get_by_email d (py_lower (strip (ac_email a))) = Found a ->
  gate now' (bearer (tp_access (mint now dw a))) d
  = if ac_active a then Return a else Raise deactivated_exception.
Proof.
  intros Hexp Hat Hf. set (cl := mkClaims (expiry now (ACCESS_TOKEN_EXPIRE_MINUTES * 60000000))
    (Some (ac_email a)) "access" (ac_auth_version a) None).
  change (tp_access (mint now dw a)) with (jwt_encode cl). unfold gate.
  rewrite bearer_named by (pose proof (jwt_nonempty cl); by destruct (jwt_encode cl)).
  unfold access_claims. rewrite (jwt_fresh now' cl) by done.
  change ((some_or (Some cl) credentials_exception ≫= _) _).1
    with (@Return (pystr * Z) (py_lower (strip (ac_email a)), ac_auth_version a)).
  cbn beta iota. by rewrite Hat, Hf, Z.eqb_refl.
Qed.
End Facts.

Section Theorems.
Context `{KbEnv} `{AuthEnv} `{!AuthLaws} `{Settings}.

(** C14. A change of credentials ends every session. After a password reset, a change of
    password or "sign out everywhere else", no request that authenticated as the account
    before is let in again, at any time and whichever way it carries its token, and no refresh
    token that worked for the account before works again. *)
Theorem credential_change_ends_sessions (d d' : authdb) (i : uuid) (Hok : auth_ok d)
    (Hc : credential_change d d' i) :
  (forall now r a, gate now r d = Return a -> ac_id a = i -> forall now' fresh',
     (get_current_user now' fresh' r (open_session d')).1 = Raise credentials_exception)
  /\ (forall now value session a, refresh_gate now value d = Return (session, a) -> ac_id a = i ->
      forall now' dw' origin' c' out,
        (refresh_token now' dw' origin' c' value (open_session d')).1 <> Return out).
Proof.
  destruct (credential_change_version d d' i Hok Hc) as (a & b & <- & Hn). split.
  - intros now r x Hg Hi now' fresh'. rewrite run_gate. cbn [working open_session].
    by rewrite (gate_next_version d d' a b now now' r x).
  - intros now v ss x Hg Hi now' dw' origin' c' out. rewrite run_refresh. cbn [working open_session].
    destruct (_ || _); [|done].
    destruct (refresh_gate now' v d') as [y|] eqn:Hy; [|done].
    by destruct (refresh_gate_next_version d d' a b now now' v ss x Hok Hn Hg Hi y).
Qed.

(** A reset link works once. A reset that succeeds had a link still unused and unexpired,
    for an active account, and a password of 12 characters or more; the new password is
    accepted from then on, and every link the account had been sent is spent, so that no reset
    through any of them succeeds again. *)
Theorem reset_link_single_use (now : datetime) (salt origin token password : pystr) (allowed : bool)
    (d : authdb) (s' : session authdb Empty_set) (Hok : auth_ok d)
    (Hr : reset_password now salt origin allowed token password (open_session d) = (Return tt, s')) :
  exists g a b, find_grant d token = Some g /\ pt_used_at g = None /\ now < pt_expires_at g
    /\ t_accounts d !! pt_user_id g = Some a /\ ac_active a = true /\ 12 <= len password
    /\ t_accounts (committed s') !! ac_id a = Some b
    /\ verify_password password (ac_password_hash b) = true
    /\ forall now' salt' origin' allowed' token' password' g' s'',
         find_grant (committed s') token' = Some g' -> pt_user_id g' = ac_id a ->
         reset_password now' salt' origin' allowed' token' password' (open_session (committed s'))
           <> (Return tt, s'').
Proof.
  apply reset_password_effect in Hr as (g & a & Hg & Hu & He & Ha & Hact & Hlen & _ & Hd').
  exists g, a, (with_password (hashpw password salt) a).
  split_and!; try done.
  - rewrite Hd'. apply lookup_insert_eq.
  - apply checkpw_hashpw.
  - intros now' salt' origin' allowed' token' password' g' s'' Hg' Hi Hr'.
    apply reset_password_effect in Hr' as (g2 & _ & Hg2 & Hu2 & _). rewrite Hg' in Hg2. simplify_eq.
    apply find_grant_elem in Hg'.
    + rewrite Hd' in Hg'. by apply (spent _ _ _ _ _ Hg' Hi).
    + rewrite Hd'. apply spend_all_keyed, insert_keyed; [done|apply Hok].
Qed.

(** C15. Rotation. A refresh whose gate passes and whose new token collides with no stored hash
    returns a new pair: the session row is revoked and a row of the same family takes its
    place, with everything else as it was; the old token never works again, and until they
    expire the new tokens are accepted for the account. *)
Theorem refresh_rotates (now : datetime) (dw : draws) (origin value : pystr) (c : client) (d : authdb)
    (session : refresh_session) (a : account) (Hok : auth_ok d) (Hdays : 1 <= REFRESH_TOKEN_EXPIRE_DAYS)
    (Horigin : truthy origin = false \/ origin_allowed origin = true)
    (Hgate : refresh_gate now value d = Return (session, a)) (Hroles : ac_role_ids a <> [])
    (Haddress : has_at (py_lower (strip (ac_email a))) = true)
    (Hcanonical : get_by_email d (py_lower (strip (ac_email a))) = Found a)
    (Hid : t_sessions d !! dw_session_id dw = None)
    (Hfree : hash_taken d (_refresh_hash (tp_refresh (mint now dw a))) = false) :
  let p := mint now dw a in
  exists row, let d' := handed_over now session row d in
    refresh_token now dw origin c value (open_session d) = (Return (a, p), Session d' d' [])
    /\ rs_family_id row = Some (default (dw_family_id dw) (rs_family_id session))
    /\ rs_user_id row = ac_id a /\ rs_revoked_at row = None
    /\ (forall now' dw' origin' c' out,
          (refresh_token now' dw' origin' c' value (open_session d')).1 <> Return out)
    /\ (forall now', now' < expiry now (REFRESH_TOKEN_EXPIRE_DAYS * 86400000000) * 1000000 ->
          refresh_gate now' (tp_refresh p) d' = Return (row, a))
    /\ (forall now', now' < expiry now (ACCESS_TOKEN_EXPIRE_MINUTES * 60000000) * 1000000 ->
          gate now' (bearer (tp_access p)) d' = Return a).
Proof.
  cbn zeta. set (p := mint now dw a).
  assert (Hg : refresh_gate now value d = Return (session, a)) by done. unfold refresh_gate in Hg.
  destruct (truthy value) eqn:Hv; [|done]. destruct (refresh_named now value) as [[e av]|] eqn:Hn; [|done].
  destruct (find_session now d value) as [ss|] eqn:Hfound; [|done].
  destruct (get_by_email d e) as [|x|] eqn:Hx; try done. destruct (_ && _) eqn:Hb; [|done].
  simplify_eq. bools. eqs.
  destruct (mint_refresh_read now dw a now) as (Hread & _ & _); [done|apply expiry_later; lia|].
  set (row := session_row now (dw_session_id dw) (dw_family_id dw) (ac_id a) (tp_refresh p)
                (cl_exp (refresh_claims now (dw_jti dw) (ac_email a) (ac_auth_version a))) c (Some session)).
  exists row. split_and!; try done.
  - rewrite run_refresh. cbn [working open_session]. rewrite Hgate.
    replace (negb (truthy origin) || origin_allowed origin) with true
      by (by destruct Horigin as [-> | ->]; [|rewrite orb_true_r]).
    unfold rotate, provision_roles. destruct (ac_role_ids a); [done|].
    pose proof (hash_still_free d now value (tp_refresh p) session Hok Hfound Hfree) as Hstill.
    unfold mbind, M_bind, mret, M_ret, put_session, write, query, some_or, ensure, commit. cbn beta iota zeta. fold p.
    erewrite run_store; [reflexivity|exact Hread|exact Hstill].
  - intros now' dw' o' c' out. rewrite run_refresh. cbn [working open_session].
    destruct (_ || _); [|done]. unfold refresh_gate. rewrite Hv.
    destruct (refresh_named now' value) as [[]|]; [|done].
    by rewrite (old_token_dead d now value (tp_refresh p) session row Hok Hfound eq_refl Hfree).
  - intros now' Hexp. destruct (mint_refresh_read now dw a now') as (_ & Ht & Hnamed); [done..|].
    fold p in Ht, Hnamed. unfold refresh_gate. rewrite Ht, Hnamed.
    rewrite (new_token_live d now value (tp_refresh p) session row Hok Hfound eq_refl Hfree)
      by (by apply Z.ltb_lt).
    change (get_by_email (handed_over now session row d) ?e) with (get_by_email d e).
    rewrite Hcanonical, Z.eqb_refl. cbn. rewrite Z.eqb_refl.
    by match goal with H : ac_active a = true |- _ => rewrite H end.
  - intros now' Hexp. pose proof (minted_access_gate now dw a now' (handed_over now session row d) Hexp Haddress) as Hm.
    unfold p. rewrite Hm by done. by match goal with H : ac_active a = true |- _ => rewrite H end.
Qed.

(** Sign-in ignores deactivation. With the right password a deactivated account signs in:
    it is given tokens, its session row is live, and the login is audited as a success; yet
    the gate then refuses the access token it was given. *)
Theorem deactivated_account_signs_in (now : datetime) (dw : draws) (username password : pystr) (c : client)
    (d : authdb) (a : account) (Hdays : 1 <= REFRESH_TOKEN_EXPIRE_DAYS)
    (Hfound : get_by_email d username = Found a) (Hname : has_at (py_lower (strip username)) = true)
    (Hpassword : verify_password password (ac_password_hash a) = true) (Hroles : ac_role_ids a <> [])
    (Hoff : ac_active a = false) (Haddress : has_at (py_lower (strip (ac_email a))) = true)
    (Hcanonical : get_by_email d (py_lower (strip (ac_email a))) = Found a)
    (Hfree : hash_taken d (_refresh_hash (tp_refresh (mint now dw a))) = false) :
  let p := mint now dw a in
  exists d' row, login now dw [] c true true username password (open_session d) = (Return (a, p), Session d' d' [])
    /\ t_sessions d' !! dw_session_id dw = Some row /\ rs_user_id row = ac_id a /\ live_session now row = true
    /\ t_account_audits d' = t_account_audits d ++ [mkAccountAudit (ac_id a) "login" "user" (ac_id a) "success"]
    /\ forall now' fresh, now' < expiry now (ACCESS_TOKEN_EXPIRE_MINUTES * 60000000) * 1000000 ->
         (get_current_user now' fresh (bearer (tp_access p)) (open_session d')).1 = Raise deactivated_exception.
Proof.
  cbn zeta. set (p := mint now dw a).
  destruct (mint_refresh_read now dw a now) as (Hread & _ & _); [done|apply expiry_later; lia|].
  fold p in Hread, Hfree.
  set (row := session_row now (dw_session_id dw) (dw_family_id dw) (ac_id a) (tp_refresh p)
                (cl_exp (refresh_claims now (dw_jti dw) (ac_email a) (ac_auth_version a))) c None).
  eexists (d <| t_sessions := <[dw_session_id dw := row]> (t_sessions d) |>
             <| t_account_audits := t_account_audits d ++ [mkAccountAudit (ac_id a) "login" "user" (ac_id a) "success"] |>), row.
  split_and!; try done.
  - assert (Hauth : authenticate_user username password (open_session d) = (Return a, open_session d)).
    { unfold authenticate_user. rewrite run_query. cbn [working open_session]. by rewrite Hfound, Hpassword. }
    assert (Hprov : provision_roles (dw_row_ids dw) a (open_session d) = (Return a, open_session d)).
    { unfold provision_roles. by destruct (ac_role_ids a). }
    unfold login, _reject_cross_site_auth_request. rewrite !run_ensure by done.
    rewrite (run_bind _ _ _ _ _ Hauth), (run_bind _ _ _ _ _ Hprov). fold p.
    rewrite (run_bind _ _ _ _ _ (run_store now _ _ _ _ c None (open_session d) _ Hread Hfree)). reflexivity.
  - apply lookup_insert_eq.
  - apply Z.ltb_lt. apply expiry_later. lia.
  - intros now' fresh Hexp. rewrite run_gate. cbn [working open_session].
    unfold p. rewrite minted_access_gate by done. by rewrite Hoff.
Qed.
End Theorems.

(** ** A concrete deployment *)

#[local] Existing Instance demo_env.
#[local] Existing Instance demo_auth.
#[local] Existing Instance demo_laws.
#[local] Existing Instance demo_settings.

Definition sealed_off (a : account) : account := a <| ac_active := false |>.
Definition reset_grant : password_reset_token :=
  mkResetToken 5 1 ($"reset-secret") 4000000000 None ($"ann@kb.example").
Definition one_account (a : account) : authdb :=
  mkAuthDb {[1 := a]} [] [] [] ∅ {[5 := reset_grant]} ∅ ∅ [] [] [].
Definition some_draws : draws := mkDraws 7 8 ($"jti-1") ($"salt") (fun i => i + 100).
Definition other_draws : draws := mkDraws 9 10 ($"jti-2") ($"salt") (fun i => i + 200).
Definition browser : client := mkClient (Some ($"firefox")) None.
Definition ann_token : pystr := tp_refresh (mint 0 some_draws ann).
Definition signed_in : authdb :=
  committed (login 0 some_draws [] browser true true ($"ann@kb.example") ($"correct horse battery")
               (open_session (one_account ann))).2.
Definition ann_session : refresh_session :=
  session_row 0 7 8 1 ann_token (cl_exp (refresh_claims 0 ($"jti-1") ($"ann@kb.example") 3)) browser None.

Lemma signed_in_rows : t_accounts signed_in = {[1 := ann]} /\ t_sessions signed_in = {[7 := ann_session]}
  /\ t_resets signed_in = {[5 := reset_grant]}.
Proof. vm_compute. split_and!; reflexivity. Qed.

Lemma signed_in_ok : auth_ok signed_in.
Proof.
  destruct signed_in_rows as (Ha & Hs & Hr).
  assert (Hrows : forall (A : Type) (i : Z) (a : A), rows {[i := a]} = [a]).
  { intros A i a. unfold rows. by rewrite map_to_list_singleton. }
  constructor; rewrite ?Ha, ?Hs, ?Hr, ?Hrows; try (by intros i a [<- <-]%lookup_singleton_Some);
    intros a b Hx Hy _; apply list_elem_of_singleton in Hx, Hy; congruence.
Qed.

Definition after_reset : outcome unit * session authdb Empty_set :=
  reset_password 3600000000 ($"salt") [] true ($"reset-secret") ($"a new passphrase") (open_session signed_in).

Lemma after_reset_returns : exists s', after_reset = (Return tt, s').
Proof. vm_compute. eexists. reflexivity. Qed.

Lemma signed_in_gate : gate 60000000 (bearer (tp_access (mint 0 some_draws ann))) signed_in = Return ann.
Proof. vm_compute. reflexivity. Qed.

Lemma signed_in_grant : find_grant signed_in ($"reset-secret") = Some reset_grant.
Proof. vm_compute. reflexivity. Qed.

Lemma credential_change_ends_sessions_witness :
  exists s', after_reset = (Return tt, s')
    /\ (get_current_user 3700000000 (fun i => i) (bearer (tp_access (mint 0 some_draws ann)))
          (open_session (committed s'))).1 = Raise credentials_exception.
Proof.
  destruct after_reset_returns as [s' Hs]. exists s'. split; [exact Hs|].
  apply (proj1 (credential_change_ends_sessions signed_in (committed s') 1 signed_in_ok
    (by_reset signed_in (committed s') 1 3600000000 ($"salt") [] true ($"reset-secret") ($"a new passphrase")
       reset_grant s' Hs signed_in_grant eq_refl eq_refl)) _ _ ann signed_in_gate eq_refl).
Defined.

Lemma reset_link_single_use_witness :
  exists s', after_reset = (Return tt, s')
    /\ forall now s'', reset_password now ($"salt") [] true ($"reset-secret") ($"yet another phrase")
         (open_session (committed s')) <> (Return tt, s'').
Proof.
  destruct after_reset_returns as [s' Hs]. exists s'. split; [exact Hs|]. intros now s''.
  destruct (reset_link_single_use 3600000000 ($"salt") [] ($"reset-secret") ($"a new passphrase") true
    signed_in s' signed_in_ok Hs) as (g & a & b & Hg & _ & _ & Ha & _ & _ & _ & _ & Hno).
  assert (Hi : g = reset_grant) by (rewrite signed_in_grant in Hg; congruence). subst g.
  assert (Hann : a = ann).
  { rewrite (proj1 signed_in_rows) in Ha. cbn in Ha. apply lookup_singleton_Some in Ha. symmetry. exact (proj2 Ha). }
  subst a. destruct (find_grant (committed s') ($"reset-secret")) as [g'|] eqn:Hf.
  - assert (Hu : pt_user_id g' = 1).
    { replace (committed s') with (committed after_reset.2) in Hf by (rewrite Hs; reflexivity).
      assert (Hg' : pt_user_id <$> find_grant (committed after_reset.2) ($"reset-secret") = Some 1) by (vm_compute; reflexivity).
      rewrite Hf in Hg'. cbn in Hg'. congruence. }
    exact (Hno now ($"salt") [] true ($"reset-secret") ($"yet another phrase") g' s'' Hf Hu).
  - intros Hr. apply reset_password_effect in Hr as (g2 & _ & Hg2 & _). congruence.
Defined.

Lemma refresh_gate_signed_in : refresh_gate 60000000 ann_token signed_in = Return (ann_session, ann).
Proof. vm_compute. reflexivity. Qed.

Lemma demo_days : 1 <= REFRESH_TOKEN_EXPIRE_DAYS.
Proof. vm_compute. discriminate. Qed.

Lemma refresh_rotates_witness :
  exists row d', refresh_token 60000000 other_draws [] browser ann_token (open_session signed_in)
      = (Return (ann, mint 60000000 other_draws ann), Session d' d' [])
    /\ rs_family_id row = Some 8
    /\ refresh_gate 120000000 (tp_refresh (mint 60000000 other_draws ann)) d' = Return (row, ann).
Proof.
  destruct (refresh_rotates 60000000 other_draws [] ann_token browser signed_in ann_session ann signed_in_ok
    demo_days (or_introl eq_refl) refresh_gate_signed_in ltac:(vm_compute; discriminate)
    ltac:(vm_compute; reflexivity) ltac:(vm_compute; reflexivity) ltac:(vm_compute; reflexivity)
    ltac:(vm_compute; reflexivity)) as (row & Hrun & Hf & _ & _ & _ & Hnew & _).
  exists row. eexists. split; [exact Hrun|]. split; [exact Hf|].
  apply Hnew. vm_compute. reflexivity.
Defined.

Lemma deactivated_account_signs_in_witness :
  exists d', (login 0 some_draws [] browser true true ($"ann@kb.example") ($"correct horse battery")
      (open_session (one_account (sealed_off ann)))) = (Return (sealed_off ann, mint 0 some_draws ann), Session d' d' [])
    /\ (get_current_user 60000000 (fun i => i) (bearer (tp_access (mint 0 some_draws ann))) (open_session d')).1
       = Raise deactivated_exception.
Proof.
  destruct (deactivated_account_signs_in 0 some_draws ($"ann@kb.example") ($"correct horse battery") browser
    (one_account (sealed_off ann)) (sealed_off ann) demo_days ltac:(vm_compute; reflexivity)
    ltac:(vm_compute; reflexivity) ltac:(vm_compute; reflexivity) ltac:(vm_compute; discriminate) eq_refl
    ltac:(vm_compute; reflexivity) ltac:(vm_compute; reflexivity) ltac:(vm_compute; reflexivity))
    as (d' & row & Hrun & _ & _ & _ & _ & Hgate).
  exists d'. split; [exact Hrun|]. apply Hgate. vm_compute. reflexivity.
Defined.
