(* ===== verification/AccessTokens.v ===== *)
(** * Personal access tokens (src/domain/access_tokens.py, src/api/routers/access_tokens.py)

    The credential an MCP client presents: its creation, listing and revocation by its owner, and
    the lookup that answers which live user a token stands for. *)

From S2P Require Import Prelude PyText Models Rbac Store Identity.
From Stdlib Require String.
#[local] Open Scope string_scope.
#[local] Open Scope list_scope.
#[local] Open Scope Z_scope.

Section Tokens.
Context `{KbEnv} `{Settings}.

Definition TOKEN_PREFIX : pystr := $"kbpat_".
Definition SCOPES : list string := ["read"; "write"].
Definition LAST_USED_RESOLUTION : Z := 300000000.

Record token_principal := mkPrincipal {
  tp_token_id : uuid;
  tp_user_id : uuid;
  tp_email : pystr;
  tp_auth_version : Z;
  tp_scope : string
}.
Definition can_write (p : token_principal) : bool := String.eqb (tp_scope p) "write".

Definition hash_token (raw : pystr) : pystr := sha256_hex raw.

Definition starts_with (prefix s : pystr) : bool := bool_decide (take (length prefix) s = prefix).
Definition looks_like_token (raw : option pystr) : bool :=
  match raw with
  | Some s => starts_with TOKEN_PREFIX s && (len s <=? 128)
  | None => false
  end.

(** [secret] is the draw of [secrets.token_urlsafe(32)]. *)
Definition new_token (secret : pystr) : pystr := (TOKEN_PREFIX ++ secret)%list.

Record token_row := mkTokenRow {
  tv_id : uuid;
  tv_name : pystr;
  tv_prefix : pystr;
  tv_scope : string;
  tv_created_at : datetime;
  tv_expires_at : datetime;
  tv_last_used_at : option datetime;
  tv_revoked : bool;
  tv_expired : bool
}.
Definition token_view (now : datetime) (item : access_token) : token_row :=
  mkTokenRow (at_id item) (at_name item) (at_token_prefix item) (at_scope item) (at_created_at item)
    (at_expires_at item) (at_last_used_at item)
    (negb (bool_decide (at_revoked_at item = None))) (at_expires_at item <=? now).

Definition newer (a b : access_token) : bool := at_created_at b <=? at_created_at a.
Definition list_tokens (d : authdb) (user_id : uuid) : list access_token :=
  stable_sort newer (List.filter (fun t => Z.eqb (at_user_id t) user_id) (rows (t_tokens d))).

Definition live_token (now : datetime) (t : access_token) : bool :=
  bool_decide (at_revoked_at t = None) && (now <? at_expires_at t).
Definition count_live_tokens (now : datetime) (d : authdb) (user_id : uuid) : Z :=
  len (List.filter (live_token now) (list_tokens d user_id)).

Definition put_token (t : access_token) : AUTH unit :=
  write (fun d => d <| t_tokens := <[at_id t := t]> (t_tokens d) |>).

Definition token_hash_taken (d : authdb) (h : pystr) : bool :=
  existsb (fun t => bool_decide (at_token_hash t = h)) (rows (t_tokens d)).

Definition token_days (expires_in_days : Z) : Z := Z.max 1 (Z.min expires_in_days MCP_TOKEN_MAX_DAYS).

Definition create_token (now : datetime) (id : uuid) (secret : pystr) (user : account) (name : pystr)
    (scope : string) (expires_in_days : Z) : AUTH (access_token * pystr) :=
  ensure (mem scope SCOPES) (ValueError "scope must be 'read' or 'write'") ;;
  let raw := new_token secret in
  let item := mkAccessToken id (ac_id user) (strip name) (take (length TOKEN_PREFIX + 4) raw)
                (hash_token raw) scope now (now + token_days expires_in_days * 86400000000) None None in
  taken ← query (fun d => token_hash_taken d (hash_token raw));
  ensure (negb taken) (IntegrityError "personal_access_tokens_token_hash") ;;
  put_token item ;;
  commit ;;
  mret (item, raw).

Definition revoke_token (now : datetime) (user_id token_id : uuid) : AUTH (option access_token) :=
  found ← query (fun d => t ← t_tokens d !! token_id;
                          if Z.eqb (at_user_id t) user_id then Some t else None);
  match found with
  | None => mret None
  | Some item =>
      if bool_decide (at_revoked_at item = None) then
        let item := item <| at_revoked_at := Some now |> in
        put_token item ;; commit ;; mret (Some item)
      else mret (Some item)
  end.

(** The live token of a raw value, joined with its owner. *)
Definition token_and_owner (now : datetime) (raw : pystr) (d : authdb) : option (access_token * account) :=
  head (omap (fun t => if bool_decide (at_token_hash t = hash_token raw) && live_token now t
                       then a ← t_accounts d !! at_user_id t; Some (t, a) else None)
          (rows (t_tokens d))).

Definition principal_of (item : access_token) (user : account) : token_principal :=
  mkPrincipal (at_id item) (ac_id user) (py_lower (strip (ac_email user))) (ac_auth_version user) (at_scope item).

Definition use_is_stale (now : datetime) (item : access_token) : bool :=
  match at_last_used_at item with None => true | Some t => LAST_USED_RESOLUTION <? now - t end.

Definition authenticate_token (now : datetime) (raw : option pystr) : AUTH (option token_principal) :=
  if looks_like_token raw then
    row ← query (token_and_owner now (default [] raw));
    match row with
    | None => mret None
    | Some (item, user) =>
        if ac_active user then
          (if use_is_stale now item then
             put_token (item <| at_last_used_at := Some now |>) ;; commit
           else mret tt) ;;
          mret (Some (principal_of item user))
        else mret None
    end
  else mret None.

(** ** The routes *)

Definition _require_enabled : AUTH unit := ensure MCP_ENABLED (HTTPException 404 "MCP access is not enabled").

Definition list_access_tokens (now : datetime) (current_user : account) : AUTH (list token_row) :=
  _require_enabled ;;
  query (fun d => map (token_view now) (list_tokens d (ac_id current_user))).

Definition create_access_token (now : datetime) (id : uuid) (secret : pystr) (current_user : account)
    (name : pystr) (scope : string) (expires_in_days : Z) : AUTH (token_row * pystr) :=
  _require_enabled ;;
  n ← query (fun d => count_live_tokens now d (ac_id current_user));
  ensure (n <? MCP_TOKENS_PER_USER)
    (HTTPException 409 "Too many active tokens. Revoke one you no longer use first.") ;;
  made ← create_token now id secret current_user name scope expires_in_days;
  let '(item, raw) := made in
  record (ac_id current_user) "access_token_create" "access_token" (at_id item) "success" true ;;
  mret (token_view now item, raw).

Definition revoke_access_token (now : datetime) (current_user : account) (token_id : uuid) : AUTH unit :=
  _require_enabled ;;
  found ← revoke_token now (ac_id current_user) token_id;
  item ← some_or found (HTTPException 404 "Token not found");
  record (ac_id current_user) "access_token_revoke" "access_token" (at_id item) "success" true.
End Tokens.

(** ** Facts *)

Section Facts.
Context `{KbEnv} `{Settings}.

(** What the table's keys keep. *)
Record tokens_ok (d : authdb) : Prop := {
  tk_keyed : keyed at_id (t_tokens d);
  tk_hashes : forall t t', t ∈ rows (t_tokens d) -> t' ∈ rows (t_tokens d) ->
    at_token_hash t = at_token_hash t' -> t = t'
}.

Lemma length_filter_le {A} (p q : A -> bool) (l : list A) :
  (forall x, p x = true -> q x = true) -> (length (List.filter p l) <= length (List.filter q l))%nat.
Proof.
  intros Hpq. induction l as [|x l IH]; cbn; [lia|].
  destruct (p x) eqn:Hp; [rewrite (Hpq x Hp); cbn; lia|]. destruct (q x); cbn; lia.
Qed.

Lemma length_filter_map {A} (g : A -> A) (p : A -> bool) (l : list A) :
  (forall x, p (g x) = true -> p x = true) ->
  (length (List.filter p (map g l)) <= length (List.filter p l))%nat.
Proof.
  intros Hg. induction l as [|x l IH]; cbn; [lia|].
  destruct (p (g x)) eqn:Hp; [rewrite (Hg x Hp); cbn; lia|]. destruct (p x); cbn; lia.
Qed.

(** The live tokens of a user *)
Definition counted (now : datetime) (u : uuid) (t : access_token) : bool :=
  Z.eqb (at_user_id t) u && live_token now t.

Lemma count_live_eq now d u :
  count_live_tokens now d u = len (List.filter (counted now u) (rows (t_tokens d))).
Proof.
  unfold count_live_tokens, list_tokens, len. f_equal.
  rewrite (Permutation_length (filter_perm _ _ _ (stable_sort_perm _ _))).
  induction (rows (t_tokens d)) as [|t l IH]; cbn; [done|].
  unfold counted at 1. destruct (Z.eqb (at_user_id t) u); cbn; [|done]. by destruct (live_token now t); cbn; rewrite IH.
Qed.

Lemma count_live_later now now' d u : now <= now' -> count_live_tokens now' d u <= count_live_tokens now d u.
Proof.
  intros Hn. rewrite !count_live_eq. unfold len. apply inj_le, length_filter_le.
  intros t. unfold counted, live_token. rewrite !andb_true_iff, !Z.ltb_lt. intros (? & ? & ?). split_and!; try done. lia.
Qed.

(** Rewriting a stored token in place so that it is live only if it was. *)
Lemma count_live_rewrite now d d' u t t' :
  tokens_ok d -> t_tokens d !! at_id t = Some t -> t_tokens d' = <[at_id t := t']> (t_tokens d) ->
  (counted now u t' = true -> counted now u t = true) ->
  count_live_tokens now d' u <= count_live_tokens now d u.
Proof.
  intros [Hk Hu] Ht Hd' Hc. rewrite !count_live_eq, Hd', (insert_as_fmap at_id) by (done || by eexists).
  unfold len. apply inj_le. rewrite (Permutation_length (filter_perm _ _ _ (rows_fmap _ _))).
  assert (Hall : forall x, x ∈ rows (t_tokens d) -> at_id x = at_id t -> x = t).
  { intros x Hx%(elem_of_rows at_id) He; [|done]. rewrite He in Hx. congruence. }
  clear -Hall Hc. induction (rows (t_tokens d)) as [|x l IH]; cbn; [done|].
  specialize (IH (fun y Hy => Hall y (list_elem_of_further y x l Hy))).
  destruct (Z.eqb_spec (at_id x) (at_id t)) as [He|].
  - rewrite (Hall x (list_elem_of_here x l) He). destruct (counted now u t') eqn:Hp; [rewrite (Hc eq_refl); cbn; lia|].
    destruct (counted now u t); cbn; lia.
  - destruct (counted now u x); cbn; lia.
Qed.

Lemma rows_insert_new (m : gmap Z access_token) t : m !! at_id t = None -> rows (<[at_id t := t]> m) ≡ₚ t :: rows m.
Proof. intros Hn. unfold rows. by rewrite map_to_list_insert. Qed.

Lemma count_live_new now d d' u t :
  t_tokens d !! at_id t = None -> t_tokens d' = <[at_id t := t]> (t_tokens d) ->
  count_live_tokens now d' u = count_live_tokens now d u + (if counted now u t then 1 else 0).
Proof.
  intros Hn Hd'. rewrite !count_live_eq, Hd'. unfold len.
  rewrite (Permutation_length (filter_perm _ _ _ (rows_insert_new _ _ Hn))). cbn.
  destruct (counted now u t); cbn; lia.
Qed.

(** ** What the operations write *)

Definition made_token (now : datetime) (id : uuid) (secret : pystr) (user : account) (name : pystr)
    (scope : string) (days : Z) : access_token :=
  mkAccessToken id (ac_id user) (strip name) (take (length TOKEN_PREFIX + 4) (new_token secret))
    (hash_token (new_token secret)) scope now (now + token_days days * 86400000000) None None.

Lemma run_create_token now id secret user name scope days s :
  let item := made_token now id secret user name scope days in
  if mem scope SCOPES && negb (token_hash_taken (working s) (hash_token (new_token secret)))
  then create_token now id secret user name scope days s
       = (Return (item, new_token secret),
          let d' := (working s) <| t_tokens := <[id := item]> (t_tokens (working s)) |> in
          Session d' d' (published s))
  else exists e, create_token now id secret user name scope days s = (Raise e, s).
Proof.
  cbn zeta. unfold create_token. destruct (mem scope SCOPES); [|by eexists].
  rewrite run_ensure, run_query by done. destruct (token_hash_taken _ _); [by eexists|]. done.
Qed.

Lemma create_effect now id secret u name scope days d o s' :
  create_access_token now id secret u name scope days (open_session d) = (o, s') ->
  (committed s' = d /\ forall x, o <> Return x)
  \/ exists item, let raw := new_token secret in
     o = Return (token_view now item, raw)
     /\ MCP_ENABLED = true /\ mem scope SCOPES = true /\ token_hash_taken d (hash_token raw) = false
     /\ count_live_tokens now d (ac_id u) < MCP_TOKENS_PER_USER
     /\ item = made_token now id secret u name scope days
     /\ committed s' = d <| t_tokens := <[id := item]> (t_tokens d) |>
          <| t_account_audits := t_account_audits d
               ++ [mkAccountAudit (ac_id u) "access_token_create" "access_token" id "success"] |>.
Proof.
  unfold create_access_token, _require_enabled.
  destruct MCP_ENABLED; [|intros [= <- <-]; by left]. rewrite run_ensure, run_query by done. cbn [working open_session].
  destruct (Z.ltb_spec (count_live_tokens now d (ac_id u)) MCP_TOKENS_PER_USER) as [Hc|];
    [rewrite run_ensure by done|intros [= <- <-]; by left].
  pose proof (run_create_token now id secret u name scope days (open_session d)) as Hrun. cbn zeta in Hrun.
  cbn [working open_session published] in Hrun.
  destruct (mem scope SCOPES) eqn:Hs, (token_hash_taken d (hash_token (new_token secret))) eqn:Ht; cbn [andb negb] in Hrun.
  2: { rewrite (run_bind _ _ _ _ _ Hrun). intros [= <- <-]. right. eexists. by split_and!. }
  all: destruct Hrun as [e Hrun]; rewrite (run_bind_raise _ _ _ _ _ Hrun); intros [= <- <-]; by left.
Qed.

Lemma revoke_effect now u tid d o s' :
  keyed at_id (t_tokens d) -> revoke_access_token now u tid (open_session d) = (o, s') ->
  (committed s' = d /\ o <> Return tt)
  \/ exists t, t_tokens d !! tid = Some t /\ at_id t = tid /\ at_user_id t = ac_id u /\ o = Return tt
     /\ t_accounts (committed s') = t_accounts d
     /\ t_tokens (committed s')
        = (if bool_decide (at_revoked_at t = None)
           then <[tid := t <| at_revoked_at := Some now |>]> (t_tokens d) else t_tokens d).
Proof.
  intros Hk. unfold revoke_access_token, _require_enabled, revoke_token.
  destruct MCP_ENABLED; [|intros [= <- <-]; by left]. rewrite run_ensure by done.
  destruct (t_tokens d !! tid) as [t|] eqn:Ht.
  2: { unfold mbind, M_bind, query. cbn [working open_session]. rewrite Ht. intros [= <- <-]. by left. }
  destruct (Z.eqb_spec (at_user_id t) (ac_id u)) as [Hu|Hu].
  2: { unfold mbind, M_bind, query. cbn [working open_session]. rewrite Ht. cbn.
       rewrite (proj2 (Z.eqb_neq _ _) Hu). intros [= <- <-]. by left. }
  pose proof (Hk _ _ Ht) as Hi. unfold mbind, M_bind, query. cbn [working open_session]. rewrite Ht. cbn.
  rewrite Hu, Z.eqb_refl. cbn. destruct (bool_decide (at_revoked_at t = None)) eqn:Hb; cbn; intros [= <- <-]; right;
    exists t; split_and!; try done; cbn; by rewrite ?Hb, ?Hi.
Qed.

Local Ltac unchanged := intros [= <- <-]; eexists; split_and!; [reflexivity|reflexivity|by left].

Lemma authenticate_effect now raw d o s' :
  tokens_ok d -> authenticate_token now raw (open_session d) = (o, s') ->
  exists p, o = Return p /\ t_accounts (committed s') = t_accounts d
    /\ (committed s' = d \/ exists t, t_tokens d !! at_id t = Some t
          /\ t_tokens (committed s') = <[at_id t := t <| at_last_used_at := Some now |>]> (t_tokens d)).
Proof.
  intros [Hk _]. unfold authenticate_token. destruct (looks_like_token raw); [|unchanged].
  rewrite run_query. cbn [working open_session].
  destruct (token_and_owner now (default [] raw) d) as [[t a]|] eqn:Hf; [|unchanged].
  destruct (ac_active a); [|unchanged].
  assert (Ht : t_tokens d !! at_id t = Some t).
  { unfold token_and_owner in Hf. destruct (omap _ (rows (t_tokens d))) as [|x l] eqn:Ho; [done|].
    cbn in Hf. simplify_eq. assert (Hin : (t, a) ∈ (t, a) :: l) by (by left). rewrite <- Ho in Hin.
    apply list_elem_of_omap in Hin as (x & Hx & Hin). case_match; [|done].
    destruct (t_accounts d !! at_user_id x); cbn in Hin; simplify_eq. by apply (elem_of_rows at_id). }
  destruct (use_is_stale now t); intros [= <- <-]; eexists; split_and!; try done; [right; by exists t|by left].
Qed.

(** ** The life of the table *)

(** Time passes, the routes run one request at a time, the lookup of a presented token writes
    its last use, and anything else leaves the tokens alone. *)
Inductive token_step : datetime * authdb -> datetime * authdb -> Prop :=
  | tk_time now now' d : now <= now' -> token_step (now, d) (now', d)
  | tk_create now d id secret u name scope days o s' : t_tokens d !! id = None ->
      create_access_token now id secret u name scope days (open_session d) = (o, s') ->
      token_step (now, d) (now, committed s')
  | tk_revoke now d u tid o s' : revoke_access_token now u tid (open_session d) = (o, s') ->
      token_step (now, d) (now, committed s')
  | tk_authenticate now d raw o s' : authenticate_token now raw (open_session d) = (o, s') ->
      token_step (now, d) (now, committed s')
  | tk_other now d d' : t_tokens d' = t_tokens d -> token_step (now, d) (now, d').

(** A step adds one token, or rewrites one without reviving it, or leaves them alone. *)
Inductive token_change (now : datetime) (d d' : authdb) : Prop :=
  | same_tokens : t_tokens d' = t_tokens d -> token_change now d d'
  | new_token_row id secret u name scope days : t_tokens d !! id = None ->
      mem scope SCOPES = true -> token_hash_taken d (hash_token (new_token secret)) = false ->
      count_live_tokens now d (ac_id u) < MCP_TOKENS_PER_USER ->
      t_tokens d' = <[id := made_token now id secret u name scope days]> (t_tokens d) -> token_change now d d'
  | marked_token t t' : t_tokens d !! at_id t = Some t ->
      (t' = t <| at_revoked_at := Some now |> \/ t' = t <| at_last_used_at := Some now |>) ->
      t_tokens d' = <[at_id t := t']> (t_tokens d) -> token_change now d d'.

Lemma step_change now now' d d' : tokens_ok d -> token_step (now, d) (now', d') ->
  now <= now' /\ token_change now d d'.
Proof.
  intros Hok Hs. remember (now, d) as x eqn:Hx. remember (now', d') as y eqn:Hy.
  destruct Hs as [n n' d0 Hn|n d0 id secret u name scope days o s' Hid Hc|n d0 u tid o s' Hr|n d0 raw o s' Ha|n d0 d1 Hd];
    simplify_eq; (split; [lia|]).
  - by constructor.
  - destruct (create_effect _ _ _ _ _ _ _ _ _ _ Hc) as [[-> _]|(item & _ & _ & Hsc & Hh & Hcnt & -> & ->)].
    + by constructor.
    + by eapply new_token_row.
  - destruct (revoke_effect _ _ _ _ _ _ (tk_keyed _ Hok) Hr) as [[-> _]|(t & Ht & Hi & _ & _ & _ & Htk)].
    + by constructor.
    + case_bool_decide; [|by constructor]. eapply marked_token; [by rewrite Hi|by left|by rewrite Hi].
  - destruct (authenticate_effect _ _ _ _ _ Hok Ha) as (p & _ & _ & [->|(t & Ht & Htk)]).
    + by constructor.
    + eapply marked_token; [done|by right|done].
  - by constructor.
Qed.

Lemma change_tokens_ok now d d' : tokens_ok d -> token_change now d d' -> tokens_ok d'.
Proof.
  intros [Hk Hu] Hc.
  assert (Huniq : keyed at_id (t_tokens d') -> (forall i j t t', t_tokens d' !! i = Some t -> t_tokens d' !! j = Some t' ->
    at_token_hash t = at_token_hash t' -> i = j) -> tokens_ok d').
  { intros Hk' Hinj. constructor; [done|]. intros t t' Ht%(elem_of_rows at_id) Ht'%(elem_of_rows at_id) He; [|done..].
    specialize (Hinj _ _ _ _ Ht Ht' He). rewrite Hinj in Ht. congruence. }
  assert (Hold : forall i j t t', t_tokens d !! i = Some t -> t_tokens d !! j = Some t' -> at_token_hash t = at_token_hash t' -> i = j).
  { intros i j t t' Ht Ht' He. rewrite <- (Hk _ _ Ht), <- (Hk _ _ Ht'). f_equal.
    apply Hu; [apply (elem_of_rows at_id); [done|by rewrite (Hk _ _ Ht)]
              |apply (elem_of_rows at_id); [done|by rewrite (Hk _ _ Ht')]|done]. }
  destruct Hc as [Heq|id secret u name scope days Hid _ Hfree _ Heq|t t' Ht Hm Heq].
  - apply Huniq; rewrite Heq; done.
  - assert (Hnew : forall i t, t_tokens d !! i = Some t -> at_token_hash t <> hash_token (new_token secret)).
    { unfold token_hash_taken in Hfree. rewrite existsb_false in Hfree. intros i t Ht He.
      assert (Hin : t ∈ rows (t_tokens d)) by (apply (elem_of_rows at_id); [done|by rewrite (Hk _ _ Ht)]).
      specialize (Hfree t Hin). by rewrite bool_decide_true in Hfree. }
    apply Huniq; rewrite Heq.
    + intros i x [[<- <-]|[_ Hx]]%lookup_insert_Some; [done|by apply Hk].
    + intros i j x y [[<- <-]|[_ Hx]]%lookup_insert_Some [[<- <-]|[_ Hy]]%lookup_insert_Some He; try done.
      * by destruct (Hnew _ _ Hy).
      * by destruct (Hnew _ _ Hx).
      * by eapply Hold.
  - assert (Hsame : at_id t' = at_id t /\ at_token_hash t' = at_token_hash t) by (by destruct Hm as [-> | ->]).
    destruct Hsame as [Hid Hh]. apply Huniq; rewrite Heq.
    + intros i x [[<- <-]|[_ Hx]]%lookup_insert_Some; [done|by apply Hk].
    + intros i j x y [[<- <-]|[_ Hx]]%lookup_insert_Some [[<- <-]|[_ Hy]]%lookup_insert_Some He; try done.
      * rewrite Hh in He. by eapply Hold.
      * rewrite Hh in He. by eapply Hold.
      * by eapply Hold.
Qed.

Lemma reachable_tokens_ok x y : rtc token_step x y -> tokens_ok x.2 -> tokens_ok y.2.
Proof.
  induction 1 as [|[n d] [n' d'] z Hs _ IH]; [done|]. intros Hok. apply IH.
  destruct (step_change n n' d d' Hok Hs) as [_ Hc]. by eapply change_tokens_ok.
Qed.

(** A token well made *)
Definition token_wf (t : access_token) : Prop :=
  mem (at_scope t) SCOPES = true
  /\ at_created_at t + 86400000000 <= at_expires_at t
       <= at_created_at t + Z.max 1 MCP_TOKEN_MAX_DAYS * 86400000000.

Record token_table_ok (now : datetime) (d : authdb) : Prop := {
  tt_ok : tokens_ok d;
  tt_wf : forall i t, t_tokens d !! i = Some t -> token_wf t;
  tt_capped : forall u, count_live_tokens now d u <= Z.max 0 MCP_TOKENS_PER_USER
}.

Lemma step_table_ok now now' d d' :
  token_step (now, d) (now', d') -> token_table_ok now d -> token_table_ok now' d'.
Proof.
  intros Hs [Hok Hwf Hcap]. destruct (step_change _ _ _ _ Hok Hs) as [Hn Hc].
  assert (Hok' : tokens_ok d') by by eapply change_tokens_ok.
  assert (Hlater : forall u, count_live_tokens now' d' u <= count_live_tokens now d' u) by (intros; by apply count_live_later).
  destruct Hc as [Heq|id secret u name scope days Hid Hsc _ Hcnt Heq|t t' Ht Hm Heq]; constructor; try done.
  - intros i t. rewrite Heq. apply Hwf.
  - intros v. specialize (Hlater v). rewrite (count_live_eq now d'), Heq, <- count_live_eq in Hlater.
    specialize (Hcap v). lia.
  - intros i t. rewrite Heq. intros [[<- <-]|[_ Ht]]%lookup_insert_Some; [|by eapply Hwf].
    split; [done|]. cbn. unfold token_days. lia.
  - intros v. specialize (Hlater v). specialize (Hcap v).
    rewrite (count_live_new now d d' v (made_token now id secret u name scope days)) in Hlater by done.
    destruct (counted now v _) eqn:Hv; [|lia]. unfold counted in Hv. bools. eqs. cbn in *. subst v. lia.
  - intros i x. rewrite Heq. intros [[<- <-]|[_ Hx]]%lookup_insert_Some; [|by eapply Hwf].
    specialize (Hwf _ _ Ht). by destruct Hm as [-> | ->].
  - intros v. specialize (Hlater v). specialize (Hcap v).
    assert (count_live_tokens now d' v <= count_live_tokens now d v); [|lia].
    apply (count_live_rewrite now d d' v t t'); try done. unfold counted, live_token.
    destruct Hm as [-> | ->]; cbn; [by rewrite andb_false_r|done].
Qed.
End Facts.

Section Theorems.
Context `{KbEnv} `{Settings}.

(** C39. What a presented token stands for. The lookup never fails; it answers with a principal
    exactly when the value has the form of a token and is the live token of an active account,
    and the principal is that account with the token's scope. *)
Theorem token_authenticates (now : datetime) (raw : option pystr) (d : authdb) (p : token_principal)
    (Hok : tokens_ok d) (Haccounts : keyed ac_id (t_accounts d)) :
  (exists o, (authenticate_token now raw (open_session d)).1 = Return o)
  /\ ((authenticate_token now raw (open_session d)).1 = Return (Some p) <->
      looks_like_token raw = true
      /\ exists i t a, t_tokens d !! i = Some t /\ at_token_hash t = hash_token (default [] raw)
           /\ at_revoked_at t = None /\ now < at_expires_at t
           /\ t_accounts d !! at_user_id t = Some a /\ ac_active a = true /\ p = principal_of t a).
Proof.
  destruct Hok as [Hk Hu]. unfold authenticate_token.
  destruct (looks_like_token raw); [|split; [by eexists|naive_solver]].
  rewrite run_query. cbn [working open_session]. unfold token_and_owner.
  set (sel := fun t : access_token => _).
  assert (Hsel : forall x t a, sel x = Some (t, a) <-> x = t /\ at_token_hash t = hash_token (default [] raw)
    /\ at_revoked_at t = None /\ now < at_expires_at t /\ t_accounts d !! at_user_id t = Some a).
  { intros x t a. split.
    - intros Hs. unfold sel in Hs. case_match eqn:Hb; [|done]. unfold live_token in Hb. bools.
      destruct (t_accounts d !! at_user_id x) eqn:Ha; cbn in Hs; simplify_eq. split_and!; try done. by apply Z.ltb_lt.
    - intros (-> & Hh & Hr & He & Ha). unfold sel, live_token.
      by rewrite !bool_decide_true, (proj2 (Z.ltb_lt _ _) He), Ha by done. }
  destruct (omap sel (rows (t_tokens d))) as [|[t a] l] eqn:Ho; cbn.
  - split; [by eexists|]. split; [done|]. intros (_ & i & t & a & Ht & Hh & Hr & He & Ha & _).
    assert (Hin : (t, a) ∈ omap sel (rows (t_tokens d))).
    { apply list_elem_of_omap. exists t. split; [|by apply Hsel].
      apply (elem_of_rows at_id); [done|]. by rewrite (Hk _ _ Ht). }
    rewrite Ho in Hin. by apply elem_of_nil in Hin.
  - assert (Hin : (t, a) ∈ omap sel (rows (t_tokens d))) by (rewrite Ho; by left).
    apply list_elem_of_omap in Hin as (x & Hx & Hin). apply Hsel in Hin as (-> & Hh & Hr & He & Ha).
    assert (Hone : forall i t' a', t_tokens d !! i = Some t' -> at_token_hash t' = hash_token (default [] raw) ->
      t_accounts d !! at_user_id t' = Some a' -> t' = t /\ a' = a).
    { intros i t' a' Ht' Hh' Ha'. assert (t' = t) as ->; [|split; congruence].
      apply Hu; [apply (elem_of_rows at_id); [done|by rewrite (Hk _ _ Ht')]|done|congruence]. }
    apply (elem_of_rows at_id) in Hx; [|done].
    destruct (ac_active a) eqn:Hact.
    + assert (Hret : forall s, (((if use_is_stale now t then put_token (t <| at_last_used_at := Some now |>) ;; commit else mret tt) ;;
        mret (Some (principal_of t a))) s).1 = Return (Some (principal_of t a))) by (intros s; by destruct (use_is_stale now t)).
      rewrite Hret. split; [by eexists|]. split.
      * intros [= <-]. split; [done|]. exists (at_id t), t, a. by split_and!.
      * intros (_ & i & t' & a' & Ht' & Hh' & _ & _ & Ha' & _ & ->). by destruct (Hone _ _ _ Ht' Hh' Ha') as [-> ->].
    + split; [by eexists|]. split; [done|]. intros (_ & i & t' & a' & Ht' & Hh' & _ & _ & Ha' & Hact' & _).
      destruct (Hone _ _ _ Ht' Hh' Ha') as [-> ->]. congruence.
Qed.

(** C40. The table stays well formed. Whatever sequence of requests a table without tokens goes
    through, every token has a known scope and a lifetime between one day and the configured
    maximum, and no user ever holds more live tokens than the configured number. *)
Theorem token_table_well_formed (now now' : datetime) (d d' : authdb) (Hempty : t_tokens d = ∅)
    (Hreach : rtc token_step (now, d) (now', d')) :
  (forall i t, t_tokens d' !! i = Some t -> token_wf t)
  /\ (forall u, count_live_tokens now' d' u <= Z.max 0 MCP_TOKENS_PER_USER).
Proof.
  assert (Hstart : token_table_ok now d).
  { constructor; [constructor|..]; rewrite ?Hempty.
    - by intros i t.
    - intros t t' Ht. unfold rows in Ht. rewrite map_to_list_empty in Ht. by apply elem_of_nil in Ht.
    - by intros i t.
    - intros u. rewrite count_live_eq, Hempty. unfold rows. rewrite map_to_list_empty. apply Z.le_max_l. }
  assert (Hgen : forall x y, rtc token_step x y -> token_table_ok x.1 x.2 -> token_table_ok y.1 y.2).
  { induction 1 as [|[n e] [n' e'] z Hs _ IH]; [done|]. intros Hx. apply IH. by eapply step_table_ok. }
  destruct (Hgen _ _ Hreach Hstart) as [_ Hwf Hcap]. by split.
Qed.

(** Revocation is for ever. Once its owner has revoked a token, its raw value stands for
    nobody in any later state, whatever requests come in between. *)
Theorem revoked_token_stays_dead (now now' : datetime) (u : account) (tid : uuid) (raw : pystr)
    (t : access_token) (d d' : authdb) (s' : session authdb Empty_set) (Hok : tokens_ok d)
    (Hrevoke : revoke_access_token now u tid (open_session d) = (Return tt, s'))
    (Ht : t_tokens d !! tid = Some t) (Hraw : at_token_hash t = hash_token raw)
    (Hreach : rtc token_step (now, committed s') (now', d')) :
  at_user_id t = ac_id u /\ (authenticate_token now' (Some raw) (open_session d')).1 = Return None.
Proof.
  set (dead := fun e : authdb => exists t', t_tokens e !! tid = Some t' /\ at_token_hash t' = hash_token raw
                                            /\ at_revoked_at t' <> None).
  destruct (revoke_effect _ _ _ _ _ _ (tk_keyed _ Hok) Hrevoke) as [[_ Hno]|(t0 & Ht0 & Hid & Hown & _ & _ & Htk)]; [done|].
  assert (t0 = t) as -> by congruence. split; [done|].
  assert (Hdead : dead (committed s')).
  { unfold dead. rewrite Htk. case_bool_decide as Hb.
    - rewrite lookup_insert_eq. by eexists.
    - exists t. by split_and!. }
  assert (Hok' : tokens_ok (committed s')).
  { apply (reachable_tokens_ok (now, d) (now, committed s')); [|done]. eapply rtc_once, tk_revoke, Hrevoke. }
  assert (Hgen : forall x y, rtc token_step x y -> tokens_ok x.2 -> dead x.2 -> tokens_ok y.2 /\ dead y.2).
  { induction 1 as [|[n e] [n' e'] z Hs _ IH]; [done|]. intros Hx (t' & Ht' & Hh & Hr).
    destruct (step_change _ _ _ _ Hx Hs) as [_ Hc]. apply IH; [by eapply change_tokens_ok|]. unfold dead. cbn.
    destruct Hc as [->|id secret v name scope days Hid' _ _ _ ->|x x' Hx' Hm ->].
    - by exists t'.
    - exists t'. rewrite lookup_insert_ne; [done|congruence].
    - destruct (decide (at_id x = tid)) as [<-|Hne]; [|exists t'; by rewrite lookup_insert_ne].
        assert (x = t') as -> by congruence. exists x'. rewrite lookup_insert_eq. by destruct Hm as [-> | ->]. }
  destruct (Hgen _ _ Hreach Hok' Hdead) as [[Hk Hu] (t' & Ht' & Hh & Hr)]. cbn in *.
  destruct (authenticate_token now' (Some raw) (open_session d')) as [[[p|]|e] s''] eqn:Ha; [exfalso|done|exfalso].
  - unfold authenticate_token in Ha. destruct (looks_like_token (Some raw)); [|done].
    rewrite run_query in Ha. cbn [working open_session] in Ha. change (default [] (Some raw)) with raw in Ha.
    destruct (token_and_owner now' raw d') as [[x a]|] eqn:Hf; [|done].
    unfold token_and_owner in Hf. destruct (omap _ (rows (t_tokens d'))) as [|y l] eqn:Ho; [done|]. cbn in Hf. simplify_eq.
    assert (Hin : (x, a) ∈ (x, a) :: l) by (by left). rewrite <- Ho in Hin.
    apply list_elem_of_omap in Hin as (y & Hy & Hin). case_match eqn:Hl; [|done]. unfold live_token in Hl. bools.
    assert (y = t') as ->.
    { apply Hu; [done|apply (elem_of_rows at_id); [done|by rewrite (Hk _ _ Ht')]|congruence]. }
    done.
  - destruct (authenticate_effect _ _ _ _ _ (Build_tokens_ok _ Hk Hu) Ha) as (p & Hp & _). done.
Qed.
End Theorems.

(** ** A concrete table *)

#[local] Existing Instance demo_env.
#[local] Existing Instance demo_settings.

Definition no_token : authdb := mkAuthDb {[1 := ann]} [] [] [] ∅ ∅ ∅ ∅ [] [] [].
Definition ann_raw : pystr := new_token ($"secret").
Definition creating : outcome (token_row * pystr) * session authdb Empty_set :=
  create_access_token 0 50 ($"secret") ann ($" laptop ") "write" 30 (open_session no_token).
Definition one_token : authdb := committed creating.2.
Definition ann_item : access_token := made_token 0 50 ($"secret") ann ($" laptop ") "write" 30.

Lemma one_token_rows : t_tokens one_token = {[50 := ann_item]} /\ t_accounts one_token = {[1 := ann]}.
Proof. vm_compute. split; reflexivity. Qed.

Lemma one_token_ok : tokens_ok one_token.
Proof.
  destruct one_token_rows as [Ht _]. constructor; rewrite Ht.
  - by intros i t [<- <-]%lookup_singleton_Some.
  - intros t t' Hx Hy _. unfold rows in Hx, Hy. rewrite map_to_list_singleton in Hx, Hy.
    apply list_elem_of_singleton in Hx, Hy. congruence.
Qed.

Lemma token_authenticates_witness :
  (authenticate_token 60 (Some ann_raw) (open_session one_token)).1
  = Return (Some (mkPrincipal 50 1 ($"ann@kb.example") 3 "write")).
Proof.
  destruct one_token_rows as [Ht Ha].
  refine (proj2 (proj2 (token_authenticates 60 (Some ann_raw) one_token _ one_token_ok _)) _).
  - rewrite Ha. by intros i a [<- <-]%lookup_singleton_Some.
  - split; [vm_compute; reflexivity|]. exists 50, ann_item, ann. rewrite Ht, Ha.
    split; [apply lookup_singleton_eq|]. split; [vm_compute; reflexivity|]. split; [reflexivity|].
    split; [vm_compute; reflexivity|]. split; [apply lookup_singleton_eq|]. split; reflexivity.
Defined.

Lemma creating_step : token_step (0, no_token) (0, one_token).
Proof.
  apply (tk_create 0 no_token 50 ($"secret") ann ($" laptop ") "write" 30 creating.1 creating.2); [reflexivity|].
  apply surjective_pairing.
Qed.

Lemma token_table_well_formed_witness : token_wf ann_item /\ count_live_tokens 60 one_token 1 <= 2.
Proof.
  destruct (token_table_well_formed 0 60 no_token one_token eq_refl) as [Hwf Hcap].
  - eapply rtc_l; [exact creating_step|]. apply rtc_once, tk_time. lia.
  - split; [|exact (Hcap 1)]. apply (Hwf 50). rewrite (proj1 one_token_rows). apply lookup_singleton_eq.
Defined.

Definition revoking : outcome unit * session authdb Empty_set :=
  revoke_access_token 60 ann 50 (open_session one_token).

Lemma revoking_returns : exists s', revoking = (Return tt, s').
Proof. vm_compute. eexists. reflexivity. Qed.

Lemma revoked_token_stays_dead_witness :
  exists s', revoking = (Return tt, s')
    /\ (authenticate_token 120 (Some ann_raw) (open_session (committed s'))).1 = Return None.
Proof.
  destruct revoking_returns as [s' Hs]. exists s'. split; [exact Hs|].
  refine (proj2 (revoked_token_stays_dead 60 120 ann 50 ann_raw ann_item one_token (committed s') s'
    one_token_ok Hs _ eq_refl _)).
  - rewrite (proj1 one_token_rows). apply lookup_singleton_eq.
  - apply rtc_once, tk_time. lia.
Defined.
