(* ===== verification/UserAdmin.v ===== *)
(** * User administration (src/api/routers/auth.py)

    What a holder of [user.manage] does to other accounts: updating one, replacing its roles,
    deactivating it and naming a company's CEO, with the checks of departments, ownership and
    authority they share. The caller is the account [require_permission] returned. *)

From S2P Require Import Prelude PyText Models Rbac Store Identity Sessions Credentials.
From Stdlib Require String Ascii.
#[local] Open Scope string_scope.
#[local] Open Scope list_scope.
#[local] Open Scope Z_scope.

Section Admin.
Context `{KbEnv} `{AuthEnv} `{Settings}.

(** ** Shared checks *)

Definition MANAGED_PRIMARY_ROLES : list string := ["Admin"; "CEO"; "Reviewer"; "Staff"].
Definition LEGACY_DEPARTMENT_OWNER_ROLE : string := "Department Owner".

(** [str.casefold] of a name, as far as it may equal an ASCII word *)
Fixpoint casefold (s : string) : string :=
  match s with
  | String.EmptyString => String.EmptyString
  | String.String c s' =>
      let n := Ascii.nat_of_ascii c in
      String.String (if ((65 <=? n) && (n <=? 90))%nat then Ascii.ascii_of_nat (n + 32) else c) (casefold s')
  end.

(** [email.rsplit("@", 1)[-1]] *)
Fixpoint after_last_at (s : pystr) : pystr :=
  match s with
  | [] => []
  | c :: s' => if has_at s' then after_last_at s' else if Z.eqb c 64 then s' else s
  end.
(** A domain name, as the text of an address and as a tenant key *)
Definition domain_key (s : pystr) : string :=
  String.string_of_list_ascii (map (fun c => Ascii.ascii_of_N (Z.to_N c)) s).
Definition email_domain (email : pystr) : string := domain_key (after_last_at email).

Definition _is_global_user_manager (u : user) : bool := has_permission u "user.manage" None "global".

(** [repo.get_by_id(user_id, viewer=current_user)] *)
Definition get_managed (viewer : user) (d : authdb) (id : uuid) : option account :=
  a ← get_account d id; if _identity_scope (Some viewer) (loaded d a) then Some a else None.

Definition resolve_active_department (company : string) (name : option pystr) : AUTH (option department) :=
  match normalize_department_name name with
  | None => mret None
  | Some canonical =>
      row ← query (fun d => List.find (fun x => String.eqb (dp_company_domain x) company && dp_active x
                              && bool_decide (sql_lower (dp_name x) = py_lower canonical)) (t_depts d));
      x ← some_or row (HTTPException 422 "Department does not exist or is inactive");
      mret (Some x)
  end.

(** The active departments of the company among the ids *)
Definition departments_in (d : authdb) (company : string) (ids : list uuid) : list department :=
  List.filter (fun x => bool_decide (dp_id x ∈ ids) && String.eqb (dp_company_domain x) company && dp_active x)
    (t_depts d).

Definition _resolve_owned_departments (company : string) (ids : option (list uuid)) : AUTH (list department) :=
  match ids with
  | None | Some [] => mret []
  | Some ids =>
      let unique_ids := dedup ids in
      departments ← query (fun d => departments_in d company unique_ids);
      ensure (Z.eqb (len departments) (len unique_ids))
        (HTTPException 422 "Every owned department must be active and belong to the user's company") ;;
      mret departments
  end.

Definition _resolve_membership_departments (company : string) (ids : option (list uuid))
    (primary_name : option pystr) : AUTH (list department) :=
  match ids with
  | None =>
      department ← resolve_active_department company primary_name;
      mret (match department with Some x => [x] | None => [] end)
  | Some ids =>
      match dedup ids with
      | [] => mret []
      | unique_ids =>
          departments ← query (fun d => departments_in d company unique_ids);
          ensure (Z.eqb (len departments) (len unique_ids))
            (HTTPException 422 "Every department membership must be active and belong to the user's company") ;;
          mret (omap (fun i => List.find (fun x => Z.eqb (dp_id x) i) departments) unique_ids)
      end
  end.

(** Another active user actively owns one of the departments. *)
Definition owned_by_another (d : authdb) (user_id : uuid) (departments : list department) : bool :=
  existsb (fun a => negb (Z.eqb (ac_id a) user_id) && ac_active a
      && existsb (fun o => o.2 && existsb (fun x => Z.eqb (dp_id x) o.1) departments) (ac_ownerships a))
    (rows (t_accounts d)).

Definition _ensure_departments_have_single_owner (user_id : uuid) (departments : list department) : AUTH unit :=
  conflict ← query (fun d => owned_by_another d user_id departments);
  ensure (negb conflict) (HTTPException 409 "Department already has an owner").

Definition is_member (memberships : list department) (x : department) : bool :=
  existsb (fun m => Z.eqb (dp_id m) (dp_id x)) memberships.

Definition _ensure_owned_departments_are_memberships (memberships owned : list department) : AUTH unit :=
  ensure (forallb (is_member memberships) owned)
    (HTTPException 422 "A user must be a member of every department they own").

Definition _apply_department_ownership (departments : list department) (a : account) : account :=
  let desired i := existsb (fun x => Z.eqb (dp_id x) i) departments in
  let kept := map (fun o => (o.1, desired o.1)) (ac_ownerships a) in
  let added := List.filter (fun x => negb (existsb (fun o => Z.eqb o.1 (dp_id x)) (ac_ownerships a))) departments in
  a <| ac_ownerships := kept ++ map (fun x => (dp_id x, true)) added |>.

(** The active departments the account actively owns *)
Definition actively_owned (d : authdb) (a : account) : list department :=
  omap (fun o => x ← department_by_id d o.1; if o.2 && dp_active x then Some x else None) (ac_ownerships a).

Definition _system_role (name : string) (company : option string) : AUTH role :=
  found ← query (fun d => List.find (same_role name company) (t_roles d));
  some_or found (HTTPException 422 "The requested system role is unavailable").

Definition _set_primary_role (name : string) (a : account) : AUTH account :=
  r ← _system_role name (Some (ac_company_domain a));
  mret (a <| ac_role_ids := [r_id r] |> <| ac_role := name |>).

Definition is_executive (r : role) : bool := bool_decide (r_company_domain r = None) || mem (r_name r) ["Admin"; "CEO"].

(** Some permission of the role is broader than the caller's own. *)
Definition exceeds (effective : list (string * string)) (r : role) : bool :=
  existsb (fun g => match rp_permission g with
                    | Some p => rank (default "" (assoc (p_key p) effective)) <? rank (rp_scope g)
                    | None => false end) (r_permissions r).

Definition _validate_role_assignment_authority (current_user : user) (roles : list role) : AUTH unit :=
  ensure (negb (existsb (fun r => String.eqb (casefold (r_name r)) (casefold LEGACY_DEPARTMENT_OWNER_ROLE)) roles))
    (HTTPException 422 "Department ownership is managed separately from roles") ;;
  if _is_global_user_manager current_user then mret tt
  else
    ensure (negb (existsb is_executive roles))
      (HTTPException 403 "Only global user managers can assign global or executive roles") ;;
    ensure (negb (existsb (exceeds (get_effective_permissions current_user)) roles))
      (HTTPException 403 "You cannot assign a role with permissions broader than your own").

(** The roles of the ids that the tenant may use. *)
Definition assignable_roles (d : authdb) (company : string) (ids : list uuid) : list role :=
  List.filter (fun r => bool_decide (r_id r ∈ ids)
                        && (bool_decide (r_company_domain r = Some company) || bool_decide (r_company_domain r = None)))
    (t_roles d).

Definition foreign_role (company : string) (r : role) : bool :=
  match r_company_domain r with None => false | Some c => negb (String.eqb c company) end.
Definition global_admin_role (r : role) : bool :=
  String.eqb (r_name r) "Admin" && bool_decide (r_company_domain r = None).

Definition display_role (roles : list role) : string :=
  match List.find (fun r => mem (r_name r) MANAGED_PRIMARY_ROLES) roles with
  | Some r => r_name r
  | None => match roles with r :: _ => r_name r | [] => "" end
  end.
Definition with_roles (roles : list role) (a : account) : account :=
  a <| ac_role_ids := map r_id roles |> <| ac_role := display_role roles |>.

(** [repo.update]: the address is unique. *)
Definition save_account (a : account) : AUTH account :=
  taken ← query (fun d => existsb (fun b => bool_decide (ac_email b = ac_email a) && negb (Z.eqb (ac_id b) (ac_id a)))
                            (rows (t_accounts d)));
  ensure (negb taken) (IntegrityError "users_email") ;;
  put_account a ;;
  commit ;;
  mret a.

(** Deactivation takes the user off the drafts they were to review. *)
Definition unassign (user_id : uuid) (x : assigned_draft) : assigned_draft :=
  if bool_decide (ad_assigned_approver_id x = Some user_id) && String.eqb (ad_status x) "pending"
  then mkAssigned (ad_draft_id x) (ad_status x) None else x.
Definition release_drafts (user_id : uuid) : AUTH unit :=
  write (fun d => d <| t_assigned := map (unassign user_id) (t_assigned d) |>).

Definition own_company (current_user : user) (a : account) : AUTH unit :=
  ensure (_is_global_user_manager current_user || String.eqb (ac_company_domain a) (u_company_domain current_user))
    (HTTPException 403 "Users must belong to your company").

Definition ensure_owns_nothing (a : account) : AUTH unit :=
  owned ← query (fun d => actively_owned d a);
  ensure (match owned with [] => true | _ => false end)
    (HTTPException 409 "Reassign every organisational audience owned by this user before deactivation").

(** ** PATCH /users/{id} *)

(** [ManagedUserUpdate]; [up_dept] is [Some _] when the request sets the field. *)
Record user_update := mkUpdate {
  up_name : option pystr;
  up_dept : option (option pystr);
  up_department_ids : option (list uuid);
  up_role : option string;
  up_password : option pystr;
  up_email : option pystr;
  up_active : option bool;
  up_role_ids : option (list uuid);
  up_owned_department_ids : option (list uuid)
}.

Definition not_found : exn := HTTPException 404 "User not found".

Definition primary_of (memberships : list department) (primary : option department) : option pystr :=
  match primary with Some x => Some (dp_name x) | None => dp_name <$> head memberships end.

(** The membership part of an update: the row, and the memberships when they changed. *)
Definition update_memberships (up : user_update) (a : account) : AUTH (account * option (list department)) :=
  match up_dept up with
  | Some dept =>
      memberships ← _resolve_membership_departments (ac_company_domain a) (up_department_ids up) dept;
      primary ← (if otruthy dept then resolve_active_department (ac_company_domain a) dept else mret None);
      ensure (match primary, memberships with
              | Some x, _ :: _ => is_member memberships x
              | _, _ => true end)
        (HTTPException 422 "The primary department must be one of the selected memberships") ;;
      mret (a <| ac_department_ids := map dp_id memberships |> <| ac_dept := primary_of memberships primary |>,
            Some memberships)
  | None =>
      match up_department_ids up with
      | Some ids =>
          memberships ← _resolve_membership_departments (ac_company_domain a) (Some ids) (ac_dept a);
          let dept := if existsb (fun x => bool_decide (ac_dept a = Some (dp_name x))) memberships
                      then ac_dept a else primary_of memberships None in
          mret (a <| ac_department_ids := map dp_id memberships |> <| ac_dept := dept |>, Some memberships)
      | None => mret (a, None)
      end
  end.

Definition update_roles (caller : user) (up : user_update) (a : account) : AUTH account :=
  a ← match up_role up with
      | None => mret a
      | Some role =>
          ensure (mem role MANAGED_PRIMARY_ROLES) (HTTPException 422 "Invalid role") ;;
          ensure (_is_global_user_manager caller || negb (mem role ["Admin"; "CEO"]))
            (HTTPException 403 "Company managers cannot assign global roles") ;;
          match up_role_ids up with None => _set_primary_role role a | Some _ => mret a end
      end;
  match up_role_ids up with
  | None => mret a
  | Some ids =>
      roles ← query (fun d => assignable_roles d (ac_company_domain a) ids);
      ensure (negb (existsb (foreign_role (ac_company_domain a)) roles))
        (HTTPException 403 "A user can only receive roles from their company") ;;
      ensure (forallb r_active roles) (HTTPException 422 "Inactive roles cannot be assigned") ;;
      ensure (match roles with [] => false | _ => true end) (HTTPException 422 "At least one role is required") ;;
      _validate_role_assignment_authority caller roles ;;
      ensure (negb (Z.eqb (ac_id a) (u_id caller) && _is_global_user_manager caller
                    && negb (existsb global_admin_role roles)))
        (HTTPException 400 "You cannot remove your own global Admin role") ;;
      mret (with_roles roles a)
  end.

Definition update_ownership (up : user_update) (changed : option (list department)) (a : account) : AUTH account :=
  owned ← match up_owned_department_ids up with
          | Some ids => _resolve_owned_departments (ac_company_domain a) (Some ids)
          | None => query (fun d => actively_owned d a)
          end;
  kept ← match changed with
         | None => mret (a, owned)
         | Some memberships =>
             match up_owned_department_ids up with
             | Some _ => _ensure_owned_departments_are_memberships memberships owned ;; mret (a, owned)
             | None =>
                 let retained := List.filter (is_member memberships) owned in
                 mret (if Z.eqb (len retained) (len owned) then a else _apply_department_ownership retained a,
                       retained)
             end
         end;
  let '(a, owned) := kept in
  _ensure_departments_have_single_owner (ac_id a) owned ;;
  mret (match up_owned_department_ids up with Some _ => _apply_department_ownership owned a | None => a end).

Definition update_email (caller : user) (up : user_update) (a : account) : AUTH account :=
  match up_email up with
  | None => mret a
  | Some email =>
      let new_email := py_lower email in
      ensure (_is_global_user_manager caller || String.eqb (email_domain new_email) (u_company_domain caller))
        (HTTPException 403 "Employee email must remain in the company domain") ;;
      ensure (String.eqb (email_domain new_email) (ac_company_domain a))
        (HTTPException 422 "Changing a user's company domain is not supported; create a new account instead") ;;
      ensure (negb (reset_operator new_email) || reset_operator (ac_email a))
        (HTTPException 403 "This address is reserved for database-reset operations and cannot be assigned here") ;;
      mret (a <| ac_email := py_lower (strip new_email) |> <| ac_company_domain := email_domain new_email |>)
  end.

Definition update_active (caller : user) (up : user_update) (a : account) : AUTH account :=
  match up_active up with
  | None => mret a
  | Some true => mret (a <| ac_active := true |>)
  | Some false =>
      ensure (negb (Z.eqb (ac_id a) (u_id caller)))
        (HTTPException 400 "You cannot deactivate your own account") ;;
      ensure_owns_nothing a ;;
      release_drafts (ac_id a) ;;
      mret (a <| ac_active := false |>)
  end.

Definition update_managed_user (now : datetime) (salt : pystr) (user_id : uuid) (up : user_update)
    (current_user : account) : AUTH account :=
  caller ← query (fun d => loaded d current_user);
  found ← query (fun d => get_managed caller d user_id);
  a ← some_or found not_found;
  own_company caller a ;;
  ensure (negb (Z.eqb (ac_id a) (u_id caller)
                && match up_role up with Some role => negb (String.eqb role "Admin") | None => false end))
    (HTTPException 400 "You cannot remove your own Admin role") ;;
  let a := match up_name up with Some name => a <| ac_name := name |> | None => a end in
  changed ← update_memberships up a;
  let '(a, memberships) := changed in
  a ← update_roles caller up a;
  a ← update_ownership up memberships a;
  a ← update_email caller up a;
  a ← update_active caller up a;
  a ← match up_password up with
      | Some password => hash ← get_password_hash salt password; mret (with_password hash a)
      | None => mret a
      end;
  (if match up_password up with Some _ => true | None => false end || bool_decide (up_active up = Some false)
   then _revoke_refresh_sessions now (ac_id a) else mret tt) ;;
  updated ← save_account a;
  record (ac_id current_user) "user_update" "user" (ac_id a) "success" true ;;
  mret updated.

(** ** DELETE /users/{id} *)

Definition is_ceo (d : authdb) (a : account) : bool :=
  String.eqb (ac_role a) "CEO" || existsb (fun r => String.eqb (r_name r) "CEO") (omap (role_by_id d) (ac_role_ids a)).

Definition deactivate_user (now : datetime) (user_id : uuid) (current_user : account) : AUTH account :=
  caller ← query (fun d => loaded d current_user);
  found ← query (fun d => get_managed caller d user_id);
  a ← some_or found not_found;
  own_company caller a ;;
  ensure (negb (Z.eqb (ac_id a) (u_id caller))) (HTTPException 400 "You cannot deactivate your own account") ;;
  ensure_owns_nothing a ;;
  release_drafts (ac_id a) ;;
  _revoke_refresh_sessions now (ac_id a) ;;
  ceo ← query (fun d => is_ceo d a);
  let off : account := a <| ac_active := false |> in
  a ← (if (ceo : bool) then _set_primary_role "Staff" off else mret off);
  updated ← save_account a;
  record (ac_id current_user) "user_deactivate" "user" (ac_id a) "success" true ;;
  mret updated.

(** ** PUT /users/{id}/roles *)

Definition replace_user_roles (user_id : uuid) (role_ids : list uuid) (current_user : account) : AUTH account :=
  caller ← query (fun d => loaded d current_user);
  found ← query (fun d => get_managed caller d user_id);
  a ← some_or found not_found;
  ensure (match role_ids with [] => false | _ => true end) (HTTPException 422 "At least one role is required") ;;
  roles ← query (fun d => assignable_roles d (ac_company_domain a) role_ids);
  ensure (Z.eqb (len roles) (len (dedup role_ids)) && negb (existsb (foreign_role (ac_company_domain a)) roles))
    (HTTPException 403 "Invalid role assignment") ;;
  ensure (forallb r_active roles) (HTTPException 422 "Inactive roles cannot be assigned") ;;
  _validate_role_assignment_authority caller roles ;;
  ensure (negb (Z.eqb (ac_id a) (u_id caller) && negb (existsb global_admin_role roles)
                && _is_global_user_manager caller))
    (HTTPException 400 "You cannot remove your own global Admin role") ;;
  put_account (with_roles roles a) ;;
  commit ;;
  record (ac_id current_user) "user_roles_update" "user" (ac_id a) "success" true ;;
  mret (with_roles roles a).

(** ** POST /companies/{domain}/ceo *)

(** [UserRepository.list_users(offset, limit, viewer)], ordered by company and name as the
    database collates. *)
Definition list_users (collate : account -> account -> bool) (limit : nat) (viewer : user) (d : authdb) : list account :=
  take limit (stable_sort collate
    (List.filter (fun a => _identity_scope (Some viewer) (loaded d a)) (rows (t_accounts d)))).

(** The former CEO becomes an ordinary employee. *)
Definition demoted (d : authdb) (staff : role) (a : account) : account :=
  a <| ac_role := "Staff" |>
    <| ac_role_ids :=
         match map r_id (List.filter (fun r => negb (String.eqb (r_name r) "CEO")) (omap (role_by_id d) (ac_role_ids a))) with
         | [] => [r_id staff]
         | ids => ids
         end |>.
Definition promoted (d : authdb) (ceo : role) (a : account) : account :=
  a <| ac_role := "CEO" |>
    <| ac_role_ids :=
         map r_id (List.filter (fun r => negb (String.eqb (r_name r) "CEO")) (omap (role_by_id d) (ac_role_ids a)))
         ++ [r_id ceo] |>.

Definition assign_company_ceo (collate : account -> account -> bool) (company : string) (user_id : uuid)
    (current_user : account) : AUTH account :=
  caller ← query (fun d => loaded d current_user);
  ensure (_is_global_user_manager caller)
    (HTTPException 403 "Only global user managers can assign a company CEO") ;;
  users ← query (list_users collate 100 caller);
  let company_users := List.filter (fun a => String.eqb (ac_company_domain a) (casefold company)) users in
  target ← some_or (List.find (fun a => Z.eqb (ac_id a) user_id) company_users)
             (HTTPException 404 "Employee not found in this company");
  ensure (ac_active target) (HTTPException 422 "A deactivated employee cannot be assigned as CEO") ;;
  ceo_role ← _system_role "CEO" (Some (ac_company_domain target));
  staff_role ← _system_role "Staff" (Some (ac_company_domain target));
  for_each company_users (fun a =>
    ceo ← query (fun d => is_ceo d a);
    if (ceo : bool) && negb (Z.eqb (ac_id a) (ac_id target)) then
      was ← query (fun d => demoted d staff_role a);
      save_account was ;;
      record (ac_id current_user) "ceo_change" "user" (ac_id a) "success" true
    else mret tt) ;;
  now_ceo ← query (fun d => promoted d ceo_role target);
  updated ← save_account now_ceo;
  record (ac_id current_user) "ceo_change" "user" (ac_id target) "success" true ;;
  mret updated.
End Admin.

(** ** Facts *)

Section Facts.
Context `{KbEnv} `{AuthEnv} `{Settings}.

Lemma find_unique_id (l : list role) r : NoDup (map r_id l) -> r ∈ l -> List.find (fun x => Z.eqb (r_id x) (r_id r)) l = Some r.
Proof.
  intros Hnd Hr. destruct (List.find _ l) as [x|] eqn:Hx.
  - apply find_some in Hx as [Hx He]. apply list_elem_of_In in Hx. eqs. f_equal. by apply (NoDup_map_eq r_id l).
  - eapply find_none in Hx; [|by apply list_elem_of_In]. by rewrite Z.eqb_refl in Hx.
Qed.

(** The roles of an account whose ids are those of rows of the table *)
Lemma loaded_roles d a roles :
  NoDup (map r_id (t_roles d)) -> (forall r, r ∈ roles -> r ∈ t_roles d) -> ac_role_ids a = map r_id roles ->
  u_roles (loaded d a) = roles.
Proof.
  intros Hnd Hin Ha. cbn. rewrite Ha. clear Ha. induction roles as [|r roles IH]; cbn; [done|].
  unfold role_by_id at 1. rewrite (find_unique_id _ r Hnd) by (apply Hin; by left). cbn. f_equal.
  apply IH. intros x Hx. apply Hin. by right.
Qed.

(** What the check of authority lets through *)
Lemma authority_passed caller roles s u s' :
  _validate_role_assignment_authority caller roles s = (Return u, s') ->
  s' = s /\ (_is_global_user_manager caller = true
     \/ forall r, r ∈ roles -> is_executive r = false /\ exceeds (get_effective_permissions caller) r = false).
Proof.
  unfold _validate_role_assignment_authority. intros Hr. minv.
  destruct (_is_global_user_manager caller); minv; [by split; [|left]|].
  split; [done|]. right. bools. intros r Hr. split; [by eapply existsb_false in Hr|].
  match goal with He : existsb (exceeds _) roles = false |- _ => by eapply existsb_false in He end.
Qed.

Lemma assoc_elem {V} (k : string) (l : list (string * V)) v : assoc k l = Some v -> (k, v) ∈ l.
Proof.
  induction l as [|[k' v'] l IH]; cbn; [done|]. case_bool_decide as Hk; intros ?; simplify_eq; [by left|right; auto].
Qed.

(** A role that does not exceed a user grants nothing broader than the user is granted. *)
Lemma not_exceeding caller r a p :
  exceeds (get_effective_permissions caller) r = false -> a ∈ r_permissions r -> rp_permission a = Some p ->
  rank (rp_scope a) = 0 \/ exists scope, granted caller (p_key p) scope /\ rank (rp_scope a) <= rank scope.
Proof.
  unfold exceeds. intros He Ha Hp. rewrite existsb_false in He. specialize (He a Ha). rewrite Hp in He.
  apply Z.ltb_ge in He. destruct (assoc (p_key p) (get_effective_permissions caller)) as [scope|] eqn:Hs; cbn in He.
  - right. exists scope. split; [|done]. apply assoc_elem, elem_of_effective in Hs.
    by apply (effective_map_spec caller (p_key p)).
  - left. pose proof (rank_nonneg (rp_scope a)). change (rank "") with 0 in He. lia.
Qed.

Lemma assignable d company ids r :
  r ∈ assignable_roles d company ids -> r ∈ t_roles d /\ (r_company_domain r = Some company \/ r_company_domain r = None).
Proof.
  unfold assignable_roles. rewrite elem_of_filter_b, !andb_true_iff, orb_true_iff, !bool_decide_eq_true. naive_solver.
Qed.

(** ** Deactivation *)

Lemma save_account_run a s b s' : save_account a s = (Return b, s') ->
  b = a /\ let d' := (working s) <| t_accounts := <[ac_id a := a]> (t_accounts (working s)) |> in
           s' = Session d' d' (published s).
Proof. unfold save_account, put_account. intros Hs. minv. done. Qed.

Lemma get_managed_some v d id a :
  get_managed v d id = Some a -> t_accounts d !! id = Some a /\ _identity_scope (Some v) (loaded d a) = true.
Proof.
  unfold get_managed. intros (x & Hx & Hb)%bind_Some. by destruct (_identity_scope (Some v) (loaded d x)) eqn:Hs; simplify_eq.
Qed.

Lemma deactivate_effect now user_id u d b s' :
  deactivate_user now user_id u (open_session d) = (Return b, s') ->
  exists a (ids : list uuid) role, t_accounts d !! user_id = Some a
    /\ (has_permission (loaded d u) "user.manage" None "global" = true \/ ac_company_domain a = ac_company_domain u)
    /\ ac_id a <> ac_id u /\ actively_owned d a = []
    /\ b = a <| ac_active := false |> <| ac_role_ids := ids |> <| ac_role := role |>
    /\ (if is_ceo d a then role = "Staff" else ids = ac_role_ids a /\ role = ac_role a)
    /\ committed s' = d
         <| t_assigned := map (unassign (ac_id a)) (t_assigned d) |>
         <| t_sessions := revoke_all now (ac_id a) (t_sessions d) |>
         <| t_accounts := <[ac_id a := b]> (t_accounts d) |>
         <| t_account_audits := t_account_audits d ++ [mkAccountAudit (ac_id u) "user_deactivate" "user" (ac_id a) "success"] |>.
Proof.
  unfold deactivate_user, own_company, ensure_owns_nothing, release_drafts, _revoke_refresh_sessions.
  intros Hr. minv.
  match goal with Hg : get_managed _ _ _ = Some _ |- _ => apply get_managed_some in Hg as [Ha _] end.
  cbn [working open_session] in *.
  match goal with Hs : save_account _ _ = _ |- _ => apply save_account_run in Hs as [-> ->] end.
  unfold record in *. minv. bools. eqs. cbn [working committed published open_session] in *.
  match goal with Hc : (if is_ceo _ ?x then _ else _) _ = _ |- _ => rename Hc into Hceo; set (a := x) in *;
    change (is_ceo _ a) with (is_ceo d a) in Hceo end.
  assert (Hown : actively_owned d a = []) by (by destruct (actively_owned d a)).
  assert (Hauth : has_permission (loaded d u) "user.manage" None "global" = true \/ ac_company_domain a = ac_company_domain u).
  { match goal with Hor : _is_global_user_manager _ || _ = true |- _ => apply orb_true_iff in Hor as [?|?] end;
      [by left|right; eqs; done]. }
  exists a. destruct (is_ceo d a).
  - unfold _set_primary_role, _system_role in Hceo. minv.
    match goal with r : role |- _ => exists [r_id r], "Staff" end. by split_and!.
  - minv. by exists (ac_role_ids a), (ac_role a).
Qed.

(** ** The CEO *)

Lemma is_ceo_roles d d' a : t_roles d' = t_roles d -> is_ceo d' a = is_ceo d a.
Proof. unfold is_ceo, role_by_id. by intros ->. Qed.
Lemma demoted_roles d d' staff a : t_roles d' = t_roles d -> demoted d' staff a = demoted d staff a.
Proof. unfold demoted, role_by_id. by intros ->. Qed.

Lemma same_role_name d name company r : List.find (same_role name company) (t_roles d) = Some r ->
  r ∈ t_roles d /\ r_name r = name.
Proof.
  intros Hf. apply find_some in Hf as [Hin Hs]. apply list_elem_of_In in Hin. unfold same_role in Hs. bools. by eqs.
Qed.

Lemma omap_role_by_id d rs : NoDup (map r_id (t_roles d)) -> (forall r, r ∈ rs -> r ∈ t_roles d) ->
  omap (role_by_id d) (map r_id rs) = rs.
Proof.
  intros Hnd Hin. induction rs as [|r rs IH]; cbn; [done|].
  unfold role_by_id at 1. rewrite (find_unique_id _ r Hnd) by (apply Hin; by left). f_equal.
  apply IH. intros x Hx. apply Hin. by right.
Qed.

Lemma elem_of_roles d (ids : list uuid) r : r ∈ omap (role_by_id d) ids -> r ∈ t_roles d.
Proof.
  intros (i & _ & Hf)%list_elem_of_omap. apply find_some in Hf as [Hf _]. by apply list_elem_of_In.
Qed.

Lemma demoted_not_ceo d staff a :
  NoDup (map r_id (t_roles d)) -> staff ∈ t_roles d -> r_name staff = "Staff" -> is_ceo d (demoted d staff a) = false.
Proof.
  intros Hnd Hst Hname. unfold is_ceo.
  set (rs := List.filter (fun r => negb (String.eqb (r_name r) "CEO")) (omap (role_by_id d) (ac_role_ids a))).
  assert (Hrs : forall r, r ∈ rs -> r ∈ t_roles d /\ String.eqb (r_name r) "CEO" = false).
  { intros r [Hr Hn]%elem_of_filter_b. bools. split; [by apply elem_of_roles in Hr|done]. }
  change (String.eqb (ac_role (demoted d staff a)) "CEO") with false.
  change (ac_role_ids (demoted d staff a)) with (match map r_id rs with [] => [r_id staff] | ids => ids end).
  cbn [orb]. apply existsb_false. intros r. destruct rs as [|r0 rs0] eqn:He.
  - pose proof (omap_role_by_id d [staff] Hnd) as Ho. cbn [map] in Ho |- *.
    rewrite Ho by (intros x ->%list_elem_of_singleton; done). intros ->%list_elem_of_singleton. by rewrite Hname.
  - pose proof (omap_role_by_id d (r0 :: rs0) Hnd) as Ho. cbn [map] in Ho |- *.
    rewrite Ho by (intros x Hx; by apply Hrs). intros Hr. by apply Hrs.
Qed.

Lemma promoted_ceo d d' ceo a : is_ceo d' (promoted d ceo a) = true.
Proof. done. Qed.

Section Loop.
Context (u target : account) (staff : role) (R : list role).

Local Definition demote (a : account) : AUTH unit :=
  ceo ← query (fun d => is_ceo d a);
  if (ceo : bool) && negb (Z.eqb (ac_id a) (ac_id target)) then
    was ← query (fun d => demoted d staff a);
    save_account was ;;
    record (ac_id u) "ceo_change" "user" (ac_id a) "success" true
  else mret tt.

Local Definition loses (d : authdb) (a : account) : bool := is_ceo d a && negb (Z.eqb (ac_id a) (ac_id target)).

Lemma demote_one d0 a s s' : t_roles d0 = R -> t_roles (working s) = R -> demote a s = (Return tt, s') ->
  t_roles (working s') = R
  /\ t_accounts (working s')
     = if loses d0 a then <[ac_id a := demoted d0 staff a]> (t_accounts (working s)) else t_accounts (working s).
Proof.
  intros H0' Hs. unfold demote, loses. rewrite run_query, (is_ceo_roles d0 (working s)) by congruence.
  destruct (is_ceo d0 a && _); intros Hr; [|by minv].
  unfold record in Hr. minv. match goal with Hx : save_account _ _ = _ |- _ => apply save_account_run in Hx as [-> ->] end.
  cbn. by rewrite (demoted_roles d0 (working s)) by congruence.
Qed.

Lemma demote_all d0 l s s' : t_roles d0 = R -> t_roles (working s) = R -> NoDup (map ac_id l) ->
  for_each l demote s = (Return tt, s') ->
  t_roles (working s') = R
  /\ (forall a, a ∈ l -> loses d0 a = true -> t_accounts (working s') !! ac_id a = Some (demoted d0 staff a))
  /\ (forall i, (forall a, a ∈ l -> loses d0 a = true -> ac_id a <> i) ->
        t_accounts (working s') !! i = t_accounts (working s) !! i).
Proof.
  intros H0'. revert s. induction l as [|a l IH]; intros s Hs Hnd Hr.
  - cbn in Hr. minv. split_and!; [done|set_solver|done].
  - cbn in Hr, Hnd. apply NoDup_cons in Hnd as [Hni Hnd].
    apply bind_return in Hr as ([] & s1 & Hone & Hr).
    destruct (demote_one d0 a s s1 H0' Hs Hone) as [Hs1 Ha]. destruct (IH s1 Hs1 Hnd Hr) as (Hs' & Hin & Hout).
    split_and!; [done|..].
    + intros b [->|Hb]%elem_of_cons Hl; [|by apply Hin]. rewrite Hout, Ha, Hl; [apply lookup_insert_eq|].
      intros c Hc _ He. apply Hni. rewrite <- He. apply elem_of_map. by exists c.
    + intros i Hi. rewrite Hout, Ha by (intros b Hb; apply Hi; by right). destruct (loses d0 a) eqn:Hl; [|done].
      apply lookup_insert_ne. apply Hi; [by left|done].
Qed.
End Loop.
End Facts.

Section Theorems.
Context `{KbEnv} `{AuthEnv} `{!AuthLaws} `{Settings}.

Lemma gate_inactive d d' a b now now' r x :
  auth_ok d -> t_accounts d !! ac_id a = Some a -> t_accounts d' = <[ac_id a := b]> (t_accounts d) ->
  ac_email b = ac_email a -> ac_active b = false -> gate now r d = Return x -> ac_id x = ac_id a ->
  forall y, gate now' r d' <> Return y.
Proof.
  intros Hok Ha Hd He Hoff. unfold gate. destruct (named now r) as [[e av]|] eqn:Hn; [|done].
  destruct (has_at e) eqn:Hat; [|done]. destruct (get_by_email d e) as [|z|] eqn:Hz; try done.
  destruct (ac_active z) eqn:Hact; [|done]. destruct (Z.eqb_spec av (ac_auth_version z)) as [->|]; [|done].
  intros [= ->] Hi y. destruct (named_stable now now' r _ Hn) as [-> | ->]; [|done].
  by rewrite Hat, (get_by_email_update d d' a b), Hz, (proj2 (Z.eqb_eq _ _) Hi), Hoff by done.
Qed.

End Theorems.

Section PageFacts.
Context `{KbEnv} `{AuthEnv} `{Settings}.

Lemma page_rows collate n v d a : auth_ok d -> a ∈ list_users collate n v d ->
  t_accounts d !! ac_id a = Some a.
Proof.
  intros Hok Ha. unfold list_users in Ha. apply elem_of_take in Ha as (i & Ha%list_elem_of_lookup_2 & _).
  rewrite elem_of_stable_sort, elem_of_filter_b in Ha. apply (elem_of_rows ac_id); [apply Hok|apply Ha].
Qed.

Lemma page_nodup collate n v d : auth_ok d -> NoDup (map ac_id (list_users collate n v d)).
Proof.
  intros Hok. unfold list_users.
  assert (Hnd : NoDup (map ac_id (stable_sort collate
    (List.filter (fun a => _identity_scope (Some v) (loaded d a)) (rows (t_accounts d)))))).
  { rewrite (Permutation_map ac_id (stable_sort_perm collate _)). apply (rows_nodup ac_id), Hok. }
  rewrite <- (take_drop n (stable_sort _ _)), map_app in Hnd. by apply NoDup_app in Hnd as [Hnd _].
Qed.

Lemma page_complete collate n v d a : auth_ok d -> _is_global_user_manager v = true ->
  (length (rows (t_accounts d)) <= n)%nat -> t_accounts d !! ac_id a = Some a -> a ∈ list_users collate n v d.
Proof.
  intros Hok Hv Hn Ha. unfold list_users.
  assert (Hall : List.filter (fun x => _identity_scope (Some v) (loaded d x)) (rows (t_accounts d)) = rows (t_accounts d)).
  { assert (Hs : forall x, _identity_scope (Some v) (loaded d x) = true).
    { intros x. unfold _identity_scope. unfold _is_global_user_manager in Hv. by rewrite Hv, orb_true_r. }
    clear -Hs. induction (rows (t_accounts d)) as [|x l IH]; [done|]. cbn [List.filter]. by rewrite Hs, IH. }
  rewrite Hall, take_ge by (by rewrite stable_sort_length).
  rewrite elem_of_stable_sort. apply (elem_of_rows ac_id); [apply Hok|done].
Qed.
End PageFacts.

Section RunUpdate.
Context `{KbEnv} `{AuthEnv} `{Settings}.

(** A request that only sets a password, or only the standing. *)
Definition only_password (password : pystr) : user_update :=
  mkUpdate None None None None (Some password) None None None None.
Definition only_active (active : bool) : user_update :=
  mkUpdate None None None None None None (Some active) None None.

Definition may_manage (d : authdb) (u a : account) : Prop :=
  has_permission (loaded d u) "user.manage" None "global" = true
  \/ has_permission (loaded d u) "user.manage" None "company" = true /\ ac_company_domain a = ac_company_domain u.

Lemma may_manage_scope d u a : may_manage d u a ->
  _identity_scope (Some (loaded d u)) (loaded d a) = true
  /\ _is_global_user_manager (loaded d u) || String.eqb (ac_company_domain a) (u_company_domain (loaded d u)) = true.
Proof.
  unfold _identity_scope, _is_global_user_manager. intros [Hg|[Hc He]].
  - by rewrite Hg, orb_true_r.
  - rewrite Hc, He, orb_true_r. cbn [negb].
    change (u_company_domain (loaded d a)) with (ac_company_domain a).
    change (u_company_domain (loaded d u)) with (ac_company_domain u). rewrite He, String.eqb_refl, orb_true_r.
    by destruct (_ || _).
Qed.

Lemma run_save a s : keyed ac_id (t_accounts (working s)) ->
  (forall b, t_accounts (working s) !! ac_id b = Some b -> ac_email b = ac_email a -> ac_id b = ac_id a) ->
  save_account a s
  = (Return a, let d' := (working s) <| t_accounts := <[ac_id a := a]> (t_accounts (working s)) |> in Session d' d' (published s)).
Proof.
  intros Hok Hu. unfold save_account. rewrite run_query.
  replace (existsb _ (rows (t_accounts (working s)))) with false; [done|].
  symmetry. apply existsb_false. intros b Hb. apply (elem_of_rows ac_id) in Hb; [|done].
  case_bool_decide as He; [|done]. rewrite (Hu b Hb He). by rewrite Z.eqb_refl.
Qed.

(** An account keeps its address: nobody else has it. *)
Lemma own_address d a x : auth_ok d -> t_accounts d !! ac_id a = Some a ->
  t_accounts d !! ac_id x = Some x -> ac_email x = ac_email a -> ac_id x = ac_id a.
Proof.
  intros Hok Ha Hx He. f_equal. apply (ok_emails _ Hok); [| |done]; apply (elem_of_rows ac_id); try done; apply Hok.
Qed.
(** An update of the password and the standing alone, past the checks of the request *)
Lemma run_update_plain now salt u a d password active :
  let up := mkUpdate None None None None password None active None None in
  t_accounts d !! ac_id a = Some a -> may_manage d u a ->
  owned_by_another d (ac_id a) (actively_owned d a) = false ->
  update_managed_user now salt (ac_id a) up u (open_session d)
  = (a ← update_active (loaded d u) up a;
     a ← match password with
         | Some password => hash ← get_password_hash salt password; mret (with_password hash a)
         | None => mret a
         end;
     (if match password with Some _ => true | None => false end || bool_decide (active = Some false)
      then _revoke_refresh_sessions now (ac_id a) else mret tt) ;;
     updated ← save_account a;
     record (ac_id u) "user_update" "user" (ac_id a) "success" true ;;
     mret updated) (open_session d).
Proof.
  cbn zeta. intros Ha Hmay Howners. destruct (may_manage_scope d u a Hmay) as [Hscope Hcompany].
  unfold update_managed_user, own_company. rewrite !run_query. cbn [working open_session].
  assert (Hget : get_managed (loaded d u) d (ac_id a) = Some a)
    by (unfold get_managed, get_account; rewrite Ha; cbn -[_identity_scope loaded]; by rewrite Hscope).
  rewrite (run_some_or _ _ _ _ a) by exact Hget. rewrite run_ensure by exact Hcompany.
  rewrite run_ensure by (cbn [up_role]; by rewrite andb_false_r).
  cbn [up_name up_password up_active]. set (up := mkUpdate _ _ _ _ _ _ _ _ _).
  assert (Hm : update_memberships up a (open_session d) = (Return (a, None), open_session d)) by done.
  assert (Hroles : update_roles (loaded d u) up a (open_session d) = (Return a, open_session d)) by done.
  assert (Hemail : update_email (loaded d u) up a (open_session d) = (Return a, open_session d)) by done.
  assert (Hown : update_ownership up None a (open_session d) = (Return a, open_session d)).
  { unfold update_ownership. cbn [up up_owned_department_ids]. rewrite run_query. cbn [working open_session].
    unfold mbind at 1, M_bind at 1, mret at 1, M_ret at 1. cbn beta iota.
    unfold _ensure_departments_have_single_owner, mbind, M_bind, query. cbn [working open_session]. by rewrite Howners. }
  by rewrite (run_bind _ _ _ _ _ Hm), (run_bind _ _ _ _ _ Hroles), (run_bind _ _ _ _ _ Hown), (run_bind _ _ _ _ _ Hemail).
Qed.
(** What setting an account active again writes *)
Lemma reactivate_effect now salt user_id v d c s' :
  update_managed_user now salt user_id (only_active true) v (open_session d) = (Return c, s') ->
  exists a, t_accounts d !! user_id = Some a /\ c = a <| ac_active := true |>
    /\ t_accounts (committed s') = <[ac_id a := c]> (t_accounts d).
Proof.
  unfold update_managed_user, own_company, record. intros Hr. minv. cbn [working committed published open_session] in *.
  match goal with Hg : get_managed _ _ _ = Some ?x |- _ => apply get_managed_some in Hg as [Ha _]; rename x into a end.
  match goal with Hg : t_accounts d !! user_id = Some ?x |- _ => exists x end. split; [done|].
  match goal with p : account * option (list department) |- _ => destruct p as [a1 changed] end.
  cbn [up_name up_password only_active] in *. minv.
  match goal with Hu : update_memberships _ _ _ = _ |- _ => cbn in Hu; minv end.
  match goal with Hu : update_roles _ _ _ _ = _ |- _ => cbn in Hu; minv end.
  match goal with Hu : update_ownership _ _ _ _ = _ |- _ =>
    unfold update_ownership, _ensure_departments_have_single_owner in Hu; cbn [up_owned_department_ids only_active] in Hu; minv end.
  match goal with Hu : update_email _ _ _ _ = _ |- _ => cbn in Hu; minv end.
  match goal with Hu : update_active _ _ _ _ = _ |- _ => cbn in Hu; minv end.
  match goal with Hu : (if _ then _ else mret ()) _ = _ |- _ =>
    cbn [orb up_active only_active] in Hu; rewrite bool_decide_false in Hu by done; minv end.
  match goal with Hs : save_account _ _ = _ |- _ => apply save_account_run in Hs as [-> ->] end.
  split; reflexivity.
Qed.
End RunUpdate.

Section MoreTheorems.
Context `{KbEnv} `{AuthEnv} `{!AuthLaws} `{Settings}.

(** Who is CEO after a CEO was named: in that company exactly the chosen employee and the
    former CEOs that were not among the first hundred accounts the caller lists; with a
    hundred accounts or fewer, in all companies together, the chosen employee alone. *)
Theorem ceo_assignment_exact (collate : account -> account -> bool) (company : string) (user_id : uuid)
    (u : account) (d : authdb) (b : account) (s' : session authdb Empty_set) (Hok : auth_ok d)
    (Hroles : NoDup (map r_id (t_roles d)))
    (Hr : assign_company_ceo collate company user_id u (open_session d) = (Return b, s')) :
  let d' := committed s' in let page := list_users collate 100 (loaded d u) d in
  (forall x, t_accounts d !! ac_id x = Some x -> ac_company_domain x = casefold company ->
     exists x', t_accounts d' !! ac_id x = Some x'
       /\ (is_ceo d' x' = true <-> ac_id x = user_id \/ (is_ceo d x = true /\ x ∉ page)))
  /\ ((length (rows (t_accounts d)) <= 100)%nat -> forall x, t_accounts d !! ac_id x = Some x -> x ∈ page).
Proof.
  cbn zeta. unfold assign_company_ceo, _system_role in Hr. minv. cbn [working committed published open_session] in *.
  match goal with
  | Hf : List.find _ (List.filter _ _) = Some ?x, Hc : List.find (same_role "CEO" _) _ = Some ?c,
    Hs : List.find (same_role "Staff" _) _ = Some ?s, Hl : for_each _ _ _ = (Return ?v, ?s1),
    Hsave : save_account _ _ = _, Hrec : record _ _ _ _ _ _ _ = _ |- _ =>
      rename x into target, c into ceo, s into staff, s1 into s2; destruct v;
      rename Hf into Hfound, Hl into Hloop; apply same_role_name in Hc as [Hceo Hceo'], Hs as [Hst Hst'];
      apply save_account_run in Hsave as [-> ->]; unfold record in Hrec; minv
  end.
  split; [|intros Hn x Hx; by apply page_complete].
  apply find_some in Hfound as [Hin He]. apply list_elem_of_In, elem_of_filter_b in Hin as [Htp Htc]. eqs. subst user_id.
  set (page := list_users collate 100 (loaded d u) d) in *.
  set (l := List.filter (fun a => String.eqb (ac_company_domain a) (casefold company)) page) in *.
  destruct (demote_all u target staff (t_roles d) d l (open_session d) s2) as (HR & Hdem & Hsame); [done|done| |exact Hloop|].
  { unfold l. apply NoDup_filter_map. by apply page_nodup. }
  cbn [committed working] in *. intros x Hx Hc.
  assert (Hceos : forall y d2, t_roles d2 = t_roles d -> is_ceo d2 y = is_ceo d y) by (intros y d2 Hd; by apply is_ceo_roles).
  destruct (decide (ac_id x = ac_id target)) as [Hid|Hid].
  { exists (promoted (working s2) ceo target). split; [cbn; rewrite Hid; apply lookup_insert_eq|].
    rewrite promoted_ceo. split; [intros _; by left|done]. }
  destruct (decide (x ∈ page)) as [Hp|Hp]; [destruct (is_ceo d x) eqn:Hxc|].
  - assert (Hl : x ∈ l) by (apply elem_of_filter_b; split; [done|by rewrite Hc, String.eqb_refl]).
    exists (demoted d staff x). split.
    + cbn. rewrite lookup_insert_ne by done. apply Hdem; [done|]. unfold loses.
      rewrite Hxc. apply negb_true_iff, Z.eqb_neq. congruence.
    + rewrite Hceos by done. rewrite demoted_not_ceo by done. split; [done|]. intros [?|[_ ?]]; done.
  - exists x. split.
    + cbn. rewrite lookup_insert_ne by done. rewrite Hsame; [done|]. intros a Ha Hla Hae. unfold loses in Hla. bools.
      apply elem_of_filter_b in Ha as [Ha _]. apply page_rows in Ha; [|done]. rewrite Hae in Ha. congruence.
    + rewrite Hceos by done. rewrite Hxc. split; [done|]. intros [?|[? _]]; done.
  - exists x. split.
    + cbn. rewrite lookup_insert_ne by done. rewrite Hsame; [done|]. intros a Ha Hla Hae.
      apply elem_of_filter_b in Ha as [Ha _]. pose proof (page_rows _ _ _ _ _ Hok Ha) as Har. rewrite Hae in Har.
      assert (a = x) as -> by congruence. done.
    + rewrite Hceos by done. split; [intros Hxc; right; by split|]. intros [?|[? _]]; done.
Qed.

(** C34. Replacing roles stays within authority. When the roles of an account are replaced, by
    a caller who does not manage users globally, every role the account ends up with is a role
    of its own company, is not Admin or CEO, and grants no permission at a scope broader than
    one the caller is granted for the same permission. *)
Theorem role_assignment_within_authority (user_id : uuid) (role_ids : list uuid) (u : account) (d : authdb)
    (b : account) (s' : session authdb Empty_set) (Hok : auth_ok d) (Hnd : NoDup (map r_id (t_roles d)))
    (Hr : replace_user_roles user_id role_ids u (open_session d) = (Return b, s')) :
  let d' := committed s' in let caller := loaded d u in
  exists a, t_accounts d !! user_id = Some a /\ t_accounts d' = <[user_id := b]> (t_accounts d)
    /\ u_roles (loaded d' b) <> [] /\ ac_auth_version b = ac_auth_version a
    /\ (has_permission caller "user.manage" None "global" = true
        \/ (ac_company_domain a = ac_company_domain u \/ has_permission caller "user.read" None "global" = true)
           /\ forall r, r ∈ u_roles (loaded d' b) ->
                r_active r = true /\ r_company_domain r = Some (ac_company_domain a)
                /\ r_name r <> "Admin" /\ r_name r <> "CEO"
                /\ forall g p, g ∈ r_permissions r -> rp_permission g = Some p ->
                     rank (rp_scope g) = 0
                     \/ exists scope, granted caller (p_key p) scope /\ rank (rp_scope g) <= rank scope).
Proof.
  cbn zeta. unfold replace_user_roles, put_account, record in Hr. minv. cbn [working committed published open_session] in *.
  match goal with Hg : get_managed _ _ _ = Some ?x |- _ => apply get_managed_some in Hg as [Ha Hscope]; rename x into a end.
  match goal with Hv : _validate_role_assignment_authority _ ?rs _ = _ |- _ =>
    apply authority_passed in Hv as [-> Hauth]; set (roles := rs) in * end.
  pose proof (get_account_id d _ a Hok Ha) as Hi. subst user_id.
  assert (Hin : forall r, r ∈ roles -> r ∈ t_roles d) by (intros r Hr; by apply assignable in Hr as [Hr _]).
  exists a. split_and!; try done.
  - cbn [committed]. rewrite (loaded_roles _ _ roles) by done. intros Hn. rewrite Hn in *.
    bools. eqs. destruct role_ids as [|i ids]; [done|].
    match goal with Hl : len [] = len (dedup _) |- _ => assert (Hd : dedup (i :: ids) = []) by
      (destruct (dedup (i :: ids)); [done|unfold len in Hl; cbn in Hl; lia]) end.
    assert (Hm : i ∈ dedup (i :: ids)) by (apply elem_of_dedup; by left). rewrite Hd in Hm. by apply elem_of_nil in Hm.
  - destruct Hauth as [Hglobal|Hauth]; [by left|].
    destruct (has_permission (loaded d u) "user.manage" None "global") eqn:Hg; [by left|right]. split.
    { unfold _identity_scope in Hscope. rewrite Hg, orb_false_r in Hscope.
      destruct (has_permission (loaded d u) "user.read" None "global"); [by right|left].
      destruct (negb _); [done|]. by apply String.eqb_eq in Hscope. }
    cbn [committed]. rewrite (loaded_roles _ _ roles) by done. intros r Hr.
    destruct (Hauth r Hr) as [Hex Hle]. unfold is_executive in Hex. bools.
    apply assignable in Hr as Hr'. destruct Hr' as [_ [Hc|Hc]]; [|done].
    match goal with Hm : mem _ _ = false |- _ => unfold mem in Hm; rewrite existsb_false in Hm; rename Hm into Hnames end.
    split_and!; try done.
    + match goal with Hact : forallb r_active roles = true |- _ => rewrite forallb_forall in Hact; apply Hact end.
      by apply list_elem_of_In.
    + apply String.eqb_neq, Hnames. by left.
    + apply String.eqb_neq, Hnames. by right; left.
    + intros g p Hgr Hp. by apply (not_exceeding _ r).
Qed.

(** A manager takes over any account of the company. Whoever may manage the users of a
    company can set the password of every account in it, whatever roles that account has, a
    global administrator's included: the update succeeds with no check of the target's
    authority, the roles stay, and the new password signs in as the account. *)
Theorem manager_takes_over_account (now : datetime) (salt password : pystr) (u a : account) (d : authdb)
    (Hok : auth_ok d) (Ha : t_accounts d !! ac_id a = Some a) (Hmay : may_manage d u a)
    (Howners : owned_by_another d (ac_id a) (actively_owned d a) = false) (Hlen : utf8_len password <= 72)
    (Hfound : get_by_email d (ac_email a) = Found a) :
  let b := with_password (hashpw password salt) a in
  exists d', update_managed_user now salt (ac_id a) (only_password password) u (open_session d)
      = (Return b, Session d' d' [])
    /\ t_accounts d' = <[ac_id a := b]> (t_accounts d) /\ u_roles (loaded d' b) = u_roles (loaded d a)
    /\ (authenticate_user (ac_email a) password (open_session d')).1 = Return b.
Proof.
  cbn zeta. destruct (may_manage_scope d u a Hmay) as [Hscope Hcompany].
  set (b := with_password (hashpw password salt) a).
  set (d1 := d <| t_sessions := revoke_all now (ac_id a) (t_sessions d) |>).
  set (d2 := d1 <| t_accounts := <[ac_id a := b]> (t_accounts d) |>).
  exists (d2 <| t_account_audits := t_account_audits d
            ++ [mkAccountAudit (ac_id u) "user_update" "user" (ac_id a) "success"] |>).
  split_and!; try done.
  - unfold only_password. rewrite run_update_plain by done.
    assert (Hact : update_active (loaded d u) (only_password password) a (open_session d) = (Return a, open_session d)) by done.
    assert (Hhash : (hash ← get_password_hash salt password; mret (with_password hash a)) (open_session d)
                    = (Return b, open_session d)).
    { unfold get_password_hash. by rewrite (proj2 (Z.leb_le _ _) Hlen). }
    assert (Hrev : _revoke_refresh_sessions now (ac_id b) (open_session d) = (Return tt, Session d d1 [])) by done.
    assert (Hsave : save_account b (Session d d1 []) = (Return b, Session d2 d2 [])).
    { rewrite run_save; [done|apply Hok|]. intros x Hx He. by apply (own_address d a x). }
    rewrite (run_bind _ _ _ _ _ Hact), (run_bind _ _ _ _ _ Hhash), (run_bind _ _ _ _ _ Hrev), (run_bind _ _ _ _ _ Hsave).
    done.
  - unfold authenticate_user. rewrite run_query. cbn [working open_session].
    rewrite (get_by_email_update d _ a b), Hfound, Z.eqb_refl by done.
    unfold verify_password, b, with_password. cbn -[checkpw]. by rewrite checkpw_hashpw.
Qed.

(** Reactivation revives old tokens. An access token that was accepted before an account
    was deactivated is accepted again, until it expires, once the account is active again:
    neither step moves the version the tokens carry. *)
Theorem reactivation_revives_tokens (now now1 now2 : datetime) (salt : pystr) (r : request) (u v a : account)
    (d : authdb) (s1 s2 : session authdb Empty_set) (b c : account) (Hok : auth_ok d)
    (Hgate : gate now r d = Return a) (Hplain : is_ceo d a = false)
    (Hoff : deactivate_user now1 (ac_id a) u (open_session d) = (Return b, s1))
    (Hon : update_managed_user now2 salt (ac_id a) (only_active true) v (open_session (committed s1)) = (Return c, s2)) :
  gate now r (committed s2) = Return a.
Proof.
  apply deactivate_effect in Hoff as (a' & ids & role & Ha & _ & _ & _ & -> & Hrole & Hd1).
  assert (Hrow : t_accounts d !! ac_id a = Some a).
  { unfold gate in Hgate. destruct (named now r) as [[e av]|]; [|done]. destruct (has_at e); [|done].
    destruct (get_by_email d e) as [|x|] eqn:Hx; try done. destruct (ac_active x); [|done].
    destruct (Z.eqb av (ac_auth_version x)); [|done]. simplify_eq. by apply (get_by_email_row d e). }
  assert (a' = a) as -> by congruence. rewrite Hplain in Hrole. destruct Hrole as [-> ->].
  apply reactivate_effect in Hon as (a1 & Ha1 & -> & Hd2).
  assert (Hact : ac_active a = true).
  { unfold gate in Hgate. destruct (named now r) as [[e av]|]; [|done]. destruct (has_at e); [|done].
    destruct (get_by_email d e) as [|x|]; try done. destruct (ac_active x) eqn:Hact; [|done].
    destruct (Z.eqb av (ac_auth_version x)); [|done]. by simplify_eq. }
  assert (Hsame : t_accounts (committed s2) = t_accounts d).
  { rewrite Hd1 in Ha1. cbn in Ha1. rewrite lookup_insert_eq in Ha1. injection Ha1 as <-.
    rewrite Hd2, Hd1. cbn. rewrite insert_insert_eq. apply insert_id. rewrite Hrow. f_equal.
    clear -Hact. destruct a. cbn in *. by subst. }
  rewrite <- Hgate. unfold gate, get_by_email. by rewrite Hsame.
Qed.
End MoreTheorems.

(** ** A concrete company *)

#[local] Existing Instance demo_env.
#[local] Existing Instance demo_auth.
#[local] Existing Instance demo_laws.
#[local] Existing Instance demo_settings.

Definition grant (key scope : string) : role_permission := mkRolePermission (Some (mkPermission 0 key)) scope.
Definition company_roles : list role :=
  [mkRole 1 "Admin" None true [grant "user.manage" "global"; grant "article.read" "global"] true None;
   mkRole 2 "CEO" (Some "kb.example") true [grant "user.manage" "company"; grant "article.read" "company"] true None;
   mkRole 3 "Staff" (Some "kb.example") true [grant "article.read" "company"] true None;
   mkRole 4 "Auditor" (Some "kb.example") true [grant "article.read" "own"] false None].

Definition root_account : account :=
  mkAccount 1 ($"root@kb.example") ($"Root") ($"root password") "kb.example" None "Admin" true 0 [] [] [1].
Definition boss_account : account :=
  mkAccount 2 ($"boss@kb.example") ($"Boss") ($"boss password") "kb.example" None "CEO" true 0 [] [] [2].
Definition clerk_account : account :=
  mkAccount 3 ($"clerk@kb.example") ($"Clerk") ($"clerk password") "kb.example" None "Staff" true 0 [] [] [3].
Definition small_company : authdb :=
  mkAuthDb {[1 := root_account; 2 := boss_account; 3 := clerk_account]} company_roles [] [] ∅ ∅ ∅ ∅ [] []
    [mkAssigned 9 "pending" (Some 3)].

Lemma small_company_rows a : a ∈ rows (t_accounts small_company) ->
  a = root_account \/ a = boss_account \/ a = clerk_account.
Proof.
  intros ([i b] & -> & Hin%elem_of_map_to_list)%elem_of_map. cbn in *.
  apply lookup_insert_Some in Hin as [[_ <-]|[_ Hin]]; [by left|].
  apply lookup_insert_Some in Hin as [[_ <-]|[_ Hin]]; [by right; left|].
  apply lookup_singleton_Some in Hin as [_ <-]. by right; right.
Qed.

Lemma small_company_ok : auth_ok small_company.
Proof.
  constructor; cbn; try (intros i r Hr; by rewrite lookup_empty in Hr).
  - intros i a Ha. apply lookup_insert_Some in Ha as [[<- <-]|[_ Ha]]; [done|].
    apply lookup_insert_Some in Ha as [[<- <-]|[_ Ha]]; [done|]. by apply lookup_singleton_Some in Ha as [<- <-].
  - intros a b Ha%small_company_rows Hb%small_company_rows He.
    destruct Ha as [->|[->| ->]], Hb as [->|[->| ->]]; done.
  - intros r r' Hr. unfold rows in Hr. rewrite map_to_list_empty in Hr. by apply elem_of_nil in Hr.
Qed.

Lemma company_roles_nodup : NoDup (map r_id (t_roles small_company)).
Proof. apply (bool_decide_unpack _). vm_compute. exact I. Qed.

Definition returns {A} (m : AUTH A) (d : authdb) : bool :=
  match (m (open_session d)).1 with Return _ => true | Raise _ => false end.

Lemma returns_run {A} (m : AUTH A) d : returns m d = true ->
  exists a s', m (open_session d) = (Return a, s') /\ s' = (m (open_session d)).2.
Proof. unfold returns. destruct (m (open_session d)) as [[a|e] s']; [|done]. intros _. by exists a, s'. Qed.


Definition by_name (a b : account) : bool := ac_id a <=? ac_id b.

(** The clerk becomes CEO in place of the boss. *)
Lemma ceo_assignment_exact_witness :
  exists b s', assign_company_ceo by_name "kb.example" 3 root_account (open_session small_company) = (Return b, s')
    /\ exists boss', t_accounts (committed s') !! 2 = Some boss' /\ is_ceo (committed s') boss' = false.
Proof.
  destruct (returns_run (assign_company_ceo by_name "kb.example" 3 root_account) small_company) as (b & s' & Hr & _);
    [vm_compute; reflexivity|].
  exists b, s'. split; [exact Hr|].
  destruct (ceo_assignment_exact by_name "kb.example" 3 root_account small_company b s' small_company_ok
    company_roles_nodup Hr) as [Hexact Hall].
  destruct (Hexact boss_account eq_refl eq_refl) as (x' & Hx' & Hiff). exists x'. split; [exact Hx'|].
  destruct (is_ceo (committed s') x'); [|reflexivity]. destruct (proj1 Hiff eq_refl) as [He|[_ Hout]]; [discriminate He|].
  destruct Hout. apply Hall; [vm_compute; lia|reflexivity].
Defined.

Lemma role_assignment_within_authority_witness :
  exists b s', replace_user_roles 3 [4] boss_account (open_session small_company) = (Return b, s')
    /\ u_roles (loaded (committed s') b) <> [].
Proof.
  destruct (returns_run (replace_user_roles 3 [4] boss_account) small_company) as (b & s' & Hr & _); [vm_compute; reflexivity|].
  exists b, s'. split; [exact Hr|].
  destruct (role_assignment_within_authority 3 [4] boss_account small_company b s' small_company_ok company_roles_nodup Hr)
    as (a & _ & _ & Hne & _). exact Hne.
Defined.

Lemma boss_may : may_manage small_company boss_account root_account.
Proof. right. split; vm_compute; reflexivity. Qed.
Lemma root_owns : owned_by_another small_company 1 (actively_owned small_company root_account) = false.
Proof. vm_compute. reflexivity. Qed.
Lemma root_found : get_by_email small_company ($"root@kb.example") = Found root_account.
Proof. vm_compute. reflexivity. Qed.
Lemma short_enough : utf8_len ($"chosen by boss") <= 72.
Proof. vm_compute. discriminate. Qed.

(** The CEO of a company signs in as its global administrator. *)
Lemma manager_takes_over_account_witness :
  exists d', (update_managed_user 60 ($"salt") 1 (only_password ($"chosen by boss")) boss_account (open_session small_company)).1
      = Return (with_password ($"chosen by boss") root_account)
    /\ (authenticate_user ($"root@kb.example") ($"chosen by boss") (open_session d')).1
       = Return (with_password ($"chosen by boss") root_account).
Proof.
  destruct (manager_takes_over_account 60 ($"salt") ($"chosen by boss") boss_account root_account small_company small_company_ok
    eq_refl boss_may root_owns short_enough root_found) as (d' & Hrun & _ & _ & Hauth).
  exists d'. split; [|exact Hauth].
  exact (f_equal fst Hrun).
Defined.

Definition clerk_request : request := bearer (tp_access (mint 0 (mkDraws 7 8 ($"jti") ($"salt") (fun i => i)) clerk_account)).

Lemma reactivation_revives_tokens_witness :
  exists s1 s2, (exists b, deactivate_user 60 3 boss_account (open_session small_company) = (Return b, s1))
    /\ (exists c, update_managed_user 120 ($"salt") 3 (only_active true) boss_account (open_session (committed s1)) = (Return c, s2))
    /\ gate 30 clerk_request (committed s2) = Return clerk_account.
Proof.
  destruct (returns_run (deactivate_user 60 3 boss_account) small_company) as (b & s1 & Hoff & Hs1); [vm_compute; reflexivity|].
  destruct (returns_run (update_managed_user 120 ($"salt") 3 (only_active true) boss_account) (committed s1)) as (c & s2 & Hon & _);
    [rewrite Hs1; vm_compute; reflexivity|].
  exists s1, s2. split; [exists b; exact Hoff|]. split; [exists c; exact Hon|].
  refine (reactivation_revives_tokens 30 60 120 ($"salt") clerk_request boss_account boss_account clerk_account
    small_company s1 s2 b c small_company_ok _ _ Hoff Hon); vm_compute; reflexivity.
Defined.
