(* ===== verification/RoleAdmin.v ===== *)
(** * Administration of roles (src/api/routers/auth.py)

    Creating, editing and deleting a role, and replacing what it grants. The caller is the
    account [require_permission] returned. Role names are ASCII words here. *)

From S2P Require Import Prelude PyText Models Rbac Store Identity Sessions Credentials UserAdmin.
From Stdlib Require String Ascii.
#[local] Open Scope string_scope.
#[local] Open Scope list_scope.
#[local] Open Scope Z_scope.

Section RoleAdmin.
Context `{KbEnv} `{AuthEnv} `{Settings}.

(** ** Shared steps *)

Record role_create := mkRoleCreate {
  rc_name : string;
  rc_description : option pystr;
  rc_company_domain : option string
}.

Record role_update := mkRoleUpdate {
  ru_name : option string;
  ru_description : option pystr;
  ru_active : option bool
}.

Record role_permission_input := mkRolePermissionInput { pi_permission_key : string; pi_scope : string }.

(** [name.strip()] and [name.lower()] *)
Definition strip_name (name : string) : string := domain_key (strip (ps name)).
Definition lower_name (name : string) : string := casefold name.

Definition is_legacy_owner (name : string) : bool :=
  String.eqb (casefold name) (casefold LEGACY_DEPARTMENT_OWNER_ROLE).

(** The checks of a new name *)
Definition valid_name (name : string) : AUTH string :=
  let role_name := strip_name name in
  ensure (negb (String.eqb role_name "")) (HTTPException 422 "Role name cannot be blank") ;;
  ensure (negb (is_legacy_owner role_name)) (HTTPException 422 "Department ownership is managed separately from roles") ;;
  mret role_name.

(** A role of that company, or a global one when [company] is [None], has the name. *)
Definition has_name (company : option string) (name : string) (r : role) : bool :=
  String.eqb (lower_name (r_name r)) (lower_name name) && bool_decide (r_company_domain r = company).

Definition is_global_manager (permission : string) (caller : user) : bool := has_permission caller permission None "global".

(** The role of the request, as far as the caller's query reaches. *)
Definition reachable_role (globally : bool) (caller : user) (role_id : uuid) (d : authdb) : option role :=
  List.find (fun r => Z.eqb (r_id r) role_id
               && (globally || bool_decide (r_company_domain r = Some (u_company_domain caller)))) (t_roles d).

(** A role shared by every company or of another one needs a global manager. *)
Definition outside_scope (globally : bool) (caller : user) (r : role) : bool :=
  negb globally && match r_company_domain r with
                   | None => true
                   | Some c => negb (String.eqb c (u_company_domain caller))
                   end.

Definition put_role (r : role) : AUTH unit :=
  write (fun d => d <| t_roles := map (fun x => if Z.eqb (r_id x) (r_id r) then r else x) (t_roles d) |>).

(** ** POST /roles *)

Definition create_role (role_id : uuid) (payload : role_create) (current_user : account) : AUTH role :=
  caller ← query (fun d => loaded d current_user);
  let globally := is_global_manager "role.manage" caller in
  let company_domain :=
    match rc_company_domain payload with
    | Some (String.String _ _ as c) => Some (lower_name c)
    | _ => if globally then None else Some (u_company_domain caller)
    end in
  ensure (globally || bool_decide (company_domain = Some (u_company_domain caller)))
    (HTTPException 403 "Roles must belong to your company") ;;
  role_name ← valid_name (rc_name payload);
  exists_ ← query (fun d => existsb (has_name company_domain role_name) (t_roles d));
  ensure (negb exists_) (HTTPException 409 "A role with this name already exists") ;;
  let r := mkRole role_id role_name company_domain true [] false (rc_description payload) in
  write (fun d => d <| t_roles := t_roles d ++ [r] |>) ;;
  commit ;;
  record (ac_id current_user) "role_create" "role" role_id "success" true ;;
  mret r.

(** ** PATCH /roles/{role_id} *)

Definition renamed_role (role_name : string) (r : role) : role :=
  mkRole (r_id r) role_name (r_company_domain r) (r_active r) (r_permissions r) (r_system r) (r_description r).
Definition described_role (description : option pystr) (r : role) : role :=
  match description with
  | Some _ => mkRole (r_id r) (r_name r) (r_company_domain r) (r_active r) (r_permissions r) (r_system r) description
  | None => r
  end.
Definition activated_role (active : option bool) (r : role) : role :=
  match active with
  | Some b =>
      if r_system r then r
      else mkRole (r_id r) (r_name r) (r_company_domain r) b (r_permissions r) (r_system r) (r_description r)
  | None => r
  end.

Definition rename_role (name : option string) (r : role) : AUTH role :=
  match name with
  | None => mret r
  | Some name =>
      role_name ← valid_name name;
      duplicate ← query (fun d => existsb (fun x => negb (Z.eqb (r_id x) (r_id r)) && has_name (r_company_domain r) role_name x)
                                    (t_roles d));
      ensure (negb duplicate) (HTTPException 409 "A role with this name already exists") ;;
      mret (renamed_role role_name r)
  end.

Definition update_role (role_id : uuid) (payload : role_update) (current_user : account) : AUTH role :=
  caller ← query (fun d => loaded d current_user);
  let globally := is_global_manager "role.manage" caller in
  found ← query (reachable_role globally caller role_id);
  r ← some_or found (HTTPException 404 "Role not found");
  ensure (negb (outside_scope globally caller r)) (HTTPException 403 "Role is outside your management scope") ;;
  ensure (negb (r_system r && match ru_name payload with
                              | Some (String.String _ _ as name) => negb (String.eqb name (r_name r))
                              | _ => false end))
    (HTTPException 400 "System role names cannot be changed") ;;
  r ← rename_role (ru_name payload) r;
  let r := activated_role (ru_active payload) (described_role (ru_description payload) r) in
  put_role r ;;
  commit ;;
  record (ac_id current_user) "role_update" "role" role_id "success" true ;;
  mret r.

(** ** DELETE /roles/{role_id} *)

Definition has_users (d : authdb) (role_id : uuid) : bool :=
  existsb (fun a => existsb (Z.eqb role_id) (ac_role_ids a)) (rows (t_accounts d)).

Definition delete_role (role_id : uuid) (current_user : account) : AUTH unit :=
  caller ← query (fun d => loaded d current_user);
  let globally := is_global_manager "role.manage" caller in
  found ← query (reachable_role globally caller role_id);
  r ← some_or found (HTTPException 404 "Role not found");
  ensure (negb (r_system r)) (HTTPException 400 "System roles cannot be deleted") ;;
  ensure (negb (outside_scope globally caller r)) (HTTPException 403 "Role is outside your management scope") ;;
  used ← query (fun d => has_users d (r_id r));
  ensure (negb used) (HTTPException 409 "Remove users from this role before deleting it") ;;
  write (fun d => d <| t_roles := List.filter (fun x => negb (Z.eqb (r_id x) (r_id r))) (t_roles d) |>) ;;
  commit ;;
  record (ac_id current_user) "role_delete" "role" (r_id r) "success" true.

(** ** PUT /roles/{role_id}/permissions *)

Definition find_permission (d : authdb) (key : string) : option permission :=
  List.find (fun p => String.eqb (p_key p) key) (t_permissions d).

(** Broader than what the caller is granted *)
Definition broader (caller : user) (item : role_permission_input) : bool :=
  rank (default "" (assoc (pi_permission_key item) (get_effective_permissions caller))) <? rank (pi_scope item).

Definition granted_role (d : authdb) (payload : list role_permission_input) (r : role) : role :=
  mkRole (r_id r) (r_name r) (r_company_domain r) (r_active r)
    (omap (fun item => p ← find_permission d (pi_permission_key item); Some (mkRolePermission (Some p) (pi_scope item))) payload)
    (r_system r) (r_description r).

Definition replace_role_permissions (role_id : uuid) (payload : list role_permission_input) (current_user : account)
    : AUTH role :=
  caller ← query (fun d => loaded d current_user);
  let globally := is_global_manager "permission.manage" caller in
  found ← query (reachable_role globally caller role_id);
  r ← some_or found (HTTPException 404 "Role not found");
  ensure (negb (r_system r)) (HTTPException 400 "System role permissions cannot be changed") ;;
  ensure (negb (outside_scope globally caller r)) (HTTPException 403 "Role is outside your management scope") ;;
  ensure (forallb (fun item => mem (pi_scope item) SCOPES) payload) (HTTPException 422 "Invalid permission scope") ;;
  ensure (Z.eqb (len payload) (len (dedup (map pi_permission_key payload))))
    (HTTPException 422 "A permission can only be assigned once per role") ;;
  ensure (negb ((negb (bool_decide (r_company_domain r = None)) || negb globally)
                && existsb (fun item => String.eqb (pi_scope item) "global") payload))
    (HTTPException 403 "Only global permission managers can grant global scopes to global roles") ;;
  known ← query (fun d => forallb (fun item => existsb (fun p => String.eqb (p_key p) (pi_permission_key item)) (t_permissions d)) payload);
  ensure known (HTTPException 422 "Unknown permission key") ;;
  ensure (globally || negb (existsb (broader caller) payload))
    (HTTPException 403 "You cannot delegate permissions broader than your own") ;;
  granted ← query (fun d => granted_role d payload r);
  put_role granted ;;
  commit ;;
  record (ac_id current_user) "role_permissions_update" "role" (r_id r) "success" true ;;
  mret granted.
End RoleAdmin.

(** ** What the calls do to the table of roles *)

Section RoleFacts.
Context `{KbEnv} `{AuthEnv} `{Settings}.

(** The four calls, with the id the database draws for a new role. *)
Inductive role_call (d : authdb) : forall A, AUTH A -> account -> Prop :=
  | rc_create id payload u : existsb (fun r => Z.eqb (r_id r) id) (t_roles d) = false -> role_call d role (create_role id payload u) u
  | rc_update id payload u : role_call d role (update_role id payload u) u
  | rc_delete id u : role_call d unit (delete_role id u) u
  | rc_permissions id payload u : role_call d role (replace_role_permissions id payload u) u.

Lemma atomic_role_call d A (m : AUTH A) u : role_call d A m u -> atomic m.
Proof.
  intros []; [unfold create_role, valid_name|unfold update_role, rename_role, valid_name|unfold delete_role|unfold replace_role_permissions];
    unfold put_role, record; cbv zeta; solve_atomic.
Qed.
End RoleFacts.

Section RoleEffects.
Context `{KbEnv} `{AuthEnv} `{Settings}.

Lemma valid_name_run name s n s' : valid_name name s = (Return n, s') ->
  s' = s /\ n = strip_name name /\ n <> "" /\ is_legacy_owner n = false.
Proof. unfold valid_name. intros Hr. minv. bools. by eqs. Qed.

Lemma reachable_role_some globally caller id d r : reachable_role globally caller id d = Some r ->
  r ∈ t_roles d /\ r_id r = id /\ (globally = true \/ r_company_domain r = Some (u_company_domain caller)).
Proof.
  unfold reachable_role. intros [Hin [He Hs]%andb_true_iff]%find_some. apply list_elem_of_In in Hin.
  split; [done|]. split; [by apply Z.eqb_eq|]. apply orb_true_iff in Hs as [?|Hs]; [by left|right].
  by apply bool_decide_eq_true in Hs.
Qed.

Definition replaced (r : role) (l : list role) : list role := map (fun x => if Z.eqb (r_id x) (r_id r) then r else x) l.

(** What an update may change in a role. *)
Definition edited (r r' : role) : Prop :=
  r_id r' = r_id r /\ r_company_domain r' = r_company_domain r /\ r_permissions r' = r_permissions r
  /\ r_system r' = r_system r /\ (r_system r = true -> r_active r' = r_active r).

Lemma create_role_effect id payload u d r s' :
  create_role id payload u (open_session d) = (Return r, s') ->
  t_roles (committed s') = t_roles d ++ [r] /\ r_id r = id /\ r_permissions r = [] /\ r_system r = false
  /\ r_name r = strip_name (rc_name payload) /\ r_name r <> ""
  /\ existsb (has_name (r_company_domain r) (r_name r)) (t_roles d) = false
  /\ (has_permission (loaded d u) "role.manage" None "global" = true \/ r_company_domain r = Some (ac_company_domain u)).
Proof.
  unfold create_role, record. intros Hr. minv.
  match goal with Hv : valid_name _ _ = _ |- _ => apply valid_name_run in Hv as (-> & -> & Hne & _) end.
  cbn [working committed published open_session] in *. bools. split_and!; try done.
  match goal with Hc : _ || _ = true |- _ => apply orb_true_iff in Hc as [Hg|Hg] end; [by left|right].
  by apply bool_decide_eq_true in Hg.
Qed.

Lemma update_role_effect id payload u d r' s' :
  update_role id payload u (open_session d) = (Return r', s') ->
  exists r, r ∈ t_roles d /\ t_roles (committed s') = replaced r' (t_roles d) /\ edited r r'
    /\ (r_name r' = r_name r
        \/ r_name r' <> "" /\ (exists name, r_name r' = strip_name name /\ (r_system r = true -> name = r_name r))
           /\ existsb (fun x => negb (Z.eqb (r_id x) (r_id r)) && has_name (r_company_domain r) (r_name r') x) (t_roles d) = false)
    /\ (has_permission (loaded d u) "role.manage" None "global" = true \/ r_company_domain r = Some (ac_company_domain u)).
Proof.
  unfold update_role, record, put_role. intros Hr. minv.
  match goal with Hf : reachable_role _ _ _ _ = Some ?x |- _ => apply reachable_role_some in Hf as (Hin & Hid & Hscope); rename x into r end.
  match goal with Hn : rename_role _ _ _ = (Return ?x, _) |- _ => rename Hn into Hname; rename x into r1 end.
  cbn [working committed published open_session] in *.
  assert (Hed : edited r (activated_role (ru_active payload) (described_role (ru_description payload) r1)) <-> edited r r1).
  { unfold activated_role, described_role, edited. destruct (ru_active payload), (ru_description payload); cbn; try done;
      destruct (r_system r1) eqn:Hs; cbn; naive_solver congruence. }
  assert (Hnm : r_name (activated_role (ru_active payload) (described_role (ru_description payload) r1)) = r_name r1)
    by (unfold activated_role, described_role; by repeat case_match).
  unfold rename_role in Hname. destruct (ru_name payload) as [name|] eqn:Hpn.
  - minv. match goal with Hv : valid_name _ _ = _ |- _ => apply valid_name_run in Hv as (-> & -> & Hne & _) end.
    exists r. cbn [working] in *. rewrite Hed, Hnm. split_and!; [done|done|done| |done].
    right. cbn [renamed_role r_name]. split; [done|]. split; [|by bools]. exists name. split; [done|]. intros Hs.
    destruct name as [|c n]; [by destruct Hne|].
    match goal with Hn : negb (r_system r && _) = true |- _ => rewrite Hs in Hn; cbn [andb] in Hn;
      apply negb_true_iff, negb_false_iff, String.eqb_eq in Hn; exact Hn end.
  - minv. match goal with Hi : ?x ∈ t_roles d |- _ => exists x end. rewrite Hed, Hnm. split_and!; [done|done|done|by left|done].
Qed.

Lemma delete_role_effect id u d x s' :
  delete_role id u (open_session d) = (Return x, s') ->
  exists r, r ∈ t_roles d /\ r_id r = id /\ r_system r = false /\ has_users d id = false
    /\ t_roles (committed s') = List.filter (fun x => negb (Z.eqb (r_id x) id)) (t_roles d)
    /\ (has_permission (loaded d u) "role.manage" None "global" = true \/ r_company_domain r = Some (ac_company_domain u)).
Proof.
  unfold delete_role, record. intros Hr. minv.
  match goal with Hf : reachable_role _ _ _ _ = Some ?y |- _ => apply reachable_role_some in Hf as (Hin & Hid & Hscope); rename y into r end.
  cbn [working committed published open_session] in *. bools. exists r. rewrite Hid in *. by split_and!.
Qed.

Lemma replace_role_permissions_effect id payload u d r' s' :
  replace_role_permissions id payload u (open_session d) = (Return r', s') ->
  exists r, r ∈ t_roles d /\ r_id r = id /\ r_system r = false /\ r' = granted_role d payload r
    /\ t_roles (committed s') = replaced r' (t_roles d)
    /\ (forall item, item ∈ payload -> mem (pi_scope item) SCOPES = true)
    /\ (existsb (fun item => String.eqb (pi_scope item) "global") payload = true ->
          has_permission (loaded d u) "permission.manage" None "global" = true /\ r_company_domain r = None)
    /\ (has_permission (loaded d u) "permission.manage" None "global" = true
        \/ r_company_domain r = Some (ac_company_domain u)
           /\ forall item, item ∈ payload -> broader (loaded d u) item = false).
Proof.
  unfold replace_role_permissions, record, put_role. intros Hr. minv.
  match goal with Hf : reachable_role _ _ _ _ = Some ?y |- _ => apply reachable_role_some in Hf as (Hin & Hid & Hscope); rename y into r end.
  cbn [working committed published open_session] in *. exists r. split_and!; try done.
  - by bools.
  - intros item Hitem. match goal with Hf : forallb _ payload = true |- _ => rewrite forallb_forall in Hf; apply Hf end.
    by apply list_elem_of_In.
  - intros Hg. match goal with Hn : negb (_ && existsb _ payload) = true |- _ => apply negb_true_iff in Hn; rewrite Hg, andb_true_r in Hn; rename Hn into Hglob end.
    apply orb_false_iff in Hglob as [Hn Hgl]. apply negb_false_iff in Hn, Hgl. apply bool_decide_eq_true in Hn. done.
  - match goal with Hn : is_global_manager _ _ || negb _ = true |- _ => apply orb_true_iff in Hn as [Hg|Hg] end; [by left|].
    destruct Hscope as [Hg'|Hdom]; [by left|]. right. split; [done|]. intros item Hitem.
    apply negb_true_iff in Hg. by eapply existsb_false in Hg.
Qed.
End RoleEffects.

(** ** The table of roles over the calls *)

Section RoleTable.
Context `{KbEnv} `{AuthEnv} `{Settings}.

Definition manages (d : authdb) (u : account) (permission : string) (r : role) : Prop :=
  has_permission (loaded d u) permission None "global" = true \/ r_company_domain r = Some (ac_company_domain u).

Definition name_free (d : authdb) (company : option string) (id : uuid) (name : string) : Prop :=
  name <> "" /\ strip_name name = name
  /\ existsb (fun x => negb (Z.eqb (r_id x) id) && has_name company name x) (t_roles d) = false.

(** What a call by [u] may do to the roles of [d]. *)
Inductive role_change (d : authdb) (u : account) : list role -> Prop :=
  | ch_none : role_change d u (t_roles d)
  | ch_add r :
      (forall x, x ∈ t_roles d -> r_id x <> r_id r) -> name_free d (r_company_domain r) (r_id r) (r_name r) ->
      r_system r = false -> manages d u "role.manage" r -> role_change d u (t_roles d ++ [r])
  | ch_edit r r' :
      r ∈ t_roles d -> edited r r' ->
      (r_name r' = r_name r
       \/ name_free d (r_company_domain r) (r_id r) (r_name r') /\ (r_system r = true -> r_name r' = strip_name (r_name r))) ->
      manages d u "role.manage" r -> role_change d u (replaced r' (t_roles d))
  | ch_remove r :
      r ∈ t_roles d -> r_system r = false -> manages d u "role.manage" r ->
      role_change d u (List.filter (fun x => negb (Z.eqb (r_id x) (r_id r))) (t_roles d))
  | ch_grant r r' :
      r ∈ t_roles d -> r_system r = false -> r_id r' = r_id r -> r_name r' = r_name r ->
      r_company_domain r' = r_company_domain r -> r_system r' = false ->
      manages d u "permission.manage" r -> role_change d u (replaced r' (t_roles d)).

Lemma name_chars n : Forall (fun c => 0 <= c < 256) (ps n).
Proof.
  apply Forall_forall. intros c (x & -> & _)%elem_of_map. pose proof (Ascii.nat_ascii_bounded x). lia.
Qed.

Lemma ps_domain_key l : Forall (fun c => 0 <= c < 256) l -> ps (domain_key l) = l.
Proof.
  intros Hl. unfold ps, domain_key. rewrite String.list_ascii_of_string_of_list_ascii, map_map.
  induction Hl as [|c l Hc _ IH]; cbn [map]; [done|]. rewrite IH. f_equal. unfold Ascii.nat_of_ascii.
  rewrite Ascii.N_ascii_embedding by lia. lia.
Qed.

Lemma strip_chars l : Forall (fun c => 0 <= c < 256) l -> Forall (fun c => 0 <= c < 256) (strip l).
Proof.
  destruct (strip_spec l) as (pre & suf & He & _). rewrite He at 1. rewrite !Forall_app. tauto.
Qed.

Lemma strip_name_idemp n : strip_name (strip_name n) = strip_name n.
Proof.
  unfold strip_name. rewrite ps_domain_key by (apply strip_chars, name_chars). by rewrite strip_idemp.
Qed.

Lemma role_call_changes d A (m : AUTH A) u :
  role_call d A m u -> role_change d u (t_roles (committed (m (open_session d)).2)).
Proof.
  intros Hc. pose proof (atomic_role_call d A m u Hc) as Hat. destruct (m (open_session d)) as [[a|e] s'] eqn:Hr; cbn [snd].
  2: { apply Hat in Hr as [-> _]. apply ch_none. }
  clear Hat. destruct Hc as [id payload u Hf|id payload u|id u|id payload u].
  - apply create_role_effect in Hr as (-> & <- & _ & Hs & Hn & Hne & Hfree & Hm). apply ch_add; [|split_and!|done|done].
    + intros x Hx He. eapply existsb_false in Hf; [|exact Hx]. by rewrite He, Z.eqb_refl in Hf.
    + done.
    + rewrite Hn. apply strip_name_idemp.
    + apply existsb_false. intros x Hx. eapply existsb_false in Hfree; [|exact Hx]. by rewrite Hfree, andb_false_r.
  - apply update_role_effect in Hr as (r & Hin & -> & Hed & Hn & Hm). apply (ch_edit d u r); [done|done| |done].
    destruct Hn as [?|(Hne & (name & Hn & Hs) & Hfree)]; [by left|right]. split.
    + split; [done|]. split; [|done]. rewrite Hn. apply strip_name_idemp.
    + intros Hsys. by rewrite Hn, (Hs Hsys).
  - apply delete_role_effect in Hr as (r & Hin & <- & Hs & _ & -> & Hm). by apply ch_remove.
  - apply replace_role_permissions_effect in Hr as (r & Hin & <- & Hs & -> & -> & _ & _ & Hm).
    apply (ch_grant d u r); try done. destruct Hm as [?|[? _]]; [by left|by right].
Qed.

(** Ids are unique, names are stripped and, within a company and among the global roles,
    unique whatever their case. *)
Record roles_ok (l : list role) : Prop := {
  ro_ids : NoDup (map r_id l);
  ro_stripped : forall r, r ∈ l -> strip_name (r_name r) = r_name r;
  ro_names : forall r x, r ∈ l -> x ∈ l -> r_company_domain x = r_company_domain r ->
    lower_name (r_name x) = lower_name (r_name r) -> r_id x = r_id r
}.

Lemma replaced_elem r' l x : x ∈ replaced r' l -> x ∈ l /\ r_id x <> r_id r' \/ x = r' /\ exists y, y ∈ l /\ r_id y = r_id r'.
Proof.
  intros (y & -> & Hy)%elem_of_map. destruct (Z.eqb_spec (r_id y) (r_id r')) as [He|He]; [right|by left]. eauto.
Qed.

Lemma replaced_keeps r' l x : x ∈ l -> r_id x <> r_id r' -> x ∈ replaced r' l.
Proof. intros Hx Hn. apply elem_of_map. exists x. split; [|done]. by destruct (Z.eqb_spec (r_id x) (r_id r')). Qed.

Lemma replaced_new r' l x : x ∈ l -> r_id x = r_id r' -> r' ∈ replaced r' l.
Proof. intros Hx He. apply elem_of_map. exists x. split; [|done]. by rewrite He, Z.eqb_refl. Qed.

Lemma replaced_ids r' l : map r_id (replaced r' l) = map r_id l.
Proof.
  unfold replaced. rewrite map_map. induction l as [|x l IH]; cbn; [done|]. rewrite IH. f_equal.
  by destruct (Z.eqb_spec (r_id x) (r_id r')).
Qed.

Lemma name_free_other d company id name x :
  name_free d company id name -> x ∈ t_roles d -> r_id x <> id -> r_company_domain x = company ->
  lower_name (r_name x) <> lower_name name.
Proof.
  intros (_ & _ & Hf) Hx Hn Hc Hl. eapply existsb_false in Hf; [|exact Hx]. unfold has_name in Hf.
  rewrite (proj2 (Z.eqb_neq _ _) Hn), Hl, String.eqb_refl, bool_decide_true in Hf by done. done.
Qed.

Lemma replaced_ok d r r' :
  roles_ok (t_roles d) -> r ∈ t_roles d -> r_id r' = r_id r -> r_company_domain r' = r_company_domain r ->
  (r_name r' = r_name r \/ name_free d (r_company_domain r) (r_id r) (r_name r')) ->
  roles_ok (replaced r' (t_roles d)).
Proof.
  intros [Hi Hs Hn] Hr Hid Hc Hname. constructor.
  - by rewrite replaced_ids.
  - intros x [[Hx _]|[-> _]]%replaced_elem; [by apply Hs|]. destruct Hname as [->|(_ & ? & _)]; [by apply Hs|done].
  - assert (Hother : forall x, x ∈ t_roles d -> r_id x <> r_id r' -> r_company_domain x = r_company_domain r' ->
        lower_name (r_name x) <> lower_name (r_name r')).
    { intros x Hx Hne Hcx Hl. rewrite Hid in Hne. rewrite Hc in Hcx. destruct Hname as [Hn'|Hfree].
      - apply Hne. rewrite Hn' in Hl. by apply Hn.
      - by apply (name_free_other d _ _ _ x Hfree). }
    intros x y [[Hx Hnx]|[-> _]]%replaced_elem [[Hy Hny]|[-> _]]%replaced_elem Hco Hl; [by apply Hn| | |done].
    + destruct (Hother x Hx Hnx); [by rewrite Hco|done].
    + by destruct (Hother y Hy Hny).
Qed.

Lemma change_ok d u l : roles_ok (t_roles d) -> role_change d u l -> roles_ok l.
Proof.
  intros Hok Hch. pose proof Hok as [Hi Hs Hn].
  destruct Hch as [|r Hid Hname _ _|r r' Hr (He & Hc & _) Hname _|r Hr _ _|r r' Hr _ Hid Hnm Hc _ _].
  - done.
  - constructor.
    + rewrite map_app. apply NoDup_app. split; [done|]. split; [|apply NoDup_singleton].
      intros i (x & -> & Hx)%elem_of_map Hin. apply list_elem_of_singleton in Hin. by apply (Hid x Hx).
    + intros x [Hx| ->%list_elem_of_singleton]%elem_of_app; [by apply Hs|by apply Hname].
    + intros x y [Hx| ->%list_elem_of_singleton]%elem_of_app [Hy| ->%list_elem_of_singleton]%elem_of_app Hco Hl; [by apply Hn| | |done].
      * by destruct (name_free_other d _ _ _ x Hname Hx (Hid x Hx) (eq_sym Hco)).
      * by destruct (name_free_other d _ _ _ y Hname Hy (Hid y Hy) Hco).
  - apply (replaced_ok d r); try done. destruct Hname as [?|[? _]]; [by left|by right].
  - constructor.
    + clear -Hi. induction (t_roles d) as [|x l IH]; [constructor|]. cbn [map] in Hi. apply NoDup_cons in Hi as [Hx Hl].
      cbn [List.filter]. destruct (negb _); [|by apply IH]. cbn [map]. apply NoDup_cons. split; [|by apply IH].
      intros (y & Hy & Hin)%elem_of_map. apply elem_of_filter_b in Hin as [Hin _]. apply Hx. rewrite Hy. apply elem_of_map. eauto.
    + intros x [Hx _]%elem_of_filter_b. by apply Hs.
    + intros x y [Hx _]%elem_of_filter_b [Hy _]%elem_of_filter_b. by apply Hn.
  - apply (replaced_ok d r); try done. by left.
Qed.
End RoleTable.

Section RoleTheorems.
Context `{KbEnv} `{AuthEnv} `{Settings}.

(** The table of roles stays well formed: whatever call is made, by whomever and with
    whatever answer, ids remain unique, names stripped, and no company (nor the set of global
    roles) has two roles whose names differ only in case. *)
Theorem role_table_well_formed (d : authdb) (A : Type) (m : AUTH A) (u : account) :
  role_call d A m u -> roles_ok (t_roles d) -> roles_ok (t_roles (committed (m (open_session d)).2)).
Proof. intros Hc Hok. eapply change_ok; [done|]. by apply (role_call_changes d A m u). Qed.

(** C35. The system roles, CEO and Admin among them, cannot be touched: no call deletes,
    renames, deactivates or regrants one, or creates or renames another role to its name in
    the same company, so nobody gets an executive's standing by naming a role. *)
Theorem system_roles_reserved (d : authdb) (A : Type) (m : AUTH A) (u : account) (r : role) :
  role_call d A m u -> roles_ok (t_roles d) -> r ∈ t_roles d -> r_system r = true ->
  let l := t_roles (committed (m (open_session d)).2) in
  (exists r', r' ∈ l /\ r_id r' = r_id r /\ r_name r' = r_name r /\ r_company_domain r' = r_company_domain r
     /\ r_active r' = r_active r /\ r_permissions r' = r_permissions r /\ r_system r' = true)
  /\ forall x, x ∈ l -> r_company_domain x = r_company_domain r -> lower_name (r_name x) = lower_name (r_name r) ->
       r_id x = r_id r.
Proof.
  intros Hc Hok Hr Hs l. pose proof (role_call_changes d A m u Hc) as Hch. fold l in Hch. clearbody l.
  pose proof (change_ok d u l Hok Hch) as Hok'.
  enough (He : exists r', r' ∈ l /\ r_id r' = r_id r /\ r_name r' = r_name r /\ r_company_domain r' = r_company_domain r
     /\ r_active r' = r_active r /\ r_permissions r' = r_permissions r /\ r_system r' = true).
  { split; [done|]. destruct He as (r' & Hr' & Hid & Hn & Hco & _). intros x Hx Hcx Hlx. rewrite <- Hid.
    apply (ro_names l Hok'); [done|done|congruence|congruence]. }
  destruct Hch as [|x Hid _ _ _|x r' Hx (Hid & Hco & Hp & Hsy & Hac) Hname _|x Hx Hsx _|x r' Hx Hsx Hid Hnm Hco Hs' _].
  - exists r. done.
  - exists r. split; [apply elem_of_app; by left|done].
  - destruct (decide (r_id r = r_id x)) as [He|He].
    + assert (x = r) as -> by (apply (NoDup_map_eq r_id (t_roles d)); [apply Hok|done..]).
      exists r'. split; [by apply (replaced_new r' _ r)|]. split_and!; try congruence; [|by apply Hac].
      destruct Hname as [?|[_ Hn]]; [done|]. rewrite Hn by done. by apply (ro_stripped _ Hok).
    + exists r. split; [apply replaced_keeps; congruence|done].
  - exists r. split; [|done]. apply elem_of_filter_b. split; [done|]. apply negb_true_iff, Z.eqb_neq. intros He.
    assert (x = r) as -> by (apply (NoDup_map_eq r_id (t_roles d)); [apply Hok|done..]). congruence.
  - exists r. split; [|done]. apply replaced_keeps; [done|]. intros He.
    assert (x = r) as -> by (apply (NoDup_map_eq r_id (t_roles d)); [apply Hok|done|done|congruence]). congruence.
Qed.

(** A company's manager of roles and permissions is confined to the roles of the company:
    the roles of other companies and the global ones are exactly the same after any call. *)
Theorem company_roles_confined (d : authdb) (A : Type) (m : AUTH A) (u : account) (r : role) :
  role_call d A m u -> roles_ok (t_roles d) ->
  has_permission (loaded d u) "role.manage" None "global" = false ->
  has_permission (loaded d u) "permission.manage" None "global" = false ->
  r_company_domain r <> Some (ac_company_domain u) ->
  r ∈ t_roles (committed (m (open_session d)).2) <-> r ∈ t_roles d.
Proof.
  intros Hc Hok Hg1 Hg2 Hco. pose proof (role_call_changes d A m u Hc) as Hch. revert Hch.
  generalize (t_roles (committed (m (open_session d)).2)). intros l Hch.
  assert (Hrep : forall x x', x ∈ t_roles d -> r_id x' = r_id x -> r_company_domain x' = r_company_domain x ->
      r_company_domain x = Some (ac_company_domain u) -> r ∈ replaced x' (t_roles d) <-> r ∈ t_roles d).
  { intros x x' Hx Hid Hcx Hown. split.
    - intros [[Hr _]|[-> _]]%replaced_elem; [done|]. congruence.
    - intros Hr. apply replaced_keeps; [done|]. intros He.
      assert (r = x) as -> by (apply (NoDup_map_eq r_id (t_roles d)); [apply Hok|done|done|congruence]). congruence. }
  destruct Hch as [|x _ _ _ [Hm|Hm]|x x' Hx (Hid & Hcx & _) _ [Hm|Hm]|x Hx _ [Hm|Hm]|x x' Hx _ Hid _ Hcx _ [Hm|Hm]];
    try congruence.
  - done.
  - rewrite elem_of_app, list_elem_of_singleton. split; [intros [?| ->]; [done|congruence]|by left].
  - by apply (Hrep x).
  - rewrite elem_of_filter_b. split; [by intros [? _]|]. intros Hr. split; [done|]. apply negb_true_iff, Z.eqb_neq. intros He.
    assert (r = x) as -> by (by apply (NoDup_map_eq r_id (t_roles d)); [apply Hok|..]). congruence.
  - by apply (Hrep x).
Qed.

End RoleTheorems.

(** ** A concrete company *)

#[local] Existing Instance demo_env.
#[local] Existing Instance demo_auth.
#[local] Existing Instance demo_settings.

Definition catalog : list permission := [mkPermission 51 "role.manage"; mkPermission 52 "permission.manage"; mkPermission 53 "article.read"].
Definition granting (key scope : string) : role_permission := mkRolePermission (List.find (fun p => String.eqb (p_key p) key) catalog) scope.
Definition managed_roles : list role :=
  [mkRole 1 "Admin" None true [granting "role.manage" "global"] true None;
   mkRole 2 "CEO" (Some "kb.example") true
     [granting "role.manage" "company"; granting "permission.manage" "company"; granting "article.read" "company"] true None;
   mkRole 4 "Auditor" (Some "kb.example") true [granting "article.read" "own"] false None].
Definition managed_company : authdb := mkAuthDb {[2 := boss_account]} managed_roles catalog [] ∅ ∅ ∅ ∅ [] [] [].

Lemma managed_roles_ok : roles_ok (t_roles managed_company).
Proof.
  constructor.
  - apply (bool_decide_unpack _). vm_compute. exact I.
  - apply Forall_forall. repeat (constructor; [reflexivity|]). constructor.
  - assert (Hall : forallb (fun r => forallb (fun x => negb (bool_decide (r_company_domain x = r_company_domain r)
        && String.eqb (lower_name (r_name x)) (lower_name (r_name r))) || Z.eqb (r_id x) (r_id r)) managed_roles) managed_roles = true)
      by (vm_compute; reflexivity).
    intros r x Hr Hx Hco Hl. rewrite forallb_forall in Hall. specialize (Hall r (proj1 (list_elem_of_In _ _) Hr)).
    rewrite forallb_forall in Hall. specialize (Hall x (proj1 (list_elem_of_In _ _) Hx)).
    rewrite bool_decide_true, Hl, String.eqb_refl in Hall by done. by apply Z.eqb_eq.
Qed.

(** The boss tries to rename the custom role to CEO. *)
Definition take_title : AUTH role := update_role 4 (mkRoleUpdate (Some "ceo ") None None) boss_account.

Lemma role_table_well_formed_witness : roles_ok (t_roles (committed (take_title (open_session managed_company)).2)).
Proof. exact (role_table_well_formed managed_company role take_title boss_account (rc_update _ 4 _ boss_account) managed_roles_ok). Defined.

Lemma system_roles_reserved_witness :
  let l := t_roles (committed (take_title (open_session managed_company)).2) in
  (take_title (open_session managed_company)).1 = Raise (HTTPException 409 "A role with this name already exists")
  /\ Forall (fun x => r_company_domain x = Some "kb.example" -> lower_name (r_name x) = "ceo" -> r_id x = 2) l.
Proof.
  split; [vm_compute; reflexivity|]. apply Forall_forall. intros x Hx Hco Hl.
  assert (Hin : nth 1 managed_roles (mkRole 0 "" None true [] false None) ∈ t_roles managed_company)
    by (apply elem_of_cons; right; by left).
  exact (proj2 (system_roles_reserved managed_company role take_title boss_account _ (rc_update _ 4 _ boss_account)
    managed_roles_ok Hin eq_refl) x Hx Hco Hl).
Defined.

Lemma company_roles_confined_witness :
  let l := t_roles (committed (create_role 9 (mkRoleCreate " Reader " None None) boss_account (open_session managed_company)).2) in
  length l = 4%nat /\ (hd (mkRole 0 "" None true [] false None) managed_roles ∈ l).
Proof.
  split; [vm_compute; reflexivity|].
  apply (company_roles_confined managed_company role (create_role 9 (mkRoleCreate " Reader " None None) boss_account) boss_account);
    [by apply rc_create|exact managed_roles_ok|vm_compute; reflexivity|vm_compute; reflexivity|discriminate|by left].
Defined.

