(* ===== verification/Invitations.v ===== *)
(** * Invitations (src/api/routers/auth.py)

    Inviting an address, renewing and revoking the invitation, and turning it into an account
    with a password. *)

From S2P Require Import Prelude PyText Models Rbac Store Identity Sessions Credentials UserAdmin.
From Stdlib Require String.
#[local] Open Scope string_scope.
#[local] Open Scope list_scope.
#[local] Open Scope Z_scope.

Section Invitations.
Context `{KbEnv} `{AuthEnv} `{Settings}.

Definition put_invitation (i : invitation) : AUTH unit :=
  write (fun d => d <| t_invitations := <[iv_id i := i]> (t_invitations d) |>).
Definition queue_mail (m : queued_mail) : AUTH unit :=
  write (fun d => d <| t_mails := t_mails d ++ [m] |>).

Inductive invitation_status := Revoked | Accepted | Expired | Pending.
Definition _invitation_status (now : datetime) (i : invitation) : invitation_status :=
  match iv_revoked_at i, iv_used_at i with
  | Some _, _ => Revoked
  | None, Some _ => Accepted
  | None, None => if iv_expires_at i <=? now then Expired else Pending
  end.

(** [InvitationCreate] *)
Record invitation_create := mkInvite {
  ic_email : pystr;
  ic_name : pystr;
  ic_role : string;
  ic_audience_ids : list uuid
}.

Definition week : Z := 604800000000.

Definition create_invitation (now : datetime) (id : uuid) (raw_token : pystr) (payload : invitation_create)
    (current_user : account) : AUTH invitation :=
  caller ← query (fun d => loaded d current_user);
  let email := py_lower (ic_email payload) in
  let domain := email_domain email in
  ensure (String.eqb domain (u_company_domain caller) || has_permission caller "user.manage" None "global")
    (HTTPException 403 "Employee email must remain in the company domain") ;;
  ensure (mem (ic_role payload) MANAGED_PRIMARY_ROLES) (HTTPException 422 "Unsupported employee role") ;;
  ensure (negb (mem (ic_role payload) ["Admin"; "CEO"]) || _is_global_user_manager caller)
    (HTTPException 403 "Only global user managers can assign global or executive roles") ;;
  existing ← query (fun d => List.find (email_is email) (rows (t_accounts d)));
  ensure (match existing with Some a => negb (ac_active a) | None => true end)
    (HTTPException 409 "An active account already exists for this email") ;;
  ensure (negb (reset_operator email))
    (HTTPException 403 "This address is reserved for database-reset operations and cannot be invited") ;;
  found ← query (fun d => departments_in d (u_company_domain caller) (ic_audience_ids payload));
  ensure (match ic_audience_ids payload with
          | [] => true
          | ids => Z.eqb (len found) (len (dedup ids)) end)
    (HTTPException 422 "One or more audiences are not available in this company") ;;
  let item := mkInvitation id email (strip (ic_name payload)) (ic_role payload) domain (ic_audience_ids payload)
                (_token_hash raw_token) (now + week) None None (Some (ac_id current_user)) None in
  put_invitation item ;;
  queue_mail (mkMail (ac_id current_user) email raw_token) ;;
  commit ;;
  record (ac_id current_user) "invitation_create" "invitation" id "success" true ;;
  mret item.

Definition company_invitation (d : authdb) (id : uuid) (current_user : account) : option invitation :=
  i ← t_invitations d !! id;
  if String.eqb (iv_company_domain i) (ac_company_domain current_user) then Some i else None.

Definition invitation_not_found : exn := HTTPException 404 "Invitation not found".

Definition resend_invitation (now : datetime) (raw_token : pystr) (id : uuid) (current_user : account) : AUTH invitation :=
  found ← query (fun d => company_invitation d id current_user);
  item ← some_or found invitation_not_found;
  ensure (bool_decide (iv_used_at item = None) && bool_decide (iv_revoked_at item = None))
    (HTTPException 409 "This invitation can no longer be resent") ;;
  let renewed : invitation := item <| iv_token_hash := _token_hash raw_token |> <| iv_expires_at := now + week |> in
  put_invitation renewed ;;
  queue_mail (mkMail (ac_id current_user) (iv_email item) raw_token) ;;
  commit ;;
  record (ac_id current_user) "invitation_resend" "invitation" (iv_id item) "success" true ;;
  mret renewed.

Definition revoke_invitation (now : datetime) (id : uuid) (current_user : account) : AUTH invitation :=
  found ← query (fun d => company_invitation d id current_user);
  item ← some_or found invitation_not_found;
  let revoked : invitation := match iv_used_at item with
                              | None => item <| iv_revoked_at := Some now |>
                              | Some _ => item end in
  put_invitation revoked ;;
  commit ;;
  record (ac_id current_user) "invitation_revoke" "invitation" (iv_id item) "success" true ;;
  mret revoked.

Definition find_invitation (d : authdb) (raw : pystr) : option invitation :=
  List.find (fun i => bool_decide (iv_token_hash i = _token_hash raw)) (rows (t_invitations d)).

Definition _live_invitation (now : datetime) (raw : pystr) : AUTH invitation :=
  found ← query (fun d => find_invitation d raw);
  item ← some_or found invitation_not_found;
  ensure (bool_decide (iv_revoked_at item = None)) (HTTPException 410 "This invitation was revoked") ;;
  ensure (bool_decide (iv_used_at item = None)) (HTTPException 409 "This invitation has already been accepted") ;;
  ensure (now <? iv_expires_at item) (HTTPException 410 "This invitation has expired") ;;
  mret item.

(** What an invitee sees before accepting *)
Definition preview_invitation (now : datetime) (origin : pystr) (allowed : bool) (token : pystr)
    : AUTH (pystr * pystr * string * string * datetime) :=
  _reject_cross_site_auth_request origin ;;
  ensure allowed too_many ;;
  item ← _live_invitation now token;
  mret (iv_email item, iv_name item, iv_role item, iv_company_domain item, iv_expires_at item).

(** The row an accepted invitation starts from: the deactivated account of the address, or a
    new one. *)
Definition invited_account (item : invitation) (email : pystr) (id : uuid) (hash : pystr)
    (existing : option account) : account :=
  match existing with
  | Some a => a <| ac_name := match iv_name item with [] => ac_name a | name => name end |>
                <| ac_role := iv_role item |> <| ac_active := true |>
                <| ac_password_hash := hash |> <| ac_auth_version := ac_auth_version a + 1 |>
  | None => mkAccount id email (iv_name item) hash (iv_company_domain item) None (iv_role item) true 0 [] [] []
  end.

(** The memberships the invitation promises, of the account's own company *)
Definition with_audience (d : authdb) (item : invitation) (a : account) : account :=
  match iv_audience_ids item with
  | [] => a
  | ids =>
      let memberships := List.filter (fun x => bool_decide (dp_id x ∈ ids)
                           && String.eqb (dp_company_domain x) (ac_company_domain a)) (t_depts d) in
      let joined : account := a <| ac_department_ids := map dp_id memberships |> in
      match memberships with
      | x :: _ => if otruthy (ac_dept a) then joined else joined <| ac_dept := Some (dp_name x) |>
      | [] => joined
      end
  end.

Definition accept_invitation (now : datetime) (dw : draws) (user_id : uuid) (origin : pystr) (c : client)
    (allowed : bool) (token password : pystr) : AUTH (account * token_pair) :=
  _reject_cross_site_auth_request origin ;;
  ensure allowed too_many ;;
  _validate_password password ;;
  item ← _live_invitation now token;
  let email := py_lower (strip (iv_email item)) in
  found ← query (fun d => get_by_email d email);
  existing ← match found with
             | NoAccount => mret None
             | Found a => ensure (negb (ac_active a))
                            (HTTPException 409 "An active account already exists for this email") ;;
                          mret (Some a)
             | AmbiguousEmail => raise (HTTPException 409 "More than one account matches this invitation's email")
             end;
  hash ← get_password_hash (dw_salt dw) password;
  let a := invited_account item email user_id hash existing in
  put_account a ;;
  bootstrap_rbac (dw_row_ids dw) ;;
  provisioned ← query (fun d => get_account d (ac_id a));
  a ← some_or provisioned (HTTPException 500 "Could not provision the account");
  a ← query (fun d => with_audience d item a);
  put_account a ;;
  put_invitation (item <| iv_used_at := Some now |> <| iv_accepted_user_id := Some (ac_id a) |>) ;;
  let p := mint now dw a in
  _store_refresh_session now (dw_session_id dw) (dw_family_id dw) (ac_id a) (tp_refresh p) c None ;;
  record (ac_id a) "invitation_accept" "user" (ac_id a) "success" false ;;
  commit ;;
  mret (a, p).
End Invitations.

(** ** Facts *)

Section Bootstrap.
Context (fresh : uuid -> uuid).

Lemma fold_frame {A B} (f : authdb -> B) (g : authdb -> A -> authdb) (l : list A) d :
  (forall d x, f (g d x) = f d) -> f (fold_left g l d) = f d.
Proof. intros Hg. revert d. induction l as [|x l IH]; intros d; cbn; [done|]. by rewrite IH. Qed.

(** Tables the bootstrap of permissions and roles leaves alone *)
Definition others (d : authdb) := (t_accounts d, t_sessions d, t_resets d, t_invitations d, t_depts d).

Lemma ensure_permission_others d key : others (ensure_permission fresh d key) = others d.
Proof. unfold ensure_permission. by case_match. Qed.
Lemma ensure_role_others name domain d : others (ensure_role fresh name domain d) = others d.
Proof. unfold ensure_role. cbn zeta. by case_match. Qed.

Lemma ensure_role_accounts name domain d : t_accounts (ensure_role fresh name domain d) = t_accounts d.
Proof. pose proof (ensure_role_others name domain d) as Ho. unfold others in Ho. congruence. Qed.

(** What backfilling roles does to one account: nothing but give it roles when it has none *)
Definition backfilled (a b : account) : Prop :=
  exists ids : list uuid, b = a <| ac_role_ids := ids |> /\ (ac_role_ids a <> [] -> b = a).

Lemma backfilled_refl a : backfilled a a.
Proof. exists (ac_role_ids a). by destruct a. Qed.

Lemma backfill_accounts d a i b : t_accounts d !! i = Some b -> (ac_id a = i -> backfilled a b) ->
  exists c, t_accounts (backfill fresh d a) !! i = Some c /\ (ac_id a = i -> backfilled a c) /\ (ac_id a <> i -> c = b).
Proof.
  intros Hb Hab. unfold backfill. destruct (ac_role_ids a) as [|r l] eqn:Hr; cbn zeta.
  2: { exists b. by split_and!. }
  set (d1 := ensure_role fresh _ _ d). assert (Hd1 : t_accounts d1 = t_accounts d) by apply ensure_role_accounts.
  destruct (List.find _ (t_roles d1)) as [r|].
  - cbn. destruct (decide (ac_id a = i)) as [<-|Hne].
    + rewrite lookup_insert_eq. eexists. split_and!; [done| |done]. intros _. exists [r_id r]. split; [done|]. by rewrite Hr.
    + rewrite lookup_insert_ne, Hd1, Hb by done. exists b. by split_and!.
  - rewrite Hd1, Hb. exists b. by split_and!.
Qed.

Lemma backfill_all l d i a b : NoDup (map ac_id l) -> (forall x, x ∈ l -> ac_id x = i -> x = a) ->
  t_accounts d !! i = Some b -> backfilled a b ->
  exists c, t_accounts (fold_left (backfill fresh) l d) !! i = Some c /\ backfilled a c.
Proof.
  revert d b. induction l as [|x l IH]; intros d b Hnd Hx Hb Hab; cbn; [by exists b|].
  cbn in Hnd. apply NoDup_cons in Hnd as [_ Hnd].
  destruct (backfill_accounts d x i b Hb) as (c & Hc & Hsame & Hother).
  { intros He. by rewrite (Hx x (list_elem_of_here x l) He). }
  apply (IH _ c); [done|intros y Hy; apply Hx; by right|done|].
  destruct (decide (ac_id x = i)) as [He|Hne]; [|by rewrite Hother].
  rewrite <- (Hx x (list_elem_of_here x l) He). by apply Hsame.
Qed.

Lemma bootstrapped_account d i a : keyed ac_id (t_accounts d) -> t_accounts d !! i = Some a ->
  exists b, t_accounts (bootstrapped fresh d) !! i = Some b /\ backfilled a b.
Proof.
  intros Hk Ha. unfold bootstrapped. cbn zeta.
  set (d1 := fold_left (ensure_permission fresh) PERMISSION_CATALOG d).
  assert (H1 : others d1 = others d) by (apply fold_frame, ensure_permission_others).
  set (domains := dedup _). set (d2 := ensure_role fresh "Admin" None d1).
  set (d3 := fold_left _ domains d2).
  assert (H3 : others d3 = others d1).
  { unfold d3. rewrite fold_frame; [apply ensure_role_others|].
    intros e domain. apply fold_frame. intros e' name. apply ensure_role_others. }
  assert (Hd1 : t_accounts d1 = t_accounts d) by (unfold others in H1; congruence).
  assert (Hd3 : t_accounts d3 = t_accounts d) by (unfold others in H1, H3; congruence).
  rewrite Hd1. apply (backfill_all _ _ _ _ a).
  - rewrite <- (map_id (rows (t_accounts d))). rewrite map_map.
    assert (Hf : rows (t_accounts d) = List.filter (fun _ => true) (rows (t_accounts d))).
    { clear. induction (rows (t_accounts d)); cbn; [done|by f_equal]. }
    rewrite Hf. by apply (rows_nodup ac_id).
  - intros x Hx He. apply (elem_of_rows ac_id) in Hx; [|done]. rewrite He in Hx. congruence.
  - by rewrite Hd3.
  - apply backfilled_refl.
Qed.

Lemma backfill_invitations d a : t_invitations (backfill fresh d a) = t_invitations d.
Proof.
  unfold backfill. destruct (ac_role_ids a); [|done]. cbn zeta.
  pose proof (ensure_role_others (backfill_name a) (Some (ac_company_domain a)) d) as Ho. unfold others in Ho.
  case_match; cbn; congruence.
Qed.

Lemma bootstrapped_invitations d : t_invitations (bootstrapped fresh d) = t_invitations d.
Proof.
  unfold bootstrapped. cbn zeta. rewrite fold_frame by apply backfill_invitations.
  rewrite fold_frame.
  - pose proof (ensure_role_others "Admin" None (fold_left (ensure_permission fresh) PERMISSION_CATALOG d)) as Ho.
    pose proof (fold_frame others (ensure_permission fresh) PERMISSION_CATALOG d ensure_permission_others) as Hp.
    unfold others in Ho, Hp. congruence.
  - intros e domain. apply (fold_frame t_invitations). intros e' name.
    pose proof (ensure_role_others name (Some domain) e') as Ho. unfold others in Ho. congruence.
Qed.
End Bootstrap.

Section Facts.
Context `{KbEnv} `{AuthEnv} `{Settings}.

Lemma live_invitation_run now raw s i s' : _live_invitation now raw s = (Return i, s') ->
  s' = s /\ find_invitation (working s) raw = Some i /\ iv_revoked_at i = None /\ iv_used_at i = None
  /\ now < iv_expires_at i.
Proof. unfold _live_invitation. intros Hr. minv. bools. split_and!; try done. by apply Z.ltb_lt. Qed.

(** The address of an invitation is free, or belongs to a deactivated account. *)
Lemma free_address_run found (s : session authdb Empty_set) (o : option account) s' :
  match found with
  | NoAccount => mret None
  | Found a => ensure (negb (ac_active a)) (HTTPException 409 "An active account already exists for this email") ;; mret (Some a)
  | AmbiguousEmail => raise (HTTPException 409 "More than one account matches this invitation's email")
  end s = (Return o, s') ->
  s' = s /\ found = match o with Some x => Found x | None => NoAccount end /\ forall x, o = Some x -> ac_active x = false.
Proof. destruct found as [|a|]; intros Hr; minv; bools; [done|]. split; [done|]. split; [done|]. by intros y [= <-]. Qed.

(** The account an acceptance starts from, stored and provisioned *)
Lemma accept_effect now dw user_id origin c allowed token password d a p s' :
  keyed ac_id (t_accounts d) ->
  accept_invitation now dw user_id origin c allowed token password (open_session d) = (Return (a, p), s') ->
  exists item existing b cl, let email := py_lower (strip (iv_email item)) in
    find_invitation d token = Some item /\ iv_revoked_at item = None /\ iv_used_at item = None /\ now < iv_expires_at item
    /\ 12 <= len password /\ utf8_len password <= 72
    /\ get_by_email d email = match existing with Some x => Found x | None => NoAccount end
    /\ (forall x, existing = Some x -> ac_active x = false)
    /\ backfilled (invited_account item email user_id (hashpw password (dw_salt dw)) existing) b
    /\ (exists d2, a = with_audience d2 item b) /\ p = mint now dw a
    /\ jwt_decode now (tp_refresh p) = Some cl
    /\ t_accounts (committed s') !! ac_id a = Some a
    /\ t_sessions (committed s') !! dw_session_id dw
       = Some (session_row now (dw_session_id dw) (dw_family_id dw) (ac_id a) (tp_refresh p) (cl_exp cl) c None)
    /\ t_invitations (committed s')
       = <[iv_id item := item <| iv_used_at := Some now |> <| iv_accepted_user_id := Some (ac_id a) |>]> (t_invitations d).
Proof.
  intros Hk. unfold accept_invitation, _reject_cross_site_auth_request, _validate_password, get_password_hash,
    put_account, put_invitation, bootstrap_rbac, record, PASSWORD_MIN_LENGTH, PASSWORD_MAX_BYTES.
  intros Hr. minv. cbn [working committed published open_session] in *.
  match goal with Hl : _live_invitation _ _ _ = _ |- _ => apply live_invitation_run in Hl as (-> & Hitem & Hrv & Hu & He) end.
  match goal with _ : find_invitation _ token = Some ?i |- _ => rename i into item end.
  cbn [working committed published open_session] in *.
  match goal with Hs : _store_refresh_session _ _ _ _ _ _ _ _ = _ |- _ =>
    apply store_refresh_session_effect in Hs as (cl & Hc & _ & ->) end.
  cbn [working committed published open_session] in *.
  match goal with Hf : _ = (Return ?o, ?s2), _ : get_account (bootstrapped _ _) _ = _ |- _ =>
    apply free_address_run in Hf as (-> & Hfound & Hoff); rename o into existing end.
  cbn [working committed published open_session] in *.
  match goal with Hg : get_account ?e _ = Some ?b0 |- _ => set (d1 := e) in *; rename Hg into Hb, b0 into b end.
  set (a0 := invited_account item _ user_id _ existing) in *. set (a2 := with_audience d1 item b) in *.
  assert (Ha2 : ac_id a2 = ac_id b).
  { unfold a2, with_audience. by repeat case_match. }
  exists item, existing, b, cl. split_and!; try done; try lia.
  - destruct (bootstrapped_account (dw_row_ids dw) (d <| t_accounts := <[ac_id a0 := a0]> (t_accounts d) |>) (ac_id a0) a0)
      as (b' & Hb' & Hback); [|apply lookup_insert_eq|].
    + by apply insert_keyed.
    + change (t_accounts d1 !! ac_id a0 = Some b') in Hb'. assert (b' = b) as <- by (unfold get_account in Hb; congruence). done.
  - by exists d1.
  - apply lookup_insert_eq.
  - apply lookup_insert_eq.
  - cbn. unfold d1. by rewrite bootstrapped_invitations.
Qed.
End Facts.

Section Theorems.
Context `{KbEnv} `{AuthEnv} `{!AuthLaws} `{Settings}.

Lemma audience_fields d i a : let b := with_audience d i a in
  ac_id b = ac_id a /\ ac_email b = ac_email a /\ ac_password_hash b = ac_password_hash a /\ ac_active b = ac_active a
  /\ ac_role b = ac_role a /\ ac_role_ids b = ac_role_ids a /\ ac_company_domain b = ac_company_domain a
  /\ ac_auth_version b = ac_auth_version a.
Proof. cbn zeta. unfold with_audience. by repeat case_match. Qed.

Lemma backfilled_fields a b : backfilled a b ->
  ac_id b = ac_id a /\ ac_email b = ac_email a /\ ac_password_hash b = ac_password_hash a /\ ac_active b = ac_active a
  /\ ac_role b = ac_role a /\ ac_company_domain b = ac_company_domain a /\ ac_auth_version b = ac_auth_version a.
Proof. by intros (ids & -> & _). Qed.

(** What accepting an invitation does. It takes an invitation that is neither revoked, nor
    used, nor expired, and a password of 12 characters or more; the address belongs to no
    active account. The account is active, has the invited role and accepts the password: a
    new account of the invited company, or the deactivated account of the address with its
    version moved on. It is signed in, and the invitation is spent for good. *)
Theorem accept_invitation_effect (now : datetime) (dw : draws) (user_id : uuid) (origin token password : pystr)
    (c : client) (allowed : bool) (d : authdb) (a : account) (p : token_pair) (s' : session authdb Empty_set)
    (Hk : keyed ac_id (t_accounts d)) (Hinv : keyed iv_id (t_invitations d))
    (Hr : accept_invitation now dw user_id origin c allowed token password (open_session d) = (Return (a, p), s')) :
  let d' := committed s' in
  exists item existing,
    find_invitation d token = Some item /\ iv_revoked_at item = None /\ iv_used_at item = None /\ now < iv_expires_at item
    /\ 12 <= len password
    /\ get_by_email d (py_lower (strip (iv_email item))) = match existing with Some x => Found x | None => NoAccount end
    /\ t_accounts d' !! ac_id a = Some a /\ ac_active a = true /\ ac_role a = iv_role item
    /\ verify_password password (ac_password_hash a) = true
    /\ match existing with
       | Some x => ac_active x = false /\ ac_id a = ac_id x /\ ac_email a = ac_email x
                   /\ ac_company_domain a = ac_company_domain x /\ ac_auth_version a = ac_auth_version x + 1
       | None => ac_id a = user_id /\ ac_email a = py_lower (strip (iv_email item))
                 /\ ac_company_domain a = iv_company_domain item
       end
    /\ p = mint now dw a /\ (exists row, t_sessions d' !! dw_session_id dw = Some row /\ rs_user_id row = ac_id a
                                         /\ rs_token_hash row = _refresh_hash (tp_refresh p) /\ rs_revoked_at row = None)
    /\ forall now' dw' uid' origin' c' allowed' token' password' out s'' i',
         find_invitation d' token' = Some i' -> iv_id i' = iv_id item ->
         accept_invitation now' dw' uid' origin' c' allowed' token' password' (open_session d') <> (Return out, s'').
Proof.
  cbn zeta.
  apply accept_effect in Hr as (item & existing & b & cl & Hi & Hrv & Hu & He & Hlen & _ & Hfound & Hoff & Hback
    & (d2 & Hd2) & Hp & _ & Hrow & Hsess & Hinvs); [|done].
  destruct (audience_fields d2 item b) as (A1 & A2 & A3 & A4 & A5 & _ & A7 & A8). rewrite <- Hd2 in *.
  destruct (backfilled_fields _ _ Hback) as (B1 & B2 & B3 & B4 & B5 & B6 & B7).
  exists item, existing. split_and!; try done.
  - rewrite A4, B4. by destruct existing.
  - rewrite A5, B5. by destruct existing.
  - unfold verify_password. rewrite A3, B3. destruct existing; apply checkpw_hashpw.
  - rewrite A1, A2, A7, A8, B1, B2, B6, B7. destruct existing as [x|]; [|done]. split_and!; try done. by apply Hoff.
  - eexists. by split_and!.
  - intros now' dw' uid' origin' c' allowed' token' password' out s'' i' Hi' Hid Hr'.
    assert (Hrow' : t_invitations (committed s') !! iv_id i' = Some i').
    { apply find_some in Hi' as [Hin _]. apply list_elem_of_In in Hin. apply (elem_of_rows iv_id); [|done].
      rewrite Hinvs. by apply insert_keyed. }
    rewrite Hinvs, Hid, lookup_insert_eq in Hrow'. simplify_eq.
    destruct out as [a' p']. unfold accept_invitation, _reject_cross_site_auth_request in Hr'.
    apply bind_return in Hr' as (? & ? & Hs1 & Hr'). apply ensure_return in Hs1 as [_ ->].
    apply bind_return in Hr' as (? & ? & Hs1 & Hr'). apply ensure_return in Hs1 as [_ ->].
    apply bind_return in Hr' as (? & ? & Hs1 & Hr').
    unfold _validate_password in Hs1. minv.
    match goal with Hl : _live_invitation _ _ _ = _ |- _ => apply live_invitation_run in Hl as (_ & Hfi & _ & Hused & _) end.
    cbn [working open_session] in Hfi. rewrite Hi' in Hfi. by simplify_eq.
Qed.

(** Inviting a deactivated account again restores its old roles. Whatever role the
    invitation names, the account that accepts it keeps the role assignments it had, so a
    deactivated administrator invited as an ordinary employee is an administrator again. *)
Theorem reinvited_keeps_roles (now : datetime) (dw : draws) (user_id : uuid) (origin token password : pystr)
    (c : client) (allowed : bool) (d : authdb) (a x : account) (p : token_pair) (s' : session authdb Empty_set)
    (item : invitation) (Hk : keyed ac_id (t_accounts d)) (Hitem : find_invitation d token = Some item)
    (Hx : get_by_email d (py_lower (strip (iv_email item))) = Found x) (Hroles : ac_role_ids x <> [])
    (Hr : accept_invitation now dw user_id origin c allowed token password (open_session d) = (Return (a, p), s')) :
  t_accounts (committed s') !! ac_id x = Some a /\ ac_active a = true
  /\ ac_role a = iv_role item /\ ac_role_ids a = ac_role_ids x.
Proof.
  apply accept_effect in Hr as (item' & existing & b & cl & Hi & _ & _ & _ & _ & _ & Hfound & Hoff & Hback
    & (d2 & Hd2) & _ & _ & Hrow & _); [|done].
  rewrite Hitem in Hi. simplify_eq. rewrite Hx in Hfound. destruct existing as [y|]; simplify_eq.
  destruct (audience_fields d2 item' b) as (A1 & _ & _ & A4 & A5 & A6 & _ & _).
  destruct (backfilled_fields _ _ Hback) as (B1 & _ & _ & B4 & B5 & _).
  split; [by rewrite A1, B1 in Hrow|]. rewrite A4, A5, A6, B4, B5. split_and!; try done.
  destruct Hback as (ids & -> & Hsame). by rewrite Hsame.
Qed.
End Theorems.

(** ** A concrete invitation *)

#[local] Existing Instance demo_env.
#[local] Existing Instance demo_auth.
#[local] Existing Instance demo_laws.
#[local] Existing Instance demo_settings.

(** The company's deactivated global administrator, invited again by its CEO as Staff *)
Definition root_off : account := root_account <| ac_active := false |>.
Definition before_invite : authdb :=
  mkAuthDb {[1 := root_off; 2 := boss_account]} company_roles [] [] ∅ ∅ ∅ ∅ [] [] [].
Definition inviting : outcome invitation * session authdb Empty_set :=
  create_invitation 0 11 ($"invite-secret") (mkInvite ($"root@kb.example") ($"Root") "Staff" []) boss_account
    (open_session before_invite).
Definition invited : authdb := committed inviting.2.
Definition the_invitation : invitation :=
  mkInvitation 11 ($"root@kb.example") ($"Root") "Staff" "kb.example" [] ($"invite-secret") week None None (Some 2) None.
Definition some_dw : draws := mkDraws 21 22 ($"jti") ($"salt") (fun i => i + 100).

Lemma invited_tables : t_invitations invited = {[11 := the_invitation]}
  /\ t_accounts invited = {[1 := root_off; 2 := boss_account]}.
Proof. vm_compute. split; reflexivity. Qed.

Lemma invited_keyed : keyed ac_id (t_accounts invited) /\ keyed iv_id (t_invitations invited).
Proof.
  destruct invited_tables as [-> ->]. split.
  - intros i a Ha. apply lookup_insert_Some in Ha as [[<- <-]|[_ Ha]]; [done|]. by apply lookup_singleton_Some in Ha as [<- <-].
  - by intros i a [<- <-]%lookup_singleton_Some.
Qed.

Definition accepting : AUTH (account * token_pair) :=
  accept_invitation 60 some_dw 31 [] (mkClient None None) true ($"invite-secret") ($"a passphrase").

Lemma invitation_found : find_invitation invited ($"invite-secret") = Some the_invitation.
Proof. vm_compute. reflexivity. Qed.
Lemma invitee_found : get_by_email invited ($"root@kb.example") = Found root_off.
Proof. vm_compute. reflexivity. Qed.

Lemma accept_invitation_effect_witness :
  exists a p s', accepting (open_session invited) = (Return (a, p), s') /\ ac_active a = true /\ ac_role a = "Staff".
Proof.
  destruct (returns_run accepting invited) as ([a p] & s' & Hr & _); [vm_compute; reflexivity|].
  exists a, p, s'. split; [exact Hr|].
  destruct (accept_invitation_effect 60 some_dw 31 [] ($"invite-secret") ($"a passphrase") (mkClient None None) true
    invited a p s' (proj1 invited_keyed) (proj2 invited_keyed) Hr)
    as (item & existing & Hi & _ & _ & _ & _ & _ & _ & Hact & Hrole & _).
  split; [exact Hact|]. rewrite Hrole. rewrite invitation_found in Hi. injection Hi as <-. reflexivity.
Defined.

(** Invited as Staff, the account has the role of the global administrator again. *)
Lemma reinvited_keeps_roles_witness :
  exists a p s', accepting (open_session invited) = (Return (a, p), s')
    /\ ac_role a = "Staff" /\ ac_role_ids a = [1] /\ (r_id <$> List.find global_admin_role company_roles) = Some 1.
Proof.
  destruct (returns_run accepting invited) as ([a p] & s' & Hr & Hs); [vm_compute; reflexivity|].
  exists a, p, s'. split; [exact Hr|].
  destruct (reinvited_keeps_roles 60 some_dw 31 [] ($"invite-secret") ($"a passphrase") (mkClient None None) true
    invited a root_off p s' the_invitation (proj1 invited_keyed) invitation_found invitee_found
    ltac:(vm_compute; discriminate) Hr) as (_ & _ & Hrole & Hids).
  split; [exact Hrole|]. split; [exact Hids|]. vm_compute. reflexivity.
Defined.
