(* ===== verification/UserCreate.v ===== *)
(** * Creation of accounts (src/api/routers/auth.py, src/domain/auth.py)

    POST /users: a holder of [user.manage] creates an account with its password, departments,
    ownerships and roles. The account is registered first, in a transaction of its own, then
    provisioned; the second transaction completes it. *)

From S2P Require Import Prelude PyText Models Rbac Store Identity Sessions Credentials UserAdmin Invitations.
From Stdlib Require String.
#[local] Open Scope string_scope.
#[local] Open Scope list_scope.
#[local] Open Scope Z_scope.

(** [settings.ALLOWED_EMAIL_DOMAINS], split at the commas, stripped and in lower case *)
Class Registration := { allowed_domains : list string }.

Section UserCreate.
Context `{KbEnv} `{AuthEnv} `{Settings} `{Registration}.

(** ** AuthService.register_user *)

Definition company_of (email : pystr) : string := if has_at email then email_domain email else "local".

Definition get_department_by_name (d : authdb) (name : pystr) (company : string) : option department :=
  List.find (fun x => bool_decide (dp_name x = name) && String.eqb (dp_company_domain x) company) (t_depts d).

Definition register_user (user_id : uuid) (salt email name password : pystr) (dept : option pystr) (role : string)
    (allow_privileged_role : bool) : AUTH account :=
  let email := py_lower (strip email) in
  let company_domain := company_of email in
  ensure (match allowed_domains with [] => true | l => mem company_domain l end)
    (HTTPException 403 "Use an approved company email address") ;;
  ensure (mem role ["Admin"; "CEO"; "Reviewer"; "Staff"]) (HTTPException 422 "Invalid role") ;;
  existing ← query (fun d => get_by_email d email);
  ensure (match existing with NoAccount => true | _ => false end) (HTTPException 400 "Email already registered") ;;
  hashed_password ← get_password_hash salt password;
  departments ← query (fun d => match normalize_department_name dept with
                                | Some n => option_list (get_department_by_name d n company_domain)
                                | None => [] end);
  save_account (mkAccount user_id email name hashed_password company_domain dept
                  (if allow_privileged_role then role else "Staff") true 0 (map dp_id departments) [] []).

(** ** POST /users *)

(** [ManagedUserCreate] *)
Record managed_user_create := mkManagedUser {
  mu_email : pystr;
  mu_name : pystr;
  mu_password : option pystr;
  mu_dept : option pystr;
  mu_department_ids : option (list uuid);
  mu_role : string;
  mu_role_ids : option (list uuid);
  mu_owned_department_ids : option (list uuid)
}.

(** The memberships and the primary department of the request *)
Definition requested_departments (domain : string) (user_in : managed_user_create)
    : AUTH (list department * option department) :=
  memberships ← _resolve_membership_departments domain (mu_department_ids user_in) (mu_dept user_in);
  department ← (if otruthy (mu_dept user_in) then resolve_active_department domain (mu_dept user_in)
                else mret (head memberships));
  ensure (match department, memberships with Some x, _ :: _ => is_member memberships x | _, _ => true end)
    (HTTPException 422 "The primary department must be one of the selected memberships") ;;
  mret (memberships, department).

(** The roles of the request, checked against the caller's authority *)
Definition requested_roles (caller : user) (domain : string) (role_ids : option (list uuid)) : AUTH (option (list role)) :=
  match role_ids with
  | None => mret None
  | Some ids =>
      roles ← query (fun d => assignable_roles d domain ids);
      ensure (Z.eqb (len roles) (len (dedup ids)) && negb (existsb (foreign_role domain) roles))
        (HTTPException 403 "Invalid role assignment") ;;
      ensure (forallb r_active roles) (HTTPException 422 "Inactive roles cannot be assigned") ;;
      ensure (match roles with [] => false | _ => true end) (HTTPException 422 "At least one role is required") ;;
      _validate_role_assignment_authority caller roles ;;
      mret (Some roles)
  end.

(** The account as the request describes it, over the registered and provisioned row *)
Definition completed (memberships : list department) (department : option department) (roles : option (list role))
    (a : account) : account :=
  let a : account := a <| ac_department_ids := map dp_id memberships |> <| ac_dept := dp_name <$> department |> in
  match roles with
  | Some roles => with_roles roles a
  | None => a <| ac_role := if mem (ac_role a) MANAGED_PRIMARY_ROLES then ac_role a else "Staff" |>
  end.

(** The checks before anything is written: the password, the departments and the roles. *)
Definition checked_request (caller : user) (user_in : managed_user_create)
    : AUTH (pystr * (list department * option department) * option (list role)) :=
  password ← some_or (mu_password user_in) (HTTPException 422 "A password is required to create a user");
  let domain := email_domain (py_lower (mu_email user_in)) in
  let can_manage_globally := _is_global_user_manager caller in
  ensure (can_manage_globally || String.eqb domain (u_company_domain caller))
    (HTTPException 403 "Users must be created inside your company") ;;
  ensure (negb (reset_operator (py_lower (mu_email user_in))))
    (HTTPException 403 "This address is reserved for database-reset operations and cannot be created here") ;;
  ensure (can_manage_globally || negb (mem (mu_role user_in) ["Admin"; "CEO"]))
    (HTTPException 403 "Only global user managers can create executive or Admin accounts") ;;
  departments ← requested_departments domain user_in;
  owned ← _resolve_owned_departments domain (mu_owned_department_ids user_in);
  _ensure_owned_departments_are_memberships departments.1 owned ;;
  roles ← requested_roles caller domain (mu_role_ids user_in);
  ensure (negb (String.eqb (casefold (mu_role user_in)) (casefold LEGACY_DEPARTMENT_OWNER_ROLE)))
    (HTTPException 422 "Department ownership is managed separately from roles") ;;
  _ensure_departments_have_single_owner 0 owned ;;
  mret (password, departments, roles).

(** The second transaction: roles are provisioned and the registered row completed. *)
Definition complete_registration (fresh : uuid -> uuid) (user_in : managed_user_create) (current_user : account)
    (memberships : list department) (department : option department) (roles : option (list role)) (user_id : uuid)
    : AUTH account :=
  bootstrap_rbac fresh ;;
  found ← query (fun d => get_account d user_id);
  a ← some_or found AssertionError;
  let a := completed memberships department roles a in
  put_account a ;;
  owned ← _resolve_owned_departments (ac_company_domain a) (mu_owned_department_ids user_in);
  _ensure_departments_have_single_owner (ac_id a) owned ;;
  let a := match mu_owned_department_ids user_in with Some _ => _apply_department_ownership owned a | None => a end in
  put_account a ;;
  commit ;;
  record (ac_id current_user) "user_create" "user" (ac_id a) "success" true ;;
  mret a.

Definition create_managed_user (user_id : uuid) (salt : pystr) (fresh : uuid -> uuid) (user_in : managed_user_create)
    (current_user : account) : AUTH account :=
  caller ← query (fun d => loaded d current_user);
  checked ← checked_request caller user_in;
  let '(password, (memberships, department), roles) := checked in
  registered ← register_user user_id salt (mu_email user_in) (mu_name user_in) password (dp_name <$> department)
                 (mu_role user_in) true;
  complete_registration fresh user_in current_user memberships department roles (ac_id registered).
End UserCreate.

(** ** What the bootstrap of roles leaves alone *)

Section Provisioning.
Context (fresh : uuid -> uuid).

Lemma backfill_depts d a : t_depts (backfill fresh d a) = t_depts d.
Proof.
  unfold backfill. destruct (ac_role_ids a); [|done]. cbn zeta.
  pose proof (ensure_role_others fresh (backfill_name a) (Some (ac_company_domain a)) d) as Ho. unfold others in Ho.
  case_match; cbn; congruence.
Qed.

Lemma bootstrapped_depts d : t_depts (bootstrapped fresh d) = t_depts d.
Proof.
  unfold bootstrapped. cbn zeta. rewrite (fold_frame t_depts) by apply backfill_depts.
  rewrite (fold_frame t_depts).
  - pose proof (ensure_role_others fresh "Admin" None (fold_left (ensure_permission fresh) PERMISSION_CATALOG d)) as Ho.
    pose proof (fold_frame others (ensure_permission fresh) PERMISSION_CATALOG d (ensure_permission_others fresh)) as Hp.
    unfold others in Ho, Hp. congruence.
  - intros e domain. apply (fold_frame t_depts). intros e' name.
    pose proof (ensure_role_others fresh name (Some domain) e') as Ho. unfold others in Ho. congruence.
Qed.

Lemma backfill_absent d a i : ac_id a <> i -> t_accounts (backfill fresh d a) !! i = t_accounts d !! i.
Proof.
  intros Hne. unfold backfill. destruct (ac_role_ids a); [|done]. cbn zeta.
  pose proof (ensure_role_accounts fresh (backfill_name a) (Some (ac_company_domain a)) d) as Ho.
  case_match; cbn; rewrite ?lookup_insert_ne by done; by rewrite Ho.
Qed.

Lemma bootstrapped_absent d i : keyed ac_id (t_accounts d) -> t_accounts d !! i = None -> t_accounts (bootstrapped fresh d) !! i = None.
Proof.
  intros Hk Hi. unfold bootstrapped. cbn zeta.
  match goal with |- t_accounts (fold_left _ (rows (t_accounts ?x)) ?y) !! i = None => set (d3 := y); set (d1 := x) end.
  assert (H1 : t_accounts d1 = t_accounts d).
  { pose proof (fold_frame others (ensure_permission fresh) PERMISSION_CATALOG d (ensure_permission_others fresh)) as Hp.
    unfold others in Hp. unfold d1. congruence. }
  assert (H3 : t_accounts d3 = t_accounts d).
  { unfold d3. rewrite (fold_frame t_accounts); [by rewrite ensure_role_accounts|].
    intros e domain. apply (fold_frame t_accounts). intros e' name. apply ensure_role_accounts. }
  rewrite H1. assert (Hno : forall a, a ∈ rows (t_accounts d) -> ac_id a <> i).
  { intros a Ha He. apply (elem_of_rows ac_id) in Ha; [|done]. rewrite He in Ha. congruence. }
  rewrite <- H3 in Hi. clearbody d3. clear H3. revert d3 Hi.
  generalize dependent (rows (t_accounts d)). intros l Hno. induction l as [|a l IH]; intros d3 Hi; cbn; [exact Hi|]. apply IH; [intros b Hb; apply Hno; by right|].
  rewrite backfill_absent; [done|]. apply Hno. by left.
Qed.

(** The accounts after the bootstrap are those before it, with roles where they had none. *)
Lemma bootstrapped_from d i b : keyed ac_id (t_accounts d) -> t_accounts (bootstrapped fresh d) !! i = Some b ->
  exists a, t_accounts d !! i = Some a /\ backfilled a b.
Proof.
  intros Hk Hb. destruct (t_accounts d !! i) as [a|] eqn:Ha; [|by rewrite bootstrapped_absent in Hb].
  destruct (bootstrapped_account fresh d i a Hk Ha) as (b' & Hb' & Hback). exists a. split; [done|congruence].
Qed.

Lemma bootstrapped_keyed d : keyed ac_id (t_accounts d) -> keyed ac_id (t_accounts (bootstrapped fresh d)).
Proof.
  intros Hk i b Hb. apply bootstrapped_from in Hb as (a & Ha & ids & -> & _); [|done]. cbn. by apply Hk.
Qed.
End Provisioning.

(** ** The phases of a creation *)

Section Creation.
Context `{KbEnv} `{AuthEnv} `{Settings} `{Registration}.

(** [EmailStr]: an address without surrounding spaces, with its at sign *)
Definition valid_address (email : pystr) : Prop := strip email = email /\ has_at (py_lower email) = true.

Lemma readonly_resolve_active company name : readonly (resolve_active_department company name).
Proof. unfold resolve_active_department. destruct (normalize_department_name name); solve_readonly. Qed.
#[local] Hint Resolve readonly_resolve_active : session.

Lemma readonly_owned company ids : readonly (_resolve_owned_departments company ids).
Proof. unfold _resolve_owned_departments. destruct ids as [[|i ids]|]; solve_readonly. Qed.

Lemma readonly_memberships company ids name : readonly (_resolve_membership_departments company ids name).
Proof.
  unfold _resolve_membership_departments. destruct ids as [ids|]; [destruct (dedup ids)|]; solve_readonly.
Qed.

Lemma readonly_authority caller roles : readonly (_validate_role_assignment_authority caller roles).
Proof. unfold _validate_role_assignment_authority. solve_readonly. Qed.

#[local] Hint Resolve readonly_owned readonly_memberships readonly_authority : session.

Lemma readonly_requested_departments domain user_in : readonly (requested_departments domain user_in).
Proof. unfold requested_departments. solve_readonly. Qed.

Lemma readonly_requested_roles caller domain ids : readonly (requested_roles caller domain ids).
Proof. unfold requested_roles. solve_readonly. Qed.
#[local] Hint Resolve readonly_requested_departments readonly_requested_roles : session.

Lemma readonly_checked caller user_in : readonly (checked_request caller user_in).
Proof.
  unfold checked_request, _ensure_owned_departments_are_memberships, _ensure_departments_have_single_owner. cbv zeta.
  solve_readonly.
Qed.

(** Departments are looked up in their table only. *)
Lemma owned_reads company ids s s' : t_depts (working s) = t_depts (working s') ->
  (_resolve_owned_departments company ids s).1 = (_resolve_owned_departments company ids s').1.
Proof.
  intros Hd. unfold _resolve_owned_departments. destruct ids as [[|i ids]|]; [done| |done].
  rewrite !run_query. unfold departments_in. rewrite Hd. unfold ensure, mbind, M_bind. by destruct (Z.eqb _ _).
Qed.

Lemma register_run user_id salt email name password dept role s a s' :
  register_user user_id salt email name password dept role true s = (Return a, s') ->
  get_by_email (working s) (py_lower (strip email)) = NoAccount /\ utf8_len password <= 72
  /\ (exists ids, a = mkAccount user_id (py_lower (strip email)) name (hashpw password salt) (company_of (py_lower (strip email)))
                        dept role true 0 ids [] [])
  /\ s' = let d' := (working s) <| t_accounts := <[user_id := a]> (t_accounts (working s)) |> in Session d' d' (published s).
Proof.
  unfold register_user, get_password_hash. cbv zeta. intros Hr. minv.
  match goal with Hs : save_account _ _ = _ |- _ => apply save_account_run in Hs as [-> ->] end.
  split_and!; [by destruct (get_by_email _ _)|by apply Z.leb_le|by eexists|done].
Qed.

Lemma register_atomic user_id salt email name password dept role : atomic (register_user user_id salt email name password dept role true).
Proof. unfold register_user, get_password_hash, save_account, put_account. cbv zeta. solve_atomic. Qed.

(** An account that owns nothing and the provisioning of roles change no owner. *)
Lemma owners_kept fresh d user_id a owned :
  keyed ac_id (t_accounts d) -> t_accounts d !! 0 = None -> ac_id a = user_id ->
  owned_by_another d 0 owned = false ->
  forall b, ac_id b = user_id ->
  owned_by_another ((bootstrapped fresh (d <| t_accounts := <[user_id := a]> (t_accounts d) |>))
    <| t_accounts := <[user_id := b]> (t_accounts (bootstrapped fresh (d <| t_accounts := <[user_id := a]> (t_accounts d) |>))) |>)
    user_id owned = false.
Proof.
  intros Hk Hnil Ha Hown b Hb. set (d1 := d <| t_accounts := _ |>).
  assert (Hk1 : keyed ac_id (<[user_id := a]> (t_accounts d))) by (rewrite <- Ha; by apply insert_keyed).
  assert (Hk2 : keyed ac_id (<[user_id := b]> (t_accounts (bootstrapped fresh d1))))
    by (rewrite <- Hb; by apply insert_keyed, bootstrapped_keyed).
  unfold owned_by_another in *. apply existsb_false. intros x Hx.
  cbn [t_accounts] in Hx. apply (elem_of_rows ac_id) in Hx; [|exact Hk2].
  destruct (Z.eqb_spec (ac_id x) user_id) as [He|Hne]; [done|]. cbn [negb andb].
  change (<[user_id := b]> (t_accounts (bootstrapped fresh d1)) !! ac_id x = Some x) in Hx.
  rewrite lookup_insert_ne in Hx by congruence. apply bootstrapped_from in Hx as (y & Hy & ids & -> & _); [|done].
  change (<[user_id := a]> (t_accounts d) !! ac_id y = Some y) in Hy. cbn in Hne.
  rewrite lookup_insert_ne in Hy by congruence.
  assert (Hin : y ∈ rows (t_accounts d)) by (by apply (elem_of_rows ac_id)).
  apply (proj1 (existsb_false _ _) Hown) in Hin.
  destruct (Z.eqb_spec (ac_id y) 0) as [He|_]; [rewrite He in Hy; congruence|]. exact Hin.
Qed.
End Creation.

Section Completion.
Context `{KbEnv} `{AuthEnv} `{Settings} `{Registration}.

(** The account a creation ends with, over the registered and provisioned row *)
Definition described (user_in : managed_user_create) (memberships : list department) (primary : option department)
    (roles : option (list role)) (owned : list department) (a : account) : account :=
  let a := completed memberships primary roles a in
  match mu_owned_department_ids user_in with Some _ => _apply_department_ownership owned a | None => a end.

Lemma completed_fields memberships primary roles a : let b := completed memberships primary roles a in
  ac_id b = ac_id a /\ ac_company_domain b = ac_company_domain a /\ ac_email b = ac_email a /\ ac_active b = ac_active a
  /\ ac_password_hash b = ac_password_hash a /\ ac_ownerships b = ac_ownerships a /\ ac_department_ids b = map dp_id memberships
  /\ ac_dept b = dp_name <$> primary.
Proof. cbv zeta. unfold completed, with_roles. destruct roles; cbn; by split_and!. Qed.

Lemma described_fields user_in memberships primary roles owned a : let b := described user_in memberships primary roles owned a in
  ac_id b = ac_id a /\ ac_company_domain b = ac_company_domain a /\ ac_email b = ac_email a /\ ac_active b = ac_active a
  /\ ac_password_hash b = ac_password_hash a /\ ac_department_ids b = map dp_id memberships /\ ac_dept b = dp_name <$> primary
  /\ ac_role b = ac_role (completed memberships primary roles a)
  /\ ac_role_ids b = ac_role_ids (completed memberships primary roles a).
Proof.
  cbv zeta. destruct (completed_fields memberships primary roles a) as (?&?&?&?&?&?&?&?). unfold described.
  destruct (mu_owned_department_ids user_in); cbn; by split_and!.
Qed.

(** Once the account is registered, its creation ends well. *)
Lemma completion_runs fresh user_in u memberships primary roles d a pub owned :
  keyed ac_id (t_accounts d) -> t_accounts d !! 0 = None ->
  (_resolve_owned_departments (ac_company_domain a) (mu_owned_department_ids user_in) (open_session d)).1 = Return owned ->
  owned_by_another d 0 owned = false ->
  let d1 := d <| t_accounts := <[ac_id a := a]> (t_accounts d) |> in
  let d2 := bootstrapped fresh d1 in
  exists a2, t_accounts d2 !! ac_id a = Some a2 /\ backfilled a a2
    /\ let b := described user_in memberships primary roles owned a2 in
       let d' := d2 <| t_accounts := <[ac_id a := b]> (t_accounts d2) |>
                    <| t_account_audits := t_account_audits d2 ++ [mkAccountAudit (ac_id u) "user_create" "user" (ac_id a) "success"] |> in
       complete_registration fresh user_in u memberships primary roles (ac_id a) (Session d1 d1 pub)
       = (Return b, Session d' d' pub).
Proof.
  intros Hk Hnil Howned Hfree d1 d2.
  assert (Hk1 : keyed ac_id (<[ac_id a := a]> (t_accounts d))) by (by apply insert_keyed).
  destruct (bootstrapped_account fresh d1 (ac_id a) a) as (a2 & Ha2 & Hback); [exact Hk1|apply lookup_insert_eq|].
  exists a2. split; [exact Ha2|]. split; [exact Hback|]. cbv zeta.
  assert (Hdep : t_depts d2 = t_depts d) by exact (bootstrapped_depts fresh d1).
  assert (Hboot : bootstrap_rbac fresh (Session d1 d1 pub) = (Return tt, Session d2 d2 pub)) by reflexivity.
  pose proof (owners_kept fresh d (ac_id a) a owned Hk Hnil eq_refl Hfree) as Hkept. fold d1 in Hkept. fold d2 in Hkept.
  change (t_accounts d2 !! ac_id a = Some a2) in Ha2. clearbody d2.
  destruct Hback as (ids & Heq & _). set (c := completed memberships primary roles a2).
  destruct (completed_fields memberships primary roles a2) as (Hid & Hcomp & _). fold c in Hid, Hcomp.
  assert (Hid2 : ac_id c = ac_id a) by (rewrite Hid, Heq; done).
  assert (Hcomp2 : ac_company_domain c = ac_company_domain a) by (rewrite Hcomp, Heq; done).
  set (d3 := d2 <| t_accounts := <[ac_id a := c]> (t_accounts d2) |>).
  assert (Hres : _resolve_owned_departments (ac_company_domain a) (mu_owned_department_ids user_in) (Session d2 d3 pub)
                 = (Return owned, Session d2 d3 pub)).
  { pose proof (readonly_owned (ac_company_domain a) (mu_owned_department_ids user_in) (Session d2 d3 pub)) as Hs.
    rewrite (owned_reads _ _ (open_session d) (Session d2 d3 pub)) in Howned.
    - by destruct (_resolve_owned_departments _ _ _) as [o s]; cbn in Howned, Hs; subst.
    - symmetry. exact Hdep. }
  assert (Hown3 : _ensure_departments_have_single_owner (ac_id a) owned (Session d2 d3 pub) = (Return tt, Session d2 d3 pub)).
  { unfold _ensure_departments_have_single_owner. rewrite run_query. cbn [working].
    assert (Hf : owned_by_another d3 (ac_id a) owned = false) by exact (Hkept c Hid2).
    rewrite Hf. reflexivity. }
  set (b := described user_in memberships primary roles owned a2).
  assert (Hid4 : ac_id b = ac_id a) by (unfold b; rewrite (proj1 (described_fields _ _ _ _ _ _)), Heq; done).
  unfold complete_registration. rewrite (run_bind _ _ _ _ _ Hboot).
  rewrite run_query. cbn [working]. rewrite (run_some_or _ _ _ _ a2) by exact Ha2. cbv zeta. fold c. rewrite Hcomp2, Hid2.
  rewrite (run_bind (put_account c) _ _ tt (Session d2 d3 pub)) by (unfold put_account, write; rewrite Hid2; reflexivity).
  rewrite (run_bind _ _ _ _ _ Hres), (run_bind _ _ _ _ _ Hown3).
  change (match mu_owned_department_ids user_in with Some _ => _apply_department_ownership owned c | None => c end) with b.
  unfold put_account, record, mbind, M_bind, write, commit, mret, M_ret. cbn [committed working published]. rewrite Hid4.
  unfold d3. cbn. rewrite !insert_insert_eq. reflexivity.
Qed.

Lemma checked_owned caller user_in s password memberships primary roles s' :
  checked_request caller user_in s = (Return (password, (memberships, primary), roles), s') ->
  let domain := email_domain (py_lower (mu_email user_in)) in
  exists owned, mu_password user_in = Some password
    /\ (_is_global_user_manager caller = true \/ domain = u_company_domain caller)
    /\ reset_operator (py_lower (mu_email user_in)) = false
    /\ (_is_global_user_manager caller = true \/ mem (mu_role user_in) ["Admin"; "CEO"] = false)
    /\ (_resolve_membership_departments domain (mu_department_ids user_in) (mu_dept user_in) s).1 = Return memberships
    /\ (_resolve_owned_departments domain (mu_owned_department_ids user_in) s).1 = Return owned
    /\ forallb (is_member memberships) owned = true
    /\ (requested_roles caller domain (mu_role_ids user_in) s).1 = Return roles
    /\ owned_by_another (working s) 0 owned = false.
Proof.
  cbv zeta. unfold checked_request, _ensure_owned_departments_are_memberships, _ensure_departments_have_single_owner. cbv zeta.
  intros Hr. minv. cbn [fst] in *.
  repeat match goal with
  | Hm : requested_departments _ _ _ = (Return _, _) |- _ =>
      pose proof (readonly_return _ _ _ _ (readonly_requested_departments _ _) Hm); subst; unfold requested_departments in Hm; minv
  | Hm : _resolve_membership_departments _ _ _ ?s0 = (Return _, ?s1) |- _ =>
      tryif constr_eq s0 s1 then fail else (pose proof (readonly_return _ _ _ _ (readonly_memberships _ _ _) Hm); subst)
  | Hm : _resolve_owned_departments _ _ ?s0 = (Return _, ?s1) |- _ =>
      tryif constr_eq s0 s1 then fail else (pose proof (readonly_return _ _ _ _ (readonly_owned _ _) Hm); subst)
  | Hm : requested_roles _ _ _ ?s0 = (Return _, ?s1) |- _ =>
      tryif constr_eq s0 s1 then fail else (pose proof (readonly_return _ _ _ _ (readonly_requested_roles _ _ _) Hm); subst)
  end.
  bools. rewrite orb_true_iff, String.eqb_eq in *.
  match goal with Ho : _resolve_owned_departments _ _ _ = (Return ?o, _) |- _ => exists o; rewrite Ho end.
  repeat match goal with Hm : _ = (Return _, ?s) |- context [?m ?s] => rewrite Hm end.
  split_and!; try done.
  match goal with Hx : _ \/ negb _ = true |- _ => destruct Hx as [Hx|Hx]; [by left|right; by apply negb_true_iff] end.
Qed.
End Completion.

Section Theorems.
Context `{KbEnv} `{AuthEnv} `{Settings} `{Registration}.

(** Departments of the request are active rows of its company. *)
Definition usable_department (d : authdb) (company : string) (x : department) : Prop :=
  x ∈ t_depts d /\ dp_active x = true /\ dp_company_domain x = company.

Lemma departments_in_usable d company ids x : x ∈ departments_in d company ids -> usable_department d company x.
Proof.
  unfold departments_in. rewrite elem_of_filter_b. intros [Hx Hb]. bools. eqs. done.
Qed.

Lemma owned_usable company ids s owned : (_resolve_owned_departments company ids s).1 = Return owned ->
  forall x, x ∈ owned -> usable_department (working s) company x.
Proof.
  unfold _resolve_owned_departments. intros Hr x Hx. destruct ids as [[|i ids]|]; cbn in Hr.
  - injection Hr as <-. by apply elem_of_nil in Hx.
  - unfold mbind, M_bind, query, ensure in Hr. destruct (Z.eqb _ _); [|done]. cbn in Hr. injection Hr as <-.
    by eapply departments_in_usable.
  - injection Hr as <-. by apply elem_of_nil in Hx.
Qed.

Lemma active_department_usable company name s x : (resolve_active_department company name s).1 = Return (Some x) ->
  usable_department (working s) company x.
Proof.
  unfold resolve_active_department. destruct (normalize_department_name name) as [n|]; [|done].
  unfold mbind, M_bind, query, some_or. destruct (List.find _ _) as [y|] eqn:Hf; [|done]. intros [= ->].
  apply find_some in Hf as [Hin Hb]. apply list_elem_of_In in Hin. bools. eqs. done.
Qed.

Lemma memberships_usable company ids name s l : (_resolve_membership_departments company ids name s).1 = Return l ->
  forall x, x ∈ l -> usable_department (working s) company x.
Proof.
  unfold _resolve_membership_departments. intros Hr x Hx. destruct ids as [ids|].
  - destruct (dedup ids) as [|i l'] eqn:Hd; [injection Hr as <-; by apply elem_of_nil in Hx|].
    unfold mbind, M_bind, query, ensure in Hr. destruct (Z.eqb _ _); [|done]. cbn in Hr. injection Hr as <-.
    change (x ∈ omap (fun j => List.find (fun y => Z.eqb (dp_id y) j) (departments_in (working s) company (i :: l'))) (i :: l')) in Hx.
    apply list_elem_of_omap in Hx as (j & _ & Hf). apply find_some in Hf as [Hin _]. apply list_elem_of_In in Hin.
    by eapply departments_in_usable.
  - destruct (resolve_active_department company name s) as [[o|e] s1] eqn:Ha; cbn in Hr;
      unfold mbind, M_bind in Hr; rewrite Ha in Hr; [|done]. cbn in Hr. injection Hr as <-.
    destruct o as [y|]; [|by apply elem_of_nil in Hx]. apply list_elem_of_singleton in Hx as ->.
    apply (active_department_usable company name s). by rewrite Ha.
Qed.

(** A role the caller may hand out in the company *)
Definition grantable (d : authdb) (caller : user) (company : string) (r : role) : Prop :=
  r ∈ t_roles d /\ r_active r = true /\ (r_company_domain r = Some company \/ r_company_domain r = None)
  /\ (_is_global_user_manager caller = true
      \/ is_executive r = false /\ exceeds (get_effective_permissions caller) r = false).

Lemma requested_grantable caller company ids s roles : (requested_roles caller company (Some ids) s).1 = Return roles ->
  exists rs, roles = Some rs /\ rs <> [] /\ forall r, r ∈ rs -> grantable (working s) caller company r.
Proof.
  destruct (requested_roles caller company (Some ids) s) as [o s'] eqn:Hr. cbn. intros ->. unfold requested_roles in Hr. minv.
  match goal with Ha : _validate_role_assignment_authority _ ?rs _ = _ |- _ => apply authority_passed in Ha as [-> Hauth]; exists rs end.
  split; [done|]. split; [intros He; rewrite He in *; done|].
  intros r Hin. destruct (assignable _ _ _ _ Hin) as [Ht Hc]. unfold grantable. split_and!; try done.
  - match goal with Hf : forallb r_active _ = true |- _ => rewrite forallb_forall in Hf; apply Hf; by apply list_elem_of_In end.
  - destruct Hauth as [?|Hauth]; [by left|right; by apply Hauth].
Qed.

Lemma memberships_contain memberships owned x : forallb (is_member memberships) owned = true -> x ∈ owned ->
  dp_id x ∈ map dp_id memberships.
Proof.
  rewrite forallb_forall. intros Hf Hx%list_elem_of_In. apply Hf in Hx. unfold is_member in Hx.
  apply existsb_elem in Hx as (y & Hy & He). apply elem_of_map. exists y. split; [by apply Z.eqb_eq in He|done].
Qed.

Lemma nobody_owns d owned x b : keyed ac_id (t_accounts d) -> t_accounts d !! 0 = None -> owned_by_another d 0 owned = false ->
  x ∈ owned -> t_accounts d !! ac_id b = Some b -> ac_active b = true -> (dp_id x, true) ∉ ac_ownerships b.
Proof.
  intros Hk Hnil Ho Hx Hb Hact Hin. unfold owned_by_another in Ho. rewrite existsb_false in Ho.
  specialize (Ho b (proj2 (elem_of_rows ac_id _ _ Hk) Hb)). rewrite Hact in Ho.
  destruct (Z.eqb_spec (ac_id b) 0) as [He|_]; [rewrite He in Hb; congruence|]. cbn [negb andb] in Ho.
  rewrite existsb_false in Ho. specialize (Ho _ Hin). cbn [fst snd andb] in Ho. rewrite existsb_false in Ho.
  specialize (Ho x Hx). by rewrite Z.eqb_refl in Ho.
Qed.

(** A creation that is let through, phase by phase *)
Lemma creation_phases user_id salt fresh user_in u d o s' :
  keyed ac_id (t_accounts d) -> t_accounts d !! 0 = None -> valid_address (mu_email user_in) ->
  create_managed_user user_id salt fresh user_in u (open_session d) = (o, s') ->
  (exists e, o = Raise e /\ committed s' = d)
  \/ exists password memberships primary roles owned ids a2 pub,
       let email := py_lower (mu_email user_in) in
       let a := mkAccount user_id email (mu_name user_in) (hashpw password salt) (email_domain email) (dp_name <$> primary)
                  (mu_role user_in) true 0 ids [] [] in
       let d2 := bootstrapped fresh (d <| t_accounts := <[user_id := a]> (t_accounts d) |>) in
       let b := described user_in memberships primary roles owned a2 in
       checked_request (loaded d u) user_in (open_session d) = (Return (password, (memberships, primary), roles), open_session d)
       /\ (_resolve_owned_departments (email_domain email) (mu_owned_department_ids user_in) (open_session d)).1 = Return owned
       /\ mem (mu_role user_in) MANAGED_PRIMARY_ROLES = true
       /\ get_by_email d email = NoAccount /\ backfilled a a2 /\ o = Return b /\ t_accounts d2 !! user_id = Some a2
       /\ s' = Session (d2 <| t_accounts := <[user_id := b]> (t_accounts d2) |>
                 <| t_account_audits := t_account_audits d2 ++ [mkAccountAudit (ac_id u) "user_create" "user" user_id "success"] |>)
                 (d2 <| t_accounts := <[user_id := b]> (t_accounts d2) |>
                 <| t_account_audits := t_account_audits d2 ++ [mkAccountAudit (ac_id u) "user_create" "user" user_id "success"] |>) pub.
Proof.
  intros Hk Hnil [Hstrip Hat]. unfold create_managed_user. rewrite run_query. cbn [working open_session].
  destruct (checked_request (loaded d u) user_in (open_session d)) as [[[[password [memberships primary]] roles]|e] s1] eqn:Hc;
    pose proof (readonly_checked (loaded d u) user_in (open_session d)) as Hs; rewrite Hc in Hs; cbn in Hs; subst s1.
  2: { rewrite (run_bind_raise _ _ _ _ _ Hc). intros [= <- <-]. left. by eexists. }
  rewrite (run_bind _ _ _ _ _ Hc).
  destruct (checked_owned _ _ _ _ _ _ _ _ Hc) as (owned & _ & _ & _ & _ & _ & Howned & _ & _ & Hfree). cbn [working open_session] in Hfree.
  destruct (register_user user_id salt (mu_email user_in) (mu_name user_in) password (dp_name <$> primary) (mu_role user_in) true
    (open_session d)) as [[a|e] s1] eqn:Hreg.
  2: { rewrite (run_bind_raise _ _ _ _ _ Hreg). intros [= <- <-]. left. exists e. by apply register_atomic in Hreg as [? _]. }
  rewrite (run_bind _ _ _ _ _ Hreg).
  assert (Hrole : mem (mu_role user_in) MANAGED_PRIMARY_ROLES = true)
    by (unfold register_user in Hreg; cbv zeta in Hreg; minv; done).
  apply register_run in Hreg as (Hno & _ & (ids & Ha) & ->). rewrite Hstrip in Ha, Hno. cbn [working published open_session].
  unfold company_of in Ha. rewrite Hat in Ha. cbn [working open_session] in Hno.
  assert (Hid : ac_id a = user_id) by (by rewrite Ha).
  assert (Hdom : ac_company_domain a = email_domain (py_lower (mu_email user_in))) by (by rewrite Ha).
  destruct (completion_runs fresh user_in u memberships primary roles d a [] owned Hk Hnil) as (a2 & Ha2 & Hback & Hrun);
    [by rewrite Hdom|done|]. cbv zeta in Hrun. rewrite Hid in Hrun, Ha2.
  rewrite Hid, Hrun. intros Heq. apply pair_equal_spec in Heq as [<- <-]. right. exists password, memberships, primary, roles, owned, ids, a2, [].
  cbv zeta. rewrite <- Ha.
  exact (conj eq_refl (conj Howned (conj Hrole (conj Hno (conj Hback (conj eq_refl (conj Ha2 eq_refl))))))).
Qed.
End Theorems.

Section Claims.
Context `{KbEnv} `{AuthEnv} `{Settings} `{Registration}.

(** Creating an account happens whole or not at all, although it commits twice: when the
    handler raises, whichever check it was, the database is as it was before. *)
Theorem creation_all_or_nothing user_id salt fresh user_in u d e s' :
  keyed ac_id (t_accounts d) -> t_accounts d !! 0 = None -> valid_address (mu_email user_in) ->
  create_managed_user user_id salt fresh user_in u (open_session d) = (Raise e, s') -> committed s' = d.
Proof.
  intros Hk Hnil Hv Hr. destruct (creation_phases _ _ _ _ _ _ _ _ Hk Hnil Hv Hr)
    as [(e' & _ & Hc)|(? & ? & ? & ? & ? & ? & ? & ? & _ & _ & _ & _ & _ & He & _)]; [done|discriminate He].
Qed.

End Claims.

(** ** A concrete company *)

#[local] Existing Instance demo_env.
#[local] Existing Instance demo_auth.
#[local] Existing Instance demo_settings.
#[local] Instance open_registration : Registration := {| allowed_domains := [] |}.

(** A company where one employee manages accounts and nothing else *)
Definition people_role : role :=
  mkRole 5 "People" (Some "kb.example") true [mkRolePermission (Some (mkPermission 51 "user.manage")) "company"] false None.
Definition people_officer : account :=
  mkAccount 2 ($"pat@kb.example") ($"Pat") ($"pw") "kb.example" None "Staff" true 0 [] [] [5].
Definition legal : department := mkDepartment 7 "kb.example" ($"Legal") true true None.
Definition hiring_company : authdb :=
  mkAuthDb {[2 := people_officer]} [people_role] [mkPermission 51 "user.manage"] [legal] ∅ ∅ ∅ ∅ [] [] [].
Definition new_ids (n : uuid) : uuid := 1000 + n.

Definition hire (role : string) (role_ids : option (list uuid)) : managed_user_create :=
  mkManagedUser ($"new@kb.example") ($"Nia") (Some ($"a long password")) None (Some [7]) role role_ids (Some [7]).

Lemma hiring_keyed : keyed ac_id (t_accounts hiring_company).
Proof. cbn [hiring_company t_accounts]. by intros i a [<- <-]%lookup_singleton_Some. Qed.


(** An officer may not create a CEO; nothing is written. *)
Lemma creation_all_or_nothing_witness : exists e s',
  create_managed_user 9 ($"salt") new_ids (hire "CEO" None) people_officer (open_session hiring_company) = (Raise e, s')
  /\ e = HTTPException 403 "Only global user managers can create executive or Admin accounts" /\ committed s' = hiring_company.
Proof.
  destruct (create_managed_user 9 ($"salt") new_ids (hire "CEO" None) people_officer (open_session hiring_company)) as [[a|e] s'] eqn:Hr.
  - exfalso. assert (Hf : exists e, (create_managed_user 9 ($"salt") new_ids (hire "CEO" None) people_officer (open_session hiring_company)).1 = Raise e)
      by (eexists; vm_compute; reflexivity). destruct Hf as [e He]. rewrite Hr in He. discriminate He.
  - exists e, s'. split; [reflexivity|]. split.
    + assert (He : (create_managed_user 9 ($"salt") new_ids (hire "CEO" None) people_officer (open_session hiring_company)).1
        = Raise (HTTPException 403 "Only global user managers can create executive or Admin accounts")) by (vm_compute; reflexivity).
      rewrite Hr in He. by injection He.
    + by apply (creation_all_or_nothing 9 ($"salt") new_ids (hire "CEO" None) people_officer hiring_company e s' hiring_keyed).
Defined.

(** The legacy role field is not held against the caller's own grants: an officer who may only
    manage accounts creates, with a password of their choice, a reviewer of the whole company. *)
Example reviewer_beyond_authority :
  has_permission (loaded hiring_company people_officer) "article.review" None "own" = false
  /\ (create_managed_user 9 ($"salt") new_ids (hire "Staff" (Some [1])) people_officer (open_session hiring_company)).1
     = Raise (HTTPException 403 "Invalid role assignment")
  /\ let '(o, s') := create_managed_user 9 ($"salt") new_ids (hire "Reviewer" None) people_officer (open_session hiring_company) in
     match o with
     | Return a => has_permission (loaded (committed s') a) "article.review" None "company" = true
     | Raise _ => False
     end.
Proof. split_and!; vm_compute; reflexivity. Qed.
