(* ===== verification/DeptAdmin.v ===== *)
(** * Administration of departments (src/api/routers/auth.py)

    Creating, editing, deleting a department and replacing its members. Content refers to a
    department both by id (memberships, owners, links of articles) and by name (the [dept]
    columns), so this file has its own database: the accounts of [Identity], and the other
    tables with a column the handlers read or write. An article's departments are its links;
    [article_of] joins them. *)

From S2P Require Import Prelude PyText Models Rbac Permissions Store Drafts Approve Identity UserAdmin.
From Stdlib Require String.
#[local] Open Scope string_scope.
#[local] Open Scope list_scope.
#[local] Open Scope Z_scope.

(** ** Tables *)

Record gap := mkGap { gp_id : uuid; gp_company_domain : string; gp_dept : option pystr }.
Record feature_flag := mkFlag { ff_key : string; ff_enabled : bool; ff_department : option pystr }.
(** The denormalised department of a row of article_chunks *)
Record chunk_row := mkChunkRow { cr_id : uuid; cr_article_id : uuid; cr_department_id : pystr }.

Record department_audit := mkDepartmentAudit {
  da_user_id : uuid;
  da_action : string;
  da_department_id : uuid;
  da_detail : option json
}.

Record orgdb := mkOrgDb {
  g_auth : authdb;
  (** description and contact address of a department *)
  g_texts : gmap uuid (pystr * option pystr);
  g_articles : gmap uuid article;
  (** article_departments: article, department *)
  g_links : list (uuid * uuid);
  g_chunks : list chunk_row;
  g_drafts : gmap uuid pending_draft;
  g_gaps : list gap;
  g_flags : list feature_flag;
  g_rules : list approver_rule;
  g_group_mappings : list external_group_mapping;
  g_audits : list department_audit
}.

#[export] Instance eta_orgdb : Eta orgdb := fun d => mkOrgDb (g_auth d) (g_texts d) (g_articles d) (g_links d)
  (g_chunks d) (g_drafts d) (g_gaps d) (g_flags d) (g_rules d) (g_group_mappings d) (g_audits d).

Abbreviation ORG := (M orgdb Empty_set).

Definition g_departments (d : orgdb) : list department := t_depts (g_auth d).
Definition g_accounts (d : orgdb) : gmap uuid account := t_accounts (g_auth d).
Definition with_departments (l : list department) (d : orgdb) : orgdb := d <| g_auth := (g_auth d) <| t_depts := l |> |>.
Definition with_accounts (m : gmap uuid account) (d : orgdb) : orgdb := d <| g_auth := (g_auth d) <| t_accounts := m |> |>.

(** [Article.departments], through the links *)
Definition linked_departments (d : orgdb) (article_id : uuid) : list department :=
  omap (fun l => if Z.eqb l.1 article_id then department_by_id (g_auth d) l.2 else None) (g_links d).
Definition article_of (d : orgdb) (a : article) : article := a <| a_departments := linked_departments d (a_id a) |>.

Section DeptAdmin.
Context `{KbEnv}.

(** ** Shared steps *)

Record department_input := mkDepartmentInput {
  di_name : pystr;
  di_description : pystr;
  di_contact_email : option pystr
}.

Record department_update := mkDepartmentUpdate {
  du_name : option pystr;
  du_description : option pystr;
  du_active : option bool;
  du_contact_email : option pystr;
  du_review_required : option bool
}.

(** [func.lower(Department.name) == name.lower()], in the company. Two rows that match are an
    exception of SQLAlchemy in the code; here too the call fails, with the conflict. *)
Definition has_department_name (company : string) (name : pystr) (x : department) : bool :=
  String.eqb (dp_company_domain x) company && bool_decide (sql_lower (dp_name x) = py_lower name).

Definition department_not_found : exn := HTTPException 404 "Department not found".
Definition department_exists : exn := HTTPException 409 "Department already exists".

Definition _department_for_management (department_id : uuid) (caller : user) : ORG department :=
  found ← query (fun d => List.find (fun x => Z.eqb (dp_id x) department_id
                   && String.eqb (dp_company_domain x) (u_company_domain caller)) (g_departments d));
  some_or found department_not_found.

(** [GovernanceService._may_self_approve] *)
Definition _may_waive_review (u : user) : bool :=
  mem (u_role u) ["Admin"; "CEO"]
  || existsb (fun r => r_active r && mem (r_name r) ["Admin"; "CEO"]
                       && (bool_decide (r_company_domain r = None) || bool_decide (r_company_domain r = Some (u_company_domain u))))
       (u_roles u).

Definition record_department (who : uuid) (action : string) (department_id : uuid) (detail : option json) : ORG unit :=
  write (fun d => d <| g_audits := g_audits d ++ [mkDepartmentAudit who action department_id detail] |>) ;;
  commit.

Definition put_department (x : department) : ORG unit :=
  write (fun d => with_departments (map (fun y => if Z.eqb (dp_id y) (dp_id x) then x else y) (g_departments d)) d).

Definition put_texts (department_id : uuid) (description : pystr) (contact_email : option pystr) : ORG unit :=
  write (fun d => d <| g_texts := <[department_id := (description, contact_email)]> (g_texts d) |>).

(** ** POST /departments *)

Definition create_department (department_id : uuid) (payload : department_input) (current_user : account) : ORG department :=
  caller ← query (fun d => loaded (g_auth d) current_user);
  name ← some_or (normalize_department_name (Some (di_name payload))) (HTTPException 422 "Department name cannot be blank");
  let company_domain := u_company_domain caller in
  existing ← query (fun d => existsb (has_department_name company_domain name) (g_departments d));
  ensure (negb existing) department_exists ;;
  let item := mkDepartment department_id company_domain name true true None in
  write (fun d => with_departments (g_departments d ++ [item]) d) ;;
  put_texts department_id (strip (di_description payload))
    (match di_contact_email payload with Some ((_ :: _) as e) => Some (py_lower e) | _ => None end) ;;
  commit ;;
  record_department (ac_id current_user) "department_create" department_id None ;;
  mret item.

(** ** PATCH /departments/{id} *)

Definition renamed_account (company : string) (old_name name : pystr) (a : account) : account :=
  if String.eqb (ac_company_domain a) company && bool_decide (ac_dept a = Some old_name) then a <| ac_dept := Some name |> else a.
Definition renamed_article (company : string) (old_name name : pystr) (a : article) : article :=
  if String.eqb (a_company_domain a) company && bool_decide (a_dept a = old_name) then a <| a_dept := name |> else a.
Definition renamed_draft (company : string) (old_name name : pystr) (x : pending_draft) : pending_draft :=
  if String.eqb (d_company_domain x) company && bool_decide (d_dept x = Some old_name) then x <| d_dept := Some name |> else x.
Definition renamed_gap (company : string) (old_name : pystr) (name : option pystr) (x : gap) : gap :=
  if String.eqb (gp_company_domain x) company && bool_decide (gp_dept x = Some old_name)
  then mkGap (gp_id x) (gp_company_domain x) name else x.
Definition renamed_flag (old_name name : pystr) (x : feature_flag) : feature_flag :=
  if bool_decide (ff_department x = Some old_name) then mkFlag (ff_key x) (ff_enabled x) (Some name) else x.

(** The chunks whose article is, by now, of the new name *)
Definition renamed_chunk (articles : gmap uuid article) (company : string) (old_name name : pystr) (x : chunk_row) : chunk_row :=
  if bool_decide (cr_department_id x = old_name)
     && match articles !! cr_article_id x with
        | Some a => String.eqb (a_company_domain a) company && bool_decide (a_dept a = name)
        | None => false
        end
  then mkChunkRow (cr_id x) (cr_article_id x) name else x.

(** The six UPDATE statements, in order *)
Definition rename_references (company : string) (old_name name : pystr) (d : orgdb) : orgdb :=
  let d := with_accounts (renamed_account company old_name name <$> g_accounts d) d in
  let d := d <| g_articles := renamed_article company old_name name <$> g_articles d |> in
  let d := d <| g_chunks := map (renamed_chunk (g_articles d) company old_name name) (g_chunks d) |> in
  let d := d <| g_drafts := renamed_draft company old_name name <$> g_drafts d |> in
  let d := d <| g_gaps := map (renamed_gap company old_name (Some name)) (g_gaps d) |> in
  d <| g_flags := map (renamed_flag old_name name) (g_flags d) |>.

Definition rename_department (payload_name : option pystr) (item : department) : ORG department :=
  match payload_name with
  | None => mret item
  | Some n =>
      name ← some_or (normalize_department_name (Some n)) (HTTPException 422 "Department name cannot be blank");
      duplicate ← query (fun d => existsb (fun x => negb (Z.eqb (dp_id x) (dp_id item))
                            && has_department_name (dp_company_domain item) name x) (g_departments d));
      ensure (negb duplicate) department_exists ;;
      let renamed := mkDepartment (dp_id item) (dp_company_domain item) name (dp_active item) (dp_review_required item) (dp_auto_publish_by item) in
      put_department renamed ;;
      write (rename_references (dp_company_domain item) (dp_name item) name) ;;
      mret renamed
  end.

(** The policy of a department; [true] when it changed *)
Definition review_policy (caller : user) (review_required : option bool) (item : department) : ORG (department * bool) :=
  match review_required with
  | None => mret (item, false)
  | Some required =>
      if bool_decide (required = dp_review_required item) then mret (item, false)
      else
        ensure (required || _may_waive_review caller)
          (HTTPException 403 "Only an Admin or CEO can let a department publish without review") ;;
        mret (mkDepartment (dp_id item) (dp_company_domain item) (dp_name item) (dp_active item) required
                (if required then None else Some (u_id caller)), true)
  end.

Definition update_texts (payload : department_update) (item : department) : ORG unit :=
  write (fun d =>
    let '(description, contact_email) := default ([], None) (g_texts d !! dp_id item) in
    d <| g_texts := <[dp_id item := (match du_description payload with Some x => strip x | None => description end,
                                     match du_contact_email payload with Some e => Some (py_lower e) | None => contact_email end)]> (g_texts d) |>).

Definition is_given {A} (o : option A) : bool := match o with Some _ => true | None => false end.

Definition update_department (department_id : uuid) (payload : department_update) (current_user : account) : ORG department :=
  caller ← query (fun d => loaded (g_auth d) current_user);
  item ← _department_for_management department_id caller;
  ensure (is_given (du_name payload) || is_given (du_description payload) || is_given (du_active payload)
          || is_given (du_contact_email payload) || is_given (du_review_required payload))
    (HTTPException 422 "Provide a new name, description, active status or review policy") ;;
  item ← rename_department (du_name payload) item;
  update_texts payload item ;;
  let item := match du_active payload with
              | Some b => mkDepartment (dp_id item) (dp_company_domain item) (dp_name item) b (dp_review_required item) (dp_auto_publish_by item)
              | None => item
              end in
  changed ← review_policy caller (du_review_required payload) item;
  let '(item, policy_changed) := changed in
  put_department item ;;
  commit ;;
  record_department (ac_id current_user) "department_update" (dp_id item)
    (if (policy_changed : bool) then Some [("review_required", PBool (dp_review_required item)); ("department", PText (dp_name item))] else None) ;;
  mret item.

(** ** DELETE /departments/{id} *)

Definition count_of {A} (p : A -> bool) (l : list A) : Z := len (List.filter p l).

Definition holds_article (item : department) (a : article) : bool :=
  String.eqb (a_company_domain a) (dp_company_domain item) && bool_decide (a_dept a = dp_name item)
  && negb (String.eqb (a_status a) "deleted").

Definition references (d : orgdb) (item : department) : list (string * Z) :=
  [("users", count_of (fun a => String.eqb (ac_company_domain a) (dp_company_domain item) && bool_decide (ac_dept a = Some (dp_name item)))
               (rows (g_accounts d)));
   ("user memberships", count_of (fun e : account * uuid => Z.eqb e.2 (dp_id item))
               (concat (map (fun a => map (pair a) (ac_department_ids a)) (rows (g_accounts d)))));
   ("articles", count_of (holds_article item) (rows (g_articles d)));
   ("pending drafts", count_of (fun x => String.eqb (d_company_domain x) (dp_company_domain item)
               && bool_decide (d_dept x = Some (dp_name item)) && String.eqb (d_status x) "pending") (rows (g_drafts d)));
   ("owners", count_of (fun o : uuid * bool => Z.eqb o.1 (dp_id item)) (concat (map ac_ownerships (rows (g_accounts d)))));
   ("feature flags", count_of (fun x => bool_decide (ff_department x = Some (dp_name item))) (g_flags d))].

(** The detail of the 409 also lists the counts and the first five articles; only its opening
    is kept. *)
Definition delete_department (department_id : uuid) (current_user : account) : ORG uuid :=
  caller ← query (fun d => loaded (g_auth d) current_user);
  item ← _department_for_management department_id caller;
  used_by ← query (fun d => List.filter (fun r => negb (Z.eqb r.2 0)) (references d item));
  ensure (match used_by with [] => true | _ => false end) (HTTPException 409 "Department is still in use") ;;
  write (fun d => d <| g_gaps := map (renamed_gap (dp_company_domain item) (dp_name item) None) (g_gaps d) |>) ;;
  shared ← query (fun d => count_of (fun l => Z.eqb l.2 (dp_id item)) (g_links d));
  write (fun d => d <| g_links := List.filter (fun l => negb (Z.eqb l.2 (dp_id item))) (g_links d) |>) ;;
  write (fun d => with_departments (List.filter (fun x => negb (Z.eqb (dp_id x) (dp_id item))) (g_departments d)) d
                  <| g_group_mappings := List.filter (fun m => negb (Z.eqb (gm_department_id m) (dp_id item))) (g_group_mappings d) |>) ;;
  commit ;;
  record_department (ac_id current_user) "department_delete" department_id
    (if Z.eqb shared 0 then None else Some [("shared_article_links_removed", PInt shared)]) ;;
  mret department_id.

(** ** PUT and GET /departments/{id}/members *)

(** [department.members = users]: the rows of the association table *)
Definition member_row (department_id : uuid) (members : gset uuid) (a : account) : account :=
  if bool_decide (ac_id a ∈ members)
  then if bool_decide (department_id ∈ ac_department_ids a) then a
       else a <| ac_department_ids := ac_department_ids a ++ [department_id] |>
  else a <| ac_department_ids := List.filter (fun i => negb (Z.eqb i department_id)) (ac_department_ids a) |>.

Definition replace_department_members (department_id : uuid) (user_ids : list uuid) (current_user : account)
    : ORG (uuid * list uuid) :=
  caller ← query (fun d => loaded (g_auth d) current_user);
  item ← _department_for_management department_id caller;
  let unique_ids := dedup user_ids in
  users ← query (fun d => List.filter (fun a => bool_decide (ac_id a ∈ unique_ids)
                            && String.eqb (ac_company_domain a) (dp_company_domain item)) (rows (g_accounts d)));
  ensure (Z.eqb (len users) (len unique_ids)) (HTTPException 422 "Every department member must be in the same company") ;;
  let members : gset uuid := list_to_set (map ac_id users) in
  write (fun d => with_accounts (member_row (dp_id item) members <$> g_accounts d) d) ;;
  commit ;;
  record_department (ac_id current_user) "department_members_update" (dp_id item) None ;;
  mret (dp_id item, map ac_id users).

(** Ordered by name, then address ([before] compares the lower-cased pairs) *)
Definition list_department_members (before : account -> account -> bool) (department_id : uuid) (current_user : account)
    : ORG (list account) :=
  caller ← query (fun d => loaded (g_auth d) current_user);
  item ← _department_for_management department_id caller;
  members ← query (fun d => List.filter (fun a => bool_decide (dp_id item ∈ ac_department_ids a)) (rows (g_accounts d)));
  mret (stable_sort before members).

(** ** GET /departments *)

(** The active owner shown with a department: the first of its rows, whose order the query does
    not fix; here that of the accounts *)
Definition shown_owner (d : orgdb) (x : department) : option account :=
  List.find (fun a => ac_active a && existsb (fun o => Z.eqb o.1 (dp_id x) && o.2) (ac_ownerships a)) (rows (g_accounts d)).

(** [before] is the order of the database collation on company and name. *)
Definition list_departments (before : department -> department -> bool) (current_user : account)
    : ORG (list (department * option account)) :=
  caller ← query (fun d => loaded (g_auth d) current_user);
  let can_manage := has_permission caller "user.manage" None "company" in
  items ← query (fun d => stable_sort before (List.filter (fun x => String.eqb (dp_company_domain x) (u_company_domain caller)
                            && (can_manage || dp_active x)) (g_departments d)));
  query (fun d => map (fun x => (x, shown_owner d x)) items).
End DeptAdmin.

(** ** Names are only labels *)

(** What a reader may see does not depend on the names of the departments: renaming them all,
    apart from one another, changes no decision. *)
Section Renaming.
Variable ρ : pystr -> pystr.
Hypothesis ρ_injective : Inj (=) (=) ρ.
Hypothesis ρ_blank : ρ [] = [].
#[local] Existing Instance ρ_injective.

Definition relabel (x : department) : department :=
  mkDepartment (dp_id x) (dp_company_domain x) (ρ (dp_name x)) (dp_active x) (dp_review_required x) (dp_auto_publish_by x).
Definition relabel_user (u : user) : user :=
  mkUser (u_id u) (u_email u) (u_name u) (u_company_domain u) (ρ <$> u_dept u) (u_role u) (u_active u)
    (map relabel (u_departments u))
    (map (fun m => mkDepartmentManager (relabel (dm_department m)) (dm_active m)) (u_department_ownerships u)) (u_roles u).
Definition relabel_resource (r : resource) : resource :=
  mkResource (rs_company_domain r) (map relabel (rs_departments r)) (ρ <$> rs_dept r) (rs_owner_id r).
Definition relabel_article (a : article) : article := a <| a_dept := ρ (a_dept a) |> <| a_departments := map relabel (a_departments a) |>.

Lemma list_names_map {B} (f : B -> pystr) (l : list B) :
  (list_to_set (map (fun x => ρ (f x)) l) : gset pystr) = set_map ρ (list_to_set (map f l) : gset pystr).
Proof. apply leibniz_equiv. induction l as [|x l IH]; cbn; [by rewrite set_map_empty|]. rewrite IH, set_map_union, set_map_singleton. done. Qed.

Lemma names_relabel (l : list department) :
  (list_to_set (map dp_name (map relabel l)) : gset pystr) = set_map ρ (list_to_set (map dp_name l) : gset pystr).
Proof. rewrite map_map. exact (list_names_map dp_name l). Qed.

Lemma filter_relabel (p : department -> bool) (l : list department) : (forall x, p (relabel x) = p x) ->
  List.filter p (map relabel l) = map relabel (List.filter p l).
Proof. intros Hp. induction l as [|x l IH]; cbn; [done|]. rewrite Hp, IH. by destruct (p x). Qed.

Lemma meets_relabel (X Y : gset pystr) : meets (set_map ρ X : gset pystr) (set_map ρ Y : gset pystr) = meets X Y.
Proof.
  apply eq_true_iff_eq. rewrite !meets_true. split.
  - intros (n & (x & -> & Hx)%fin_sets.elem_of_map & (y & He & Hy)%fin_sets.elem_of_map). apply ρ_injective in He as <-. eauto.
  - intros (n & Hx & Hy). exists (ρ n). split; apply fin_sets.elem_of_map; eauto.
Qed.

Lemma elem_relabel (X : gset pystr) n : bool_decide (ρ n ∈ (set_map ρ X : gset pystr)) = bool_decide (n ∈ X).
Proof.
  apply bool_decide_ext. split; [|intros Hn; apply fin_sets.elem_of_map; eauto]. intros (m & He & Hm)%fin_sets.elem_of_map.
  by apply ρ_injective in He as <-.
Qed.

Lemma owned_relabel u : owned_department_names (relabel_user u) = set_map ρ (owned_department_names u).
Proof.
  unfold owned_department_names. rewrite <- list_names_map. f_equal. cbn [u_department_ownerships relabel_user u_company_domain].
  induction (u_department_ownerships u) as [|m l IH]; cbn; [done|].
  destruct (dm_active m && dp_active (dm_department m) && _); cbn; [by f_equal|done].
Qed.

Lemma member_relabel u : member_department_names (relabel_user u) = set_map ρ (member_department_names u).
Proof.
  unfold member_department_names. cbn [u_departments relabel_user u_company_domain].
  rewrite filter_relabel by done. by rewrite names_relabel.
Qed.

Lemma truthy_relabel n : truthy (ρ n) = truthy n.
Proof.
  destruct n as [|c n]; [by rewrite ρ_blank|]. destruct (ρ (c :: n)) eqn:He; [|done]. rewrite <- ρ_blank in He. by apply ρ_injective in He.
Qed.

Lemma article_names_relabel a : article_department_names (relabel_article a) = set_map ρ (article_department_names a).
Proof.
  unfold article_department_names. cbn [a_dept a_departments relabel_article].
  change (a_departments (relabel_article a)) with (map relabel (a_departments a)). change (a_dept (relabel_article a)) with (ρ (a_dept a)).
  rewrite truthy_relabel, filter_relabel, names_relabel by done.
  rewrite set_map_difference_L by done.
  assert (Hb : (set_map ρ ({[ [] ]} : gset pystr) : gset pystr) = {[ [] ]}) by (rewrite set_map_singleton_L, ρ_blank; done).
  rewrite Hb. f_equal. destruct (truthy (a_dept a)); [|done]. rewrite set_map_union_L. f_equal. symmetry. apply leibniz_equiv, set_map_singleton.
Qed.

Lemma scope_relabel granted requested u res :
  _scope_allows granted requested (relabel_user u) (relabel_resource <$> res) = _scope_allows granted requested u res.
Proof.
  unfold _scope_allows. destruct (negb _ || negb _); [done|]. destruct (String.eqb granted "global"); [done|].
  destruct res as [r|]; cbn [fmap option_fmap option_map]; [|done]. cbn [rs_company_domain relabel_resource u_company_domain relabel_user rs_owner_id u_id].
  destruct (String.eqb granted "company"); [done|]. destruct (String.eqb granted "department"); [|done]. f_equal.
  rewrite owned_relabel. cbn [rs_departments rs_dept relabel_resource]. rewrite names_relabel.
  match goal with |- _ = meets (?X ∪ ?Y) ?Z => transitivity (meets (set_map ρ (X ∪ Y) : gset pystr) (set_map ρ Z : gset pystr)) end;
    [|apply meets_relabel].
  f_equal. rewrite set_map_union_L. f_equal. symmetry.
  destruct (rs_dept r); [apply leibniz_equiv, set_map_singleton|apply set_map_empty].
Qed.

Lemma permission_relabel u key res q : has_permission (relabel_user u) key (relabel_resource <$> res) q = has_permission u key res q.
Proof.
  assert (Hr : roles_allow (relabel_user u) key (relabel_resource <$> res) q = roles_allow u key res q).
  { unfold roles_allow. cbn [u_roles relabel_user]. induction (u_roles u) as [|r l IH]; cbn; [done|]. rewrite IH.
    change (role_applies (relabel_user u) r) with (role_applies u r). do 2 f_equal.
    induction (r_permissions r) as [|p l' IH']; cbn; [done|]. rewrite IH'. f_equal. unfold assignment_allows.
    destruct (rp_permission p); [|done]. by rewrite scope_relabel. }
  unfold has_permission. cbn [u_roles u_role relabel_user]. destruct (u_roles u); [|done].
  destruct (assoc (u_role u) DEFAULT_ROLE_PERMISSIONS) as [perms|]; [|done]. destruct (assoc key perms); [|done]. apply scope_relabel.
Qed.

Lemma any_scope_relabel u key res scopes :
  has_any_scope (relabel_user u) key (relabel_resource <$> res) scopes = has_any_scope u key res scopes.
Proof. unfold has_any_scope. induction scopes as [|q l IH]; cbn; [done|]. by rewrite permission_relabel, IH. Qed.

Lemma any_scope_on u key r scopes :
  has_any_scope (relabel_user u) key (Some (relabel_resource r)) scopes = has_any_scope u key (Some r) scopes.
Proof. exact (any_scope_relabel u key (Some r) scopes). Qed.
Lemma any_scope_none u key scopes : has_any_scope (relabel_user u) key None scopes = has_any_scope u key None scopes.
Proof. exact (any_scope_relabel u key None scopes). Qed.
Lemma permission_none u key q : has_permission (relabel_user u) key None q = has_permission u key None q.
Proof. exact (permission_relabel u key None q). Qed.

Lemma full_access_relabel u : has_full_company_article_access (relabel_user u) = has_full_company_article_access u.
Proof.
  unfold has_full_company_article_access. rewrite !permission_none. by cbn [u_roles u_role u_company_domain relabel_user].
Qed.

Lemma department_ids_relabel l : department_ids (map relabel l) = department_ids l.
Proof. unfold department_ids. by rewrite map_map. Qed.

Lemma source_acl_relabel u a : _source_acl_allows (relabel_user u) (relabel_article a) = _source_acl_allows u a.
Proof.
  unfold _source_acl_allows. change (governed_by (relabel_article a)) with (governed_by a). destruct (governed_by a); [done|].
  cbn [u_departments relabel_user]. change (a_departments (relabel_article a)) with (map relabel (a_departments a)).
  by rewrite !department_ids_relabel.
Qed.

Lemma view_relabel u a : can_view_article (relabel_user u) (relabel_article a) = can_view_article u a.
Proof.
  unfold can_view_article. change (to_resource (relabel_article a)) with (relabel_resource (to_resource a)).
  rewrite any_scope_on, source_acl_relabel, full_access_relabel.
  assert (Hg : governance_access (relabel_user u) (relabel_article a) = governance_access u a).
  { unfold governance_access. cbn [existsb]. change (to_resource (relabel_article a)) with (relabel_resource (to_resource a)).
    by rewrite !any_scope_on. }
  assert (Hd : can_access_article_departments (relabel_user u) (relabel_article a) = can_access_article_departments u a).
  { unfold can_access_article_departments. rewrite permission_none, full_access_relabel.
    by rewrite member_relabel, article_names_relabel, meets_relabel. }
  rewrite Hg, Hd. cbn [u_departments relabel_user]. change (a_departments (relabel_article a)) with (map relabel (a_departments a)).
  rewrite !department_ids_relabel. done.
Qed.

Lemma in_departments_relabel (X : gset pystr) a : sql_in_departments (set_map ρ X) (relabel_article a) = sql_in_departments X a.
Proof.
  unfold sql_in_departments. change (a_dept (relabel_article a)) with (ρ (a_dept a)). rewrite elem_relabel. f_equal.
  change (a_departments (relabel_article a)) with (map relabel (a_departments a)).
  induction (a_departments a) as [|x l IH]; cbn; [done|]. by rewrite elem_relabel, IH.
Qed.

Lemma filter_clause_relabel rows rows' u a :
  sql_active_department rows' (relabel_article a) = sql_active_department rows a ->
  _authorized_article_filters rows' (relabel_user u) (relabel_article a) = _authorized_article_filters rows u a.
Proof.
  intros Hrows. unfold _authorized_article_filters, _has_article_read_permission.
  rewrite any_scope_none, Hrows, permission_none.
  assert (Hs : sql_visibility_scope (relabel_user u) (relabel_article a) = sql_visibility_scope u a).
  { unfold sql_visibility_scope. rewrite !permission_none, full_access_relabel, member_relabel, owned_relabel, in_departments_relabel.
    destruct (negb _); [|done]. cbn [u_dept relabel_user].
    assert (Hm : forall X : gset pystr, sql_in_departments (match ρ <$> u_dept u with Some (c :: s) => {[c :: s]} ∪ set_map ρ X | _ => set_map ρ X end) (relabel_article a)
        = sql_in_departments (match u_dept u with Some (c :: s) => {[c :: s]} ∪ X | _ => X end) a).
    { intros X. destruct (u_dept u) as [[|c s]|]; cbn [fmap option_fmap option_map].
      - rewrite ρ_blank. apply in_departments_relabel.
      - pose proof (truthy_relabel (c :: s)) as Ht. destruct (ρ (c :: s)) as [|c' s'] eqn:He; [done|]. rewrite <- He.
        transitivity (sql_in_departments (set_map ρ ({[c :: s]} ∪ X)) (relabel_article a)); [|apply in_departments_relabel].
        f_equal. rewrite set_map_union_L. f_equal. symmetry. apply leibniz_equiv, set_map_singleton.
      - apply in_departments_relabel. }
    rewrite Hm. done. }
  assert (Hu : sql_unpublished (relabel_user u) (relabel_article a) = sql_unpublished u a).
  { unfold sql_unpublished. rewrite !permission_none, owned_relabel, in_departments_relabel.
    cbn [existsb]. by rewrite !permission_none. }
  rewrite Hs, Hu. unfold sql_source_acl. cbn [u_departments relabel_user].
  change (a_departments (relabel_article a)) with (map relabel (a_departments a)). rewrite !department_ids_relabel. done.
Qed.
End Renaming.

(** ** What refers to a department *)

(** A department of the company has the name, the id. *)
Definition named (d : orgdb) (company : string) (n : pystr) : Prop :=
  exists x, x ∈ g_departments d /\ dp_company_domain x = company /\ dp_name x = n.
Definition known (d : orgdb) (company : string) (i : uuid) : Prop :=
  exists x, x ∈ g_departments d /\ dp_company_domain x = company /\ dp_id x = i.

(** No reference dangles: memberships, owners and links point to departments of the company,
    and the names that accounts, articles, chunks and waiting drafts carry are those of one. *)
Record org_ok (d : orgdb) : Prop := {
  og_ids : NoDup (map dp_id (g_departments d));
  og_names : forall x y, x ∈ g_departments d -> y ∈ g_departments d ->
    dp_company_domain x = dp_company_domain y -> dp_name x = dp_name y -> dp_id x = dp_id y;
  og_blank : forall x, x ∈ g_departments d -> dp_name x <> [];
  og_accounts : keyed ac_id (g_accounts d);
  og_articles : keyed a_id (g_articles d);
  og_drafts : keyed d_id (g_drafts d);
  og_members : forall k a i, g_accounts d !! k = Some a -> i ∈ ac_department_ids a -> known d (ac_company_domain a) i;
  og_owners : forall k a o, g_accounts d !! k = Some a -> o ∈ ac_ownerships a -> known d (ac_company_domain a) o.1;
  og_user_dept : forall k a n, g_accounts d !! k = Some a -> ac_dept a = Some n -> named d (ac_company_domain a) n;
  og_article_dept : forall k a, g_articles d !! k = Some a -> a_status a <> "deleted" -> named d (a_company_domain a) (a_dept a);
  og_links : forall l a, l ∈ g_links d -> g_articles d !! l.1 = Some a -> known d (a_company_domain a) l.2;
  og_draft_dept : forall k x n, g_drafts d !! k = Some x -> d_status x = "pending" -> d_dept x = Some n -> named d (d_company_domain x) n;
  og_chunks : forall c a, c ∈ g_chunks d -> g_articles d !! cr_article_id c = Some a -> cr_department_id c = a_dept a
}.

(** One department rewritten in place *)
Definition rewritten (x : department) (l : list department) : list department :=
  map (fun y => if Z.eqb (dp_id y) (dp_id x) then x else y) l.

Section References.
Implicit Types (d : orgdb) (x y item : department).

Lemma rewritten_twice x y l : dp_id x = dp_id y -> rewritten y (rewritten x l) = rewritten y l.
Proof.
  intros He. unfold rewritten. rewrite map_map. apply map_ext. intros z. destruct (Z.eqb_spec (dp_id z) (dp_id x)) as [Hz|Hz].
  - by rewrite He, Z.eqb_refl, (proj2 (Z.eqb_eq _ _)) by congruence.
  - done.
Qed.

Lemma rewritten_elem x l y : y ∈ rewritten x l -> y = x /\ dp_id x ∈ map dp_id l \/ y ∈ l /\ dp_id y <> dp_id x.
Proof.
  unfold rewritten. intros (z & -> & Hz)%elem_of_map. destruct (Z.eqb_spec (dp_id z) (dp_id x)) as [He|He]; [left|by right].
  split; [done|]. apply elem_of_map. eauto.
Qed.

Lemma rewritten_ids x l : map dp_id (rewritten x l) = map dp_id l.
Proof.
  unfold rewritten. rewrite map_map. apply map_ext. intros z. by destruct (Z.eqb_spec (dp_id z) (dp_id x)).
Qed.

Lemma unique_department d x y : org_ok d -> x ∈ g_departments d -> y ∈ g_departments d -> dp_id x = dp_id y -> x = y.
Proof. intros Hok Hx Hy He. by apply (NoDup_map_eq dp_id (g_departments d)); [apply Hok|..]. Qed.

(** What each row becomes under a rename *)
Lemma renamed_account_fields c old new a : let b := renamed_account c old new a in
  ac_id b = ac_id a /\ ac_company_domain b = ac_company_domain a /\ ac_department_ids b = ac_department_ids a /\ ac_ownerships b = ac_ownerships a
  /\ ac_dept b = if String.eqb (ac_company_domain a) c && bool_decide (ac_dept a = Some old) then Some new else ac_dept a.
Proof. cbv zeta. unfold renamed_account. by destruct (_ && _). Qed.

Lemma renamed_article_fields c old new a : let b := renamed_article c old new a in
  a_id b = a_id a /\ a_company_domain b = a_company_domain a /\ a_status b = a_status a
  /\ a_dept b = if String.eqb (a_company_domain a) c && bool_decide (a_dept a = old) then new else a_dept a.
Proof. cbv zeta. unfold renamed_article. by destruct (_ && _). Qed.

Lemma renamed_draft_fields c old new r : let b := renamed_draft c old new r in
  d_id b = d_id r /\ d_company_domain b = d_company_domain r /\ d_status b = d_status r
  /\ d_dept b = if String.eqb (d_company_domain r) c && bool_decide (d_dept r = Some old) then Some new else d_dept r.
Proof. cbv zeta. unfold renamed_draft. by destruct (_ && _). Qed.

Lemma account_unrenamed c n a : renamed_account c n n a = a.
Proof. unfold renamed_account. destruct (_ && _) eqn:Hb; [|done]. apply andb_true_iff in Hb as [_ Hb%bool_decide_eq_true]. destruct a; cbn in *. by subst. Qed.
Lemma article_unrenamed c n a : renamed_article c n n a = a.
Proof. unfold renamed_article. destruct (_ && _) eqn:Hb; [|done]. apply andb_true_iff in Hb as [_ Hb%bool_decide_eq_true]. destruct a; cbn in *. by subst. Qed.
Lemma draft_unrenamed c n r : renamed_draft c n n r = r.
Proof. unfold renamed_draft. destruct (_ && _) eqn:Hb; [|done]. apply andb_true_iff in Hb as [_ Hb%bool_decide_eq_true]. destruct r; cbn in *. by subst. Qed.

Lemma fmap_same {A} (f : A -> A) (m : gmap uuid A) : (forall z, f z = z) -> f <$> m = m.
Proof. intros Hf. rewrite <- (map_fmap_id m) at 2. apply map_fmap_ext. intros i z _. apply Hf. Qed.

Lemma map_same {A} (f : A -> A) (l : list A) : (forall z, f z = z) -> map f l = l.
Proof. intros Hf. rewrite <- (map_id l) at 2. by apply map_ext. Qed.

Lemma chunk_unrenamed articles c n r : renamed_chunk articles c n n r = r.
Proof. unfold renamed_chunk. destruct (_ && _) eqn:Hb; [|done]. apply andb_true_iff in Hb as [Hb%bool_decide_eq_true _]. destruct r; cbn in *. by subst. Qed.
Lemma gap_unrenamed c n r : renamed_gap c n (Some n) r = r.
Proof. unfold renamed_gap. destruct (_ && _) eqn:Hb; [|done]. apply andb_true_iff in Hb as [_ Hb%bool_decide_eq_true]. destruct r; cbn in *. by subst. Qed.
Lemma flag_unrenamed n r : renamed_flag n n r = r.
Proof. unfold renamed_flag. case_bool_decide as Hb; [|done]. destruct r; cbn in *. by subst. Qed.

(** Renaming to the same name changes nothing. *)
Lemma rename_same c n d : rename_references c n n d = d.
Proof.
  unfold rename_references. cbv zeta.
  rewrite (fmap_same (renamed_account c n n)) by apply account_unrenamed.
  rewrite (fmap_same (renamed_article c n n)) by apply article_unrenamed.
  rewrite (map_same (renamed_flag n n)) by apply flag_unrenamed.
  rewrite (map_same (renamed_gap c n (Some n))) by apply gap_unrenamed.
  rewrite (fmap_same (renamed_draft c n n)) by apply draft_unrenamed.
  rewrite (map_same (renamed_chunk _ c n n)) by apply chunk_unrenamed.
  by destruct d as [[] ? ? ? ? ? ? ? ? ? ?].
Qed.

(** The database after an update of a department, but for its texts and the log *)
Definition after_update (item item' : department) (d : orgdb) : orgdb :=
  with_departments (rewritten item' (g_departments d)) (rename_references (dp_company_domain item) (dp_name item) (dp_name item') d).

Lemma after_update_tables item item' d :
  let c := dp_company_domain item in let old := dp_name item in let new := dp_name item' in
  g_departments (after_update item item' d) = rewritten item' (g_departments d)
  /\ g_accounts (after_update item item' d) = renamed_account c old new <$> g_accounts d
  /\ g_articles (after_update item item' d) = renamed_article c old new <$> g_articles d
  /\ g_links (after_update item item' d) = g_links d
  /\ g_chunks (after_update item item' d) = map (renamed_chunk (renamed_article c old new <$> g_articles d) c old new) (g_chunks d)
  /\ g_drafts (after_update item item' d) = renamed_draft c old new <$> g_drafts d
  /\ t_roles (g_auth (after_update item item' d)) = t_roles (g_auth d).
Proof. done. Qed.

(** An update under which names stay apart *)
Record proper_update (d : orgdb) (item item' : department) : Prop := {
  pu_item : item ∈ g_departments d;
  pu_id : dp_id item' = dp_id item;
  pu_company : dp_company_domain item' = dp_company_domain item;
  pu_blank : dp_name item' <> [];
  pu_apart : forall y, y ∈ g_departments d -> dp_id y <> dp_id item -> dp_company_domain y = dp_company_domain item ->
    dp_name y <> dp_name item'
}.

Section Update.
Variables (d : orgdb) (item item' : department).
Hypotheses (Hok : org_ok d) (Hu : proper_update d item item').

Lemma item_only x : x ∈ g_departments d -> dp_id x = dp_id item -> x = item.
Proof. intros Hx He. apply (unique_department d); [done|done|apply Hu|done]. Qed.

Lemma updated_elem x : x ∈ g_departments (after_update item item' d) <->
  x = item' \/ x ∈ g_departments d /\ dp_id x <> dp_id item.
Proof.
  split.
  - intros [[-> _]|[Hx Hne]]%rewritten_elem; [by left|right]. by rewrite <- (pu_id _ _ _ Hu).
  - intros [->|[Hx Hne]]; apply elem_of_map.
    + exists item. rewrite (pu_id _ _ _ Hu), Z.eqb_refl. split; [done|apply Hu].
    + exists x. rewrite (pu_id _ _ _ Hu), (proj2 (Z.eqb_neq _ _) Hne). done.
Qed.

Lemma known_after c i : known d c i -> known (after_update item item' d) c i.
Proof.
  intros (x & Hx & Hc & Hi). destruct (decide (dp_id x = dp_id item)) as [He|He].
  - apply item_only in He; [subst x|done]. exists item'. split; [apply updated_elem; by left|].
    split; [by rewrite (pu_company _ _ _ Hu)|by rewrite (pu_id _ _ _ Hu)].
  - exists x. split; [|done]. apply updated_elem. by right.
Qed.

(** The name a row carries after the update *)
Lemma named_after c n : named d c n ->
  named (after_update item item' d) c (if String.eqb c (dp_company_domain item) && bool_decide (n = dp_name item) then dp_name item' else n).
Proof.
  intros (x & Hx & Hc & Hn). destruct (decide (dp_id x = dp_id item)) as [He|He].
  - apply item_only in He; [subst x|done]. rewrite <- Hc, <- Hn, String.eqb_refl, bool_decide_true by done. cbn.
    exists item'. split; [apply updated_elem; by left|]. by rewrite (pu_company _ _ _ Hu).
  - exists x. split; [apply updated_elem; by right|]. split; [done|].
    destruct (String.eqb_spec c (dp_company_domain item)) as [Hcc|]; [|done]. case_bool_decide as Hnn; [|done].
    exfalso. apply He. apply (og_names d Hok); [done|apply Hu|congruence|congruence].
Qed.

Lemma named_after_some c o : (forall n, o = Some n -> named d c n) ->
  forall n, (if String.eqb c (dp_company_domain item) && bool_decide (o = Some (dp_name item)) then Some (dp_name item') else o) = Some n ->
  named (after_update item item' d) c n.
Proof.
  intros Ho n Hn. destruct o as [m|].
  - specialize (named_after c m (Ho m eq_refl)). intros Ha.
    assert (He : bool_decide (Some m = Some (dp_name item)) = bool_decide (m = dp_name item)) by (apply bool_decide_ext; split; congruence).
    rewrite He in Hn. destruct (_ && _); by injection Hn as <-.
  - rewrite bool_decide_false, andb_false_r in Hn by done. done.
Qed.

Lemma update_keeps_references : org_ok (after_update item item' d).
Proof.
  destruct (after_update_tables item item' d) as (Td & Ta & Tr & Tl & Tc & Tp & _). constructor.
  - rewrite Td, rewritten_ids. apply Hok.
  - intros x y [->|[Hx Hnx]]%updated_elem [->|[Hy Hny]]%updated_elem Hc Hn; [done| | |by apply (og_names d Hok)].
    + exfalso. apply (pu_apart _ _ _ Hu y Hy Hny); [rewrite <- (pu_company _ _ _ Hu)|]; by symmetry.
    + exfalso. apply (pu_apart _ _ _ Hu x Hx Hnx); [rewrite <- (pu_company _ _ _ Hu)|]; done.
  - intros x [->|[Hx _]]%updated_elem; [apply Hu|by apply (og_blank d Hok)].
  - rewrite Ta. intros i a. rewrite lookup_fmap. intros (b & Hb & ->)%fmap_Some. rewrite (proj1 (renamed_account_fields _ _ _ _)).
    by apply (og_accounts d Hok).
  - rewrite Tr. intros i a. rewrite lookup_fmap. intros (b & Hb & ->)%fmap_Some. rewrite (proj1 (renamed_article_fields _ _ _ _)).
    by apply (og_articles d Hok).
  - rewrite Tp. intros i a. rewrite lookup_fmap. intros (b & Hb & ->)%fmap_Some. rewrite (proj1 (renamed_draft_fields _ _ _ _)).
    by apply (og_drafts d Hok).
  - rewrite Ta. intros k a i. rewrite lookup_fmap. intros (b & Hb & ->)%fmap_Some.
    destruct (renamed_account_fields (dp_company_domain item) (dp_name item) (dp_name item') b) as (_ & -> & -> & _).
    intros Hi. by apply known_after, (og_members d Hok k b).
  - rewrite Ta. intros k a o. rewrite lookup_fmap. intros (b & Hb & ->)%fmap_Some.
    destruct (renamed_account_fields (dp_company_domain item) (dp_name item) (dp_name item') b) as (_ & -> & _ & -> & _).
    intros Hi. by apply known_after, (og_owners d Hok k b).
  - rewrite Ta. intros k a n. rewrite lookup_fmap. intros (b & Hb & ->)%fmap_Some.
    destruct (renamed_account_fields (dp_company_domain item) (dp_name item) (dp_name item') b) as (_ & -> & _ & _ & ->).
    apply named_after_some. intros m. by apply (og_user_dept d Hok k b).
  - rewrite Tr. intros k a. rewrite lookup_fmap. intros (b & Hb & ->)%fmap_Some.
    destruct (renamed_article_fields (dp_company_domain item) (dp_name item) (dp_name item') b) as (_ & -> & -> & ->).
    intros Hs. by apply named_after, (og_article_dept d Hok k b).
  - rewrite Tl, Tr. intros l a Hl. rewrite lookup_fmap. intros (b & Hb & ->)%fmap_Some.
    destruct (renamed_article_fields (dp_company_domain item) (dp_name item) (dp_name item') b) as (_ & -> & _).
    by apply known_after, (og_links d Hok l b).
  - rewrite Tp. intros k r n. rewrite lookup_fmap. intros (b & Hb & ->)%fmap_Some.
    destruct (renamed_draft_fields (dp_company_domain item) (dp_name item) (dp_name item') b) as (_ & -> & -> & ->).
    intros Hs. apply named_after_some. intros m. by apply (og_draft_dept d Hok k b).
  - rewrite Tc, Tr. intros c a (c0 & -> & Hc0)%elem_of_map. unfold renamed_chunk.
    assert (Hart : cr_article_id (if bool_decide (cr_department_id c0 = dp_name item) && match (renamed_article (dp_company_domain item) (dp_name item) (dp_name item') <$> g_articles d) !! cr_article_id c0 with
        | Some a => String.eqb (a_company_domain a) (dp_company_domain item) && bool_decide (a_dept a = dp_name item') | None => false end
        then mkChunkRow (cr_id c0) (cr_article_id c0) (dp_name item') else c0) = cr_article_id c0) by (by destruct (_ && _)).
    rewrite Hart. rewrite lookup_fmap. intros (b & Hb & ->)%fmap_Some. rewrite Hb. cbn [fmap option_fmap option_map].
    pose proof (og_chunks d Hok c0 b Hc0 Hb) as Hcd.
    destruct (renamed_article_fields (dp_company_domain item) (dp_name item) (dp_name item') b) as (_ & -> & _ & ->). rewrite Hcd.
    destruct (String.eqb_spec (a_company_domain b) (dp_company_domain item)) as [Hco|Hco]; cbn [andb].
    + destruct (decide (a_dept b = dp_name item)) as [Hd|Hd].
      * rewrite (bool_decide_true (a_dept b = dp_name item)) by exact Hd. cbn [andb]. by rewrite bool_decide_true.
      * rewrite (bool_decide_false (a_dept b = dp_name item)) by exact Hd. exact Hcd.
    + by rewrite andb_false_r.
Qed.
End Update.
End References.

(** ** What the handlers do *)

Section Effects.
Context `{KbEnv}.
Implicit Types (d : orgdb) (u : account).

Lemma management_run id caller s (item : department) s' : _department_for_management id caller s = (Return item, s') ->
  s' = s /\ item ∈ g_departments (working s) /\ dp_id item = id /\ dp_company_domain item = u_company_domain caller.
Proof.
  unfold _department_for_management. intros Hr. minv. split; [done|].
  match goal with Hf : List.find _ _ = Some _ |- _ => apply find_some in Hf as [Hin Hb] end.
  apply list_elem_of_In in Hin. bools. eqs. done.
Qed.

(** The new name of a department, when the request has one *)
Definition new_name d (item : department) (given : option pystr) (name : pystr) : Prop :=
  match given with
  | None => name = dp_name item
  | Some n => normalize_department_name (Some n) = Some name
              /\ existsb (fun x => negb (Z.eqb (dp_id x) (dp_id item)) && has_department_name (dp_company_domain item) name x) (g_departments d) = false
  end.

Lemma with_departments_rename l c old new d : with_departments l (rename_references c old new d) = rename_references c old new (with_departments l d).
Proof. done. Qed.

Lemma rename_run n (item : department) s (x : department) s' : rename_department n item s = (Return x, s') ->
  x = mkDepartment (dp_id item) (dp_company_domain item) (dp_name x) (dp_active item) (dp_review_required item) (dp_auto_publish_by item)
  /\ new_name (working s) item n (dp_name x) /\ committed s' = committed s
  /\ (forall y, dp_id y = dp_id item ->
        with_departments (rewritten y (g_departments (working s'))) (working s')
        = with_departments (rewritten y (g_departments (working s))) (rename_references (dp_company_domain item) (dp_name item) (dp_name x) (working s))).
Proof.
  unfold rename_department, put_department. destruct n as [n|]; intros Hr; minv; cbn [dp_name dp_id working committed].
  - split; [done|]. split; [split; [done|by apply negb_true_iff]|]. split; [done|]. intros y Hy.
    match goal with |- with_departments (rewritten y ?l) _ = _ => change l with (rewritten (mkDepartment (dp_id item) (dp_company_domain item) x0
      (dp_active item) (dp_review_required item) (dp_auto_publish_by item)) (g_departments (working s))) end.
    rewrite rewritten_twice by done. done.
  - split; [by destruct x|]. split; [done|]. split; [done|]. intros y _. by rewrite rename_same.
Qed.

Lemma policy_run caller required (item : department) s (x : department) (changed : bool) s' :
  review_policy caller required item s = (Return (x, changed), s') ->
  s' = s /\ dp_id x = dp_id item /\ dp_company_domain x = dp_company_domain item /\ dp_name x = dp_name item /\ dp_active x = dp_active item
  /\ (dp_review_required x = dp_review_required item /\ dp_auto_publish_by x = dp_auto_publish_by item
      \/ required = Some (dp_review_required x)
         /\ (dp_review_required x = true /\ dp_auto_publish_by x = None
             \/ dp_review_required x = false /\ dp_auto_publish_by x = Some (u_id caller) /\ _may_waive_review caller = true)).
Proof.
  unfold review_policy. destruct required as [b|]; [|intros Hr; minv; split_and!; auto].
  case_bool_decide; intros Hr; minv; [split_and!; auto|]. cbn. split_and!; try done. right. split; [done|].
  destruct b; [by left|right]. done.
Qed.

Lemma texts_run payload (item : department) s r s' : update_texts payload item s = (Return r, s') ->
  exists T, s' = Session (committed s) ((working s) <| g_texts := T |>) (published s).
Proof.
  unfold update_texts, write. intros Hr. injection Hr as _ <-.
  destruct (default _ (g_texts (working s) !! dp_id item)) as [description contact]. by eexists.
Qed.

Lemma update_effect id payload u d (x : department) s' :
  update_department id payload u (open_session d) = (Return x, s') ->
  exists (item : department) T A, item ∈ g_departments d /\ dp_id item = id /\ dp_company_domain item = ac_company_domain u
    /\ dp_id x = dp_id item /\ dp_company_domain x = dp_company_domain item /\ new_name d item (du_name payload) (dp_name x)
    /\ dp_active x = default (dp_active item) (du_active payload)
    /\ (dp_review_required x = dp_review_required item /\ dp_auto_publish_by x = dp_auto_publish_by item
        \/ du_review_required payload = Some (dp_review_required x)
           /\ (dp_review_required x = true /\ dp_auto_publish_by x = None
               \/ dp_review_required x = false /\ dp_auto_publish_by x = Some (ac_id u) /\ _may_waive_review (loaded (g_auth d) u) = true))
    /\ committed s' = (after_update item x d) <| g_texts := T |> <| g_audits := A |>.
Proof.
  unfold update_department, record_department, put_department. intros Hr. minv.
  match goal with p : department * bool |- _ => destruct p as [y changed] end. minv.
  match goal with Hm : _department_for_management _ _ _ = _ |- _ => apply management_run in Hm as (-> & Hin & Hid & Hco) end.
  match goal with Hn : rename_department _ ?i _ = (Return ?z, _) |- _ => apply rename_run in Hn as (Hy & Hname & _ & Hput); rename i into item, z into renamed end.
  match goal with Ht : update_texts _ _ _ = _ |- _ => apply texts_run in Ht as (T & ->) end.
  match goal with Hp : review_policy _ _ _ _ = _ |- _ => apply policy_run in Hp as (-> & Pid & Pco & Pn & Pa & Ppol) end.
  cbn [working committed published open_session] in *.
  exists item, T. eexists. split; [exact Hin|]. split; [exact Hid|]. split; [exact Hco|].
  assert (Hmid : forall b : option bool, let z := match b with Some b => mkDepartment (dp_id renamed) (dp_company_domain renamed) (dp_name renamed) b (dp_review_required renamed) (dp_auto_publish_by renamed) | None => renamed end in
     dp_id z = dp_id item /\ dp_company_domain z = dp_company_domain item /\ dp_name z = dp_name renamed /\ dp_active z = default (dp_active item) b
     /\ dp_review_required z = dp_review_required item /\ dp_auto_publish_by z = dp_auto_publish_by item) by (intros [b|]; rewrite Hy; done).
  destruct (Hmid (du_active payload)) as (M1 & M2 & M3 & M4 & M5 & M6). rewrite M1 in Pid. rewrite M2 in Pco. rewrite M3 in Pn. rewrite M4 in Pa.
  rewrite M5, M6 in Ppol. split_and!; try done; [by rewrite Pn|].
  unfold after_update. rewrite Pn, <- Hput by congruence. reflexivity.
Qed.
End Effects.

Section Consistency.
Context `{KbEnv}.
(** PostgreSQL and Python lower a name alike. *)
Hypothesis lower_agree : forall s, sql_lower s = py_lower s.
Implicit Types (d : orgdb) (u : account).

Lemma normalized_name n m : normalize_department_name n = Some m -> m <> [].
Proof. unfold normalize_department_name. repeat case_match; naive_solver. Qed.

Lemma apart_names d p company name : existsb (fun x => p x && has_department_name company name x) (g_departments d) = false ->
  forall y, y ∈ g_departments d -> p y = true -> dp_company_domain y = company -> dp_name y <> name.
Proof.
  intros Hex y Hy Hp Hc Hn. rewrite existsb_false in Hex. specialize (Hex y Hy). unfold has_department_name in Hex.
  rewrite Hp, Hc, Hn, String.eqb_refl, bool_decide_true in Hex; [done|apply lower_agree].
Qed.

Lemma update_is_proper d (item x : department) given : org_ok d -> item ∈ g_departments d -> dp_id x = dp_id item ->
  dp_company_domain x = dp_company_domain item -> new_name d item given (dp_name x) -> proper_update d item x.
Proof.
  intros Hok Hin Hid Hco Hname. destruct given as [n|]; cbn in Hname.
  - destruct Hname as [Hn Hex]. constructor; try done; [by apply (normalized_name _ _ Hn)|].
    intros y Hy Hne Hc. apply (apart_names d (fun z => negb (Z.eqb (dp_id z) (dp_id item))) (dp_company_domain item)); [done|done| |done].
    by rewrite (proj2 (Z.eqb_neq _ _) Hne).
  - constructor; try done; [rewrite Hname; by apply (og_blank d Hok)|].
    intros y Hy Hne Hc He. apply Hne, (og_names d Hok); [done|done|done|congruence].
Qed.

(** The tables references live in *)
Definition same_references d d' : Prop := g_departments d' = g_departments d /\ g_accounts d' = g_accounts d /\ g_articles d' = g_articles d
  /\ g_links d' = g_links d /\ g_chunks d' = g_chunks d /\ g_drafts d' = g_drafts d.

Lemma same_references_ok d d' : same_references d d' -> org_ok d -> org_ok d'.
Proof.
  intros (Ed & Ea & Er & El & Ec & Ep) [? ? ? ? ? ? M O U A L D C]. unfold known, named in *.
  constructor; unfold known, named; rewrite ?Ed, ?Ea, ?Er, ?El, ?Ec, ?Ep; done.
Qed.

(** ** Creation *)

Lemma create_keeps id payload u d (x : department) s' : org_ok d -> id ∉ map dp_id (g_departments d) ->
  create_department id payload u (open_session d) = (Return x, s') -> org_ok (committed s').
Proof.
  intros Hok Hfresh Hr. unfold create_department, record_department, put_texts in Hr. cbv zeta in Hr. minv. cbn [committed working open_session] in *.
  match goal with Hn : normalize_department_name _ = Some ?n |- _ => rename n into name; pose proof (normalized_name _ _ Hn) as Hblank end.
  match goal with Hx : negb (existsb _ _) = true |- _ => apply negb_true_iff in Hx; rename Hx into Hex end.
  set (x := mkDepartment id _ name true true None) in *.
  apply (same_references_ok (with_departments (g_departments d ++ [x]) d)); [done|].
  assert (Hgrow : forall y, y ∈ g_departments d -> y ∈ g_departments d ++ [x]) by (intros; apply elem_of_app; by left).
  assert (Hknown : forall c i, known d c i -> known (with_departments (g_departments d ++ [x]) d) c i)
    by (intros c i (y & Hy & He); exists y; split; [by apply Hgrow|done]).
  assert (Hnamed : forall c n, named d c n -> named (with_departments (g_departments d ++ [x]) d) c n)
    by (intros c n (y & Hy & He); exists y; split; [by apply Hgrow|done]).
  assert (Hapart : forall y, y ∈ g_departments d -> dp_company_domain y = dp_company_domain x -> dp_name y <> dp_name x).
  { intros y Hy Hc. by apply (apart_names d (fun _ => true) (dp_company_domain x)). }
  destruct Hok as [Ni Nn Nb Ka Kr Kd M O U A L D C]. constructor; try done.
  - change (NoDup (map dp_id (g_departments d ++ [x]))). rewrite map_app. apply NoDup_app. split; [done|]. split; [|apply NoDup_singleton].
    intros i Hi ->%list_elem_of_singleton. done.
  - change (forall y z, y ∈ g_departments d ++ [x] -> z ∈ g_departments d ++ [x] ->
      dp_company_domain y = dp_company_domain z -> dp_name y = dp_name z -> dp_id y = dp_id z).
    intros y z [Hy| ->%list_elem_of_singleton]%elem_of_app [Hz| ->%list_elem_of_singleton]%elem_of_app Hc He; [by apply Nn| | |done].
    + by destruct (Hapart y Hy Hc).
    + by destruct (Hapart z Hz (eq_sym Hc)).
  - change (forall y, y ∈ g_departments d ++ [x] -> dp_name y <> []).
    intros y [Hy| ->%list_elem_of_singleton]%elem_of_app; [by apply Nb|done].
  - intros k a i Ha Hi. by eapply Hknown, M.
  - intros k a o Ha Ho. by eapply Hknown, O.
  - intros k a n Ha Hn. by eapply Hnamed, U.
  - intros k a Ha Hs. by eapply Hnamed, A.
  - intros l a Hl Ha. by eapply Hknown, L.
  - intros k r n Hk Hs Hn. by eapply Hnamed, D.
Qed.

(** ** Deletion *)

Lemma count_zero {A} (p : A -> bool) (l : list A) : Z.eqb (count_of p l) 0 = true -> forall a, a ∈ l -> p a = false.
Proof.
  unfold count_of. intros Hc a Ha. destruct (p a) eqn:Hp; [|done]. apply Z.eqb_eq in Hc.
  assert (Hin : a ∈ List.filter p l) by (by apply elem_of_filter_b). destruct (List.filter p l); [by apply elem_of_nil in Hin|done].
Qed.

(** An unused department: nothing that counts refers to it. *)
Record unused d (item : department) : Prop := {
  un_dept : forall k a, g_accounts d !! k = Some a -> ac_company_domain a = dp_company_domain item -> ac_dept a <> Some (dp_name item);
  un_member : forall k a, g_accounts d !! k = Some a -> dp_id item ∉ ac_department_ids a;
  un_owner : forall k a o, g_accounts d !! k = Some a -> o ∈ ac_ownerships a -> o.1 <> dp_id item;
  un_article : forall k a, g_articles d !! k = Some a -> a_company_domain a = dp_company_domain item -> a_dept a = dp_name item -> a_status a = "deleted";
  un_draft : forall k x, g_drafts d !! k = Some x -> d_company_domain x = dp_company_domain item -> d_status x = "pending" -> d_dept x <> Some (dp_name item)
}.

Lemma nothing_used d (item : department) : org_ok d ->
  match List.filter (fun r => negb (Z.eqb r.2 0)) (references d item) with [] => true | _ => false end = true -> unused d item.
Proof.
  intros Hok Hused.
  assert (Hzero : forall r, r ∈ references d item -> Z.eqb r.2 0 = true).
  { intros r Hr. destruct (Z.eqb r.2 0) eqn:Hz; [done|].
    assert (Hin : r ∈ List.filter (fun r => negb (Z.eqb r.2 0)) (references d item)) by (apply elem_of_filter_b; by rewrite Hz).
    destruct (List.filter _ (references d item)); [by apply elem_of_nil in Hin|done]. }
  unfold references in Hzero.
  assert (Hz : forall k c, nth_error (references d item) k = Some c -> Z.eqb c.2 0 = true)
    by (intros k c Hk; apply Hzero, list_elem_of_In; by eapply nth_error_In).
  assert (Hacc : forall k a, g_accounts d !! k = Some a -> a ∈ rows (g_accounts d)).
  { intros k a Ha. apply (elem_of_rows ac_id); [apply Hok|]. by rewrite (og_accounts d Hok k a Ha). }
  constructor.
  - intros k a Ha Hc Hd. specialize (Hz 0%nat _ eq_refl). apply count_zero with (a := a) in Hz; [|by eapply Hacc].
    cbn beta in Hz. by rewrite Hc, Hd, String.eqb_refl, bool_decide_true in Hz.
  - intros k a Ha Hi. specialize (Hz 1%nat _ eq_refl). apply count_zero with (a := (a, dp_id item)) in Hz.
    + cbn in Hz. by rewrite Z.eqb_refl in Hz.
    + apply list_elem_of_In, in_concat. exists (map (pair a) (ac_department_ids a)). split.
      * apply in_map_iff. exists a. split; [done|]. apply list_elem_of_In. by eapply Hacc.
      * apply in_map_iff. exists (dp_id item). split; [done|by apply list_elem_of_In].
  - intros k a o Ha Ho He. specialize (Hz 4%nat _ eq_refl). apply count_zero with (a := o) in Hz.
    + cbn in Hz. by rewrite He, Z.eqb_refl in Hz.
    + apply list_elem_of_In, in_concat. exists (ac_ownerships a). split; [|by apply list_elem_of_In].
      apply in_map_iff. exists a. split; [done|]. apply list_elem_of_In. by eapply Hacc.
  - intros k a Ha Hc Hd. specialize (Hz 2%nat _ eq_refl). apply count_zero with (a := a) in Hz.
    + unfold holds_article in Hz. rewrite Hc, Hd, String.eqb_refl, bool_decide_true in Hz by done. cbn in Hz.
      by apply negb_false_iff, String.eqb_eq in Hz.
    + apply (elem_of_rows a_id); [apply Hok|]. by rewrite (og_articles d Hok k a Ha).
  - intros k x Hx Hc Hs Hd. specialize (Hz 3%nat _ eq_refl). apply count_zero with (a := x) in Hz.
    + cbn beta in Hz. by rewrite Hc, Hd, Hs, !String.eqb_refl, bool_decide_true in Hz.
    + apply (elem_of_rows d_id); [apply Hok|]. by rewrite (og_drafts d Hok k x Hx).
Qed.

Definition without (item : department) (l : list department) : list department := List.filter (fun x => negb (Z.eqb (dp_id x) (dp_id item))) l.

Lemma delete_effect id u d r s' : delete_department id u (open_session d) = (Return r, s') ->
  exists item : department, item ∈ g_departments d /\ dp_id item = id /\ dp_company_domain item = ac_company_domain u
    /\ (org_ok d -> unused d item)
    /\ let d' := committed s' in g_departments d' = without item (g_departments d) /\ g_accounts d' = g_accounts d
       /\ g_articles d' = g_articles d /\ g_chunks d' = g_chunks d /\ g_drafts d' = g_drafts d
       /\ g_links d' = List.filter (fun l => negb (Z.eqb l.2 (dp_id item))) (g_links d).
Proof.
  unfold delete_department, record_department. intros Hr. minv.
  match goal with Hm : _department_for_management _ _ _ = (Return ?i, _) |- _ => apply management_run in Hm as (-> & Hin & Hid & Hco); rename i into item end.
  cbn [working committed open_session] in *. exists item. split; [done|]. split; [done|]. split; [done|].
  split; [intros Hok; by apply nothing_used|done].
Qed.

Lemma delete_keeps id u d r s' : org_ok d -> delete_department id u (open_session d) = (Return r, s') -> org_ok (committed s').
Proof.
  intros Hok (item & Hin & _ & _ & Hun & Td & Ta & Tr & Tc & Tp & Tl)%delete_effect. specialize (Hun Hok). cbv zeta in *.
  assert (Hel : forall x, x ∈ g_departments (committed s') <-> x ∈ g_departments d /\ dp_id x <> dp_id item).
  { intros x. rewrite Td. unfold without. rewrite elem_of_filter_b, negb_true_iff, Z.eqb_neq. done. }
  assert (Hknown : forall c i, known d c i -> i <> dp_id item -> known (committed s') c i).
  { intros c i (x & Hx & Hc & Hi) Hne. exists x. split; [apply Hel; split; [done|congruence]|done]. }
  assert (Hnamed : forall c n, named d c n -> ~ (c = dp_company_domain item /\ n = dp_name item) -> named (committed s') c n).
  { intros c n (x & Hx & Hc & Hn) Hne. exists x. split; [|done]. apply Hel. split; [done|]. intros He. apply Hne.
    assert (x = item) as -> by (by apply (unique_department d)). done. }
  destruct Hok as [Ni Nn Nb Ka Kr Kd M O U A L D C], Hun as [Ud Um Uo Ua Up].
  constructor; rewrite ?Ta, ?Tr, ?Tc, ?Tp, ?Tl; try done.
  - rewrite Td. unfold without. clear -Ni. induction (g_departments d) as [|x l IH]; cbn in *; [constructor|].
    apply NoDup_cons in Ni as [Hx Ni]. destruct (negb _); cbn; [|by apply IH]. apply NoDup_cons. split; [|by apply IH].
    intros (y & He & [Hy _]%elem_of_filter_b)%elem_of_map. apply Hx, elem_of_map. eauto.
  - intros x y [Hx _]%Hel [Hy _]%Hel. by apply Nn.
  - intros x [Hx _]%Hel. by apply Nb.
  - intros k a i Ha Hi. eapply Hknown; [by eapply M|]. intros ->. by apply (Um k a).
  - intros k a o Ha Ho. eapply Hknown; [by eapply O|]. by apply (Uo k a).
  - intros k a n Ha Hn. eapply Hnamed; [by eapply U|]. intros [Hc ->]. by apply (Ud k a).
  - intros k a Ha Hs. eapply Hnamed; [by eapply A|]. intros [Hc Hd]. apply Hs. by apply (Ua k a).
  - intros l a [Hl Hne]%elem_of_filter_b Ha. apply Hknown; [by eapply L|]. apply negb_true_iff, Z.eqb_neq in Hne. done.
  - intros k x n Hk Hs Hn. eapply Hnamed; [by eapply D|]. intros [Hc ->]. by apply (Up k x).
Qed.

(** ** Members *)

Lemma member_row_fields i ms a : let b := member_row i ms a in
  ac_id b = ac_id a /\ ac_company_domain b = ac_company_domain a /\ ac_dept b = ac_dept a /\ ac_ownerships b = ac_ownerships a
  /\ forall j, j ∈ ac_department_ids b -> j ∈ ac_department_ids a \/ j = i /\ ac_id a ∈ ms.
Proof.
  cbv zeta. unfold member_row. case_bool_decide as Hm; [case_bool_decide|]; cbn; split_and!; try done; [by left|..].
  - intros j [?| ->%list_elem_of_singleton]%elem_of_app; [by left|by right].
  - intros j [? _]%elem_of_filter_b. by left.
Qed.

Lemma members_effect id ids u d r s' : replace_department_members id ids u (open_session d) = (Return r, s') ->
  exists (item : department) (ms : gset uuid), item ∈ g_departments d /\ dp_id item = id /\ dp_company_domain item = ac_company_domain u
    /\ (forall i, i ∈ ms -> i ∈ ids /\ exists a, a ∈ rows (g_accounts d) /\ ac_id a = i /\ ac_company_domain a = dp_company_domain item)
    /\ same_references (with_accounts (member_row id ms <$> g_accounts d) d) (committed s').
Proof.
  unfold replace_department_members, record_department. intros Hr. cbv zeta in Hr. minv.
  match goal with Hm : _department_for_management _ _ _ = (Return ?i, _) |- _ => apply management_run in Hm as (-> & Hin & Hid & Hco); rename i into item end.
  cbn [working committed open_session] in *. rewrite <- Hid.
  eexists item, _. split; [done|]. split; [done|]. split; [done|]. split; [|done].
  intros i Hi. apply elem_of_list_to_set, elem_of_map in Hi as (a & -> & [Ha Hb]%elem_of_filter_b). bools. eqs.
  split; [by apply elem_of_dedup|]. exists a. done.
Qed.

Lemma members_keep id ids u d r s' : org_ok d -> replace_department_members id ids u (open_session d) = (Return r, s') -> org_ok (committed s').
Proof.
  intros Hok (item & ms & Hin & <- & _ & Hms & Hsame)%members_effect. apply (same_references_ok _ _ Hsame).
  destruct Hok as [Ni Nn Nb Ka Kr Kd M O U A L D C]. constructor; try done.
  - intros i a Ha. change ((member_row (dp_id item) ms <$> g_accounts d) !! i = Some a) in Ha. rewrite lookup_fmap in Ha.
    apply fmap_Some in Ha as (b & Hb & ->). rewrite (proj1 (member_row_fields _ _ _)). by apply Ka.
  - intros k a i Ha Hi. change ((member_row (dp_id item) ms <$> g_accounts d) !! k = Some a) in Ha. rewrite lookup_fmap in Ha.
    apply fmap_Some in Ha as (b & Hb & ->). destruct (member_row_fields (dp_id item) ms b) as (_ & -> & _ & _ & Hd).
    destruct (Hd i Hi) as [Hi'|[-> Hin']]; [by apply (M k b)|]. exists item. split; [done|]. split; [|done].
    apply Hms in Hin' as (_ & c & Hc & He & Hco). apply (elem_of_rows ac_id) in Hc; [|done]. rewrite <- (Ka k b Hb), <- He in Hb.
    rewrite Hc in Hb. injection Hb as <-. done.
  - intros k a o Ha Ho. change ((member_row (dp_id item) ms <$> g_accounts d) !! k = Some a) in Ha. rewrite lookup_fmap in Ha.
    apply fmap_Some in Ha as (b & Hb & ->). destruct (member_row_fields (dp_id item) ms b) as (_ & -> & _ & He & _). rewrite He in Ho. by apply (O k b).
  - intros k a n Ha Hn. change ((member_row (dp_id item) ms <$> g_accounts d) !! k = Some a) in Ha. rewrite lookup_fmap in Ha.
    apply fmap_Some in Ha as (b & Hb & ->). destruct (member_row_fields (dp_id item) ms b) as (_ & -> & He & _). rewrite He in Hn. by apply (U k b).
Qed.
End Consistency.

(** ** Renaming *)

(** The two names exchanged *)
Definition exchange (x y n : pystr) : pystr := if bool_decide (n = x) then y else if bool_decide (n = y) then x else n.

Lemma exchange_injective x y : Inj (=) (=) (exchange x y).
Proof. intros n m. unfold exchange. repeat case_bool_decide; congruence. Qed.
Lemma exchange_other x y n : n <> x -> n <> y -> exchange x y n = n.
Proof. intros Hx Hy. unfold exchange. by rewrite !bool_decide_false. Qed.
Lemma exchange_first x y : exchange x y x = y.
Proof. unfold exchange. by rewrite bool_decide_true. Qed.

Lemma omap_step {A B} (f : A -> option B) x l : omap f (x :: l) = match f x with Some y => y :: omap f l | None => omap f l end.
Proof. done. Qed.

Section Rename.
Variables (d : orgdb) (item x : department).
Hypotheses (Hok : org_ok d) (Hu : proper_update d item x).
(** nothing but the name changed *)
Hypothesis Hx : x = mkDepartment (dp_id item) (dp_company_domain item) (dp_name x) (dp_active item) (dp_review_required item) (dp_auto_publish_by item).

#[local] Abbreviation ρ := (exchange (dp_name item) (dp_name x)).
#[local] Abbreviation d' := (after_update item x d).

Lemma relabel_item : relabel ρ item = x.
Proof. rewrite Hx at 2. unfold relabel. by rewrite exchange_first. Qed.

Lemma other_name y : y ∈ g_departments d -> dp_company_domain y = dp_company_domain item -> dp_id y <> dp_id item -> ρ (dp_name y) = dp_name y.
Proof.
  intros Hy Hc Hne. apply exchange_other.
  - intros He. apply Hne, (og_names d Hok); [done|apply Hu|done|done].
  - by apply (pu_apart _ _ _ Hu).
Qed.

Lemma relabel_other y : y ∈ g_departments d -> dp_company_domain y = dp_company_domain item -> dp_id y <> dp_id item -> relabel ρ y = y.
Proof. intros Hy Hc Hne. unfold relabel. rewrite other_name by done. by destruct y. Qed.

Lemma named_renamed n : named d (dp_company_domain item) n -> (if bool_decide (n = dp_name item) then dp_name x else n) = ρ n.
Proof.
  intros (y & Hy & Hc & <-). destruct (decide (dp_id y = dp_id item)) as [He|He].
  - apply (item_only d item x Hok Hu) in He as ->; [|done]. by rewrite exchange_first, bool_decide_true.
  - rewrite other_name by done. rewrite bool_decide_false; [done|]. intros Hn. apply He, (og_names d Hok); [done|apply Hu|done|done].
Qed.

Lemma find_updated i : known d (dp_company_domain item) i ->
  department_by_id (g_auth d') i = relabel ρ <$> department_by_id (g_auth d) i.
Proof.
  intros (y & Hy & Hc & Hi). unfold department_by_id.
  change (t_depts (g_auth d')) with (rewritten x (g_departments d)). change (t_depts (g_auth d)) with (g_departments d).
  assert (Hfind : List.find (fun z => Z.eqb (dp_id z) i) (g_departments d) = Some y).
  { destruct (List.find _ _) as [z|] eqn:Hf.
    - apply find_some in Hf as [Hz He%Z.eqb_eq]. apply list_elem_of_In in Hz. f_equal. apply (unique_department d); [done..|congruence].
    - eapply find_none in Hf; [|by apply list_elem_of_In]. cbn in Hf. by rewrite Hi, Z.eqb_refl in Hf. }
  rewrite Hfind. cbn. unfold rewritten.
  assert (Hf2 : List.find (fun z => Z.eqb (dp_id z) i) (map (fun y => if Z.eqb (dp_id y) (dp_id x) then x else y) (g_departments d))
                = Some (if Z.eqb (dp_id y) (dp_id x) then x else y)).
  { rewrite find_map. rewrite (find_ext_in _ (fun z => Z.eqb (dp_id z) i)); [by rewrite Hfind|].
    intros z _. destruct (Z.eqb_spec (dp_id z) (dp_id x)) as [Hz|]; [by rewrite Hz|done]. }
  rewrite Hf2. f_equal. rewrite (pu_id _ _ _ Hu). destruct (Z.eqb_spec (dp_id y) (dp_id item)) as [He|He].
  - apply (item_only d item x Hok Hu) in He as ->; [|done]. by rewrite relabel_item.
  - by rewrite relabel_other.
Qed.

Lemma omap_updated (l : list uuid) : (forall i, i ∈ l -> known d (dp_company_domain item) i) ->
  omap (department_by_id (g_auth d')) l = map (relabel ρ) (omap (department_by_id (g_auth d)) l).
Proof.
  induction l as [|i l IH]; intros Hl; [done|]. rewrite !omap_step. rewrite find_updated by (apply Hl; by left).
  rewrite IH by (intros j Hj; apply Hl; by right). by destruct (department_by_id (g_auth d) i).
Qed.

Lemma loaded_renamed k a : g_accounts d !! k = Some a -> ac_company_domain a = dp_company_domain item ->
  loaded (g_auth d') (renamed_account (dp_company_domain item) (dp_name item) (dp_name x) a) = relabel_user ρ (loaded (g_auth d) a).
Proof.
  intros Ha Hc. set (b := renamed_account _ _ _ a).
  assert (Hb : b = a <| ac_dept := ρ <$> ac_dept a |>).
  { unfold b, renamed_account. rewrite Hc, String.eqb_refl. cbn [andb]. destruct (ac_dept a) as [n|] eqn:Hn.
    - pose proof (og_user_dept d Hok k a n Ha Hn) as Hnam. rewrite Hc in Hnam. apply named_renamed in Hnam. cbn [fmap option_fmap option_map]. rewrite <- Hnam.
      destruct (decide (n = dp_name item)) as [->|Hne].
      + by rewrite !bool_decide_true.
      + rewrite !bool_decide_false by congruence. destruct a; cbn in *. by rewrite Hn.
    - rewrite bool_decide_false by done. destruct a; cbn in *. by rewrite Hn. }
  rewrite Hb. unfold loaded, relabel_user. cbn [ac_id ac_email ac_name ac_company_domain ac_dept ac_role ac_active ac_department_ids ac_ownerships ac_role_ids
    u_id u_email u_name u_company_domain u_dept u_role u_active u_departments u_department_ownerships u_roles].
  f_equal.
  - change (ac_department_ids (a <| ac_dept := ρ <$> ac_dept a |>)) with (ac_department_ids a). apply omap_updated.
    intros i Hi. rewrite <- Hc. by apply (og_members d Hok k a).
  - change (ac_ownerships (a <| ac_dept := ρ <$> ac_dept a |>)) with (ac_ownerships a).
    assert (Ho : forall o, o ∈ ac_ownerships a -> known d (dp_company_domain item) o.1) by (intros o Ho; rewrite <- Hc; by apply (og_owners d Hok k a)).
    induction (ac_ownerships a) as [|o l IH]; [done|]. rewrite !omap_step. cbv beta. rewrite find_updated by (apply Ho; by left).
    rewrite IH by (intros o' Ho'; apply Ho; by right). by destruct (department_by_id (g_auth d) o.1).
Qed.

Lemma linked_renamed i r : g_articles d !! i = Some r -> a_company_domain r = dp_company_domain item ->
  linked_departments d' i = map (relabel ρ) (linked_departments d i).
Proof.
  intros Hr Hc. unfold linked_departments. destruct (after_update_tables item x d) as (_ & _ & _ & -> & _).
  assert (Hl : forall l, l ∈ g_links d -> l.1 = i -> known d (dp_company_domain item) l.2)
    by (intros l Hl <-; rewrite <- Hc; by apply (og_links d Hok l r)).
  induction (g_links d) as [|l ls IH]; [done|]. rewrite !omap_step. cbv beta. destruct (Z.eqb_spec l.1 i) as [He|He].
  - rewrite find_updated by (apply Hl; [by left|done]). rewrite IH by (intros l' Hl'; apply Hl; by right). by destruct (department_by_id (g_auth d) l.2).
  - apply IH. intros l' Hl'. apply Hl. by right.
Qed.

Lemma article_renamed i r : g_articles d !! i = Some r -> a_company_domain r = dp_company_domain item -> a_status r <> "deleted" ->
  article_of d' (renamed_article (dp_company_domain item) (dp_name item) (dp_name x) r) = relabel_article ρ (article_of d r).
Proof.
  intros Hr Hc Hs. set (b := renamed_article _ _ _ r).
  assert (Hb : b = r <| a_dept := ρ (a_dept r) |>).
  { unfold b, renamed_article. rewrite Hc, String.eqb_refl. cbn [andb]. pose proof (og_article_dept d Hok i r Hr Hs) as Hn. rewrite Hc in Hn.
    apply named_renamed in Hn. rewrite <- Hn. case_bool_decide; [done|]. by destruct r. }
  rewrite Hb. unfold article_of, relabel_article. change (a_id (r <| a_dept := ρ (a_dept r) |>)) with (a_id r).
  rewrite (og_articles d Hok i r Hr). rewrite (linked_renamed i r Hr Hc). done.
Qed.

Lemma active_renamed i r : g_articles d !! i = Some r -> a_company_domain r = dp_company_domain item -> a_status r <> "deleted" ->
  sql_active_department (g_departments d') (relabel_article ρ (article_of d r)) = sql_active_department (g_departments d) (article_of d r).
Proof.
  intros Hr Hc Hs. unfold sql_active_department.
  change (a_company_domain (relabel_article ρ (article_of d r))) with (a_company_domain r). change (a_company_domain (article_of d r)) with (a_company_domain r).
  change (a_dept (relabel_article ρ (article_of d r))) with (ρ (a_dept r)). change (a_dept (article_of d r)) with (a_dept r).
  change (g_departments d') with (rewritten x (g_departments d)). unfold rewritten.
  assert (Hall : forall y, y ∈ g_departments d -> y ∈ g_departments d) by done. revert Hall. generalize (g_departments d) at 1 3 4.
  induction l as [|y l IH]; intros Hall; [done|]. cbn. rewrite IH by (intros z Hz; apply Hall; by right). f_equal.
  assert (Hy : y ∈ g_departments d) by (apply Hall; by left). rewrite (pu_id _ _ _ Hu).
  assert (Hinj : forall n m, bool_decide (ρ n = ρ m) = bool_decide (n = m))
    by (intros n m; apply bool_decide_ext; split; [apply exchange_injective|congruence]).
  destruct (String.eqb_spec (dp_company_domain y) (a_company_domain r)) as [Hco|Hco].
  - assert (Hy' : (if Z.eqb (dp_id y) (dp_id item) then x else y) = relabel ρ y).
    { destruct (Z.eqb_spec (dp_id y) (dp_id item)) as [He|He].
      - apply (item_only d item x Hok Hu) in He as ->; [|done]. by rewrite relabel_item.
      - rewrite relabel_other; [done..|congruence|done]. }
    rewrite Hy'. cbn [dp_company_domain dp_name dp_active relabel]. by rewrite Hinj, (proj2 (String.eqb_eq _ _) Hco).
  - destruct (Z.eqb_spec (dp_id y) (dp_id item)) as [He|He].
    + apply (item_only d item x Hok Hu) in He as ->; [|done]. congruence.
    + by rewrite (proj2 (String.eqb_neq _ _) Hco).
Qed.

(** Who may read what is the same after the rename. *)
Lemma reading_unchanged k a i r : g_accounts d !! k = Some a -> g_articles d !! i = Some r ->
  ac_company_domain a = dp_company_domain item -> a_company_domain r = dp_company_domain item ->
  let a' := renamed_account (dp_company_domain item) (dp_name item) (dp_name x) a in
  let r' := renamed_article (dp_company_domain item) (dp_name item) (dp_name x) r in
  can_view_article (loaded (g_auth d') a') (article_of d' r') = can_view_article (loaded (g_auth d) a) (article_of d r)
  /\ _authorized_article_filters (g_departments d') (loaded (g_auth d') a') (article_of d' r')
     = _authorized_article_filters (g_departments d) (loaded (g_auth d) a) (article_of d r).
Proof.
  intros Ha Hr Hca Hcr a' r'.
  assert (Hblank : ρ [] = []).
  { apply exchange_other; [intros He; by apply (og_blank d Hok item); [apply Hu|]|intros He; by apply (pu_blank _ _ _ Hu)]. }
  destruct (decide (a_status r = "deleted")) as [Hs|Hs].
  - assert (Hs' : a_status (article_of d' r') = "deleted").
    { change (a_status (article_of d' r')) with (a_status r'). unfold r'. by destruct (renamed_article_fields (dp_company_domain item) (dp_name item) (dp_name x) r) as (_ & _ & -> & _). }
    unfold can_view_article, _authorized_article_filters. rewrite Hs'. change (a_status (article_of d r)) with (a_status r). rewrite Hs.
    cbn [String.eqb Ascii.eqb Bool.eqb orb negb]. split; [done|]. by rewrite !andb_false_r.
  - unfold a', r'. rewrite (loaded_renamed k a Ha Hca), (article_renamed i r Hr Hcr Hs). split.
    + apply view_relabel; [apply exchange_injective|done].
    + apply filter_clause_relabel; [apply exchange_injective|done|]. by apply (active_renamed i).
Qed.
End Rename.

Section Theorems.
Context `{KbEnv}.
Hypothesis lower_agree : forall s, sql_lower s = py_lower s.
Implicit Types (u : account).

(** The four calls, with the id the database draws for a new department *)
Inductive department_call (d : orgdb) : forall A, ORG A -> account -> Prop :=
  | dc_create id payload u : id ∉ map dp_id (g_departments d) -> department_call d department (create_department id payload u) u
  | dc_update id payload u : department_call d department (update_department id payload u) u
  | dc_delete id u : department_call d uuid (delete_department id u) u
  | dc_members id ids u : department_call d (uuid * list uuid) (replace_department_members id ids u) u.

Lemma atomic_department_call d A (m : ORG A) u : department_call d A m u -> atomic m.
Proof.
  intros []; [unfold create_department|unfold update_department, rename_department, review_policy|unfold delete_department|unfold replace_department_members];
    unfold _department_for_management, put_texts, update_texts, put_department, record_department; cbv zeta; solve_atomic.
Qed.



(** Letting a department publish without review takes an Admin or a CEO, and records who. *)
Theorem waiving_review_needs_standing d id payload u (x : department) s' :
  update_department id payload u (open_session d) = (Return x, s') -> dp_review_required x = false ->
  exists item : department, item ∈ g_departments d /\ dp_id item = id /\ dp_company_domain item = ac_company_domain u
    /\ (dp_review_required item = false /\ dp_auto_publish_by x = dp_auto_publish_by item
        \/ dp_auto_publish_by x = Some (ac_id u) /\ _may_waive_review (loaded (g_auth d) u) = true).
Proof.
  intros (item & T & A & Hin & Hid & Hcu & _ & _ & _ & _ & Hpol & _)%update_effect Hrev.
  exists item. split_and!; try done. destruct Hpol as [[Hp Ha]|(_ & [[? _]|(_ & ? & ?)])]; [left; split; congruence|congruence|by right].
Qed.
End Theorems.

(** ** A concrete company *)

#[local] Existing Instance demo_env.

Definition legal : department := mkDepartment 7 "kb.example" ($"Legal") true true None.
Definition finance : department := mkDepartment 8 "kb.example" ($"Finance") true true None.
Definition director : account :=
  mkAccount 1 ($"dana@kb.example") ($"Dana") ($"pw") "kb.example" None "CEO" true 0 [] [] [].
Definition counsel : account :=
  mkAccount 2 ($"lou@kb.example") ($"Lou") ($"pw") "kb.example" (Some ($"Legal")) "Staff" true 0 [7] [(7, true)] [].
Definition contract_guide : article :=
  (sample_article 20 "kb.example" None) <| a_dept := $"Legal" |> <| a_departments := [] |>.
(** A draft as [_make_draft] leaves it: the department is in the column and in the metadata. *)
Definition waiting_draft : pending_draft :=
  sample_draft <| d_id := 30 |> <| d_company_domain := "kb.example" |> <| d_dept := Some ($"Legal") |>
    <| d_content_metadata := (empty_metadata <| md_dept := Some ($"Legal") |>) |>.

Definition org : orgdb :=
  mkOrgDb (mkAuthDb {[1 := director; 2 := counsel]} [] [] [legal; finance] ∅ ∅ ∅ ∅ [] [] []) ∅
    {[20 := contract_guide]} [(20, 7)] [mkChunkRow 1 20 ($"Legal")] {[30 := waiting_draft]} [] [mkFlag "beta" true (Some ($"Legal"))]
    [mkRule "kb.example" ($"Legal") 2 true] [] [].

Lemma org_accounts k a : g_accounts org !! k = Some a -> k = 1 /\ a = director \/ k = 2 /\ a = counsel.
Proof.
  change (g_accounts org) with ({[1 := director; 2 := counsel]} : gmap uuid account).
  intros [[<- <-]|[_ [<- <-]%lookup_singleton_Some]]%lookup_insert_Some; [by left|by right].
Qed.
Lemma org_articles k a : g_articles org !! k = Some a -> k = 20 /\ a = contract_guide.
Proof. change (g_articles org) with ({[20 := contract_guide]} : gmap uuid article). by intros [<- <-]%lookup_singleton_Some. Qed.
Lemma org_drafts k x : g_drafts org !! k = Some x -> k = 30 /\ x = waiting_draft.
Proof. change (g_drafts org) with ({[30 := waiting_draft]} : gmap uuid pending_draft). by intros [<- <-]%lookup_singleton_Some. Qed.

Lemma org_consistent : org_ok org.
Proof.
  assert (Hlegal : known org "kb.example" 7) by (exists legal; split; [left|split; reflexivity]).
  assert (Hname : named org "kb.example" ($"Legal")) by (exists legal; split; [left|split; reflexivity]).
  constructor.
  - change (NoDup [7; 8]). apply (bool_decide_unpack _). reflexivity.
  - intros x y [->|[->|[]%elem_of_nil]%elem_of_cons]%elem_of_cons [->|[->|[]%elem_of_nil]%elem_of_cons]%elem_of_cons _ Hn; try reflexivity; discriminate Hn.
  - intros x [->|[->|[]%elem_of_nil]%elem_of_cons]%elem_of_cons; discriminate.
  - intros k a [[-> ->]|[-> ->]]%org_accounts; reflexivity.
  - intros k a [-> ->]%org_articles. reflexivity.
  - intros k a [-> ->]%org_drafts. reflexivity.
  - intros k a i [[-> ->]|[-> ->]]%org_accounts; [by intros ?%elem_of_nil|]. by intros ->%list_elem_of_singleton.
  - intros k a o [[-> ->]|[-> ->]]%org_accounts; [by intros ?%elem_of_nil|]. by intros ->%list_elem_of_singleton.
  - intros k a n [[-> ->]|[-> ->]]%org_accounts Hn; [discriminate Hn|]. by injection Hn as <-.
  - intros k a [-> ->]%org_articles _. exact Hname.
  - intros l a ->%list_elem_of_singleton [_ ->]%org_articles. exact Hlegal.
  - intros k x n [-> ->]%org_drafts _ Hn. by injection Hn as <-.
  - intros c a ->%list_elem_of_singleton [_ ->]%org_articles. reflexivity.
Qed.

Lemma org_run {A} (m : ORG A) d : match (m (open_session d)).1 with Return _ => true | Raise _ => false end = true ->
  exists a s', m (open_session d) = (Return a, s').
Proof. destruct (m (open_session d)) as [[a|e] s']; [|done]. intros _. by exists a, s'. Qed.

Definition rename_to (n : pystr) : department_update := mkDepartmentUpdate (Some n) None None None None.
Definition legal_renamed := update_department 7 (rename_to ($"Law")) director.



Definition waive : department_update := mkDepartmentUpdate None None None None (Some false).

Lemma waiving_review_needs_standing_witness : exists x s',
  update_department 7 waive director (open_session org) = (Return x, s') /\ dp_auto_publish_by x = Some 1.
Proof.
  destruct (org_run (update_department 7 waive director) org) as (x & s' & Hr); [vm_compute; reflexivity|].
  assert (Hp : match (update_department 7 waive director (open_session org)).1 with Return y => dp_review_required y = false | Raise _ => False end)
    by (vm_compute; reflexivity). rewrite Hr in Hp.
  exists x, s'. split; [exact Hr|].
  destruct (waiving_review_needs_standing org 7 waive director x s' Hr Hp) as (y & Hy & Hid & _ & [[Hw _]|[Ha _]]); [exfalso|exact Ha].
  apply elem_of_cons in Hy as [->|[->|[]%elem_of_nil]%elem_of_cons]; discriminate Hw.
Defined.

(** What approval sees of the company *)
Definition as_kb (d : orgdb) : kbdb :=
  empty_db <| t_departments := g_departments d |> <| t_drafts := g_drafts d |> <| t_rules := g_rules d |>
    <| t_users := map (loaded (g_auth d)) (rows (g_accounts d)) |>.
Definition approval_of (d : orgdb) : outcome article :=
  (approve_draft 300 77 (loaded (g_auth d) director) 30 plain_request (open_session (as_kb d))).1.

(** The metadata of a waiting draft keeps the old name: a draft that could be approved before
    the rename no longer can without naming the department by hand. *)
Example rename_strands_waiting_drafts :
  match approval_of org with Return _ => True | Raise _ => False end
  /\ approval_of (committed (legal_renamed (open_session org)).2)
     = Raise (HTTPException 422 "Department does not exist or is inactive").
Proof. split; vm_compute; [exact I|reflexivity]. Qed.

(** The approver rules keep the old name too, so the department loses its approver. *)
Example rename_loses_approver_rule :
  let d' := committed (legal_renamed (open_session org)).2 in
  ru_approver_id <$> get_approver_rule (as_kb org) "kb.example" (Some ($"Legal")) = Some 2
  /\ get_approver_rule (as_kb d') "kb.example" (Some ($"Law")) = None.
Proof. split; vm_compute; reflexivity. Qed.

(** The flags have no company: a company that renames its Legal takes the flag of another's. *)
Definition other_legal : department := mkDepartment 17 "other.example" ($"Legal") true true None.
Definition other_director : account :=
  mkAccount 11 ($"max@other.example") ($"Max") ($"pw") "other.example" None "CEO" true 0 [] [] [].
Example rename_moves_foreign_flags :
  let d := with_departments (g_departments org ++ [other_legal]) (with_accounts (<[11 := other_director]> (g_accounts org)) org) in
  let d' := committed (update_department 17 (rename_to ($"Rights")) other_director (open_session d)).2 in
  map ff_department (g_flags d) = [Some ($"Legal")] /\ map ff_department (g_flags d') = [Some ($"Rights")]
  /\ dp_name <$> department_by_id (g_auth d') 7 = Some ($"Legal").
Proof. vm_compute. split_and!; reflexivity. Qed.

(** Replacing the members may leave an owner who is not a member. *)
Example owner_left_out :
  let d' := committed (replace_department_members 7 [1] director (open_session org)).2 in
  (fun a => (ac_department_ids a, ac_ownerships a)) <$> g_accounts d' !! 2 = Some ([], [(7, true)]).
Proof. vm_compute. reflexivity. Qed.

(** A department in use is not deleted. *)
Example used_department_stays :
  (delete_department 7 director (open_session org)).1 = Raise (HTTPException 409 "Department is still in use")
  /\ (delete_department 8 director (open_session org)).1 = Return 8.
Proof. split; vm_compute; reflexivity. Qed.
